(* ===== verification/_CoqProject ===== *)
-Q . S2P
Prelude.v
GoString.v
Regexp.v
GoCache.v
GoSort.v
GoFloat.v
Effects.v
Cloud.v
Conditions.v
OSDisk.v
Unavailable.v
Zones.v
ErrorHandlers.v
Quota.v
Recommendation.v
Allocation.v
AKSMachine.v
ResourceIDs.v
VirtualMachines.v
Network.v
Poller.v
MachineCache.v
Batcher.v
HeaderBatch.v
NodeVersions.v
Reservation.v
GarbageCollection.v
VMInstance.v
Options.v
InPlaceUpdate.v
Drift.v
CloudProvider.v
Resources.v
Pricing.v
NodeClassSpec.v
Wire.v
InstanceTypes.v
ImageFamily.v
Labels.v
MachineTemplate.v
Bootstrap.v
LaunchTemplate.v
MachineProvider.v
NodeClassStatus.v
NodeClassLifecycle.v
QuotaController.v
KubernetesVersions.v
ZoneNormalization.v
