(* ===== verification/Prelude.v ===== *)
(** * Karpenter provider for Azure: verification development

    The repository is the Azure provider of Karpenter: it turns NodeClaims
    into virtual machines (directly, or through the AKS machine API), decides
    which size, zone and capacity type to launch, remembers what Azure
    refused, watches quota, and keeps the versions a NodeClass resolves to.
    This development models the provider's own decision logic and the state it
    keeps, in Rocq, and proves what makes each part correct.  Paths below are
    relative to [pkg/] of the repository.

    ** Parts and files

    Shared ground.  [Prelude]: results, boolean tests, machine integers,
    loops that can panic, iteration over maps.  [GoString], [GoSort]: what is
    used of Go's [strings], [sort] and [math/rand].  [Regexp], [GoFloat]: its
    regular expressions and floating point, executable.  [GoCache]: go-cache,
    an interface with laws and one implementation.  [Effects]: programs that
    call other parties, their runs and what holds of every run; the launch
    paths and the controllers are such programs.  [Conditions]: status
    conditions, an interface.  [Cloud]: the records read from Karpenter core
    and skewer.

    Launch decisions.
    - [Unavailable] ([cache/unavailableofferings.go]): the two caches of
      refused offerings, one function per method, the clock explicit.
    - [Zones], [ZoneNormalization] ([utils/zones], [providers/zone]): zone
      labels, the lazily loading zone provider, the CSI drivers' labels.
    - [ErrorHandlers] ([providers/instance/offerings]): each handler, the
      dispatch tables of virtual machines, AKS machines and creation errors.
      The handlers write into [Unavailable] and use [Zones].
    - [Quota] ([providers/quota/quota.go]): the usage snapshot, local
      adjustments and tombstones; a refresh is three steps with any other
      operation in between.  [QuotaController] ([controllers/quota]) runs it.
    - [Recommendation] ([providers/capacityrecommendation]): the placement
      request, the order of the answers, the cache.
    - [Allocation] ([providers/allocationstrategy]): filter, rank, consult
      [Recommendation], pick.

    AKS machines.
    - [AKSMachine] ([utils/machine], [utils/utils.go],
      [providers/instance/aksmachineinstanceutils.go]): machines, names,
      provisioning states, NodeClaims built from machines.
    - [Poller] ([providers/instance/aksmachinepoller]) and [MachineCache]
      ([providers/instance/machinecache]): waiting for a machine, and the
      cache refreshed by a background worker.
    - [Batcher] ([utils/batcher]) and [HeaderBatch]
      ([providers/azclient/aksmachinesheaderbatch]): collecting creations and
      sending them as one call; [HeaderBatch.executeBatch] is the executor
      [Batcher] runs.

    Node classes.
    - [NodeClassSpec] ([apis/v1beta1]): settings of a NodeClass and what
      they give by default.
    - [NodeVersions] ([controllers/nodeclass/status]): Kubernetes version,
      node images, pins, the maintenance window; [KubernetesVersions]
      ([providers/kubernetesversion]): where the versions come from.
    - [Reservation] (the same directory): capacity reservation groups, whose
      changes make [Unavailable] forget.
    - [NodeClassStatus] (the same directory): validation, LocalDNS, subnets,
      and the controller that runs all six reconcilers, of this file,
      [NodeVersions] and [Reservation].
    - [NodeClassLifecycle] ([controllers/nodeclass/hash], [termination]).

    Instance types and images.
    - [Resources], [OSDisk], [Pricing] ([providers/instancetype],
      [providers/pricing]): what a node of a size has and costs.
    - [InstanceTypes] ([providers/instancetype/instancetypes.go]): the list of
      instance types and its cache, from [Resources], [Pricing], [Quota],
      [Unavailable] and [Reservation].
    - [ImageFamily] ([providers/imagefamily]): image families, the listing of
      node images, the image of a launch.

    What a node is created with.
    - [Labels] ([providers/labels]), [Bootstrap] and [Wire]
      ([providers/imagefamily/bootstrap], [customscriptsbootstrap]): labels,
      taints, kubelet configuration and flags.
    - [LaunchTemplate] ([providers/launchtemplate]) for virtual machines,
      [MachineTemplate] ([providers/instance/aksmachineinstancehelpers.go])
      for AKS machines; both take their labels from [Labels] and their image
      from [ImageFamily].

    Launching.
    - [VirtualMachines], [Network], [ResourceIDs]: the objects sent to Azure,
      load balancers and security groups, resource IDs.
    - [VMInstance] ([providers/instance/vminstance.go]) and [MachineProvider]
      ([aksmachineinstance.go]): the two ways to launch, update and delete.
    - [CloudProvider] ([cloudprovider/cloudprovider.go]): what Karpenter calls;
      it runs the programs of [VMInstance].
    - [Drift] ([cloudprovider/drift.go]), [InPlaceUpdate] and
      [GarbageCollection] ([controllers/nodeclaim]): what becomes of instances
      afterwards.
    - [Options] ([operator/options]): the operator's settings and their
      validation.

    ** How the code is read

    A struct is a record, a pointer an option, an enumeration an inductive
    type; a method takes and returns its receiver's state.  What the code does
    under one lock is one step; where it releases the lock, or where
    goroutines interleave, the parts are separate steps of an inductive
    relation and the theorems quantify over every run ([Quota], [Batcher],
    [MachineCache]).  [None] as the result of a whole operation is a run-time
    panic; errors are values.  Fixed-width integers wrap ([Prelude.i64],
    [Prelude.u64]); prices are finite doubles, given as multiples of the
    smallest positive one since only their order matters.  Strings are byte
    strings and case folding is that of ASCII.  The clock is an argument.
    Unspecified choices (map iteration, unstable sort, shuffling, which
    goroutine is first) are instances of the classes [GoRange], [GoSort],
    [GoShuffle], [GoArrival], and theorems hold for all of them.

    Code outside the repository is a parameter: the Azure and Kubernetes
    APIs, the recognisers of [azure-sdk-for-go-extensions], JSON, time and
    hash encodings, [operatorpkg] conditions, semantic versions.  A theorem
    that relies on such code states it as a hypothesis or a class of laws,
    and its witness instantiates them.

    ** What the theorems show

    - What is marked unavailable is exactly what blocks, for as long as it
      should, and only in its scope; every change of an answer moves the
      sequence number ([Unavailable]).  A launch error always blocks the
      attempt it came from, and contained failures stay contained
      ([ErrorHandlers]).
    - Quota accounting is exact in every reachable state and survives
      refreshes ([Quota]), and launches are judged by fresh data
      ([QuotaController]).
    - The allocated offering is the best candidate, follows the advice when
      there is any, and advice that fails never blocks a launch
      ([Allocation], [Recommendation]).
    - Names and labels round-trip and fit their limits ([Zones],
      [AKSMachine]).
    - Pollers report what machines said within their retry budget; cached
      machines are recent; every batched request is answered exactly once and
      batching changes neither what is created nor who is told what
      ([Poller], [MachineCache], [Batcher], [HeaderBatch]).
    - Versions move only when they may ([NodeVersions]); a NodeClass that
      validates asks for nothing the operator's mode cannot launch, and
      LocalDNS is resolved as documented and does not flap
      ([NodeClassStatus]); a new way of hashing drifts no NodeClaim, and a
      NodeClass goes only after its NodeClaims ([NodeClassLifecycle]).
    - A launch starts at most one instance, for a ready NodeClass, with the
      offering that was chosen; when it fails, what it started is cleaned up
      and the quota is as before ([VMInstance], [MachineProvider],
      [CloudProvider]).
    - The instance runs an image of its class that fits its type, its node
      comes up with the labels, taints and reserves the scheduler assumed, and
      what is read back agrees with what was asked for ([ImageFamily],
      [LaunchTemplate], [MachineTemplate], [Bootstrap], [VirtualMachines]).
    - Cached instance types are what an uncached build would give, are well
      formed, and listing them never panics ([InstanceTypes]); prices are
      Azure's or the static ones ([Pricing]).
    - Drift has a cause, an update is recorded only once it took, and only
      instances that nobody claims are collected ([Drift], [InPlaceUpdate],
      [GarbageCollection]).

    Definitions are structurally recursive or given by a list of events, with
    two exceptions.  [Pricing.get_pages] follows links of the price list with
    fuel: any fuel above the number of linked pages gives the result, and there
    is such fuel exactly when the links do not go round
    ([get_pages_enough], [price_query_terminates]).
    [CloudProvider.waitUntilLaunched] polls until its caller's context ends:
    its fuel bounds the number of polls, its result says whether it was used
    up, and [failed_launch_followed_up] gives the fuel that is enough for a
    given run.

    ** Not modelled

    Logging, metrics, tracing and JSON dumps; generated code (deep copies,
    price and SKU tables, mocks); the fakes and tests; authentication, client
    construction and the operator's start-up; the provisioning client's
    generated models.  The older API version [v1alpha2] has only
    declarations.  The instance type controller only calls
    [InstanceTypes.UpdateInstanceTypes] at intervals; registrations, watches
    and rate limits of the controllers are the library's.  Flag parsing and
    default values of the options, the waiting of one caller of a batch for
    its answer, and texts of errors and events are left out: no property here
    depends on them.  What other code does to the same objects in Azure is
    covered only where the answers of its calls are arbitrary. *)

From stdpp Require Export base gmap strings list fin_maps pretty.
From Stdlib Require Export ZArith Lia Ascii.

#[global] Open Scope Z_scope.

(** ** Notations *)

Declare Scope go_scope.
Delimit Scope go_scope with go.

(** Go's [==] on comparable values. *)
Notation "x ==? y" := (bool_decide (x = y))
  (at level 70, no associativity) : go_scope.
Notation "x !=? y" := (negb (bool_decide (x = y)))
  (at level 70, no associativity) : go_scope.
#[global] Open Scope go_scope.

(** ** Fallible code: Go's [(value, error)] results *)

Inductive result (E A : Type) : Type :=
| Ok (a : A)
| Err (e : E).
Arguments Ok {E A} a.
Arguments Err {E A} e.

#[export] Instance result_ret E : MRet (result E) := fun A a => Ok a.
#[export] Instance result_bind E : MBind (result E) := fun A B k m =>
  match m with Ok a => k a | Err e => Err e end.
#[export] Instance result_fmap E : FMap (result E) := fun A B f m =>
  match m with Ok a => Ok (f a) | Err e => Err e end.

Definition is_ok {E A} (m : result E A) : bool :=
  match m with Ok _ => true | Err _ => false end.

Lemma bind_ok {E A B} (m : result E A) (k : A -> result E B) b :
  m ≫= k = Ok b <-> exists a, m = Ok a /\ k a = Ok b.
Proof. destruct m; naive_solver. Qed.

Lemma bind_err {E A B} (m : result E A) (k : A -> result E B) e :
  m ≫= k = Err e <-> m = Err e \/ exists a, m = Ok a /\ k a = Err e.
Proof. destruct m; naive_solver. Qed.

Lemma is_ok_true {E A} (m : result E A) : is_ok m = true <-> exists a, m = Ok a.
Proof. destruct m; simpl; naive_solver. Qed.

(** [lo.FromPtr]: the pointee, or the zero value of the type. *)
Definition from_ptr {A} (zero : A) (p : option A) : A := default zero p.

(** ** Boolean tests *)

Lemma neqb_true {A} `{EqDecision A} (x y : A) : (x !=? y) = true <-> x <> y.
Proof. rewrite negb_true_iff. apply bool_decide_eq_false. Qed.

Lemma neqb_false {A} `{EqDecision A} (x y : A) : (x !=? y) = false <-> x = y.
Proof. rewrite negb_false_iff. apply bool_decide_eq_true. Qed.

Create Rewrite HintDb go_bool.
#[export] Hint Rewrite @neqb_true @neqb_false bool_decide_eq_true
  bool_decide_eq_false andb_true_iff andb_false_iff orb_true_iff
  orb_false_iff : go_bool.

(** Turn the boolean tests of the context and the goal into propositions. *)
Ltac go_bool := autorewrite with go_bool in *.

(** ** Machine integers *)

Definition wrap_s (w : Z) (x : Z) : Z :=
  (x + 2 ^ (w - 1)) mod 2 ^ w - 2 ^ (w - 1).
Definition wrap_u (w : Z) (x : Z) : Z := x mod 2 ^ w.

(** [int64], [int32] and [uint64] arithmetic: every result is wrapped. *)
Definition i64 (x : Z) : Z := wrap_s 64 x.
Definition i32 (x : Z) : Z := wrap_s 32 x.
Definition u64 (x : Z) : Z := wrap_u 64 x.

Definition int64_ok (x : Z) : Prop := - 2 ^ 63 <= x < 2 ^ 63.
Definition int32_ok (x : Z) : Prop := - 2 ^ 31 <= x < 2 ^ 31.

Lemma i64_id x : int64_ok x -> i64 x = x.
Proof.
  unfold int64_ok, i64, wrap_s. change (64 - 1) with 63.
  intros H. rewrite Z.mod_small; lia.
Qed.

Lemma i32_id x : int32_ok x -> i32 x = x.
Proof.
  unfold int32_ok, i32, wrap_s. change (32 - 1) with 31.
  intros H. rewrite Z.mod_small; lia.
Qed.

Lemma i64_range x : int64_ok (i64 x).
Proof.
  unfold int64_ok, i64, wrap_s. change (64 - 1) with 63.
  pose proof (Z.mod_pos_bound (x + 2 ^ 63) (2 ^ 64)). lia.
Qed.

Lemma i64_add_l x y : i64 (i64 x + y) = i64 (x + y).
Proof.
  unfold i64, wrap_s. change (64 - 1) with 63. f_equal.
  replace ((x + 2 ^ 63) mod 2 ^ 64 - 2 ^ 63 + y + 2 ^ 63)
    with ((x + 2 ^ 63) mod 2 ^ 64 + y) by lia.
  rewrite Zplus_mod_idemp_l. f_equal. lia.
Qed.

Lemma i64_add_r x y : i64 (x + i64 y) = i64 (x + y).
Proof. rewrite Z.add_comm, i64_add_l. f_equal. lia. Qed.

Lemma i64_sub_l x y : i64 (i64 x - y) = i64 (x - y).
Proof. rewrite <- !Z.add_opp_r. apply i64_add_l. Qed.

Lemma i64_idemp x : i64 (i64 x) = i64 x.
Proof. apply i64_id, i64_range. Qed.

Lemma i64_0 : i64 0 = 0.
Proof. reflexivity. Qed.

Lemma u64_range x : 0 <= u64 x < 2 ^ 64.
Proof. unfold u64, wrap_u. apply Z.mod_pos_bound. lia. Qed.

Lemma u64_id x : 0 <= x < 2 ^ 64 -> u64 x = x.
Proof. intros. unfold u64, wrap_u. by apply Z.mod_small. Qed.

(** A [uint64] counter that is incremented always changes. *)
Lemma u64_succ_ne x : 0 <= x < 2 ^ 64 -> u64 (x + 1) <> x.
Proof.
  intros H. unfold u64, wrap_u.
  destruct (decide (x + 1 = 2 ^ 64)) as [E|E].
  - rewrite E, Z_mod_same_full. lia.
  - rewrite Z.mod_small; lia.
Qed.

Create HintDb go_int.
Create Rewrite HintDb go_int_rw.
#[export] Hint Resolve i64_range u64_range : go_int.
#[export] Hint Rewrite i64_add_l i64_add_r i64_sub_l i64_idemp i64_0 : go_int_rw.

(** ** Time

    An instant is the number of nanoseconds since Go's zero [time.Time]; a
    [time.Duration] is a number of nanoseconds.  [Time.Sub] saturates at the
    [int64] bounds, which no comparison of the program with its constants can
    tell apart. *)

Definition Nanosecond : Z := 1.
Definition Second : Z := 1000000000 * Nanosecond.
Definition Minute : Z := 60 * Second.
Definition Hour : Z := 60 * Minute.
Definition zero_time : Z := 0.
Definition IsZero (t : Z) : bool := t ==? zero_time.

(** ** Pagers

    A paged listing is the sequence of the answers its pager will give; the
    loop [for pager.More() { page, err := pager.NextPage() ... }] reads them in
    order and gives up at the first error. *)

Fixpoint read_pages {E A} (pages : list (result E (list A))) : result E (list A) :=
  match pages with
  | [] => Ok []
  | Err e :: _ => Err e
  | Ok p :: ps => match read_pages ps with Ok l => Ok (p ++ l) | Err e => Err e end
  end.

(** ** Lists *)

(** [lo.Find]: the first element satisfying the predicate. *)
Fixpoint lo_find {A} (p : A -> bool) (l : list A) : option A :=
  match l with
  | [] => None
  | x :: l' => if p x then Some x else lo_find p l'
  end.

Lemma lo_find_some {A} (p : A -> bool) (l : list A) x :
  lo_find p l = Some x -> x ∈ l /\ p x = true.
Proof.
  induction l as [|y l IH]; simpl; [done|].
  destruct (p y) eqn:E; intros H; simplify_eq.
  - split; [left|done].
  - destruct (IH H). split; [by right|done].
Qed.

Lemma lo_find_none {A} (p : A -> bool) (l : list A) :
  lo_find p l = None <-> forall x, x ∈ l -> p x = false.
Proof.
  induction l as [|y l IH]; simpl.
  - split; [intros _ x Hx; by apply not_elem_of_nil in Hx|done].
  - destruct (p y) eqn:E; split.
    + done.
    + intros H. rewrite (H y) in E; [done|left].
    + intros H x [->|Hx]%elem_of_cons; [done|]. by apply IH.
    + intros H. apply IH. intros x Hx. apply H. by right.
Qed.

Lemma lookup_map {A B} (f : A -> B) (l : list A) i : map f l !! i = f <$> l !! i.
Proof. apply (list_lookup_fmap f). Qed.

Lemma elem_of_concat {A} (x : A) (ls : list (list A)) :
  x ∈ concat ls <-> exists l, x ∈ l /\ l ∈ ls.
Proof.
  rewrite list_elem_of_In, in_concat. split; intros (l & H1 & H2); exists l.
  - by rewrite !list_elem_of_In.
  - by rewrite <- !list_elem_of_In.
Qed.

(** ** Code that can panic

    [None] is a run-time panic.  [fold_panic] is a loop whose body can panic. *)

Fixpoint fold_panic {A B} (f : A -> B -> option A) (a : A) (l : list B) : option A :=
  match l with
  | [] => Some a
  | b :: l' => match f a b with Some a' => fold_panic f a' l' | None => None end
  end.

Lemma fold_panic_inv {A B} (f : A -> B -> option A) (P : A -> Prop) l a a' :
  (forall x b x', b ∈ l -> P x -> f x b = Some x' -> P x') ->
  P a -> fold_panic f a l = Some a' -> P a'.
Proof.
  revert a. induction l as [|b l IH]; simpl; intros a St Pa E; [by simplify_eq|].
  destruct (f a b) as [x|] eqn:Ef; [|done]. apply (IH x); [|by eapply St; [left|..]|done].
  intros y c y' Hc. apply St. by right.
Qed.

Lemma fold_panic_total {A B} (f : A -> B -> option A) l a :
  (forall x b, b ∈ l -> is_Some (f x b)) -> is_Some (fold_panic f a l).
Proof.
  revert a. induction l as [|b l IH]; simpl; intros a St; [by eexists|].
  destruct (St a b) as [x ->]; [left|]. apply IH. intros y c Hc. apply St. by right.
Qed.

Lemma fold_panic_app {A B} (f : A -> B -> option A) l1 l2 a :
  fold_panic f a (l1 ++ l2) =
  match fold_panic f a l1 with Some x => fold_panic f x l2 | None => None end.
Proof. revert a. induction l1 as [|b l1 IH]; simpl; intros a; [done|]. by destruct (f a b). Qed.

(** ** Map iteration

    Go iterates over a map in an unspecified order.  A model that ranges over
    a map takes the order as a parameter: any enumeration of the key set. *)

Class GoRange := {
  range_keys : gset string -> list string;
  range_keys_perm : forall s, range_keys s ≡ₚ elements s
}.

#[export, refine] Instance elements_range : GoRange := {| range_keys := elements |}.
Proof. done. Defined.

Lemma elem_of_range `{GoRange} k s : k ∈ range_keys s <-> k ∈ s.
Proof. by rewrite range_keys_perm, elem_of_elements. Qed.

(** ** Tactics *)

(** Case analysis on every boolean equality and [if] of the goal. *)
Ltac go_cases :=
  repeat (case_bool_decide || case_match); simplify_eq/=.

(** Arithmetic on durations. *)
Ltac go_dur := unfold Hour, Minute, Second, Nanosecond in *; lia.
