(* ===== verification/GoString.v ===== *)
(** * Go's [strings] package on byte strings

    The functions of Go's standard library the program uses on names, keys and
    identifiers.  A Go string is a sequence of bytes; [ToLower] and
    [EqualFold] are modelled on the ASCII range, the only one Azure resource
    names, regions and SKU names use. *)

From S2P Require Import Prelude.
From Stdlib Require Import Ascii String.
#[local] Open Scope string_scope.
#[local] Open Scope Z_scope.
#[local] Arguments String.append !_ _ / : simpl nomatch.

Definition ascii_to_lower (a : ascii) : ascii :=
  let n := nat_of_ascii a in
  if (Nat.leb 65 n && Nat.leb n 90)%bool then ascii_of_nat (n + 32) else a.

Fixpoint ToLower (s : string) : string :=
  match s with
  | EmptyString => EmptyString
  | String a s' => String (ascii_to_lower a) (ToLower s')
  end.

Definition EqualFold (s t : string) : bool := ToLower s ==? ToLower t.

Definition HasPrefix (s p : string) : bool := String.prefix p s.

Definition drop_str (n : nat) (s : string) : string :=
  String.substring n (String.length s - n) s.

Definition HasSuffix (s p : string) : bool :=
  Nat.leb (String.length p) (String.length s) &&
  (drop_str (String.length s - String.length p) s ==? p).

Definition TrimPrefix (s p : string) : string :=
  if HasPrefix s p then drop_str (String.length p) s else s.

Definition TrimSuffix (s p : string) : string :=
  if HasSuffix s p
  then String.substring 0 (String.length s - String.length p) s else s.

Fixpoint Contains (s sub : string) : bool :=
  String.prefix sub s ||
  match s with
  | EmptyString => false
  | String _ s' => Contains s' sub
  end.

(** [strings.Split] with a one-byte separator. *)
Fixpoint Split (s : string) (c : ascii) : list string :=
  match s with
  | EmptyString => [EmptyString]
  | String a s' =>
      if a ==? c then EmptyString :: Split s' c
      else match Split s' c with
           | [] => [String a EmptyString]
           | w :: ws => String a w :: ws
           end
  end.

Fixpoint Join (ws : list string) (sep : string) : string :=
  match ws with
  | [] => EmptyString
  | [w] => w
  | w :: ws' => w +:+ sep +:+ Join ws' sep
  end.

(** [strings.ReplaceAll] of one byte by another. *)
Fixpoint ReplaceAll (s : string) (c d : ascii) : string :=
  match s with
  | EmptyString => EmptyString
  | String a s' => String (if a ==? c then d else a) (ReplaceAll s' c d)
  end.

(** No byte of [s] is [c]. *)
Fixpoint free_of (c : ascii) (s : string) : bool :=
  match s with
  | EmptyString => true
  | String a s' => (a !=? c) && free_of c s'
  end.

(** ** Lemmas *)

Lemma string_app_assoc (a b c : string) : (a +:+ b) +:+ c = a +:+ (b +:+ c).
Proof. induction a; simpl; [done|]. by f_equal. Qed.

Lemma string_app_nil_r (a : string) : a +:+ "" = a.
Proof. induction a; simpl; [done|]. by f_equal. Qed.

Lemma string_app_inv_head (a b c : string) : a +:+ b = a +:+ c -> b = c.
Proof. induction a; simpl; [done|]. intros H. simplify_eq. auto. Qed.

(** The key lemma of every composed cache key: a separator splits a string in
    one way when it does not occur before it. *)
Lemma sep_app_inj c a a' b b' :
  free_of c a = true -> free_of c a' = true ->
  a +:+ String c b = a' +:+ String c b' -> a = a' /\ b = b'.
Proof.
  revert a'. induction a as [|x a IH]; intros [|x' a']; simpl;
    intros Ha Ha' H; go_bool; simplify_eq.
  - done.
  - by destruct Ha'.
  - by destruct Ha.
  - destruct (IH a') as [-> ->]; naive_solver.
Qed.

Lemma ToLower_app a b : ToLower (a +:+ b) = ToLower a +:+ ToLower b.
Proof. induction a; simpl; [done|]. by f_equal. Qed.

Lemma ascii_to_lower_idemp a : ascii_to_lower (ascii_to_lower a) = ascii_to_lower a.
Proof. destruct a as [[] [] [] [] [] [] [] []]; vm_compute; reflexivity. Qed.

Lemma ToLower_idemp s : ToLower (ToLower s) = ToLower s.
Proof. induction s; simpl; [done|]. by rewrite ascii_to_lower_idemp, IHs. Qed.

Lemma ascii_to_lower_colon a : ascii_to_lower a = ":"%char -> a = ":"%char.
Proof. destruct a as [[] [] [] [] [] [] [] []]; vm_compute; congruence. Qed.

Lemma free_of_ToLower s : free_of ":" s = true -> free_of ":" (ToLower s) = true.
Proof.
  induction s as [|a s IH]; simpl; [done|].
  intros H. go_bool. destruct H as [Ha Hs]. split; [|auto].
  intros E. by apply ascii_to_lower_colon in E.
Qed.

Lemma free_of_lower c s :
  (forall a, ascii_to_lower a = c <-> a = c) -> free_of c (ToLower s) = free_of c s.
Proof.
  intros H. induction s as [|a s IH]; simpl; [done|]. rewrite IH. f_equal. f_equal.
  by apply bool_decide_ext.
Qed.

Lemma ToLower_nil s : ToLower s = "" <-> s = "".
Proof. destruct s; simpl; naive_solver. Qed.

Lemma prefix_app p s : String.prefix p (p +:+ s) = true.
Proof. induction p; simpl; [by destruct s|]. by destruct (ascii_dec a a). Qed.

Lemma prefix_spec p s : String.prefix p s = true <-> exists t, s = p +:+ t.
Proof.
  split.
  - revert s. induction p as [|a p IH]; intros [|b s]; simpl; intros H; try done.
    + by exists "".
    + by exists (String b s).
    + destruct (ascii_dec a b) as [->|]; [|done].
      destruct (IH _ H) as [t ->]. by exists t.
  - intros [t ->]. apply prefix_app.
Qed.

Lemma length_string_app a b :
  String.length (a +:+ b) = (String.length a + String.length b)%nat.
Proof. induction a; simpl; [done|]. by f_equal. Qed.

Lemma length_substring n m s :
  (n + m <= String.length s)%nat -> String.length (String.substring n m s) = m.
Proof.
  revert n m. induction s as [|a s IH]; intros [|n] [|m]; simpl; intros L; try lia.
  - f_equal. apply (IH 0%nat m). lia.
  - apply (IH n 0%nat). lia.
  - apply (IH n (S m)). lia.
Qed.

(** The last byte of a string. *)
Lemma drop_last_nonempty s : s <> "" -> drop_str (String.length s - 1) s <> "".
Proof.
  intros N E. apply (f_equal String.length) in E. revert E. unfold drop_str.
  destruct s as [|a s]; [done|]. rewrite length_substring by (simpl; lia). simpl. lia.
Qed.

Lemma drop_str_app a b : drop_str (String.length a) (a +:+ b) = b.
Proof.
  unfold drop_str. rewrite length_string_app, Nat.add_sub_swap, Nat.sub_diag by lia.
  induction a as [|x a IH]; simpl; [|exact IH].
  induction b as [|y b IH]; simpl; [done|]. by f_equal.
Qed.

Lemma take_str_app a b : String.substring 0 (String.length a) (a +:+ b) = a.
Proof. induction a as [|x a IH]; simpl; [by destruct b|]. by f_equal. Qed.

Lemma HasSuffix_app a b : HasSuffix (a +:+ b) b = true.
Proof.
  unfold HasSuffix. rewrite length_string_app, Nat.add_sub, drop_str_app.
  rewrite bool_decide_eq_true_2 by done. by rewrite (proj2 (Nat.leb_le _ _)) by lia.
Qed.

Lemma substring_whole s : String.substring 0 (String.length s) s = s.
Proof. induction s as [|a s IH]; simpl; [done|]. by f_equal. Qed.

Lemma take_drop_str n s : (n <= String.length s)%nat -> String.substring 0 n s +:+ drop_str n s = s.
Proof.
  unfold drop_str. revert s. induction n as [|n IH]; intros s L.
  - rewrite Nat.sub_0_r, substring_whole. by destruct s.
  - destruct s as [|a s]; simpl in *; [lia|]. f_equal. apply IH. lia.
Qed.

Lemma HasSuffix_spec s p : HasSuffix s p = true -> exists t, s = t +:+ p.
Proof.
  unfold HasSuffix. intros [L E]%andb_true_iff. apply Nat.leb_le in L. apply bool_decide_eq_true in E.
  exists (String.substring 0 (String.length s - String.length p) s). rewrite <- (take_drop_str (String.length s - String.length p) s) at 1 by lia. by rewrite E.
Qed.

Lemma TrimSuffix_app a b : TrimSuffix (a +:+ b) b = a.
Proof.
  unfold TrimSuffix. rewrite HasSuffix_app, length_string_app, Nat.add_sub. apply take_str_app.
Qed.

(** ** Splitting and joining *)

Lemma Split_nonempty s c : Split s c <> [].
Proof. destruct s as [|a s]; [done|]. simpl. destruct (a ==? c); [done|]. by destruct (Split s c). Qed.

Lemma Split_free s c w : w ∈ Split s c -> free_of c w = true.
Proof.
  revert w. induction s as [|a s IH]; intros w; simpl; [by intros ->%list_elem_of_singleton|].
  destruct (a ==? c) eqn:E; [intros [->|?]%elem_of_cons; auto|].
  destruct (Split s c) as [|v ws] eqn:S; [by apply Split_nonempty in S|].
  intros [->|Hin]%elem_of_cons.
  - simpl. rewrite E. apply IH. left.
  - apply IH. by right.
Qed.

Lemma Split_no c w : free_of c w = true -> Split w c = [w].
Proof.
  induction w as [|a w IH]; [done|]. simpl. rewrite andb_true_iff, negb_true_iff. intros [-> F].
  by rewrite (IH F).
Qed.

Lemma Split_cons c w s : free_of c w = true -> Split (w +:+ String c s) c = w :: Split s c.
Proof.
  induction w as [|a w IH]; intros F; cbn.
  - by rewrite bool_decide_eq_true_2.
  - cbn in F. apply andb_true_iff in F as [E F]. apply negb_true_iff in E. rewrite E.
    replace (w +:+ String c s)%string with (w +:+ String c s) by done. by rewrite (IH F).
Qed.

(** A separator cuts the parts of both sides apart. *)
Lemma Split_app c a b : Split (a +:+ String c b) c = (Split a c ++ Split b c)%list.
Proof.
  induction a as [|x a IH]; simpl; [by rewrite bool_decide_eq_true_2|].
  case_bool_decide; [by rewrite IH|].
  rewrite IH. pose proof (Split_nonempty a c) as N. by destruct (Split a c).
Qed.

Lemma Split_Join c ws :
  ws <> [] -> (forall w, w ∈ ws -> free_of c w = true) -> Split (Join ws (String c EmptyString)) c = ws.
Proof.
  induction ws as [|w [|v ws] IH]; intros N F; [done|apply Split_no, F; left|].
  change (Join (w :: v :: ws) (String c "")) with (w +:+ String c (Join (v :: ws) (String c ""))).
  rewrite Split_cons by (apply F; left). f_equal. apply IH; [done|]. intros x Hx. apply F. by right.
Qed.

Lemma Contains_free c s : Contains s (String c EmptyString) = false -> free_of c s = true.
Proof.
  induction s as [|a s IH]; [done|]. cbn [Contains free_of]. rewrite orb_false_iff. intros [P C].
  rewrite (IH C), andb_true_r. apply negb_true_iff, bool_decide_eq_false. intros ->.
  cbn in P. destruct (ascii_dec c c); [by destruct s|congruence].
Qed.

(** ** Trimming *)

Definition is_space (a : ascii) : bool :=
  let n := nat_of_ascii a in Nat.eqb n 32 || (Nat.leb 9 n && Nat.leb n 13).
Fixpoint trim_left (s : string) : string :=
  match s with
  | EmptyString => EmptyString
  | String a s' => if is_space a then trim_left s' else s
  end.
Fixpoint trim_right (s : string) : string :=
  match s with
  | EmptyString => EmptyString
  | String a s' =>
      match trim_right s' with
      | EmptyString => if is_space a then EmptyString else String a EmptyString
      | t => String a t
      end
  end.
(** [strings.TrimSpace] on ASCII white space. *)
Definition TrimSpace (s : string) : string := trim_right (trim_left s).
