(* ===== verification/Regexp.v ===== *)
(** * Regular expressions of the shape the program uses

    Go's [regexp] on patterns that are sequences of texts, case-insensitive or
    not, and of greedy repetitions of a character class, captured or not.
    Matching is leftmost-first: the first start position that matches, and at
    each repetition the longest choice for which the rest matches.  Strings
    are bytes; on UTF-8 text the classes used here cut at the same places. *)

From S2P Require Import Prelude GoString.
#[local] Open Scope string_scope.
#[local] Open Scope list_scope.
#[local] Open Scope nat_scope.

Module Regexp.

(** [Lit fold t]: the text [t], under [(?i)] when [fold].
    [Rep cls lo hi cap]: between [lo] and [hi] characters of [cls]. *)
Inductive item :=
| Lit (fold : bool) (t : string)
| Rep (cls : ascii -> bool) (lo : nat) (hi : option nat) (cap : bool).

(** [.], [\S] and [\d] *)
Definition any (a : ascii) : bool := negb (bool_decide (a = "010"%char)).
Definition not_space (a : ascii) : bool :=
  negb (bool_decide (a ∈ ["009"%char; "010"%char; "012"%char; "013"%char; " "%char])).
Definition digit (a : ascii) : bool := Nat.leb 48 (nat_of_ascii a) && Nat.leb (nat_of_ascii a) 57.

(** One character of a text.  Under [(?i)] the letters s and k also stand for
    U+017F and U+212A. *)
Definition eat_char (fold : bool) (a : ascii) (s : string) : option string :=
  match s with
  | EmptyString => None
  | String b s' =>
      if fold then
        if ascii_to_lower a ==? ascii_to_lower b then Some s'
        else if (ascii_to_lower a ==? "s"%char) && HasPrefix s (String "197" (String "191" "")) then Some (drop_str 2 s)
        else if (ascii_to_lower a ==? "k"%char) && HasPrefix s (String "226" (String "132" (String "170" "")))
        then Some (drop_str 3 s)
        else None
      else if a ==? b then Some s' else None
  end.
Fixpoint eat (fold : bool) (t s : string) : option string :=
  match t with
  | EmptyString => Some s
  | String a t' => match eat_char fold a s with Some s' => eat fold t' s' | None => None end
  end.

(** The number of characters of the class at the start. *)
Fixpoint run_length (cls : ascii -> bool) (s : string) : nat :=
  match s with
  | EmptyString => 0
  | String a s' => if cls a then S (run_length cls s') else 0
  end.

Definition cap_min (hi : option nat) (n : nat) : nat := match hi with Some h => Nat.min h n | None => n end.

(** A match that starts here; with [atEnd] it must reach the end ([$]). *)
Fixpoint match_here (atEnd : bool) (items : list item) (s : string) : option (list string) :=
  match items with
  | [] => if atEnd && negb (s ==? "") then None else Some []
  | Lit fold t :: rest =>
      match eat fold t s with Some s' => match_here atEnd rest s' | None => None end
  | Rep cls lo hi cap :: rest =>
      let fix try n :=
        match (if Nat.leb lo n then match_here atEnd rest (drop_str n s) else None) with
        | Some gs => Some (if cap then String.substring 0 n s :: gs else gs)
        | None => match n with O => None | S n' => try n' end
        end in
      try (cap_min hi (run_length cls s))
  end.

(** [FindStringSubmatch], the whole match left out: with [anchored] the match
    starts at the beginning ([^]). *)
Fixpoint find_submatch (anchored atEnd : bool) (items : list item) (s : string) : option (list string) :=
  match match_here atEnd items s with
  | Some gs => Some gs
  | None =>
      if anchored then None
      else match s with EmptyString => None | String _ s' => find_submatch anchored atEnd items s' end
  end.

(** ** Strings *)

Definition all_in (cls : ascii -> bool) (g : string) : Prop := run_length cls g = String.length g.

Lemma run_length_app cls g s : all_in cls g -> run_length cls (g +:+ s) = String.length g + run_length cls s.
Proof.
  unfold all_in. induction g as [|a g IH]; simpl; [done|]. destruct (cls a); [|done].
  intros [= E]. by rewrite (IH E).
Qed.

Lemma run_length_le cls s : run_length cls s <= String.length s.
Proof. induction s as [|a s IH]; simpl; [lia|]. destruct (cls a); lia. Qed.

(** The first [n] characters, when they are of the class. *)
Lemma run_take cls n s :
  n <= run_length cls s -> exists g s', s = g +:+ s' /\ all_in cls g /\ String.length g = n.
Proof.
  revert s. induction n as [|n IH]; intros s H; [by exists "", s|].
  destruct s as [|a s]; simpl in H; [lia|]. destruct (cls a) eqn:C; [|lia].
  destruct (IH s) as (g & s' & -> & A & L); [lia|]. exists (String a g), s'. unfold all_in in *. simpl.
  by rewrite C, A, L.
Qed.

Lemma eat_exact t s s' : eat false t s = Some s' <-> s = t +:+ s'.
Proof.
  revert s. induction t as [|a t IH]; intros s; simpl; [naive_solver|].
  destruct s as [|b s]; simpl; [naive_solver|].
  destruct (bool_decide (a = b)) eqn:E; [apply bool_decide_eq_true in E|apply bool_decide_eq_false in E]; rewrite ?IH;
    (split; intros H; [|try injection H as -> ->]); by subst.
Qed.

Lemma eat_self fold t s : eat fold t (t +:+ s) = Some s.
Proof.
  destruct fold; [|by apply eat_exact].
  induction t as [|a t IH]; simpl; [done|]. by rewrite bool_decide_eq_true_2.
Qed.

(** ** Matching, declaratively *)

Inductive matches (atEnd : bool) : list item -> string -> list string -> Prop :=
| matches_nil s : (atEnd = true -> s = "") -> matches atEnd [] s []
| matches_lit fold t rest s s' gs :
    eat fold t s = Some s' -> matches atEnd rest s' gs -> matches atEnd (Lit fold t :: rest) s gs
| matches_rep cls lo hi (cap : bool) rest g s gs :
    all_in cls g -> lo <= String.length g -> (forall h, hi = Some h -> String.length g <= h) ->
    matches atEnd rest s gs -> matches atEnd (Rep cls lo hi cap :: rest) (g +:+ s) (if cap then g :: gs else gs).

Lemma cap_min_le hi n m : m <= cap_min hi n <-> m <= n /\ forall h, hi = Some h -> m <= h.
Proof.
  destruct hi as [h|]; simpl; [|by split; [intros; split|intros []]].
  split; [intros; split; [lia|intros h' [= <-]; lia]|intros [? H]; specialize (H h eq_refl); lia].
Qed.

Lemma match_here_sound atEnd items s gs : match_here atEnd items s = Some gs -> matches atEnd items s gs.
Proof.
  revert s gs. induction items as [|[fold t|cls lo hi cap] rest IH]; intros s gs; simpl.
  - destruct (_ && _) eqn:E; intros [= <-]. constructor. intros ->. simpl in E.
    apply negb_false_iff, bool_decide_eq_true in E. done.
  - destruct (eat fold t s) as [s'|] eqn:E; [|done]. intros M. econstructor; eauto.
  - assert (Step : forall n gs', n <= cap_min hi (run_length cls s) -> lo <= n ->
      match_here atEnd rest (drop_str n s) = Some gs' ->
      matches atEnd (Rep cls lo hi cap :: rest) s (if cap then String.substring 0 n s :: gs' else gs')).
    { intros n gs' [H1 H2]%cap_min_le L M. destruct (run_take cls n s H1) as (g & s' & -> & A & Lg).
      rewrite <- Lg, drop_str_app in M. rewrite <- Lg, take_str_app.
      constructor; [done|lia|intros h Hh; specialize (H2 h Hh); lia|by apply IH]. }
    assert (H : cap_min hi (run_length cls s) <= cap_min hi (run_length cls s)) by lia. revert H.
    generalize (cap_min hi (run_length cls s)) at 1 3 as n. induction n as [|n IHn]; intros H.
    + destruct (Nat.leb lo 0) eqn:L; [apply Nat.leb_le in L|done].
      destruct (match_here _ _ _) as [gs'|] eqn:M; [|done]. intros [= <-]. by apply Step.
    + destruct (Nat.leb lo (S n)) eqn:L; [apply Nat.leb_le in L|apply IHn; lia].
      destruct (match_here _ _ (drop_str (S n) s)) as [gs'|] eqn:M; [|apply IHn; lia]. intros [= <-]. by apply Step.
Qed.

Lemma match_here_complete atEnd items s gs : matches atEnd items s gs -> is_Some (match_here atEnd items s).
Proof.
  induction 1 as [s E|fold t rest s s' gs E M IH|cls lo hi cap rest g s gs A Lo Hi M IH]; simpl.
  - destruct atEnd; simpl; [|by eexists]. rewrite E by done. by eexists.
  - by rewrite E.
  - assert (H : String.length g <= cap_min hi (run_length cls (g +:+ s))).
    { apply cap_min_le. split; [rewrite run_length_app by done; lia|done]. }
    assert (Hit : (if Nat.leb lo (String.length g)
      then match_here atEnd rest (drop_str (String.length g) (g +:+ s)) else None) = match_here atEnd rest s)
      by (by rewrite drop_str_app, (proj2 (Nat.leb_le _ _) Lo)).
    revert H. generalize (cap_min hi (run_length cls (g +:+ s))) as n. induction n as [|n IHn]; intros H.
    + replace 0 with (String.length g) by lia. rewrite Hit. destruct IH as [gs' ->]. by eexists.
    + destruct (decide (String.length g = S n)) as [E|E].
      * rewrite <- E, Hit. destruct IH as [gs' ->]. by eexists.
      * destruct (if Nat.leb lo (S n) then _ else _) as [gs'|]; [by eexists|]. apply IHn. lia.
Qed.

(** A match exists and every match captures the same: that is the result. *)
Lemma match_here_unique atEnd items s gs :
  (exists gs', matches atEnd items s gs') -> (forall gs', matches atEnd items s gs' -> gs' = gs) ->
  match_here atEnd items s = Some gs.
Proof.
  intros [gs' M] U. destruct (match_here_complete _ _ _ _ M) as [x E]. rewrite E. f_equal.
  apply U. by apply match_here_sound.
Qed.

Lemma matches_lit_inv atEnd fold t rest s gs :
  matches atEnd (Lit fold t :: rest) s gs -> exists s', eat fold t s = Some s' /\ matches atEnd rest s' gs.
Proof. inversion 1; subst. eauto. Qed.

Lemma matches_rep_inv atEnd cls lo hi (cap : bool) rest s gs :
  matches atEnd (Rep cls lo hi cap :: rest) s gs ->
  exists g s' gs', s = g +:+ s' /\ all_in cls g /\ lo <= String.length g /\
    gs = (if cap then g :: gs' else gs') /\ matches atEnd rest s' gs'.
Proof. inversion 1; subst. eauto 10. Qed.

(** The longest choice after which the rest matches is taken. *)
Lemma rep_first atEnd cls lo hi (cap : bool) rest s n gs :
  n <= cap_min hi (run_length cls s) -> lo <= n ->
  match_here atEnd rest (drop_str n s) = Some gs ->
  (forall m, n < m <= cap_min hi (run_length cls s) -> match_here atEnd rest (drop_str m s) = None) ->
  match_here atEnd (Rep cls lo hi cap :: rest) s = Some (if cap then String.substring 0 n s :: gs else gs).
Proof.
  intros H Lo M F. simpl.
  assert (Hit : (if Nat.leb lo n then match_here atEnd rest (drop_str n s) else None) = Some gs)
    by (by rewrite (proj2 (Nat.leb_le _ _) Lo)).
  revert H F. generalize (cap_min hi (run_length cls s)) as k. induction k as [|k IHk]; intros H F.
  - replace 0 with n by lia. by rewrite Hit.
  - destruct (decide (n = S k)) as [<-|E]; [by rewrite Hit|].
    rewrite (F (S k)) by lia. destruct (Nat.leb lo (S k)); apply IHk; (lia || intros; apply F; lia).
Qed.

Lemma find_here anchored atEnd items s gs :
  match_here atEnd items s = Some gs -> find_submatch anchored atEnd items s = Some gs.
Proof. intros E. destruct s; simpl; by rewrite E. Qed.

Lemma find_sound anchored atEnd items s gs :
  find_submatch anchored atEnd items s = Some gs -> exists pre s', s = pre +:+ s' /\ matches atEnd items s' gs.
Proof.
  revert gs. induction s as [|a s IH]; intros gs; simpl; destruct (match_here atEnd items _) as [x|] eqn:M.
  1, 3: intros [= <-]; apply match_here_sound in M; by eexists "", _.
  - by destruct anchored.
  - destruct anchored; [done|]. intros (pre & s' & -> & ?)%IH. by exists (String a pre), s'.
Qed.

(** ** Path-like patterns

    When the repetitions are separated by texts that begin with a slash, and
    nothing they stand for holds one, the match is the intended one. *)

Fixpoint slashes (s : string) : nat :=
  match s with
  | EmptyString => 0
  | String a s' => (if a ==? "/"%char then 1 else 0) + slashes s'
  end.

Lemma slashes_app a b : slashes (a +:+ b) = slashes a + slashes b.
Proof. induction a as [|x a IH]; simpl; [done|]. rewrite IH. lia. Qed.

Lemma slashes_free g : free_of "/" g = true <-> slashes g = 0.
Proof.
  induction g as [|a g IH]; simpl; [done|]. rewrite andb_true_iff, IH, negb_true_iff.
  destruct (bool_decide (a = "/"%char)); simpl; split; try done; [by intros []|lia].
Qed.

Lemma lower_slash a : ascii_to_lower a = "/"%char <-> a = "/"%char.
Proof. split; [|by intros ->]. destruct a as [[] [] [] [] [] [] [] []]; vm_compute; congruence. Qed.

Lemma HasPrefix_split s p : HasPrefix s p = true -> s = p +:+ drop_str (String.length p) s.
Proof. intros [t ->]%prefix_spec. by rewrite drop_str_app. Qed.

Lemma eat_char_slashes fold a s s' :
  eat_char fold a s = Some s' -> slashes s = slashes (String a "") + slashes s'.
Proof.
  destruct s as [|b s]; [done|]. unfold eat_char. cbn [slashes]. destruct fold.
  - case_bool_decide as E.
    + intros [= <-]. assert (bool_decide (b = "/"%char) = bool_decide (a = "/"%char)) as ->; [|lia].
      apply bool_decide_ext. by rewrite <- (lower_slash a), <- (lower_slash b), E.
    + assert (N : forall c, bool_decide (ascii_to_lower a = c) = true -> c <> "/"%char -> bool_decide (a = "/"%char) = false).
      { intros c C%bool_decide_eq_true NC. apply bool_decide_eq_false. intros ->. apply NC. by rewrite <- C. }
      intros H. destruct (bool_decide (_ = "s"%char)) eqn:L; cbn [andb] in H.
      * destruct (HasPrefix _ _) eqn:P; [|apply bool_decide_eq_true in L; rewrite L, bool_decide_eq_false_2 in H by done; discriminate H].
        injection H as <-. rewrite (N _ L) by done. apply HasPrefix_split in P.
        change (slashes (String b s) = slashes (drop_str 2 (String b s))).
        rewrite P at 1. by rewrite slashes_app.
      * destruct (bool_decide (_ = "k"%char)) eqn:L'; cbn [andb] in H; [|done].
        destruct (HasPrefix _ _) eqn:P; [|done]. injection H as <-. rewrite (N _ L') by done. apply HasPrefix_split in P.
        change (slashes (String b s) = slashes (drop_str 3 (String b s))).
        rewrite P at 1. by rewrite slashes_app.
  - case_bool_decide as E; [|done]. intros [= <-]. subst. lia.
Qed.

Lemma eat_slashes fold t s s' : eat fold t s = Some s' -> slashes s = slashes t + slashes s'.
Proof.
  revert s. induction t as [|a t IH]; simpl; intros s; [by intros [= ->]|].
  destruct (eat_char fold a s) as [s1|] eqn:E; [|done]. intros H%IH. apply eat_char_slashes in E. simpl in E. lia.
Qed.

Fixpoint texts (items : list item) : nat :=
  match items with [] => 0 | Lit _ t :: r => slashes t + texts r | Rep _ _ _ _ :: r => texts r end.

Lemma match_slashes atEnd items s gs : match_here atEnd items s = Some gs -> texts items <= slashes s.
Proof.
  intros M%match_here_sound. induction M; simpl; [lia| |rewrite slashes_app; lia].
  apply eat_slashes in H. lia.
Qed.

(** The text spelled by the pattern with [gs] for the repetitions, and the
    ones of [gs] that are captured. *)
Fixpoint expand (items : list item) (gs : list string) : string :=
  match items, gs with
  | [], _ => ""
  | Lit _ t :: r, _ => t +:+ expand r gs
  | Rep _ _ _ _ :: r, g :: gs' => g +:+ expand r gs'
  | Rep _ _ _ _ :: r, [] => expand r []
  end.
Fixpoint captured (items : list item) (gs : list string) : list string :=
  match items, gs with
  | Lit _ _ :: r, _ => captured r gs
  | Rep _ _ _ cap :: r, g :: gs' => if cap then g :: captured r gs' else captured r gs'
  | _, _ => []
  end.
Fixpoint separated (items : list item) : bool :=
  match items with
  | [] => true
  | Lit _ _ :: r => separated r
  | Rep _ _ _ _ :: r => match r with [] => true | Lit _ t :: _ => HasPrefix t "/" | _ => false end && separated r
  end.
Fixpoint fits (items : list item) (gs : list string) : Prop :=
  match items, gs with
  | [], [] => True
  | Lit _ _ :: r, _ => fits r gs
  | Rep cls lo hi _ :: r, g :: gs' =>
      all_in cls g /\ lo <= String.length g /\ (forall h, hi = Some h -> String.length g <= h) /\
      free_of "/" g = true /\ fits r gs'
  | _, _ => False
  end.

Lemma expand_slashes items gs : fits items gs -> slashes (expand items gs) = texts items.
Proof.
  revert gs. induction items as [|[f t|cls lo hi cap] r IH]; intros gs; simpl.
  - done.
  - intros F. by rewrite slashes_app, (IH gs).
  - destruct gs as [|g gs]; [done|]. intros (_ & _ & _ & S%slashes_free & F). by rewrite slashes_app, (IH gs), S.
Qed.

Lemma slashes_drop k s : slashes (drop_str k s) <= slashes s.
Proof.
  destruct (decide (k <= String.length s)) as [L|L].
  - pose proof (run_take (fun _ => true) k s) as R. destruct R as (g & s' & -> & _ & <-).
    + clear -L. revert k L. induction s as [|a s IH]; simpl; intros k L; [lia|]. destruct k; [lia|].
      specialize (IH k). lia.
    + rewrite drop_str_app, slashes_app. lia.
  - assert (drop_str k s = "") as ->; [|simpl; lia]. unfold drop_str.
    replace (String.length s - k) with 0 by lia. clear. revert k. by induction s as [|a s IH]; intros [|k]; simpl.
Qed.

Lemma drop_str_plus g k s : drop_str (String.length g + k) (g +:+ s) = drop_str k s.
Proof.
  unfold drop_str. rewrite length_string_app.
  replace (String.length g + String.length s - (String.length g + k)) with (String.length s - k) by lia.
  by induction g as [|a g IH].
Qed.

Theorem match_expand atEnd items gs :
  separated items = true -> fits items gs ->
  match_here atEnd items (expand items gs) = Some (captured items gs).
Proof.
  revert gs. induction items as [|[f t|cls lo hi cap] r IH]; intros gs Sep F.
  - simpl. by destruct atEnd.
  - cbn [expand match_here]. rewrite eat_self. by apply IH.
  - destruct gs as [|g gs]; [done|]. cbn [fits] in F. destruct F as (A & Lo & Hi & Fr & F).
    cbn [separated] in Sep. apply andb_true_iff in Sep as [Hd Sep]. cbn [expand captured].
    assert (Le : String.length g <= cap_min hi (run_length cls (g +:+ expand r gs))).
    { apply cap_min_le. split; [rewrite run_length_app by done; lia|done]. }
    rewrite (rep_first atEnd cls lo hi cap r _ (String.length g) (captured r gs)); [by rewrite take_str_app|done|done| |].
    + rewrite drop_str_app. by apply IH.
    + intros m [Gt Hm%cap_min_le]. destruct (match_here _ _ _) as [x|] eqn:M; [exfalso|done].
      apply match_slashes in M. destruct r as [|[f t|] r]; [|apply HasPrefix_split in Hd|done].
      * destruct gs; [|done]. rewrite string_app_nil_r in Hm. pose proof (run_length_le cls g). lia.
      * pose proof (expand_slashes _ _ F) as X. cbn [expand] in X, M.
        revert X M. rewrite Hd, string_app_assoc. generalize (drop_str (String.length "/") t +:+ expand r gs) as u.
        intros u X M. replace m with (String.length g + (String.length "/" + (m - S (String.length g)))) in M
          by (simpl; lia).
        rewrite !drop_str_plus in M. pose proof (slashes_drop (m - S (String.length g)) u).
        rewrite slashes_app in X. change (slashes "/") with 1 in X. lia.
Qed.

End Regexp.
