(* ===== verification/GoCache.v ===== *)
(** * The expiring cache

    The program keeps transient facts in [github.com/patrickmn/go-cache], a map
    whose entries carry an expiry instant.  The library is not part of the
    repository, so it is an interface here: [TTLCache] lists the operations the
    program calls and [TTLCacheLaws] what the library documents of them.  The
    clock is explicit: every operation that looks at it takes the instant.
    [MapCache] is a concrete implementation, used to show that the laws hold of
    something and to evaluate the models. *)

From S2P Require Import Prelude GoString.

Class TTLCache := {
  tc : Type -> Type;
  (** [cache.New] *)
  tc_empty : forall {V}, tc V;
  (** [Get] at an instant *)
  tc_get : forall {V}, Z -> string -> tc V -> option V;
  (** [Set] at an instant, with a duration *)
  tc_set : forall {V}, Z -> string -> V -> Z -> tc V -> tc V;
  (** [Delete]; the boolean says whether the [OnEvicted] callback ran *)
  tc_delete : forall {V}, string -> tc V -> tc V * bool;
  (** [Items]: the unexpired entries *)
  tc_items : forall {V}, Z -> tc V -> gmap string V;
  (** [Flush] *)
  tc_flush : forall {V}, tc V -> tc V;
  (** The janitor ([DeleteExpired]), with the number of callbacks it ran *)
  tc_sweep : forall {V}, Z -> tc V -> tc V * nat
}.

Class TTLCacheLaws `{TTLCache} : Prop := {
  tc_get_empty : forall V t k, tc_get t k (tc_empty : tc V) = None;
  tc_get_mono : forall V (c : tc V) t t' k v,
    tc_get t k c = Some v -> t' <= t -> tc_get t' k c = Some v;
  tc_get_set_eq : forall V (c : tc V) now t k v ttl,
    0 < ttl ->
    tc_get t k (tc_set now k v ttl c) = if decide (t <= now + ttl) then Some v else None;
  tc_get_set_ne : forall V (c : tc V) now t k k' v ttl,
    k <> k' -> tc_get t k' (tc_set now k v ttl c) = tc_get t k' c;
  tc_get_delete_eq : forall V (c : tc V) t k, tc_get t k (tc_delete k c).1 = None;
  tc_get_delete_ne : forall V (c : tc V) t k k',
    k <> k' -> tc_get t k' (tc_delete k c).1 = tc_get t k' c;
  tc_delete_evicts : forall V (c : tc V) t k v,
    tc_get t k c = Some v -> (tc_delete k c).2 = true;
  tc_items_get : forall V (c : tc V) t k, tc_items t c !! k = tc_get t k c;
  tc_get_flush : forall V (c : tc V) t k, tc_get t k (tc_flush c) = None;
  tc_get_sweep : forall V (c : tc V) now t k,
    now <= t -> tc_get t k (tc_sweep now c).1 = tc_get t k c
}.

(** ** A concrete cache: a map from keys to values with their expiry *)

Module MapCache.
Definition get {V} (t : Z) (k : string) (c : gmap string (V * Z)) : option V :=
  match c !! k with
  | Some (v, e) => if decide (t <= e) then Some v else None
  | None => None
  end.

Definition set {V} (now : Z) (k : string) (v : V) (ttl : Z)
    (c : gmap string (V * Z)) : gmap string (V * Z) := <[k := (v, now + ttl)]> c.

Definition remove {V} (k : string) (c : gmap string (V * Z)) :
    gmap string (V * Z) * bool :=
  (delete k c, bool_decide (is_Some (c !! k))).

Definition live {V} (t : Z) (p : V * Z) : option V :=
  if decide (t <= p.2) then Some p.1 else None.

Definition items {V} (t : Z) (c : gmap string (V * Z)) : gmap string V :=
  omap (live t) c.

Definition sweep {V} (t : Z) (c : gmap string (V * Z)) : gmap string (V * Z) * nat :=
  let c' := filter (fun p => t <= p.2.2) c in (c', (size c - size c')%nat).
End MapCache.

#[export] Instance map_cache : TTLCache := {|
  tc V := gmap string (V * Z);
  tc_empty V := ∅;
  tc_get V := MapCache.get;
  tc_set V := MapCache.set;
  tc_delete V := MapCache.remove;
  tc_items V := MapCache.items;
  tc_flush V _ := ∅;
  tc_sweep V := MapCache.sweep
|}.

#[export] Instance map_cache_laws : TTLCacheLaws (H := map_cache).
Proof.
  constructor; simpl; intros V *; unfold MapCache.get, MapCache.set, MapCache.items.
  - done.
  - destruct (c !! k) as [[w e]|]; [|done]. repeat case_decide; naive_solver lia.
  - by rewrite lookup_insert_eq.
  - intros H. by rewrite lookup_insert_ne.
  - by rewrite lookup_delete_eq.
  - intros H. by rewrite lookup_delete_ne.
  - intros H. apply bool_decide_eq_true_2. by destruct (c !! k).
  - rewrite lookup_omap. by destruct (c !! k) as [[w e]|].
  - done.
  - intros H. rewrite map_lookup_filter.
    destruct (c !! k) as [[w e]|]; simpl; [|done].
    repeat (case_guard || case_decide); simpl in *; repeat case_decide; done || lia.
Qed.

(** ** Generic lemmas *)

Section CacheLemmas.
Context `{TTLCacheLaws}.

Definition tc_has {V} (t : Z) (k : string) (c : tc V) : bool :=
  match tc_get t k c with Some _ => true | None => false end.

Lemma tc_has_set_eq {V} (c : tc V) now t k v ttl :
  0 < ttl -> tc_has t k (tc_set now k v ttl c) = bool_decide (t <= now + ttl).
Proof.
  intros. unfold tc_has. rewrite tc_get_set_eq by done.
  by case_decide; case_bool_decide.
Qed.

Lemma tc_has_set_ne {V} (c : tc V) now t k k' v ttl :
  k <> k' -> tc_has t k' (tc_set now k v ttl c) = tc_has t k' c.
Proof. intros. unfold tc_has. by rewrite tc_get_set_ne. Qed.

(** Setting a key at [now] only ever adds keys at the instant [now]. *)
Lemma tc_has_set_now {V} (c : tc V) now k k' v ttl :
  0 < ttl ->
  tc_has now k' (tc_set now k v ttl c) = bool_decide (k' = k) || tc_has now k' c.
Proof.
  intros. case_bool_decide as E; simpl.
  - subst. rewrite tc_has_set_eq by done. apply bool_decide_eq_true. lia.
  - by apply tc_has_set_ne.
Qed.

(** The deletion loop of the program: the keys with a prefix, and how many
    eviction callbacks ran. *)
Definition delete_with_prefix_step {V} (prefix : string)
    (acc : tc V * nat) (key : string) : tc V * nat :=
  if HasPrefix key prefix
  then let r := tc_delete key acc.1 in (r.1, if r.2 then S acc.2 else acc.2)
  else acc.

Definition delete_with_prefix {V} (now : Z) (prefix : string) (c : tc V) : tc V * nat :=
  foldl (delete_with_prefix_step prefix) (c, O) (map_to_list (tc_items now c)).*1.

Lemma delete_step_get {V} prefix (keys : list string) (acc : tc V * nat) t k :
  tc_get t k (foldl (delete_with_prefix_step prefix) acc keys).1 =
  if decide (k ∈ keys /\ HasPrefix k prefix = true) then None else tc_get t k acc.1.
Proof.
  revert acc. induction keys as [|x keys IH]; intros acc; cbn [foldl].
  - rewrite decide_False; [done|]. intros [Hx _]. by apply not_elem_of_nil in Hx.
  - rewrite IH. clear IH. unfold delete_with_prefix_step.
    destruct (decide (k = x)) as [->|Hne].
    + destruct (HasPrefix x prefix) eqn:E; cbn [fst snd].
      * rewrite (decide_True (P := x ∈ x :: keys /\ _)) by (split; [left|done]).
        rewrite tc_get_delete_eq. by destruct (decide _).
      * by repeat (case_decide; try naive_solver).
    + rewrite (decide_ext (k ∈ x :: keys /\ _) (k ∈ keys /\ HasPrefix k prefix = true))
        by (rewrite elem_of_cons; naive_solver).
      destruct (decide _); [done|].
      destruct (HasPrefix x prefix); [|done]. by apply tc_get_delete_ne.
Qed.

Lemma elem_of_item_keys {V} (c : tc V) now k :
  k ∈ (map_to_list (tc_items now c)).*1 <-> is_Some (tc_get now k c).
Proof.
  rewrite list_elem_of_fmap. rewrite <- tc_items_get. split.
  - intros ([k' v] & -> & Hv%elem_of_map_to_list). by exists v.
  - intros [v Hv]. exists (k, v). split; [done|]. by apply elem_of_map_to_list.
Qed.

(** After the loop no key with the prefix is found; the others are as before. *)
Lemma delete_with_prefix_get {V} (c : tc V) now prefix t k :
  now <= t ->
  tc_get t k (delete_with_prefix now prefix c).1 =
  if HasPrefix k prefix then None else tc_get t k c.
Proof.
  intros Ht. unfold delete_with_prefix. rewrite delete_step_get. simpl.
  destruct (HasPrefix k prefix) eqn:E.
  - destruct (decide _) as [|Hn]; [done|].
    destruct (tc_get t k c) as [v|] eqn:G; [|done].
    exfalso. apply Hn. split; [|done]. apply elem_of_item_keys.
    exists v. by eapply tc_get_mono.
  - by rewrite decide_False by naive_solver.
Qed.

(** The callback runs for every live entry the loop removes. *)
Lemma delete_step_count {V} prefix (keys : list string) (acc : tc V * nat) :
  (acc.2 <= (foldl (delete_with_prefix_step prefix) acc keys).2)%nat.
Proof.
  revert acc. induction keys as [|x keys IH]; intros acc; simpl; [lia|].
  etransitivity; [|apply IH]. unfold delete_with_prefix_step.
  destruct (HasPrefix x prefix); simpl; [|lia]. destruct (tc_delete _ _).2; lia.
Qed.

Lemma delete_step_count_pos {V} prefix (keys : list string) (acc : tc V * nat) t k v :
  k ∈ keys -> HasPrefix k prefix = true -> tc_get t k acc.1 = Some v ->
  (acc.2 < (foldl (delete_with_prefix_step prefix) acc keys).2)%nat.
Proof.
  revert acc. induction keys as [|x keys IH]; intros acc; simpl;
    [by intros ?%not_elem_of_nil|].
  intros Hk Hp Hg. unfold delete_with_prefix_step at 2.
  destruct (decide (k = x)) as [->|Hne].
  - rewrite Hp. erewrite tc_delete_evicts by done.
    eapply Nat.lt_le_trans; [|apply delete_step_count]. simpl. lia.
  - apply elem_of_cons in Hk as [|Hk]; [done|].
    destruct (HasPrefix x prefix); [|by apply IH].
    eapply Nat.le_lt_trans; [|apply IH; [done|done|]]; simpl.
    + destruct (tc_delete _ _).2; lia.
    + by rewrite tc_get_delete_ne.
Qed.

Lemma delete_step_count_le {V} prefix (keys : list string) (acc : tc V * nat) :
  ((foldl (delete_with_prefix_step prefix) acc keys).2 <= acc.2 + length keys)%nat.
Proof.
  revert acc. induction keys as [|x keys IH]; intros acc; simpl; [lia|].
  etransitivity; [apply IH|]. unfold delete_with_prefix_step.
  destruct (HasPrefix x prefix); simpl; [|lia]. destruct (tc_delete _ _).2; lia.
Qed.

Lemma delete_with_prefix_count_le {V} (c : tc V) now prefix :
  ((delete_with_prefix now prefix c).2 <= size (tc_items now c))%nat.
Proof.
  unfold delete_with_prefix. etransitivity; [apply delete_step_count_le|].
  simpl. by rewrite length_fmap, length_map_to_list.
Qed.

Lemma delete_with_prefix_count {V} (c : tc V) now prefix k v :
  HasPrefix k prefix = true -> tc_get now k c = Some v ->
  (0 < (delete_with_prefix now prefix c).2)%nat.
Proof.
  intros Hp Hg. unfold delete_with_prefix.
  eapply (delete_step_count_pos _ _ (c, O)); [|done|done].
  apply elem_of_item_keys. by exists v.
Qed.
End CacheLemmas.
