(* ===== verification/GoSort.v ===== *)
(** * Go's [sort] package and [math/rand]

    [sort.SliceStable] and [sort.Strings] are determined by their
    specification and are executable here (an insertion sort).  [sort.Slice]
    is not stable and [rand.Shuffle] is random: a model that calls them takes
    what they do as a parameter, an instance of [GoSort] or [GoShuffle], of
    which it may only use the documented laws. *)

From S2P Require Import Prelude.
From stdpp Require Export sorting.
#[local] Open Scope Z_scope.

(** What [sort] requires of a [less] function. *)
Class StrictWeak {A} (less : A -> A -> bool) : Prop := {
  less_asym : forall a b, less a b = true -> less b a = false;
  less_negtrans : forall a b c, less a b = false -> less b c = false -> less a c = false
}.

(** [a] may come before [b]. *)
Definition before {A} (less : A -> A -> bool) (a b : A) : Prop := less b a = false.

Fixpoint insert_sorted {A} (less : A -> A -> bool) (x : A) (l : list A) : list A :=
  match l with
  | [] => [x]
  | y :: l' => if less y x then y :: insert_sorted less x l' else x :: l
  end.

(** [sort.SliceStable] *)
Definition SliceStable {A} (less : A -> A -> bool) (l : list A) : list A :=
  foldr (insert_sorted less) [] l.

(** The order of Go strings: bytewise. *)
Definition string_less (a b : string) : bool := String.ltb a b.

(** [sort.Strings] *)
Definition Strings (l : list string) : list string := SliceStable string_less l.

(** [sort.Slice] *)
Class GoSort := {
  Slice : forall {A}, (A -> A -> bool) -> list A -> list A;
  Slice_perm : forall A (less : A -> A -> bool) l, Slice less l ≡ₚ l;
  Slice_sorted : forall A (less : A -> A -> bool) l,
    StrictWeak less -> StronglySorted (before less) (Slice less l)
}.

(** [rand.Shuffle]; the number tells the calls apart. *)
Class GoShuffle := {
  Shuffle : forall {A}, nat -> list A -> list A;
  Shuffle_perm : forall A i (l : list A), Shuffle i l ≡ₚ l
}.

(** Goroutines that send one value each on a channel: the order in which the
    values are received. *)
Class GoArrival := {
  Arrival : forall {A}, list A -> list A;
  Arrival_perm : forall A (l : list A), Arrival l ≡ₚ l
}.

(** ** Laws *)

Lemma less_irrefl {A} (less : A -> A -> bool) `{!StrictWeak less} a : less a a = false.
Proof. destruct (less a a) eqn:E; [|done]. by rewrite (less_asym _ _ E) in E. Qed.

Lemma less_trans {A} (less : A -> A -> bool) `{!StrictWeak less} a b c :
  less a b = true -> less b c = true -> less a c = true.
Proof.
  intros Hab Hbc. destruct (less a c) eqn:Hac; [done|].
  assert (less a b = false); [|congruence]. by apply (less_negtrans a c b), less_asym.
Qed.

Lemma before_trans {A} (less : A -> A -> bool) `{!StrictWeak less} a b c :
  before less a b -> before less b c -> before less a c.
Proof. unfold before. intros. by apply (less_negtrans c b a). Qed.

Lemma insert_sorted_perm {A} (less : A -> A -> bool) x l : insert_sorted less x l ≡ₚ x :: l.
Proof.
  induction l as [|y l IH]; simpl; [done|]. case_match; [|done].
  by rewrite IH, Permutation_swap.
Qed.

Lemma SliceStable_perm {A} (less : A -> A -> bool) l : SliceStable less l ≡ₚ l.
Proof. induction l as [|x l IH]; simpl; [done|]. by rewrite insert_sorted_perm, IH. Qed.

Lemma insert_sorted_sorted {A} (less : A -> A -> bool) `{!StrictWeak less} x l :
  StronglySorted (before less) l -> StronglySorted (before less) (insert_sorted less x l).
Proof.
  induction l as [|y l IH]; simpl; intros S; [repeat constructor|].
  apply StronglySorted_inv in S as [S F]. destruct (less y x) eqn:E.
  - constructor; [by apply IH|]. rewrite insert_sorted_perm.
    constructor; [|done]. by apply less_asym.
  - constructor; [by constructor|]. constructor; [done|].
    eapply Forall_impl; [exact F|]. intros z. by apply before_trans.
Qed.

Lemma SliceStable_sorted {A} (less : A -> A -> bool) `{!StrictWeak less} l :
  StronglySorted (before less) (SliceStable less l).
Proof. induction l; simpl; [constructor|]. by apply insert_sorted_sorted. Qed.

(** The head of a sorted list comes before everything. *)
Lemma sorted_head {A} (less : A -> A -> bool) `{!StrictWeak less} x l y :
  StronglySorted (before less) (x :: l) -> y ∈ x :: l -> before less x y.
Proof.
  intros [_ F]%StronglySorted_inv [->|Hy]%elem_of_cons; [by apply less_irrefl|].
  rewrite Forall_forall in F. by apply F.
Qed.

(** Stability: elements that are incomparable keep their order. *)
Lemma insert_sorted_filter {A} (less : A -> A -> bool) (P : A -> Prop) `{!forall x, Decision (P x)} x l :
  (forall a b, P a -> P b -> less a b = false) ->
  filter P (insert_sorted less x l) = filter P (x :: l).
Proof.
  intros HP. induction l as [|y l IH]; [done|]. cbn [insert_sorted].
  destruct (less y x) eqn:E; [|done].
  rewrite !filter_cons. rewrite filter_cons in IH. rewrite IH.
  destruct (decide (P y)), (decide (P x)); try done.
  by rewrite HP in E.
Qed.

Lemma SliceStable_filter {A} (less : A -> A -> bool) (P : A -> Prop) `{!forall x, Decision (P x)} l :
  (forall a b, P a -> P b -> less a b = false) ->
  filter P (SliceStable less l) = filter P l.
Proof.
  intros HP. induction l as [|x l IH]; [done|]. simpl.
  rewrite insert_sorted_filter by done. rewrite !filter_cons, IH. done.
Qed.

(** A sorted list is left alone. *)
Lemma SliceStable_id {A} (less : A -> A -> bool) l :
  StronglySorted (before less) l -> SliceStable less l = l.
Proof.
  induction l as [|x l IH]; intros S; [done|]. apply StronglySorted_inv in S as [S F]. simpl.
  rewrite IH by done. destruct l as [|y l]; [done|]. simpl.
  apply Forall_inv in F. by rewrite F.
Qed.

(** A [less] given by an integer key, and lexicographic products. *)
#[export] Instance strict_weak_key {A} (key : A -> Z) : StrictWeak (fun a b => key a <? key b).
Proof. split; intros; lia. Qed.

Lemma string_compare_lt_trans a b c :
  String.compare a b = Lt -> String.compare b c = Lt -> String.compare a c = Lt.
Proof.
  revert b c. induction a as [|x a IH]; intros [|y b] [|z c]; simpl; try done.
  destruct (Ascii.compare x y) eqn:E1; try done; destruct (Ascii.compare y z) eqn:E2; try done;
    intros; unfold Ascii.compare in *.
  - apply N.compare_eq in E1, E2. rewrite E1, E2, N.compare_refl. eauto.
  - apply N.compare_eq in E1. by rewrite E1, E2.
  - apply N.compare_eq in E2. by rewrite <- E2, E1.
  - rewrite N.compare_lt_iff in *. assert (L : (Strings.Ascii.N_of_ascii x < Strings.Ascii.N_of_ascii z)%N) by lia.
    by rewrite <- N.compare_lt_iff in L; rewrite L.
Qed.

Lemma string_compare_refl a : String.compare a a = Eq.
Proof.
  induction a as [|x a IH]; simpl; [done|]. unfold Ascii.compare. by rewrite N.compare_refl.
Qed.

Lemma string_less_total a b : string_less a b = false -> string_less b a = false -> a = b.
Proof.
  unfold string_less, String.ltb. rewrite (String.compare_antisym b a).
  destruct (String.compare a b) eqn:E; try done. intros. by apply String.compare_eq_iff.
Qed.

#[export] Instance string_less_strict_weak : StrictWeak string_less.
Proof.
  assert (As : forall a b, string_less a b = true -> string_less b a = false).
  { intros a b. unfold string_less, String.ltb. rewrite (String.compare_antisym b a).
    by destruct (String.compare a b). }
  split; [done|]. intros a b c Hab Hbc.
  destruct (string_less a c) eqn:Hac; [|done].
  destruct (string_less c b) eqn:Hcb.
  - rewrite <- Hab. unfold string_less, String.ltb in *.
    destruct (String.compare a c) eqn:E1; try done.
    destruct (String.compare c b) eqn:E2; try done.
    by rewrite (string_compare_lt_trans _ _ _ E1 E2).
  - rewrite <- Hab, <- Hac. by rewrite (string_less_total b c Hbc Hcb).
Qed.

(** Sorting strings forgets their order. *)
Lemma Strings_perm l l' : l ≡ₚ l' -> Strings l = Strings l'.
Proof.
  intros P. apply (StronglySorted_unique_strong (before string_less)).
  - unfold before. intros x y _ _ H1 H2. by apply string_less_total.
  - apply SliceStable_sorted, _.
  - apply SliceStable_sorted, _.
  - unfold Strings. by rewrite !SliceStable_perm.
Qed.

Lemma Strings_elem l x : x ∈ Strings l <-> x ∈ l.
Proof. unfold Strings. by rewrite SliceStable_perm. Qed.

Lemma StronglySorted_lookup {A} (R : A -> A -> Prop) (l : list A) i j x y :
  (forall x, R x x) -> StronglySorted R l -> l !! i = Some x -> l !! j = Some y ->
  (i <= j)%nat -> R x y.
Proof.
  intros Rf S. revert i j. induction S as [|z l S IH F]; intros i j Hi Hj L; [done|].
  destruct i as [|i], j as [|j]; simpl in *; simplify_eq; [done| |lia|].
  - rewrite Forall_lookup in F. by eapply F.
  - eapply IH; [done|done|lia].
Qed.

Lemma StronglySorted_same {A} (R : A -> A -> Prop) (l : list A) :
  (forall x y, x ∈ l -> y ∈ l -> R x y) -> StronglySorted R l.
Proof.
  induction l as [|x l IH]; intros F; constructor.
  - apply IH. intros y z Hy Hz. apply F; by right.
  - apply Forall_forall. intros y Hy. apply F; [left|by right].
Qed.

(** Concrete instances: the stable sort, and no shuffling. *)

#[export, refine] Instance stable_go_sort : GoSort := {| Slice A := SliceStable |}.
Proof.
  - intros. apply SliceStable_perm.
  - intros. by apply SliceStable_sorted.
Defined.

#[export, refine] Instance reversing_shuffle : GoShuffle := {| Shuffle A i l := reverse l |}.
Proof. intros. apply reverse_Permutation. Defined.

(** ** Lexicographic comparison *)

Fixpoint lex_less (a b : list Z) : bool :=
  match a, b with
  | [], [] => false
  | [], _ :: _ => true
  | _ :: _, [] => false
  | x :: a', y :: b' => if x =? y then lex_less a' b' else x <? y
  end.

#[export] Instance lex_less_strict_weak : StrictWeak lex_less.
Proof.
  split.
  - intros a. induction a as [|x a IH]; intros [|y b]; simpl; try done.
    destruct (Z.eqb_spec x y) as [->|]; [rewrite Z.eqb_refl; apply IH|].
    destruct (Z.eqb_spec y x); lia.
  - intros a. induction a as [|x a IH]; intros [|y b] [|z c]; simpl; try done.
    destruct (Z.eqb_spec x y) as [->|]; destruct (Z.eqb_spec y z) as [->|];
      rewrite ?Z.eqb_refl; [apply IH|lia| |].
    + destruct (Z.eqb_spec x z); lia.
    + destruct (Z.eqb_spec x z); lia.
Qed.

Lemma lex_less_total a b : lex_less a b = false -> lex_less b a = false -> a = b.
Proof.
  revert b. induction a as [|x a IH]; intros [|y b]; simpl; try done.
  destruct (Z.eqb_spec x y) as [->|]; [rewrite Z.eqb_refl; intros; f_equal; by apply IH|].
  destruct (Z.eqb_spec y x); lia.
Qed.

(** A [less] that compares keys. *)
Lemma strict_weak_by {A B} (f : A -> B) (less : B -> B -> bool) :
  StrictWeak less -> StrictWeak (fun a b => less (f a) (f b)).
Proof.
  intros S. split; intros *; [apply less_asym|apply less_negtrans].
Qed.

Lemma strict_weak_flip {A} (less : A -> A -> bool) :
  StrictWeak less -> StrictWeak (fun a b => less b a).
Proof.
  intros S. split; [intros a b; apply less_asym|].
  intros a b c H1 H2. by apply (less_negtrans c b a).
Qed.

Lemma strict_weak_ext {A} (f g : A -> A -> bool) :
  (forall a b, f a b = g a b) -> StrictWeak g -> StrictWeak f.
Proof.
  intros E S. split; intros *; rewrite !E; [apply less_asym|apply less_negtrans].
Qed.

#[export, refine] Instance reversing_arrival : GoArrival := {| Arrival A l := reverse l |}.
Proof. intros. apply reverse_Permutation. Defined.

(** Compare by [f], then by [g]. *)
Lemma strict_weak_lex {A} (f g : A -> A -> bool) :
  StrictWeak f -> StrictWeak g -> StrictWeak (fun a b => f a b || negb (f b a) && g a b).
Proof.
  intros F G. split.
  - intros a b. destruct (f a b) eqn:E1; simpl; [by rewrite (less_asym _ _ E1)|].
    destruct (f b a) eqn:E2; simpl; [done|]. apply less_asym.
  - intros a b c. destruct (f a b) eqn:E1; simpl; [done|]. destruct (f b c) eqn:E2; simpl; [done|].
    rewrite (less_negtrans _ _ _ E1 E2). simpl.
    destruct (f c a) eqn:E3; simpl; [done|].
    assert (B : f b a = false) by (by apply (less_negtrans b c a)).
    assert (C : f c b = false) by (by apply (less_negtrans c a b)).
    rewrite B, C. simpl. apply less_negtrans.
Qed.
