(* ===== verification/GoFloat.v ===== *)
(** * Floating point

    Go's [float64] and [float32] are IEEE 754 binary64 and binary32 with
    rounding to nearest, ties to even; the Standard Library's [SpecFloat]
    computes with them exactly.  A literal is the nearest double of its decimal
    value.  Conversions to [int64] truncate; a value that does not fit (which
    Go leaves to the processor) gives the smallest integer, as on amd64. *)

From S2P Require Import Prelude.
From Stdlib Require Import SpecFloat.
#[local] Open Scope Z_scope.

Module GoFloat.

Definition float64 : Type := spec_float.
Definition float32 : Type := spec_float.

Definition of_int (z : Z) : float64 := binary_normalize 53 1024 z 0 false.
(** The double nearest to [n / d]. *)
Definition literal (n d : Z) : float64 := SFdiv 53 1024 (of_int n) (of_int d).
Definition mul : float64 -> float64 -> float64 := SFmul 53 1024.
Definition add : float64 -> float64 -> float64 := SFadd 53 1024.
Definition sub : float64 -> float64 -> float64 := SFsub 53 1024.
Definition ltb : float64 -> float64 -> bool := SFltb.
Definition leb : float64 -> float64 -> bool := SFleb.
Definition is_nan (x : float64) : bool := match x with S754_nan => true | _ => false end.
(** [math.MaxFloat64] *)
Definition MaxFloat64 : float64 := S754_finite false 9007199254740991 971.

(** Rounding to a [float32], whose values are also doubles. *)
Definition to_float32 (x : float64) : float32 :=
  match x with
  | S754_finite s m e => binary_normalize 24 128 (cond_Zopp s (Zpos m)) e s
  | _ => x
  end.
Definition div32 : float32 -> float32 -> float32 := SFdiv 24 128.

(** The value of a finite float, truncated and rounded up. *)
Definition truncated (x : float64) : option Z :=
  match x with
  | S754_finite s m e => Some (cond_Zopp s (if e <? 0 then Zpos m / 2 ^ (- e) else Zpos m * 2 ^ e))
  | S754_zero _ => Some 0
  | _ => None
  end.
Definition rounded_up (x : float64) : option Z :=
  match x with
  | S754_finite false m e => Some (if e <? 0 then - (- Zpos m / 2 ^ (- e)) else Zpos m * 2 ^ e)
  | S754_finite true m e => Some (- (if e <? 0 then Zpos m / 2 ^ (- e) else Zpos m * 2 ^ e))
  | S754_zero _ => Some 0
  | _ => None
  end.
#[export] Instance int64_ok_dec z : Decision (int64_ok z).
Proof. unfold int64_ok. solve_decision. Defined.
Definition smallest_int64 : Z := - 2 ^ 63.
Definition in_int64 (z : option Z) : Z :=
  match z with Some z => if bool_decide (int64_ok z) then z else smallest_int64 | None => smallest_int64 end.

(** [int64(x)] and [int64(math.Ceil(x))] *)
Definition to_int64 (x : float64) : Z := in_int64 (truncated x).
Definition ceil_int64 (x : float64) : Z := in_int64 (rounded_up x).

Lemma to_int64_range x : int64_ok (to_int64 x).
Proof. unfold to_int64, in_int64, smallest_int64. destruct (truncated x) as [z|]; [case_bool_decide; [done|]|]; unfold int64_ok; lia. Qed.

Example literal_truncates : to_int64 (mul (of_int 1000) (literal 6 100)) = 60.
Proof. reflexivity. Qed.

End GoFloat.
