(* ===== verification/Effects.v ===== *)
(** * Programs that call other parties

    A program that talks to Azure, to Kubernetes or to another component is a
    tree of calls: each call waits for an answer of its type and goes on with
    it.  [run] executes a program against an environment that may answer
    anything, depending on everything asked before; [post] is its weakest
    precondition over all answers, stated on the result and the trace of calls
    with their answers. *)

From S2P Require Import Prelude.
#[local] Open Scope list_scope.

Section Io.
Context {req : Type} {resp : req -> Type}.

Inductive io (A : Type) : Type :=
| Ret (a : A)
| Call (q : req) (k : resp q -> io A).

(** A call and its answer. *)
Definition event : Type := { q : req & resp q }.
Definition asked : event -> req := @projT1 req resp.

End Io.
Arguments io {req} resp A.
Arguments Ret {req resp A} a.
Arguments Call {req resp A} q k.
Arguments event {req} resp.
Arguments asked {req resp} e.

(** One call. *)
Definition call {req} {resp : req -> Type} (q : req) : io resp (resp q) := Call q Ret.

Fixpoint io_bind {req} {resp : req -> Type} {A B} (f : A -> io resp B) (m : io resp A) : io resp B :=
  match m with
  | Ret a => f a
  | Call q k => Call q (fun r => io_bind f (k r))
  end.
#[export] Instance io_mret {req} {resp : req -> Type} : MRet (io resp) := fun A a => Ret a.
#[export] Instance io_mbind {req} {resp : req -> Type} : MBind (io resp) := fun A B f m => io_bind f m.

(** Calls for every element of a list, in order. *)
Fixpoint io_each {req} {resp : req -> Type} {A} (f : A -> io resp unit) (l : list A) : io resp unit :=
  match l with [] => Ret tt | x :: l' => _ ← f x; io_each f l' end.

Section Semantics.
Context {req : Type} {resp : req -> Type}.
#[local] Abbreviation io := (io resp).
#[local] Abbreviation event := (event resp).

(** Execution after the events [h]. *)
Fixpoint run {A} (env : list event -> forall q, resp q) (m : io A) (h : list event) : A * list event :=
  match m with
  | Ret a => (a, h)
  | Call q k => let r := env h q in run env (k r) (h ++ [existT q r])
  end.

Fixpoint post {A} (m : io A) (Q : A -> list event -> Prop) : Prop :=
  match m with
  | Ret a => Q a []
  | Call q k => forall r, post (k r) (fun a t => Q a (existT q r :: t))
  end.

Lemma post_mono {A} (m : io A) (P Q : A -> list event -> Prop) :
  (forall a t, P a t -> Q a t) -> post m P -> post m Q.
Proof. revert P Q. induction m as [a|q k IH]; simpl; intros P Q H; [apply H|]. intros W r. eapply IH; [|apply W]; eauto. Qed.

Lemma post_bind {A B} (m : io A) (f : A -> io B) Q :
  post (m ≫= f) Q <-> post m (fun a t => post (f a) (fun b t' => Q b (t ++ t'))).
Proof.
  revert Q. induction m as [a|q k IH]; intros Q; [done|]. split; intros W r; [exact (proj1 (IH r _) (W r))|exact (proj2 (IH r _) (W r))].
Qed.

(** What holds of every trace holds of the run in any environment. *)
Lemma post_run {A} (m : io A) Q env h :
  post m Q -> exists t, (run env m h).2 = h ++ t /\ Q (run env m h).1 t.
Proof.
  revert Q h. induction m as [a|q k IH]; simpl; intros Q h W.
  - exists []. by rewrite app_nil_r.
  - destruct (IH (env h q) _ (h ++ [existT q (env h q)]) (W _)) as (t & E & HQ).
    exists (existT q (env h q) :: t). by rewrite E, <- app_assoc.
Qed.

Lemma post_conj {A} (m : io A) P Q : post m P -> post m Q -> post m (fun a t => P a t /\ Q a t).
Proof. revert P Q. induction m as [a|q k IH]; simpl; intros P Q; [by split|]. intros W1 W2 r. by apply IH. Qed.

Lemma post_each {A} (f : A -> io unit) l (Q : list event -> Prop) :
  Q [] -> (forall x t, x ∈ l -> Q t -> post (f x) (fun _ u => Q (t ++ u))) ->
  post (io_each f l) (fun _ t => Q t).
Proof.
  intros Q0 St. enough (H : forall t, Q t -> post (io_each f l) (fun _ u => Q (t ++ u))) by by apply (H []).
  clear Q0. induction l as [|x l IH]; intros t Qt; cbn [io_each].
  - cbn [post]. by rewrite app_nil_r.
  - apply post_bind. eapply (post_mono _ (fun _ u => Q (t ++ u))); [|apply (St x t); [left|done]].
    intros a u Qu. eapply post_mono; [|apply (IH ltac:(intros; apply St; [by right|done]) (t ++ u) Qu)].
    intros b v. by rewrite app_assoc.
Qed.

Lemma run_bind {A B} (env : list event -> forall q, resp q) (m : io A) (f : A -> io B) h :
  run env (m ≫= f) h = run env (f (run env m h).1) (run env m h).2.
Proof. revert h. induction m as [a|q k IH]; intros h; [done|]. apply IH. Qed.

(** A run is its outcome and its trace. *)
Lemma run_outcome {A} (env : list event -> forall q, resp q) (m : io A) a :
  (run env m []).1 = a -> run env m [] = (a, (run env m []).2).
Proof. intros <-. apply surjective_pairing. Qed.

Lemma post_true {A} (m : io A) : post m (fun _ _ => True).
Proof. by induction m. Qed.

(** A program's first call comes first. *)
Lemma post_first {A} q (k : resp q -> io A) : post (Call q k) (fun _ t => exists r rest, t = existT q r :: rest).
Proof. intros r. eapply post_mono; [|apply post_true]. intros _ t _. by exists r, t. Qed.

(** ** Which calls a program makes *)

Fixpoint only {A} (P : req -> Prop) (m : io A) : Prop :=
  match m with Ret _ => True | Call q k => P q /\ forall r, only P (k r) end.

Lemma only_bind {A B} P (m : io A) (f : A -> io B) :
  only P m -> (forall a, only P (f a)) -> only P (m ≫= f).
Proof.
  intros W F. induction m as [a|q k IH]; [apply F|]. destruct W as [Pq W].
  split; [exact Pq|]. intros r. exact (IH r (W r)).
Qed.

Lemma only_call P q : P q -> only P (call q).
Proof. by split. Qed.

Lemma only_mono {A} (P Q : req -> Prop) (m : io A) : (forall q, P q -> Q q) -> only P m -> only Q m.
Proof. intros I. induction m as [a|q k IH]; [done|]. intros [Pq W]. split; [by apply I|]. intros r. by apply IH. Qed.

Lemma only_post {A} P (m : io A) : only P m -> post m (fun _ t => Forall (fun e => P (asked e)) t).
Proof.
  induction m as [a|q k IH]; [constructor|]. intros [Pq W] r.
  apply (post_mono _ (fun _ t => Forall (fun e => P (asked e)) t)); [|by apply IH].
  intros a t F. by constructor.
Qed.

End Semantics.

(** A split of a list at an element that is not like the others is the one
    known. *)
Lemma unique_split {A} (P : A -> Prop) l1 x l2 l1' y l2' :
  Forall P l1 -> Forall P l2 -> ~ P y -> l1 ++ x :: l2 = l1' ++ y :: l2' -> l1' = l1 /\ y = x /\ l2' = l2.
Proof.
  intros QA QB Ny Es. apply app_eq_inv in Es as [(k & Ek & Es)|(k & Ek & Es)].
  - subst l1. destruct k as [|z k]; [injection Es as -> ->; by rewrite app_nil_r|].
    injection Es as -> _. apply Forall_app in QA as [_ QA]. by apply Forall_cons in QA as [Hy _].
  - destruct k as [|z k]; [injection Es as -> ->; by rewrite app_nil_r in Ek|].
    injection Es as -> ->. apply Forall_app in QB as [_ QB]. by apply Forall_cons in QB as [Hy _].
Qed.

(** ** A program of one interface as a program of a larger one *)

Section Lift.
Context {req req' : Type} {resp : req -> Type} {resp' : req' -> Type}.
Context (f : req -> req') (back : forall q, resp' (f q) -> resp q).

Fixpoint lift {A} (m : io resp A) : io resp' A :=
  match m with
  | Ret a => Ret a
  | Call q k => Call (f q) (fun r => lift (k (back q r)))
  end.

Lemma only_lift {A} (P : req' -> Prop) (m : io resp A) : (forall q, P (f q)) -> only P (lift m).
Proof. intros W. induction m as [a|q k IH]; [done|]. split; [apply W|]. intros r. apply IH. Qed.

(** The answers of the larger interface are those of the smaller one. *)
Context (forth : forall q, resp q -> resp' (f q)) (inverse : forall q r, forth q (back q r) = r).
Definition lift_event (e : event resp) : event resp' := let '(existT q r) := e in existT (f q) (forth q r).

Lemma post_lift {A} (m : io resp A) (Q : A -> list (event resp) -> Prop) :
  post m Q -> post (lift m) (fun a t => exists u, t = map lift_event u /\ Q a u).
Proof.
  revert Q. induction m as [a|q k IH]; simpl; intros Q W; [by exists []|]. intros r.
  eapply post_mono; [|apply (IH _ _ (W (back q r)))]. intros a t (u & -> & HQ).
  exists (existT q (back q r) :: u). simpl. by rewrite inverse.
Qed.

End Lift.

(** Programs built from smaller ones make the calls of their parts. *)
Create HintDb io.
#[export] Hint Resolve only_call : io.
Ltac only_calls :=
  repeat (intros || match goal with
    | |- only _ (mbind _ _) => apply only_bind
    | |- only _ (Ret _) => exact I
    | |- only _ (mret _) => exact I
    | |- only _ (call _) => apply only_call; try done
    | |- only _ (match ?x with _ => _ end) => destruct x
    | |- only _ _ => solve [eauto with io]
    end).

(** Step through a program: introduce the answers, decide on them. *)
Ltac io_step :=
  match goal with
  | |- post (mbind _ _) _ => apply post_bind
  | |- post (Call _ _) _ => let r := fresh "r" in cbn [post]; intros r
  | |- post (call _) _ => let r := fresh "r" in cbn [post call]; intros r
  | |- post (Ret ?a) ?Q => change (Q a []); cbv beta
  | |- post (mret ?a) ?Q => change (Q a []); cbv beta
  | |- post (match ?x with _ => _ end) _ => destruct x eqn:?
  end.

(** An event or a call is on an explicit trace. *)
Ltac in_trace := simpl; repeat first [apply list_elem_of_here | apply list_elem_of_further].
