(* ===== verification/Cloud.v ===== *)
(** * What the program reads of library values

    Karpenter core's [cloudprovider.InstanceType] and [Offering] and skewer's
    [SKU] come from libraries.  A record here holds, per field, the answer the
    accessor used by the program gives: for an offering the values
    [Requirements.Get(label).Any()] of the three labels the provider sets
    itself, for a SKU the results of [GetName], [GetFamilyName] and [VCPU]. *)

From S2P Require Import Prelude.
#[local] Open Scope string_scope.
#[local] Open Scope Z_scope.

(** [karpv1.CapacityTypeSpot] and [karpv1.CapacityTypeOnDemand]. *)
Definition CapacityTypeSpot : string := "spot".
Definition CapacityTypeOnDemand : string := "on-demand".

(** A skewer SKU: [sku_vcpu] is [None] when [VCPU()] fails. *)
Record SKU := mk_sku {
  sku_name : string;
  sku_family : string;
  sku_vcpu : option Z
}.

(** A Karpenter offering.  The price is a finite [float64], given exactly as a
    number of units of 2^-1074, the smallest positive double: only its order
    is used. *)
Record Offering := mk_offering {
  of_capacity_type : string;
  of_zone : string;
  of_scope : string;
  of_price : Z;
  of_available : bool
}.

(** A Karpenter instance type; [it_os] is its [kubernetes.io/os] value. *)
Record InstanceType := mk_instance_type {
  it_name : string;
  it_os : string;
  it_offerings : list Offering
}.

#[export] Instance SKU_eq_dec : EqDecision SKU.
Proof. solve_decision. Defined.
#[export] Instance Offering_eq_dec : EqDecision Offering.
Proof. solve_decision. Defined.
#[export] Instance InstanceType_eq_dec : EqDecision InstanceType.
Proof. solve_decision. Defined.
