(* ===== verification/Conditions.v ===== *)
(** * Status conditions ([github.com/awslabs/operatorpkg/status])

    A NodeClass reports readiness through conditions.  The library is not part
    of the repository: [ConditionSet] lists the operations the reconcilers
    call and [ConditionLaws] what they rely on; [map_conditions] is an
    instance.  Messages and transition times are left out. *)

From S2P Require Import Prelude.
#[local] Open Scope string_scope.
#[local] Open Scope Z_scope.

Inductive ConditionStatus := CTrue | CFalse | CUnknown.
#[export] Instance ConditionStatus_eq_dec : EqDecision ConditionStatus.
Proof. solve_decision. Defined.

Record Condition := mk_condition {
  c_status : ConditionStatus;
  c_reason : string;
  c_generation : Z
}.

(** The conditions of an object: reading a condition, and setting it at the
    object's generation with a reason.  The root condition "Ready" is derived
    by the library from the others. *)
Class ConditionSet := {
  conditions : Type;
  cond_get : string -> conditions -> Condition;
  cond_true : Z -> string -> string -> conditions -> conditions;
  cond_false : Z -> string -> string -> conditions -> conditions;
  cond_clear : string -> conditions -> conditions
}.

Definition RootCondition : string := "Ready".

Class ConditionLaws `{ConditionSet} : Prop := {
  get_true_eq g t r c : t <> RootCondition -> cond_get t (cond_true g t r c) = mk_condition CTrue r g;
  get_false_eq g t r c : t <> RootCondition -> cond_get t (cond_false g t r c) = mk_condition CFalse r g;
  get_true_ne g t t' r c : t <> t' -> t' <> RootCondition -> cond_get t' (cond_true g t r c) = cond_get t' c;
  get_false_ne g t t' r c : t <> t' -> t' <> RootCondition -> cond_get t' (cond_false g t r c) = cond_get t' c;
  get_clear_ne t t' c : t <> t' -> t' <> RootCondition -> cond_get t' (cond_clear t c) = cond_get t' c
}.

(** ** An instance *)

#[export] Instance map_conditions : ConditionSet := {|
  conditions := gmap string Condition;
  cond_get t c := default (mk_condition CUnknown "AwaitingReconciliation" 0) (c !! t);
  cond_true g t r c := <[t := mk_condition CTrue r g]> c;
  cond_false g t r c := <[t := mk_condition CFalse r g]> c;
  cond_clear t c := delete t c
|}.
#[export] Instance map_conditions_laws : ConditionLaws (H := map_conditions).
Proof. split; intros; simpl; by rewrite ?lookup_insert_eq, ?lookup_insert_ne, ?lookup_delete_ne by done. Qed.
