(* ===== verification/OSDisk.v ===== *)
(** * OS disks ([pkg/providers/instancetype/osdisk.go])

    For each VM size the provider decides whether the OS disk is ephemeral,
    where it is placed and how large it is.  A record holds the answers of
    skewer's accessors; sizes are [int64]. *)

From S2P Require Import Prelude GoString.
#[local] Open Scope string_scope.
#[local] Open Scope list_scope.
#[local] Open Scope Z_scope.

Module OSDisk.

(** ** What is read of a size *)

(** A string capability: its value, its absence, or another failure. *)
Inductive capability := Found (value : string) | NotFound | Failed.

Record SKU := mk_sku {
  IsEphemeralOSDiskSupported : bool;
  MaxCachedDiskBytes : Z;
  MaxResourceVolumeMB : Z;
  NvmeDiskSizeInMiB : Z;
  SupportedEphemeralOSDiskPlacements : capability;
  VCPU : option Z
}.

Inductive placement := CacheDisk | ResourceDisk | NvmeDisk.
Definition placement_name (p : placement) : string :=
  match p with CacheDisk => "CacheDisk" | ResourceDisk => "ResourceDisk" | NvmeDisk => "NvmeDisk" end.
#[export] Instance placement_eq_dec : EqDecision placement.
Proof. solve_decision. Defined.

Inductive OSDiskType := Managed | Ephemeral.
#[export] Instance OSDiskType_eq_dec : EqDecision OSDiskType.
Proof. solve_decision. Defined.
Record OSDiskProfile := mk_profile { SizeGB : Z; Type_ : OSDiskType; Placement : option placement }.
Record ephemeralOSDiskPlacement := mk_candidate { ep_placement : placement; sizeBytes : Z }.

Definition MiB : Z := 2 ^ 20.
Definition GiB : Z := 2 ^ 30.
Definition Gigabyte : Z := 10 ^ 9.
Definition MaxInt64 : Z := 2 ^ 63 - 1.
Definition maxEphemeralOSDiskSizeGiB : Z := 2040.
Definition minEphemeralOSDiskSizeGiB : Z := 128.

(** ** Placements *)

Definition appendEphemeralOSDiskPlacementIfEligible (candidates : list ephemeralOSDiskPlacement)
    (supported : bool) (p : placement) (bytes : Z) : list ephemeralOSDiskPlacement :=
  if supported && (0 <? bytes) then candidates ++ [mk_candidate p bytes] else candidates.

Definition maxMiBWithoutOverflow : Z := MaxInt64 / MiB.
Definition mib_to_bytes (n : Z) : Z := i64 (Z.min (Z.max n 0) maxMiBWithoutOverflow * MiB).

(** Whether a placement is named in the comma separated list. *)
Definition listed (value : string) (p : placement) : bool :=
  existsb (fun w => EqualFold (TrimSpace w) (placement_name p)) (Split value ",").

(** The size a placement offers, and whether it is supported. *)
Definition placement_bytes (s : SKU) (p : placement) : Z :=
  match p with
  | CacheDisk => Z.max (MaxCachedDiskBytes s) 0
  | ResourceDisk => mib_to_bytes (MaxResourceVolumeMB s)
  | NvmeDisk => mib_to_bytes (NvmeDiskSizeInMiB s)
  end.
Definition placement_supported (s : SKU) (p : placement) : bool :=
  match SupportedEphemeralOSDiskPlacements s with
  | Found value => listed value p
  | NotFound =>
      match p with
      | CacheDisk | ResourceDisk => 0 <? placement_bytes s p
      | NvmeDisk => false
      end
  | Failed => false
  end.

Definition listRankedEligibleEphemeralOSDiskPlacements (sku : option SKU) : list ephemeralOSDiskPlacement :=
  match sku with
  | None => []
  | Some s =>
      if negb (IsEphemeralOSDiskSupported s) then []
      else
        let add cs p := appendEphemeralOSDiskPlacementIfEligible cs (placement_supported s p) p (placement_bytes s p) in
        add (add (add [] CacheDisk) ResourceDisk) NvmeDisk
  end.

Definition getPreferredLargestEphemeralOSDiskPlacement (sku : option SKU) : option ephemeralOSDiskPlacement :=
  match listRankedEligibleEphemeralOSDiskPlacements sku with
  | [] => None
  | first :: rest =>
      Some (foldl (fun largest c => if sizeBytes largest <? sizeBytes c then c else largest) first rest)
  end.

Definition required_bytes (sizeGiB : Z) (trustedLaunch : bool) : Z :=
  let b := i64 (sizeGiB * GiB) in if trustedLaunch then i64 (b + GiB) else b.

Definition selectBestEphemeralOSDiskPlacement (sku : option SKU) (sizeGiB : Z) (trustedLaunch : bool) :
    option placement :=
  if (sizeGiB <? 0) || (maxEphemeralOSDiskSizeGiB <? sizeGiB) then None
  else
    ep_placement <$> List.find (fun c => required_bytes sizeGiB trustedLaunch <=? sizeBytes c)
      (listRankedEligibleEphemeralOSDiskPlacements sku).

Definition defaultManagedOSDiskSizeGB (sku : option SKU) : Z :=
  match sku with
  | None => 128
  | Some s =>
      match VCPU s with
      | None => 128
      | Some vcpus =>
          if vcpus <? 8 then 128 else if vcpus <? 16 then 256 else if vcpus <? 64 then 512 else 1024
      end
  end.

(** Capacity advertised for ephemeral disks, in decimal GB. *)
Definition FindMaxEphemeralSizeGBAndPlacement (sku : option SKU) : Z * option placement :=
  match getPreferredLargestEphemeralOSDiskPlacement sku with
  | None => (0, None)
  | Some largest =>
      let sizeGB := Z.min (sizeBytes largest) (i64 (maxEphemeralOSDiskSizeGiB * GiB)) / Gigabyte in
      if sizeGB =? 0 then (0, None) else (sizeGB, Some (ep_placement largest))
  end.

Definition OSDiskTypeManaged : string := "Managed".

Definition ResolveOSDiskProfileFromSKU (sku : option SKU) (requestedOSDiskSizeGB : option Z)
    (requestedOSDiskType : string) (trustedLaunch : bool) : OSDiskProfile :=
  if requestedOSDiskType ==? OSDiskTypeManaged then
    match requestedOSDiskSizeGB with
    | Some size => mk_profile size Managed None
    | None => mk_profile (defaultManagedOSDiskSizeGB sku) Managed None
    end
  else
    match requestedOSDiskSizeGB with
    | Some size =>
        match selectBestEphemeralOSDiskPlacement sku size trustedLaunch with
        | Some p => mk_profile size Ephemeral (Some p)
        | None => mk_profile size Managed None
        end
    | None =>
        let fallback := mk_profile (defaultManagedOSDiskSizeGB sku) Managed None in
        match getPreferredLargestEphemeralOSDiskPlacement sku with
        | None => fallback
        | Some largest =>
            let maximizedSizeGiB := sizeBytes largest / GiB in
            if minEphemeralOSDiskSizeGiB <=? maximizedSizeGiB then
              let size := Z.min (if trustedLaunch then maximizedSizeGiB - 1 else maximizedSizeGiB)
                            maxEphemeralOSDiskSizeGiB in
              match selectBestEphemeralOSDiskPlacement sku size trustedLaunch with
              | Some p => mk_profile (i32 size) Ephemeral (Some p)
              | None => fallback
              end
            else fallback
        end
    end.

(** [ResolveOSDiskProfileFromInstanceType]: the provider finds the SKU or
    fails. *)
Definition ResolveOSDiskProfileFromInstanceType {E} (get : string -> result E (option SKU)) (name : string)
    (requestedOSDiskSizeGB : option Z) (requestedOSDiskType : string) (trustedLaunch : bool) :
    result E OSDiskProfile :=
  sku ← get name; Ok (ResolveOSDiskProfileFromSKU sku requestedOSDiskSizeGB requestedOSDiskType trustedLaunch).

(** ** Candidates *)

#[local] Abbreviation ranked := listRankedEligibleEphemeralOSDiskPlacements.

(** The candidates are the supported placements with room, in the order of
    preference. *)
Lemma ranked_elem s c :
  c ∈ ranked (Some s) <->
  IsEphemeralOSDiskSupported s = true /\ placement_supported s (ep_placement c) = true /\
  sizeBytes c = placement_bytes s (ep_placement c) /\ 0 < sizeBytes c.
Proof.
  assert (A : forall cs p b d, d ∈ appendEphemeralOSDiskPlacementIfEligible cs (placement_supported s p) p b <->
    d ∈ cs \/ (placement_supported s p = true /\ 0 < b /\ d = mk_candidate p b)).
  { intros cs p b d. unfold appendEphemeralOSDiskPlacementIfEligible.
    destruct (placement_supported s p), (Z.ltb_spec 0 b); simpl;
      rewrite ?elem_of_app, ?list_elem_of_singleton; naive_solver lia. }
  unfold listRankedEligibleEphemeralOSDiskPlacements.
  destruct (IsEphemeralOSDiskSupported s); cbn [negb]; [|split; [intros N; inversion N|by intros [? _]]].
  rewrite !A, elem_of_nil. destruct c as [p b]; simpl. split.
  - intros [[[[]|(? & ? & [= -> ->])]|(? & ? & [= -> ->])]|(? & ? & [= -> ->])]; auto.
  - intros (_ & S & -> & P). destruct p; naive_solver.
Qed.

Lemma largest_fold c0 cs :
  let m := foldl (fun l c => if sizeBytes l <? sizeBytes c then c else l) c0 cs in
  (m = c0 \/ m ∈ cs) /\ sizeBytes c0 <= sizeBytes m /\ (forall c, c ∈ cs -> sizeBytes c <= sizeBytes m).
Proof.
  revert c0. induction cs as [|c cs IH]; intros c0; simpl; [by split; [left|split; [lia|set_solver]]|].
  destruct (Z.ltb_spec (sizeBytes c0) (sizeBytes c)) as [L|L].
  - destruct (IH c) as (M & Le & F). split; [right; destruct M as [->|?]; [left|by right]|].
    split; [lia|]. intros d [->|Hd]%elem_of_cons; [done|by apply F].
  - destruct (IH c0) as (M & Le & F). split; [destruct M as [->|?]; [by left|right; by right]|].
    split; [done|]. intros d [->|Hd]%elem_of_cons; [lia|by apply F].
Qed.

(** The preferred largest candidate is a largest one; there is none only when
    there is no candidate. *)
Lemma largest_spec sku :
  match getPreferredLargestEphemeralOSDiskPlacement sku with
  | Some m => m ∈ ranked sku /\ forall c, c ∈ ranked sku -> sizeBytes c <= sizeBytes m
  | None => ranked sku = []
  end.
Proof.
  unfold getPreferredLargestEphemeralOSDiskPlacement. destruct (ranked sku) as [|c cs]; [done|].
  destruct (largest_fold c cs) as ([->|M] & Le & F); (split; [by constructor|]);
    intros d [->|Hd]%elem_of_cons; auto.
Qed.

(** The bytes a disk needs, without overflow. *)
Definition needs (sizeGiB : Z) (trustedLaunch : bool) : Z :=
  (sizeGiB + if trustedLaunch then 1 else 0) * GiB.

Lemma required_bytes_ok n tl : 0 <= n <= maxEphemeralOSDiskSizeGiB -> required_bytes n tl = needs n tl.
Proof.
  unfold required_bytes, needs, GiB, maxEphemeralOSDiskSizeGiB. intros H.
  rewrite (i64_id (n * 2 ^ 30)) by (unfold int64_ok; lia).
  destruct tl; [rewrite i64_id by (unfold int64_ok; lia)|]; lia.
Qed.

(** A placement is chosen: the most preferred one with room for the disk. *)
Lemma select_spec sku n tl :
  match selectBestEphemeralOSDiskPlacement sku n tl with
  | Some p =>
      0 <= n <= maxEphemeralOSDiskSizeGiB /\
      exists l1 c l2, ranked sku = l1 ++ c :: l2 /\ ep_placement c = p /\ needs n tl <= sizeBytes c /\
        forall d, d ∈ l1 -> sizeBytes d < needs n tl
  | None => 0 <= n <= maxEphemeralOSDiskSizeGiB -> forall d, d ∈ ranked sku -> sizeBytes d < needs n tl
  end.
Proof.
  unfold selectBestEphemeralOSDiskPlacement.
  destruct ((n <? 0) || (maxEphemeralOSDiskSizeGiB <? n)) eqn:R; [lia|].
  assert (Hn : 0 <= n <= maxEphemeralOSDiskSizeGiB) by lia.
  rewrite required_bytes_ok by done. clear R. induction (ranked sku) as [|c l IH]; simpl; [set_solver|].
  destruct (Z.leb_spec (needs n tl) (sizeBytes c)) as [L|L]; simpl.
  - split; [done|]. exists [], c, l. split; [done|]. split; [done|]. split; [done|]. set_solver.
  - destruct (List.find _ l) as [c'|]; simpl in *.
    + destruct IH as (_ & l1 & d & l2 & -> & E & F & B). split; [done|]. exists (c :: l1), d, l2.
      split; [done|]. split; [done|]. split; [done|]. intros x [->|Hx]%elem_of_cons; auto.
    + intros _ d [->|Hd]%elem_of_cons; [done|]. by apply IH.
Qed.

(** The disk fits a candidate. *)
Definition fits (sku : option SKU) (n : Z) (trustedLaunch : bool) : Prop :=
  exists c, c ∈ ranked sku /\ needs n trustedLaunch <= sizeBytes c.

(** The chosen placement is the most preferred candidate with room. *)
Definition preferred (sku : option SKU) (n : Z) (trustedLaunch : bool) (p : placement) : Prop :=
  exists l1 c l2, ranked sku = l1 ++ c :: l2 /\ ep_placement c = p /\ needs n trustedLaunch <= sizeBytes c /\
    forall d, d ∈ l1 -> sizeBytes d < needs n trustedLaunch.

Lemma select_some sku n tl p :
  selectBestEphemeralOSDiskPlacement sku n tl = Some p ->
  0 <= n <= maxEphemeralOSDiskSizeGiB /\ preferred sku n tl p /\ fits sku n tl.
Proof.
  intros E. pose proof (select_spec sku n tl) as S. rewrite E in S.
  destruct S as (B & l1 & c & l2 & R & Ep & N & F). split; [done|]. split; [by exists l1, c, l2|].
  exists c. split; [rewrite R; set_solver|done].
Qed.

Lemma select_none sku n tl :
  selectBestEphemeralOSDiskPlacement sku n tl = None -> 0 <= n <= maxEphemeralOSDiskSizeGiB -> ~ fits sku n tl.
Proof.
  intros E B (c & Hc & N). pose proof (select_spec sku n tl) as S. rewrite E in S. specialize (S B c Hc). lia.
Qed.

(** The automatic size: the largest that fits, if the largest candidate has
    at least the minimum size. *)
Lemma auto_size (sku : option SKU) (tl : bool) (m : ephemeralOSDiskPlacement) (n : Z) :
  m ∈ ranked sku -> (forall c, c ∈ ranked sku -> sizeBytes c <= sizeBytes m) ->
  minEphemeralOSDiskSizeGiB <= sizeBytes m / GiB ->
  n = Z.min (if tl then sizeBytes m / GiB - 1 else sizeBytes m / GiB) maxEphemeralOSDiskSizeGiB ->
  0 <= n <= maxEphemeralOSDiskSizeGiB /\ fits sku n tl /\
  forall k, 0 <= k <= maxEphemeralOSDiskSizeGiB -> fits sku k tl -> k <= n.
Proof.
  unfold minEphemeralOSDiskSizeGiB, maxEphemeralOSDiskSizeGiB, GiB. intros Hm Hl Hmin Hn.
  pose proof (Z.div_mod (sizeBytes m) (2 ^ 30)). pose proof (Z.mod_pos_bound (sizeBytes m) (2 ^ 30)).
  split; [destruct tl; lia|]. split.
  - exists m. split; [done|]. unfold needs, GiB. destruct tl; lia.
  - intros k Hk (c & Hc & N). specialize (Hl c Hc). unfold needs, GiB in N. destruct tl; lia.
Qed.

(** OS disks: an ephemeral disk always has a placement, the most
    preferred one of the size with room for the disk and the reserve of
    trusted launch; a requested size is respected, and is ephemeral exactly
    when it may and can be; without one the disk is the largest that fits, if
    some placement has 128 GiB, and the default managed size otherwise. *)
Theorem os_disk_profile sku size type tl :
  let p := ResolveOSDiskProfileFromSKU sku size type tl in
  (Type_ p = Ephemeral <-> is_Some (Placement p)) /\
  (forall pl, Placement p = Some pl ->
     type <> OSDiskTypeManaged /\ 0 <= SizeGB p <= maxEphemeralOSDiskSizeGiB /\ preferred sku (SizeGB p) tl pl) /\
  (forall n, size = Some n -> SizeGB p = n /\
     (Type_ p = Ephemeral <->
      type <> OSDiskTypeManaged /\ 0 <= n <= maxEphemeralOSDiskSizeGiB /\ fits sku n tl)) /\
  (size = None ->
     (type <> OSDiskTypeManaged /\ (exists c, c ∈ ranked sku /\ minEphemeralOSDiskSizeGiB * GiB <= sizeBytes c) /\
      Type_ p = Ephemeral /\
      forall n, 0 <= n <= maxEphemeralOSDiskSizeGiB -> fits sku n tl -> n <= SizeGB p) \/
     ((type = OSDiskTypeManaged \/ forall c, c ∈ ranked sku -> sizeBytes c < minEphemeralOSDiskSizeGiB * GiB) /\
      p = mk_profile (defaultManagedOSDiskSizeGB sku) Managed None)).
Proof.
  unfold ResolveOSDiskProfileFromSKU.
  destruct (decide (type = OSDiskTypeManaged)) as [->|T].
  { rewrite bool_decide_eq_true_2 by done. destruct size; simpl; repeat split; try done; naive_solver. }
  rewrite bool_decide_eq_false_2 by done. destruct size as [n|].
  - destruct (selectBestEphemeralOSDiskPlacement sku n tl) as [pl|] eqn:S; simpl.
    + apply select_some in S as (B & P & F). split; [by split|]. split; [by intros ? [= <-]|].
      split; [by intros ? [= <-]|done].
    + split; [split; [done|intros [? ?]; done]|]. split; [done|]. split; [|done]. intros ? [= <-].
      split; [done|]. split; [done|]. intros (_ & B & F). by apply (select_none sku n tl S B) in F.
  - pose proof (largest_spec sku) as L.
    destruct (getPreferredLargestEphemeralOSDiskPlacement sku) as [m|].
    + destruct L as [Hm Hl].
      destruct (Z.leb_spec minEphemeralOSDiskSizeGiB (sizeBytes m / GiB)) as [Mi|Mi].
      * destruct (auto_size sku tl m _ Hm Hl Mi eq_refl) as (B & F & Mx). cbv zeta.
        destruct (selectBestEphemeralOSDiskPlacement sku _ tl) as [pl|] eqn:S; [|by apply select_none in S].
        apply select_some in S as (_ & P & _). simpl.
        rewrite i32_id by (unfold int32_ok, maxEphemeralOSDiskSizeGiB in *; lia).
        split; [by split|]. split; [by intros ? [= <-]|]. split; [done|]. intros _. left.
        split; [done|]. split; [|done]. exists m. split; [done|].
        unfold minEphemeralOSDiskSizeGiB in *. pose proof (Z.mul_div_le (sizeBytes m) GiB). unfold GiB in *. lia.
      * simpl. split; [split; [done|intros [? ?]; done]|]. split; [done|]. split; [done|]. intros _. right.
        split; [|done]. right. intros c Hc. specialize (Hl c Hc). unfold minEphemeralOSDiskSizeGiB in *.
        enough (sizeBytes m < 128 * GiB) by lia. apply Z.lt_nge. intros G.
        apply (Z.div_le_mono _ _ GiB) in G; [|unfold GiB; lia]. rewrite Z.div_mul in G by (unfold GiB; lia). lia.
    + rewrite L. simpl. split; [split; [done|intros [? ?]; done]|]. split; [done|]. split; [done|].
      intros _. right. split; [right; intros c Hc; by apply elem_of_nil in Hc|done].
Qed.

End OSDisk.
