(* ===== verification/Unavailable.v ===== *)
(** * The cache of unavailable offerings ([pkg/cache/unavailableofferings.go])

    Offerings Azure rejected at launch are remembered for a while, per
    instance type, zone and capacity type, per VM family at or above a CPU
    count, per SKU and zone, and for spot as a whole; a capacity reservation
    group has a name space of its own.  The provider's mutex makes each
    operation one step of the model; every operation takes the instant [now].
    [seqNum] tells consumers that their view may be stale. *)

From S2P Require Import Prelude GoString GoCache Cloud.
From Stdlib Require Import Btauto.
#[local] Open Scope string_scope.
#[local] Open Scope Z_scope.

Module Unavailable.
Section WithCache.
Context `{TTLCache}.

(** ** State and keys *)

Definition unreservedScope : string := "".
Definition wholeVMFamilyBlockedSentinel : Z := -1.
Definition UnavailableOfferingsTTL : Z := 3 * Minute.

Record UnavailableOfferings := mk_uo {
  singleOfferingCache : tc unit;
  vmFamilyCache : tc Z;
  seqNum : Z
}.

Definition NewUnavailableOfferings : UnavailableOfferings :=
  mk_uo tc_empty tc_empty 0.

Definition set_single (c : tc unit) (u : UnavailableOfferings) : UnavailableOfferings :=
  mk_uo c (vmFamilyCache u) (seqNum u).
Definition set_family (c : tc Z) (u : UnavailableOfferings) : UnavailableOfferings :=
  mk_uo (singleOfferingCache u) c (seqNum u).
(** [u.seqNum.Add(n)], on an [atomic.Uint64]. *)
Definition add_seq (n : Z) (u : UnavailableOfferings) : UnavailableOfferings :=
  mk_uo (singleOfferingCache u) (vmFamilyCache u) (u64 (seqNum u + n)).
Definition bump_if (b : bool) (u : UnavailableOfferings) : UnavailableOfferings :=
  if b then add_seq 1 u else u.

Definition SeqNum (u : UnavailableOfferings) : Z := seqNum u.

Definition capacityReservationGroupScope (id : string) : string := ToLower id.

Definition skuZoneKey (instanceType zone : string) : string :=
  "skuZone:" +:+ instanceType +:+ ":" +:+ zone.

Definition singleInstanceKey (scope instanceType zone capacityType : string) : string :=
  if scope ==? unreservedScope
  then capacityType +:+ ":" +:+ instanceType +:+ ":" +:+ zone
  else "crg:" +:+ scope +:+ ":" +:+ capacityType +:+ ":" +:+ instanceType +:+ ":" +:+ zone.

Definition vmFamilyKey (scope skuFamilyName zone capacityType : string) : string :=
  if scope ==? unreservedScope
  then ToLower ("skuFamily:" +:+ skuFamilyName +:+ ":" +:+ zone +:+ ":" +:+ capacityType)
  else ToLower ("crg:" +:+ scope +:+ ":skuFamily:" +:+ skuFamilyName +:+ ":" +:+ zone
                +:+ ":" +:+ capacityType).

Definition spotKey : string := singleInstanceKey unreservedScope "" "" CapacityTypeSpot.

(** ** Reading *)

(** [sku.VCPU()], or 0 when it cannot be determined. *)
Definition vcpu_or_zero (sku : SKU) : Z := default 0 (sku_vcpu sku).

Definition isFamilyUnavailable (now : Z) (u : UnavailableOfferings)
    (scope : string) (sku : SKU) (zone capacityType : string) : bool :=
  match tc_get now (vmFamilyKey scope (sku_family sku) zone capacityType) (vmFamilyCache u) with
  | Some blockedCPUCount =>
      if blockedCPUCount ==? wholeVMFamilyBlockedSentinel then true
      else blockedCPUCount <=? vcpu_or_zero sku
  | None => false
  end.

Definition isUnavailable (now : Z) (u : UnavailableOfferings)
    (scope : string) (sku : SKU) (zone capacityType : string) : bool :=
  if tc_has now (skuZoneKey (sku_name sku) zone) (singleOfferingCache u) then true
  else if (capacityType ==? CapacityTypeSpot) && tc_has now spotKey (singleOfferingCache u)
  then true
  else if isFamilyUnavailable now u scope sku zone capacityType then true
  else tc_has now (singleInstanceKey scope (sku_name sku) zone capacityType)
         (singleOfferingCache u).

Definition IsUnavailable (now : Z) (u : UnavailableOfferings)
    (sku : SKU) (zone capacityType : string) : bool :=
  isUnavailable now u unreservedScope sku zone capacityType.

(** A view is its scope: it shares the caches of [u]. *)
Definition ForCapacityReservationGroup (id : string) : string :=
  capacityReservationGroupScope id.
Definition IsForCapacityReservationGroup (scope : string) : bool :=
  scope !=? unreservedScope.
Definition view_IsUnavailable (now : Z) (u : UnavailableOfferings) (scope : string)
    (sku : SKU) (zone capacityType : string) : bool :=
  isUnavailable now u scope sku zone capacityType.

(** ** Marking *)

(** The boolean is [changed]: the family is blocked more than before. *)
Definition markFamilyUnavailableAtCPUCountImpl (now : Z) (u : UnavailableOfferings)
    (scope : string) (sku : SKU) (zone capacityType : string) (cpuCount ttl : Z) :
    UnavailableOfferings * bool :=
  if sku_family sku ==? "" then (u, false)
  else
    let key := vmFamilyKey scope (sku_family sku) zone capacityType in
    let '(cpuCount, changed) :=
      match tc_get now key (vmFamilyCache u) with
      | Some current => if current <=? cpuCount then (current, false) else (cpuCount, true)
      | None => (cpuCount, true)
      end in
    (set_family (tc_set now key cpuCount ttl (vmFamilyCache u)) u, changed).

Definition markFamilyUnavailableAtCPUCount (now : Z) (u : UnavailableOfferings)
    (scope : string) (sku : SKU) (zone capacityType : string) (ttl : Z) :
    UnavailableOfferings * bool :=
  markFamilyUnavailableAtCPUCountImpl now u scope sku zone capacityType
    (vcpu_or_zero sku) ttl.

Definition markFamilyUnavailable (now : Z) (u : UnavailableOfferings)
    (scope : string) (sku : SKU) (zone capacityType : string) (ttl : Z) :
    UnavailableOfferings :=
  let '(u', changed) := markFamilyUnavailableAtCPUCountImpl now u scope sku zone
    capacityType wholeVMFamilyBlockedSentinel ttl in
  bump_if changed u'.

Definition MarkFamilyUnavailable (now : Z) (u : UnavailableOfferings)
    (sku : SKU) (zone capacityType : string) (ttl : Z) : UnavailableOfferings :=
  markFamilyUnavailable now u unreservedScope sku zone capacityType ttl.

Definition MarkSpotUnavailableWithTTL (now : Z) (u : UnavailableOfferings) (ttl : Z) :
    UnavailableOfferings :=
  let wasUnavailable := tc_has now spotKey (singleOfferingCache u) in
  bump_if (negb wasUnavailable)
    (set_single (tc_set now spotKey tt ttl (singleOfferingCache u)) u).

Definition MarkSKUZoneUnavailableWithTTL (now : Z) (u : UnavailableOfferings)
    (instanceType zone : string) (ttl : Z) : UnavailableOfferings :=
  let key := skuZoneKey instanceType zone in
  let wasUnavailable := tc_has now key (singleOfferingCache u) in
  bump_if (negb wasUnavailable)
    (set_single (tc_set now key tt ttl (singleOfferingCache u)) u).

Definition markUnavailableWithTTL (now : Z) (u : UnavailableOfferings)
    (scope : string) (sku : SKU) (zone capacityType : string) (ttl : Z) :
    UnavailableOfferings :=
  let wasUnavailable := isUnavailable now u scope sku zone capacityType in
  let u := set_single (tc_set now (singleInstanceKey scope (sku_name sku) zone capacityType)
             tt ttl (singleOfferingCache u)) u in
  let '(u, familyChanged) :=
    if scope ==? unreservedScope
    then markFamilyUnavailableAtCPUCount now u scope sku zone capacityType ttl
    else (u, false) in
  bump_if (negb wasUnavailable || familyChanged) u.

Definition MarkUnavailableWithTTL (now : Z) (u : UnavailableOfferings)
    (sku : SKU) (zone capacityType : string) (ttl : Z) : UnavailableOfferings :=
  markUnavailableWithTTL now u unreservedScope sku zone capacityType ttl.

Definition MarkUnavailable (now : Z) (u : UnavailableOfferings)
    (sku : SKU) (zone capacityType : string) : UnavailableOfferings :=
  MarkUnavailableWithTTL now u sku zone capacityType UnavailableOfferingsTTL.

(** The marking methods of a view. *)
Definition view_MarkUnavailableWithTTL (now : Z) (u : UnavailableOfferings)
    (scope : string) (sku : SKU) (zone capacityType : string) (ttl : Z) :
    UnavailableOfferings :=
  markUnavailableWithTTL now u scope sku zone capacityType ttl.
Definition view_MarkUnavailable (now : Z) (u : UnavailableOfferings)
    (scope : string) (sku : SKU) (zone capacityType : string) : UnavailableOfferings :=
  view_MarkUnavailableWithTTL now u scope sku zone capacityType UnavailableOfferingsTTL.
Definition view_MarkFamilyUnavailable (now : Z) (u : UnavailableOfferings)
    (scope : string) (sku : SKU) (zone capacityType : string) (ttl : Z) :
    UnavailableOfferings :=
  markFamilyUnavailable now u scope sku zone capacityType ttl.
Definition view_MarkSpotUnavailableWithTTL (now : Z) (u : UnavailableOfferings)
    (scope : string) (ttl : Z) : UnavailableOfferings :=
  MarkSpotUnavailableWithTTL now u ttl.
Definition view_MarkSKUZoneUnavailableWithTTL (now : Z) (u : UnavailableOfferings)
    (scope instanceType zone : string) (ttl : Z) : UnavailableOfferings :=
  MarkSKUZoneUnavailableWithTTL now u instanceType zone ttl.

(** ** Clearing *)

Definition Flush (u : UnavailableOfferings) : UnavailableOfferings :=
  add_seq 1 (mk_uo (tc_flush (singleOfferingCache u)) (tc_flush (vmFamilyCache u)) (seqNum u)).

(** Each eviction callback adds one to [seqNum]
    ([NewUnavailableOfferingsWithCache] installs it on both caches). *)
Definition InvalidateCapacityReservationGroup (now : Z) (u : UnavailableOfferings)
    (id : string) : UnavailableOfferings :=
  let scope := capacityReservationGroupScope id in
  if scope ==? unreservedScope then u
  else
    let prefix := "crg:" +:+ scope +:+ ":" in
    let '(single, n) := delete_with_prefix now prefix (singleOfferingCache u) in
    let '(family, m) := delete_with_prefix now prefix (vmFamilyCache u) in
    add_seq (Z.of_nat (n + m)) (mk_uo single family (seqNum u)).

(** The janitors of the two caches. *)
Definition Cleanup (now : Z) (u : UnavailableOfferings) : UnavailableOfferings :=
  let '(single, n) := tc_sweep now (singleOfferingCache u) in
  let '(family, m) := tc_sweep now (vmFamilyCache u) in
  add_seq (Z.of_nat (n + m)) (mk_uo single family (seqNum u)).

End WithCache.

(** ** Queries *)

(** What a consumer asks: an offering seen from a scope. *)
Record query := mk_query {
  q_scope : string;
  q_sku : SKU;
  q_zone : string;
  q_ct : string
}.

(** Names of the shape Azure uses: no component holds the separator of the
    keys, the SKU is named, and the capacity type is one of the two. *)
Definition wf_query (q : query) : bool :=
  free_of ":"%char (q_scope q) && free_of ":"%char (sku_name (q_sku q)) &&
  (sku_name (q_sku q) !=? "") && free_of ":"%char (sku_family (q_sku q)) &&
  free_of ":"%char (q_zone q) &&
  ((q_ct q ==? CapacityTypeSpot) || (q_ct q ==? CapacityTypeOnDemand)).

Definition single_key (q : query) : string :=
  singleInstanceKey (q_scope q) (sku_name (q_sku q)) (q_zone q) (q_ct q).
Definition family_key (q : query) : string :=
  vmFamilyKey (q_scope q) (sku_family (q_sku q)) (q_zone q) (q_ct q).
Definition zone_key (q : query) : string :=
  skuZoneKey (sku_name (q_sku q)) (q_zone q).

(** ** The keys are faithful *)

Lemma wf_query_elim q :
  wf_query q = true ->
  free_of ":"%char (q_scope q) = true /\ free_of ":"%char (sku_name (q_sku q)) = true /\
  sku_name (q_sku q) <> "" /\ free_of ":"%char (sku_family (q_sku q)) = true /\
  free_of ":"%char (q_zone q) = true /\
  (q_ct q = CapacityTypeSpot \/ q_ct q = CapacityTypeOnDemand).
Proof. unfold wf_query. intros H. go_bool. tauto. Qed.

Lemma wf_ct_free q : wf_query q = true -> free_of ":"%char (q_ct q) = true.
Proof. by intros (_ & _ & _ & _ & _ & [-> | ->])%wf_query_elim. Qed.

(** A colon-separated pair splits in one way. *)
Lemma colon_inj a a' b b' :
  free_of ":"%char a = true -> free_of ":"%char a' = true ->
  a +:+ ":" +:+ b = a' +:+ ":" +:+ b' -> a = a' /\ b = b'.
Proof. apply sep_app_inj. Qed.

Lemma single_key_inj q q' :
  wf_query q = true -> wf_query q' = true -> single_key q = single_key q' ->
  q_scope q = q_scope q' /\ sku_name (q_sku q) = sku_name (q_sku q') /\
  q_zone q = q_zone q' /\ q_ct q = q_ct q'.
Proof.
  intros W W'. pose proof (wf_ct_free _ W) as C. pose proof (wf_ct_free _ W') as C'.
  apply wf_query_elim in W as (S & N & _ & _ & _ & T).
  apply wf_query_elim in W' as (S' & N' & _ & _ & _ & T').
  unfold single_key, singleInstanceKey.
  destruct (bool_decide_reflect (q_scope q = unreservedScope)) as [E|E];
    destruct (bool_decide_reflect (q_scope q' = unreservedScope)) as [E'|E']; intros K.
  - apply colon_inj in K as [-> [-> ->]%colon_inj]; try done. by rewrite E, E'.
  - apply (colon_inj _ "crg") in K as [K _]; [|done|done].
    rewrite K in T. by destruct T.
  - apply (colon_inj "crg") in K as [K _]; [|done|done].
    rewrite <- K in T'. by destruct T'.
  - apply (colon_inj "crg" "crg") in K as [_ K]; [|done|done].
    apply colon_inj in K as [-> [-> [-> ->]%colon_inj]%colon_inj]; done.
Qed.

Lemma single_key_ne_spot q : wf_query q = true -> single_key q <> spotKey.
Proof.
  intros W. pose proof (wf_ct_free _ W) as C.
  apply wf_query_elim in W as (_ & N & NE & _ & _ & _).
  unfold single_key, singleInstanceKey. case_bool_decide; [|done].
  intros K. apply (colon_inj _ "spot") in K as [_ K]; [|done|done].
  apply (colon_inj _ "") in K as [K _]; [|done|done]. done.
Qed.

Lemma single_key_ne_zone q n z : wf_query q = true -> single_key q <> skuZoneKey n z.
Proof.
  intros W. pose proof (wf_ct_free _ W) as C.
  apply wf_query_elim in W as (_ & _ & _ & _ & _ & T).
  unfold single_key, singleInstanceKey. case_bool_decide; [|done].
  intros K. apply (colon_inj _ "skuZone") in K as [K _]; [|done|done].
  rewrite K in T. by destruct T.
Qed.

Lemma zone_key_inj n n' z z' :
  free_of ":"%char n = true -> free_of ":"%char n' = true ->
  skuZoneKey n z = skuZoneKey n' z' -> n = n' /\ z = z'.
Proof.
  intros N N' K. apply (colon_inj "skuZone" "skuZone") in K as [_ K]; [|done|done].
  by apply colon_inj in K.
Qed.

Lemma zone_key_ne_spot n z : skuZoneKey n z <> spotKey.
Proof. done. Qed.

(** The two forms of a family key, as colon-separated lists. *)
Lemma family_key_unreserved q :
  q_scope q = unreservedScope ->
  family_key q = "skufamily" +:+ ":" +:+ ToLower (sku_family (q_sku q)) +:+ ":" +:+
    ToLower (q_zone q) +:+ ":" +:+ ToLower (q_ct q).
Proof.
  intros E. unfold family_key, vmFamilyKey. rewrite E, bool_decide_eq_true_2 by done.
  by rewrite !ToLower_app.
Qed.

Lemma family_key_group q :
  q_scope q <> unreservedScope ->
  family_key q = "crg" +:+ ":" +:+ ToLower (q_scope q) +:+ ":" +:+ "skufamily" +:+ ":" +:+
    ToLower (sku_family (q_sku q)) +:+ ":" +:+ ToLower (q_zone q) +:+ ":" +:+ ToLower (q_ct q).
Proof.
  intros E. unfold family_key, vmFamilyKey. rewrite bool_decide_eq_false_2 by done.
  by rewrite !ToLower_app.
Qed.

Lemma family_tail_inj q q' :
  wf_query q = true -> wf_query q' = true ->
  ToLower (sku_family (q_sku q)) +:+ ":" +:+ ToLower (q_zone q) +:+ ":" +:+ ToLower (q_ct q) =
  ToLower (sku_family (q_sku q')) +:+ ":" +:+ ToLower (q_zone q') +:+ ":" +:+ ToLower (q_ct q') ->
  ToLower (sku_family (q_sku q)) = ToLower (sku_family (q_sku q')) /\
  ToLower (q_zone q) = ToLower (q_zone q') /\ q_ct q = q_ct q'.
Proof.
  intros (_ & _ & _ & F & Z & T)%wf_query_elim (_ & _ & _ & F' & Z' & T')%wf_query_elim K.
  apply free_of_ToLower in F, F', Z, Z'.
  apply colon_inj in K as [-> K]; [|done|done].
  apply colon_inj in K as [-> K]; [|done|done].
  destruct T as [T|T], T' as [T'|T']; rewrite T, T' in K |- *;
    vm_compute in K; done.
Qed.

(** Family keys identify scope, family, zone and capacity type up to case. *)
Lemma family_key_inj q q' :
  wf_query q = true -> wf_query q' = true -> family_key q = family_key q' ->
  ToLower (q_scope q) = ToLower (q_scope q') /\
  ToLower (sku_family (q_sku q)) = ToLower (sku_family (q_sku q')) /\
  ToLower (q_zone q) = ToLower (q_zone q') /\ q_ct q = q_ct q'.
Proof.
  intros W W'. pose proof (wf_query_elim _ W) as [S _].
  pose proof (wf_query_elim _ W') as [S' _]. apply free_of_ToLower in S, S'.
  destruct (decide (q_scope q = unreservedScope)) as [E|E];
    destruct (decide (q_scope q' = unreservedScope)) as [E'|E'].
  - rewrite !family_key_unreserved by done. intros K.
    apply colon_inj in K as [_ K]; [|done|done].
    split; [by rewrite E, E'|]. by apply family_tail_inj.
  - rewrite (family_key_unreserved q), (family_key_group q') by done. intros K.
    by apply colon_inj in K as [K _].
  - rewrite (family_key_group q), (family_key_unreserved q') by done. intros K.
    by apply colon_inj in K as [K _].
  - rewrite !family_key_group by done. intros K.
    apply colon_inj in K as [_ K]; [|done|done].
    apply colon_inj in K as [-> K]; [|done|done].
    apply colon_inj in K as [_ K]; [|done|done].
    split; [done|]. by apply family_tail_inj.
Qed.

Lemma family_key_fold q q' :
  ToLower (q_scope q) = ToLower (q_scope q') ->
  ToLower (sku_family (q_sku q)) = ToLower (sku_family (q_sku q')) ->
  ToLower (q_zone q) = ToLower (q_zone q') -> q_ct q = q_ct q' ->
  family_key q = family_key q'.
Proof.
  unfold family_key, vmFamilyKey. intros S F Z ->.
  rewrite (bool_decide_ext (q_scope q = unreservedScope) (q_scope q' = unreservedScope)).
  - by rewrite !ToLower_app, S, F, Z.
  - split; intros E; apply ToLower_nil; [rewrite <- S|rewrite S]; by rewrite E.
Qed.

(** ** What marking does *)

Section Marking.
Context `{TTLCacheLaws}.

Definition answer (t : Z) (u : UnavailableOfferings) (q : query) : bool :=
  isUnavailable t u (q_scope q) (q_sku q) (q_zone q) (q_ct q).

(** The four tests of [isUnavailable] as one disjunction. *)
Definition family_blocked (t : Z) (u : UnavailableOfferings) (q : query) : bool :=
  isFamilyUnavailable t u (q_scope q) (q_sku q) (q_zone q) (q_ct q).

Lemma answer_or t u q :
  answer t u q =
  tc_has t (zone_key q) (singleOfferingCache u) ||
  ((q_ct q ==? CapacityTypeSpot) && tc_has t spotKey (singleOfferingCache u)) ||
  family_blocked t u q ||
  tc_has t (single_key q) (singleOfferingCache u).
Proof.
  unfold answer, isUnavailable, family_blocked, zone_key, single_key.
  by repeat case_match; destruct (tc_has _ _ _), (isFamilyUnavailable _ _ _ _ _ _).
Qed.

(** A family limit [lim] blocks CPU count [v]. *)
Definition limit_blocks (lim v : Z) : bool :=
  (lim ==? wholeVMFamilyBlockedSentinel) || (lim <=? v).

Lemma family_blocked_get t u q :
  family_blocked t u q =
  match tc_get t (family_key q) (vmFamilyCache u) with
  | Some lim => limit_blocks lim (vcpu_or_zero (q_sku q))
  | None => false
  end.
Proof.
  unfold family_blocked, isFamilyUnavailable, family_key, limit_blocks.
  destruct (tc_get _ _ _); [|done]. by case_bool_decide.
Qed.

Lemma answer_bump t b u q : answer t (bump_if b u) q = answer t u q.
Proof. by destruct b. Qed.

Lemma answer_add_seq t n u q : answer t (add_seq n u) q = answer t u q.
Proof. done. Qed.

(** The family entry a marking at [cpu] leaves at the instant of the marking:
    the more restrictive of the old limit and the new one. *)
Definition tighten (old : option Z) (cpu : Z) : Z :=
  match old with
  | Some cur => if cur <=? cpu then cur else cpu
  | None => cpu
  end.

Lemma mark_family_impl_spec now u scope sku zone ct cpu ttl :
  markFamilyUnavailableAtCPUCountImpl now u scope sku zone ct cpu ttl =
  if sku_family sku ==? "" then (u, false)
  else
    let key := vmFamilyKey scope (sku_family sku) zone ct in
    let old := tc_get now key (vmFamilyCache u) in
    (set_family (tc_set now key (tighten old cpu) ttl (vmFamilyCache u)) u,
     match old with Some cur => negb (cur <=? cpu) | None => true end).
Proof.
  unfold markFamilyUnavailableAtCPUCountImpl, tighten. case_bool_decide; [done|].
  destruct (tc_get _ _ _) as [cur|]; [|done]. by destruct (cur <=? cpu).
Qed.

Lemma tighten_blocks old cpu v :
  0 <= cpu ->
  limit_blocks (tighten old cpu) v =
  (match old with Some lim => limit_blocks lim v | None => false end) || (cpu <=? v).
Proof.
  intros Hc. unfold limit_blocks, tighten, wholeVMFamilyBlockedSentinel.
  destruct old as [cur|]; [destruct (Z.leb_spec cur cpu)|];
    repeat case_bool_decide; simpl; lia.
Qed.

Lemma tighten_sentinel old v :
  limit_blocks (tighten old wholeVMFamilyBlockedSentinel) v = true \/
  exists lim, old = Some lim /\ lim < wholeVMFamilyBlockedSentinel.
Proof.
  unfold limit_blocks, tighten, wholeVMFamilyBlockedSentinel.
  destruct old as [cur|]; [|by left]. destruct (Z.leb_spec cur (-1)).
  - destruct (decide (cur = -1)) as [->|]; [by left|]. right. exists cur. split; [done|lia].
  - by left.
Qed.

(** *** [MarkUnavailableWithTTL] *)

Definition mark (now : Z) (u : UnavailableOfferings) (q : query) (ttl : Z) :
    UnavailableOfferings :=
  markUnavailableWithTTL now u (q_scope q) (q_sku q) (q_zone q) (q_ct q) ttl.

(** A marking widens to the family only outside capacity reservation groups,
    and only when the SKU names its family. *)
Definition widens (q : query) : bool :=
  (q_scope q ==? unreservedScope) && (sku_family (q_sku q) !=? "").

Definition old_limit (now : Z) (u : UnavailableOfferings) (q : query) : option Z :=
  tc_get now (family_key q) (vmFamilyCache u).

Lemma mark_single now u q ttl :
  singleOfferingCache (mark now u q ttl) =
  tc_set now (single_key q) tt ttl (singleOfferingCache u).
Proof.
  unfold mark, markUnavailableWithTTL, markFamilyUnavailableAtCPUCount.
  rewrite mark_family_impl_spec. unfold single_key.
  repeat case_bool_decide; simpl; unfold bump_if; by repeat case_match; simplify_eq.
Qed.

Lemma mark_family now u q ttl :
  vmFamilyCache (mark now u q ttl) =
  if widens q
  then tc_set now (family_key q) (tighten (old_limit now u q) (vcpu_or_zero (q_sku q)))
         ttl (vmFamilyCache u)
  else vmFamilyCache u.
Proof.
  unfold mark, markUnavailableWithTTL, markFamilyUnavailableAtCPUCount, widens, old_limit.
  rewrite mark_family_impl_spec. unfold family_key.
  repeat case_bool_decide; simpl; unfold bump_if; by repeat case_match; simplify_eq.
Qed.

Lemma mark_seq now u q ttl :
  seqNum (mark now u q ttl) =
  if negb (answer now u q) ||
     (widens q && match old_limit now u q with
                  | Some cur => negb (cur <=? vcpu_or_zero (q_sku q))
                  | None => true
                  end)
  then u64 (seqNum u + 1) else seqNum u.
Proof.
  unfold mark, markUnavailableWithTTL, markFamilyUnavailableAtCPUCount, widens,
    old_limit, answer.
  rewrite mark_family_impl_spec. unfold family_key.
  repeat case_bool_decide; simpl; unfold bump_if;
    by repeat case_match; simplify_eq/=; rewrite ?orb_false_r in *; simplify_eq.
Qed.

(** The offerings a marking of [q0] is meant to block: the offering itself,
    and outside groups the sizes of its family with at least its CPU count in
    its zone and capacity type. *)
Definition same_offering (q0 q : query) : bool :=
  (q_scope q ==? q_scope q0) && (sku_name (q_sku q) ==? sku_name (q_sku q0)) &&
  (q_zone q ==? q_zone q0) && (q_ct q ==? q_ct q0).

Definition larger_sibling (q0 q : query) : bool :=
  widens q0 && (q_scope q ==? q_scope q0) &&
  EqualFold (sku_family (q_sku q)) (sku_family (q_sku q0)) &&
  EqualFold (q_zone q) (q_zone q0) && (q_ct q ==? q_ct q0) &&
  (vcpu_or_zero (q_sku q0) <=? vcpu_or_zero (q_sku q)).

Lemma single_key_eq q q' :
  wf_query q = true -> wf_query q' = true ->
  bool_decide (single_key q = single_key q') = same_offering q' q.
Proof.
  intros W W'. unfold same_offering.
  case_bool_decide as E.
  - apply single_key_inj in E as (-> & -> & -> & ->); [|done..].
    by rewrite !bool_decide_eq_true_2.
  - symmetry. apply not_true_iff_false. intros T. apply E. go_bool.
    destruct T as [[[S N] Z] C]. unfold single_key. by rewrite S, N, Z, C.
Qed.

Lemma ToLower_unreserved s : ToLower s = unreservedScope -> s = unreservedScope.
Proof. apply ToLower_nil. Qed.

(** How the family test changes when the entry of [q0] is set to a limit. *)
Lemma family_blocked_set now t u u' q0 q lim ttl :
  0 < ttl ->
  vmFamilyCache u' = tc_set now (family_key q0) lim ttl (vmFamilyCache u) ->
  family_blocked t u' q =
  if bool_decide (family_key q = family_key q0)
  then bool_decide (t <= now + ttl) && limit_blocks lim (vcpu_or_zero (q_sku q))
  else family_blocked t u q.
Proof.
  intros Ht E. rewrite !family_blocked_get, E.
  case_bool_decide as K.
  - rewrite K, tc_get_set_eq by done. by case_decide; case_bool_decide.
  - by rewrite tc_get_set_ne.
Qed.

(** The test on the single-offering cache after the entry of [q0] is set. *)
Lemma single_has_set now t u q0 q ttl :
  wf_query q0 = true -> wf_query q = true -> 0 < ttl ->
  tc_has t (single_key q) (tc_set now (single_key q0) tt ttl (singleOfferingCache u)) =
  if same_offering q0 q then bool_decide (t <= now + ttl)
  else tc_has t (single_key q) (singleOfferingCache u).
Proof.
  intros W0 W Ht. rewrite <- (single_key_eq q q0) by done.
  case_bool_decide as K.
  - rewrite K. by apply tc_has_set_eq.
  - by apply tc_has_set_ne.
Qed.

Lemma larger_sibling_key q0 q :
  wf_query q0 = true -> wf_query q = true -> widens q0 = true ->
  larger_sibling q0 q =
  bool_decide (family_key q = family_key q0) &&
  (vcpu_or_zero (q_sku q0) <=? vcpu_or_zero (q_sku q)).
Proof.
  intros W0 W Wd. unfold larger_sibling, EqualFold. rewrite Wd. simpl.
  rewrite <- !andb_assoc, !andb_assoc. f_equal.
  unfold widens in Wd. go_bool. destruct Wd as [S0 _].
  apply eq_true_iff_eq. go_bool. split.
  - intros [[[S F] Z] C]. by apply family_key_fold; rewrite ?S.
  - intros (S & F & Z & C)%family_key_inj; [|done..].
    rewrite S0 in *. apply ToLower_unreserved in S. done.
Qed.

(** The exact effect of a marking on the answers at its instant. *)
Lemma mark_answer now u q0 q ttl :
  wf_query q0 = true -> wf_query q = true -> 0 < ttl ->
  0 <= vcpu_or_zero (q_sku q0) ->
  answer now (mark now u q0 ttl) q =
  answer now u q || same_offering q0 q || larger_sibling q0 q.
Proof.
  intros W0 W Ht Hv. rewrite !answer_or, mark_single.
  unfold zone_key. rewrite !(tc_has_set_ne (singleOfferingCache u))
    by (apply single_key_ne_zone || apply single_key_ne_spot; done).
  rewrite single_has_set by done. rewrite (bool_decide_eq_true_2 (now <= now + ttl)) by lia.
  assert (F : family_blocked now (mark now u q0 ttl) q =
              family_blocked now u q || larger_sibling q0 q).
  { destruct (widens q0) eqn:Wd.
    - rewrite (larger_sibling_key q0 q) by done.
      erewrite family_blocked_set; [|done|rewrite mark_family, Wd; done].
      rewrite (bool_decide_eq_true_2 (now <= now + ttl)) by lia. simpl.
      case_bool_decide as K; [|by rewrite orb_false_r].
      rewrite tighten_blocks by done. rewrite family_blocked_get, K. done.
    - unfold larger_sibling. rewrite Wd. simpl. rewrite orb_false_r.
      rewrite !family_blocked_get, mark_family, Wd. done. }
  rewrite F. destruct (same_offering q0 q); btauto.
Qed.

(** C27. Marking an offering unavailable blocks, at that instant, exactly the
    offering itself and (outside capacity reservation groups) the sizes of the
    same VM family with at least its CPU count in the same zone and capacity
    type; every other offering, seen from any scope, keeps its answer. *)
Theorem mark_blocks_exactly now u q0 q ttl :
  wf_query q0 = true -> wf_query q = true -> 0 < ttl ->
  0 <= vcpu_or_zero (q_sku q0) ->
  answer now (mark now u q0 ttl) q =
  answer now u q || same_offering q0 q || larger_sibling q0 q.
Proof. intros. by apply mark_answer. Qed.

(** A marking does not reach other scopes. *)
Lemma mark_other_scope now t u q0 q ttl :
  wf_query q0 = true -> wf_query q = true ->
  ToLower (q_scope q0) <> ToLower (q_scope q) ->
  answer t (mark now u q0 ttl) q = answer t u q.
Proof.
  intros W0 W NS. rewrite !answer_or, mark_single.
  unfold zone_key. rewrite !(tc_has_set_ne (singleOfferingCache u))
    by (apply single_key_ne_zone || apply single_key_ne_spot; done).
  rewrite (tc_has_set_ne (singleOfferingCache u)).
  2: { intros (S & _)%single_key_inj; [|done..]. by rewrite S in NS. }
  do 2 f_equal. rewrite !family_blocked_get, mark_family.
  destruct (widens q0); [|done]. rewrite tc_get_set_ne; [done|].
  intros (S & _)%family_key_inj; done.
Qed.

(** The failures of one scope never reach another: marking an offering in
    a scope (a capacity reservation group or unreserved capacity) leaves the
    answers for every other scope as they were, now and later. *)
Theorem mark_isolated now t u q0 q ttl :
  wf_query q0 = true -> wf_query q = true ->
  ToLower (q_scope q0) <> ToLower (q_scope q) ->
  answer t (mark now u q0 ttl) q = answer t u q.
Proof. intros. by apply mark_other_scope. Qed.

(** A marked offering stays unavailable until its time to live has passed. *)
Theorem mark_lasts now t u q ttl :
  wf_query q = true -> 0 < ttl -> now <= t <= now + ttl ->
  answer t (mark now u q ttl) q = true.
Proof.
  intros W Ht Hr. rewrite answer_or, mark_single, tc_has_set_eq by done.
  rewrite (bool_decide_eq_true_2 (t <= now + ttl)) by lia. by rewrite !orb_true_r.
Qed.

(** *** Invalidation of a capacity reservation group *)

Lemma single_key_prefix q s :
  wf_query q = true -> free_of ":"%char s = true -> s <> unreservedScope ->
  HasPrefix (single_key q) ("crg:" +:+ s +:+ ":") = bool_decide (q_scope q = s).
Proof.
  intros W Fs Ns. pose proof (wf_ct_free _ W) as C.
  apply wf_query_elim in W as (S & _ & _ & _ & _ & T).
  unfold HasPrefix. apply eq_true_iff_eq. rewrite prefix_spec, bool_decide_eq_true.
  unfold single_key, singleInstanceKey. split.
  - intros [t K]. revert K. rewrite !string_app_assoc. case_bool_decide; intros K.
    + apply (colon_inj _ "crg") in K as [K _]; [|done|done].
      rewrite K in T. by destruct T.
    + apply (colon_inj "crg" "crg") in K as [_ K]; [|done|done].
      by apply colon_inj in K as [-> _].
  - intros ->. rewrite bool_decide_eq_false_2 by done.
    eexists. by rewrite !string_app_assoc.
Qed.

Lemma family_key_prefix q s :
  wf_query q = true -> ToLower (q_scope q) = q_scope q ->
  free_of ":"%char s = true -> s <> unreservedScope ->
  HasPrefix (family_key q) ("crg:" +:+ s +:+ ":") = bool_decide (q_scope q = s).
Proof.
  intros W L Fs Ns. apply wf_query_elim in W as (S & _).
  unfold HasPrefix. apply eq_true_iff_eq. rewrite prefix_spec, bool_decide_eq_true.
  destruct (decide (q_scope q = unreservedScope)) as [E|E].
  - rewrite family_key_unreserved by done. split; [|by intros <-].
    intros [t K]. by apply (colon_inj "skufamily" "crg") in K as [K _].
  - rewrite family_key_group, L by done. split.
    + intros [t K]. rewrite !string_app_assoc in K.
      apply (colon_inj "crg" "crg") in K as [_ K]; [|done|done].
      by apply colon_inj in K as [-> _].
    + intros ->. eexists. by rewrite !string_app_assoc.
Qed.

(** The exact effect of an invalidation. *)
Lemma invalidate_answer now t u id q :
  wf_query q = true -> q_scope q = ToLower (q_scope q) ->
  free_of ":"%char id = true -> now <= t ->
  answer t (InvalidateCapacityReservationGroup now u id) q =
  if (id !=? "") && (q_scope q ==? ForCapacityReservationGroup id)
  then tc_has t (zone_key q) (singleOfferingCache u) ||
       ((q_ct q ==? CapacityTypeSpot) && tc_has t spotKey (singleOfferingCache u))
  else answer t u q.
Proof.
  intros W L Fid Ht. unfold InvalidateCapacityReservationGroup, ForCapacityReservationGroup.
  set (s := capacityReservationGroupScope id).
  assert (Fs : free_of ":"%char s = true) by (by apply free_of_ToLower).
  destruct (decide (id = "")) as [->|Nid]; [done|].
  assert (Ns : s <> unreservedScope) by (intros E%ToLower_unreserved; done).
  rewrite (bool_decide_eq_false_2 (s = _)), (bool_decide_eq_false_2 (id = _)) by done.
  simpl. rewrite answer_or.
  destruct (delete_with_prefix now _ (singleOfferingCache u)) as [c n] eqn:D1.
  destruct (delete_with_prefix now _ (vmFamilyCache u)) as [f m] eqn:D2.
  pose proof (fun k => delete_with_prefix_get (singleOfferingCache u) now
    ("crg:" +:+ s +:+ ":") t k Ht) as G1. rewrite D1 in G1.
  pose proof (fun k => delete_with_prefix_get (vmFamilyCache u) now
    ("crg:" +:+ s +:+ ":") t k Ht) as G2. rewrite D2 in G2.
  rewrite !family_blocked_get. unfold tc_has in *. simpl in G1, G2 |- *.
  assert (Pz : HasPrefix (zone_key q) ("crg:" +:+ s +:+ ":") = false) by done.
  assert (Ps : HasPrefix spotKey ("crg:" +:+ s +:+ ":") = false) by done.
  rewrite !G1, !G2, Pz, Ps, single_key_prefix, family_key_prefix by done.
  rewrite answer_or, family_blocked_get. unfold tc_has. simpl.
  destruct (bool_decide (q_scope q = s)); [|done]. by rewrite !orb_false_r.
Qed.

(** Invalidating a capacity reservation group forgets every failure
    recorded for that group and nothing else: a query of the group is answered
    by the restrictions that hold for every scope (its SKU and zone, spot as a
    whole), and queries of other groups and of unreserved capacity keep their
    answers. *)
Theorem invalidate_exactly now t u id q :
  wf_query q = true -> q_scope q = ToLower (q_scope q) ->
  free_of ":"%char id = true -> now <= t ->
  answer t (InvalidateCapacityReservationGroup now u id) q =
  if (id !=? "") && (q_scope q ==? ForCapacityReservationGroup id)
  then tc_has t (zone_key q) (singleOfferingCache u) ||
       ((q_ct q ==? CapacityTypeSpot) && tc_has t spotKey (singleOfferingCache u))
  else answer t u q.
Proof. intros. by apply invalidate_answer. Qed.

(** *** The sequence number *)

(** The operations of the cache, with the instant left to the step. *)
Inductive op :=
| OpMark (q : query) (ttl : Z)
| OpMarkFamily (q : query) (ttl : Z)
| OpMarkSpot (ttl : Z)
| OpMarkSKUZone (instanceType zone : string) (ttl : Z)
| OpInvalidate (id : string)
| OpFlush.

Definition step (now : Z) (u : UnavailableOfferings) (o : op) : UnavailableOfferings :=
  match o with
  | OpMark q ttl => markUnavailableWithTTL now u (q_scope q) (q_sku q) (q_zone q) (q_ct q) ttl
  | OpMarkFamily q ttl =>
      markFamilyUnavailable now u (q_scope q) (q_sku q) (q_zone q) (q_ct q) ttl
  | OpMarkSpot ttl => MarkSpotUnavailableWithTTL now u ttl
  | OpMarkSKUZone n z ttl => MarkSKUZoneUnavailableWithTTL now u n z ttl
  | OpInvalidate id => InvalidateCapacityReservationGroup now u id
  | OpFlush => Flush u
  end.

(** The arguments an operation is called with: names of the usual shape, a
    positive time to live. *)
Definition wf_op (o : op) : bool :=
  match o with
  | OpMark q ttl => wf_query q && (0 <? ttl)
  | OpMarkFamily q ttl => wf_query q && (0 <? ttl)
  | OpMarkSpot ttl => 0 <? ttl
  | OpMarkSKUZone n z ttl => free_of ":"%char n && (0 <? ttl)
  | OpInvalidate id => free_of ":"%char id
  | OpFlush => true
  end.

(** The SKU of an operation is the one the query knows under that name. *)
Definition same_catalogue (o : op) (q : query) : Prop :=
  match o with
  | OpMark q0 _ | OpMarkFamily q0 _ => sku_name (q_sku q0) = sku_name (q_sku q) -> q_sku q0 = q_sku q
  | _ => True
  end.

Lemma tc_has_set_noop (c : tc unit) now k k' ttl :
  0 < ttl -> tc_has now k c = true ->
  tc_has now k' (tc_set now k tt ttl c) = tc_has now k' c.
Proof.
  intros Ht Hk. rewrite tc_has_set_now by done. by case_bool_decide; subst.
Qed.

Lemma family_noop now u u' q0 q lim ttl :
  0 < ttl -> old_limit now u q0 = Some lim ->
  vmFamilyCache u' = tc_set now (family_key q0) lim ttl (vmFamilyCache u) ->
  family_blocked now u' q = family_blocked now u q.
Proof.
  intros Ht Ho E. erewrite family_blocked_set by done.
  case_bool_decide as K; [|done]. rewrite bool_decide_eq_true_2 by lia.
  rewrite family_blocked_get, K. unfold old_limit in Ho. by rewrite Ho.
Qed.

Lemma mark_quiet now u q0 q ttl :
  wf_query q0 = true -> wf_query q = true -> 0 < ttl ->
  (sku_name (q_sku q0) = sku_name (q_sku q) -> q_sku q0 = q_sku q) ->
  negb (answer now u q0) ||
    (widens q0 && match old_limit now u q0 with
                  | Some cur => negb (cur <=? vcpu_or_zero (q_sku q0))
                  | None => true
                  end) = false ->
  answer now (mark now u q0 ttl) q = answer now u q.
Proof.
  intros W0 W Ht Hsku Q. apply orb_false_iff in Q as [A0%negb_false_iff Q].
  assert (F : family_blocked now (mark now u q0 ttl) q = family_blocked now u q).
  { destruct (widens q0) eqn:Wd; simpl in Q.
    - destruct (old_limit now u q0) as [cur|] eqn:O; [|done].
      apply negb_false_iff in Q. eapply family_noop; [done|exact O|].
      rewrite mark_family, Wd, O. simpl. by rewrite Q.
    - by rewrite !family_blocked_get, mark_family, Wd. }
  destruct (same_offering q0 q) eqn:S.
  - assert (E : answer now u q = true).
    { unfold same_offering in S. go_bool. destruct S as [[[S N] Z] C].
      unfold answer in *. rewrite S, Z, C, <- Hsku; done. }
    rewrite E, answer_or, F, mark_single, single_has_set, S by done.
    rewrite (bool_decide_eq_true_2 (now <= now + ttl)) by lia. by rewrite !orb_true_r.
  - rewrite !answer_or, F, mark_single, single_has_set, S by done. unfold zone_key.
    by rewrite !(tc_has_set_ne (singleOfferingCache u))
      by (apply single_key_ne_zone || apply single_key_ne_spot; done).
Qed.

Lemma mark_family_quiet now u q0 q ttl u' changed :
  0 < ttl ->
  markFamilyUnavailableAtCPUCountImpl now u (q_scope q0) (q_sku q0) (q_zone q0) (q_ct q0)
    wholeVMFamilyBlockedSentinel ttl = (u', changed) ->
  changed = false -> answer now u' q = answer now u q.
Proof.
  intros Ht. rewrite mark_family_impl_spec. case_bool_decide; [by intros [= <- <-]|].
  intros [= <- <-]. change (vmFamilyKey _ _ _ _) with (family_key q0).
  destruct (tc_get now (family_key q0) (vmFamilyCache u)) as [cur|] eqn:O; [|done].
  intros L%negb_false_iff. rewrite !answer_or. simpl.
  erewrite (family_noop now u _ q0); [done|done|exact O|]. simpl. by rewrite L.
Qed.

Lemma single_quiet now u k q ttl :
  0 < ttl -> tc_has now k (singleOfferingCache u) = true ->
  answer now (set_single (tc_set now k tt ttl (singleOfferingCache u)) u) q = answer now u q.
Proof.
  intros Ht Hk. rewrite !answer_or. simpl. by rewrite !tc_has_set_noop.
Qed.

(** If an invalidation changes an answer, some live entry was evicted. *)
Lemma invalidate_quiet now u id q :
  wf_query q = true -> q_scope q = ToLower (q_scope q) -> free_of ":"%char id = true ->
  (delete_with_prefix now ("crg:" +:+ ToLower id +:+ ":") (singleOfferingCache u)).2 = O ->
  (delete_with_prefix now ("crg:" +:+ ToLower id +:+ ":") (vmFamilyCache u)).2 = O ->
  answer now (InvalidateCapacityReservationGroup now u id) q = answer now u q.
Proof.
  intros W L Fid N M. rewrite invalidate_answer by (done || lia).
  unfold ForCapacityReservationGroup, capacityReservationGroupScope.
  destruct (decide (id = "")) as [->|Nid]; [done|].
  rewrite (bool_decide_eq_false_2 (id = "")) by done. simpl.
  case_bool_decide as S; [|done]. rewrite answer_or.
  assert (Fs : free_of ":"%char (ToLower id) = true) by (by apply free_of_ToLower).
  assert (Ns : ToLower id <> unreservedScope) by (intros E%ToLower_unreserved; done).
  assert (F : tc_get now (family_key q) (vmFamilyCache u) = None).
  { destruct (tc_get _ _ _) eqn:G; [|done].
    eapply (delete_with_prefix_count _ _ ("crg:" +:+ ToLower id +:+ ":")) in G; [lia|].
    rewrite family_key_prefix by done. by apply bool_decide_eq_true. }
  assert (I : tc_get now (single_key q) (singleOfferingCache u) = None).
  { destruct (tc_get now (single_key q) _) eqn:G; [|done].
    eapply (delete_with_prefix_count _ _ ("crg:" +:+ ToLower id +:+ ":")) in G; [lia|].
    rewrite single_key_prefix by done. by apply bool_decide_eq_true. }
  rewrite family_blocked_get, F. unfold tc_has at 5. rewrite I. by rewrite !orb_false_r.
Qed.

Lemma u64_add_ne x n : 0 <= x < 2 ^ 64 -> 0 < n < 2 ^ 64 -> u64 (x + n) <> x.
Proof.
  intros Hx Hn. unfold u64, wrap_u. intros E.
  destruct (Z_lt_le_dec (x + n) (2 ^ 64)).
  - rewrite Z.mod_small in E; lia.
  - replace (x + n) with (x + n - 2 ^ 64 + 1 * 2 ^ 64) in E by lia.
    rewrite Z.mod_add, Z.mod_small in E; lia.
Qed.

(** The number of live entries, which bounds the evictions of one step. *)
Definition live_entries (now : Z) (u : UnavailableOfferings) : nat :=
  (size (tc_items now (singleOfferingCache u)) + size (tc_items now (vmFamilyCache u)))%nat.

(** A consumer that compares sequence numbers misses no change: if an
    operation changes the answer to any query, the sequence number differs
    afterwards. *)
Theorem change_moves_seqNum now u o q :
  wf_op o = true -> wf_query q = true -> q_scope q = ToLower (q_scope q) ->
  same_catalogue o q ->
  0 <= seqNum u < 2 ^ 64 -> Z.of_nat (live_entries now u) < 2 ^ 64 ->
  answer now (step now u o) q <> answer now u q ->
  SeqNum (step now u o) <> SeqNum u.
Proof.
  intros Wo W L Hs Hu Hl Ha. unfold SeqNum.
  pose proof (u64_succ_ne _ Hu) as Hne.
  destruct o as [q0 ttl|q0 ttl|ttl|n z ttl|id|]; simpl in *.
  - apply andb_true_iff in Wo as [W0 Ht%Z.ltb_lt].
    change (markUnavailableWithTTL _ _ _ _ _ _ _) with (mark now u q0 ttl) in *.
    rewrite mark_seq. case_match eqn:E; [done|]. exfalso. apply Ha. by apply mark_quiet.
  - apply andb_true_iff in Wo as [W0 Ht%Z.ltb_lt]. unfold markFamilyUnavailable in *.
    destruct (markFamilyUnavailableAtCPUCountImpl _ _ _ _ _ _ _ _) as [u' []] eqn:E; simpl in *.
    + rewrite mark_family_impl_spec in E. by case_bool_decide; simplify_eq/=.
    + exfalso. apply Ha. by eapply mark_family_quiet.
  - apply Z.ltb_lt in Wo. unfold MarkSpotUnavailableWithTTL in *.
    destruct (tc_has now spotKey _) eqn:E; simpl in *; [|done].
    exfalso. apply Ha. by apply single_quiet.
  - apply andb_true_iff in Wo as [_ Ht%Z.ltb_lt]. unfold MarkSKUZoneUnavailableWithTTL in *.
    destruct (tc_has now (skuZoneKey n z) _) eqn:E; simpl in *; [|done].
    exfalso. apply Ha. by apply single_quiet.
  - pose proof (invalidate_quiet now u id q W L Wo) as Q.
    pose proof (delete_with_prefix_count_le (singleOfferingCache u) now
      ("crg:" +:+ ToLower id +:+ ":")) as B1.
    pose proof (delete_with_prefix_count_le (vmFamilyCache u) now
      ("crg:" +:+ ToLower id +:+ ":")) as B2.
    unfold InvalidateCapacityReservationGroup, capacityReservationGroupScope in *.
    case_bool_decide; [done|]. unfold live_entries in Hl.
    destruct (delete_with_prefix now _ (singleOfferingCache u)) as [c n] eqn:D1.
    destruct (delete_with_prefix now _ (vmFamilyCache u)) as [f m] eqn:D2.
    simpl in *. apply u64_add_ne; [done|].
    destruct n; [destruct m; [by rewrite Q in Ha|]|]; lia.
  - done.
Qed.

(** *** Several markings *)

Definition mark_all (now : Z) (u : UnavailableOfferings) (qs : list query) (ttl : Z) :
    UnavailableOfferings :=
  foldl (fun u q => mark now u q ttl) u qs.

(** What a marking of [q0] blocks. *)
Definition blocks (q0 q : query) : bool := same_offering q0 q || larger_sibling q0 q.

Definition wf_mark (q : query) : bool := wf_query q && (0 <=? vcpu_or_zero (q_sku q)).

Lemma mark_all_answer now u qs q ttl :
  forallb wf_mark qs = true -> wf_query q = true -> 0 < ttl ->
  answer now (mark_all now u qs ttl) q = answer now u q || existsb (fun q0 => blocks q0 q) qs.
Proof.
  revert u. induction qs as [|q0 qs IH]; intros u; simpl; [by rewrite orb_false_r|].
  intros [W0 Ws]%andb_true_iff W Ht. unfold wf_mark in W0.
  apply andb_true_iff in W0 as [W0 V%Z.leb_le].
  rewrite IH by done. rewrite mark_answer by done. unfold blocks. btauto.
Qed.

Lemma mark_all_isolated now t u qs q ttl :
  forallb wf_mark qs = true -> wf_query q = true ->
  (forall q0, q0 ∈ qs -> ToLower (q_scope q0) <> ToLower (q_scope q)) ->
  answer t (mark_all now u qs ttl) q = answer t u q.
Proof.
  revert u. induction qs as [|q0 qs IH]; intros u; simpl; [done|].
  intros [W0 Ws]%andb_true_iff W S. unfold wf_mark in W0. apply andb_true_iff in W0 as [W0 _].
  rewrite IH; [|done|done|intros q1 H1; apply S; by right].
  apply mark_other_scope; [done|done|]. apply S. left.
Qed.

End Marking.

(** ** Witnesses *)

Definition w_sku (n : string) (v : Z) : SKU := mk_sku n "standardDSv5Family" (Some v).
Definition w_query (scope : string) (n : string) (v : Z) (ct : string) : query :=
  mk_query scope (w_sku n v) "eastus-1" ct.
Definition w_small : query := w_query "" "Standard_D4s_v5" 4 "on-demand".
Definition w_large : query := w_query "" "Standard_D8s_v5" 8 "on-demand".
Definition w_group : query := w_query "/crg/a" "Standard_D8s_v5" 8 "on-demand".

Lemma mark_blocks_exactly_witness :
  answer 10 (mark 10 NewUnavailableOfferings w_small Hour) w_large = true.
Proof. rewrite mark_blocks_exactly; [reflexivity|reflexivity|reflexivity|reflexivity|discriminate]. Defined.

Lemma mark_isolated_witness :
  answer 20 (mark 10 NewUnavailableOfferings w_small Hour) w_group = false.
Proof. rewrite mark_isolated; [reflexivity|reflexivity|reflexivity|discriminate]. Defined.

Lemma mark_lasts_witness :
  answer (10 + Hour) (mark 10 NewUnavailableOfferings w_group Hour) w_group = true.
Proof. apply mark_lasts; [reflexivity|reflexivity|unfold Hour, Minute, Second, Nanosecond; lia]. Defined.

Lemma invalidate_exactly_witness :
  answer 20 (InvalidateCapacityReservationGroup 20
    (mark 10 NewUnavailableOfferings w_group Hour) "/CRG/A") w_group = false.
Proof.
  rewrite invalidate_exactly; [reflexivity|reflexivity|reflexivity|reflexivity|lia].
Defined.

Lemma change_moves_seqNum_witness :
  SeqNum (step 10 NewUnavailableOfferings (OpMark w_small Hour)) <>
  SeqNum NewUnavailableOfferings.
Proof.
  apply (change_moves_seqNum 10 NewUnavailableOfferings (OpMark w_small Hour) w_large);
    try reflexivity; try discriminate; simpl; lia.
Defined.

End Unavailable.
