(* ===== verification/Zones.v ===== *)
(** * Zones ([pkg/utils/zones], [pkg/providers/zone])

    Conversions between ARM zone identifiers and the zone label AKS puts on
    nodes, and the provider that loads the zones of each region lazily, with a
    back-off window after repeated failures. *)

From S2P Require Import Prelude GoString Cloud.
#[local] Open Scope string_scope.
#[local] Open Scope Z_scope.

Module Zones.

Definition PlacementScopeZonal : string := "zonal".
Definition PlacementScopeRegional : string := "regional".
Definition Regional : string := "0".

Definition PlacementScopeForZone (zone : string) : string :=
  if zone ==? Regional then PlacementScopeRegional else PlacementScopeZonal.

Definition PlacementScopeForOffering (o : Offering) : string := of_scope o.

Definition MakeAKSLabelZoneFromARMZone (location zoneID : string) : string :=
  ToLower location +:+ "-" +:+ zoneID.

Inductive zone_error := ErrLocationRequired | ErrMultipleZones | ErrNilVM.

Definition MakeAKSLabelZoneFromARMZones (location : string) (zones : list (option string)) :
    result zone_error string :=
  match zones with
  | [] | None :: _ => Ok Regional
  | [Some z] =>
      if location ==? "" then Err ErrLocationRequired
      else Ok (MakeAKSLabelZoneFromARMZone location z)
  | Some _ :: _ :: _ => Err ErrMultipleZones
  end.

(** [None] is the run-time panic of [z[len(z)-1:]] on the empty string. *)
Definition MakeARMZonesFromAKSLabelZone (z : string) : option (list string) :=
  if z ==? Regional then Some []
  else if z ==? "" then None
  else Some [drop_str (String.length z - 1) z].

(** The two fields of an ARM virtual machine the conversion reads. *)
Record VirtualMachineZone := mk_vm_zone {
  vm_location : option string;
  vm_zones : list (option string)
}.

Definition MakeAKSLabelZoneFromVM (vm : option VirtualMachineZone) : result zone_error string :=
  match vm with
  | None => Err ErrNilVM
  | Some vm => MakeAKSLabelZoneFromARMZones (from_ptr "" (vm_location vm)) (vm_zones vm)
  end.

(** ** The zone provider *)

Definition maxFailuresPerWindow : Z := 10.
Definition windowBackoff : Z := 60 * Minute.

(** A location of the subscriptions API: its name and the logical zones of its
    availability zone mappings. *)
Record Location := mk_location {
  loc_name : option string;
  loc_zones : list (option string)
}.

Record Provider := mk_provider {
  zoneList : gmap string (list string);
  hasLoaded : bool;
  failures : Z;
  lastAttempt : Z
}.

Definition NewProvider : Provider := mk_provider ∅ false 0 zero_time.

Definition add_location (m : gmap string (list string)) (l : Location) :
    gmap string (list string) :=
  let locationName := from_ptr "" (loc_name l) in
  if locationName ==? "" then m
  else
    let zones := omap id (loc_zones l) in
    if Nat.ltb 0 (length zones) then <[locationName := zones]> m else m.

(** [loadFromAzure], given the answers of the locations pager. *)
Definition loadFromAzure (pages : list (result string (list Location))) (p : Provider) :
    result string Provider :=
  match read_pages pages with
  | Err e => Err e
  | Ok ls => Ok (mk_provider (foldl add_location ∅ ls) (hasLoaded p) (failures p) (lastAttempt p))
  end.

(** [shouldTryAgain] may reset the failure count. *)
Definition shouldTryAgain (now : Z) (p : Provider) : bool * Provider :=
  if lastAttempt p + windowBackoff <? now
  then (true, mk_provider (zoneList p) (hasLoaded p) 0 (lastAttempt p))
  else if failures p <? maxFailuresPerWindow then (true, p)
  else (false, p).

(** The boolean says whether the API was called. *)
Definition ensureLoadedLocked (now : Z) (pages : list (result string (list Location)))
    (p : Provider) : Provider * bool :=
  if hasLoaded p then (p, false)
  else
    let '(again, p) := shouldTryAgain now p in
    if again then
      match loadFromAzure pages p with
      | Err _ => (mk_provider (zoneList p) (hasLoaded p) (failures p + 1) now, true)
      | Ok p' => (mk_provider (zoneList p') true (failures p') (lastAttempt p'), true)
      end
    else (p, false).

Definition zones_of (region : string) (p : Provider) : list string :=
  default [] (zoneList p !! region).

Definition SupportsZones (now : Z) (pages : list (result string (list Location)))
    (region : string) (p : Provider) : bool * Provider :=
  let p := (ensureLoadedLocked now pages p).1 in
  (Nat.ltb 0 (length (zones_of region p)), p).

Definition GetAvailableZones (now : Z) (pages : list (result string (list Location)))
    (region : string) (p : Provider) : list string * Provider :=
  let p := (ensureLoadedLocked now pages p).1 in (zones_of region p, p).

(** ** Conversions round-trip *)

Lemma length_ToLower s : String.length (ToLower s) = String.length s.
Proof. induction s; simpl; [done|]. by f_equal. Qed.

Definition one_byte (s : string) : bool := Nat.eqb (String.length s) 1.

(** The label of a zone gives the zone back and is not the regional one. *)
Lemma zone_of_label location z :
  one_byte z = true -> location <> "" ->
  MakeARMZonesFromAKSLabelZone (MakeAKSLabelZoneFromARMZone location z) = Some [z] /\
  MakeAKSLabelZoneFromARMZone location z <> Regional.
Proof.
  intros Hz%Nat.eqb_eq El.
  assert (NR : MakeAKSLabelZoneFromARMZone location z <> Regional /\
               MakeAKSLabelZoneFromARMZone location z <> "").
  { unfold MakeAKSLabelZoneFromARMZone. split; intros E;
      apply (f_equal String.length) in E; rewrite !length_string_app, length_ToLower in E;
      simpl in E; destruct location; simpl in E; [done|lia|done|lia]. }
  destruct NR as [NR NE]. split; [|done]. unfold MakeARMZonesFromAKSLabelZone.
  rewrite !bool_decide_eq_false_2 by done. do 2 f_equal. unfold MakeAKSLabelZoneFromARMZone.
  rewrite <- string_app_assoc, length_string_app, Hz, Nat.add_sub. apply drop_str_app.
Qed.

(** A zonal label made for a region and a one-character zone identifier
    reads back as that identifier, an unzoned resource reads back as no zone,
    and a label is never taken for the regional one. *)
Theorem zone_label_roundtrip location zones label :
  Forall (fun z => match z with Some z => one_byte z = true | None => True end) zones ->
  MakeAKSLabelZoneFromARMZones location zones = Ok label ->
  MakeARMZonesFromAKSLabelZone label =
    Some (match zones with Some z :: _ => [z] | _ => [] end) /\
  (PlacementScopeForZone label = PlacementScopeRegional <->
   zones = [] \/ exists zs, zones = None :: zs).
Proof.
  intros F. unfold MakeAKSLabelZoneFromARMZones.
  destruct zones as [|[z|] [|z' zs]]; try (intros [= <-]); try done.
  - split; [done|naive_solver].
  - case_bool_decide as El; [done|]. intros [= <-].
    apply Forall_cons in F as [Hz%Nat.eqb_eq _].
    destruct (zone_of_label location z) as [E NR]; [by apply Nat.eqb_eq|done|].
    rewrite E. split; [done|]. unfold PlacementScopeForZone. rewrite bool_decide_eq_false_2 by done.
    split; [done|]. intros [?|[? ?]]; done.
  - split; [done|naive_solver].
  - split; [done|]. split; [|done]. intros _. right. by eexists.
Qed.

(** ** The back-off *)

(** One use of the provider: an instant and the answers the API would give. *)
Definition attempt : Type := Z * list (result string (list Location)).

(** A sequence of uses: the final provider and how often the API was called. *)
Fixpoint run (p : Provider) (l : list attempt) : Provider * Z :=
  match l with
  | [] => (p, 0)
  | (now, pages) :: l' =>
      let '(p', called) := ensureLoadedLocked now pages p in
      let '(pf, n) := run p' l' in
      (pf, (if called : bool then 1 else 0) + n)
  end.

(** The four ways one use can go. *)
Lemma ensureLoaded_cases now (pages : list (result string (list Location))) p :
  let '(p', called) := ensureLoadedLocked now pages p in
  (called = false /\ p' = p /\
     (hasLoaded p = true \/
      (now <= lastAttempt p + windowBackoff /\ maxFailuresPerWindow <= failures p))) \/
  (called = true /\ hasLoaded p = false /\ hasLoaded p' = true /\
     (failures p < maxFailuresPerWindow \/ lastAttempt p + windowBackoff < now)) \/
  (called = true /\ hasLoaded p = false /\ hasLoaded p' = false /\ lastAttempt p' = now /\
     ((lastAttempt p + windowBackoff < now /\ failures p' = 1) \/
      (failures p < maxFailuresPerWindow /\ failures p' = failures p + 1))).
Proof.
  unfold ensureLoadedLocked, shouldTryAgain, loadFromAzure.
  destruct (hasLoaded p) eqn:L; [by left; auto|].
  destruct (Z.ltb_spec (lastAttempt p + windowBackoff) now);
    [|destruct (Z.ltb_spec (failures p) maxFailuresPerWindow)];
    simpl; try (destruct (read_pages pages); simpl); rewrite ?L; naive_solver lia.
Qed.

Lemma run_loaded p l : hasLoaded p = true -> run p l = (p, 0).
Proof.
  intros L. induction l as [|[now pages] l IH]; [done|]. simpl.
  unfold ensureLoadedLocked. by rewrite L, IH.
Qed.

Definition in_window (t0 : Z) (a : attempt) : Prop := t0 <= a.1 <= t0 + windowBackoff.

Lemma run_calls_nonneg p l : 0 <= (run p l).2.
Proof.
  revert p. induction l as [|[now pages] l IH]; intros p; simpl; [done|].
  destruct (ensureLoadedLocked now pages p) as [p' called].
  specialize (IH p'). destruct (run p' l). simpl in *. by destruct called; lia.
Qed.

(** Once a failure was recorded inside the window, only the rest of the
    allowance is left for it. *)
Lemma run_calls_rest t0 l p :
  Forall (in_window t0) l -> t0 <= lastAttempt p -> failures p <= maxFailuresPerWindow ->
  (run p l).2 <= maxFailuresPerWindow - failures p.
Proof.
  revert p. induction l as [|[now pages] l IH]; intros p; simpl; [lia|].
  intros [Hw F]%Forall_cons Hl Hf. unfold in_window in Hw. simpl in Hw.
  pose proof (ensureLoaded_cases now pages p) as C.
  destruct (ensureLoadedLocked now pages p) as [p' called].
  destruct C as [(-> & -> & _)|[(-> & _ & L & D)|(-> & _ & _ & La & D)]].
  - specialize (IH p F Hl Hf). destruct (run p l). simpl in *. lia.
  - rewrite run_loaded by done. simpl. lia.
  - specialize (IH p' F). destruct (run p' l). simpl in *. lia.
Qed.

(** The provider calls the subscriptions API at most ten times in any
    window of sixty minutes, whatever the API answers and whatever state it
    starts the window in; once a call has succeeded it never calls again. *)
Theorem zone_provider_rate t0 l p :
  Forall (in_window t0) l -> 0 <= failures p ->
  0 <= (run p l).2 <= maxFailuresPerWindow /\
  (hasLoaded p = true -> run p l = (p, 0)).
Proof.
  intros F H0. split; [split; [apply run_calls_nonneg|]|by apply run_loaded].
  revert p H0. induction l as [|[now pages] l IH]; intros p H0; simpl; [done|].
  apply Forall_cons in F as [Hw F]. unfold in_window in Hw. simpl in Hw.
  pose proof (ensureLoaded_cases now pages p) as C.
  destruct (ensureLoadedLocked now pages p) as [p' called].
  destruct C as [(-> & -> & _)|[(-> & _ & L & D)|(-> & _ & _ & La & D)]].
  - specialize (IH F p H0). destruct (run p l). simpl in *. lia.
  - rewrite run_loaded by done. simpl. done.
  - pose proof (run_calls_rest t0 l p' F) as R. unfold maxFailuresPerWindow in *.
    destruct (run p' l). simpl in *. lia.
Qed.

(** ** Witnesses *)

Lemma zone_label_roundtrip_witness :
  MakeARMZonesFromAKSLabelZone "westus2-3" = Some ["3"].
Proof.
  apply (zone_label_roundtrip "WestUS2" [Some "3"] "westus2-3");
    [by repeat constructor|reflexivity].
Defined.

Lemma zone_provider_rate_witness :
  (run NewProvider (repeat (100, [Err "outage"]) 20)).2 <= 10.
Proof.
  apply (zone_provider_rate 100 (repeat (100, [Err "outage"]) 20) NewProvider); [|done].
  apply Forall_forall. intros x Hx.
  apply list_elem_of_In, repeat_spec in Hx. subst. by vm_compute.
Defined.

End Zones.
