(* ===== verification/ErrorHandlers.v ===== *)
(** * Launch errors and what they block ([pkg/providers/instance/offerings])

    When Azure rejects a launch, a handler chosen by the error marks offerings
    unavailable in the scope of the attempt (a capacity reservation group or
    unreserved capacity) and says which error Karpenter should see.  The
    predicates that recognise an error come from
    [azure-sdk-for-go-extensions] and are parameters. *)

From S2P Require Import Prelude GoString GoCache Cloud Zones Unavailable.
From Stdlib Require Import Btauto.
#[local] Open Scope string_scope.
#[local] Open Scope Z_scope.

Module ErrorHandlers.
Import Unavailable Zones.
Section WithCache.
Context `{TTLCache} `{GoRange}.

(** ** Reasons and times to live *)

Definition SubscriptionQuotaReachedReason : string := "SubscriptionQuotaReached".
Definition AllocationFailureReason : string := "AllocationFailure".
Definition ZonalAllocationFailureReason : string := "ZonalAllocationFailure".
Definition OverconstrainedZonalAllocationFailureReason : string :=
  "OverconstrainedZonalAllocationFailure".
Definition OverconstrainedAllocationFailureReason : string :=
  "OverconstrainedAllocationFailure".
Definition SKUNotAvailableReason : string := "SKUNotAvailable".
Definition InvalidAvailabilityZoneReason : string := "InvalidAvailabilityZone".

Definition LowQuotaTTL : Z := 10 * Minute.
Definition CapacityReservationQuotaReachedTTL : Z := 10 * Minute.
Definition SubscriptionQuotaReachedTTL : Z := 1 * Hour.
Definition AllocationFailureTTL : Z := 1 * Hour.
Definition InvalidAvailabilityZoneTTL : Z := 4 * Hour.
Definition SKUNotAvailableSpotTTL : Z := 1 * Hour.
Definition SKUNotAvailableOnDemandTTL : Z := 23 * Hour.

(** ** What a handler answers *)

(** Karpenter core's [CreateError] and [InsufficientCapacityError]. *)
Inductive launch_error :=
| CreateError (reason message : string)
| InsufficientCapacityError (message : string).

(** The attempted launch, as every handler receives it. *)
Record attempt := mk_attempt {
  at_scope : string;
  at_sku : SKU;
  at_type : InstanceType;
  at_zone : string;
  at_ct : string
}.

(** [errorHandle]: the instant, the cache, the attempt, the error code and
    message; the new cache and the error for Karpenter ([nil] is [None]). *)
Definition errorHandle : Type :=
  Z -> UnavailableOfferings -> attempt -> string -> string ->
  UnavailableOfferings * option launch_error.

Definition getOfferingCapacityType (o : Offering) : string := of_capacity_type o.
Definition getOfferingZone (o : Offering) : string := of_zone o.
Definition GetInstanceTypeFromVMSize (vmSize : string) (types : list InstanceType) :
    option InstanceType :=
  lo_find (fun i => it_name i ==? vmSize) types.

Definition cpuLimitIsZero (errorMessage : string) : bool :=
  Contains errorMessage "Current Limit: 0".

(** ** Marking several offerings *)

Definition markOfferingsUnavailableForCapacityTypeAndPlacement (now : Z)
    (u : UnavailableOfferings) (a : attempt) (ttl : Z) : UnavailableOfferings :=
  let selectedPlacementScope := PlacementScopeForZone (at_zone a) in
  foldl (fun u offering =>
    if (getOfferingCapacityType offering !=? at_ct a) ||
       (PlacementScopeForOffering offering !=? selectedPlacementScope) then u
    else if IsForCapacityReservationGroup (at_scope a) &&
            (getOfferingZone offering !=? at_zone a) then u
    else view_MarkUnavailableWithTTL now u (at_scope a) (at_sku a)
           (getOfferingZone offering) (at_ct a) ttl)
    u (it_offerings (at_type a)).

(** Both capacity types of each zone of a set, in the map's iteration order. *)
Definition mark_zones_both (now : Z) (u : UnavailableOfferings) (a : attempt)
    (zonesToBlock : gset string) (ttl : Z) : UnavailableOfferings :=
  foldl (fun u blockedZone =>
    let u := view_MarkUnavailableWithTTL now u (at_scope a) (at_sku a) blockedZone
               CapacityTypeOnDemand ttl in
    view_MarkUnavailableWithTTL now u (at_scope a) (at_sku a) blockedZone
      CapacityTypeSpot ttl)
    u (range_keys zonesToBlock).

Definition markOfferingsUnavailableForPlacementForBothCapacityTypes (now : Z)
    (u : UnavailableOfferings) (a : attempt) (ttl : Z) : UnavailableOfferings :=
  let selectedPlacementScope := PlacementScopeForZone (at_zone a) in
  let zonesToBlock := foldl (fun (s : gset string) offering =>
    if PlacementScopeForOffering offering !=? selectedPlacementScope then s
    else if IsForCapacityReservationGroup (at_scope a) &&
            (getOfferingZone offering !=? at_zone a) then s
    else {[ getOfferingZone offering ]} ∪ s) ∅ (it_offerings (at_type a)) in
  mark_zones_both now u a zonesToBlock ttl.

Definition markAllPlacementsUnavailableForBothCapacityTypes (now : Z)
    (u : UnavailableOfferings) (a : attempt) (ttl : Z) : UnavailableOfferings :=
  let zonesToBlock := foldl (fun (s : gset string) offering =>
    {[ getOfferingZone offering ]} ∪ s) ∅ (it_offerings (at_type a)) in
  mark_zones_both now u a zonesToBlock ttl.

(** ** The handlers *)

Definition handleLowPriorityQuotaError : errorHandle := fun now u a _ _ =>
  (view_MarkSpotUnavailableWithTTL now u (at_scope a) SubscriptionQuotaReachedTTL,
   Some (CreateError SubscriptionQuotaReachedReason
     "this subscription has reached the regional vCPU quota for spot (LowPriorityQuota). To scale beyond this limit, please review the quota increase process here: https://docs.microsoft.com/en-us/azure/azure-portal/supportability/low-priority-quota")).

Definition handleSKUFamilyQuotaError : errorHandle := fun now u a _ errorMessage =>
  let u := foldl (fun u offering =>
    if getOfferingCapacityType offering !=? at_ct a then u
    else if IsForCapacityReservationGroup (at_scope a) &&
            (getOfferingZone offering !=? at_zone a) then u
    else if cpuLimitIsZero errorMessage
    then view_MarkUnavailableWithTTL now u (at_scope a) (at_sku a)
           (getOfferingZone offering) (at_ct a) SubscriptionQuotaReachedTTL
    else view_MarkUnavailableWithTTL now u (at_scope a) (at_sku a)
           (getOfferingZone offering) (at_ct a) LowQuotaTTL)
    u (it_offerings (at_type a)) in
  (u, Some (CreateError SubscriptionQuotaReachedReason
    ("subscription level " +:+ at_ct a +:+ " vCPU quota for " +:+ it_name (at_type a) +:+
     " has been reached (may try provision an alternative instance type)"))).

Definition handleSKUNotAvailableError : errorHandle := fun now u a _ _ =>
  let skuNotAvailableTTL :=
    if at_ct a ==? CapacityTypeOnDemand then SKUNotAvailableOnDemandTTL
    else SKUNotAvailableSpotTTL in
  (markOfferingsUnavailableForCapacityTypeAndPlacement now u a skuNotAvailableTTL,
   Some (CreateError SKUNotAvailableReason
    ("the requested SKU is unavailable for instance type " +:+ it_name (at_type a) +:+
     " in zone " +:+ at_zone a +:+ " with capacity type " +:+ at_ct a +:+
     ", for more details please visit: https://aka.ms/azureskunotavailable"))).

Definition handleInvalidAvailabilityZoneError : errorHandle := fun now u a _ _ =>
  if (at_zone a ==? "") || (at_zone a ==? Regional) then (u, None)
  else
    (view_MarkSKUZoneUnavailableWithTTL now u (at_scope a) (it_name (at_type a)) (at_zone a)
       InvalidAvailabilityZoneTTL,
     Some (CreateError InvalidAvailabilityZoneReason
      ("availability zone " +:+ at_zone a +:+ " is not supported for instance type " +:+
       it_name (at_type a) +:+ " (will try another available placement)"))).

Definition handleZonalAllocationFailureError : errorHandle := fun now u a _ _ =>
  let u := view_MarkUnavailableWithTTL now u (at_scope a) (at_sku a) (at_zone a)
             CapacityTypeOnDemand AllocationFailureTTL in
  let u := view_MarkUnavailableWithTTL now u (at_scope a) (at_sku a) (at_zone a)
             CapacityTypeSpot AllocationFailureTTL in
  (u, Some (CreateError ZonalAllocationFailureReason
    ("unable to allocate resources in the selected zone (" +:+ at_zone a +:+
     "). (will try a different zone to fulfill your request)"))).

Definition handleAllocationFailureError : errorHandle := fun now u a _ _ =>
  (markOfferingsUnavailableForPlacementForBothCapacityTypes now u a AllocationFailureTTL,
   Some (CreateError AllocationFailureReason
    ("unable to allocate resources with selected VM size (" +:+ it_name (at_type a) +:+
     "). (will try a different VM size to fulfill your request)"))).

Definition handleOverconstrainedZonalAllocationFailureError : errorHandle := fun now u a _ _ =>
  (view_MarkUnavailableWithTTL now u (at_scope a) (at_sku a) (at_zone a) (at_ct a)
     AllocationFailureTTL,
   Some (CreateError OverconstrainedZonalAllocationFailureReason
    ("unable to allocate resources in the selected zone (" +:+ at_zone a +:+ ") with " +:+
     at_ct a +:+ " capacity type and " +:+ it_name (at_type a) +:+
     " VM size. (will try a different zone, capacity type or VM size to fulfill your request)"))).

Definition handleOverconstrainedAllocationFailureError : errorHandle := fun now u a _ _ =>
  (markOfferingsUnavailableForCapacityTypeAndPlacement now u a AllocationFailureTTL,
   Some (CreateError OverconstrainedAllocationFailureReason
    ("unable to allocate resources in all zones with " +:+ at_ct a +:+
     " capacity type and " +:+ it_name (at_type a) +:+
     " VM size. (will try a different capacity type or VM size to fulfill your request)"))).

Definition handleRegionalQuotaError : errorHandle := fun now u a _ _ =>
  (if IsForCapacityReservationGroup (at_scope a)
   then view_MarkUnavailableWithTTL now u (at_scope a) (at_sku a) (at_zone a) (at_ct a)
          CapacityReservationQuotaReachedTTL
   else u,
   Some (InsufficientCapacityError
    ("regional " +:+ at_ct a +:+ " vCPU quota limit for subscription has been reached. To scale beyond this limit, please review the quota increase process here: https://learn.microsoft.com/en-us/azure/quotas/regional-quota-requests"))).

Definition handleSKUNotAvailableForSubscriptionError : errorHandle := fun now u a _ _ =>
  (markAllPlacementsUnavailableForBothCapacityTypes now u a SKUNotAvailableOnDemandTTL,
   Some (CreateError SKUNotAvailableReason
    ("VM size " +:+ it_name (at_type a) +:+ " is not supported for this subscription in this location, for more details please visit: https://aka.ms/aks/vm-size-selector"))).

(** ** Dispatch *)

(** A table of matchers and handlers; the first match wins, no match is [nil]. *)
Definition handler_entry (X : Type) : Type := (X -> bool) * errorHandle.

Fixpoint dispatch {X} (entries : list (handler_entry X)) (x : X) (code message : string)
    (now : Z) (u : UnavailableOfferings) (a : attempt) :
    UnavailableOfferings * option launch_error :=
  match entries with
  | [] => (u, None)
  | (m, h) :: es => if m x then h now u a code message else dispatch es x code message now u a
  end.

(** The recognisers of [azure-sdk-for-go-extensions], for one error type. *)
Record sdk_matchers (X : Type) := mk_matchers {
  LowPriorityQuotaHasBeenReached : X -> bool;
  SKUFamilyQuotaHasBeenReached : X -> bool;
  IsSKUNotAvailable : X -> bool;
  ZonalAllocationFailureOccurred : X -> bool;
  AllocationFailureOccurred : X -> bool;
  OverconstrainedZonalAllocationFailureOccurred : X -> bool;
  OverconstrainedAllocationFailureOccurred : X -> bool;
  RegionalQuotaHasBeenReached : X -> bool
}.
Arguments LowPriorityQuotaHasBeenReached {X}.
Arguments SKUFamilyQuotaHasBeenReached {X}.
Arguments IsSKUNotAvailable {X}.
Arguments ZonalAllocationFailureOccurred {X}.
Arguments AllocationFailureOccurred {X}.
Arguments OverconstrainedZonalAllocationFailureOccurred {X}.
Arguments OverconstrainedAllocationFailureOccurred {X}.
Arguments RegionalQuotaHasBeenReached {X}.

(** *** [ErrorDetailHandler], for AKS machines *)

Record ErrorDetail := mk_error_detail {
  ed_code : option string;
  ed_message : option string
}.

Definition NewErrorDetailHandler (sdk : sdk_matchers ErrorDetail) :
    list (handler_entry ErrorDetail) :=
  [ ((fun d => from_ptr "" (ed_code d) ==? InvalidAvailabilityZoneReason),
     handleInvalidAvailabilityZoneError);
    (LowPriorityQuotaHasBeenReached sdk, handleLowPriorityQuotaError);
    (SKUFamilyQuotaHasBeenReached sdk, handleSKUFamilyQuotaError);
    (IsSKUNotAvailable sdk, handleSKUNotAvailableError);
    (ZonalAllocationFailureOccurred sdk, handleZonalAllocationFailureError);
    (AllocationFailureOccurred sdk, handleAllocationFailureError);
    (OverconstrainedZonalAllocationFailureOccurred sdk,
     handleOverconstrainedZonalAllocationFailureError);
    (OverconstrainedAllocationFailureOccurred sdk,
     handleOverconstrainedAllocationFailureError);
    (RegionalQuotaHasBeenReached sdk, handleRegionalQuotaError) ].

Definition extractDetailCodeAndMessage (d : ErrorDetail) : string * string :=
  (match ed_code d with Some c => c | None => "" end,
   match ed_message d with Some m => m | None => "" end).

Definition ErrorDetailHandler_Handle (sdk : sdk_matchers ErrorDetail) (now : Z)
    (u : UnavailableOfferings) (sku : SKU) (it : InstanceType)
    (zone capacityType capacityReservationGroupID : string) (d : ErrorDetail) :
    UnavailableOfferings * option launch_error :=
  let '(code, message) := extractDetailCodeAndMessage d in
  dispatch (NewErrorDetailHandler sdk) d code message now u
    (mk_attempt (ForCapacityReservationGroup capacityReservationGroupID) sku it zone capacityType).

(** *** [ResponseErrorHandler], for virtual machines *)

(** A Go error: what [errors.As] finds as [*azcore.ResponseError] in it (its
    [ErrorCode] and [Error()]), and its own [Error()]. *)
Record go_error := mk_go_error {
  as_response_error : option (string * string);
  error_string : string
}.

Definition NewResponseErrorHandler (sdk : sdk_matchers go_error) : list (handler_entry go_error) :=
  [ ((fun err => match as_response_error err with
                 | Some (code, _) => code ==? InvalidAvailabilityZoneReason
                 | None => false
                 end), handleInvalidAvailabilityZoneError);
    (LowPriorityQuotaHasBeenReached sdk, handleLowPriorityQuotaError);
    (SKUFamilyQuotaHasBeenReached sdk, handleSKUFamilyQuotaError);
    (IsSKUNotAvailable sdk, handleSKUNotAvailableError);
    (ZonalAllocationFailureOccurred sdk, handleZonalAllocationFailureError);
    (AllocationFailureOccurred sdk, handleAllocationFailureError);
    (OverconstrainedZonalAllocationFailureOccurred sdk,
     handleOverconstrainedZonalAllocationFailureError);
    (OverconstrainedAllocationFailureOccurred sdk,
     handleOverconstrainedAllocationFailureError);
    (RegionalQuotaHasBeenReached sdk, handleRegionalQuotaError) ].

Definition extractErrorCodeAndMessage (err : go_error) : string * string :=
  match as_response_error err with
  | Some (code, msg) => (code, msg)
  | None => ("", error_string err)
  end.

Definition ResponseErrorHandler_Handle (sdk : sdk_matchers go_error) (now : Z)
    (u : UnavailableOfferings) (sku : SKU) (it : InstanceType)
    (zone capacityType capacityReservationGroupID : string) (err : go_error) :
    UnavailableOfferings * option launch_error :=
  let '(code, message) := extractErrorCodeAndMessage err in
  dispatch (NewResponseErrorHandler sdk) err code message now u
    (mk_attempt (ForCapacityReservationGroup capacityReservationGroupID) sku it zone capacityType).

(** *** [AKSMachineBeginCreateErrorHandler] *)

Record HandlableError := mk_handlable { he_code : string; he_message : string }.

Definition HandlableError_Error (e : HandlableError) : string :=
  he_code e +:+ ": " +:+ he_message e.

Definition ErrorToHandlableError (err : go_error) : option HandlableError :=
  match as_response_error err with
  | None => None
  | Some (code, msg) => Some (mk_handlable code msg)
  end.

Definition aksMachineAvailabilityZoneNotSupportedCode : string := "AvailabilityZoneNotSupported".

Definition isSKUNotAvailableForSubscription (he : HandlableError) : bool :=
  he_code he ==? "VMSizeNotSupported".
Definition isSKUNotAvailableForSubscriptionBadRequest (he : HandlableError) : bool :=
  (he_code he ==? "BadRequest") &&
  Contains (he_message he) "is not supported for subscription".

Definition NewAKSMachineBeginCreateErrorHandler : list (handler_entry HandlableError) :=
  [ ((fun he => he_code he ==? aksMachineAvailabilityZoneNotSupportedCode),
     handleInvalidAvailabilityZoneError);
    (isSKUNotAvailableForSubscription, handleSKUNotAvailableForSubscriptionError);
    (isSKUNotAvailableForSubscriptionBadRequest, handleSKUNotAvailableForSubscriptionError) ].

Definition BeginCreate_Handle (now : Z)
    (u : UnavailableOfferings) (sku : SKU) (it : InstanceType)
    (zone capacityType capacityReservationGroupID : string) (he : HandlableError) :
    UnavailableOfferings * option launch_error :=
  dispatch NewAKSMachineBeginCreateErrorHandler he (he_code he) (he_message he) now u
    (mk_attempt (ForCapacityReservationGroup capacityReservationGroupID) sku it zone capacityType).

End WithCache.

(** ** What the handlers mark *)

Section Marks.
Context `{TTLCacheLaws} `{GoRange}.

(** The query of the attempt for a zone and a capacity type. *)
Definition at_query (a : attempt) (zone ct : string) : query :=
  mk_query (at_scope a) (at_sku a) zone ct.

(** The offering belongs to the attempted member: any, outside groups. *)
Definition member (a : attempt) (o : Offering) : bool :=
  negb (IsForCapacityReservationGroup (at_scope a)) || (of_zone o ==? at_zone a).
Definition same_placement (a : attempt) (o : Offering) : bool :=
  of_scope o ==? PlacementScopeForZone (at_zone a).
Definition same_ct (a : attempt) (o : Offering) : bool := of_capacity_type o ==? at_ct a.

Definition both_cts (a : attempt) (z : string) : list query :=
  [at_query a z CapacityTypeOnDemand; at_query a z CapacityTypeSpot].

(** A loop that marks the offerings a test selects. *)
Lemma mark_loop now u a ttl (sel : Offering -> bool) (ct : string) (os : list Offering) f :
  (forall u o, f u o =
     if sel o then mark now u (at_query a (of_zone o) ct) ttl else u) ->
  foldl f u os =
  mark_all now u ((fun o => at_query a (of_zone o) ct) <$> List.filter sel os) ttl.
Proof.
  intros Hf. revert u. induction os as [|o os IH]; intros u; simpl; [done|].
  rewrite Hf, IH. by destruct (sel o).
Qed.

Lemma ct_placement_marks now u a ttl :
  markOfferingsUnavailableForCapacityTypeAndPlacement now u a ttl =
  mark_all now u ((fun o => at_query a (of_zone o) (at_ct a)) <$>
    List.filter (fun o => same_ct a o && same_placement a o && member a o)
      (it_offerings (at_type a))) ttl.
Proof.
  apply mark_loop. intros u' o. unfold same_ct, same_placement, member,
    getOfferingCapacityType, getOfferingZone, PlacementScopeForOffering.
  by repeat case_bool_decide; simpl; destruct (IsForCapacityReservationGroup (at_scope a)).
Qed.

Lemma family_quota_marks now u a code msg :
  (handleSKUFamilyQuotaError now u a code msg).1 =
  mark_all now u ((fun o => at_query a (of_zone o) (at_ct a)) <$>
    List.filter (fun o => same_ct a o && member a o) (it_offerings (at_type a)))
    (if cpuLimitIsZero msg then SubscriptionQuotaReachedTTL else LowQuotaTTL).
Proof.
  unfold handleSKUFamilyQuotaError. cbn [fst]. apply mark_loop. intros u' o.
  unfold same_ct, member, getOfferingCapacityType, getOfferingZone.
  by repeat case_bool_decide; simpl; destruct (IsForCapacityReservationGroup (at_scope a));
    destruct (cpuLimitIsZero msg).
Qed.

Lemma mark_all_app now u l l' ttl :
  mark_all now u (l ++ l') ttl = mark_all now (mark_all now u l ttl) l' ttl.
Proof. apply foldl_app. Qed.

Lemma zones_both_marks now u a zs ttl :
  mark_zones_both now u a zs ttl =
  mark_all now u (range_keys zs ≫= both_cts a) ttl.
Proof.
  unfold mark_zones_both. revert u. generalize (range_keys zs). intros l.
  induction l as [|z l IH]; intros u; [done|].
  cbn [foldl]. rewrite IH, bind_cons. by rewrite mark_all_app.
Qed.

(** The set a loop of insertions collects. *)
Lemma zones_fold (sel : Offering -> bool) f (os : list Offering) (s : gset string) z :
  (forall s o, f s o = if sel o then {[ of_zone o ]} ∪ s else s) ->
  z ∈ foldl f s os <-> z ∈ s \/ exists o, o ∈ os /\ sel o = true /\ of_zone o = z.
Proof.
  intros Hf. revert s. induction os as [|o os IH]; intros s; cbn [foldl].
  - split; [by left|]. intros [?|(o & Ho & _)]; [done|]. by apply not_elem_of_nil in Ho.
  - rewrite IH, Hf. clear IH Hf. setoid_rewrite elem_of_cons. destruct (sel o) eqn:E;
      rewrite ?elem_of_union, ?elem_of_singleton; split.
    + intros [[->|?]|(x & ? & ?)]; eauto 6.
    + intros [?|(x & [->|?] & ? & <-)]; eauto 6.
    + intros [?|(x & ? & ?)]; eauto 6.
    + intros [?|(x & [->|?] & ? & <-)]; [by left|congruence|]; eauto 6.
Qed.

Definition placement_zones (a : attempt) : gset string :=
  foldl (fun (s : gset string) offering =>
    if PlacementScopeForOffering offering !=? PlacementScopeForZone (at_zone a) then s
    else if IsForCapacityReservationGroup (at_scope a) &&
            (getOfferingZone offering !=? at_zone a) then s
    else {[ getOfferingZone offering ]} ∪ s) ∅ (it_offerings (at_type a)).

Lemma elem_of_placement_zones a z :
  z ∈ placement_zones a <->
  exists o, o ∈ it_offerings (at_type a) /\
    same_placement a o && member a o = true /\ of_zone o = z.
Proof.
  unfold placement_zones.
  rewrite (zones_fold (fun o => same_placement a o && member a o)).
  - rewrite elem_of_empty. split; [by intros [[]|(o & ? & ? & ?)]; eauto|].
    intros (o & ? & ? & ?). right. eauto.
  - intros s o. unfold same_placement, member, getOfferingZone, PlacementScopeForOffering.
    by repeat case_bool_decide; simpl; destruct (IsForCapacityReservationGroup (at_scope a)).
Qed.

(** ** Well-formed attempts *)

Definition valid_ct (ct : string) : bool :=
  (ct ==? CapacityTypeSpot) || (ct ==? CapacityTypeOnDemand).

(** Names without the separator of the cache keys; the instance type is the
    SKU's; every offering says the placement scope of its zone. *)
Definition wf_attempt (a : attempt) : bool :=
  wf_mark (at_query a (at_zone a) (at_ct a)) &&
  (it_name (at_type a) ==? sku_name (at_sku a)) &&
  forallb (fun o => free_of ":"%char (of_zone o) &&
                    (of_scope o ==? PlacementScopeForZone (of_zone o)))
    (it_offerings (at_type a)).

(** The attempted offering is one the instance type has. *)
Definition offered (a : attempt) : bool :=
  existsb (fun o => same_ct a o && (of_zone o ==? at_zone a)) (it_offerings (at_type a)).

Lemma wf_at_query a z ct :
  wf_attempt a = true -> free_of ":"%char z = true -> valid_ct ct = true ->
  wf_mark (at_query a z ct) = true.
Proof.
  unfold wf_attempt, wf_mark, wf_query, valid_ct, at_query. simpl. intros W Z C.
  rewrite Z, C. go_bool. tauto.
Qed.

Lemma wf_attempt_zone a o :
  wf_attempt a = true -> o ∈ it_offerings (at_type a) ->
  free_of ":"%char (of_zone o) = true /\ of_scope o = PlacementScopeForZone (of_zone o).
Proof.
  unfold wf_attempt. rewrite !andb_true_iff, forallb_forall. intros [_ F] Ho%list_elem_of_In.
  apply F in Ho. go_bool. tauto.
Qed.

Lemma wf_attempt_query a : wf_attempt a = true -> wf_mark (at_query a (at_zone a) (at_ct a)) = true.
Proof. unfold wf_attempt. rewrite !andb_true_iff. tauto. Qed.

Lemma wf_attempt_ct a : wf_attempt a = true -> valid_ct (at_ct a) = true.
Proof.
  intros W%wf_attempt_query. unfold wf_mark, wf_query, valid_ct in *. simpl in W.
  go_bool. tauto.
Qed.

Lemma wf_attempt_at_zone a : wf_attempt a = true -> free_of ":"%char (at_zone a) = true.
Proof.
  intros W%wf_attempt_query. unfold wf_mark, wf_query in *. simpl in W. go_bool. tauto.
Qed.

(** ** The capacity failures *)

Inductive capacity_failure :=
| FamilyQuota | SKUUnavailable | ZonalAllocation | Allocation
| OverconstrainedZonal | OverconstrainedAll | RegionalQuota.

Definition handler_of (f : capacity_failure) : errorHandle :=
  match f with
  | FamilyQuota => handleSKUFamilyQuotaError
  | SKUUnavailable => handleSKUNotAvailableError
  | ZonalAllocation => handleZonalAllocationFailureError
  | Allocation => handleAllocationFailureError
  | OverconstrainedZonal => handleOverconstrainedZonalAllocationFailureError
  | OverconstrainedAll => handleOverconstrainedAllocationFailureError
  | RegionalQuota => handleRegionalQuotaError
  end.

Definition marks_of (f : capacity_failure) (a : attempt) : list query :=
  match f with
  | FamilyQuota => (fun o => at_query a (of_zone o) (at_ct a)) <$>
      List.filter (fun o => same_ct a o && member a o) (it_offerings (at_type a))
  | SKUUnavailable | OverconstrainedAll => (fun o => at_query a (of_zone o) (at_ct a)) <$>
      List.filter (fun o => same_ct a o && same_placement a o && member a o)
        (it_offerings (at_type a))
  | ZonalAllocation => both_cts a (at_zone a)
  | Allocation => range_keys (placement_zones a) ≫= both_cts a
  | OverconstrainedZonal => [at_query a (at_zone a) (at_ct a)]
  | RegionalQuota =>
      if IsForCapacityReservationGroup (at_scope a) then [at_query a (at_zone a) (at_ct a)] else []
  end.

Lemma handler_marks f now u a code msg :
  exists ttl, 0 < ttl /\ (handler_of f now u a code msg).1 = mark_all now u (marks_of f a) ttl.
Proof.
  destruct f; simpl.
  - exists (if cpuLimitIsZero msg then SubscriptionQuotaReachedTTL else LowQuotaTTL).
    split; [by destruct (cpuLimitIsZero msg)|by apply (family_quota_marks now u a code)].
  - eexists. split; [|apply ct_placement_marks]. by destruct (bool_decide _).
  - by exists AllocationFailureTTL.
  - by exists AllocationFailureTTL; split; [|apply zones_both_marks].
  - by exists AllocationFailureTTL.
  - by exists AllocationFailureTTL; split; [|apply ct_placement_marks].
  - exists CapacityReservationQuotaReachedTTL. split; [done|].
    by destruct (IsForCapacityReservationGroup _).
Qed.

Lemma elem_of_both_cts a z q :
  q ∈ both_cts a z <-> exists ct, valid_ct ct = true /\ q = at_query a z ct.
Proof.
  unfold both_cts, valid_ct. split.
  - intros [->|[->|[]%not_elem_of_nil]%elem_of_cons]%elem_of_cons;
      [by exists CapacityTypeOnDemand|by exists CapacityTypeSpot].
  - intros (ct & C & ->). go_bool. destruct C as [-> | ->]; [right; left|left].
Qed.

(** Every marked query is the attempt's SKU in its scope, at the zone of the
    attempt or of an offering of the instance type the failure implicates. *)
Lemma marks_elem f a q0 :
  wf_attempt a = true -> q0 ∈ marks_of f a ->
  exists z ct, q0 = at_query a z ct /\ free_of ":"%char z = true /\ valid_ct ct = true /\
    (IsForCapacityReservationGroup (at_scope a) = true -> z = at_zone a) /\
    (f <> FamilyQuota -> PlacementScopeForZone z = PlacementScopeForZone (at_zone a)).
Proof.
  intros W. pose proof (wf_attempt_ct _ W) as C. pose proof (wf_attempt_at_zone _ W) as Z.
  assert (M : forall o, member a o = true ->
    IsForCapacityReservationGroup (at_scope a) = true -> of_zone o = at_zone a).
  { intros o M G. unfold member in M. rewrite G in M. by apply bool_decide_eq_true in M. }
  assert (P : forall o, o ∈ it_offerings (at_type a) -> same_placement a o = true ->
    PlacementScopeForZone (of_zone o) = PlacementScopeForZone (at_zone a)).
  { intros o Ho S. unfold same_placement in S. apply bool_decide_eq_true in S.
    by destruct (wf_attempt_zone a o W Ho) as [_ <-]. }
  destruct f; simpl.
  1, 2, 6: intros (o & -> & (Ho%list_elem_of_In & S)%list_elem_of_In%filter_In)%list_elem_of_fmap;
    rewrite ?andb_true_iff in S; exists (of_zone o), (at_ct a);
    destruct (wf_attempt_zone a o W Ho); naive_solver.
  - intros (ct & Ct & ->)%elem_of_both_cts. by exists (at_zone a), ct.
  - intros (z & (ct & Ct & ->)%elem_of_both_cts &
      (o & Ho & [S M']%andb_true_iff & <-)%elem_of_range%elem_of_placement_zones)%list_elem_of_bind.
    exists (of_zone o), ct. destruct (wf_attempt_zone a o W Ho). naive_solver.
  - intros ->%list_elem_of_singleton. by exists (at_zone a), (at_ct a).
  - destruct (IsForCapacityReservationGroup (at_scope a)); [|by intros ?%not_elem_of_nil].
    intros ->%list_elem_of_singleton. by exists (at_zone a), (at_ct a).
Qed.

Lemma marks_wf f a : wf_attempt a = true -> forallb wf_mark (marks_of f a) = true.
Proof.
  intros W. apply forallb_forall. intros q0 (z & ct & -> & Z & C & _)%list_elem_of_In%marks_elem;
    [|done]. by apply wf_at_query.
Qed.

(** The exact effect of a capacity failure, as one formula. *)
Lemma handler_answer f now u a code msg q :
  wf_attempt a = true -> wf_query q = true ->
  answer now (handler_of f now u a code msg).1 q =
  answer now u q || existsb (fun q0 => blocks q0 q) (marks_of f a).
Proof.
  intros W Wq. destruct (handler_marks f now u a code msg) as (ttl & Ht & ->).
  apply mark_all_answer; [|done|done]. by apply marks_wf.
Qed.

(** A changed answer comes from a mark that blocks the query. *)
Lemma handler_change f now u a code msg q :
  wf_attempt a = true -> wf_query q = true ->
  answer now (handler_of f now u a code msg).1 q <> answer now u q ->
  exists q0, q0 ∈ marks_of f a /\ blocks q0 q = true.
Proof.
  intros W Wq. rewrite handler_answer by done.
  destruct (existsb _ _) eqn:E; [|rewrite orb_false_r; by intros []].
  intros _. apply existsb_exists in E as (q0 & Hq & B).
  exists q0. split; [by apply list_elem_of_In|done].
Qed.

Lemma Regional_fold z z' :
  EqualFold z z' = true -> PlacementScopeForZone z = PlacementScopeForZone z'.
Proof.
  unfold EqualFold, PlacementScopeForZone. intros E%bool_decide_eq_true.
  assert (R : forall s, ToLower s = Regional -> s = Regional).
  { intros [|c [|d s]]; try done. simpl. intros [= E1]. unfold Regional. f_equal.
    by destruct c as [[] [] [] [] [] [] [] []]. }
  by rewrite (bool_decide_ext (z = Regional) (z' = Regional))
    by (split; intros ->; apply R; [by rewrite <- E|by rewrite E]).
Qed.

Lemma blocks_zone q0 q :
  blocks q0 q = true ->
  EqualFold (q_zone q) (q_zone q0) = true /\
  (widens q0 = false -> same_offering q0 q = true).
Proof.
  unfold blocks, same_offering, larger_sibling, EqualFold. intros B. split.
  - apply bool_decide_eq_true. go_bool. destruct B as [[[[_ _] ->] _]|[[[_ ?] _] _]]; done.
  - intros Wd. rewrite Wd in B. simpl in B. by rewrite orb_false_r in B.
Qed.

(** A capacity failure inside a capacity reservation group is contained:
    it changes the answer for the failed VM size in the attempted zone of that
    group, and for no sibling size, no sibling zone, no other group and no
    unreserved offering. *)
Theorem group_failure_contained f now u a code msg q :
  wf_attempt a = true -> wf_query q = true ->
  IsForCapacityReservationGroup (at_scope a) = true ->
  answer now (handler_of f now u a code msg).1 q <> answer now u q ->
  q_scope q = at_scope a /\ sku_name (q_sku q) = sku_name (at_sku a) /\ q_zone q = at_zone a.
Proof.
  intros W Wq G (q0 & Hq0 & B)%handler_change; [|done|done].
  destruct (marks_elem f a q0 W Hq0) as (z & ct & -> & _ & _ & Hz & _).
  apply blocks_zone in B as [_ B]. unfold same_offering in B. simpl in B.
  rewrite <- (Hz G). specialize (B ltac:(unfold widens; simpl;
    unfold IsForCapacityReservationGroup in G; by destruct (bool_decide _))).
  go_bool. tauto.
Qed.

(** Apart from family quota, which is regional, a capacity failure never
    crosses the placement scope it was observed in: a zonal failure leaves
    every answer for regional placement alone, and the other way round. *)
Theorem placement_scope_fallback f now u a code msg q :
  wf_attempt a = true -> wf_query q = true -> f <> FamilyQuota ->
  PlacementScopeForZone (q_zone q) <> PlacementScopeForZone (at_zone a) ->
  answer now (handler_of f now u a code msg).1 q = answer now u q.
Proof.
  intros W Wq Hf Hs. apply dec_stable. intros (q0 & Hq0 & B)%handler_change; [|done|done].
  destruct (marks_elem f a q0 W Hq0) as (z & ct & -> & _ & _ & _ & Hp).
  apply blocks_zone in B as [B%Regional_fold _]. simpl in B.
  apply Hs. rewrite B. by apply Hp.
Qed.

(** ** The attempted offering is blocked *)

Lemma offered_elem a :
  wf_attempt a = true -> offered a = true ->
  exists o, o ∈ it_offerings (at_type a) /\ same_ct a o = true /\ of_zone o = at_zone a /\
    same_placement a o = true /\ member a o = true.
Proof.
  intros W (o & Ho%list_elem_of_In & [C Z%bool_decide_eq_true]%andb_true_iff)%existsb_exists.
  exists o. destruct (wf_attempt_zone a o W Ho) as [_ S]. repeat split; try done.
  - unfold same_placement. apply bool_decide_eq_true. by rewrite S, Z.
  - unfold member. rewrite (bool_decide_eq_true_2 _ Z). apply orb_true_r.
Qed.

Lemma attempt_marked f a :
  wf_attempt a = true -> offered a = true ->
  (f = RegionalQuota -> IsForCapacityReservationGroup (at_scope a) = true) ->
  at_query a (at_zone a) (at_ct a) ∈ marks_of f a.
Proof.
  intros W O G. pose proof (wf_attempt_ct _ W) as C.
  destruct (offered_elem a W O) as (o & Ho & SC & Zo & SP & M).
  destruct f; simpl.
  1, 2, 6: apply list_elem_of_fmap; exists o; split; [by rewrite Zo|]; apply list_elem_of_In, filter_In;
    split; [by apply list_elem_of_In|by rewrite SC, M, ?SP].
  - apply elem_of_both_cts. by exists (at_ct a).
  - apply list_elem_of_bind. exists (at_zone a). split; [apply elem_of_both_cts; by exists (at_ct a)|].
    apply elem_of_range, elem_of_placement_zones. exists o. by rewrite SP, M.
  - by left.
  - rewrite G by done. by left.
Qed.

Lemma failure_blocks_attempt f now u a code msg :
  wf_attempt a = true -> offered a = true ->
  (f = RegionalQuota -> IsForCapacityReservationGroup (at_scope a) = true) ->
  answer now (handler_of f now u a code msg).1 (at_query a (at_zone a) (at_ct a)) = true.
Proof.
  intros W O G. pose proof (wf_attempt_query _ W) as Wq.
  unfold wf_mark in Wq. apply andb_true_iff in Wq as [Wq _].
  rewrite handler_answer by done. apply orb_true_iff. right. apply existsb_exists.
  eexists. split; [by apply list_elem_of_In, attempt_marked|].
  unfold blocks, same_offering. by rewrite !bool_decide_eq_true_2.
Qed.

Lemma zone_error_blocks now u a code msg e :
  wf_attempt a = true ->
  (handleInvalidAvailabilityZoneError now u a code msg).2 = Some e ->
  answer now (handleInvalidAvailabilityZoneError now u a code msg).1
    (at_query a (at_zone a) (at_ct a)) = true.
Proof.
  intros W. unfold handleInvalidAvailabilityZoneError. case_match; [done|]. intros _.
  unfold wf_attempt in W. go_bool. destruct W as [[_ N] _].
  rewrite answer_or. unfold view_MarkSKUZoneUnavailableWithTTL, MarkSKUZoneUnavailableWithTTL.
  unfold zone_key, at_query. simpl. rewrite N.
  destruct (negb _); simpl; rewrite tc_has_set_eq by done;
    rewrite (bool_decide_eq_true_2 (now <= _)) by (unfold InvalidAvailabilityZoneTTL; go_dur); done.
Qed.

Lemma spot_error_blocks now u a code msg :
  at_ct a = CapacityTypeSpot ->
  answer now (handleLowPriorityQuotaError now u a code msg).1
    (at_query a (at_zone a) (at_ct a)) = true.
Proof.
  intros C. rewrite answer_or. unfold handleLowPriorityQuotaError,
    view_MarkSpotUnavailableWithTTL, MarkSpotUnavailableWithTTL, at_query. simpl.
  rewrite C, bool_decide_eq_true_2 by done. simpl.
  destruct (negb _); simpl; rewrite tc_has_set_eq by done;
    rewrite (bool_decide_eq_true_2 (now <= _)) by (unfold SubscriptionQuotaReachedTTL; go_dur);
    by rewrite orb_true_r.
Qed.

(** One entry of the dispatch table that is a capacity failure. *)
Ltac next_entry :=
  match goal with |- (if ?b then _ else _) = _ -> _ => destruct b eqn:? end.
Ltac use_failure FB f :=
  next_entry;
  [let HR := fresh in intros HR; specialize (FB f); cbn [handler_of] in FB;
   rewrite HR in FB; apply FB; discriminate|].

(** The attempt of a launch with its error. *)
Definition launch (sku : SKU) (it : InstanceType) (zone ct group : string) : attempt :=
  mk_attempt (ForCapacityReservationGroup group) sku it zone ct.


(** The two error models agree on an error: same recognisers, code, message. *)
Definition same_error (sdk : sdk_matchers go_error) (sdk' : sdk_matchers ErrorDetail)
    (err : go_error) (d : ErrorDetail) : Prop :=
  as_response_error err = Some (extractDetailCodeAndMessage d) /\
  LowPriorityQuotaHasBeenReached _ sdk err = LowPriorityQuotaHasBeenReached _ sdk' d /\
  SKUFamilyQuotaHasBeenReached _ sdk err = SKUFamilyQuotaHasBeenReached _ sdk' d /\
  IsSKUNotAvailable _ sdk err = IsSKUNotAvailable _ sdk' d /\
  ZonalAllocationFailureOccurred _ sdk err = ZonalAllocationFailureOccurred _ sdk' d /\
  AllocationFailureOccurred _ sdk err = AllocationFailureOccurred _ sdk' d /\
  OverconstrainedZonalAllocationFailureOccurred _ sdk err =
    OverconstrainedZonalAllocationFailureOccurred _ sdk' d /\
  OverconstrainedAllocationFailureOccurred _ sdk err =
    OverconstrainedAllocationFailureOccurred _ sdk' d /\
  RegionalQuotaHasBeenReached _ sdk err = RegionalQuotaHasBeenReached _ sdk' d.

(** The virtual machine and the AKS machine handlers are in sync: on
    errors their recognisers agree on, they change the cache the same way and
    report the same error. *)
Theorem handlers_in_sync sdk sdk' now u sku it zone ct group err d :
  same_error sdk sdk' err d ->
  ResponseErrorHandler_Handle sdk now u sku it zone ct group err =
  ErrorDetailHandler_Handle sdk' now u sku it zone ct group d.
Proof.
  intros (E & H1' & H2 & H3 & H4 & H5 & H6 & H7 & H8).
  unfold ResponseErrorHandler_Handle, ErrorDetailHandler_Handle, extractErrorCodeAndMessage.
  destruct (extractDetailCodeAndMessage d) as [code msg] eqn:X. rewrite E.
  unfold NewResponseErrorHandler, NewErrorDetailHandler. cbn [dispatch].
  rewrite E, H1', H2, H3, H4, H5, H6, H7, H8.
  unfold extractDetailCodeAndMessage in X. by destruct (ed_code d); simplify_eq/=.
Qed.

End Marks.

(** ** Witnesses *)

Definition w_offering (z ct : string) : Offering :=
  mk_offering ct z (PlacementScopeForZone z) 1 true.
Definition w_type : InstanceType :=
  mk_instance_type "Standard_D4s_v5" "linux"
    [w_offering "eastus-1" "on-demand"; w_offering "eastus-2" "on-demand";
     w_offering "0" "on-demand"; w_offering "eastus-1" "spot"].
Definition w_attempt (scope : string) : attempt :=
  mk_attempt scope (w_sku "Standard_D4s_v5" 4) w_type "eastus-1" "on-demand".
Definition w_query_at (scope z : string) : query :=
  mk_query scope (w_sku "Standard_D4s_v5" 4) z "on-demand".
Definition w_matchers {X} (b : bool) : sdk_matchers X :=
  mk_matchers X (fun _ => false) (fun _ => false) (fun _ => false) (fun _ => b)
    (fun _ => false) (fun _ => false) (fun _ => false) (fun _ => false).

Lemma group_failure_contained_witness :
  q_zone (w_query_at "/crg/a" "eastus-1") = "eastus-1".
Proof.
  apply (group_failure_contained Allocation 10 NewUnavailableOfferings (w_attempt "/crg/a")
    "" "" (w_query_at "/crg/a" "eastus-1")); vm_compute; done.
Defined.

Lemma placement_scope_fallback_witness :
  answer 10 (handler_of Allocation 10 NewUnavailableOfferings (w_attempt "") "" "").1
    (w_query_at "" "0") = false.
Proof.
  rewrite placement_scope_fallback; [reflexivity|reflexivity|reflexivity|discriminate|discriminate].
Defined.


Lemma handlers_in_sync_witness :
  ResponseErrorHandler_Handle (w_matchers true) 10 NewUnavailableOfferings
      (w_sku "Standard_D4s_v5" 4) w_type "eastus-1" "on-demand" ""
      (mk_go_error (Some ("ZonalAllocationFailed", "full")) "full") =
  ErrorDetailHandler_Handle (w_matchers true) 10 NewUnavailableOfferings
      (w_sku "Standard_D4s_v5" 4) w_type "eastus-1" "on-demand" ""
      (mk_error_detail (Some "ZonalAllocationFailed") (Some "full")).
Proof. apply handlers_in_sync. repeat split. Defined.

End ErrorHandlers.
