(* ===== verification/Quota.v ===== *)
(** * The quota provider ([pkg/providers/quota/quota.go])

    Azure's usage API is read now and then into a snapshot; between refreshes
    the provider overlays one signed adjustment per NodeClaim, so accepted
    creates consume quota and observed deletes release it at once.  A refresh
    releases the state lock while it calls Azure: it is three steps here
    ([beginRefresh], then [publishSnapshot] or [finishFailedRefresh]) with any
    operation in between.  [int64] and [uint64] arithmetic wraps. *)

From S2P Require Import Prelude GoString Cloud.
#[local] Open Scope string_scope.
#[local] Open Scope Z_scope.

Module Quota.
Section WithRange.
Context `{GoRange}.

(** ** State *)

Definition GeneralPurposeCategory : string := "generalPurposeCategory".
Definition DeleteTombstoneTTL : Z := 25 * Minute.
Definition DeleteTombstoneCleanupInterval : Z := 10 * Minute.
Definition MaxDeleteTombstones : Z := 50000.

(** The fields of [armcompute.Usage] the provider reads. *)
Record Usage := mk_usage {
  us_name : option (option string);
  us_limit : option Z;
  us_current : option Z
}.

Record adjustment := mk_adjustment {
  adj_quota : string;
  adj_vCPUs : Z;
  adj_seq : Z
}.

Record Provider := mk_provider {
  usages : gmap string Usage;
  familyToQuotaName : gmap string string;
  initialized : bool;
  snapshotGeneration : Z;
  seqNum : Z;
  refreshInProgress : bool;
  adjustments : gmap string adjustment;
  adjustmentsByQuotaName : gmap string Z;
  deleteTombstones : gmap string Z;
  lastDeleteTombstoneCleanup : Z
}.

Definition NewProvider : Provider :=
  mk_provider ∅ ∅ false 0 0 false ∅ ∅ ∅ zero_time.

(** Setters of the fields an operation changes together. *)
Definition set_refresh (b : bool) (p : Provider) : Provider :=
  mk_provider (usages p) (familyToQuotaName p) (initialized p) (snapshotGeneration p) (seqNum p)
    b (adjustments p) (adjustmentsByQuotaName p) (deleteTombstones p)
    (lastDeleteTombstoneCleanup p).
Definition set_tombstones (ts : gmap string Z) (p : Provider) : Provider :=
  mk_provider (usages p) (familyToQuotaName p) (initialized p) (snapshotGeneration p) (seqNum p)
    (refreshInProgress p) (adjustments p) (adjustmentsByQuotaName p) ts
    (lastDeleteTombstoneCleanup p).
Definition set_cleanup (now : Z) (p : Provider) : Provider :=
  mk_provider (usages p) (familyToQuotaName p) (initialized p) (snapshotGeneration p) (seqNum p)
    (refreshInProgress p) (adjustments p) (adjustmentsByQuotaName p) (deleteTombstones p) now.
Definition bump_seq (p : Provider) : Provider :=
  mk_provider (usages p) (familyToQuotaName p) (initialized p) (snapshotGeneration p)
    (u64 (seqNum p + 1)) (refreshInProgress p) (adjustments p) (adjustmentsByQuotaName p)
    (deleteTombstones p) (lastDeleteTombstoneCleanup p).
Definition set_adjustments (adj : gmap string adjustment) (sums : gmap string Z) (p : Provider) :
    Provider :=
  mk_provider (usages p) (familyToQuotaName p) (initialized p) (snapshotGeneration p) (seqNum p)
    (refreshInProgress p) adj sums (deleteTombstones p) (lastDeleteTombstoneCleanup p).

(** Go's [m[k] += v] on a [map[string]int64]. *)
Definition add_at (k : string) (v : Z) (m : gmap string Z) : gmap string Z :=
  <[k := i64 (default 0 (m !! k) + v)]> m.

(** ** Reading Azure *)

(** One page entry of the usage API; entries without a name are dropped. *)
Definition add_usage (m : gmap string Usage) (u : option Usage) : gmap string Usage :=
  match u with
  | Some us =>
      match us_name us with
      | Some (Some n) => <[n := us]> m
      | _ => m
      end
  | None => m
  end.

Definition listUsages (pages : list (result string (list (option Usage)))) :
    result string (gmap string Usage) :=
  match read_pages pages with
  | Err e => Err e
  | Ok us => Ok (foldl add_usage ∅ us)
  end.

(** The fields of [armcomputelimit.VMFamily]; [vf_props] holds category and
    provisioning state. *)
Record VMFamily := mk_vmfamily {
  vf_name : option string;
  vf_props : option (option string * option string)
}.

Definition resolveFamilyQuotaName (family : option VMFamily) : string * string :=
  match family with
  | None => ("", "")
  | Some f =>
      match vf_props f with
      | None => ("", "")
      | Some (category, state) =>
          let familyName := from_ptr "" (vf_name f) in
          let categoryName := from_ptr "" category in
          if (familyName ==? "") || (categoryName ==? "") || (from_ptr "" state !=? "Succeeded")
          then ("", "") else (familyName, categoryName)
      end
  end.

Definition add_family (m : gmap string string) (f : option VMFamily) : gmap string string :=
  let '(familyName, categoryName) := resolveFamilyQuotaName f in
  if (familyName ==? "") || (categoryName ==? "") then m else <[familyName := categoryName]> m.

Definition listQuotaCategoryToFamilyMappings
    (pages : list (result string (list (option VMFamily)))) : result string (gmap string string) :=
  match read_pages pages with
  | Err e => Err ("listing Compute Limit VM families: " +:+ e)
  | Ok fs => Ok (foldl add_family ∅ fs)
  end.

Definition buildFamilyToQuotaName (us : gmap string Usage)
    (pages : list (result string (list (option VMFamily)))) : result string (gmap string string) :=
  match us !! GeneralPurposeCategory with
  | None => Ok ∅
  | Some _ =>
      match listQuotaCategoryToFamilyMappings pages with
      | Err e => Err e
      | Ok m => Ok (filter (fun kv => is_Some (us !! kv.2)) m)
      end
  end.

(** ** Quota questions *)

Definition quotaNameLocked (p : Provider) (familyName : string) : string :=
  match familyToQuotaName p !! familyName with
  | Some categoryName => categoryName
  | None => familyName
  end.

Definition hasQuotaUsageLocked (p : Provider) (quotaName : string) : bool :=
  match usages p !! quotaName with
  | Some u => bool_decide (is_Some (us_limit u)) && bool_decide (is_Some (us_current u))
  | None => false
  end.

Definition GetUsage (p : Provider) (familyName : string) : option Usage :=
  usages p !! quotaNameLocked p familyName.
Definition GetTotalRegionalUsage (p : Provider) : option Usage := GetUsage p "cores".

Definition net_adjustment (p : Provider) (quotaName : string) : Z :=
  default 0 (adjustmentsByQuotaName p !! quotaName).

Definition hasQuotaForLocked (p : Provider) (sku : SKU) : bool :=
  let familyName := sku_family sku in
  if familyName ==? "" then true
  else
    match sku_vcpu sku with
    | None => true
    | Some vcpus =>
        let quotaName := quotaNameLocked p familyName in
        match usages p !! quotaName with
        | None => true
        | Some usage =>
            match us_limit usage, us_current usage with
            | Some limit, Some current =>
                let effectiveCurrentValue := Z.max 0 (i64 (current + net_adjustment p quotaName)) in
                let remaining := i64 (limit - effectiveCurrentValue) in
                vcpus <=? remaining
            | _, _ => true
            end
        end
    end.

Definition HasQuotaFor (p : Provider) (sku : SKU) : bool := hasQuotaForLocked p sku.

Definition HasQuotaForSKUs (p : Provider) (skus : list SKU) : gmap string bool * Z :=
  (foldl (fun m sku => <[sku_name sku := hasQuotaForLocked p sku]> m) ∅ skus, seqNum p).

Definition SeqNum (p : Provider) : Z := seqNum p.
Definition SnapshotGeneration (p : Provider) : Z := snapshotGeneration p.

(** ** Tombstones *)

Definition pruneDeleteTombstonesLocked (now : Z) (p : Provider) : Provider :=
  if negb (IsZero (lastDeleteTombstoneCleanup p)) &&
     (now - lastDeleteTombstoneCleanup p <? DeleteTombstoneCleanupInterval)
  then p
  else set_cleanup now
         (set_tombstones (filter (fun kv => now - kv.2 <= DeleteTombstoneTTL)
            (deleteTombstones p)) p).

(** The scan for the oldest tombstone, in the map's iteration order; the empty
    key stands for "none yet". *)
Definition oldest_step (ts : gmap string Z) (acc : string * Z) (key : string) : string * Z :=
  match ts !! key with
  | Some lastSeen =>
      if (acc.1 ==? "") || (lastSeen <? acc.2) then (key, lastSeen) else acc
  | None => acc
  end.
Definition oldest_tombstone (ts : gmap string Z) : string :=
  (foldl (oldest_step ts) ("", zero_time) (range_keys (dom ts))).1.

Definition insertDeleteTombstoneLocked (instanceKey : string) (now : Z) (p : Provider) : Provider :=
  let ts := deleteTombstones p in
  let ts := if MaxDeleteTombstones <=? Z.of_nat (size ts)
            then delete (oldest_tombstone ts) ts else ts in
  set_tombstones (<[instanceKey := now]> ts) p.

(** ** Lifecycle *)

(** The name and UID of a NodeClaim. *)
Record NodeClaim := mk_nodeclaim { nc_name : string; nc_uid : string }.

Definition instanceKey (nc : NodeClaim) : string := nc_name nc +:+ "/" +:+ nc_uid nc.

Definition RecordCreate (expectedGeneration : Z) (nc : NodeClaim) (familyName : string)
    (vCPUs : Z) (p : Provider) : Provider * bool :=
  if negb (initialized p) || refreshInProgress p ||
     (expectedGeneration !=? snapshotGeneration p) || (vCPUs <=? 0)
  then (p, false)
  else
    let quotaName := quotaNameLocked p familyName in
    if negb (hasQuotaUsageLocked p quotaName) then (p, false)
    else
      let key := instanceKey nc in
      match adjustments p !! key with
      | Some _ => (p, false)
      | None =>
          let p := bump_seq (set_tombstones (delete key (deleteTombstones p)) p) in
          (set_adjustments (<[key := mk_adjustment quotaName vCPUs (seqNum p)]> (adjustments p))
             (add_at quotaName vCPUs (adjustmentsByQuotaName p)) p, true)
      end.

(** Record a deletion: minus [vCPUs] under [key], at the current sequence number. *)
Definition subtract (key quotaName : string) (vCPUs : Z) (p : Provider) : Provider :=
  set_adjustments (<[key := mk_adjustment quotaName (i64 (- vCPUs)) (seqNum p)]> (adjustments p))
    (add_at quotaName (- vCPUs) (adjustmentsByQuotaName p)) p.

Definition RecordDelete (now : Z) (nc : NodeClaim) (familyName : string) (vCPUs : Z)
    (p : Provider) : Provider * bool :=
  let key := instanceKey nc in
  let p := pruneDeleteTombstonesLocked now p in
  if negb (initialized p) || (vCPUs <=? 0) then (p, false)
  else
    let quotaName := quotaNameLocked p familyName in
    if negb (hasQuotaUsageLocked p quotaName) then (p, false)
    else
      (* the tombstone, when it still suppresses this observation *)
      let live := match deleteTombstones p !! key with
                  | Some lastSeen => negb (DeleteTombstoneTTL <? now - lastSeen)
                  | None => false
                  end in
      if live then (set_tombstones (<[key := now]> (deleteTombstones p)) p, false)
      else
        let p := set_tombstones (delete key (deleteTombstones p)) p in
        let p := insertDeleteTombstoneLocked key now p in
        match adjustments p !! key with
        | Some existing =>
            if adj_vCPUs existing <? 0 then (p, false)
            else
              let p := set_adjustments (delete key (adjustments p))
                (add_at (adj_quota existing) (- adj_vCPUs existing) (adjustmentsByQuotaName p)) p in
              let p := bump_seq p in
              (if refreshInProgress p then subtract key quotaName vCPUs p else p, true)
        | None => (subtract key quotaName vCPUs (bump_seq p), true)
        end.

(** ** Refresh *)

Definition beginRefresh (now : Z) (p : Provider) : Provider * Z :=
  let p := set_refresh true (pruneDeleteTombstonesLocked now p) in (p, seqNum p).

Definition finishFailedRefresh (p : Provider) : Provider := set_refresh false p.

(** The sums of [int64] adjustments per quota name. *)
Definition sum_by_quota (adj : gmap string adjustment) : gmap string Z :=
  map_fold (fun _ a m => add_at (adj_quota a) (adj_vCPUs a) m) ∅ adj.

Definition publishSnapshot (freshUsages : gmap string Usage)
    (freshFamilyToQuotaName : gmap string string) (adjustmentWatermark : Z) (p : Provider) :
    Provider :=
  let surviving : gmap string adjustment :=
    filter (fun kv => adjustmentWatermark < adj_seq kv.2) (adjustments p) in
  mk_provider freshUsages freshFamilyToQuotaName true (u64 (snapshotGeneration p + 1))
    (u64 (seqNum p + 1)) false surviving (sum_by_quota surviving)
    (deleteTombstones p) (lastDeleteTombstoneCleanup p).

(** [Update]; [meanwhile] is what other calls do while Azure is asked, when no
    lock is held. *)
Definition Update (now : Z) (meanwhile : Provider -> Provider) (usagePages : list (result string (list (option Usage))))
    (familyPages : list (result string (list (option VMFamily)))) (p : Provider) :
    Provider * option string :=
  let '(p, watermark) := beginRefresh now p in
  let p := meanwhile p in
  match listUsages usagePages with
  | Err e => (finishFailedRefresh p, Some e)
  | Ok freshUsages =>
      match buildFamilyToQuotaName freshUsages familyPages with
      | Err e => (finishFailedRefresh p, Some e)
      | Ok freshFamilyToQuotaName =>
          (publishSnapshot freshUsages freshFamilyToQuotaName watermark p, None)
      end
  end.

Definition Reset (p : Provider) : Provider :=
  if negb (initialized p) && bool_decide (usages p = ∅) &&
     bool_decide (familyToQuotaName p = ∅) && bool_decide (adjustments p = ∅) &&
     bool_decide (deleteTombstones p = ∅)
  then p
  else mk_provider ∅ ∅ false (u64 (snapshotGeneration p + 1)) (u64 (seqNum p + 1)) false
         ∅ ∅ ∅ zero_time.

End WithRange.

(** ** Sums of adjustments *)

(** What an adjustment contributes to a quota. *)
Definition part (q : string) (a : adjustment) : Z :=
  if adj_quota a ==? q then adj_vCPUs a else 0.
Definition total (q : string) (m : gmap string adjustment) : Z :=
  map_fold (fun _ a acc => part q a + acc) 0 m.

Lemma total_empty q : total q ∅ = 0.
Proof. apply map_fold_empty. Qed.

Lemma total_insert q m k a : m !! k = None -> total q (<[k := a]> m) = part q a + total q m.
Proof.
  intros Hk. unfold total.
  apply (map_fold_insert_L (fun _ b acc => part q b + acc)); [|done]. intros. lia.
Qed.

Lemma total_delete q m k a : m !! k = Some a -> total q (delete k m) = total q m - part q a.
Proof.
  intros Hk. rewrite <- (insert_id m k a) at 2 by done. rewrite <- insert_delete_eq.
  rewrite total_insert by apply lookup_delete_eq. lia.
Qed.

Lemma add_at_lookup k v m q :
  default 0 (add_at k v m !! q) =
  if decide (k = q) then i64 (default 0 (m !! k) + v) else default 0 (m !! q).
Proof.
  unfold add_at. case_decide; [subst; by rewrite lookup_insert_eq|by rewrite lookup_insert_ne].
Qed.

Lemma total_nonpos q m : map_Forall (fun _ a => adj_vCPUs a < 0) m -> total q m <= 0.
Proof.
  induction m as [|k a m Hk IH] using map_ind; intros F.
  - rewrite total_empty. lia.
  - apply map_Forall_insert in F as [Fa Fm]; [|done]. rewrite total_insert by done.
    specialize (IH Fm). unfold part. case_bool_decide; lia.
Qed.

(** The accounting relation: the sums are the totals, as [int64]s. *)
Definition accounted (adj : gmap string adjustment) (sums : gmap string Z) : Prop :=
  forall q, default 0 (sums !! q) = i64 (total q adj).

Lemma accounted_empty : accounted ∅ ∅.
Proof. intros q. by rewrite lookup_empty, total_empty. Qed.

Lemma accounted_insert adj sums k a :
  accounted adj sums -> adj !! k = None ->
  accounted (<[k := a]> adj) (add_at (adj_quota a) (adj_vCPUs a) sums).
Proof.
  intros A Hk q. rewrite add_at_lookup, total_insert by done. unfold part.
  case_decide; case_bool_decide; try done; subst; rewrite A.
  rewrite i64_add_l. f_equal. lia.
Qed.

Lemma accounted_delete adj sums k a :
  accounted adj sums -> adj !! k = Some a ->
  accounted (delete k adj) (add_at (adj_quota a) (- adj_vCPUs a) sums).
Proof.
  intros A Hk q. rewrite add_at_lookup, (total_delete _ _ _ a) by done. unfold part.
  case_decide; case_bool_decide; try done; subst; rewrite A.
  - rewrite i64_add_l. f_equal.
  - f_equal. lia.
Qed.

Lemma add_at_i64 k v m : add_at k (i64 v) m = add_at k v m.
Proof. unfold add_at. by rewrite i64_add_r. Qed.

Lemma add_at_comm k v k' v' m : add_at k v (add_at k' v' m) = add_at k' v' (add_at k v m).
Proof.
  unfold add_at. destruct (decide (k = k')) as [->|Hne].
  - rewrite !lookup_insert_eq, !insert_insert_eq. simpl. f_equal.
    rewrite !i64_add_l. f_equal. lia.
  - rewrite !lookup_insert_ne by done. by apply insert_insert_ne.
Qed.

Lemma accounted_sum adj : accounted adj (sum_by_quota adj).
Proof.
  unfold sum_by_quota. induction adj as [|k a adj Hk IH] using map_ind.
  - rewrite map_fold_empty. apply accounted_empty.
  - rewrite map_fold_insert_L; [|intros; apply add_at_comm|done].
    by apply accounted_insert.
Qed.

(** ** The provider and its refreshes as a transition system *)

(** [inflight] is the watermark of the refresh that is calling Azure; the
    update lock allows one at a time. *)
Record system := mk_system { prov : Provider; inflight : option Z }.

Section Steps.
Context `{GoRange}.

Inductive step : system -> system -> Prop :=
| step_begin now p p' w :
    beginRefresh now p = (p', w) ->
    step (mk_system p None) (mk_system p' (Some w))
| step_publish us fam p w :
    step (mk_system p (Some w)) (mk_system (publishSnapshot us fam w p) None)
| step_fail p w :
    step (mk_system p (Some w)) (mk_system (finishFailedRefresh p) None)
| step_create g nc fam v p i :
    int64_ok v -> step (mk_system p i) (mk_system (RecordCreate g nc fam v p).1 i)
| step_delete now nc fam v p i :
    int64_ok v -> step (mk_system p i) (mk_system (RecordDelete now nc fam v p).1 i)
| step_reset p i : step (mk_system p i) (mk_system (Reset p) i).

(** Reachable in [n] steps. *)
Inductive reach : nat -> system -> Prop :=
| reach_init : reach 0 (mk_system NewProvider None)
| reach_step n s s' : reach n s -> step s s' -> reach (S n) s'.

(** Every adjustment newer than [w] is a deletion. *)
Definition only_deletes_after (w : Z) (adj : gmap string adjustment) : Prop :=
  map_Forall (fun _ a => w < adj_seq a -> adj_vCPUs a < 0) adj.

Record invariant (n : Z) (s : system) : Prop := mk_invariant {
  inv_accounted : accounted (adjustments (prov s)) (adjustmentsByQuotaName (prov s));
  inv_seq : 0 <= seqNum (prov s) <= n;
  inv_adj_seq : map_Forall (fun _ a => adj_seq a <= seqNum (prov s)) (adjustments (prov s));
  inv_tombstones : Z.of_nat (size (deleteTombstones (prov s))) <= MaxDeleteTombstones;
  inv_idle : inflight s = None -> refreshInProgress (prov s) = false;
  inv_flight : forall w, inflight s = Some w ->
    w <= seqNum (prov s) /\ only_deletes_after w (adjustments (prov s)) /\
    (refreshInProgress (prov s) = true \/ initialized (prov s) = false)
}.

(** *** Tombstones stay bounded *)

Lemma prune_fields now p :
  let p' := pruneDeleteTombstonesLocked now p in
  adjustments p' = adjustments p /\ adjustmentsByQuotaName p' = adjustmentsByQuotaName p /\
  seqNum p' = seqNum p /\ refreshInProgress p' = refreshInProgress p /\
  initialized p' = initialized p /\ usages p' = usages p /\
  familyToQuotaName p' = familyToQuotaName p /\
  snapshotGeneration p' = snapshotGeneration p /\
  deleteTombstones p' ⊆ deleteTombstones p.
Proof.
  simpl. unfold pruneDeleteTombstonesLocked. destruct (_ && _); [done|].
  repeat split; try done. apply map_filter_subseteq.
Qed.

Lemma oldest_step_in ts acc k :
  (ts <> ∅ /\ k ∈ dom ts) ->
  (acc.1 = "" \/ acc.1 ∈ dom ts) -> (oldest_step ts acc k).1 ∈ dom ts.
Proof.
  intros [_ [t Hk]%elem_of_dom] Ha. unfold oldest_step. rewrite Hk.
  case_match eqn:E; [by apply elem_of_dom|].
  destruct Ha as [Ha|Ha]; [|done]. by rewrite Ha in E.
Qed.

Lemma oldest_in ts : ts <> ∅ -> oldest_tombstone ts ∈ dom ts.
Proof.
  intros NE. unfold oldest_tombstone.
  assert (K : forall k, k ∈ range_keys (dom ts) -> k ∈ dom ts) by (by intros k; rewrite elem_of_range).
  assert (N : range_keys (dom ts) <> []).
  { intros E. apply NE. apply (dom_empty_inv_L (D := gset string)).
    apply set_eq. intros k. rewrite <- elem_of_range, E. set_solver. }
  revert K N. generalize (range_keys (dom ts)) as l.
  assert (G : forall l acc, (forall k, k ∈ l -> k ∈ dom ts) -> (acc.1 ∈ dom ts) ->
    (foldl (oldest_step ts) acc l).1 ∈ dom ts).
  { induction l as [|k l IH]; intros acc Hl Ha; [done|]. cbn [foldl]. apply IH.
    - intros k' Hk'. apply Hl. by right.
    - apply oldest_step_in; [|by right]. split; [done|]. apply Hl. left. }
  intros [|k l] K N; [done|]. cbn [foldl]. apply G.
  - intros k' Hk'. apply K. by right.
  - apply oldest_step_in; [|by left]. split; [done|]. apply K. left.
Qed.

Lemma insert_tombstone_size key now p :
  Z.of_nat (size (deleteTombstones p)) <= MaxDeleteTombstones ->
  Z.of_nat (size (deleteTombstones (insertDeleteTombstoneLocked key now p))) <= MaxDeleteTombstones.
Proof.
  intros Hs. unfold insertDeleteTombstoneLocked. simpl.
  assert (B : forall m : gmap string Z, (size (<[key := now]> m) <= S (size m))%nat).
  { intros m. destruct (m !! key) eqn:E; [rewrite map_size_insert_Some by done; lia|].
    by rewrite map_size_insert_None. }
  destruct (Z.leb_spec MaxDeleteTombstones (Z.of_nat (size (deleteTombstones p)))) as [L|L].
  - specialize (B (delete (oldest_tombstone (deleteTombstones p)) (deleteTombstones p))).
    assert (NE : deleteTombstones p <> ∅).
    { intros E. rewrite E, map_size_empty in L. unfold MaxDeleteTombstones in L. lia. }
    pose proof (oldest_in _ NE) as [t Ht]%elem_of_dom.
    rewrite (map_size_delete_Some _ _ (mk_is_Some _ _ Ht)) in B.
    unfold MaxDeleteTombstones in *. simpl. lia.
  - specialize (B (deleteTombstones p)). lia.
Qed.

(** *** Every step keeps the invariant *)

Lemma only_deletes_vacuous w adj :
  map_Forall (fun _ a => adj_seq a <= w) adj -> only_deletes_after w adj.
Proof. intros F k a Ha Hw. specialize (F k a Ha). simpl in F. lia. Qed.

Lemma adj_seq_mono (adj : gmap string adjustment) w w' :
  w <= w' -> map_Forall (fun _ a => adj_seq a <= w) adj ->
  map_Forall (fun _ a => adj_seq a <= w') adj.
Proof. intros L F. eapply map_Forall_impl; [exact F|]. simpl. lia. Qed.

Lemma prune_invariant n now p i :
  invariant n (mk_system p i) -> invariant n (mk_system (pruneDeleteTombstonesLocked now p) i).
Proof.
  intros [A S F T I W]. simpl in *.
  destruct (prune_fields now p) as (E1 & E2 & E3 & E4 & E5 & _ & _ & _ & E9).
  split; simpl; rewrite ?E1, ?E2, ?E3, ?E4, ?E5; try done.
  pose proof (map_subseteq_size _ _ E9). lia.
Qed.

Lemma create_invariant n g nc fam v p i :
  n + 1 < 2 ^ 64 -> invariant n (mk_system p i) ->
  invariant (n + 1) (mk_system (RecordCreate g nc fam v p).1 i).
Proof.
  intros Hn [A S F T I W]. simpl in *.
  assert (Same : invariant (n + 1) (mk_system p i)) by (split; simpl; try done; lia).
  unfold RecordCreate. destruct (initialized p) eqn:Ei; [|done]. simpl.
  destruct (refreshInProgress p) eqn:Er; [done|]. simpl. do 2 (case_match; [done|]).
  case_match eqn:Ek; [done|]. clear Same.
  split; simpl.
  - by apply (accounted_insert _ _ _ (mk_adjustment _ _ _)).
  - rewrite u64_id; lia.
  - apply map_Forall_insert_2; [simpl; lia|].
    eapply adj_seq_mono; [|done]. rewrite u64_id; lia.
  - pose proof (map_subseteq_size _ _ (delete_subseteq (deleteTombstones p) (instanceKey nc))). lia.
  - done.
  - intros w ->. destruct (W w eq_refl) as (_ & _ & [?|?]); congruence.
Qed.

Lemma subtract_invariant n key q v p i :
  int64_ok v -> 0 < v -> (forall w, i = Some w -> w < seqNum p) ->
  adjustments p !! key = None ->
  invariant n (mk_system p i) -> invariant n (mk_system (subtract key q v p) i).
Proof.
  intros Hv Hp Hw Hk [A S F T I W]. simpl in *.
  assert (Ev : i64 (- v) = - v) by (apply i64_id; unfold int64_ok in *; lia).
  split; simpl; try done.
  - rewrite <- add_at_i64. by apply (accounted_insert _ _ _ (mk_adjustment _ _ _)).
  - apply map_Forall_insert_2; [simpl; lia|done].
  - intros w E. destruct (W w E) as (? & D & ?). split; [done|]. split; [|done].
    apply map_Forall_insert_2; [simpl; lia|done].
Qed.

Lemma delete_invariant n now nc fam v p i :
  int64_ok v -> n + 1 < 2 ^ 64 -> invariant n (mk_system p i) ->
  invariant (n + 1) (mk_system (RecordDelete now nc fam v p).1 i).
Proof.
  intros Hv Hn INV. apply (prune_invariant n now) in INV.
  unfold RecordDelete. revert INV. generalize (pruneDeleteTombstonesLocked now p). clear p. intros p INV.
  assert (Same : forall p', adjustments p' = adjustments p ->
    adjustmentsByQuotaName p' = adjustmentsByQuotaName p -> seqNum p' = seqNum p ->
    refreshInProgress p' = refreshInProgress p -> initialized p' = initialized p ->
    Z.of_nat (size (deleteTombstones p')) <= MaxDeleteTombstones ->
    invariant n (mk_system p' i)).
  { destruct INV as [A S F T I W]. intros p' E1 E2 E3 E4 E5 E6. simpl in *.
    split; simpl; rewrite ?E1, ?E2, ?E3, ?E4, ?E5; done. }
  assert (Mono : forall s, invariant n s -> invariant (n + 1) s).
  { intros s [A S F T I W]. split; try done. lia. }
  assert (Sz : Z.of_nat (size (deleteTombstones p)) <= MaxDeleteTombstones) by apply INV.
  destruct (initialized p) eqn:Ei; [|by apply Mono]. simpl negb. cbn [orb].
  destruct (Z.leb_spec v 0) as [|Hp]; [by apply Mono|]. simpl.
  case_match; [by apply Mono|]. case_match eqn:Elive.
  { apply Mono, Same; try done. cbn [fst deleteTombstones set_tombstones].
    destruct (deleteTombstones p !! instanceKey nc) eqn:Et; [|done].
    by rewrite map_size_insert, Et. }
  set (p1 := insertDeleteTombstoneLocked _ _ _).
  assert (INV1 : invariant n (mk_system p1 i)).
  { apply Same; try done. apply insert_tombstone_size. simpl.
    pose proof (map_subseteq_size _ _ (delete_subseteq (deleteTombstones p) (instanceKey nc))). lia. }
  assert (Bump : forall p, invariant n (mk_system p i) ->
    invariant (n + 1) (mk_system (bump_seq p) i) /\ seqNum (bump_seq p) = seqNum p + 1 /\
    (forall w, i = Some w -> w < seqNum (bump_seq p))).
  { intros q [A S F T I W]. simpl in *. rewrite u64_id by lia. split; [|split; [done|]].
    - split; simpl; rewrite ?u64_id by lia; try done; [lia| |].
      + eapply adj_seq_mono; [|done]. lia.
      + intros w E. destruct (W w E) as (? & ? & ?). split; [lia|done].
    - intros w E. destruct (W w E). lia. }
  destruct (adjustments p !! instanceKey nc) as [a|] eqn:Ek.
  - destruct (adj_vCPUs a <? 0); [by apply Mono|].
    set (p2 := set_adjustments _ _ _).
    assert (INV2 : invariant n (mk_system p2 i)).
    { destruct INV1 as [A S F T I W]. simpl in *. split; simpl; try done.
      - by apply accounted_delete.
      - by apply map_Forall_delete.
      - intros w E. destruct (W w E) as (? & ? & ?). split; [done|]. split; [|done].
        by apply map_Forall_delete. }
    destruct (Bump p2 INV2) as (INV3 & _ & Hw). cbn [fst].
    match goal with |- context [if ?b then subtract _ _ _ _ else _] => destruct b end; [|done].
    apply subtract_invariant; try done. simpl. apply lookup_delete_eq.
  - simpl fst. destruct (Bump p1 INV1) as (INV3 & _ & Hw). by apply subtract_invariant.
Qed.

Lemma step_invariant n s s' :
  n + 1 < 2 ^ 64 -> invariant n s -> step s s' -> invariant (n + 1) s'.
Proof.
  intros Hn INV St.
  destruct St as [now p p' w E|us fam p w|p w|g nc fam v p i Hv|now nc fam v p i Hv|p i].
  - injection E as <- <-. apply (prune_invariant n now) in INV. destruct INV as [A S F T I W].
    simpl in *. split; simpl; try done; [lia|].
    intros w [= <-]. split; [lia|]. split; [|by left]. by apply only_deletes_vacuous.
  - destruct INV as [A S F T I W]. simpl in *. split; simpl; try done.
    + apply accounted_sum.
    + rewrite u64_id; lia.
    + rewrite u64_id by lia. intros k a [Ha _]%map_lookup_filter_Some.
      specialize (F k a Ha). simpl in F. lia.
  - destruct INV as [A S F T I W]. simpl in *. split; simpl; try done. lia.
  - by apply create_invariant.
  - by apply delete_invariant.
  - destruct INV as [A S F T I W]. simpl in *. unfold Reset. case_match.
    + split; simpl; try done. lia.
    + split; simpl; try done.
      * rewrite u64_id; lia.
      * intros w E. destruct (W w E) as (? & _ & _). rewrite u64_id by lia.
        split; [lia|]. split; [done|by right].
Qed.

Lemma reach_invariant n s : Z.of_nat n < 2 ^ 64 -> reach n s -> invariant (Z.of_nat n) s.
Proof.
  intros Hn R. induction R as [|n s s' R IH St].
  - split; simpl; done.
  - replace (Z.of_nat (S n)) with (Z.of_nat n + 1) by lia.
    apply (step_invariant _ s); [lia| |done]. apply IH. lia.
Qed.

(** *** Lemmas on single operations *)

(** The answers depend on the snapshot and the sums only. *)
Lemma has_quota_ext p p' sku :
  usages p' = usages p -> familyToQuotaName p' = familyToQuotaName p ->
  adjustmentsByQuotaName p' = adjustmentsByQuotaName p ->
  HasQuotaFor p' sku = HasQuotaFor p sku.
Proof.
  intros E1 E2 E3. unfold HasQuotaFor, hasQuotaForLocked, quotaNameLocked, net_adjustment.
  by rewrite E1, E2, E3.
Qed.

Lemma has_quota_ext_net p p' sku :
  usages p' = usages p -> familyToQuotaName p' = familyToQuotaName p ->
  (forall q, net_adjustment p' q = net_adjustment p q) ->
  HasQuotaFor p' sku = HasQuotaFor p sku.
Proof.
  intros E1 E2 E3. unfold HasQuotaFor, hasQuotaForLocked, quotaNameLocked.
  by rewrite E1, E2, E3.
Qed.

(** The state after a create that is accepted. *)
Definition created (nc : NodeClaim) (quotaName : string) (v : Z) (p : Provider) : Provider :=
  let p := bump_seq (set_tombstones (delete (instanceKey nc) (deleteTombstones p)) p) in
  set_adjustments (<[instanceKey nc := mk_adjustment quotaName v (seqNum p)]> (adjustments p))
    (add_at quotaName v (adjustmentsByQuotaName p)) p.

Lemma create_accepted g nc fam v p p1 :
  RecordCreate g nc fam v p = (p1, true) ->
  initialized p = true /\ refreshInProgress p = false /\ 0 < v /\
  hasQuotaUsageLocked p (quotaNameLocked p fam) = true /\
  adjustments p !! instanceKey nc = None /\ p1 = created nc (quotaNameLocked p fam) v p.
Proof.
  unfold RecordCreate. destruct (initialized p); [|done]. destruct (refreshInProgress p); [done|].
  destruct (_ !=? _); [done|]. destruct (Z.leb_spec v 0); [done|]. simpl negb. cbn [orb].
  destruct (hasQuotaUsageLocked p _); [|done]. cbn [negb].
  destruct (adjustments p !! instanceKey nc); [done|]. by intros [= <-].
Qed.

(** A tombstone that is young enough survives pruning. *)
Lemma prune_keeps now p k t :
  deleteTombstones p !! k = Some t -> now - t <= DeleteTombstoneTTL ->
  deleteTombstones (pruneDeleteTombstonesLocked now p) !! k = Some t.
Proof.
  intros Hk Ht. unfold pruneDeleteTombstonesLocked. case_match; [done|]. simpl.
  by apply map_lookup_filter_Some.
Qed.

Lemma delete_cancels now nc fam v p :
  initialized p = true -> refreshInProgress p = false -> 0 < v ->
  hasQuotaUsageLocked p (quotaNameLocked p fam) = true ->
  adjustments p !! instanceKey nc = None ->
  accounted (adjustments p) (adjustmentsByQuotaName p) ->
  exists p2, RecordDelete now nc fam v (created nc (quotaNameLocked p fam) v p) = (p2, true) /\
    adjustments p2 = adjustments p /\
    (forall sku, HasQuotaFor p2 sku = HasQuotaFor p sku) /\
    deleteTombstones p2 !! instanceKey nc = Some now.
Proof.
  intros Ci Cr Cv Cq Ck A. set (key := instanceKey nc) in *. set (qn := quotaNameLocked p fam) in *.
  set (p0 := created nc qn v p).
  destruct (prune_fields now p0) as (E1 & E2 & E3 & E4 & E5 & E6 & E7 & _ & E9).
  unfold RecordDelete. cbv zeta. fold key. set (p1 := pruneDeleteTombstonesLocked now p0) in *.
  rewrite E5. change (initialized p0) with (initialized p). rewrite Ci.
  destruct (Z.leb_spec v 0); [lia|]. cbn [negb orb].
  assert (Q : hasQuotaUsageLocked p1 (quotaNameLocked p1 fam) = true).
  { unfold hasQuotaUsageLocked, quotaNameLocked. rewrite E6, E7. exact Cq. }
  rewrite Q. cbn [negb].
  assert (T : deleteTombstones p1 !! key = None).
  { eapply lookup_weaken_None; [|exact E9]. apply lookup_delete_eq. }
  rewrite T. set (p2 := insertDeleteTombstoneLocked _ _ _).
  assert (K : adjustments p2 = <[key := mk_adjustment qn v (u64 (seqNum p + 1))]> (adjustments p)) by exact E1.
  assert (S : adjustmentsByQuotaName p2 = add_at qn v (adjustmentsByQuotaName p)) by exact E2.
  rewrite K, lookup_insert_eq. cbn [adj_vCPUs adj_quota]. destruct (Z.ltb_spec v 0); [lia|].
  change (refreshInProgress (bump_seq (set_adjustments _ _ p2))) with (refreshInProgress p1).
  rewrite E4. change (refreshInProgress p0) with (refreshInProgress p). rewrite Cr.
  eexists. split; [done|]. cbn [adjustments bump_seq set_adjustments].
  assert (D : delete key (<[key := mk_adjustment qn v (u64 (seqNum p + 1))]> (adjustments p)) = adjustments p).
  { by rewrite delete_insert_id. }
  split; [done|]. split.
  - intros sku. apply has_quota_ext_net; [exact E6|exact E7|].
    intros q. unfold net_adjustment. rewrite A.
    pose proof (accounted_insert _ _ key (mk_adjustment qn v (u64 (seqNum p + 1))) A Ck) as A1.
    pose proof (accounted_delete _ _ key _ A1 (lookup_insert_eq _ _ _) q) as A2.
    rewrite D in A2. cbn [adj_quota adj_vCPUs] in A2.
    cbn [adjustmentsByQuotaName set_adjustments bump_seq]. by rewrite S.
  - unfold p2. simpl. apply lookup_insert_eq.
Qed.

Lemma delete_repeated now' now nc fam v p :
  deleteTombstones p !! instanceKey nc = Some now -> now' - now <= DeleteTombstoneTTL ->
  exists p', RecordDelete now' nc fam v p = (p', false) /\
    forall sku, HasQuotaFor p' sku = HasQuotaFor p sku.
Proof.
  intros T Hnow. pose proof (prune_keeps _ _ _ _ T Hnow) as T'.
  destruct (prune_fields now' p) as (E1 & E2 & _ & _ & _ & E6 & E7 & _).
  unfold RecordDelete. cbv zeta. rewrite T'.
  destruct (Z.ltb_spec DeleteTombstoneTTL (now' - now)); [lia|]. cbn [negb].
  do 2 (case_match; [by eexists; split; [done|]; intros; apply has_quota_ext|]).
  eexists; split; [done|]. intros. by apply has_quota_ext.
Qed.

(** *** The published properties *)

(** C30. Local accounting: in every reachable state, refreshes and resets
    interleaved at will, the running sum the provider keeps per quota is the
    (64-bit) sum of the adjustments it holds for that quota. *)
Theorem quota_accounting n s :
  Z.of_nat n < 2 ^ 64 -> reach n s ->
  forall q, net_adjustment (prov s) q = i64 (total q (adjustments (prov s))).
Proof. intros Hn R q. apply (reach_invariant n s Hn R). Qed.

(** A refresh supersedes what was recorded before it started: when it
    publishes, the adjustments left are exactly those recorded after its
    watermark, all of them deletions, and the new snapshot answers
    for every quota name. *)
Theorem refresh_keeps_only_deletes n s w us fam :
  Z.of_nat n < 2 ^ 64 -> reach n s -> inflight s = Some w ->
  let p' := publishSnapshot us fam w (prov s) in
  (forall k a, adjustments p' !! k = Some a <->
     adjustments (prov s) !! k = Some a /\ w < adj_seq a) /\
  map_Forall (fun _ a => adj_vCPUs a < 0) (adjustments p') /\
  (forall q, int64_ok (total q (adjustments p')) -> net_adjustment p' q <= 0) /\
  (forall q, usages p' !! q = us !! q) /\ initialized p' = true /\ refreshInProgress p' = false.
Proof.
  intros Hn R E p'. destruct (reach_invariant n s Hn R) as [A S F T I W].
  destruct (W w E) as (_ & D & _).
  assert (L : forall k a, adjustments p' !! k = Some a <->
     adjustments (prov s) !! k = Some a /\ w < adj_seq a).
  { intros k a. unfold p', publishSnapshot. simpl. by rewrite map_lookup_filter_Some. }
  assert (N : map_Forall (fun _ a => adj_vCPUs a < 0) (adjustments p')).
  { intros k a [Ha Hw]%L. by apply (D k a Ha). }
  split; [done|]. split; [done|]. split; [|done].
  intros q Hq. unfold net_adjustment.
  change (adjustmentsByQuotaName p') with (sum_by_quota (adjustments p')).
  rewrite accounted_sum, i64_id by done. by apply total_nonpos.
Qed.

(** What [HasQuotaFor] answers: when the SKU's family, its vCPU count and
    a usage entry with both numbers are known, exactly whether the effective
    usage (the snapshot's value plus the local adjustments, never below
    zero) leaves room for the SKU; in every other case, yes. *)
Theorem has_quota_exact p sku :
  (forall vcpus u limit current,
     sku_family sku <> "" -> sku_vcpu sku = Some vcpus ->
     let q := quotaNameLocked p (sku_family sku) in
     usages p !! q = Some u -> us_limit u = Some limit -> us_current u = Some current ->
     let used := Z.max 0 (current + net_adjustment p q) in
     int64_ok (current + net_adjustment p q) -> int64_ok (limit - used) ->
     (HasQuotaFor p sku = true <-> used + vcpus <= limit)) /\
  (sku_family sku = "" \/ sku_vcpu sku = None \/
     hasQuotaUsageLocked p (quotaNameLocked p (sku_family sku)) = false ->
   HasQuotaFor p sku = true).
Proof.
  split.
  - intros vcpus u limit current Hf Hv q Hu Hl Hc used O1 O2.
    unfold HasQuotaFor, hasQuotaForLocked.
    rewrite (bool_decide_eq_false_2 (sku_family sku = "")) by done. rewrite Hv. fold q. rewrite Hu, Hl, Hc.
    rewrite (i64_id (current + _)), i64_id by done. fold used. lia.
  - unfold HasQuotaFor, hasQuotaForLocked, hasQuotaUsageLocked.
    destruct (bool_decide (sku_family sku = "")) eqn:E; [done|].
    apply bool_decide_eq_false in E.
    destruct (sku_vcpu sku); [|done]. intros [Hc|[Hc|U]]; [done|done|]. revert U.
    destruct (usages p !! _) as [[? l c]|]; [|done]. by destruct l, c.
Qed.

(** The sequence number announces every change: a step after which
    [SeqNum] is unchanged has not changed the answer for any SKU, so that
    availability computed under an equal sequence number is still valid. *)
Theorem seqNum_announces_change n s s' :
  Z.of_nat n + 1 < 2 ^ 64 -> reach n s -> step s s' ->
  SeqNum (prov s') = SeqNum (prov s) ->
  forall sku, HasQuotaFor (prov s') sku = HasQuotaFor (prov s) sku.
Proof.
  intros Hn R St E sku.
  assert (Sq : 0 <= seqNum (prov s) < 2 ^ 64).
  { pose proof (inv_seq _ _ (reach_invariant n s ltac:(lia) R)). lia. }
  pose proof (u64_succ_ne _ Sq) as Ne. revert E.
  destruct St as [now p p' w B|us fam p w|p w|g nc fam v p i Hv|now nc fam v p i Hv|p i];
    simpl in *; unfold SeqNum; intros E.
  - injection B as <- <-. apply has_quota_ext; apply (prune_fields now p).
  - done.
  - done.
  - revert E. unfold RecordCreate. do 2 (case_match; [done|]). by case_match.
  - destruct (prune_fields now p) as (E1 & E2 & E3 & _ & _ & E6 & E7 & _).
    revert E. unfold RecordDelete. cbv zeta.
    set (p1 := pruneDeleteTombstonesLocked now p) in *. rewrite <- E3 in Ne |- *.
    rewrite <- (has_quota_ext p p1 sku) by done.
    do 2 (case_match; [done|]). case_match; [done|].
    simpl adjustments. destruct (adjustments p1 !! _); [|done].
    destruct (_ <? 0); [done|]. simpl.
    destruct (refreshInProgress p1); done.
  - revert E. unfold Reset. by case_match.
Qed.

(** Tombstones are bounded: whatever deletions are observed, at most
    [MaxDeleteTombstones] of them are remembered. *)
Theorem tombstones_bounded n s :
  Z.of_nat n < 2 ^ 64 -> reach n s ->
  Z.of_nat (size (deleteTombstones (prov s))) <= MaxDeleteTombstones.
Proof. intros Hn R. apply (reach_invariant n s Hn R). Qed.

(** A create that is later found deleted leaves no trace in the quota, and
    the deletion is counted once: observations repeated within the tombstone's
    lifetime are refused and change no answer. *)
Theorem create_then_delete n s g now nc fam v p1 :
  Z.of_nat n < 2 ^ 64 -> reach n s -> int64_ok v ->
  RecordCreate g nc fam v (prov s) = (p1, true) ->
  exists p2, RecordDelete now nc fam v p1 = (p2, true) /\
    adjustments p2 = adjustments (prov s) /\
    (forall sku, HasQuotaFor p2 sku = HasQuotaFor (prov s) sku) /\
    forall now' fam' v', now' - now <= DeleteTombstoneTTL ->
      exists p3, RecordDelete now' nc fam' v' p2 = (p3, false) /\
        (forall sku, HasQuotaFor p3 sku = HasQuotaFor (prov s) sku).
Proof.
  intros Hn R Hv C. pose proof (inv_accounted _ _ (reach_invariant n s Hn R)) as A.
  destruct (create_accepted _ _ _ _ _ _ C) as (Ci & Cr & Cv & Cq & Ck & ->).
  destruct (delete_cancels now nc fam v (prov s) Ci Cr Cv Cq Ck A) as (p2 & D & E1 & E2 & T).
  exists p2. split; [done|]. split; [done|]. split; [done|].
  intros now' fam' v' Hnow. destruct (delete_repeated now' now nc fam' v' p2 T Hnow) as (p3 & D3 & Q).
  exists p3. split; [done|]. intros sku. by rewrite Q.
Qed.

End Steps.

(** ** Concrete instances *)

Section Demo.

Definition demo_claim : NodeClaim := mk_nodeclaim "claim" "uid".
Definition demo_sku : SKU := mk_sku "Standard_D2s_v5" "fam" (Some 2).
Definition demo_fresh : Provider :=
  publishSnapshot {[ "fam" := mk_usage (Some (Some "fam")) (Some 10) (Some 8) ]} ∅ 0
    (beginRefresh 0 NewProvider).1.
Definition demo_used : Provider := (RecordCreate 1 demo_claim "fam" 2 demo_fresh).1.
Definition demo_refreshing : Provider := (beginRefresh Hour demo_used).1.
Definition demo_deleted : Provider :=
  (RecordDelete (Hour + Minute) demo_claim "fam" 2 demo_refreshing).1.

Lemma demo_reach_fresh : reach 2 (mk_system demo_fresh None).
Proof.
  eapply reach_step; [eapply reach_step; [apply reach_init|by eapply (step_begin 0)]|].
  apply step_publish.
Qed.

Lemma demo_reach_deleted : reach 5 (mk_system demo_deleted (Some 2)).
Proof.
  assert (V : int64_ok 2) by (unfold int64_ok; lia).
  apply (reach_step 4 (mk_system demo_refreshing (Some 2)));
    [apply (reach_step 3 (mk_system demo_used None));
       [apply (reach_step 2 (mk_system demo_fresh None) _ demo_reach_fresh)|]|].
  - exact (step_create 1 demo_claim "fam" 2 demo_fresh None V).
  - apply (step_begin Hour demo_used). by vm_compute.
  - exact (step_delete (Hour + Minute) demo_claim "fam" 2 demo_refreshing (Some 2) V).
Qed.

Lemma quota_accounting_witness :
  HasQuotaFor demo_fresh demo_sku = true /\ HasQuotaFor demo_used demo_sku = false /\
  net_adjustment demo_deleted "fam" = i64 (total "fam" (adjustments demo_deleted)) /\
  net_adjustment demo_deleted "fam" = -2.
Proof.
  split; [by vm_compute|]. split; [by vm_compute|]. split; [|by vm_compute].
  apply (quota_accounting 5 _ ltac:(lia) demo_reach_deleted).
Defined.

Lemma refresh_keeps_only_deletes_witness :
  net_adjustment (publishSnapshot ∅ ∅ 2 demo_deleted) "fam" <= 0 /\
  net_adjustment (publishSnapshot ∅ ∅ 2 demo_deleted) "fam" = -2.
Proof.
  split; [|by vm_compute].
  apply (refresh_keeps_only_deletes 5 _ 2 ∅ ∅ ltac:(lia) demo_reach_deleted eq_refl).
  vm_compute. split; congruence.
Defined.

Lemma has_quota_exact_witness :
  HasQuotaFor demo_fresh demo_sku = true <-> 8 + 2 <= 10.
Proof.
  apply (proj1 (has_quota_exact demo_fresh demo_sku) 2
    (mk_usage (Some (Some "fam")) (Some 10) (Some 8)) 10 8);
    try reflexivity; try discriminate; vm_compute; split; congruence.
Defined.

Lemma seqNum_announces_change_witness :
  HasQuotaFor (beginRefresh Hour demo_fresh).1 demo_sku = HasQuotaFor demo_fresh demo_sku.
Proof.
  apply (seqNum_announces_change 2 (mk_system demo_fresh None)
    (mk_system (beginRefresh Hour demo_fresh).1 (Some 1)) ltac:(lia) demo_reach_fresh);
    [by apply (step_begin Hour)|reflexivity].
Defined.

Lemma tombstones_bounded_witness :
  Z.of_nat (size (deleteTombstones demo_deleted)) <= MaxDeleteTombstones /\
  size (deleteTombstones demo_deleted) = 1%nat.
Proof.
  split; [|by vm_compute].
  apply (tombstones_bounded 5 _ ltac:(lia) demo_reach_deleted).
Defined.

Lemma create_then_delete_witness :
  exists p2, RecordDelete Hour demo_claim "fam" 2 demo_used = (p2, true) /\
    adjustments p2 = adjustments demo_fresh.
Proof.
  destruct (create_then_delete 2 (mk_system demo_fresh None) 1 Hour demo_claim "fam" 2 demo_used
    ltac:(lia) demo_reach_fresh) as (p2 & D & A & _).
  - unfold int64_ok. lia.
  - by vm_compute.
  - by exists p2.
Defined.

End Demo.

End Quota.
