(* ===== verification/Recommendation.v ===== *)
(** * Capacity recommendations ([pkg/providers/capacityrecommendation])

    The provider asks Azure's SKU Mix Placement API how to spread a request
    over VM sizes and zones, orders the answer itself and caches it.  The API
    client and [hashstructure.Hash] are parameters; concurrent identical
    requests are collapsed by [singleflight], so one request per key is
    modelled.  Metrics and logging are left out. *)

From S2P Require Import Prelude GoString GoCache GoSort Cloud.
#[local] Open Scope string_scope.
#[local] Open Scope Z_scope.

Module Recommendation.

Definition defaultCacheTTL : Z := 45 * Second.

Record RankingInput := mk_input {
  in_VMSizes : list string;
  in_Zones : list string;
  in_CapacityType : string;
  in_OSType : string;
  in_Count : Z
}.

Record Recommendation := mk_recommendation {
  r_VMSize : string;
  r_Zone : string;
  r_CapacityType : string;
  r_Score : Z;
  r_ID : string;
  r_Count : Z
}.

(** The API's capacity limit: five optional fields. *)
Record CapacityLimit := mk_limit {
  cl_Limit : option Z;
  cl_Name : option string;
  cl_Priority : option string;
  cl_Reason : option string;
  cl_Zone : option string
}.

Record RecommendationDetails := mk_details {
  Recommendations : list Recommendation;
  CapacityLimits : list (option CapacityLimit)
}.

(** The API's answer.  A slice that may be nil is an option. *)
Record Item := mk_item {
  sp_Name : option string;
  sp_Zone : option string;
  sp_Priority : option string;
  sp_Capacity : option Z
}.
Record Choice := mk_choice {
  ch_Score : option Z;
  ch_SKUSplit : option (list (option Item))
}.
Record Response := mk_response {
  rs_ID : option string;
  rs_Choices : list (option Choice);
  rs_Limits : list (option CapacityLimit);
  rs_ValidUntil : option Z
}.

(** The request: ranked sizes, zones and the capacity profile. *)
Record Request := mk_request {
  rq_Zones : list string;
  rq_Capacity : Z;
  rq_Priority : string;
  rq_OSType : string;
  rq_VMSizes : list (string * Z)
}.

Inductive error :=
| ErrNoVMSizes
| ErrCount (n : Z)
| ErrCapacityType (s : string)
| ErrOSType (s : string)
| ErrHash (e : string)
| ErrAPI (e : string)
| ErrNoChoices
| ErrInvalidChoice (id : string)
| ErrInvalidSplit (id : string)
| ErrPriority (s : string)
| ErrNoRecommendation
| ErrNilInput.

(** The enumerations of the API package. *)
Definition PriorityRegular : string := "Regular".
Definition PrioritySpot : string := "Spot".
Definition OSLinux : string := "linux".
Definition OSWindows : string := "windows".

(** ** Requests *)

Definition validateInput (input : option RankingInput) : option error :=
  match input with
  | None => Some ErrNilInput
  | Some i =>
      if Nat.eqb (length (in_VMSizes i)) 0 then Some ErrNoVMSizes
      else if in_Count i <=? 0 then Some (ErrCount (in_Count i))
      else if (in_CapacityType i !=? CapacityTypeOnDemand) && (in_CapacityType i !=? CapacityTypeSpot)
      then Some (ErrCapacityType (in_CapacityType i))
      else if (in_OSType i !=? OSLinux) && (in_OSType i !=? OSWindows)
      then Some (ErrOSType (in_OSType i))
      else None
  end.

Definition toSKUMixPlacementRequest (i : RankingInput) : Request :=
  mk_request (in_Zones i) (in_Count i)
    (if in_CapacityType i ==? CapacityTypeSpot then PrioritySpot else PriorityRegular)
    (if in_OSType i ==? OSLinux then "Linux" else if in_OSType i ==? OSWindows then "Windows" else "")
    (imap (fun rank name => (name, i32 (Z.of_nat rank))) (in_VMSizes i)).

(** [fmt.Sprintf("%016x", v)] of a [uint64]. *)
Definition hex_digit (n : Z) : ascii :=
  ascii_of_nat (Z.to_nat (if n <? 10 then 48 + n else 87 + n)).
Fixpoint hex_digits (k : nat) (v : Z) : string :=
  match k with
  | O => ""
  | S k' => String (hex_digit ((v / 16 ^ Z.of_nat k') mod 16)) (hex_digits k' v)
  end.

(** ** Comparing placement choices *)

Definition splits (c : Choice) : list (option Item) := default [] (ch_SKUSplit c).

Definition skuStats_step (vmSize : string) (requestedZones : gset string)
    (acc : Z * gset string) (s : option Item) : Z * gset string :=
  match s with
  | None => acc
  | Some it =>
      if from_ptr "" (sp_Name it) !=? vmSize then acc
      else
        let capacity := i32 (acc.1 + from_ptr 0 (sp_Capacity it)) in
        match sp_Zone it with
        | None => (capacity, acc.2)
        | Some zone =>
            if bool_decide (zone ∈ requestedZones) then (capacity, {[zone]} ∪ acc.2)
            else (capacity, acc.2)
        end
  end.
Definition skuStats (c : Choice) (vmSize : string) (requestedZones : gset string) : Z * Z :=
  let '(capacity, zones) := foldl (skuStats_step vmSize requestedZones) (0, ∅) (splits c) in
  (capacity, Z.of_nat (size zones)).

Definition requestedZoneCoverage (c : Choice) (requestedZones : gset string) : Z :=
  Z.of_nat (size (foldl (fun (covered : gset string) s =>
    match s with
    | Some it =>
        match sp_Zone it with
        | Some zone => if bool_decide (zone ∈ requestedZones) then {[zone]} ∪ covered else covered
        | None => covered
        end
    | None => covered
    end) ∅ (splits c))).

(** The loop over the requested sizes; [None] when all of them tie. *)
Fixpoint better_by_size (candidate current : Choice) (zones : gset string) (sizes : list string) :
    option bool :=
  match sizes with
  | [] => None
  | vmSize :: rest =>
      let '(candidateCapacity, candidateZones) := skuStats candidate vmSize zones in
      let '(currentCapacity, currentZones) := skuStats current vmSize zones in
      if candidateCapacity !=? currentCapacity then Some (currentCapacity <? candidateCapacity)
      else if candidateZones !=? currentZones then Some (currentZones <? candidateZones)
      else better_by_size candidate current zones rest
  end.

Definition placementChoiceIsBetter (candidate current : Choice) (input : RankingInput) : bool :=
  let currentScore := from_ptr 0 (ch_Score current) in
  let candidateScore := from_ptr 0 (ch_Score candidate) in
  if candidateScore !=? currentScore then currentScore <? candidateScore
  else
    let requestedZones := list_to_set (in_Zones input) in
    match better_by_size candidate current requestedZones (in_VMSizes input) with
    | Some b => b
    | None => requestedZoneCoverage current requestedZones <? requestedZoneCoverage candidate requestedZones
    end.

Definition sortedPlacementChoices (response : Response) (input : RankingInput) : list Choice :=
  SliceStable (fun a b => placementChoiceIsBetter a b input) (omap id (rs_Choices response)).

(** ** Recommendations *)

Definition recommendationKey : Type := string * string * string.
Definition key (r : Recommendation) : recommendationKey := (r_VMSize r, r_Zone r, r_CapacityType r).

Definition capacityTypeForPriority (priority : string) : option string :=
  if priority ==? PriorityRegular then Some CapacityTypeOnDemand
  else if priority ==? PrioritySpot then Some CapacityTypeSpot
  else None.

Definition recommendationFromSplit (responseID : string) (choice : Choice) (split : option Item) :
    result error Recommendation :=
  match split with
  | Some it =>
      match sp_Name it, sp_Capacity it, sp_Priority it with
      | Some name, Some capacity, Some priority =>
          match capacityTypeForPriority priority with
          | None => Err (ErrPriority priority)
          | Some capacityType =>
              Ok (mk_recommendation name (from_ptr "" (sp_Zone it)) capacityType
                    (from_ptr 0 (ch_Score choice)) responseID capacity)
          end
      | _, _, _ => Err (ErrInvalidSplit responseID)
      end
  | None => Err (ErrInvalidSplit responseID)
  end.

(** One accepted recommendation: kept unless its key was seen. *)
Definition add_recommendation (acc : gset recommendationKey * list Recommendation)
    (r : Recommendation) : gset recommendationKey * list Recommendation :=
  if bool_decide (key r ∈ acc.1) then acc else ({[key r]} ∪ acc.1, (acc.2 ++ [r])%list).

Fixpoint add_splits (responseID : string) (choice : Choice) (ss : list (option Item))
    (acc : gset recommendationKey * list Recommendation) :
    result error (gset recommendationKey * list Recommendation) :=
  match ss with
  | [] => Ok acc
  | s :: rest =>
      match recommendationFromSplit responseID choice s with
      | Err e => Err e
      | Ok r => add_splits responseID choice rest (add_recommendation acc r)
      end
  end.

Fixpoint add_choices (responseID : string) (choices : list Choice)
    (acc : gset recommendationKey * list Recommendation) :
    result error (gset recommendationKey * list Recommendation) :=
  match choices with
  | [] => Ok acc
  | c :: rest =>
      match ch_Score c, ch_SKUSplit c with
      | Some _, Some ss =>
          match add_splits responseID c ss acc with
          | Err e => Err e
          | Ok acc' => add_choices responseID rest acc'
          end
      | _, _ => Err (ErrInvalidChoice responseID)
      end
  end.

Definition recommendationsFromChoices (responseID : string) (choices : list Choice) :
    result error (list Recommendation) :=
  match add_choices responseID choices (∅, []) with
  | Err e => Err e
  | Ok (_, []) => Err ErrNoRecommendation
  | Ok (_, rs) => Ok rs
  end.

(** ** The provider *)

Definition clonePointer {T} (value : option T) : option T :=
  match value with None => None | Some v => Some v end.
Definition cloneRecommendationDetails (i : RecommendationDetails) : RecommendationDetails :=
  mk_details (Recommendations i)
    (map (fun l => match l with
                   | None => None
                   | Some c => Some (mk_limit (clonePointer (cl_Limit c)) (clonePointer (cl_Name c))
                                 (clonePointer (cl_Priority c)) (clonePointer (cl_Reason c))
                                 (clonePointer (cl_Zone c)))
                   end) (CapacityLimits i)).

Section Provider.
Context `{TTLCache}.
(** The API client, and the hash of a cache key's fields. *)
Variable Post : Request -> result string Response.
Variable Hash : string -> string -> list string -> list string -> result string Z.

Definition cacheKey (i : RankingInput) : result string string :=
  match Hash (in_CapacityType i) (in_OSType i) (in_VMSizes i) (Strings (in_Zones i)) with
  | Err e => Err e
  | Ok v => Ok (hex_digits 16 v)
  end.

Definition cache : Type := tc RecommendationDetails.

Definition getCached (now : Z) (k : string) (c : cache) : option RecommendationDetails :=
  match tc_get now k c with
  | Some d => Some (cloneRecommendationDetails d)
  | None => None
  end.

(** [now] and [now'] are the two readings of the clock. *)
Definition fetchAndCache (now now' : Z) (k : string) (i : RankingInput) (c : cache) :
    result error RecommendationDetails * cache :=
  match Post (toSKUMixPlacementRequest i) with
  | Err e => (Err (ErrAPI e), c)
  | Ok response =>
      let choices := sortedPlacementChoices response i in
      if Nat.eqb (length choices) 0 then (Err ErrNoChoices, c)
      else
        match recommendationsFromChoices (from_ptr "" (rs_ID response)) choices with
        | Err e => (Err e, c)
        | Ok recommendations =>
            let d := mk_details recommendations (rs_Limits response) in
            let validUntil := from_ptr (now + defaultCacheTTL) (rs_ValidUntil response) in
            let ttl := validUntil - now' in
            let ttl := if ttl <? defaultCacheTTL then defaultCacheTTL else ttl in
            (Ok (cloneRecommendationDetails d), tc_set now' k d ttl c)
        end
  end.

(** The boolean says whether the API was called. *)
Definition GetRecommendations (now now' : Z) (input : option RankingInput) (c : cache) :
    result error RecommendationDetails * cache * bool :=
  match validateInput input, input with
  | Some e, _ => (Err e, c, false)
  | None, None => (Err ErrNilInput, c, false)
  | None, Some i =>
      match cacheKey i with
      | Err e => (Err (ErrHash e), c, false)
      | Ok k =>
          match getCached now k c with
          | Some d => (Ok d, c, false)
          | None =>
              match fetchAndCache now now' k i c with
              | (Err e, c') => (Err e, c', true)
              | (Ok d, c') => (Ok (cloneRecommendationDetails d), c', true)
              end
          end
      end
  end.

End Provider.
(** ** The order of the choices *)

(** What a choice is ordered by: its score, then capacity and zones of each
    requested size, then the zones it covers. *)
Definition choice_key (input : RankingInput) (c : Choice) : list Z :=
  let zones := list_to_set (in_Zones input) in
  from_ptr 0 (ch_Score c) ::
    (concat (map (fun vmSize => [(skuStats c vmSize zones).1; (skuStats c vmSize zones).2])
      (in_VMSizes input)) ++ [requestedZoneCoverage c zones])%list.

Lemma better_by_size_key a b zones sizes x y :
  match better_by_size a b zones sizes with Some r => r | None => y <? x end =
  lex_less
    (concat (map (fun s => [(skuStats b s zones).1; (skuStats b s zones).2]) sizes) ++ [y])%list
    (concat (map (fun s => [(skuStats a s zones).1; (skuStats a s zones).2]) sizes) ++ [x])%list.
Proof.
  induction sizes as [|s sizes IH]; simpl.
  - destruct (Z.eqb_spec y x); [lia|done].
  - destruct (skuStats a s zones) as [ca za], (skuStats b s zones) as [cb zb]. simpl.
    destruct (Z.eqb_spec cb ca) as [->|N1]; simpl.
    + rewrite bool_decide_eq_true_2 by done. simpl.
      destruct (Z.eqb_spec zb za) as [->|N2]; simpl.
      * rewrite bool_decide_eq_true_2 by done. apply IH.
      * by rewrite bool_decide_eq_false_2 by congruence.
    + by rewrite bool_decide_eq_false_2 by congruence.
Qed.

Lemma better_lex input a b :
  placementChoiceIsBetter a b input = lex_less (choice_key input b) (choice_key input a).
Proof.
  unfold placementChoiceIsBetter, choice_key. cbn [lex_less].
  destruct (Z.eqb_spec (from_ptr 0 (ch_Score b)) (from_ptr 0 (ch_Score a))) as [E|N].
  - rewrite E, bool_decide_eq_true_2 by done. cbn [negb]. apply better_by_size_key.
  - by rewrite bool_decide_eq_false_2 by congruence.
Qed.

#[export] Instance better_strict_weak input :
  StrictWeak (fun a b => placementChoiceIsBetter a b input).
Proof.
  eapply strict_weak_ext; [intros a b; apply better_lex|].
  apply (strict_weak_flip (fun a b => lex_less (choice_key input a) (choice_key input b))).
  apply strict_weak_by, lex_less_strict_weak.
Qed.

Lemma choices_sorted response input :
  StronglySorted (before (fun a b => placementChoiceIsBetter a b input))
    (sortedPlacementChoices response input).
Proof. apply SliceStable_sorted, better_strict_weak. Qed.

(** A choice that does not come later has at least the score. *)
Lemma before_score input a b :
  before (fun a b => placementChoiceIsBetter a b input) a b ->
  from_ptr 0 (ch_Score b) <= from_ptr 0 (ch_Score a).
Proof.
  unfold before. rewrite better_lex. cbn [choice_key lex_less].
  destruct (Z.eqb_spec (from_ptr 0 (ch_Score a)) (from_ptr 0 (ch_Score b))); lia.
Qed.

(** The order given to placement choices: the sorted choices are those of
    the response, none is preferred to an earlier one, and choices that tie
    in everything compared keep the order of the API. *)
Theorem choices_order response input :
  sortedPlacementChoices response input ≡ₚ omap id (rs_Choices response) /\
  StronglySorted (fun a b => placementChoiceIsBetter b a input = false)
    (sortedPlacementChoices response input) /\
  forall k, filter (fun c => choice_key input c = k) (sortedPlacementChoices response input) =
            filter (fun c => choice_key input c = k) (omap id (rs_Choices response)).
Proof.
  split; [apply SliceStable_perm|]. split; [apply choices_sorted|].
  intros k. apply SliceStable_filter. intros a b <- E. rewrite better_lex, E.
  apply less_irrefl, _.
Qed.

(** ** The recommendations drawn from them *)

(** The splits of a choice as recommendations, and their deduplication. *)
Lemma add_splits_ok id c ss acc acc' :
  add_splits id c ss acc = Ok acc' <->
  exists rs, Forall2 (fun s r => recommendationFromSplit id c s = Ok r) ss rs /\
    acc' = foldl add_recommendation acc rs.
Proof.
  revert acc. induction ss as [|s ss IH]; intros acc; simpl.
  - split; [intros [= <-]; by exists []|]. intros (rs & F & ->). by inversion F.
  - destruct (recommendationFromSplit id c s) as [r|e] eqn:E.
    + rewrite IH. split.
      * intros (rs & F & ->). exists (r :: rs). split; [by constructor|done].
      * intros (rs & F & ->). apply Forall2_cons_inv_l in F as (r1 & rs1 & E1 & F1 & ->).
        rewrite E in E1. injection E1 as <-. by exists rs1.
    + split; [done|]. intros (rs & F & ->).
      apply Forall2_cons_inv_l in F as (r1 & rs1 & E1 & _). congruence.
Qed.

(** The recommendations of one choice. *)
Definition choice_recs (id : string) (c : Choice) (rs : list Recommendation) : Prop :=
  is_Some (ch_Score c) /\ is_Some (ch_SKUSplit c) /\
  Forall2 (fun s r => recommendationFromSplit id c s = Ok r) (splits c) rs.

Lemma add_choices_ok id cs acc acc' :
  add_choices id cs acc = Ok acc' <->
  exists rss, Forall2 (choice_recs id) cs rss /\
    acc' = foldl add_recommendation acc (concat rss).
Proof.
  revert acc. induction cs as [|c cs IH]; intros acc; simpl.
  - split; [intros [= <-]; by exists []|]. intros (rs & F & ->). by inversion F.
  - split.
    + destruct (ch_Score c) eqn:E1; [|done]. destruct (ch_SKUSplit c) as [ss|] eqn:E2; [|done].
      destruct (add_splits id c ss acc) as [acc1|] eqn:E; [|done].
      apply add_splits_ok in E as (rs & F & ->). intros (rss & F' & ->)%IH.
      exists (rs :: rss). simpl. rewrite foldl_app. split; [|done]. constructor; [|done].
      split; [by rewrite E1|]. split; [by rewrite E2|]. unfold splits. by rewrite E2.
    + intros (rss & F & ->). apply Forall2_cons_inv_l in F as (rs & rss' & C & F' & ->).
      destruct C as ([? E1] & [ss E2] & C). unfold splits in C. rewrite E2 in C.
      rewrite E1, E2. simpl in C. rewrite (proj2 (add_splits_ok id c ss acc _)) by eauto.
      apply IH. exists rss'. split; [done|]. simpl. by rewrite foldl_app.
Qed.

(** Deduplication keeps the first of each key. *)
Record dedup_of (rs : list Recommendation) (acc : gset recommendationKey * list Recommendation) :
    Prop := {
  dd_keys : forall k, k ∈ acc.1 <-> k ∈ map key acc.2;
  dd_nodup : NoDup (map key acc.2);
  dd_first : forall i r, rs !! i = Some r ->
    exists j r', rs !! j = Some r' /\ (j <= i)%nat /\ r' ∈ acc.2 /\ key r' = key r;
  dd_sub : acc.2 ⊆ rs
}.

Lemma add_recommendation_dedup rs acc r :
  dedup_of rs acc -> dedup_of (rs ++ [r]) (add_recommendation acc r).
Proof.
  intros [K N F S]. unfold add_recommendation.
  destruct (bool_decide (key r ∈ acc.1)) eqn:E.
  - apply bool_decide_eq_true in E. apply K, list_elem_of_fmap in E as (r' & Ek & Hr').
    split; [done|done| |intros x Hx; apply elem_of_app; left; by apply S].
    intros i x [Hi|[Hi Hx]]%lookup_app_Some.
    + destruct (F i x Hi) as (j & y & ? & ? & ? & ?). exists j, y.
      split; [by apply lookup_app_l_Some|done].
    + apply list_lookup_singleton_Some in Hx as [Hx <-].
      pose proof (S _ Hr') as [j Hj]%list_elem_of_lookup. exists j, r'.
      split; [by apply lookup_app_l_Some|]. apply lookup_lt_Some in Hj. split; [lia|done].
  - apply bool_decide_eq_false in E. rewrite K in E. split; simpl.
    + intros k. rewrite map_app, elem_of_app, elem_of_union, K. simpl. set_solver.
    + rewrite map_app. apply NoDup_app. split; [done|]. split; [|apply NoDup_singleton].
      intros k Hk ->%list_elem_of_singleton. done.
    + intros i x [Hi|[Hi Hx]]%lookup_app_Some.
      * destruct (F i x Hi) as (j & y & ? & ? & ? & ?). exists j, y.
        split; [by apply lookup_app_l_Some|]. split; [done|]. split; [|done].
        apply elem_of_app. by left.
      * apply list_lookup_singleton_Some in Hx as [Hx <-]. exists i, r.
        split; [apply lookup_app_Some; right; split; [done|]; by rewrite Hx|].
        split; [done|]. split; [|done]. apply elem_of_app. right. by left.
    + intros x [Hx|Hx]%elem_of_app; apply elem_of_app; [left; by apply S|by right].
Qed.

Lemma fold_dedup rs : dedup_of rs (foldl add_recommendation (∅, []) rs).
Proof.
  induction rs as [|r rs IH] using rev_ind.
  - split; simpl; [set_solver|constructor|done|done].
  - rewrite foldl_app. by apply add_recommendation_dedup.
Qed.

(** The scores of the recommendations, in the order of the choices. *)
Definition score_ge (r r' : Recommendation) : Prop := r_Score r' <= r_Score r.

Lemma recommendationFromSplit_score id c s r :
  recommendationFromSplit id c s = Ok r -> r_Score r = from_ptr 0 (ch_Score c).
Proof. unfold recommendationFromSplit. repeat case_match; naive_solver. Qed.

Lemma choice_recs_score id c rs r :
  choice_recs id c rs -> r ∈ rs -> r_Score r = from_ptr 0 (ch_Score c).
Proof.
  intros (_ & _ & F) [i Hi]%list_elem_of_lookup.
  destruct (Forall2_lookup_r _ _ _ _ _ F Hi) as (s & _ & E).
  by apply recommendationFromSplit_score in E.
Qed.

Lemma recs_sorted id input cs rss :
  StronglySorted (before (fun a b => placementChoiceIsBetter a b input)) cs ->
  Forall2 (choice_recs id) cs rss -> StronglySorted score_ge (concat rss).
Proof.
  intros S F. revert S. induction F as [|c rs cs rss C F IH]; intros S; [constructor|].
  apply StronglySorted_inv in S as [S Fc]. simpl. apply StronglySorted_app_2; [| |by apply IH].
  - intros r r' Hr (rs' & Hr' & Hrs')%elem_of_concat. unfold score_ge.
    apply list_elem_of_lookup in Hrs' as [i Hi].
    destruct (Forall2_lookup_r _ _ _ _ _ F Hi) as (c' & Hc' & C').
    rewrite (choice_recs_score _ _ _ _ C Hr), (choice_recs_score _ _ _ _ C' Hr').
    rewrite Forall_lookup in Fc. eapply before_score, Fc, Hc'.
  - apply StronglySorted_same. intros r r' Hr Hr'. unfold score_ge.
    rewrite (choice_recs_score _ _ _ _ C Hr), (choice_recs_score _ _ _ _ C Hr'). lia.
Qed.

(** The recommendations drawn from a response: when there is no error
    they are non-empty, at most one per VM size, zone and capacity type, each
    is one of the splits, and none of the splits with its key has a better
    score. *)
Theorem recommendations_best id response input rs :
  recommendationsFromChoices id (sortedPlacementChoices response input) = Ok rs ->
  rs <> [] /\ NoDup (map key rs) /\
  (forall r, r ∈ rs -> exists c s, Some c ∈ rs_Choices response /\ s ∈ splits c /\
     recommendationFromSplit id c s = Ok r) /\
  (forall c s, Some c ∈ rs_Choices response -> s ∈ splits c ->
     exists r r', recommendationFromSplit id c s = Ok r /\ r' ∈ rs /\ key r' = key r /\
       r_Score r <= r_Score r').
Proof.
  unfold recommendationsFromChoices.
  destruct (add_choices id _ _) as [[seen l]|] eqn:E; [|done]. intros R.
  assert (l = rs /\ rs <> []) as [-> NE] by (destruct l; by simplify_eq). clear R.
  apply add_choices_ok in E as (rss & F & E).
  pose proof (recs_sorted _ _ _ _ (choices_sorted response input) F) as S.
  pose proof (fold_dedup (concat rss)) as [K N Fi Su]. rewrite <- E in *. simpl in *.
  assert (Ch : forall c, Some c ∈ rs_Choices response <-> c ∈ sortedPlacementChoices response input).
  { intros c. unfold sortedPlacementChoices. rewrite SliceStable_perm, list_elem_of_omap.
    split; [by exists (Some c)|]. intros (x & Hx & Ex). simpl in Ex. by subst. }
  split; [done|]. split; [done|]. split.
  - intros r (rs' & Hr & Hrs')%Su%elem_of_concat.
    apply list_elem_of_lookup in Hrs' as [i Hi].
    destruct (Forall2_lookup_r _ _ _ _ _ F Hi) as (c & Hc & _ & _ & C).
    apply list_elem_of_lookup in Hr as [j Hj].
    destruct (Forall2_lookup_r _ _ _ _ _ C Hj) as (s & Hs & Er).
    exists c, s. split; [apply Ch; by eapply list_elem_of_lookup_2|].
    split; [by eapply list_elem_of_lookup_2|done].
  - intros c s Hc Hs. apply Ch, list_elem_of_lookup in Hc as [i Hi].
    destruct (Forall2_lookup_l _ _ _ _ _ F Hi) as (rs' & Hrs' & _ & _ & C).
    apply list_elem_of_lookup in Hs as [j Hj].
    destruct (Forall2_lookup_l _ _ _ _ _ C Hj) as (r & Hr & Er).
    assert (Hin : r ∈ concat rss).
    { apply elem_of_concat. exists rs'.
      split; by eapply list_elem_of_lookup_2. }
    apply list_elem_of_lookup in Hin as [n Hn]. destruct (Fi n r Hn) as (m & r' & Hm & L & Hr' & Ek).
    exists r, r'. split; [done|]. split; [done|]. split; [done|].
    apply (StronglySorted_lookup score_ge (concat rss) m n r' r); try done. unfold score_ge. lia.
Qed.

(** ** The cache *)

Section ProviderLaws.
Context `{TTLCacheLaws}.
Variable Post : Request -> result string Response.
Variable Hash : string -> string -> list string -> list string -> result string Z.

Lemma clonePointer_id {T} (p : option T) : clonePointer p = p.
Proof. by destruct p. Qed.

Lemma clone_id d : cloneRecommendationDetails d = d.
Proof.
  destruct d as [rs ls]. unfold cloneRecommendationDetails. simpl. f_equal.
  rewrite <- (map_id ls) at 2. apply map_ext. intros [[]|]; [|done]. by rewrite !clonePointer_id.
Qed.

Lemma cacheKey_zones i i' :
  in_CapacityType i' = in_CapacityType i -> in_OSType i' = in_OSType i ->
  in_VMSizes i' = in_VMSizes i -> in_Zones i' ≡ₚ in_Zones i ->
  cacheKey Hash i' = cacheKey Hash i.
Proof. intros E1 E2 E3 E4. unfold cacheKey. by rewrite E1, E2, E3, (Strings_perm _ _ E4). Qed.

(** One answer serves for its lifetime: after an answer from the API, for
    at least the 45 seconds of the default lifetime, the same request (its
    zones in any order, any positive count) gets the same recommendations
    without another call; a failed request leaves the cache as it was, so
    failures are never served from it. *)
Theorem recommendations_cached now now' i c :
  (forall d c', GetRecommendations Post Hash now now' (Some i) c = (Ok d, c', true) ->
   forall t t' i', t <= now' + defaultCacheTTL ->
     in_CapacityType i' = in_CapacityType i -> in_OSType i' = in_OSType i ->
     in_VMSizes i' = in_VMSizes i -> in_Zones i' ≡ₚ in_Zones i -> 0 < in_Count i' ->
     GetRecommendations Post Hash t t' (Some i') c' = (Ok d, c', false)) /\
  (forall e c' b, GetRecommendations Post Hash now now' (Some i) c = (Err e, c', b) -> c' = c).
Proof.
  unfold GetRecommendations. split.
  - intros d c'. destruct (validateInput (Some i)) eqn:V; [done|].
    destruct (cacheKey Hash i) as [k|] eqn:K; [|done].
    destruct (getCached now k c); [done|]. unfold fetchAndCache.
    destruct (Post _) as [resp|]; [|done]. destruct (Nat.eqb _ 0); [done|].
    destruct (recommendationsFromChoices _ _) as [rs|]; [|done].
    set (ttl := if _ <? defaultCacheTTL then _ else _). rewrite !clone_id.
    intros [= <- <-] t t' i' Ht E1 E2 E3 E4 Hc.
    assert (V' : validateInput (Some i') = None).
    { revert V. simpl. rewrite E1, E2, E3. repeat case_match; try done. lia. }
    rewrite V', (cacheKey_zones i i' E1 E2 E3 E4), K.
    assert (L : defaultCacheTTL <= ttl) by (unfold ttl; case_match; lia).
    unfold getCached. rewrite tc_get_set_eq by (unfold defaultCacheTTL in L; go_dur).
    rewrite decide_True by lia. by rewrite clone_id.
  - intros e c' b. destruct (validateInput (Some i)); [by intros [= _ <- _]|].
    destruct (cacheKey Hash i); [|by intros [= _ <- _]]. destruct (getCached now a c); [done|].
    unfold fetchAndCache. destruct (Post _); [|by intros [= _ <- _]].
    destruct (Nat.eqb _ 0); [by intros [= _ <- _]|].
    by destruct (recommendationsFromChoices _ _); [|intros [= _ <- _]].
Qed.

End ProviderLaws.

(** ** Concrete instances *)

Definition demo_split (name zone : string) : option Item :=
  Some (mk_item (Some name) (Some zone) (Some PriorityRegular) (Some 5)).
Definition demo_response : Response :=
  mk_response (Some "id")
    [Some (mk_choice (Some 50) (Some [demo_split "D2" "1"]));
     None;
     Some (mk_choice (Some 90) (Some [demo_split "D2" "1"; demo_split "D4" "2"]))] [] None.
Definition demo_input : RankingInput :=
  mk_input ["D2"; "D4"] ["2"; "1"] CapacityTypeOnDemand OSLinux 10.
Definition demo_recs : list Recommendation :=
  [mk_recommendation "D2" "1" CapacityTypeOnDemand 90 "id" 5;
   mk_recommendation "D4" "2" CapacityTypeOnDemand 90 "id" 5].

Lemma recommendations_best_witness :
  recommendationsFromChoices "id" (sortedPlacementChoices demo_response demo_input) = Ok demo_recs /\
  NoDup (map key demo_recs).
Proof.
  assert (E : recommendationsFromChoices "id" (sortedPlacementChoices demo_response demo_input)
    = Ok demo_recs) by (by vm_compute).
  split; [exact E|]. apply (recommendations_best "id" demo_response demo_input demo_recs E).
Defined.

Lemma triple_eq {A B C} (x : A * B * C) a c : x.1.1 = a -> x.2 = c -> x = (a, x.1.2, c).
Proof. by destruct x as [[? ?] ?]; simpl; intros -> ->. Qed.

Lemma recommendations_cached_witness :
  let Post := fun _ => Ok demo_response in
  let Hash := fun _ _ sizes _ => Ok (Z.of_nat (length sizes)) in
  let c' := (GetRecommendations Post Hash 0 1 (Some demo_input) tc_empty).1.2 in
  (GetRecommendations (fun _ => Err "down") Hash Minute Minute (Some demo_input) c').1.1
    = Err (ErrAPI "down") /\
  GetRecommendations Post Hash (45 * Second) Minute
    (Some (mk_input ["D2"; "D4"] ["1"; "2"] CapacityTypeOnDemand OSLinux 1)) c'
    = (Ok (mk_details demo_recs []), c', false).
Proof.
  intros Post Hash c'. split; [by vm_compute|].
  apply (proj1 (recommendations_cached Post Hash 0 1 demo_input tc_empty) (mk_details demo_recs []) c').
  - apply triple_eq; by vm_compute.
  - by vm_compute.
  - reflexivity.
  - reflexivity.
  - reflexivity.
  - constructor.
  - by vm_compute.
Defined.

End Recommendation.
