(* ===== verification/Allocation.v ===== *)
(** * Choosing an offering ([pkg/providers/allocationstrategy])

    From the instance types a NodeClaim may use, [Allocate] picks one
    offering: candidates are filtered by availability and requirements, ranked,
    and, when the compute recommendation mode is "enabled", filtered by what
    the capacity recommendation provider advises and ranked again.

    Parameters: [compatible] is Karpenter core's
    [Offerings.Compatible(requirements)] on one offering, [get] the answer each
    request to the recommendation provider gets, and the instances of [GoSort],
    [GoShuffle] and [GoArrival] the outcomes of [sort.Slice], of shuffling and
    of the race between the goroutines.  [None] is a run-time panic. *)

From S2P Require Import Prelude GoString GoSort Cloud Zones Recommendation.
#[local] Open Scope string_scope.
#[local] Open Scope list_scope.
#[local] Open Scope Z_scope.

Module Allocation.
Import Recommendation.

(** ** Candidates *)

Record InstanceOffering := mk_io {
  io_type : option InstanceType;
  io_offerings : list Offering
}.

Definition NewInstanceOfferings (its : list (option InstanceType)) : list InstanceOffering :=
  map (fun it => match it with
                 | None => mk_io None []
                 | Some t => mk_io (Some t) (it_offerings t)
                 end) its.

Definition AvailabilityFilter (compatible : Offering -> bool) (ios : list InstanceOffering) :
    list InstanceOffering :=
  omap (fun io =>
    let offerings :=
      filter (fun o => Is_true (compatible o)) (filter (fun o => Is_true (of_available o)) (io_offerings io)) in
    if Nat.ltb 0 (length offerings) then Some (mk_io (io_type io) offerings) else None) ios.

(** ** Ranking *)

Definition placementScopeRank (o : Offering) : Z :=
  if Zones.PlacementScopeForOffering o ==? Zones.PlacementScopeZonal then 0
  else if Zones.PlacementScopeForOffering o ==? Zones.PlacementScopeRegional then 1 else 2.

Definition capacityTypeRank (o : Offering) : Z :=
  if of_capacity_type o ==? CapacityTypeSpot then 0
  else if of_capacity_type o ==? CapacityTypeOnDemand then 1 else 2.

Definition compareOfferings (i j : option Offering) : Z :=
  match i, j with
  | None, None => 0
  | None, Some _ => 1
  | Some _, None => -1
  | Some i, Some j =>
      if of_price i <? of_price j then -1
      else if of_price j <? of_price i then 1
      else if capacityTypeRank i !=? capacityTypeRank j then capacityTypeRank i - capacityTypeRank j
      else if placementScopeRank i !=? placementScopeRank j
      then placementScopeRank i - placementScopeRank j
      else 0
  end.

Definition firstOffering (io : InstanceOffering) : option Offering := head (io_offerings io).

Definition instanceOfferingName (io : InstanceOffering) : string :=
  match io_type io with None => "" | Some t => it_name t end.

Definition offering_less (a b : Offering) : bool := compareOfferings (Some a) (Some b) <? 0.

Definition instance_less (a b : InstanceOffering) : bool :=
  let comparison := compareOfferings (firstOffering a) (firstOffering b) in
  if comparison =? 0 then string_less (instanceOfferingName a) (instanceOfferingName b)
  else comparison <? 0.

Section Ranking.
Context `{GoSort} `{GoShuffle}.

Definition rankOfferings (draw : nat) (os : list Offering) : list Offering :=
  SliceStable offering_less (Shuffle draw os).

Definition rankInstanceOfferings (draw : nat) (ios : list InstanceOffering) : list InstanceOffering :=
  Slice instance_less
    (imap (fun idx io => mk_io (io_type io) (rankOfferings (draw + idx) (io_offerings io))) ios).

End Ranking.

(** ** Recommendation groups *)

Definition maxRecommendationVMSizes : nat := 10.
Definition initialRequestCount : Z := 10.

(** Capacity type, placement scope and operating system. *)
Definition recommendationGroupKey : Type := string * string * string.
Definition key_capacityType (k : recommendationGroupKey) : string := k.1.1.
Definition key_placementScope (k : recommendationGroupKey) : string := k.1.2.
Definition key_osType (k : recommendationGroupKey) : string := k.2.

Record recommendationGroup := mk_group {
  g_key : recommendationGroupKey;
  g_vmSizes : list string;
  g_vmSizeSet : gset string;
  g_zones : list string;
  g_zoneSet : gset string;
  g_vmZones : gmap string (gset string)
}.

Definition instanceTypeOS (t : option InstanceType) : string :=
  match t with
  | Some t => if it_os t ==? OSWindows then OSWindows else OSLinux
  | None => OSLinux
  end.

Definition armZone (o : Offering) : option string :=
  match Zones.MakeARMZonesFromAKSLabelZone (of_zone o) with
  | None => None
  | Some [] => Some ""
  | Some (z :: _) => Some z
  end.

Definition group_key_for (t : option InstanceType) (o : Offering) : recommendationGroupKey :=
  (of_capacity_type o, Zones.PlacementScopeForOffering o, instanceTypeOS t).

(** Record the zone of a zonal offering of an accepted size. *)
Definition add_zone (name : string) (o : Offering) (g : recommendationGroup) :
    option recommendationGroup :=
  let vmZones := match g_vmZones g !! name with
                 | Some _ => g_vmZones g
                 | None => <[name := ∅]> (g_vmZones g)
                 end in
  let g := mk_group (g_key g) (g_vmSizes g) (g_vmSizeSet g) (g_zones g) (g_zoneSet g) vmZones in
  if key_placementScope (g_key g) ==? Zones.PlacementScopeZonal then
    match armZone o with
    | None => None
    | Some zone =>
        if zone !=? "" then
          let vmZones := <[name := {[zone]} ∪ default ∅ (g_vmZones g !! name)]> (g_vmZones g) in
          if bool_decide (zone ∈ g_zoneSet g)
          then Some (mk_group (g_key g) (g_vmSizes g) (g_vmSizeSet g) (g_zones g) (g_zoneSet g) vmZones)
          else Some (mk_group (g_key g) (g_vmSizes g) (g_vmSizeSet g) (g_zones g ++ [zone])%list
                       ({[zone]} ∪ g_zoneSet g) vmZones)
        else Some g
    end
  else Some g.

(** What one offering of an instance type adds to its group. *)
Definition add_to_group (name : string) (o : Offering) (g : recommendationGroup) :
    option recommendationGroup :=
  if negb (bool_decide (name ∈ g_vmSizeSet g)) &&
     Nat.ltb (length (g_vmSizes g)) maxRecommendationVMSizes
  then add_zone name o (mk_group (g_key g) (g_vmSizes g ++ [name])%list ({[name]} ∪ g_vmSizeSet g)
                          (g_zones g) (g_zoneSet g) (g_vmZones g))
  else if negb (bool_decide (name ∈ g_vmSizeSet g)) then Some g
  else add_zone name o g.

Definition empty_group (k : recommendationGroupKey) : recommendationGroup :=
  mk_group k [] ∅ [] ∅ ∅.

(** The group of key [k] is updated where it stands, or a new one is appended. *)
Fixpoint update_group (k : recommendationGroupKey)
    (f : recommendationGroup -> option recommendationGroup) (gs : list recommendationGroup) :
    option (list recommendationGroup) :=
  match gs with
  | [] => match f (empty_group k) with Some g => Some [g] | None => None end
  | g :: rest =>
      if g_key g ==? k
      then match f g with Some g' => Some (g' :: rest) | None => None end
      else match update_group k f rest with Some rest' => Some (g :: rest') | None => None end
  end.

Definition add_offering (t : option InstanceType) (gs : list recommendationGroup) (o : Offering) :
    option (list recommendationGroup) :=
  match t with
  | None => None (* the name of a nil instance type *)
  | Some t' => update_group (group_key_for t o) (add_to_group (it_name t') o) gs
  end.

Definition add_instance (gs : list recommendationGroup) (io : InstanceOffering) :
    option (list recommendationGroup) :=
  fold_panic (add_offering (io_type io)) gs (io_offerings io).

Definition buildRecommendationGroups (ios : list InstanceOffering) :
    option (list recommendationGroup) :=
  fold_panic add_instance [] ios.

(** ** Recommended offerings *)

Definition offeringKey (name capacityType placementScope zone : string) : string :=
  name +:+ "|" +:+ capacityType +:+ "|" +:+ placementScope +:+ "|" +:+ zone.

Definition offeringKeyForOffering (name : string) (o : Offering) : option string :=
  let placementScope := Zones.PlacementScopeForOffering o in
  match (if placementScope ==? Zones.PlacementScopeZonal then armZone o else Some "") with
  | None => None
  | Some zone => Some (offeringKey name (of_capacity_type o) placementScope zone)
  end.

Definition insert_all (ks : list string) (s : gset string) : gset string :=
  foldl (fun acc k => {[k]} ∪ acc) s ks.

Definition addLocalCandidates (g : recommendationGroup) (candidates : gset string) : gset string :=
  let zones := if key_placementScope (g_key g) ==? Zones.PlacementScopeRegional
               then [""] else g_zones g in
  insert_all (vmSize ← g_vmSizes g; zone ← zones;
              [offeringKey vmSize (key_capacityType (g_key g)) (key_placementScope (g_key g)) zone])
    candidates.

Definition ComputeRecommendationModeDisabled : string := "disabled".
Definition ComputeRecommendationModeLog : string := "log-only".
Definition ComputeRecommendationModeEnabled : string := "enabled".

(** [processRecommendationResult] in the enabled mode; in the other modes it
    only logs. *)
Definition processRecommendationResult {E} (recommended : gset string)
    (r : recommendationGroup * result E RecommendationDetails) : gset string :=
  let '(g, answer) := r in
  match answer with
  | Err _ => addLocalCandidates g recommended
  | Ok details =>
      if Nat.eqb (length (Recommendations details)) 0 then addLocalCandidates g recommended
      else insert_all
             (map (fun rc => offeringKey (r_VMSize rc) (r_CapacityType rc)
                               (key_placementScope (g_key g)) (r_Zone rc)) (Recommendations details))
             recommended
  end.

(** Keep the recommended offerings of one instance type. *)
Definition keep_recommended (name : string) (recommended : gset string) (kept : list Offering)
    (o : Offering) : option (list Offering) :=
  match offeringKeyForOffering name o with
  | None => None
  | Some k => Some (if bool_decide (k ∈ recommended) then kept ++ [o] else kept)%list
  end.

Definition filter_instance (recommended : gset string) (filtered : list InstanceOffering)
    (io : InstanceOffering) : option (list InstanceOffering) :=
  match io_type io with
  | None => None
  | Some t =>
      match fold_panic (keep_recommended (it_name t) recommended) [] (io_offerings io) with
      | None => None
      | Some offerings =>
          Some (if Nat.eqb (length offerings) 0 then filtered
                else filtered ++ [mk_io (io_type io) offerings])%list
      end
  end.

Definition filterOfferingsByRecommended (ios : list InstanceOffering) (recommended : gset string) :
    option (list InstanceOffering) :=
  fold_panic (filter_instance recommended) [] ios.

(** ** The stages *)

Record Selection := mk_selection { sel_type : InstanceType; sel_offering : Offering }.
Definition CapacityType (s : Selection) : string := of_capacity_type (sel_offering s).
Definition Zone (s : Selection) : string := of_zone (sel_offering s).
Definition PlacementScope (s : Selection) : string :=
  Zones.PlacementScopeForOffering (sel_offering s).

(** The head of the final order. *)
Definition pick (ios : list InstanceOffering) : option Selection :=
  match ios with
  | [] => None
  | best :: _ =>
      match io_type best, io_offerings best with
      | Some t, o :: _ => Some (mk_selection t o)
      | _, _ => None
      end
  end.

Section Allocate.
Context `{GoSort} `{GoShuffle} `{GoArrival}.
Context {E : Type} (get : RankingInput -> result E RecommendationDetails).
Context (compatible : Offering -> bool).

Definition ranking_input (g : recommendationGroup) : RankingInput :=
  mk_input (g_vmSizes g) (g_zones g) (key_capacityType (g_key g)) (key_osType (g_key g))
    initialRequestCount.

Definition skuMixRankStage (mode : string) (ios : list InstanceOffering) :
    option (list InstanceOffering) :=
  match buildRecommendationGroups ios with
  | None => None
  | Some groups =>
      let requests := filter (fun g => g_vmSizes g <> []) groups in
      let results := map (fun g => (g, get (ranking_input g))) requests in
      if mode ==? ComputeRecommendationModeEnabled then
        let recommended := foldl processRecommendationResult ∅ (Arrival results) in
        match filterOfferingsByRecommended ios recommended with
        | None => None
        | Some filtered => Some (rankInstanceOfferings (length ios) filtered)
        end
      else Some ios
  end.

Definition FilterInstanceOfferings (mode : string) (ios : list InstanceOffering) :
    option (list InstanceOffering) :=
  let ranked := rankInstanceOfferings 0 (AvailabilityFilter compatible ios) in
  if mode !=? ComputeRecommendationModeDisabled then skuMixRankStage mode ranked else Some ranked.

(** The inner option is the nil result. *)
Definition Allocate (mode : string) (its : list (option InstanceType)) :
    option (option Selection) :=
  match FilterInstanceOfferings mode (NewInstanceOfferings its) with
  | None => None
  | Some candidates => Some (pick candidates)
  end.

End Allocate.
(** ** The ranking order *)

(** What an offering is ordered by; a nil offering comes last. *)
Definition offering_key (o : option Offering) : list Z :=
  match o with
  | None => [1]
  | Some o => [0; of_price o; capacityTypeRank o; placementScopeRank o]
  end.

Lemma compare_negative a b :
  (compareOfferings a b <? 0) = lex_less (offering_key a) (offering_key b).
Proof.
  destruct a as [a|], b as [b|]; simpl; try done.
  destruct (Z.eqb_spec (of_price a) (of_price b)) as [E|N].
  - rewrite E, Z.ltb_irrefl. destruct (Z.eqb_spec (capacityTypeRank a) (capacityTypeRank b)) as [E1|N1].
    + rewrite E1, bool_decide_eq_true_2 by done. simpl.
      destruct (Z.eqb_spec (placementScopeRank a) (placementScopeRank b)) as [E2|N2].
      * by rewrite E2, bool_decide_eq_true_2.
      * rewrite bool_decide_eq_false_2 by done. simpl. lia.
    + rewrite bool_decide_eq_false_2 by done. simpl. lia.
  - destruct (Z.ltb_spec (of_price a) (of_price b)); [done|].
    by replace (of_price b <? of_price a) with true by lia.
Qed.

Lemma compare_zero a b : compareOfferings a b = 0 <-> offering_key a = offering_key b.
Proof.
  destruct a as [a|], b as [b|]; simpl; try done.
  destruct (Z.ltb_spec (of_price a) (of_price b)); [split; [done|intros [=]; lia]|].
  destruct (Z.ltb_spec (of_price b) (of_price a)); [split; [done|intros [=]; lia]|].
  case_bool_decide; simpl; [|split; [lia|intros [=]; done]].
  case_bool_decide; simpl; [|split; [lia|intros [=]; done]].
  split; [|done]. intros _. f_equal. f_equal; [lia|]. by f_equal; [|f_equal].
Qed.

Lemma compare_le a b :
  compareOfferings a b <= 0 <-> lex_less (offering_key b) (offering_key a) = false.
Proof.
  assert (A : lex_less (offering_key b) (offering_key a) = true -> compareOfferings a b <= 0 -> False).
  { intros L Hle. destruct (decide (compareOfferings a b = 0)) as [E|N].
    - apply compare_zero in E. rewrite E, less_irrefl in L; [done|apply _].
    - assert (N' : (compareOfferings a b <? 0) = true) by lia. rewrite compare_negative in N'.
      pose proof (less_asym _ _ N'). congruence. }
  split.
  - intros Hle. destruct (lex_less _ _) eqn:L; [by destruct A|done].
  - intros L. destruct (Z.le_gt_cases (compareOfferings a b) 0); [done|].
    assert (K : offering_key a = offering_key b); [|apply compare_zero in K; lia].
    assert (L' : lex_less (offering_key a) (offering_key b) = false) by (rewrite <- compare_negative; lia).
    by apply lex_less_total.
Qed.

#[export] Instance offering_less_strict_weak : StrictWeak offering_less.
Proof.
  eapply strict_weak_ext; [intros a b; apply compare_negative|].
  apply (strict_weak_by (fun o => offering_key (Some o)) lex_less), _.
Qed.

#[export] Instance instance_less_strict_weak : StrictWeak instance_less.
Proof.
  eapply strict_weak_ext; [|apply (strict_weak_lex
    (fun a b => lex_less (offering_key (firstOffering a)) (offering_key (firstOffering b)))
    (fun a b => string_less (instanceOfferingName a) (instanceOfferingName b)))].
  - intros a b. unfold instance_less. rewrite <- !compare_negative.
    destruct (Z.eqb_spec (compareOfferings (firstOffering a) (firstOffering b)) 0) as [E|N].
    + assert (E' : compareOfferings (firstOffering b) (firstOffering a) = 0)
        by (apply compare_zero; symmetry; by apply compare_zero).
      by rewrite E, E'.
    + destruct (Z.ltb_spec (compareOfferings (firstOffering a) (firstOffering b)) 0); [done|]. simpl.
      assert (L : ~ compareOfferings (firstOffering a) (firstOffering b) <= 0) by lia.
      rewrite compare_le, <- compare_negative in L.
      by destruct (compareOfferings (firstOffering b) (firstOffering a) <? 0).
  - apply (strict_weak_by (fun io => offering_key (firstOffering io)) lex_less), _.
  - apply (strict_weak_by instanceOfferingName string_less), _.
Qed.

(** *** What ranking does to the candidates *)

(** The pairs of instance type and offering a list holds. *)
Definition in_pair (ios : list InstanceOffering) (t : InstanceType) (o : Offering) : Prop :=
  exists io, io ∈ ios /\ io_type io = Some t /\ o ∈ io_offerings io.

(** The best of a set of pairs: no other is cheaper or, at its price, better
    placed, and of the instance types that tie the first by name is taken. *)
Definition best (P : InstanceType -> Offering -> Prop) (t : InstanceType) (o : Offering) : Prop :=
  P t o /\ forall t' o', P t' o' ->
    compareOfferings (Some o) (Some o') <= 0 /\
    (compareOfferings (Some o) (Some o') = 0 -> string_less (it_name t') (it_name t) = false).

(** No entry without a type or without offerings. *)
Definition filled (ios : list InstanceOffering) : Prop :=
  forall io, io ∈ ios -> is_Some (io_type io) /\ io_offerings io <> [].

Section RankingLaws.
Context `{GoSort} `{GoShuffle}.

Lemma rankOfferings_perm d os : rankOfferings d os ≡ₚ os.
Proof. unfold rankOfferings. by rewrite SliceStable_perm, Shuffle_perm. Qed.

Lemma rank_elem d ios io :
  io ∈ rankInstanceOfferings d ios <->
  exists i io0, ios !! i = Some io0 /\ io = mk_io (io_type io0) (rankOfferings (d + i) (io_offerings io0)).
Proof.
  unfold rankInstanceOfferings. rewrite Slice_perm, list_elem_of_lookup.
  split.
  - intros [i Hi]. rewrite list_lookup_imap in Hi.
    destruct (ios !! i) as [io0|] eqn:E; [|done]. simpl in Hi. exists i, io0. by simplify_eq.
  - intros (i & io0 & E & ->). exists i. by rewrite list_lookup_imap, E.
Qed.

Lemma rank_pairs d ios t o : in_pair (rankInstanceOfferings d ios) t o <-> in_pair ios t o.
Proof.
  split.
  - intros (io & (i & io0 & E & ->)%rank_elem & Ht & Ho). simpl in *.
    rewrite rankOfferings_perm in Ho. exists io0. split; [by eapply list_elem_of_lookup_2|done].
  - intros (io & [i E]%list_elem_of_lookup & Ht & Ho).
    exists (mk_io (io_type io) (rankOfferings (d + i) (io_offerings io))).
    split; [apply rank_elem; by exists i, io|]. split; [done|]. simpl. by rewrite rankOfferings_perm.
Qed.

Lemma rank_filled d ios : filled ios -> filled (rankInstanceOfferings d ios).
Proof.
  intros F io (i & io0 & E & ->)%rank_elem. simpl.
  destruct (F io0) as [T N]; [by eapply list_elem_of_lookup_2|]. split; [done|].
  intros Z0. apply N. apply Permutation_nil. by rewrite <- Z0, rankOfferings_perm.
Qed.

Lemma rank_nil d ios : rankInstanceOfferings d ios = [] <-> ios = [].
Proof.
  unfold rankInstanceOfferings. split.
  - intros E. assert (P := Slice_perm _ instance_less
      (imap (fun idx io => mk_io (io_type io) (rankOfferings (d + idx) (io_offerings io))) ios)).
    rewrite E in P. apply Permutation_nil in P.
    apply (f_equal length) in P. rewrite length_imap in P. by destruct ios.
  - intros ->. simpl. apply Permutation_nil. by rewrite Slice_perm.
Qed.

(** The first offering of the first entry is the best of all. *)
Lemma rank_head d ios io rest :
  filled ios -> rankInstanceOfferings d ios = io :: rest ->
  exists t o os, io_type io = Some t /\ io_offerings io = o :: os /\ best (in_pair ios) t o.
Proof.
  intros F E. assert (Hio : io ∈ rankInstanceOfferings d ios) by (rewrite E; left).
  destruct (rank_filled d ios F io Hio) as [[t Ht] N].
  destruct (io_offerings io) as [|o os] eqn:Eo; [done|]. exists t, o, os.
  split; [done|]. split; [done|]. split.
  { apply (rank_pairs d). exists io. split; [done|]. split; [done|]. rewrite Eo. left. }
  intros t' o' (io' & Hio' & Ht' & Ho')%(rank_pairs d).
  assert (I : before instance_less io io').
  { eapply sorted_head; [apply _| |rewrite <- E; exact Hio'].
    rewrite <- E. apply Slice_sorted, _. }
  apply rank_elem in Hio' as (i & io0 & Ei & ->). simpl in Ht', Ho'.
  destruct (rankOfferings (d + i) (io_offerings io0)) as [|o1 os1] eqn:E1; [by apply not_elem_of_nil in Ho'|].
  assert (O : before offering_less o1 o').
  { eapply sorted_head; [apply _| |exact Ho']. rewrite <- E1. apply SliceStable_sorted, _. }
  unfold before, offering_less in O. rewrite compare_negative in O.
  unfold before, instance_less, firstOffering, instanceOfferingName in I.
  cbn [io_offerings io_type] in I. rewrite Eo, Ht, Ht' in I. cbn [head] in I.
  assert (L : lex_less (offering_key (Some o1)) (offering_key (Some o)) = false).
  { destruct (Z.eqb_spec (compareOfferings (Some o1) (Some o)) 0) as [Z0|Z0].
    - rewrite <- compare_negative. lia.
    - by rewrite <- compare_negative. }
  assert (L' : lex_less (offering_key (Some o')) (offering_key (Some o)) = false)
    by (exact (less_negtrans _ _ _ O L)).
  split; [by apply compare_le|]. intros Z0. apply compare_zero in Z0.
  assert (K : offering_key (Some o1) = offering_key (Some o)).
  { apply lex_less_total; [done|]. rewrite Z0. done. }
  apply compare_zero in K. rewrite K in I. done.
Qed.

End RankingLaws.

(** *** What filtering keeps *)

(** The offerings a NodeClaim may use. *)
Definition candidate (compatible : Offering -> bool) (its : list (option InstanceType))
    (t : InstanceType) (o : Offering) : Prop :=
  Some t ∈ its /\ o ∈ it_offerings t /\ of_available o = true /\ compatible o = true.

Lemma new_pairs its t o :
  in_pair (NewInstanceOfferings its) t o <-> Some t ∈ its /\ o ∈ it_offerings t.
Proof.
  unfold in_pair, NewInstanceOfferings. split.
  - intros (io & ([t'|] & -> & Hin)%list_elem_of_fmap & Ht & Ho); simpl in *; [|done]. by simplify_eq.
  - intros [Hin Ho]. exists (mk_io (Some t) (it_offerings t)). split; [|done].
    apply list_elem_of_fmap. by exists (Some t).
Qed.

Lemma filter_pairs compatible its t o :
  in_pair (AvailabilityFilter compatible (NewInstanceOfferings its)) t o <->
  candidate compatible its t o.
Proof.
  assert (K : forall os : list Offering, o ∈ filter (fun o => Is_true (compatible o))
    (filter (fun o => Is_true (of_available o)) os) <->
    o ∈ os /\ of_available o = true /\ compatible o = true).
  { intros os. rewrite !list_elem_of_filter, !Is_true_true. tauto. }
  transitivity (in_pair (NewInstanceOfferings its) t o /\ of_available o = true /\ compatible o = true);
    [|rewrite new_pairs; unfold candidate; tauto].
  unfold in_pair, AvailabilityFilter. split.
  - intros (io & (io0 & Hin & E)%list_elem_of_omap & Ht & Ho). revert E. cbv zeta.
    case_match; [|done]. intros [= <-]. simpl in *. apply K in Ho as [Ho ?]. split; [|done]. by exists io0.
  - intros [(io & Hin & Ht & Ho) Hc].
    assert (Ho' := proj2 (K (io_offerings io)) (conj Ho Hc)).
    eexists (mk_io (io_type io) _). split; [|split; [done|exact Ho']].
    apply list_elem_of_omap. exists io. split; [done|]. cbv zeta.
    destruct (filter _ (filter _ (io_offerings io))); [by apply not_elem_of_nil in Ho'|done].
Qed.

Lemma filter_filled compatible its : filled (AvailabilityFilter compatible (NewInstanceOfferings its)).
Proof.
  intros io (io0 & Hin & E)%list_elem_of_omap. revert E. cbv zeta.
  case_match eqn:L; [|done]. intros [= <-]. simpl. split.
  - apply list_elem_of_fmap in Hin as ([t|] & -> & Hin); simpl in *; [by eexists|done].
  - intros E. by rewrite E in L.
Qed.

(** *** Recommendation groups *)

Definition keeps_key (f : recommendationGroup -> option recommendationGroup) : Prop :=
  forall g g', f g = Some g' -> g_key g' = g_key g.

Record updated (k : recommendationGroupKey) (f : recommendationGroup -> option recommendationGroup)
    (gs gs' : list recommendationGroup) : Prop := {
  up_from : forall g', g' ∈ gs' -> g' ∈ gs \/
    exists g, (g ∈ gs \/ g = empty_group k) /\ g_key g = k /\ f g = Some g';
  up_keep : forall g, g ∈ gs -> g ∈ gs' \/ exists g', g' ∈ gs' /\ g_key g = k /\ f g = Some g';
  up_done : exists g g', (g ∈ gs \/ g = empty_group k) /\ g_key g = k /\ f g = Some g' /\ g' ∈ gs';
  up_keys : map g_key gs' = map g_key gs \/
    (map g_key gs' = map g_key gs ++ [k] /\ k ∉ map g_key gs)
}.

Lemma update_group_updated k f gs gs' :
  keeps_key f -> update_group k f gs = Some gs' -> updated k f gs gs'.
Proof.
  intros Kf. revert gs'. induction gs as [|g gs IH]; simpl; intros gs' E.
  - destruct (f (empty_group k)) as [g'|] eqn:Ef; [|done]. injection E as <-.
    assert (Hk : g_key g' = k) by (rewrite (Kf _ _ Ef); done).
    split.
    + intros x ->%list_elem_of_singleton. right. exists (empty_group k). by repeat split; [right|..].
    + by intros x Hx%not_elem_of_nil.
    + exists (empty_group k), g'. repeat split; [by right|done|left].
    + right. simpl. rewrite Hk. split; [done|apply not_elem_of_nil].
  - destruct (bool_decide (g_key g = k)) eqn:Eg.
    + apply bool_decide_eq_true in Eg. destruct (f g) as [g'|] eqn:Ef; [|done]. injection E as <-.
      split.
      * intros x [->|Hx]%elem_of_cons; [|left; by right].
        right. exists g. repeat split; [left; left|done|done].
      * intros x [->|Hx]%elem_of_cons; [|left; by right]. right. exists g'. by repeat split; [left|..].
      * exists g, g'. repeat split; [left; left|done|done|left].
      * left. simpl. by rewrite (Kf _ _ Ef).
    + apply bool_decide_eq_false in Eg.
      destruct (update_group k f gs) as [gs1|]; [|done]. injection E as <-.
      destruct (IH gs1 eq_refl) as [U1 U2 (g0 & g1 & A & B & C & D) U4]. split.
      * intros x [->|Hx]%elem_of_cons; [left; left|].
        destruct (U1 x Hx) as [|(y & [Hy|Hy] & ? & ?)]; [left; by right| |];
          right; exists y; repeat split; try done; [left; by right|by right].
      * intros x [->|Hx]%elem_of_cons; [left; left|].
        destruct (U2 x Hx) as [|(y & Hy & ? & ?)]; [left; by right|].
        right. exists y. repeat split; try done. by right.
      * exists g0, g1. repeat split; try done; [|by right]. destruct A; [left; by right|by right].
      * destruct U4 as [U4|[U4 N]]; [left; simpl; by rewrite U4|right; simpl].
        rewrite U4. split; [done|]. rewrite elem_of_cons. intros [?|?]; [by apply Eg|done].
Qed.

Lemma update_group_total_key k f gs :
  (forall g, g_key g = k -> is_Some (f g)) -> is_Some (update_group k f gs).
Proof.
  intros T. induction gs as [|g gs [gs' E]]; simpl.
  - destruct (T (empty_group k)) as [? ->]; [done|]. by eexists.
  - destruct (bool_decide (g_key g = k)) eqn:Ek.
    + apply bool_decide_eq_true in Ek. destruct (T g Ek) as [? ->]. by eexists.
    + rewrite E. by eexists.
Qed.

(** The sizes and zones a group lists, and where they come from. *)
Record group_ok (P : InstanceType -> Offering -> Prop) (g : recommendationGroup) : Prop := {
  gr_sizes : NoDup (g_vmSizes g);
  gr_bound : (length (g_vmSizes g) <= maxRecommendationVMSizes)%nat;
  gr_sizeSet : forall n, n ∈ g_vmSizeSet g <-> n ∈ g_vmSizes g;
  gr_zones : NoDup (g_zones g);
  gr_zoneSet : forall z, z ∈ g_zoneSet g <-> z ∈ g_zones g;
  gr_size_from : forall n, n ∈ g_vmSizes g ->
    exists t o, P t o /\ it_name t = n /\ group_key_for (Some t) o = g_key g;
  gr_zone_from : forall z, z ∈ g_zones g -> z <> "" /\
    exists t o, P t o /\ armZone o = Some z /\ group_key_for (Some t) o = g_key g
}.

Lemma empty_group_ok P k : group_ok P (empty_group k).
Proof. split; simpl; try apply NoDup_nil_2; try lia; set_solver. Qed.

Lemma NoDup_snoc {A} (l : list A) x : NoDup l -> x ∉ l -> NoDup (l ++ [x]).
Proof.
  intros N H. apply NoDup_app. split; [done|]. split; [|apply NoDup_singleton].
  by intros y Hy ->%list_elem_of_singleton.
Qed.

Lemma add_zone_key name o : keeps_key (add_zone name o).
Proof. intros g g'. unfold add_zone. repeat case_match; naive_solver. Qed.

Lemma add_to_group_key name o : keeps_key (add_to_group name o).
Proof.
  intros g g'. unfold add_to_group. destruct (_ && _); [intros E; by rewrite (add_zone_key _ _ _ _ E)|].
  destruct (negb _); [naive_solver|intros E; by rewrite (add_zone_key _ _ _ _ E)].
Qed.

Lemma add_zone_ok (P : InstanceType -> Offering -> Prop) t o g g' :
  P t o -> g_key g = group_key_for (Some t) o -> group_ok P g ->
  add_zone (it_name t) o g = Some g' -> group_ok P g' /\
    g_vmSizes g' = g_vmSizes g /\ g_zones g ⊆ g_zones g' /\
    (key_placementScope (g_key g) = Zones.PlacementScopeZonal ->
     forall z, armZone o = Some z -> z <> "" -> z ∈ g_zones g').
Proof.
  intros Pto Hk [A B C D E F G]. unfold add_zone. cbv zeta. cbn [g_key].
  destruct (bool_decide (key_placementScope (g_key g) = _)) eqn:S; last first.
  { intros [= <-]. apply bool_decide_eq_false in S. by split. }
  destruct (armZone o) as [zone|] eqn:Z0; [|done].
  destruct (bool_decide (zone = "")) eqn:Ez; cbn [negb g_zoneSet].
  { apply bool_decide_eq_true in Ez as ->. intros [= <-]. split; [by split|].
    split; [done|]. split; [done|]. intros _ z [= <-]. done. }
  apply bool_decide_eq_false in Ez.
  destruct (bool_decide (zone ∈ g_zoneSet g)) eqn:Ei; intros [= <-]; cbn.
  - apply bool_decide_eq_true in Ei. split; [by split|]. split; [done|]. split; [done|].
    intros _ z [= <-] _. by apply E.
  - apply bool_decide_eq_false in Ei. split; [split; cbn; try done|].
    + apply NoDup_snoc; [done|]. by rewrite <- E.
    + intros z. rewrite elem_of_union, elem_of_singleton, elem_of_app, list_elem_of_singleton, E. tauto.
    + intros z [Hz| ->%list_elem_of_singleton]%elem_of_app; [by apply G|].
      split; [done|]. exists t, o. by split.
    + split; [done|]. split; [set_solver|]. intros _ z [= <-] _. set_solver.
Qed.

Lemma add_to_group_ok (P : InstanceType -> Offering -> Prop) t o g g' :
  P t o -> g_key g = group_key_for (Some t) o -> group_ok P g ->
  add_to_group (it_name t) o g = Some g' -> group_ok P g' /\
    g_vmSizes g ⊆ g_vmSizes g' /\ g_zones g ⊆ g_zones g' /\
    ((length (g_vmSizes g) < maxRecommendationVMSizes)%nat -> it_name t ∈ g_vmSizes g' /\
     (key_placementScope (g_key g) = Zones.PlacementScopeZonal ->
      forall z, armZone o = Some z -> z <> "" -> z ∈ g_zones g')) /\ g_vmSizes g' <> [].
Proof.
  intros Pto Hk Ok. pose proof Ok as [A B C D E F G]. unfold add_to_group.
  assert (NE : forall n l, n ∈ l -> l <> ([] : list string)) by (intros n l Hn ->; by apply not_elem_of_nil in Hn).
  destruct (bool_decide (it_name t ∈ g_vmSizeSet g)) eqn:Ei; cbn [negb andb].
  - apply bool_decide_eq_true in Ei. intros Z0.
    destruct (add_zone_ok P t o g g' Pto Hk Ok Z0) as (O & V & Zi & Zz). rewrite V.
    apply C in Ei. split; [done|]. split; [done|]. split; [done|]. split; [done|]. by eapply NE.
  - apply bool_decide_eq_false in Ei. rewrite C in Ei.
    destruct (Nat.ltb_spec (length (g_vmSizes g)) maxRecommendationVMSizes) as [L|L].
    + intros Z0. set (g1 := mk_group _ _ _ _ _ _) in Z0.
      assert (Ok1 : group_ok P g1).
      { split; cbn; try done.
        - by apply NoDup_snoc.
        - rewrite length_app. simpl. lia.
        - intros n. rewrite elem_of_union, elem_of_singleton, elem_of_app, list_elem_of_singleton, C. tauto.
        - intros n [Hn| ->%list_elem_of_singleton]%elem_of_app; [by apply F|]. by exists t, o. }
      destruct (add_zone_ok P t o g1 g' Pto Hk Ok1 Z0) as (O & V & Zi & Zz). cbn in V, Zi, Zz. rewrite V.
      split; [done|]. split; [set_solver|]. split; [done|]. split; [|by destruct (g_vmSizes g)].
      intros _. split; [set_solver|done].
    + intros [= <-]. split; [done|]. split; [done|]. split; [done|]. split; [lia|].
      intros E0. rewrite E0 in L. simpl in L. unfold maxRecommendationVMSizes in L. lia.
Qed.

(** All groups, and what is known to be in one of them. *)
Definition groups_ok (P : InstanceType -> Offering -> Prop) (gs : list recommendationGroup) : Prop :=
  NoDup (map g_key gs) /\ forall g, g ∈ gs -> group_ok P g /\ g_vmSizes g <> [].

(** [o] of the type named [n] is among the local candidates of a group. *)
Definition listed (n : string) (o : Offering) (k : recommendationGroupKey)
    (gs : list recommendationGroup) : Prop :=
  exists g, g ∈ gs /\ g_key g = k /\ n ∈ g_vmSizes g /\
    (key_placementScope k = Zones.PlacementScopeZonal ->
     forall z, armZone o = Some z -> z <> "" -> z ∈ g_zones g).

Lemma add_offering_ok (P : InstanceType -> Offering -> Prop) t o gs gs' :
  P t o -> groups_ok P gs -> add_offering (Some t) gs o = Some gs' ->
  groups_ok P gs' /\ (forall k, k ∈ map g_key gs -> k ∈ map g_key gs') /\
  group_key_for (Some t) o ∈ map g_key gs' /\
  (forall n o' k, listed n o' k gs -> listed n o' k gs') /\
  (gs = [] -> listed (it_name t) o (group_key_for (Some t) o) gs').
Proof.
  intros Pto [N G] E. set (k := group_key_for (Some t) o) in *.
  assert (U := update_group_updated k _ _ _ (add_to_group_key (it_name t) o) E).
  destruct U as [U1 U2 (g0 & g1 & A & B & C & D) U4].
  assert (Step : forall g g', g ∈ gs \/ g = empty_group k -> g_key g = k ->
    add_to_group (it_name t) o g = Some g' -> group_ok P g).
  { intros g g' [Hg| ->] _ _; [by apply G|apply empty_group_ok]. }
  split; [split|split; [|split; [|split]]].
  - destruct U4 as [U4|[U4 H]]; rewrite U4; [done|]. by apply NoDup_snoc.
  - intros g Hg. destruct (U1 g Hg) as [|(g2 & H & Hk & Hf)]; [by apply G|].
    destruct (add_to_group_ok P t o g2 g Pto Hk (Step _ _ H Hk Hf) Hf) as (? & _ & _ & _ & ?). done.
  - intros k' Hk'. destruct U4 as [U4|[U4 _]]; rewrite U4; [done|]. apply elem_of_app. by left.
  - apply list_elem_of_fmap. exists g1. split; [|done].
    by rewrite (add_to_group_key _ _ _ _ C), B.
  - intros n o' k' (g & Hg & Hk & Hn & Hz). destruct (U2 g Hg) as [|(g' & Hg' & Hk' & Hf)]; [by exists g|].
    destruct (add_to_group_ok P t o g g' Pto Hk' (Step _ _ (or_introl Hg) Hk' Hf) Hf) as (_ & S1 & S2 & _).
    exists g'. split; [done|]. split; [by rewrite (add_to_group_key _ _ _ _ Hf)|].
    split; [by apply S1|]. intros Sc z Z1 Z2. apply S2. by apply Hz.
  - intros ->. destruct A as [H|H]; [by apply not_elem_of_nil in H|].
    destruct (add_to_group_ok P t o g0 g1 Pto B (Step _ _ (or_intror H) B C) C) as (_ & _ & _ & L & _).
    destruct L as [L1 L2]; [rewrite H; simpl; unfold maxRecommendationVMSizes; lia|].
    exists g1. split; [done|]. split; [by rewrite (add_to_group_key _ _ _ _ C)|].
    split; [done|]. rewrite <- B. done.
Qed.

(** The same for a whole instance type and for a whole list. *)
Record grows (gs gs' : list recommendationGroup) : Prop := {
  gw_keys : forall k, k ∈ map g_key gs -> k ∈ map g_key gs';
  gw_listed : forall n o k, listed n o k gs -> listed n o k gs'
}.

Lemma grows_refl gs : grows gs gs.
Proof. by split. Qed.
Lemma grows_trans a b c : grows a b -> grows b c -> grows a c.
Proof. intros [A B] [C D]. split; auto. Qed.

Lemma add_offerings_ok (P : InstanceType -> Offering -> Prop) t os gs gs' :
  (forall o, o ∈ os -> P t o) -> groups_ok P gs -> fold_panic (add_offering (Some t)) gs os = Some gs' ->
  groups_ok P gs' /\ grows gs gs' /\ forall o, o ∈ os -> group_key_for (Some t) o ∈ map g_key gs'.
Proof.
  revert gs. induction os as [|o os IH]; intros gs Pos G E.
  - simpl in E. simplify_eq. split; [done|]. split; [apply grows_refl|]. by intros o Ho%not_elem_of_nil.
  - cbn [fold_panic] in E. destruct (add_offering (Some t) gs o) as [gs1|] eqn:E1; [|done].
    destruct (add_offering_ok P t o gs gs1) as (G1 & K1 & K2 & L1 & _); [apply Pos; left|done|done|].
    destruct (IH gs1) as (G2 & [Gk Gl] & K3); [intros o' Ho'; apply Pos; by right|done|done|].
    split; [done|]. split; [split; auto|]. intros o' [->|Ho']%elem_of_cons; [by apply Gk|by apply K3].
Qed.

Lemma add_instances_ok (P : InstanceType -> Offering -> Prop) ios gs gs' :
  filled ios -> (forall t o, in_pair ios t o -> P t o) -> groups_ok P gs ->
  fold_panic add_instance gs ios = Some gs' ->
  groups_ok P gs' /\ grows gs gs' /\
  forall t o, in_pair ios t o -> group_key_for (Some t) o ∈ map g_key gs'.
Proof.
  revert gs. induction ios as [|io ios IH]; intros gs F Pio G E.
  - simpl in E. simplify_eq. split; [done|]. split; [apply grows_refl|].
    by intros t o (io & Hio%not_elem_of_nil & _).
  - cbn [fold_panic] in E. destruct (add_instance gs io) as [gs1|] eqn:E1; [|done].
    destruct (F io) as [[t Ht] _]; [left|]. unfold add_instance in E1. rewrite Ht in E1.
    destruct (add_offerings_ok P t (io_offerings io) gs gs1) as (G1 & W1 & K1); [|done|done|].
    { intros o Ho. apply Pio. exists io. by repeat split; [left|..]. }
    destruct (IH gs1) as (G2 & W2 & K2); [| |done|done|].
    { intros x Hx. apply F. by right. }
    { intros t' o' (x & Hx & ?). apply Pio. exists x. split; [by right|done]. }
    split; [done|]. split; [by eapply grows_trans|].
    intros t' o' (x & [->|Hx]%elem_of_cons & Ht' & Ho').
    + simplify_eq. apply W2, K1, Ho'.
    + apply K2. by exists x.
Qed.

Lemma groups_ok_nil P : groups_ok P [].
Proof. split; [apply NoDup_nil_2|]. by intros g Hg%not_elem_of_nil. Qed.

(** The first offering of the first entry is always a local candidate. *)
Lemma build_head ios io rest t o os gs :
  filled ios -> ios = io :: rest -> io_type io = Some t -> io_offerings io = o :: os ->
  buildRecommendationGroups ios = Some gs ->
  listed (it_name t) o (group_key_for (Some t) o) gs.
Proof.
  intros F -> Ht Ho. unfold buildRecommendationGroups. cbn [fold_panic].
  set (P := in_pair (io :: rest)).
  assert (P0 : forall o', o' ∈ o :: os -> P t o').
  { intros o' Ho'. exists io. split; [left|]. split; [done|]. by rewrite Ho. }
  destruct (add_instance [] io) as [gs2|] eqn:E2; [|done]. intros E.
  unfold add_instance in E2. rewrite Ht, Ho in E2. cbn [fold_panic] in E2.
  destruct (add_offering (Some t) [] o) as [gs1|] eqn:E1; [|done].
  destruct (add_offering_ok P t o [] gs1) as (G1 & _ & _ & _ & L); [apply P0; left|apply groups_ok_nil|done|].
  destruct (add_offerings_ok P t os gs1 gs2) as (G2 & W2 & _); [intros; apply P0; by right|done|done|].
  destruct (add_instances_ok P rest gs2 gs) as (_ & W3 & _); [| |done|done|].
  { intros x Hx. apply F. by right. }
  { intros t' o' (x & Hx & ?). exists x. split; [by right|done]. }
  by apply W3, W2, L.
Qed.

(** *** No panic *)

(** The offerings the provider generates: zonal ones name their zone. *)
Definition zoned (o : Offering) : Prop :=
  (of_scope o = Zones.PlacementScopeZonal /\ of_zone o <> "" /\ of_zone o <> Zones.Regional) \/
  of_scope o = Zones.PlacementScopeRegional.

Lemma armZone_zonal o : of_zone o <> "" -> of_zone o <> Zones.Regional ->
  exists z, armZone o = Some z /\ z <> "".
Proof.
  intros N1 N2. unfold armZone, Zones.MakeARMZonesFromAKSLabelZone.
  rewrite !bool_decide_eq_false_2 by done. eexists. split; [done|]. by apply drop_last_nonempty.
Qed.

Lemma build_total ios :
  filled ios -> (forall t o, in_pair ios t o -> zoned o) -> is_Some (buildRecommendationGroups ios).
Proof.
  intros F W. apply fold_panic_total. intros gs io Hio. unfold add_instance.
  destruct (F io Hio) as [[t Ht] _]. rewrite Ht. apply fold_panic_total. intros gs' o Ho.
  simpl.
  assert (Zn : zoned o) by (apply (W t); by exists io).
  assert (T : forall g, g_key g = group_key_for (Some t) o -> is_Some (add_zone (it_name t) o g)).
  { intros g Hk. unfold add_zone. cbv zeta. cbn [g_key]. rewrite Hk.
    change (key_placementScope (group_key_for (Some t) o)) with (of_scope o).
    destruct Zn as [(E & N1 & N2)|E]; rewrite E.
    - destruct (armZone_zonal o N1 N2) as (z & -> & Nz). rewrite bool_decide_eq_true_2 by done.
      rewrite (bool_decide_eq_false_2 (z = "")) by done. simpl. case_match; by eexists.
    - by eexists. }
  apply update_group_total_key. intros g Hk. unfold add_to_group.
  destruct (_ && _); [by apply T|]. destruct (negb _); [by eexists|by apply T].
Qed.

(** *** The recommended offerings *)

Definition is_recommended (recommended : gset string) (t : InstanceType) (o : Offering) : Prop :=
  exists k, offeringKeyForOffering (it_name t) o = Some k /\ k ∈ recommended.

Lemma keep_spec name recommended os kept l :
  fold_panic (keep_recommended name recommended) kept os = Some l ->
  forall o, o ∈ l <-> o ∈ kept \/
    (o ∈ os /\ exists k, offeringKeyForOffering name o = Some k /\ k ∈ recommended).
Proof.
  revert kept. induction os as [|o1 os IH]; intros kept E o; simpl in E.
  - simplify_eq. rewrite elem_of_nil. tauto.
  - unfold keep_recommended in E at 1. destruct (offeringKeyForOffering name o1) as [k1|] eqn:K; [|done].
    rewrite (IH _ E o), elem_of_cons. clear E IH. case_bool_decide as B.
    + rewrite elem_of_app, list_elem_of_singleton. split.
      * intros [[?|?]|[? ?]]; subst; eauto 10.
      * intros [?|[[?|?] ?]]; subst; eauto 10.
    + split; [intros [?|[? ?]]; eauto 10|]. intros [?|[[->|?] (k & K2 & Hk)]]; eauto 10. by simplify_eq.
Qed.

Lemma in_pair_cons io ios t o :
  in_pair (io :: ios) t o <-> (io_type io = Some t /\ o ∈ io_offerings io) \/ in_pair ios t o.
Proof.
  unfold in_pair. split.
  - intros (x & [->|Hx]%elem_of_cons & ?); [by left|right; by exists x].
  - intros [?|(x & Hx & ?)]; [exists io; split; [left|done]|exists x; split; [by right|done]].
Qed.

Lemma in_pair_snoc ios io t o :
  in_pair (ios ++ [io]) t o <-> in_pair ios t o \/ (io_type io = Some t /\ o ∈ io_offerings io).
Proof.
  unfold in_pair. split.
  - intros (x & [Hx| ->%list_elem_of_singleton]%elem_of_app & ?); [left; by exists x|by right].
  - intros [(x & Hx & ?)|?]; [exists x|exists io]; (split; [apply elem_of_app|done]);
      [by left|right; by left].
Qed.

Lemma filter_recommended_spec ios recommended out :
  filled ios -> filterOfferingsByRecommended ios recommended = Some out ->
  filled out /\
  forall t o, in_pair out t o <-> in_pair ios t o /\ is_recommended recommended t o.
Proof.
  intros F E. unfold filterOfferingsByRecommended in E.
  assert (G : forall acc, filled acc -> fold_panic (filter_instance recommended) acc ios = Some out ->
    filled out /\ forall t o, in_pair out t o <->
      in_pair acc t o \/ (in_pair ios t o /\ is_recommended recommended t o)).
  { clear E. revert F. induction ios as [|io ios IH]; intros F acc Fa E; simpl in E.
    - simplify_eq. split; [done|]. intros t o. split; [by left|].
      intros [?|[(x & Hx%not_elem_of_nil & _) _]]; done.
    - unfold filter_instance in E at 1. destruct (F io) as [[t0 Ht0] _]; [left|]. rewrite Ht0 in E.
      destruct (fold_panic (keep_recommended _ _) [] _) as [l|] eqn:K; [|done].
      pose proof (keep_spec _ _ _ _ _ K) as KS.
      assert (Q : forall t o, (io_type io = Some t /\ o ∈ l) <->
        (io_type io = Some t /\ o ∈ io_offerings io /\ is_recommended recommended t o)).
      { intros t o. rewrite KS, elem_of_nil. unfold is_recommended. rewrite Ht0.
        split; [intros [[= ->] [?|?]]; naive_solver|intros ([= ->] & ? & ?); naive_solver]. }
      assert (F2 : filled (if Nat.eqb (length l) 0 then acc else acc ++ [mk_io (Some t0) l])).
      { destruct (Nat.eqb_spec (length l) 0) as [L|L]; [done|].
        intros x [Hx| ->%list_elem_of_singleton]%elem_of_app; [by apply Fa|].
        split; [by eexists|]. simpl. by destruct l. }
      destruct (IH (fun x Hx => F x (list_elem_of_further _ _ _ Hx)) _ F2 E) as [F1 S1].
      split; [done|]. intros t o. rewrite S1, in_pair_cons. clear S1 E IH F2. specialize (Q t o).
      destruct (Nat.eqb_spec (length l) 0) as [L|L].
      + apply nil_length_inv in L. subst l. rewrite elem_of_nil in Q. tauto.
      + rewrite in_pair_snoc. simpl. rewrite <- Ht0. tauto. }
  destruct (G [] ltac:(by intros x Hx%not_elem_of_nil) E) as [F1 S1]. split; [done|].
  intros t o. rewrite S1. split; [intros [(x & Hx%not_elem_of_nil & _)|?]; done|by right].
Qed.

Lemma zoned_key t o : zoned o -> is_Some (offeringKeyForOffering (it_name t) o).
Proof.
  unfold offeringKeyForOffering, Zones.PlacementScopeForOffering.
  intros [(E & N1 & N2)|E]; rewrite E.
  - rewrite bool_decide_eq_true_2 by done. destruct (armZone_zonal o N1 N2) as (z & -> & _). by eexists.
  - by eexists.
Qed.

Lemma filter_recommended_total ios recommended :
  filled ios -> (forall t o, in_pair ios t o -> zoned o) ->
  is_Some (filterOfferingsByRecommended ios recommended).
Proof.
  intros F W. apply fold_panic_total. intros acc io Hio. unfold filter_instance.
  destruct (F io Hio) as [[t Ht] _]. rewrite Ht.
  assert (T : is_Some (fold_panic (keep_recommended (it_name t) recommended) [] (io_offerings io))).
  { apply fold_panic_total. intros kept o Ho. unfold keep_recommended.
    destruct (zoned_key t o) as [k ->]; [apply (W t); by exists io|]. by eexists. }
  destruct T as [l ->]. by eexists.
Qed.

Lemma insert_all_elem ks s k : k ∈ insert_all ks s <-> k ∈ ks \/ k ∈ s.
Proof.
  unfold insert_all. revert s. induction ks as [|k1 ks IH]; intros s; cbn [foldl].
  - rewrite elem_of_nil. tauto.
  - rewrite IH, elem_of_union, elem_of_singleton, elem_of_cons. tauto.
Qed.

(** What one answer recommends. *)
Definition answer_keys {E} (r : recommendationGroup * result E RecommendationDetails) (k : string) : Prop :=
  k ∈ processRecommendationResult ∅ r.

Lemma process_elem {E} s (r : recommendationGroup * result E RecommendationDetails) k :
  k ∈ processRecommendationResult s r <-> k ∈ s \/ answer_keys r k.
Proof.
  unfold answer_keys. destruct r as [g [d|e]]; simpl.
  - case_match; unfold addLocalCandidates; rewrite !insert_all_elem; set_solver.
  - unfold addLocalCandidates. rewrite !insert_all_elem. set_solver.
Qed.

Lemma process_all_elem {E} (rs : list (recommendationGroup * result E RecommendationDetails)) s k :
  k ∈ foldl processRecommendationResult s rs <-> k ∈ s \/ exists r, r ∈ rs /\ answer_keys r k.
Proof.
  revert s. induction rs as [|r rs IH]; intros s; cbn [foldl].
  - split; [by left|]. intros [?|(r & Hr%not_elem_of_nil & _)]; done.
  - rewrite IH, process_elem. setoid_rewrite elem_of_cons. naive_solver.
Qed.

(** The answers that fall back to the local ranking. *)
Definition unavailable {E} (answer : result E RecommendationDetails) : Prop :=
  match answer with Err _ => True | Ok d => Recommendations d = [] end.

Lemma unavailable_keys {E} (g : recommendationGroup) (answer : result E RecommendationDetails) k :
  unavailable answer -> answer_keys (g, answer) k <-> k ∈ addLocalCandidates g ∅.
Proof. unfold answer_keys. destruct answer as [[[] ?]|]; by simpl. Qed.

Lemma local_candidate (t : InstanceType) o g :
  zoned o -> g_key g = group_key_for (Some t) o -> it_name t ∈ g_vmSizes g ->
  (key_placementScope (g_key g) = Zones.PlacementScopeZonal ->
     forall z, armZone o = Some z -> z <> "" -> z ∈ g_zones g) ->
  exists k, offeringKeyForOffering (it_name t) o = Some k /\ k ∈ addLocalCandidates g ∅.
Proof.
  intros Zn Hk Hn Hz. unfold addLocalCandidates, offeringKeyForOffering.
  rewrite Hk in Hz |- *.
  change (key_placementScope (group_key_for (Some t) o)) with (of_scope o) in *.
  change (key_capacityType (group_key_for (Some t) o)) with (of_capacity_type o).
  unfold Zones.PlacementScopeForOffering.
  destruct Zn as [(E & N1 & N2)|E]; rewrite E in *.
  - destruct (armZone_zonal o N1 N2) as (z & Ez & Nz). rewrite Ez in *.
    eexists. split; [done|]. rewrite insert_all_elem. left.
    apply list_elem_of_bind. exists (it_name t). split; [|done].
    apply list_elem_of_bind. exists z. split; [left|]. by apply Hz.
  - eexists. split; [done|]. rewrite insert_all_elem. left.
    apply list_elem_of_bind. exists (it_name t). split; [|done].
    apply list_elem_of_bind. exists "". split; [left|]. simpl. left.
Qed.

(** The key determines its parts. *)
Lemma key_inj vm ct sc zone (t : InstanceType) o :
  free_of "|" vm = true -> free_of "|" ct = true -> free_of "|" sc = true ->
  free_of "|" (it_name t) = true -> free_of "|" (of_capacity_type o) = true ->
  free_of "|" (of_scope o) = true ->
  offeringKeyForOffering (it_name t) o = Some (offeringKey vm ct sc zone) ->
  sc = of_scope o /\ vm = it_name t /\ ct = of_capacity_type o /\
  (of_scope o = Zones.PlacementScopeZonal -> armZone o = Some zone) /\
  (of_scope o = Zones.PlacementScopeRegional -> zone = "").
Proof.
  intros F1 F2 F3 F4 F5 F6. unfold offeringKeyForOffering, Zones.PlacementScopeForOffering.
  assert (I : forall z, offeringKey (it_name t) (of_capacity_type o) (of_scope o) z = offeringKey vm ct sc zone ->
    sc = of_scope o /\ vm = it_name t /\ ct = of_capacity_type o /\ z = zone).
  { intros z I. unfold offeringKey in I.
    apply (sep_app_inj "|") in I as [-> I]; [|done|done].
    apply (sep_app_inj "|") in I as [-> I]; [|done|done].
    by apply (sep_app_inj "|") in I as [-> ->]. }
  destruct (bool_decide (of_scope o = _)) eqn:B.
  - apply bool_decide_eq_true in B. destruct (armZone o) as [z|]; [|done]. intros [= K].
    destruct (I z K) as (-> & -> & -> & ->). repeat split; try done. by rewrite B.
  - apply bool_decide_eq_false in B. intros [= K].
    destruct (I "" K) as (-> & -> & -> & <-). by repeat split.
Qed.

(** *** The outcome *)

(** A selection is the best of a set of candidates; no selection, none. *)
Definition outcome (P : InstanceType -> Offering -> Prop) (r : option Selection) : Prop :=
  match r with
  | Some s => best P (sel_type s) (sel_offering s)
  | None => forall t o, ~ P t o
  end.

Lemma best_iff (P Q : InstanceType -> Offering -> Prop) t o :
  (forall t o, P t o <-> Q t o) -> best P t o -> best Q t o.
Proof. intros E [A B]. split; [by apply E|]. intros t' o' H'. by apply B, E. Qed.

Lemma outcome_iff (P Q : InstanceType -> Offering -> Prop) r :
  (forall t o, P t o <-> Q t o) -> outcome P r -> outcome Q r.
Proof.
  intros E. destruct r as [s|]; simpl; [by apply best_iff|]. intros N t o H. by apply (N t o), E.
Qed.

Section Outcomes.
Context `{GoSort} `{GoShuffle} `{GoArrival}.
Context {E : Type} (get : RankingInput -> result E RecommendationDetails).
Context (compatible : Offering -> bool).

Lemma pick_outcome d ios : filled ios -> outcome (in_pair ios) (pick (rankInstanceOfferings d ios)).
Proof.
  intros F. destruct (rankInstanceOfferings d ios) as [|io rest] eqn:R; simpl.
  - apply rank_nil in R as ->. by intros t o (x & Hx%not_elem_of_nil & _).
  - destruct (rank_head d ios io rest F R) as (t & o & os & -> & -> & B). exact B.
Qed.

Lemma ranked_pairs its t o :
  in_pair (rankInstanceOfferings 0 (AvailabilityFilter compatible (NewInstanceOfferings its))) t o <->
  candidate compatible its t o.
Proof. by rewrite rank_pairs, filter_pairs. Qed.

Lemma ranked_filled its :
  filled (rankInstanceOfferings 0 (AvailabilityFilter compatible (NewInstanceOfferings its))).
Proof. apply rank_filled, filter_filled. Qed.

(** The whole pipeline in the enabled mode. *)
Lemma enabled_outcome its :
  (forall t o, candidate compatible its t o -> zoned o) ->
  exists groups recommended r,
    buildRecommendationGroups
      (rankInstanceOfferings 0 (AvailabilityFilter compatible (NewInstanceOfferings its))) = Some groups /\
    groups_ok (candidate compatible its) groups /\
    (forall k, k ∈ recommended <-> exists g, g ∈ groups /\ answer_keys (g, get (ranking_input g)) k) /\
    Allocate get compatible ComputeRecommendationModeEnabled its = Some r /\
    outcome (fun t o => candidate compatible its t o /\ is_recommended recommended t o) r.
Proof.
  intros W. set (ranked := rankInstanceOfferings 0 _).
  assert (F : filled ranked) by apply ranked_filled.
  assert (W' : forall t o, in_pair ranked t o -> zoned o) by (intros t o Hp%ranked_pairs; by eapply W).
  destruct (build_total ranked F W') as [groups Eg].
  destruct (add_instances_ok (candidate compatible its) ranked [] groups F) as (G & _ & _);
    [intros t o; apply ranked_pairs|apply groups_ok_nil|exact Eg|].
  set (results := map (fun g => (g, get (ranking_input g))) (filter (fun g => g_vmSizes g <> []) groups)).
  set (recommended := foldl processRecommendationResult ∅ (Arrival results)).
  destruct (filter_recommended_total ranked recommended F W') as [out Eo].
  destruct (filter_recommended_spec ranked recommended out F Eo) as [Fo So].
  exists groups, recommended, (pick (rankInstanceOfferings (length ranked) out)).
  split; [done|]. split; [done|]. split; [|split].
  - intros k. unfold recommended. rewrite process_all_elem.
    assert (Hr : forall r, r ∈ Arrival results <-> exists g, g ∈ groups /\ r = (g, get (ranking_input g))).
    { intros r. rewrite Arrival_perm. unfold results. rewrite list_elem_of_fmap. split.
      - intros (g & -> & [_ Hg]%list_elem_of_filter). by exists g.
      - intros (g & Hg & ->). exists g. split; [done|]. apply list_elem_of_filter.
        split; [by apply G|done]. }
    split.
    + intros [Hk|(r & (g & Hg & ->)%Hr & Hk)]; [set_solver|by exists g].
    + intros (g & Hg & Hk). right. eexists. split; [apply Hr; by exists g|done].
  - unfold Allocate, FilterInstanceOfferings. fold ranked.
    change (negb _) with true. cbn iota. unfold skuMixRankStage. rewrite Eg.
    fold results. change (bool_decide _) with true. cbn iota. fold recommended. by rewrite Eo.
  - eapply outcome_iff; [|by apply pick_outcome].
    intros t o. rewrite So. unfold ranked. by rewrite ranked_pairs.
Qed.


(** The recommendation service is optional: if every request fails or
    comes back empty, the choice made with recommendations enabled is one
    that could be made without them. *)
Theorem allocate_fail_open its :
  (forall t o, candidate compatible its t o -> zoned o) -> (forall i, unavailable (get i)) ->
  exists r, Allocate get compatible ComputeRecommendationModeEnabled its = Some r /\
    outcome (candidate compatible its) r.
Proof.
  intros W Un. destruct (enabled_outcome its W) as (groups & rc & r & Eg & G & Hrc & Er & O).
  exists r. split; [done|]. set (ranked := rankInstanceOfferings 0 _) in Eg.
  destruct ranked as [|io rest] eqn:R.
  { apply rank_nil in R. destruct r as [s|]; simpl in O |- *.
    - destruct O as [[C _] _]. apply filter_pairs in C. rewrite R in C.
      by destruct C as (x & Hx%not_elem_of_nil & _).
    - intros t o C. apply filter_pairs in C. rewrite R in C. by destruct C as (x & Hx%not_elem_of_nil & _). }
  destruct (rank_head 0 _ io rest (filter_filled compatible its) R) as (t0 & o0 & os & Ht & Ho & B).
  apply (best_iff _ _ _ _ (filter_pairs compatible its)) in B as [C0 B].
  assert (Rc : is_recommended rc t0 o0).
  { destruct (build_head (io :: rest) io rest t0 o0 os groups) as (g & Hg & Hk & Hn & Hz);
      [rewrite <- R; apply ranked_filled|done|done|done|done|].
    rewrite <- Hk in Hz. destruct (local_candidate t0 o0 g (W _ _ C0) Hk Hn Hz) as (k & Ek & Hk').
    exists k. split; [done|]. apply Hrc. exists g. split; [done|]. by apply unavailable_keys. }
  destruct r as [s|]; simpl in O |- *; [|by destruct (O t0 o0)].
  destruct O as [[C _] O]. split; [done|].
  destruct (O t0 o0 (conj C0 Rc)) as [L1 M1]. destruct (B _ _ C) as [L2 M2].
  assert (Eq : offering_key (Some (sel_offering s)) = offering_key (Some o0)).
  { apply lex_less_total; by apply compare_le. }
  assert (Nm : it_name (sel_type s) = it_name t0).
  { apply string_less_total; [apply M2|apply M1]; by apply compare_zero. }
  intros t' o' C'. destruct (B t' o' C') as [L M].
  rewrite compare_le in L |- *. rewrite compare_zero in M |- *. by rewrite Eq, Nm.
Qed.

(** With recommendations enabled and every request answered, the
    offering allocated is available, compatible, and one the service named: its
    VM size, capacity type and zone are those of a recommendation in answer to
    a request for its placement scope. *)
Theorem allocate_follows_advice its s :
  (forall t o, candidate compatible its t o -> zoned o) ->
  (forall t o, candidate compatible its t o ->
     free_of "|" (it_name t) = true /\ free_of "|" (of_capacity_type o) = true) ->
  (forall i, exists d, get i = Ok d /\ Recommendations d <> [] /\
     forall r, r ∈ Recommendations d -> free_of "|" (r_VMSize r) = true /\ free_of "|" (r_CapacityType r) = true) ->
  Allocate get compatible ComputeRecommendationModeEnabled its = Some (Some s) ->
  let t := sel_type s in let o := sel_offering s in
  candidate compatible its t o /\
  exists g d r, get (ranking_input g) = Ok d /\ r ∈ Recommendations d /\
    (length (g_vmSizes g) <= maxRecommendationVMSizes)%nat /\
    key_placementScope (g_key g) = of_scope o /\
    r_VMSize r = it_name t /\ r_CapacityType r = of_capacity_type o /\
    (of_scope o = Zones.PlacementScopeZonal -> armZone o = Some (r_Zone r)) /\
    (of_scope o = Zones.PlacementScopeRegional -> r_Zone r = "").
Proof.
  intros W Pl Ans Al t o. destruct (enabled_outcome its W) as (groups & rc & r & Eg & G & Hrc & Er & O).
  rewrite Al in Er. injection Er as <-. destruct O as [[C (k & Ek & Hk)] _]. fold t o in C, Ek.
  split; [done|]. apply Hrc in Hk as (g & Hg & Hk).
  destruct (Ans (ranking_input g)) as (d & Ed & Nd & Pd). unfold answer_keys in Hk. rewrite Ed in Hk.
  cbn [processRecommendationResult] in Hk.
  assert (L : Nat.eqb (length (Recommendations d)) 0 = false) by (by destruct (Recommendations d)).
  rewrite L, insert_all_elem in Hk. destruct Hk as [Hk|Hk]; [|set_solver].
  apply list_elem_of_fmap in Hk as (rd & -> & Hrd). destruct (Pd rd Hrd) as [P1 P2].
  destruct (Pl t o C) as [P3 P4]. destruct (proj2 G g Hg) as [Gk _].
  assert (Sc : free_of "|" (key_placementScope (g_key g)) = true).
  { destruct (g_vmSizes g) as [|n ns] eqn:En; [by destruct (proj2 G g Hg) as [_ ?]|].
    destruct (gr_size_from _ _ Gk n) as (t1 & o1 & C1 & _ & E1); [rewrite En; left|].
    rewrite <- E1. change (key_placementScope (group_key_for (Some t1) o1)) with (of_scope o1).
    by destruct (W t1 o1 C1) as [(-> & _)| ->]. }
  assert (So : free_of "|" (of_scope o) = true) by (by destruct (W t o C) as [(-> & _)| ->]).
  destruct (key_inj _ _ _ _ t o P1 P2 Sc P3 P4 So Ek) as (K1 & K2 & K3 & K4 & K5).
  exists g, d, rd. split; [done|]. split; [done|]. split; [apply Gk|]. done.
Qed.

(** The requests that are made: one per combination of capacity type,
    placement scope and operating system among the candidates; each asks
    for one to ten distinct VM sizes and distinct, named zones, every one of
    them of some candidate of that combination. *)
Theorem recommendation_requests ios gs :
  filled ios -> buildRecommendationGroups ios = Some gs ->
  NoDup (map g_key gs) /\
  (forall t o, in_pair ios t o -> group_key_for (Some t) o ∈ map g_key gs) /\
  forall g, g ∈ gs ->
    g_vmSizes g <> [] /\ NoDup (g_vmSizes g) /\ (length (g_vmSizes g) <= 10)%nat /\
    NoDup (g_zones g) /\
    (forall n, n ∈ g_vmSizes g -> exists t o, in_pair ios t o /\ it_name t = n /\
       group_key_for (Some t) o = g_key g) /\
    (forall z, z ∈ g_zones g -> z <> "" /\ exists t o, in_pair ios t o /\ armZone o = Some z /\
       group_key_for (Some t) o = g_key g).
Proof.
  intros F B. destruct (add_instances_ok (in_pair ios) ios [] gs F) as ([N G] & _ & K);
    [done|apply groups_ok_nil|exact B|].
  split; [done|]. split; [done|]. intros g Hg. destruct (G g Hg) as [[]]. done.
Qed.

End Outcomes.

(** ** Concrete instances *)

Definition demo_offering (ct zone scope : string) (price : Z) : Offering :=
  mk_offering ct zone scope price true.
Definition demo_types : list (option InstanceType) :=
  [Some (mk_instance_type "D4" "linux" [demo_offering CapacityTypeOnDemand "westus2-1" "zonal" 20]);
   None;
   Some (mk_instance_type "D2" "linux"
     [demo_offering CapacityTypeOnDemand "westus2-1" "zonal" 10;
      demo_offering CapacityTypeSpot "westus2-2" "zonal" 10;
      demo_offering CapacityTypeSpot "0" "regional" 10])].
Definition demo_choice : Selection :=
  mk_selection (mk_instance_type "D2" "linux"
     [demo_offering CapacityTypeOnDemand "westus2-1" "zonal" 10;
      demo_offering CapacityTypeSpot "westus2-2" "zonal" 10;
      demo_offering CapacityTypeSpot "0" "regional" 10])
    (demo_offering CapacityTypeSpot "westus2-2" "zonal" 10).

Lemma demo_zoned : forall t o, candidate (fun _ => true) demo_types t o -> zoned o.
Proof.
  intros t o (Ht & Ho & _). unfold zoned.
  repeat (apply elem_of_cons in Ht as [Ht|Ht]; [try done; injection Ht as ->;
    repeat (apply elem_of_cons in Ho as [->|Ho]; [try (left; by repeat split); by right|]);
    by apply not_elem_of_nil in Ho|]).
  by apply not_elem_of_nil in Ht.
Qed.


Lemma allocate_fail_open_witness :
  exists r, Allocate (fun _ => Err tt) (fun _ => true) ComputeRecommendationModeEnabled demo_types = Some r /\
    outcome (candidate (fun _ => true) demo_types) r /\ r = Some demo_choice.
Proof.
  destruct (allocate_fail_open (fun _ => Err tt) (fun _ => true) demo_types demo_zoned)
    as (r & Er & O); [done|].
  exists r. split; [exact Er|]. split; [exact O|].
  assert (V : Allocate (fun _ => Err tt) (fun _ => true) ComputeRecommendationModeEnabled demo_types =
    Some (Some demo_choice)) by (by vm_compute).
  congruence.
Defined.

Definition demo_advice (i : RankingInput) : result unit RecommendationDetails :=
  Ok (mk_details [mk_recommendation "D4" "1" CapacityTypeOnDemand 90 "id" 10] []).

Lemma allocate_follows_advice_witness :
  exists s, Allocate demo_advice (fun _ => true) ComputeRecommendationModeEnabled demo_types = Some (Some s) /\
    it_name (sel_type s) = "D4" /\ candidate (fun _ => true) demo_types (sel_type s) (sel_offering s).
Proof.
  assert (V : Allocate demo_advice (fun _ => true) ComputeRecommendationModeEnabled demo_types =
    Some (Some (mk_selection
      (mk_instance_type "D4" "linux" [demo_offering CapacityTypeOnDemand "westus2-1" "zonal" 20])
      (demo_offering CapacityTypeOnDemand "westus2-1" "zonal" 20)))) by (by vm_compute).
  eexists. split; [exact V|]. split; [reflexivity|].
  refine (proj1 (allocate_follows_advice demo_advice (fun _ => true) demo_types _ demo_zoned _ _ V)).
  - intros t o (Ht & Ho & _).
    assert (F : Forall (fun it => match it with
      | None => True
      | Some t => free_of "|" (it_name t) = true /\
                  Forall (fun o => free_of "|" (of_capacity_type o) = true) (it_offerings t)
      end) demo_types) by (repeat constructor).
    rewrite Forall_forall in F. destruct (F _ Ht) as [Fn Fo]. rewrite Forall_forall in Fo.
    split; [exact Fn|by apply Fo].
  - intros i. exists (mk_details [mk_recommendation "D4" "1" CapacityTypeOnDemand 90 "id" 10] []).
    split; [reflexivity|]. split; [discriminate|].
    intros r ->%list_elem_of_singleton. split; reflexivity.
Defined.

Definition demo_ios : list InstanceOffering :=
  AvailabilityFilter (fun _ => true) (NewInstanceOfferings demo_types).

Lemma recommendation_requests_witness :
  exists gs, buildRecommendationGroups demo_ios = Some gs /\ NoDup (map g_key gs) /\ length gs = 3%nat.
Proof.
  destruct (build_total demo_ios (filter_filled _ _)) as [gs E].
  { intros t o Hp%filter_pairs. by eapply demo_zoned. }
  exists gs. split; [exact E|]. split; [apply (recommendation_requests demo_ios gs (filter_filled _ _) E)|].
  assert (L : length <$> buildRecommendationGroups demo_ios = Some 3%nat) by (by vm_compute).
  rewrite E in L. by injection L.
Defined.

End Allocation.
