(* ===== verification/AKSMachine.v ===== *)
(** * AKS machines ([pkg/utils/machine], [pkg/providers/instance/aksmachineinstanceutils.go])

    The data of an AKS machine as the program reads it, its provisioning
    states, the names it derives from NodeClaims, and the NodeClaim
    representation built from it.  Pointers are options; the fields of a
    machine that are only carried along are one opaque value. *)

From S2P Require Import Prelude GoString Regexp Cloud Zones ErrorHandlers.
#[local] Open Scope string_scope.
#[local] Open Scope list_scope.
#[local] Open Scope Z_scope.

Module AKSMachine.

(** ** Data *)

Record ErrorDetail := mk_detail { ed_code : option string; ed_message : option string }.

Record Status := mk_status {
  st_provisioningError : option ErrorDetail;
  st_creationTimestamp : option Z;
  st_vmState : option string;
  st_driftAction : option string
}.

Record Hardware := mk_hardware { hw_vmSize : option string; hw_ultraSSD : option bool }.

(** [pr_other] stands for the properties the program only passes on. *)
Record Properties := mk_properties {
  pr_state : option string;
  pr_status : option Status;
  pr_tags : option (gmap string (option string));
  pr_priority : option string;
  pr_resourceID : option string;
  pr_eTag : option string;
  pr_hardware : option Hardware;
  pr_nodeImageVersion : option string;
  pr_crg : option (option (option string));
  pr_other : string
}.

Record Machine := mk_machine {
  ma_id : option string;
  ma_name : option string;
  ma_zones : list (option string);
  ma_properties : option Properties
}.

Definition ProvisioningStateCreating : string := "Creating".
Definition ProvisioningStateUpdating : string := "Updating".
Definition ProvisioningStateSucceeded : string := "Succeeded".
Definition ProvisioningStateFailed : string := "Failed".
Definition ProvisioningStateDeleting : string := "Deleting".

(** ** Provisioning states *)

Inductive state_error :=
| ErrCanceledState (state : string)
| ErrFatalState (state : string)
| ErrUnrecognizedState (state : string).

(** The provisioning error, the polling error, and whether polling is over.
    The callers have checked that the properties are there. *)
Definition HandleProvisioningState (p : Properties) :
    option ErrorDetail * option state_error * bool :=
  let provisioningState := from_ptr "" (pr_state p) in
  if (provisioningState ==? ProvisioningStateCreating) ||
     (provisioningState ==? ProvisioningStateUpdating) then (None, None, false)
  else if provisioningState ==? ProvisioningStateDeleting then
    (None, Some (ErrCanceledState provisioningState), true)
  else if provisioningState ==? ProvisioningStateSucceeded then (None, None, true)
  else if provisioningState ==? ProvisioningStateFailed then
    match pr_status p with
    | Some s =>
        match st_provisioningError s with
        | Some e => (Some e, None, true)
        | None => (None, Some (ErrFatalState provisioningState), true)
        end
    | None => (None, Some (ErrFatalState provisioningState), true)
    end
  else (None, Some (ErrUnrecognizedState provisioningState), false).

(** An error of an API call: the response's status, code and text, when the
    error is an [*azcore.ResponseError]; whether it comes from the context. *)
Record ResponseError := mk_resp { re_status : Z; re_code : string; re_text : string }.
Record CallError := mk_call_error { ce_context : bool; ce_response : option ResponseError }.

Definition IsAKSMachineOrMachinesPoolNotFound (err : option CallError) : bool :=
  match err with
  | None => false
  | Some e =>
      match ce_response e with
      | None => false
      | Some r =>
          (re_status r =? 404) ||
          ((re_status r =? 400) && (re_code r ==? "InvalidParameter") &&
           Contains (re_text r) "Cannot find any valid machines")
      end
  end.

(** ** Names *)

(** The text before and after the last [c]. *)
Fixpoint last_split (c : ascii) (s : string) : option (string * string) :=
  match s with
  | EmptyString => None
  | String a s' =>
      match last_split c s' with
      | Some (pre, post) => Some (String a pre, post)
      | None => if a ==? c then Some ("", s') else None
      end
  end.

Definition base36Chars : string := "0123456789abcdefghijklmnopqrstuvwxyz".
Definition base36 (n : Z) : string := String.substring (Z.to_nat (n mod 36)) 1 base36Chars.
Fixpoint base36_digits (length : nat) (hash : Z) : string :=
  match length with
  | O => ""
  | S k => base36_digits k (hash / 36) +:+ base36 hash
  end.

Section Names.
(** [hashstructure.Hash] of a string. *)
Variable Hash : string -> result string Z.

Definition GetAlphanumericHash (input : string) (length : Z) : result string string :=
  if length <=? 0 then Err "length must be positive"
  else
    match Hash input with
    | Err e => Err ("failed to hash input: " +:+ e)
    | Ok hash => Ok (base36_digits (Z.to_nat length) hash)
    end.

Definition maxAKSMachineNameLength : nat := 34.
Definition reservedNAPMachinesPoolName : string := "aksmanagedap".
Definition linuxPrefixHashLength : nat := 6.
Definition windowsNodePoolHashLength : nat := 6.
Definition windowsNodeClaimSuffixLength : nat := 5.

Definition GetWindowsAKSMachineName (nodeClaimName machinesPoolName : string) : result string string :=
  match last_split "-" nodeClaimName with
  | None | Some ("", _) => Err "invalid NodeClaim name format: no NodePool prefix found"
  | Some (nodePoolPrefix, nodeClaimSuffix) =>
      if negb (Nat.eqb (String.length nodeClaimSuffix) windowsNodeClaimSuffixLength)
      then Err "invalid NodeClaim name suffix"
      else if machinesPoolName !=? reservedNAPMachinesPoolName then Ok nodeClaimSuffix
      else
        match GetAlphanumericHash nodePoolPrefix (Z.of_nat windowsNodePoolHashLength) with
        | Err e => Err ("failed to hash NodePool prefix: " +:+ e)
        | Ok nodePoolHash => Ok (nodePoolHash +:+ "-" +:+ nodeClaimSuffix)
        end
  end.

(** [None] is the panic of slicing the prefix with a negative length. *)
Definition GetLinuxAKSMachineName (nodeClaimName : string) : option (result string string) :=
  if Nat.leb (String.length nodeClaimName) maxAKSMachineNameLength then Some (Ok nodeClaimName)
  else
    match last_split "-" nodeClaimName with
    | None => Some (Err "invalid NodeClaim name format: no dash found")
    | Some (prefix, post) =>
        let suffix := "-" +:+ post in
        if Nat.ltb (maxAKSMachineNameLength - linuxPrefixHashLength) (String.length suffix) then None
        else
          let keepPrefixLength :=
            (maxAKSMachineNameLength - String.length suffix - linuxPrefixHashLength)%nat in
          let prefixToKeep := String.substring 0 keepPrefixLength prefix in
          let prefixToHash := drop_str keepPrefixLength prefix in
          match GetAlphanumericHash prefixToHash (Z.of_nat linuxPrefixHashLength) with
          | Err e => Some (Err ("failed to hash exceeded AKS machine name prefix: " +:+ e))
          | Ok hashedPrefixToHash => Some (Ok (prefixToKeep +:+ hashedPrefixToHash +:+ suffix))
          end
    end.

End Names.

Definition GetAKSMachineNameFromVMName (aksMachinesPoolName vmName : string) : result string string :=
  let expected := "aks-" +:+ aksMachinesPoolName +:+ "-" in
  if negb (HasPrefix vmName expected) then Err "vm name does not start with expected prefix"
  else
    let prefixTrimmed := TrimPrefix vmName expected in
    if negb (HasSuffix prefixTrimmed "-vm") then Err "vm name does not end with expected suffix -vm"
    else
      match last_split "-" (TrimSuffix prefixTrimmed "-vm") with
      | None => Err "vm name does not have enough parts"
      | Some (aksMachineName, _) => Ok aksMachineName
      end.

(** ** NodeClaims *)

Record NodeClaim := mk_nodeclaim {
  nc_name : string;
  nc_labels : gmap string string;
  nc_annotations : gmap string string;
  nc_creation : Z;
  nc_deletion : option Z;
  nc_providerID : string;
  nc_imageID : string;
  nc_capacity : gmap string Z;
  nc_allocatable : gmap string Z
}.

Definition AnnotationAKSMachineResourceID : string := "karpenter.azure.com/aks-machine-resource-id".
Definition AnnotationAKSMachineVMState : string := "karpenter.azure.com/aks-machine-vm-state".
Definition AnnotationCapacityReservationGroupID : string :=
  "karpenter.azure.com/capacity-reservation-group-id".
Definition LabelTopologyZone : string := "topology.kubernetes.io/zone".
Definition LabelPlacementScope : string := "karpenter.azure.com/placement-scope".
Definition CapacityTypeLabelKey : string := "karpenter.sh/capacity-type".
Definition NodePoolLabelKey : string := "karpenter.sh/nodepool".
Definition AKSLabelScaleSetPriority : string := "kubernetes.azure.com/scalesetpriority".
Definition AKSLabelPriority : string := "kubernetes.azure.com/priority".
Definition LabelUltraSSD : string := "karpenter.azure.com/sku-storage-ultra-ssd".
Definition NodePoolTagKey : string := ReplaceAll NodePoolLabelKey "/" "_".
Definition KarpenterAKSMachineNodeClaimTagKey : string := "karpenter.azure.com_aksmachine_nodeclaim".

Definition GetAKSMachineNameFromNodeClaim (nc : NodeClaim) : option string :=
  match nc_annotations nc !! AnnotationAKSMachineResourceID with
  | None => None
  | Some id => Some (match last_split "/" id with Some (_, name) => name | None => id end)
  end.

(** The priority tables. *)
Definition ScaleSetPrioritySpot : string := "Spot".
Definition ScaleSetPriorityRegular : string := "Regular".
Definition AKSScaleSetPriorityToKarpCapacityType : gmap string string :=
  {[ ScaleSetPrioritySpot := CapacityTypeSpot; ScaleSetPriorityRegular := CapacityTypeOnDemand ]}.
Definition KarpCapacityTypeToAKSScaleSetPriority : gmap string string :=
  {[ CapacityTypeSpot := ScaleSetPrioritySpot; CapacityTypeOnDemand := ScaleSetPriorityRegular ]}.
Definition KarpCapacityTypeToScaleSetPriorityLabel : gmap string string :=
  {[ CapacityTypeSpot := "spot"; CapacityTypeOnDemand := "regular" ]}.
Definition KarpCapacityTypeToPriorityLabel : gmap string string :=
  {[ CapacityTypeSpot := "spot"; CapacityTypeOnDemand := "regular" ]}.

(** Reading a map with a missing key gives the zero value. *)
Definition map_get (m : gmap string string) (k : string) : string := default "" (m !! k).

Definition getCapacityTypeFromAKSScaleSetPriority (p : string) : string :=
  map_get AKSScaleSetPriorityToKarpCapacityType p.

Definition capacityReservationGroupIDFromAKSMachine (m : option Machine) : string :=
  match m with
  | Some m =>
      match ma_properties m with
      | Some p => match pr_crg p with Some (Some id) => from_ptr "" id | _ => "" end
      | None => ""
      end
  | None => ""
  end.

Definition isUltraSSDEnabled (m : option Machine) : bool :=
  match m with
  | Some m =>
      match ma_properties m with
      | Some p => match pr_hardware p with Some h => from_ptr false (hw_ultraSSD h) | None => false end
      | None => false
      end
  | None => false
  end.

Definition ultraSSDLabelFromAKSMachineTemplate (m : option Machine) : string :=
  if isUltraSSDEnabled m then "true" else "false".

Definition isAKSMachineDeleting (m : option Machine) : bool :=
  match m with
  | Some m =>
      match ma_properties m with
      | Some p => match pr_state p with Some s => s ==? ProvisioningStateDeleting | None => false end
      | None => false
      end
  | None => false
  end.

Definition GetAKSLabelZoneFromAKSMachine (m : option Machine) (location : string) :
    result Zones.zone_error string :=
  match m with
  | None => Err Zones.ErrNilVM
  | Some m => Zones.MakeAKSLabelZoneFromARMZones location (ma_zones m)
  end.

(** The first required field that is missing. *)
Definition validateRetrievedAKSMachineBasicProperties (m : Machine) : option string :=
  match ma_properties m with
  | None => Some "irretrievable properties"
  | Some p =>
      match pr_status p with
      | None => Some "irretrievable status"
      | Some s =>
          match pr_hardware p with
          | None | Some (mk_hardware None _) => Some "irretrievable VM size"
          | Some _ =>
              if bool_decide (pr_priority p = None) then Some "irretrievable priority"
              else if bool_decide (pr_resourceID p = None) then Some "irretrievable VM resource ID"
              else if bool_decide (ma_id m = None) then Some "irretrievable ID"
              else if bool_decide (pr_nodeImageVersion p = None)
              then Some "irretrievable node image version"
              else if bool_decide (st_creationTimestamp s = None)
              then Some "irretrievable creation timestamp"
              else None
          end
      end
  end.

(** ** Provider IDs *)

(** The pattern of [utils.go], which captures the resource group. *)
Definition azureResourceGroupNameRE : list Regexp.item :=
  [Regexp.Rep Regexp.any 0 None false; Regexp.Lit false "/subscriptions/";
   Regexp.Rep Regexp.any 0 None false; Regexp.Lit false "/resourceGroups/";
   Regexp.Rep Regexp.any 1 None true; Regexp.Lit false "/providers/";
   Regexp.Rep Regexp.any 0 None false].

(** [strings.Replace(s, old, new, 1)] *)
Fixpoint replace_first (s old new : string) : string :=
  if HasPrefix s old then new +:+ drop_str (String.length old) s
  else match s with
       | EmptyString => EmptyString
       | String a s' => String a (replace_first s' old new)
       end.

Definition convertResourceGroupNameToLower (resourceID : string) : option string :=
  match Regexp.find_submatch false false azureResourceGroupNameRE resourceID with
  | Some [resourceGroup] => Some (replace_first resourceID resourceGroup (ToLower resourceGroup))
  | _ => None
  end.

Definition VMResourceIDToProviderID (id : string) : string :=
  let providerID := "azure://" +:+ id in
  match convertResourceGroupNameToLower providerID with
  | None => providerID
  | Some lower => lower
  end.

(** ** The NodeClaim built from a machine *)

Section Build.
(** What the program reads of an instance type's requirements and resources. *)
Variable single_valued_labels : InstanceType -> gmap string string.
Variable capacity allocatable : InstanceType -> gmap string Z.

(** [None] is the panic of a nil tag value or nil properties. *)
Definition BuildNodeClaimFromAKSMachineTemplate (now : Z) (m : Machine) (t : option InstanceType)
    (capacityType : string) (zone : option string) (machineID vmID : string) (isDeleting : bool)
    (imageVersion : string) (creation : Z) : option NodeClaim :=
  match ma_properties m with
  | None => None
  | Some p =>
      let annotations : gmap string string :=
        <[AnnotationCapacityReservationGroupID := capacityReservationGroupIDFromAKSMachine (Some m)]>
          {[ AnnotationAKSMachineResourceID := machineID ]} in
      let labels := match t with Some t => single_valued_labels t | None => ∅ end in
      let labels := match zone with
                    | Some z => <[LabelPlacementScope := Zones.PlacementScopeForZone z]>
                                  (<[LabelTopologyZone := z]> labels)
                    | None => labels
                    end in
      let labels :=
        <[LabelUltraSSD := ultraSSDLabelFromAKSMachineTemplate (Some m)]>
          (<[AKSLabelPriority := map_get KarpCapacityTypeToPriorityLabel capacityType]>
            (<[AKSLabelScaleSetPriority := map_get KarpCapacityTypeToScaleSetPriorityLabel capacityType]>
              (<[CapacityTypeLabelKey := capacityType]> labels))) in
      let tags := default ∅ (pr_tags p) in
      match (match tags !! NodePoolTagKey with
             | Some None => None
             | Some (Some np) => Some (<[NodePoolLabelKey := np]> labels)
             | None => Some labels
             end),
            (match tags !! KarpenterAKSMachineNodeClaimTagKey with
             | Some None => None
             | Some (Some n) => Some n
             | None => Some ""
             end) with
      | Some labels, Some name =>
          Some (mk_nodeclaim name labels annotations creation
                  (if isDeleting then Some now else None)
                  (VMResourceIDToProviderID vmID) imageVersion
                  (match t with Some t => filter (fun kv => kv.2 <> 0) (capacity t) | None => ∅ end)
                  (match t with Some t => filter (fun kv => kv.2 <> 0) (allocatable t) | None => ∅ end))
      | _, _ => None
      end
  end.

Inductive build_error := ErrInvalidMachine (e : string) | ErrZone (e : Zones.zone_error).

Definition set_annotation (k v : string) (nc : NodeClaim) : NodeClaim :=
  mk_nodeclaim (nc_name nc) (nc_labels nc) (<[k := v]> (nc_annotations nc)) (nc_creation nc)
    (nc_deletion nc) (nc_providerID nc) (nc_imageID nc) (nc_capacity nc) (nc_allocatable nc).

Definition BuildNodeClaimFromAKSMachine (now : Z) (m : Machine) (its : list InstanceType)
    (location : string) : option (result build_error NodeClaim) :=
  match validateRetrievedAKSMachineBasicProperties m, ma_properties m with
  | Some e, _ => Some (Err (ErrInvalidMachine e))
  | None, None => None
  | None, Some p =>
      match Zones.MakeAKSLabelZoneFromARMZones location (ma_zones m) with
      | Err e => Some (Err (ErrZone e))
      | Ok zone =>
          let vmSize := match pr_hardware p with Some h => from_ptr "" (hw_vmSize h) | None => "" end in
          let status := default (mk_status None None None None) (pr_status p) in
          match BuildNodeClaimFromAKSMachineTemplate now m (ErrorHandlers.GetInstanceTypeFromVMSize vmSize its)
                  (getCapacityTypeFromAKSScaleSetPriority (from_ptr "" (pr_priority p))) (Some zone)
                  (from_ptr "" (ma_id m)) (from_ptr "" (pr_resourceID p))
                  (isAKSMachineDeleting (Some m)) (from_ptr "" (pr_nodeImageVersion p))
                  (from_ptr 0 (st_creationTimestamp status)) with
          | None => None
          | Some nc =>
              Some (Ok (match st_vmState status with
                        | Some s => set_annotation AnnotationAKSMachineVMState s nc
                        | None => nc
                        end))
          end
      end
  end.

End Build.
(** ** Laws of the names *)

Lemma last_split_spec c s a b :
  last_split c s = Some (a, b) -> s = a +:+ String c b /\ free_of c b = true.
Proof.
  revert a b. induction s as [|x s IH]; simpl; intros a b E; [done|].
  destruct (last_split c s) as [[pre post]|] eqn:L.
  - injection E as <- <-. destruct (IH _ _ eq_refl) as [-> F]. done.
  - destruct (bool_decide (x = c)) eqn:B; [|done]. apply bool_decide_eq_true in B as ->.
    injection E as <- <-. split; [done|]. clear IH. induction s as [|y s IH]; [done|]. simpl in *.
    destruct (last_split c s) as [[? ?]|]; [done|].
    destruct (bool_decide (y = c)); [done|]. simpl. by apply IH.
Qed.

Lemma last_split_free c s : free_of c s = true -> last_split c s = None.
Proof.
  induction s as [|x s IH]; simpl; [done|]. intros [H1 H2]%andb_true_iff.
  rewrite IH by done. by destruct (bool_decide (x = c)).
Qed.

Lemma last_split_app c a b : free_of c b = true -> last_split c (a +:+ String c b) = Some (a, b).
Proof.
  intros F. induction a as [|x a IH]; simpl.
  - rewrite last_split_free by done. by rewrite bool_decide_eq_true_2.
  - by rewrite IH.
Qed.

Lemma length_base36 n : String.length (base36 n) = 1%nat.
Proof.
  unfold base36. apply length_substring.
  assert (0 <= n mod 36 < 36) by (apply Z.mod_pos_bound; lia).
  change (String.length base36Chars) with 36%nat. lia.
Qed.

Lemma length_base36_digits k h : String.length (base36_digits k h) = k.
Proof.
  revert h. induction k as [|k IH]; intros h; [done|]. simpl.
  rewrite length_string_app, IH, length_base36. lia.
Qed.

Lemma hash_length Hash input n h :
  0 < n -> GetAlphanumericHash Hash input n = Ok h -> String.length h = Z.to_nat n.
Proof.
  intros Hn. unfold GetAlphanumericHash. destruct (Z.leb_spec n 0); [lia|].
  destruct (Hash input); [|done]. intros [= <-]. apply length_base36_digits.
Qed.

(** Machine names fit: a Linux machine name has at most 34 characters, is
    the NodeClaim's own name when that fits, and otherwise keeps its suffix; a
    Windows name has at most 12 characters in the managed pool and 5 in
    others.  Naming a Linux machine only panics when the part after the last
    dash is longer than 27 characters. *)
Theorem machine_names_fit Hash n :
  (forall m, GetLinuxAKSMachineName Hash n = Some (Ok m) ->
     (String.length m <= 34)%nat /\
     ((String.length n <= 34)%nat -> m = n) /\
     forall pre post, last_split "-" n = Some (pre, post) -> exists pre', m = pre' +:+ String "-" post) /\
  (forall pool m, GetWindowsAKSMachineName Hash n pool = Ok m ->
     (String.length m <= if bool_decide (pool = reservedNAPMachinesPoolName) then 12 else 5)%nat) /\
  (GetLinuxAKSMachineName Hash n = None ->
     exists pre post, last_split "-" n = Some (pre, post) /\ (27 < String.length post)%nat).
Proof.
  split; [|split].
  - intros m. unfold GetLinuxAKSMachineName, maxAKSMachineNameLength, linuxPrefixHashLength.
    destruct (Nat.leb_spec (String.length n) 34) as [L|L].
    { intros [= <-]. split; [done|]. split; [done|].
      intros pre post [E _]%last_split_spec. by exists pre. }
    destruct (last_split "-" n) as [[pre post]|] eqn:S; [|done]. cbv zeta.
    destruct (Nat.ltb_spec (34 - 6) (String.length ("-" +:+ post))) as [|L2]; [done|].
    destruct (GetAlphanumericHash _ _ _) as [h|] eqn:G; [|done]. intros [= <-].
    apply hash_length in G; [|lia]. apply last_split_spec in S as [-> _].
    assert (Ls : String.length ("-" +:+ post) = Datatypes.S (String.length post)) by done.
    assert (Ln : String.length (pre +:+ String "-" post) =
      (String.length pre + Datatypes.S (String.length post))%nat) by apply length_string_app.
    rewrite Ls in *. split; [|split; [lia|]].
    + rewrite !length_string_app, G, length_substring by lia.
      change (String.length "-") with 1%nat. lia.
    + intros pre' post' [= <- <-]. eexists. by rewrite string_app_assoc.
  - intros pool m. unfold GetWindowsAKSMachineName.
    destruct (last_split "-" n) as [[[|c pre] post]|]; [done| |done].
    destruct (Nat.eqb_spec (String.length post) windowsNodeClaimSuffixLength) as [L|]; [|done].
    cbn [negb]. destruct (bool_decide (pool = reservedNAPMachinesPoolName)); cbn [negb].
    + destruct (GetAlphanumericHash _ _ _) as [h|] eqn:G; [|done]. intros [= <-].
      apply hash_length in G; [|done]. rewrite !length_string_app, G, L.
      unfold windowsNodePoolHashLength, windowsNodeClaimSuffixLength. simpl. lia.
    + intros [= <-]. by rewrite L.
  - unfold GetLinuxAKSMachineName, maxAKSMachineNameLength, linuxPrefixHashLength.
    destruct (Nat.leb _ _); [done|]. destruct (last_split "-" n) as [[pre post]|]; [|done]. cbv zeta.
    destruct (Nat.ltb_spec (34 - 6) (String.length ("-" +:+ post))) as [L|].
    + intros _. exists pre, post. split; [done|].
      change (String.length ("-" +:+ post)) with (S (String.length post)) in L. lia.
    + by destruct (GetAlphanumericHash _ _ _).
Qed.

(** The VM of a machine leads back to it: the name AKS gives the VM of the
    machine [name] in [pool] parses to [name], whatever the dashes in either. *)
Lemma vm_name_back pool name unique :
  free_of "-" unique = true ->
  GetAKSMachineNameFromVMName pool ("aks-" +:+ pool +:+ "-" +:+ name +:+ "-" +:+ unique +:+ "-vm") = Ok name.
Proof.
  intros F. unfold GetAKSMachineNameFromVMName.
  assert (E : "aks-" +:+ pool +:+ "-" +:+ name +:+ "-" +:+ unique +:+ "-vm" =
    ("aks-" +:+ pool +:+ "-") +:+ ((name +:+ String "-" unique) +:+ "-vm")).
  { by rewrite !string_app_assoc. }
  rewrite E. unfold HasPrefix. rewrite prefix_app. cbn [negb].
  unfold TrimPrefix, HasPrefix. rewrite prefix_app, drop_str_app.
  rewrite HasSuffix_app, TrimSuffix_app. cbn [negb]. by rewrite last_split_app.
Qed.

Lemma machine_names_fit_witness :
  exists m, GetLinuxAKSMachineName (fun _ => Ok 12345) "a-rather-long-nodepool-name-for-tests-a1b2c" = Some (Ok m) /\
    (String.length m <= 34)%nat /\ m = "a-rather-long-nodepool0009ix-a1b2c".
Proof.
  eexists. split; [reflexivity|]. split; [|by vm_compute].
  apply (machine_names_fit (fun _ => Ok 12345) "a-rather-long-nodepool-name-for-tests-a1b2c"). reflexivity.
Defined.

(** ** Laws of the NodeClaim *)

Section BuildLaws.
Variable single_valued_labels : InstanceType -> gmap string string.
Variable capacity allocatable : InstanceType -> gmap string Z.
#[local] Abbreviation Build := (BuildNodeClaimFromAKSMachine single_valued_labels capacity allocatable).

(** The values of the labels and annotations that are set from the machine. *)
Lemma template_fields now m t ct z mid vid del iv cr nc :
  BuildNodeClaimFromAKSMachineTemplate single_valued_labels capacity allocatable
    now m t ct (Some z) mid vid del iv cr = Some nc ->
  nc_annotations nc !! AnnotationAKSMachineResourceID = Some mid /\
  nc_annotations nc !! AnnotationCapacityReservationGroupID =
    Some (capacityReservationGroupIDFromAKSMachine (Some m)) /\
  nc_labels nc !! LabelTopologyZone = Some z /\
  nc_labels nc !! LabelPlacementScope = Some (Zones.PlacementScopeForZone z) /\
  nc_labels nc !! CapacityTypeLabelKey = Some ct /\
  nc_labels nc !! AKSLabelPriority = Some (map_get KarpCapacityTypeToPriorityLabel ct) /\
  nc_deletion nc = (if del then Some now else None) /\ nc_imageID nc = iv /\ nc_creation nc = cr.
Proof.
  unfold BuildNodeClaimFromAKSMachineTemplate. destruct (ma_properties m) as [p|]; [|done].
  repeat case_match; try done; intros E; injection E as <-; simplify_eq; cbn;
    repeat split; rewrite ?lookup_insert_ne by done; apply lookup_insert_eq || apply lookup_singleton_eq.
Qed.

(** The NodeClaim built from a machine agrees with it: its annotation leads
    back to the machine's name, its zone and placement scope are those of the
    machine's ARM zones, its capacity type that of the machine's priority, and
    it is being deleted exactly when the machine is. *)
Theorem nodeclaim_of_machine now m its location nc :
  Build now m its location = Some (Ok nc) ->
  exists p zone, ma_properties m = Some p /\
    (forall base name, ma_id m = Some (base +:+ String "/" name) -> free_of "/" name = true ->
       GetAKSMachineNameFromNodeClaim nc = Some name) /\
    Zones.MakeAKSLabelZoneFromARMZones location (ma_zones m) = Ok zone /\
    nc_labels nc !! LabelTopologyZone = Some zone /\
    (nc_labels nc !! LabelPlacementScope = Some Zones.PlacementScopeRegional <-> zone = Zones.Regional) /\
    (pr_priority p = Some ScaleSetPrioritySpot -> nc_labels nc !! CapacityTypeLabelKey = Some CapacityTypeSpot) /\
    (pr_priority p = Some ScaleSetPriorityRegular ->
       nc_labels nc !! CapacityTypeLabelKey = Some CapacityTypeOnDemand) /\
    (is_Some (nc_deletion nc) <-> pr_state p = Some ProvisioningStateDeleting) /\
    Some (nc_imageID nc) = pr_nodeImageVersion p.
Proof.
  unfold BuildNodeClaimFromAKSMachine.
  destruct (validateRetrievedAKSMachineBasicProperties m) eqn:V; [done|].
  unfold validateRetrievedAKSMachineBasicProperties in V.
  destruct (ma_properties m) as [p|] eqn:P; [|done].
  destruct (Zones.MakeAKSLabelZoneFromARMZones location (ma_zones m)) as [zone|]; [|done]. cbv zeta.
  destruct (BuildNodeClaimFromAKSMachineTemplate _ _ _ _ _ _ _ _ _ _ _ _ _) as [nc0|] eqn:T; [|done].
  apply template_fields in T as (A1 & _ & L1 & L2 & L3 & _ & D & I & _).
  destruct (pr_status p) as [st|]; [|done].
  destruct (pr_hardware p) as [[[vs|] us]|]; try done.
  assert (Iv : exists v, pr_nodeImageVersion p = Some v).
  { revert V. repeat case_bool_decide; try done. intros _. by destruct (pr_nodeImageVersion p); eauto. }
  assert (Idm : exists v, ma_id m = Some v).
  { revert V. repeat case_bool_decide; try done. intros _. by destruct (ma_id m); eauto. }
  destruct Iv as [iv Iv], Idm as [idm Idm]. rewrite Iv in I. rewrite Idm in A1. simpl in I, A1.
  intros E. injection E as E.
  assert (F : nc_labels nc = nc_labels nc0 /\ nc_deletion nc = nc_deletion nc0 /\ nc_imageID nc = nc_imageID nc0 /\
    nc_annotations nc !! AnnotationAKSMachineResourceID = nc_annotations nc0 !! AnnotationAKSMachineResourceID).
  { destruct (st_vmState _); subst nc; [|done]. repeat split. by apply lookup_insert_ne. }
  destruct F as (F1 & F2 & F3 & F4). rewrite F1, F2, F3.
  exists p, zone. split; [done|]. split.
  { intros base name Eid Fr. unfold GetAKSMachineNameFromNodeClaim. rewrite F4, A1.
    rewrite Idm in Eid. injection Eid as ->. by rewrite last_split_app. }
  split; [done|]. split; [done|]. split.
  { rewrite L2. unfold Zones.PlacementScopeForZone.
    destruct (bool_decide (zone = Zones.Regional)) eqn:B;
      [apply bool_decide_eq_true in B|apply bool_decide_eq_false in B]; by split. }
  split; [intros Hp; rewrite L3, Hp; reflexivity|].
  split; [intros Hp; rewrite L3, Hp; reflexivity|]. split.
  - rewrite D. unfold isAKSMachineDeleting. rewrite P.
    destruct (pr_state p) as [s|]; [|split; [by intros [? ?]|done]].
    destruct (bool_decide (s = ProvisioningStateDeleting)) eqn:B;
      [apply bool_decide_eq_true in B as ->|apply bool_decide_eq_false in B].
    + split; [done|by eexists].
    + split; [by intros [? ?]|]. intros E'. injection E' as ->. done.
  - by rewrite I, Iv.
Qed.

End BuildLaws.

Definition demo_machine : Machine :=
  mk_machine (Some "/machines/np-a1b2c") (Some "np-a1b2c") [Some "2"]
    (Some (mk_properties (Some ProvisioningStateSucceeded) (Some (mk_status None (Some 7) None None))
      (Some {[ NodePoolTagKey := Some "np" ]}) (Some ScaleSetPrioritySpot) (Some "/vm") None
      (Some (mk_hardware (Some "D2") None)) (Some "img") None "")).

Lemma nodeclaim_of_machine_witness :
  exists nc, BuildNodeClaimFromAKSMachine (fun _ => ∅) (fun _ => ∅) (fun _ => ∅) 9 demo_machine [] "WestUS2"
      = Some (Ok nc) /\
    GetAKSMachineNameFromNodeClaim nc = Some "np-a1b2c".
Proof.
  eexists. split; [reflexivity|].
  edestruct (nodeclaim_of_machine (fun _ => ∅) (fun _ => ∅) (fun _ => ∅) 9 demo_machine [] "WestUS2")
    as (p & zone & _ & N & _); [reflexivity|].
  by apply (N "/machines" "np-a1b2c").
Defined.

End AKSMachine.
