(* ===== verification/ResourceIDs.v ===== *)
(** * Resource IDs

    The Azure IDs the program writes and reads back: subnets
    ([utils/subnet_parser.go]), node images ([utils/image.go],
    [providers/imagefamily/nodeimage.go]), virtual machines and provider IDs
    ([utils/utils.go], [utils/nodeclaim/nodeclaim.go]), and the names that
    tell what AKS manages. *)

From S2P Require Import Prelude GoString Regexp AKSMachine.
#[local] Open Scope string_scope.
#[local] Open Scope list_scope.
#[local] Open Scope nat_scope.

Module ResourceIDs.
Import Regexp.

(** ** Subnets *)

Record VnetSubnetResource := mk_subnet {
  SubscriptionID : string; ResourceGroupName : string; VNetName : string; SubnetName : string
}.
#[export] Instance VnetSubnetResource_eq_dec : EqDecision VnetSubnetResource.
Proof. solve_decision. Defined.

Definition IsSameVNET (v cmp : VnetSubnetResource) : bool :=
  if SubscriptionID v !=? SubscriptionID cmp then false
  else if ResourceGroupName v !=? ResourceGroupName cmp then false
  else if VNetName v !=? VNetName cmp then false
  else true.

Definition GetSubnetResourceID (subscriptionID resourceGroupName virtualNetworkName subnetName : string) : string :=
  "/subscriptions/" +:+ subscriptionID +:+ "/resourceGroups/" +:+ resourceGroupName
    +:+ "/providers/Microsoft.Network/virtualNetworks/" +:+ virtualNetworkName +:+ "/subnets/" +:+ subnetName.

Definition GetVnetSubnetIDComponents (vnetSubnetID : string) : result string VnetSubnetResource :=
  let parts := Split vnetSubnetID "/" in
  if negb (Nat.eqb (length parts) 11) then Err "invalid vnet subnet id"
  else
    let part i := default "" (parts !! i) in
    let vs := mk_subnet (part 2) (part 4) (part 8) (part 10) in
    let mirror := GetSubnetResourceID (SubscriptionID vs) (ResourceGroupName vs) (VNetName vs) (SubnetName vs) in
    if negb (EqualFold mirror vnetSubnetID) then Err "invalid vnet subnet id" else Ok vs.

(** [(?i)^aks-vnet-\d{8}$] *)
Definition managedVNETPattern : list item := [Lit true "aks-vnet-"; Rep digit 8 (Some 8) false].
Definition managedSubnetName : string := "aks-subnet".

Definition IsAKSManagedVNET (nodeResourceGroup subnetID : string) : result string bool :=
  match GetVnetSubnetIDComponents subnetID with
  | Err e => Err e
  | Ok id =>
      Ok (bool_decide (is_Some (find_submatch true true managedVNETPattern (VNetName id))) &&
          EqualFold nodeResourceGroup (ResourceGroupName id) && EqualFold (SubnetName id) managedSubnetName)
  end.

(** [(?i)^aks-agentpool-(\d{8})-nsg$] *)
Definition managedNSGRegex : list item :=
  [Lit true "aks-agentpool-"; Rep digit 8 (Some 8) true; Lit true "-nsg"].
Definition GetClusterIDFromNSGName (nsgName : string) : string :=
  match find_submatch true true managedNSGRegex nsgName with Some (id :: _) => id | _ => "" end.

(** ** Node images *)

Definition BuildImageIDCIG (publicGalleryURL communityImageName imageVersion : string) : string :=
  "/CommunityGalleries/" +:+ publicGalleryURL +:+ "/images/" +:+ communityImageName +:+ "/versions/" +:+ imageVersion.
Definition BuildImageIDSIG (subscriptionID resourceGroup galleryName imageDefinition imageVersion : string) : string :=
  "/subscriptions/" +:+ subscriptionID +:+ "/resourceGroups/" +:+ resourceGroup
    +:+ "/providers/Microsoft.Compute/galleries/" +:+ galleryName +:+ "/images/" +:+ imageDefinition
    +:+ "/versions/" +:+ imageVersion.

Definition sigImageIDRegex : list item :=
  [Lit true "/subscriptions/"; Rep not_space 1 None true; Lit true "/resourceGroups/"; Rep not_space 1 None true;
   Lit true "/providers/Microsoft.Compute/galleries/"; Rep not_space 1 None true; Lit true "/images/";
   Rep not_space 1 None true; Lit true "/versions/"; Rep not_space 1 None true].
Definition windowsImageDefinitionPrefix : string := "windows-".
Definition extractOSVersionForWindows (definition : string) : string :=
  TrimPrefix definition windowsImageDefinitionPrefix.

Definition GetAKSMachineNodeImageVersionFromSIGImageID (imageID : string) : result string string :=
  match find_submatch false false sigImageIDRegex imageID with
  | Some [_; _; gallery; definition; version] =>
      let osVersion := if HasPrefix definition windowsImageDefinitionPrefix
                       then extractOSVersionForWindows definition else definition in
      Ok (GoString.Join [gallery; osVersion; version] "-")
  | _ => Err "incorrect SIG image ID"
  end.
Definition GetAKSMachineNodeImageVersionFromImageID (imageID : string) : result string string :=
  if HasPrefix imageID "/CommunityGalleries" then Err "CIG images are not supported yet for AKS machines"
  else GetAKSMachineNodeImageVersionFromSIGImageID imageID.

(** ** Virtual machines *)

Definition GenerateResourceName (nodeClaimName : string) : string := "aks-" +:+ nodeClaimName.
Definition GetNodeClaimNameFromVMName (vmName : string) : string := TrimPrefix vmName "aks-".

(** The ID the VM provider gives to a machine it creates. *)
Definition VMResourceID (subscriptionID resourceGroup resourceName : string) : string :=
  "/subscriptions/" +:+ subscriptionID +:+ "/resourceGroups/" +:+ resourceGroup
    +:+ "/providers/Microsoft.Compute/virtualMachines/" +:+ resourceName.

Definition providerIDRegex : list item :=
  [Lit false "azure:///subscriptions/"; Rep any 0 None false; Lit false "/resourceGroups/"; Rep any 0 None false;
   Lit false "/providers/Microsoft.Compute/virtualMachines/"; Rep any 0 None true].
Definition GetVMName (providerID : string) : result string string :=
  match find_submatch false false providerIDRegex providerID with
  | Some (name :: _) => Ok name
  | _ => Err "parsing vm name"
  end.

(** ** Subnet IDs *)

Lemma Join_Split s c : Join (Split s c) (String c "") = s.
Proof.
  induction s as [|a s IH]; [done|]. cbn [Split]. pose proof (Split_nonempty s c) as N. case_bool_decide as E.
  - subst. destruct (Split s c) as [|w ws]; [done|]. change (Join ("" :: w :: ws) (String c "")) with
      (String c (Join (w :: ws) (String c ""))). by rewrite IH.
  - destruct (Split s c) as [|w [|v ws]]; [done|by rewrite <- IH|].
    change (String a (Join (w :: v :: ws) (String c "")) = String a s). by rewrite IH.
Qed.

Lemma EqualFold_refl s : EqualFold s s = true.
Proof. by apply bool_decide_eq_true_2. Qed.

Definition segment (w : string) : Prop := free_of "/" w = true.

Lemma Split_subnet s r v n :
  segment s -> segment r -> segment v -> segment n ->
  Split (GetSubnetResourceID s r v n) "/" =
    [""; "subscriptions"; s; "resourceGroups"; r; "providers"; "Microsoft.Network"; "virtualNetworks"; v; "subnets"; n].
Proof.
  intros Hs Hr Hv Hn. rewrite <- (Split_Join "/"); [done|done|]. intros w Hw.
  repeat (apply elem_of_cons in Hw as [->|Hw]; [done|]). by apply not_elem_of_nil in Hw.
Qed.

(** Subnet IDs: an ID built from four names without slashes parses back to
    them, and an ID is accepted only if it is, up to letter case, the one
    built from the names it parses to. *)
Theorem subnet_id_roundtrip :
  (forall s r v n, segment s -> segment r -> segment v -> segment n ->
     GetVnetSubnetIDComponents (GetSubnetResourceID s r v n) = Ok (mk_subnet s r v n)) /\
  (forall id vs, GetVnetSubnetIDComponents id = Ok vs ->
     EqualFold (GetSubnetResourceID (SubscriptionID vs) (ResourceGroupName vs) (VNetName vs) (SubnetName vs)) id = true /\
     segment (SubscriptionID vs) /\ segment (ResourceGroupName vs) /\ segment (VNetName vs) /\ segment (SubnetName vs)).
Proof.
  split.
  - intros s r v n Hs Hr Hv Hn. unfold GetVnetSubnetIDComponents. rewrite Split_subnet by done.
    cbn -[EqualFold GetSubnetResourceID]. rewrite EqualFold_refl. reflexivity.
  - intros id vs. unfold GetVnetSubnetIDComponents. destruct (negb (Nat.eqb _ _)); [done|].
    destruct (EqualFold _ _) eqn:E; [|done]. intros [= <-]. split; [exact E|]. simpl.
    assert (S : forall i, segment (default "" (Split id "/" !! i))).
    { intros i. destruct (Split id "/" !! i) as [w|] eqn:L; [|done].
      apply list_elem_of_lookup_2 in L. by apply Split_free in L. }
    done.
Qed.

(** ** Image IDs *)

(** What an Azure name is for the patterns: not empty, no slash, no space. *)
Definition word (w : string) : Prop := w <> "" /\ segment w /\ all_in not_space w.

Lemma word_length w : word w -> 1 <= String.length w.
Proof. intros [N _]. destruct w; simpl; [done|lia]. Qed.

(** Node images: the version AKS reports for a machine's image is computed
    from the ID of a shared gallery image whatever its parts (the
    redundant "windows-" is dropped), and is refused for community images. *)
Theorem image_version_of_id :
  (forall sub rg gallery definition version,
     word sub -> word rg -> word gallery -> word definition -> word version ->
     GetAKSMachineNodeImageVersionFromImageID (BuildImageIDSIG sub rg gallery definition version) =
     Ok (gallery +:+ "-" +:+ TrimPrefix definition "windows-" +:+ "-" +:+ version)) /\
  (forall url name version,
     GetAKSMachineNodeImageVersionFromImageID (BuildImageIDCIG url name version) =
     Err "CIG images are not supported yet for AKS machines").
Proof.
  split; [|done]. intros sub rg g d v Hs Hr Hg Hd Hv.
  unfold GetAKSMachineNodeImageVersionFromImageID.
  replace (HasPrefix (BuildImageIDSIG sub rg g d v) "/CommunityGalleries") with false by done.
  unfold GetAKSMachineNodeImageVersionFromSIGImageID.
  assert (F : fits sigImageIDRegex [sub; rg; g; d; v]).
  { pose proof (word_length _ Hs). pose proof (word_length _ Hr). pose proof (word_length _ Hg).
    pose proof (word_length _ Hd). pose proof (word_length _ Hv). unfold word in *. by repeat (split; [naive_solver|]). }
  pose proof (match_expand false sigImageIDRegex _ eq_refl F) as M. cbn [expand captured sigImageIDRegex] in M.
  rewrite string_app_nil_r in M. rewrite (find_here _ _ _ _ _ M). unfold extractOSVersionForWindows, TrimPrefix.
  unfold windowsImageDefinitionPrefix. by destruct (HasPrefix d "windows-").
Qed.

(** ** Provider IDs *)

(** Replacing by the lower-case form changes letter case only. *)
Lemma replace_first_lower s old : ToLower (AKSMachine.replace_first s old (ToLower old)) = ToLower s.
Proof.
  assert (H : forall t, HasPrefix t old = true ->
    ToLower (ToLower old +:+ drop_str (String.length old) t) = ToLower t).
  { intros t [u ->]%prefix_spec. by rewrite drop_str_app, !ToLower_app, ToLower_idemp. }
  induction s as [|a s IH]; cbn [AKSMachine.replace_first]; destruct (HasPrefix _ old) eqn:P; try (by apply H); [done|].
  simpl. by rewrite IH.
Qed.

(** An occurrence of a name without slashes lies within one part. *)
Lemma prefix_part r p s :
  segment r -> r <> "" -> HasPrefix (p +:+ String "/" s) r = true -> HasPrefix p r = true.
Proof.
  unfold segment, HasPrefix. revert r. induction p as [|a p IH]; intros [|b r]; simpl; try done; intros H N P.
  - destruct (ascii_dec b "/"); [subst; done|done].
  - destruct (ascii_dec b a); [|done]. apply andb_true_iff in H as [_ H].
    destruct r as [|c r]; [by destruct p|]. by apply IH.
Qed.

Lemma HasPrefix_app p r s : HasPrefix p r = true -> HasPrefix (p +:+ s) r = true.
Proof. intros [t ->]%prefix_spec. rewrite string_app_assoc. apply prefix_app. Qed.

Lemma replace_first_cons a s r new :
  AKSMachine.replace_first (String a s) r new =
  if HasPrefix (String a s) r then new +:+ drop_str (String.length r) (String a s)
  else String a (AKSMachine.replace_first s r new).
Proof. done. Qed.

Lemma replace_first_part p r new s :
  segment r -> r <> "" ->
  AKSMachine.replace_first (p +:+ String "/" s) r new =
  if Contains p r then AKSMachine.replace_first p r new +:+ String "/" s
  else p +:+ String "/" (AKSMachine.replace_first s r new).
Proof.
  intros Hr N. induction p as [|a p IH].
  - change ("" +:+ String "/" s) with (String "/" s). cbn [AKSMachine.replace_first].
    destruct (HasPrefix (String "/" s) r) eqn:P.
    + by apply (prefix_part r "" s Hr N) in P; destruct r.
    + by destruct r.
  - change (Contains (String a p) r) with (HasPrefix (String a p) r || Contains p r).
    change (String a p +:+ String "/" s) with (String a (p +:+ String "/" s)).
    rewrite !replace_first_cons. destruct (HasPrefix (String a (p +:+ String "/" s)) r) eqn:P.
    + pose proof P as P'. apply (prefix_part r (String a p) s Hr N) in P'. rewrite P'. cbn [orb].
      apply prefix_spec in P' as [t E].
      change (String a (p +:+ String "/" s)) with (String a p +:+ String "/" s). by rewrite E, (string_app_assoc r t), !drop_str_app, string_app_assoc.
    + destruct (HasPrefix (String a p) r) eqn:P'.
      { apply (HasPrefix_app _ _ (String "/" s)) in P'.
        change (HasPrefix (String a (p +:+ String "/" s)) r = true) in P'. congruence. }
      rewrite IH. by destruct (Contains p r).
Qed.

(** No slash and no newline. *)
Definition plain (w : string) : Prop := segment w /\ free_of "010" w = true.

Lemma plain_any w : plain w -> all_in any w.
Proof.
  intros [_ H]. unfold all_in. induction w as [|a w IH]; simpl in *; [done|].
  apply andb_true_iff in H as [A H]. unfold any. rewrite A. f_equal. by apply IH.
Qed.

Lemma plain_lower w v : ToLower w = ToLower v -> plain v -> plain w.
Proof.
  intros E [P Q]. assert (N : forall a, ascii_to_lower a = "010"%char <-> a = "010"%char).
  { split; [|by intros ->]. destruct a as [[] [] [] [] [] [] [] []]; vm_compute; congruence. }
  unfold plain, segment.
  rewrite <- (free_of_lower "/" w lower_slash), <- (free_of_lower "010" w N), E.
  by rewrite (free_of_lower "/" v lower_slash), (free_of_lower "010" v N).
Qed.

Lemma Split_vm s r n :
  segment s -> segment r -> segment n ->
  Split ("azure://" +:+ VMResourceID s r n) "/" =
    ["azure:"; ""; ""; "subscriptions"; s; "resourceGroups"; r; "providers"; "Microsoft.Compute"; "virtualMachines"; n].
Proof.
  intros Hs Hr Hn. rewrite <- (Split_Join "/"); [done|done|]. intros w Hw.
  repeat (apply elem_of_cons in Hw as [->|Hw]; [done|]). by apply not_elem_of_nil in Hw.
Qed.

(** The one way to cut the parts of a VM's ID at the three keywords. *)
Lemma cut_parts (l1 l2 l3 l4 : list string) s r n :
  l1 <> [] -> l2 <> [] -> l3 <> [] -> l4 <> [] ->
  l1 ++ "subscriptions" :: l2 ++ "resourceGroups" :: l3 ++ "providers" :: l4 =
  ["azure:"; ""; ""; "subscriptions"; s; "resourceGroups"; r; "providers"; "Microsoft.Compute"; "virtualMachines"; n] ->
  l3 = [r].
Proof.
  intros N1 N2 N3 N4 E. assert (L := f_equal length E). rewrite !length_app in L. simpl in L.
  rewrite !length_app in L. simpl in L. rewrite !length_app in L. simpl in L.
  destruct l1 as [|a1 [|a2 [|a3 [|a4 [|a5 [|a6 l1]]]]]]; simplify_eq/=; try lia.
  all: destruct l2 as [|b1 [|b2 [|b3 [|b4 [|b5 l2]]]]]; simplify_eq/=; try lia.
  all: destruct l3 as [|c1 [|c2 [|c3 [|c4 l3]]]]; simplify_eq/=; try lia; try done.
  all: destruct l4; [done|simpl in L; lia].
Qed.

Lemma resource_group_match s r n :
  plain s -> plain r -> r <> "" -> plain n ->
  find_submatch false false AKSMachine.azureResourceGroupNameRE ("azure://" +:+ VMResourceID s r n) = Some [r].
Proof.
  intros Ps Pr Nr Pn. pose proof (plain_any _ Ps) as As. pose proof (plain_any _ Pr) as Ar.
  pose proof (plain_any _ Pn) as An. destruct Ps as [Ss _], Pr as [Sr _], Pn as [Sn _]. apply find_here, match_here_unique.
  - eexists. unfold AKSMachine.azureResourceGroupNameRE, VMResourceID.
    eapply (matches_rep _ _ _ _ false _ "azure://"); [done|simpl; lia|done|].
    econstructor; [apply eat_self|]. eapply (matches_rep _ _ _ _ false _ s); [done|lia|done|].
    econstructor; [apply eat_self|].
    eapply (matches_rep _ _ _ _ true _ r); [done|destruct r; simpl; [done|lia]|done|].
    change ("/providers/Microsoft.Compute/virtualMachines/" +:+ n)
      with ("/providers/" +:+ ("Microsoft.Compute/virtualMachines/" +:+ n)).
    econstructor; [apply eat_self|]. rewrite <- (string_app_nil_r ("Microsoft.Compute/virtualMachines/" +:+ n)).
    eapply (matches_rep _ _ _ _ false _ _); [|lia|done|by constructor].
    unfold all_in. by rewrite run_length_app, An, length_string_app.
  - intros gs M. pose proof (Split_vm s r n Ss Sr Sn) as E. revert M E.
    generalize ("azure://" +:+ VMResourceID s r n) as id. intros id M E. unfold AKSMachine.azureResourceGroupNameRE in M.
    apply matches_rep_inv in M as (g1 & s1 & gs1 & -> & _ & _ & -> & M).
    apply matches_lit_inv in M as (s2 & ->%eat_exact & M).
    apply matches_rep_inv in M as (g2 & s3 & gs2 & -> & _ & _ & -> & M).
    apply matches_lit_inv in M as (s4 & ->%eat_exact & M).
    apply matches_rep_inv in M as (g3 & s5 & gs3 & -> & _ & _ & -> & M).
    apply matches_lit_inv in M as (s6 & ->%eat_exact & M).
    apply matches_rep_inv in M as (g4 & s7 & gs4 & -> & _ & _ & -> & M).
    assert (gs4 = []) as -> by (by inversion M).
    f_equal. rewrite <- (Join_Split g3 "/").
    change (g1 +:+ ("/subscriptions/" +:+ (g2 +:+ ("/resourceGroups/" +:+ (g3 +:+ ("/providers/" +:+ (g4 +:+ s7)))))))
      with (g1 +:+ String "/" ("subscriptions" +:+ String "/" (g2 +:+ String "/" ("resourceGroups" +:+ String "/"
        (g3 +:+ String "/" ("providers" +:+ String "/" (g4 +:+ s7))))))) in E.
    rewrite !Split_app in E.
    rewrite (cut_parts (Split g1 "/") (Split g2 "/") (Split g3 "/") (Split (g4 +:+ s7) "/") s r n
      (Split_nonempty _ _) (Split_nonempty _ _) (Split_nonempty _ _) (Split_nonempty _ _) E). done.
Qed.

(** [strings.Contains] *)
Lemma Contains_spec s r : Contains s r = true <-> exists a b, s = a +:+ r +:+ b.
Proof.
  induction s as [|x s IH]; cbn [Contains]; rewrite orb_true_iff.
  - split; [intros [[t E]%prefix_spec|]; [by exists "", t|done]|]. intros (a & b & E). left. destruct a; [|done].
    apply prefix_spec. by exists b.
  - rewrite IH. split.
    + intros [[t E]%prefix_spec|(a & b & ->)]; [by exists "", t|by exists (String x a), b].
    + intros ([|y a] & b & E); [left; apply prefix_spec; by exists b|right]. injection E as -> ->. by exists a, b.
Qed.

Lemma free_of_app c a b : free_of c (a +:+ b) = free_of c a && free_of c b.
Proof. induction a as [|x a IH]; simpl; [done|]. by rewrite IH, andb_assoc. Qed.

Lemma lower_app_inv a b : ToLower (a +:+ b) = a +:+ b -> ToLower a = a /\ ToLower b = b.
Proof.
  induction a as [|x a IH]; simpl; [done|]. intros [= Ex E%IH]. split; [f_equal; [done|apply E]|apply E].
Qed.

Lemma replace_first_same s r : AKSMachine.replace_first s r r = s.
Proof.
  assert (H : forall t, HasPrefix t r = true -> r +:+ drop_str (String.length r) t = t)
    by (intros t [u ->]%prefix_spec; by rewrite drop_str_app).
  induction s as [|x s IH]; cbn [AKSMachine.replace_first]; destruct (HasPrefix _ r) eqn:P; [by apply H|done|by apply H|].
  by rewrite IH.
Qed.

(** A lower-case part is left alone. *)
Lemma replace_lower_part p r :
  ToLower p = p -> Contains p r = true -> AKSMachine.replace_first p r (ToLower r) = p.
Proof.
  intros L (a & b & ->)%Contains_spec. apply lower_app_inv in L as [_ [L _]%lower_app_inv].
  by rewrite L, replace_first_same.
Qed.

(** The resource group's name is found first inside the keyword
    "resourceGroups", at its capital letter. *)
Definition clash (s r : string) : bool :=
  negb (Contains s r) && Contains "resourceGroups" r && negb (free_of "G" r).

Definition substrings (k : string) : list string :=
  i ← seq 0 (S (String.length k)); j ← seq 0 (S (String.length k)); [String.substring i j k].

Lemma substrings_complete k r : Contains k r = true -> r ∈ substrings k.
Proof.
  intros (a & b & ->)%Contains_spec. unfold substrings. apply list_elem_of_bind. exists (String.length a).
  rewrite !length_string_app. split; [|apply list_elem_of_In, in_seq; lia].
  apply list_elem_of_bind. exists (String.length r). split; [|apply list_elem_of_In, in_seq; lia].
  apply list_elem_of_singleton. induction a as [|x a IH]; [exact (eq_sym (take_str_app r b))|exact IH].
Qed.

Lemma replace_keyword r :
  Contains "resourceGroups" r = true ->
  AKSMachine.replace_first "resourceGroups" r (ToLower r) =
  if free_of "G" r then "resourceGroups" else "resourcegroups".
Proof.
  intros H%substrings_complete.
  assert (F : Forall (fun r => AKSMachine.replace_first "resourceGroups" r (ToLower r) =
    if free_of "G" r then "resourceGroups" else "resourcegroups") (substrings "resourceGroups"))
    by (apply (bool_decide_eq_true_1 (Forall _ _)); vm_compute; reflexivity).
  rewrite Forall_forall in F. by apply F.
Qed.

(** The provider ID spelled out, part by part. *)
Definition spelled (s k r n : string) : string :=
  "azure:///subscriptions/" +:+ s +:+ "/" +:+ k +:+ "/" +:+ r +:+ "/providers/Microsoft.Compute/virtualMachines/" +:+ n.

Lemma provider_id s r n :
  plain s -> plain r -> r <> "" -> plain n ->
  exists s' r', ToLower s' = ToLower s /\ ToLower r' = ToLower r /\
    AKSMachine.VMResourceIDToProviderID (VMResourceID s r n) =
    spelled s' (if clash s r then "resourcegroups" else "resourceGroups") r' n.
Proof.
  intros Ps Pr Nr Pn. unfold AKSMachine.VMResourceIDToProviderID, AKSMachine.convertResourceGroupNameToLower.
  rewrite (resource_group_match s r n Ps Pr Nr Pn). pose proof Pr as [Sr _].
  assert (L : forall p x, free_of "G" p = true -> Contains p r = true ->
    (if clash s r then x else "resourceGroups") = "resourceGroups").
  { intros p x G (a & b & ->)%Contains_spec. rewrite !free_of_app, !andb_true_iff in G. destruct G as (_ & G & _).
    unfold clash. by rewrite G, andb_false_r. }
  change ("azure://" +:+ VMResourceID s r n) with ("azure:" +:+ String "/" ("" +:+ String "/" ("" +:+ String "/"
    ("subscriptions" +:+ String "/" (s +:+ String "/" ("resourceGroups" +:+ String "/" (r +:+ String "/"
      ("providers/Microsoft.Compute/virtualMachines/" +:+ n)))))))).
  rewrite !(replace_first_part _ r) by done.
  destruct (Contains "azure:" r) eqn:C1.
  { exists s, r. by rewrite (L "azure:" _ eq_refl C1), replace_lower_part. }
  replace (Contains "" r) with false by (by destruct r).
  destruct (Contains "subscriptions" r) eqn:C2.
  { exists s, r. by rewrite (L "subscriptions" _ eq_refl C2), replace_lower_part. }
  unfold clash. destruct (Contains s r) eqn:C3; simpl negb; cbn [andb].
  { exists (AKSMachine.replace_first s r (ToLower r)), r. by rewrite replace_first_lower. }
  destruct (Contains "resourceGroups" r) eqn:C4; cbn [andb].
  { exists s, r. rewrite replace_keyword by done. by destruct (free_of "G" r). }
  exists s, (ToLower r). rewrite ToLower_idemp. replace (Contains r r) with true; [|symmetry; by apply Contains_spec; exists "", ""; rewrite string_app_nil_r].
  assert (AKSMachine.replace_first r r (ToLower r) = ToLower r) as ->; [|done].
  destruct r as [|a r]; [done|]. rewrite replace_first_cons.
  replace (HasPrefix (String a r) (String a r)) with true
    by (symmetry; apply prefix_spec; exists ""; by rewrite string_app_nil_r).
  rewrite <- (string_app_nil_r (String a r)) at 3. by rewrite drop_str_app, string_app_nil_r.
Qed.

Lemma GetVMName_spelled s r n :
  plain s -> plain r -> plain n -> GetVMName (spelled s "resourceGroups" r n) = Ok n.
Proof.
  intros Ps Pr Pn.
  assert (F : fits providerIDRegex [s; r; n]).
  { pose proof (plain_any _ Ps). pose proof (plain_any _ Pr). pose proof (plain_any _ Pn).
    destruct Ps, Pr, Pn. simpl. repeat (split; [done || lia|]). done. }
  pose proof (match_expand false providerIDRegex _ eq_refl F) as M. cbn [expand captured providerIDRegex] in M.
  rewrite string_app_nil_r in M.
  unfold GetVMName.
  change (spelled s "resourceGroups" r n) with ("azure:///subscriptions/" +:+ s +:+ "/resourceGroups/" +:+ r +:+
    "/providers/Microsoft.Compute/virtualMachines/" +:+ n).
  by rewrite (find_here _ _ _ _ _ M).
Qed.

(** Eleven parts leave one way to match: the sixth is "resourceGroups". *)
Lemma eleven_parts (a b c d : list string) x0 x1 x2 x3 x4 x5 x6 x7 x8 x9 x10 :
  a <> [] -> b <> [] -> c <> [] -> d <> [] ->
  a ++ "" :: "" :: "subscriptions" :: b ++ "resourceGroups" :: c ++
    "providers" :: "Microsoft.Compute" :: "virtualMachines" :: d =
  [x0; x1; x2; x3; x4; x5; x6; x7; x8; x9; x10] -> x5 = "resourceGroups".
Proof.
  intros Na Nb Nc Nd E. assert (L := f_equal length E). rewrite length_app in L. simpl in L.
  rewrite length_app in L. simpl in L. rewrite length_app in L. simpl in L.
  destruct a as [|? [|]], b as [|? [|]], c as [|? [|]], d as [|? [|]]; simpl in L; try done; try lia.
  by injection E.
Qed.

Lemma GetVMName_renamed s r n :
  segment s -> segment r -> segment n -> GetVMName (spelled s "resourcegroups" r n) = Err "parsing vm name".
Proof.
  intros Ss Sr Sn. unfold GetVMName. destruct (find_submatch _ _ _ _) as [gs|] eqn:M; [exfalso|done].
  assert (P : Split (spelled s "resourcegroups" r n) "/" = ["azure:"; ""; ""; "subscriptions"; s; "resourcegroups"; r;
    "providers"; "Microsoft.Compute"; "virtualMachines"; n]).
  { rewrite <- (Split_Join "/"); [done|done|]. intros w Hw.
    repeat (apply elem_of_cons in Hw as [->|Hw]; [done|]). by apply not_elem_of_nil in Hw. }
  apply find_sound in M as (pre & s1 & E & M). rewrite E in P. clear E. unfold providerIDRegex in M.
  apply matches_lit_inv in M as (s2 & ->%eat_exact & M).
  apply matches_rep_inv in M as (g1 & s3 & gs1 & -> & _ & _ & -> & M).
  apply matches_lit_inv in M as (s4 & ->%eat_exact & M).
  apply matches_rep_inv in M as (g2 & s5 & gs2 & -> & _ & _ & -> & M).
  apply matches_lit_inv in M as (s6 & ->%eat_exact & M).
  change ("azure:///subscriptions/" +:+ g1 +:+ "/resourceGroups/" +:+ g2 +:+
    "/providers/Microsoft.Compute/virtualMachines/" +:+ s6)
    with ("azure:" +:+ String "/" ("" +:+ String "/" ("" +:+ String "/" ("subscriptions" +:+ String "/" (g1 +:+
      String "/" ("resourceGroups" +:+ String "/" (g2 +:+ String "/" ("providers" +:+ String "/"
      ("Microsoft.Compute" +:+ String "/" ("virtualMachines" +:+ String "/" s6)))))))))) in P.
  rewrite <- string_app_assoc, !Split_app in P.
  apply (eleven_parts (Split (pre +:+ "azure:") "/") (Split g1 "/") (Split g2 "/") (Split s6 "/")) in P;
    [done|apply Split_nonempty..].
Qed.

Lemma nodeclaim_name_back c : GetNodeClaimNameFromVMName (GenerateResourceName c) = c.
Proof.
  unfold GetNodeClaimNameFromVMName, GenerateResourceName, TrimPrefix, HasPrefix. rewrite prefix_app.
  apply (drop_str_app "aks-").
Qed.

(** The way back from a NodeClaim's provider ID to its VM: the name read
    from the ID that Karpenter gave a VM is the VM's name, except that the ID
    of a resource group whose name occurs in "resourceGroups" with its capital
    letter (and not earlier) cannot be read; and a VM name gives the NodeClaim
    it was made for. *)
Theorem vm_name_of_provider_id :
  (forall s r n, plain s -> plain r -> r <> "" -> plain n ->
     GetVMName (AKSMachine.VMResourceIDToProviderID (VMResourceID s r n)) =
     if clash s r then Err "parsing vm name" else Ok n) /\
  (forall c, GetNodeClaimNameFromVMName (GenerateResourceName c) = c).
Proof.
  split.
  - intros s r n Ps Pr Nr Pn. destruct (provider_id s r n Ps Pr Nr Pn) as (s' & r' & Es & Er & ->).
    pose proof (plain_lower _ _ Es Ps) as Ps'. pose proof (plain_lower _ _ Er Pr) as Pr'.
    destruct (clash s r); [|by apply GetVMName_spelled].
    apply GetVMName_renamed; [apply Ps'|apply Pr'|apply Pn].
  - exact nodeclaim_name_back.
Qed.

(** ** Concrete instances *)

Lemma subnet_id_roundtrip_witness :
  GetVnetSubnetIDComponents (GetSubnetResourceID "s" "rg" "vnet" "aks-subnet") = Ok (mk_subnet "s" "rg" "vnet" "aks-subnet") /\
  segment "aks-subnet".
Proof.
  split; [|by vm_compute]. destruct subnet_id_roundtrip as [R _]. by apply R; vm_compute.
Defined.

Lemma image_version_of_id_witness :
  GetAKSMachineNodeImageVersionFromImageID (BuildImageIDSIG "109" "AKS-Windows" "AKSWindows" "windows-2022" "20348.1") =
  Ok "AKSWindows-2022-20348.1".
Proof.
  destruct image_version_of_id as [R _].
  rewrite (R "109" "AKS-Windows" "AKSWindows" "windows-2022" "20348.1"); [by vm_compute|by repeat split..].
Defined.

Lemma vm_name_of_provider_id_witness :
  GetVMName (AKSMachine.VMResourceIDToProviderID (VMResourceID "109" "MC_Rg" "aks-default-2jf98")) = Ok "aks-default-2jf98" /\
  GetVMName (AKSMachine.VMResourceIDToProviderID (VMResourceID "109" "Groups" "aks-default-2jf98")) = Err "parsing vm name".
Proof.
  destruct vm_name_of_provider_id as [R _].
  split; [rewrite (R "109" "MC_Rg")|rewrite (R "109" "Groups")]; try (by repeat split); by vm_compute.
Defined.

End ResourceIDs.
