(* ===== verification/VirtualMachines.v ===== *)
(** * Virtual machine objects ([pkg/providers/instance/vminstance.go],
      [pkg/cloudprovider/cloudprovider.go], [pkg/utils/utils.go])

    The ARM object sent to create a VM, field by field, what is read back from
    a VM, and the NodeClaim built from it.  Pointers are options. *)

From S2P Require Import Prelude GoString Cloud Zones AKSMachine ResourceIDs.
#[local] Open Scope string_scope.
#[local] Open Scope list_scope.
#[local] Open Scope Z_scope.

Module VirtualMachines.

(** ** Data *)

(** A [float64]; finite values in units of 2^-1074, zero without its sign. *)
Inductive float64 := Finite (x : Z) | NaN | Inf (negative : bool).
#[export] Instance float64_eq_dec : EqDecision float64.
Proof. solve_decision. Defined.
Definition minus_one : float64 := Finite (- 2 ^ 1074).

Record ImageReference := mk_image_ref {
  ir_id : option string; ir_community : option string; ir_shared : option string;
  ir_publisher : option string; ir_offer : option string; ir_sku : option string; ir_version : option string
}.
Record OSDisk := mk_os_disk {
  od_name : string; od_sizeGB : Z; od_createOption : string; od_deleteOption : string;
  od_ephemeral : option string; od_caching : option string; od_encryptionSet : option string
}.
Record OSProfile := mk_os_profile {
  os_adminUsername : string; os_computerName : string; os_disablePassword : bool;
  os_sshKey : string; os_sshPath : string; os_customData : string
}.
Record SecurityProfile := mk_security {
  se_encryptionAtHost : option bool; se_type : option string; se_uefi : option (bool * bool)
}.
Record Capabilities := mk_capabilities { ca_ultraSSD : option bool; ca_fips1403 : option bool }.

(** [vp_crg]: the profile, its group, the group's ID. *)
Record VMProperties := mk_vm_properties {
  vp_hardware : option (option string);
  vp_diskController : option string;
  vp_osDisk : option OSDisk;
  vp_image : option (option ImageReference);
  vp_nics : list string;
  vp_osProfile : option OSProfile;
  vp_priority : option string;
  vp_eviction : option string;
  vp_maxPrice : option float64;
  vp_security : option SecurityProfile;
  vp_capabilities : option Capabilities;
  vp_crg : option (option (option string));
  vp_timeCreated : option Z;
  vp_provisioningState : option string
}.
Record VirtualMachine := mk_vm {
  vm_id : option string; vm_name : option string; vm_location : option string;
  vm_identity : option (gset string); vm_zones : list (option string);
  vm_tags : gmap string (option string); vm_properties : option VMProperties
}.
Definition empty_vm : VirtualMachine := mk_vm None None None None [] ∅ None.

(** The fields of a NodeClass read here. *)
Record TrustedLaunch := mk_trusted { tl_secureBoot : option bool; tl_vtpm : option bool }.
Record Security := mk_sec { sc_encryptionAtHost : option bool; sc_trustedLaunch : option TrustedLaunch }.
Record NodeClass := mk_class { cl_security : option Security; cl_crg : option (option string) }.

Definition GetCapacityReservationGroupID (c : NodeClass) : string :=
  match cl_crg c with None => "" | Some id => from_ptr "" id end.
Definition trusted_launch (c : NodeClass) : option TrustedLaunch :=
  match cl_security c with Some s => sc_trustedLaunch s | None => None end.
Definition IsVTPMEnabled (c : NodeClass) : bool :=
  match trusted_launch c with Some t => from_ptr false (tl_vtpm t) | None => false end.
Definition IsSecureBootEnabled (c : NodeClass) : bool :=
  match trusted_launch c with Some t => from_ptr false (tl_secureBoot t) | None => false end.
Definition IsTrustedLaunchEnabled (c : NodeClass) : bool := IsVTPMEnabled c || IsSecureBootEnabled c.

Record Template := mk_template {
  lt_scriptlessCustomData : string; lt_imageID : string; lt_fips1403 : bool; lt_subnetID : string;
  lt_tags : gmap string (option string); lt_customScriptsCustomData : string; lt_customScriptsCSE : string;
  lt_isWindows : bool; lt_isEphemeral : bool; lt_placement : string; lt_sizeGB : Z; lt_diskController : option string
}.

Record createVMOptions := mk_create {
  o_VMName : string; o_NicReference : string; o_Zone : string; o_CapacityType : string;
  o_SpotMaxPrice : option float64; o_Location : string; o_SSHPublicKey : string; o_LinuxAdminUsername : string;
  o_NodeIdentities : list string; o_NodeClass : NodeClass; o_LaunchTemplate : Template; o_InstanceType : string;
  o_ProvisionMode : string; o_UseSIG : bool; o_DiskEncryptionSetID : string; o_UltraSSDEnabled : bool
}.

(** ** The object to create *)

Definition VMPrioritySpot : string := "Spot".
Definition VMPriorityRegular : string := "Regular".
Definition KarpCapacityTypeToVMPriority : gmap string string :=
  {[ CapacityTypeSpot := VMPrioritySpot; CapacityTypeOnDemand := VMPriorityRegular ]}.
Definition VMPriorityToKarpCapacityType : gmap string string :=
  {[ VMPrioritySpot := CapacityTypeSpot; VMPriorityRegular := CapacityTypeOnDemand ]}.
Definition VMPriorityToScaleSetPriority : gmap string string :=
  {[ VMPrioritySpot := "spot"; VMPriorityRegular := "regular" ]}.
Definition VMPriorityToPriority : gmap string string :=
  {[ VMPrioritySpot := "spot"; VMPriorityRegular := "regular" ]}.
Definition ProvisionModeBootstrappingClient : string := "bootstrappingclient".

Definition ConvertToVirtualMachineIdentity (nodeIdentities : list string) : option (gset string) :=
  match nodeIdentities with [] => None | _ => Some (list_to_set nodeIdentities) end.

Section Setters.
#[local] Abbreviation Props := VMProperties.

Definition set_osDisk (d : option OSDisk) (p : Props) : Props :=
  mk_vm_properties (vp_hardware p) (vp_diskController p) d (vp_image p) (vp_nics p) (vp_osProfile p) (vp_priority p)
    (vp_eviction p) (vp_maxPrice p) (vp_security p) (vp_capabilities p) (vp_crg p) (vp_timeCreated p) (vp_provisioningState p).
Definition set_image (i : option (option ImageReference)) (p : Props) : Props :=
  mk_vm_properties (vp_hardware p) (vp_diskController p) (vp_osDisk p) i (vp_nics p) (vp_osProfile p) (vp_priority p)
    (vp_eviction p) (vp_maxPrice p) (vp_security p) (vp_capabilities p) (vp_crg p) (vp_timeCreated p) (vp_provisioningState p).
Definition set_osProfile (o : option OSProfile) (p : Props) : Props :=
  mk_vm_properties (vp_hardware p) (vp_diskController p) (vp_osDisk p) (vp_image p) (vp_nics p) o (vp_priority p)
    (vp_eviction p) (vp_maxPrice p) (vp_security p) (vp_capabilities p) (vp_crg p) (vp_timeCreated p) (vp_provisioningState p).
Definition set_billing (e : option string) (m : option float64) (p : Props) : Props :=
  mk_vm_properties (vp_hardware p) (vp_diskController p) (vp_osDisk p) (vp_image p) (vp_nics p) (vp_osProfile p) (vp_priority p)
    e m (vp_security p) (vp_capabilities p) (vp_crg p) (vp_timeCreated p) (vp_provisioningState p).
Definition set_security (s : option SecurityProfile) (p : Props) : Props :=
  mk_vm_properties (vp_hardware p) (vp_diskController p) (vp_osDisk p) (vp_image p) (vp_nics p) (vp_osProfile p) (vp_priority p)
    (vp_eviction p) (vp_maxPrice p) s (vp_capabilities p) (vp_crg p) (vp_timeCreated p) (vp_provisioningState p).
Definition set_capabilities (c : option Capabilities) (p : Props) : Props :=
  mk_vm_properties (vp_hardware p) (vp_diskController p) (vp_osDisk p) (vp_image p) (vp_nics p) (vp_osProfile p) (vp_priority p)
    (vp_eviction p) (vp_maxPrice p) (vp_security p) c (vp_crg p) (vp_timeCreated p) (vp_provisioningState p).
Definition set_crg (g : option (option (option string))) (p : Props) : Props :=
  mk_vm_properties (vp_hardware p) (vp_diskController p) (vp_osDisk p) (vp_image p) (vp_nics p) (vp_osProfile p) (vp_priority p)
    (vp_eviction p) (vp_maxPrice p) (vp_security p) (vp_capabilities p) g (vp_timeCreated p) (vp_provisioningState p).
Definition set_timeCreated (t : option Z) (p : Props) : Props :=
  mk_vm_properties (vp_hardware p) (vp_diskController p) (vp_osDisk p) (vp_image p) (vp_nics p) (vp_osProfile p) (vp_priority p)
    (vp_eviction p) (vp_maxPrice p) (vp_security p) (vp_capabilities p) (vp_crg p) t (vp_provisioningState p).

Definition setVMPropertiesOSDiskType (t : Template) (p : Props) : Props :=
  if lt_isEphemeral t then
    set_osDisk (fmap (fun d => mk_os_disk (od_name d) (od_sizeGB d) (od_createOption d) (od_deleteOption d)
      (Some (lt_placement t)) (Some "ReadOnly") (od_encryptionSet d)) (vp_osDisk p)) p
  else p.
Definition setVMPropertiesOSDiskEncryption (diskEncryptionSetID : string) (p : Props) : Props :=
  if diskEncryptionSetID !=? "" then
    set_osDisk (fmap (fun d => mk_os_disk (od_name d) (od_sizeGB d) (od_createOption d) (od_deleteOption d)
      (od_ephemeral d) (od_caching d) (Some diskEncryptionSetID)) (vp_osDisk p)) p
  else p.
Definition setImageReference (imageID : string) (useSIG : bool) (p : Props) : Props :=
  if useSIG || HasPrefix (ToLower imageID) "/subscriptions/"
  then set_image (Some (Some (mk_image_ref (Some imageID) None None None None None None))) p
  else set_image (Some (Some (mk_image_ref None (Some imageID) None None None None None))) p.
Definition setVMPropertiesBillingProfile (capacityType : string) (spotMaxPrice : option float64) (p : Props) : Props :=
  if capacityType ==? CapacityTypeSpot
  then set_billing (Some "Delete") (Some (default minus_one spotMaxPrice)) p
  else p.
Definition setVMPropertiesSecurityProfile (c : NodeClass) (p : Props) : Props :=
  match cl_security c with
  | None => p
  | Some s =>
      let p :=
        match sc_encryptionAtHost s with
        | None => p
        | Some e =>
            let sp := default (mk_security None None None) (vp_security p) in
            set_security (Some (mk_security (Some e) (se_type sp) (se_uefi sp))) p
        end in
      if IsTrustedLaunchEnabled c then
        let sp := default (mk_security None None None) (vp_security p) in
        set_security (Some (mk_security (se_encryptionAtHost sp)
          (Some (default "TrustedLaunch" (se_type sp)))
          (Some (default (IsSecureBootEnabled c, IsVTPMEnabled c) (se_uefi sp))))) p
      else p
  end.
Definition setVMPropertiesAdditionalCapabilities (ultraSSDEnabled fips1403EncryptionEnabled : bool) (p : Props) : Props :=
  if ultraSSDEnabled || fips1403EncryptionEnabled then
    let c := default (mk_capabilities None None) (vp_capabilities p) in
    set_capabilities (Some (mk_capabilities
      (if ultraSSDEnabled then Some true else ca_ultraSSD c)
      (if fips1403EncryptionEnabled then Some true else ca_fips1403 c))) p
  else p.
Definition setVMPropertiesCapacityReservation (c : NodeClass) (p : Props) : Props :=
  let groupID := GetCapacityReservationGroupID c in
  if groupID ==? "" then p else set_crg (Some (Some (Some groupID))) p.

End Setters.

(** [None]: a zone label that is empty makes the conversion to ARM zones
    panic. *)
Definition newVMObject (o : createVMOptions) : option VirtualMachine :=
  let t := o_LaunchTemplate o in
  if lt_isWindows t then Some empty_vm
  else
    match Zones.MakeARMZonesFromAKSLabelZone (o_Zone o) with
    | None => None
    | Some zones =>
        let customData := if o_ProvisionMode o ==? ProvisionModeBootstrappingClient
                          then lt_customScriptsCustomData t else lt_scriptlessCustomData t in
        let base := mk_vm_properties
          (Some (Some (o_InstanceType o))) (lt_diskController t)
          (Some (mk_os_disk (o_VMName o) (lt_sizeGB t) "FromImage" "Delete" None None None))
          (Some None) [o_NicReference o]
          (Some (mk_os_profile (o_LinuxAdminUsername o) (o_VMName o) true (o_SSHPublicKey o)
                   ("/home/" +:+ o_LinuxAdminUsername o +:+ "/.ssh/authorized_keys") customData))
          (Some (AKSMachine.map_get KarpCapacityTypeToVMPriority (o_CapacityType o)))
          None None None None None None None in
        let props :=
          setVMPropertiesCapacityReservation (o_NodeClass o)
            (setVMPropertiesAdditionalCapabilities (o_UltraSSDEnabled o) (lt_fips1403 t)
              (setVMPropertiesSecurityProfile (o_NodeClass o)
                (setVMPropertiesBillingProfile (o_CapacityType o) (o_SpotMaxPrice o)
                  (setImageReference (lt_imageID t) (o_UseSIG o)
                    (setVMPropertiesOSDiskEncryption (o_DiskEncryptionSetID o)
                      (setVMPropertiesOSDiskType t base)))))) in
        Some (mk_vm None (Some (o_VMName o)) (Some (o_Location o))
          (ConvertToVirtualMachineIdentity (o_NodeIdentities o)) (map Some zones) (lt_tags t) (Some props))
    end.

(** ** Reading a VM *)

Definition CapacityReservationGroupID (vm : option VirtualMachine) : string :=
  match vm with
  | Some vm =>
      match vm_properties vm with
      | Some p => match vp_crg p with Some (Some id) => from_ptr "" id | _ => "" end
      | None => ""
      end
  | None => ""
  end.

Definition priority_of (vm : option VirtualMachine) : option string :=
  match vm with
  | Some vm => match vm_properties vm with Some p => vp_priority p | None => None end
  | None => None
  end.
Definition GetCapacityTypeFromVM (vm : option VirtualMachine) : string :=
  match priority_of vm with Some p => AKSMachine.map_get VMPriorityToKarpCapacityType p | None => "" end.
Definition GetScaleSetPriorityLabelFromVM (vm : option VirtualMachine) : string :=
  match priority_of vm with Some p => AKSMachine.map_get VMPriorityToScaleSetPriority p | None => "" end.
Definition GetPriorityLabelFromVM (vm : option VirtualMachine) : string :=
  match priority_of vm with Some p => AKSMachine.map_get VMPriorityToPriority p | None => "" end.
Definition GetUltraSSDEnabled (vm : option VirtualMachine) : bool :=
  match vm with
  | Some vm =>
      match vm_properties vm with
      | Some p => match vp_capabilities p with Some c => from_ptr false (ca_ultraSSD c) | None => false end
      | None => false
      end
  | None => false
  end.

Definition IsVMDeleting (vm : VirtualMachine) : bool :=
  match vm_properties vm with
  | Some p => match vp_provisioningState p with Some s => s ==? "Deleting" | None => false end
  | None => false
  end.

Definition nonempty (s : option string) : bool := match s with Some s => s !=? "" | None => false end.
Definition ImageReferenceToString (i : ImageReference) : string :=
  if nonempty (ir_id i) then from_ptr "" (ir_id i)
  else if nonempty (ir_community i) then from_ptr "" (ir_community i)
  else if nonempty (ir_shared i) then from_ptr "" (ir_shared i)
  else match ir_publisher i, ir_offer i, ir_sku i, ir_version i with
       | Some p, Some o, Some s, Some v => p +:+ ":" +:+ o +:+ ":" +:+ s +:+ ":" +:+ v
       | _, _, _, _ => ""
       end.

(** ** The spot price annotation *)

Definition AnnotationSpotMaxPrice : string := "karpenter.azure.com/spot-max-price".
Inductive price_error := EmptyPrice | NotAFloat | NotFinite | NegativePrice.

(** [ParseFloat]: [strconv.ParseFloat], [None] for its errors. *)
Definition parseSpotMaxPriceAnnotation (ParseFloat : string -> option float64) (annotations : gmap string string) :
    result price_error (option float64) :=
  match annotations !! AnnotationSpotMaxPrice with
  | None => Ok None
  | Some raw =>
      let raw := TrimSpace raw in
      if raw ==? "" then Err EmptyPrice
      else
        match ParseFloat raw with
        | None => Err NotAFloat
        | Some (NaN | Inf _) => Err NotFinite
        | Some (Finite x) => if (x <? 0) && (Finite x !=? minus_one) then Err NegativePrice else Ok (Some (Finite x))
        end
  end.

(** ** The NodeClaim of a VM *)

Section NodeClaims.
(** What the program reads of an instance type's requirements and resources. *)
Variable single_valued_labels : InstanceType -> gmap string string.
Variable capacity allocatable : InstanceType -> gmap string Z.

(** [None] is the panic of a nil name, ID or tag. *)
Definition vmInstanceToNodeClaim (now : Z) (vm : VirtualMachine) (instanceType : option InstanceType) :
    option AKSMachine.NodeClaim :=
  let labels := match instanceType with Some t => single_valued_labels t | None => ∅ end in
  let labels :=
    match Zones.MakeAKSLabelZoneFromVM (Some (Zones.mk_vm_zone (vm_location vm) (vm_zones vm))) with
    | Err _ => labels
    | Ok zone => <[AKSMachine.LabelPlacementScope := Zones.PlacementScopeForZone zone]>
                   (<[AKSMachine.LabelTopologyZone := zone]> labels)
    end in
  let labels :=
    <[AKSMachine.LabelUltraSSD := if GetUltraSSDEnabled (Some vm) then "true" else "false"]>
      (<[AKSMachine.AKSLabelPriority := GetPriorityLabelFromVM (Some vm)]>
        (<[AKSMachine.AKSLabelScaleSetPriority := GetScaleSetPriorityLabelFromVM (Some vm)]>
          (<[AKSMachine.CapacityTypeLabelKey := GetCapacityTypeFromVM (Some vm)]> labels))) in
  let annotations : gmap string string :=
    {[ AKSMachine.AnnotationCapacityReservationGroupID := CapacityReservationGroupID (Some vm) ]} in
  match (match vm_tags vm !! AKSMachine.NodePoolTagKey with
         | Some None => None
         | Some (Some np) => Some (<[AKSMachine.NodePoolLabelKey := np]> labels)
         | None => Some labels
         end), vm_name vm, vm_id vm with
  | Some labels, Some name, Some id =>
      let props := vm_properties vm in
      Some (AKSMachine.mk_nodeclaim (ResourceIDs.GetNodeClaimNameFromVMName name) labels annotations
        (match props with Some p => default now (vp_timeCreated p) | None => now end)
        (if IsVMDeleting vm then Some now else None)
        (AKSMachine.VMResourceIDToProviderID id)
        (match props with
         | Some p => match vp_image p with Some (Some i) => ImageReferenceToString i | _ => "" end
         | None => ""
         end)
        (match instanceType with Some t => filter (fun kv => kv.2 <> 0) (capacity t) | None => ∅ end)
        (match instanceType with Some t => filter (fun kv => kv.2 <> 0) (allocatable t) | None => ∅ end))
  | _, _, _ => None
  end.

(** ** What was asked for is what the NodeClaim says *)

(** What [beginLaunchInstance] adds to the object before the NodeClaim is
    built from it. *)
Definition created (id : string) (now : Z) (vm : VirtualMachine) : VirtualMachine :=
  mk_vm (Some id) (vm_name vm) (vm_location vm) (vm_identity vm) (vm_zones vm) (vm_tags vm)
    (fmap (set_timeCreated (Some now)) (vm_properties vm)).

(** The properties the NodeClaim is built from. *)
Definition core (p : VMProperties) :=
  (vp_hardware p, vp_priority p, vp_image p, vp_capabilities p, vp_crg p, vp_provisioningState p, vp_nics p).

Lemma core_osDiskType t p : core (setVMPropertiesOSDiskType t p) = core p.
Proof. unfold setVMPropertiesOSDiskType. by case_match. Qed.
Lemma core_encryption d p : core (setVMPropertiesOSDiskEncryption d p) = core p.
Proof. unfold setVMPropertiesOSDiskEncryption. by case_match. Qed.
Lemma core_billing c m p : core (setVMPropertiesBillingProfile c m p) = core p.
Proof. unfold setVMPropertiesBillingProfile. by case_match. Qed.
Lemma core_security c p : core (setVMPropertiesSecurityProfile c p) = core p.
Proof. unfold setVMPropertiesSecurityProfile. repeat case_match; done. Qed.

Lemma new_vm_properties o vm :
  lt_isWindows (o_LaunchTemplate o) = false -> newVMObject o = Some vm ->
  exists zones p, Zones.MakeARMZonesFromAKSLabelZone (o_Zone o) = Some zones /\
    vm_name vm = Some (o_VMName o) /\ vm_location vm = Some (o_Location o) /\ vm_zones vm = map Some zones /\
    vm_tags vm = lt_tags (o_LaunchTemplate o) /\ vm_properties vm = Some p /\
    vp_hardware p = Some (Some (o_InstanceType o)) /\
    vp_priority p = Some (AKSMachine.map_get KarpCapacityTypeToVMPriority (o_CapacityType o)) /\
    (exists i, vp_image p = Some (Some i) /\
       (lt_imageID (o_LaunchTemplate o) <> "" -> ImageReferenceToString i = lt_imageID (o_LaunchTemplate o))) /\
    match vp_capabilities p with Some c => from_ptr false (ca_ultraSSD c) | None => false end = o_UltraSSDEnabled o /\
    CapacityReservationGroupID (Some vm) = GetCapacityReservationGroupID (o_NodeClass o) /\
    vp_provisioningState p = None /\ vp_nics p = [o_NicReference o].
Proof.
  intros W E. unfold newVMObject in E. rewrite W in E.
  destruct (Zones.MakeARMZonesFromAKSLabelZone (o_Zone o)) as [zones|]; [|done].
  injection E as <-. exists zones. eexists. do 6 (split; [done|]).
  match goal with |- context [setVMPropertiesOSDiskType _ ?base] => set (b := base) end.
  assert (I : forall u q, exists i, vp_image (setImageReference (lt_imageID (o_LaunchTemplate o)) u q) = Some (Some i) /\
    (lt_imageID (o_LaunchTemplate o) <> "" -> ImageReferenceToString i = lt_imageID (o_LaunchTemplate o))).
  { intros u q. unfold setImageReference, ImageReferenceToString, nonempty.
    case_match; (eexists; split; [reflexivity|]; intros Hi; simpl; by rewrite (bool_decide_eq_false_2 _ Hi)). }
  destruct (I (o_UseSIG o) (setVMPropertiesOSDiskEncryption (o_DiskEncryptionSetID o)
    (setVMPropertiesOSDiskType (o_LaunchTemplate o) b))) as (i & Ei & Hi).
  set (p0 := setVMPropertiesSecurityProfile _ _).
  assert (C : core p0 = (Some (Some (o_InstanceType o)),
    Some (AKSMachine.map_get KarpCapacityTypeToVMPriority (o_CapacityType o)), Some (Some i), None, None, None, [o_NicReference o])).
  { unfold p0. rewrite core_security, core_billing. unfold core. rewrite Ei.
    pose proof (core_encryption (o_DiskEncryptionSetID o) (setVMPropertiesOSDiskType (o_LaunchTemplate o) b)) as D.
    rewrite core_osDiskType in D. revert D. generalize (setVMPropertiesOSDiskEncryption (o_DiskEncryptionSetID o)
      (setVMPropertiesOSDiskType (o_LaunchTemplate o) b)) as q. intros q D. unfold core, b in D. simpl in D.
    injection D as H1 H2 _ H4 H5 H6 H7.
    unfold setImageReference. destruct (_ || _); simpl; by rewrite H1, H2, H4, H5, H6, H7. }
  clearbody p0. injection C as H1 H2 H3 H4 H5 H6 H7.
  unfold CapacityReservationGroupID, setVMPropertiesCapacityReservation, setVMPropertiesAdditionalCapabilities.
  destruct (bool_decide (GetCapacityReservationGroupID (o_NodeClass o) = "")) eqn:G;
    [apply bool_decide_eq_true in G|]; destruct (o_UltraSSDEnabled o); destruct (lt_fips1403 _); simpl;
    rewrite ?H1, ?H2, ?H3, ?H4, ?H5, ?H6, ?H7, ?G; (do 2 (split; [done|])); (split; [by exists i|]); done.
Qed.

(** A zone label of the location, or the regional one. *)
Definition zone_label (location zone : string) : Prop :=
  zone = Zones.Regional \/
  exists z, Zones.one_byte z = true /\ location <> "" /\ zone = Zones.MakeAKSLabelZoneFromARMZone location z.

Lemma zone_back location zone zones :
  zone_label location zone -> Zones.MakeARMZonesFromAKSLabelZone zone = Some zones ->
  Zones.MakeAKSLabelZoneFromVM (Some (Zones.mk_vm_zone (Some location) (map Some zones))) = Ok zone.
Proof.
  intros [->|(z & Hz & Hl & ->)]; [by intros [= <-]|].
  destruct (Zones.zone_of_label location z Hz Hl) as [-> _]. intros [= <-]. simpl.
  by rewrite bool_decide_eq_false_2.
Qed.

Lemma capacity_type_back c :
  c = CapacityTypeSpot \/ c = CapacityTypeOnDemand ->
  AKSMachine.map_get VMPriorityToKarpCapacityType (AKSMachine.map_get KarpCapacityTypeToVMPriority c) = c.
Proof. intros [-> | ->]; reflexivity. Qed.


End NodeClaims.

(** ** Concrete instances *)

Definition demo_template : Template :=
  mk_template "" "/CommunityGalleries/AKSUbuntu/images/2204gen2/versions/1" false "subnet"
    {[ AKSMachine.NodePoolTagKey := Some "default" ]} "" "" false true "CacheDisk" 128 None.
Definition demo_class : NodeClass :=
  mk_class (Some (mk_sec (Some true) (Some (mk_trusted (Some true) None)))) (Some (Some "crg-1")).
Definition demo_options : createVMOptions :=
  mk_create "aks-default-2jf98" "nic-1" "eastus-2" CapacityTypeSpot None "eastus" "key" "azureuser" ["id-1"]
    demo_class demo_template "Standard_D2s_v3" "aksscriptless" false "" true.


End VirtualMachines.
