(* ===== verification/Network.v ===== *)
(** * Load balancers and security groups ([pkg/providers/loadbalancer],
      [pkg/providers/networksecuritygroup])

    The backend pools a node's network interface joins, served from a cache
    that a failed launch can have refreshed, and the cluster's network
    security group, looked up once.  Every operation holds the provider's
    mutex, so it is one step; it takes the pages the listing would give and
    says whether the API was called.  Elements of the pages are not nil. *)

From S2P Require Import Prelude GoString Regexp GoCache ResourceIDs.
#[local] Open Scope string_scope.
#[local] Open Scope list_scope.
#[local] Open Scope Z_scope.

Module LoadBalancer.

(** [bp_addresses]: the properties and, per address, its properties and IP. *)
Record BackendAddressPool := mk_pool {
  bp_id : option string; bp_name : option string; bp_addresses : option (list (option (option string)))
}.
(** A rule's properties, their pool, its ID. *)
Definition OutboundRule : Type := option (option (option (option string))).
Record Balancer := mk_balancer {
  lb_name : option string; lb_properties : option (list BackendAddressPool * list OutboundRule)
}.

Definition SLBName : string := "kubernetes".
Definition InternalSLBName : string := "kubernetes-internal".
Definition SLBOutboundBackendPoolName : string := "aksOutboundBackendPool".
Definition SLBOutboundBackendPoolNameIPv6 : string := "aksOutboundBackendPool-ipv6".
Definition SLBInboundBackendPoolName : string := "kubernetes".
Definition SLBInboundBackendPoolNameIPv6 : string := "kubernetes-ipv6".
Definition loadBalancersCacheKey : string := "LoadBalancers".
Definition LoadBalancersCacheTTL : Z := 2 * Hour.

Record BackendAddressPools := mk_pools {
  IPv4PoolIDs : list string; IPv6PoolIDs : list string; outboundPoolIDs : list string; generation : Z
}.

Section Provider.
Context `{TTLCache}.
(** [arm.ParseResourceID]: the name of the resource, when the ID parses. *)
Variable ParseResourceName : string -> option string.

Definition isKubernetesInboundBackendPoolID (poolID : string) : bool :=
  match ParseResourceName poolID with
  | None => false
  | Some name => EqualFold name SLBInboundBackendPoolName || EqualFold name SLBInboundBackendPoolNameIPv6
  end.

Definition WithoutKubernetesInboundPools (p : BackendAddressPools) : BackendAddressPools :=
  mk_pools (List.filter (fun i => negb (isKubernetesInboundBackendPoolID i)) (IPv4PoolIDs p))
    (List.filter (fun i => negb (isKubernetesInboundBackendPoolID i)) (IPv6PoolIDs p)) (outboundPoolIDs p) (generation p).

Definition is_outbound (p : BackendAddressPools) (poolID : string) : bool :=
  existsb (EqualFold poolID) (outboundPoolIDs p) ||
  match ParseResourceName poolID with
  | None => false
  | Some name => EqualFold name SLBOutboundBackendPoolName || EqualFold name SLBOutboundBackendPoolNameIPv6
  end.
Definition WithoutOutboundPools (p : BackendAddressPools) : BackendAddressPools :=
  mk_pools (List.filter (fun i => negb (is_outbound p i)) (IPv4PoolIDs p))
    (List.filter (fun i => negb (is_outbound p i)) (IPv6PoolIDs p)) (outboundPoolIDs p) (generation p).

Definition outboundBackendPoolIDs (loadBalancers : list (option Balancer)) : list string :=
  concat (map (fun b => match b with
    | Some b =>
        match lb_properties b with
        | Some (_, rules) =>
            omap (fun r : OutboundRule => match r with
              | Some (Some (Some id)) => if from_ptr "" id ==? "" then None else Some (from_ptr "" id)
              | _ => None
              end) rules
        | None => []
        end
    | None => []
    end) loadBalancers).

Definition isClusterLoadBalancer (lb : Balancer) : bool :=
  let name := from_ptr "" (lb_name lb) in EqualFold name SLBName || EqualFold name InternalSLBName.
Definition extractBackendAddressPools (lb : Balancer) : list BackendAddressPool :=
  match lb_properties lb with None => [] | Some (pools, _) => pools end.
Definition isBackendAddressPoolApplicable (pool : BackendAddressPool) : bool :=
  match bp_addresses pool, bp_name pool with
  | Some addresses, Some name =>
      if EqualFold name SLBOutboundBackendPoolNameIPv6 || EqualFold name SLBInboundBackendPoolNameIPv6 then false
      else forallb (fun a => match a with Some (Some ip) => ip ==? "" | _ => true end) addresses
  | _, _ => false
  end.

Record Provider := mk_provider { lb_cache : tc (list Balancer); lb_generation : Z }.
Definition NewProvider : Provider := mk_provider tc_empty 0.

Definition loadFromAzure (pages : list (result string (list Balancer))) : result string (list Balancer) :=
  match read_pages pages with
  | Err e => Err e
  | Ok lbs => Ok (List.filter isClusterLoadBalancer lbs)
  end.

Definition newPoolsLocked (p : Provider) (lbs : list Balancer) : BackendAddressPools :=
  mk_pools
    (omap (fun pool => if negb (isBackendAddressPoolApplicable pool) then None
                       else if from_ptr "" (bp_id pool) ==? "" then None else Some (from_ptr "" (bp_id pool)))
       (concat (map extractBackendAddressPools lbs)))
    [] (outboundBackendPoolIDs (map Some lbs)) (lb_generation p).

(** The balancers, the provider and whether the API was called. *)
Definition getLoadBalancersLocked (now : Z) (pages : list (result string (list Balancer))) (p : Provider) :
    result string (list Balancer) * Provider * bool :=
  match tc_get now loadBalancersCacheKey (lb_cache p) with
  | Some lbs => (Ok lbs, p, false)
  | None =>
      match loadFromAzure pages with
      | Err e => (Err e, p, true)
      | Ok lbs => (Ok lbs, mk_provider (tc_set now loadBalancersCacheKey lbs LoadBalancersCacheTTL (lb_cache p))
                             (u64 (lb_generation p + 1)), true)
      end
  end.

Definition loadBalancerBackendPoolsLocked (now : Z) (pages : list (result string (list Balancer))) (p : Provider) :
    result string BackendAddressPools * Provider * bool :=
  let '(lbs, p, called) := getLoadBalancersLocked now pages p in
  (match lbs with Err e => Err e | Ok lbs => Ok (newPoolsLocked p lbs) end, p, called).
Definition LoadBalancerBackendPools := loadBalancerBackendPoolsLocked.

Definition RefreshBackendPools (now : Z) (pages : list (result string (list Balancer)))
    (observedPools : BackendAddressPools) (p : Provider) : result string BackendAddressPools * Provider * bool :=
  let p := if generation observedPools =? lb_generation p
           then mk_provider (tc_delete loadBalancersCacheKey (lb_cache p)).1 (lb_generation p) else p in
  loadBalancerBackendPoolsLocked now pages p.

(** ** Refreshing once *)

Context `{!TTLCacheLaws}.

(** Stale backend pools are refreshed once: of the launches that failed
    with the pools of one generation the first calls the API and never gets
    the old pools; those that come within the cache's lifetime after it
    succeeded share its answer, whatever the API would say to them; a failure
    leaves nothing cached and no new generation. *)
Theorem refresh_once now pages observed p r p' called :
  0 <= lb_generation p < 2 ^ 64 -> generation observed = lb_generation p ->
  RefreshBackendPools now pages observed p = (r, p', called) ->
  called = true /\
  match r with
  | Ok pools =>
      generation pools <> generation observed /\
      (exists lbs, loadFromAzure pages = Ok lbs /\ pools = newPoolsLocked p' lbs) /\
      forall now' pages', now <= now' <= now + LoadBalancersCacheTTL ->
        RefreshBackendPools now' pages' observed p' = (Ok pools, p', false) /\
        LoadBalancerBackendPools now' pages' p' = (Ok pools, p', false)
  | Err e =>
      loadFromAzure pages = Err e /\ lb_generation p' = lb_generation p /\
      forall t, tc_get t loadBalancersCacheKey (lb_cache p') = None
  end.
Proof.
  intros G O. unfold RefreshBackendPools. rewrite O, Z.eqb_refl.
  unfold loadBalancerBackendPoolsLocked, getLoadBalancersLocked. cbn [lb_cache lb_generation].
  rewrite tc_get_delete_eq. destruct (loadFromAzure pages) as [lbs|e].
  - intros [= <- <- <-]. split; [done|]. simpl. pose proof (u64_succ_ne _ G) as N. split; [done|].
    split; [by exists lbs|]. intros now' pages' T. unfold LoadBalancerBackendPools, loadBalancerBackendPoolsLocked,
      getLoadBalancersLocked. rewrite (proj2 (Z.eqb_neq _ _)) by (cbn [lb_generation]; congruence). cbn [lb_cache].
    assert (E : tc_get now' loadBalancersCacheKey (tc_set now loadBalancersCacheKey lbs LoadBalancersCacheTTL
      (tc_delete loadBalancersCacheKey (lb_cache p)).1) = Some lbs).
    { rewrite tc_get_set_eq by done. by rewrite decide_True by lia. }
    by rewrite E.
  - intros [= <- <- <-]. split; [done|]. split; [done|]. split; [done|]. intros t. simpl. apply tc_get_delete_eq.
Qed.

(** Which pools a node joins: those of the cluster's balancers, neither IPv6
    nor IP-based. *)
Lemma pools_exact p lbs id :
  id ∈ IPv4PoolIDs (newPoolsLocked p lbs) <->
  exists lb pool, lb ∈ lbs /\ pool ∈ extractBackendAddressPools lb /\ isBackendAddressPoolApplicable pool = true /\
    bp_id pool = Some id /\ id <> "".
Proof.
  unfold newPoolsLocked. cbn [IPv4PoolIDs]. rewrite list_elem_of_omap. setoid_rewrite elem_of_concat.
  setoid_rewrite list_elem_of_fmap. split.
  - intros (pool & (l & Hl & lb & -> & Hlb) & E). exists lb, pool. split; [done|]. split; [done|].
    destruct (isBackendAddressPoolApplicable pool); [|done]. split; [done|]. simpl in E.
    case_bool_decide as N; [done|]. injection E as <-. split; [|done]. by destruct (bp_id pool).
  - intros (lb & pool & Hlb & Hp & A & I & N). exists pool. split; [exists (extractBackendAddressPools lb); eauto|].
    rewrite A, I. simpl. by rewrite bool_decide_eq_false_2.
Qed.

End Provider.

Lemma refresh_once_witness :
  exists pools p, RefreshBackendPools 10 [Ok [mk_balancer (Some "Kubernetes")
    (Some ([mk_pool (Some "/pools/p1") (Some "kubernetes") (Some [])], []))]] (mk_pools ["/pools/p0"] [] [] 0) NewProvider
    = (Ok pools, p, true) /\ generation pools = 1 /\ IPv4PoolIDs pools = ["/pools/p1"] /\
  RefreshBackendPools 20 [Err "throttled"] (mk_pools ["/pools/p0"] [] [] 0) p = (Ok pools, p, false).
Proof.
  pose proof (refresh_once 10 [Ok [mk_balancer (Some "Kubernetes")
    (Some ([mk_pool (Some "/pools/p1") (Some "kubernetes") (Some [])], []))]] (mk_pools ["/pools/p0"] [] [] 0) NewProvider
    _ _ _ ltac:(simpl; lia) eq_refl eq_refl) as [_ R].
  eexists _, _. split; [reflexivity|]. split; [reflexivity|]. split; [by vm_compute|].
  destruct R as (_ & _ & R). apply (R 20 [Err "throttled"]). unfold LoadBalancersCacheTTL, Hour, Minute, Second, Nanosecond. lia.
Defined.

End LoadBalancer.

Module SecurityGroup.

Record NSG := mk_nsg { nsg_id : option string; nsg_name : option string }.
(** The provider: the group found earlier. *)
Record Provider := mk_provider { found : option NSG }.

Definition isClusterNSG (nsg : NSG) : bool :=
  bool_decide (is_Some (Regexp.find_submatch true true ResourceIDs.managedNSGRegex (from_ptr "" (nsg_name nsg)))).
Definition loadFromAzure (pages : list (result string (list NSG))) : result string (list NSG) := read_pages pages.

Inductive nsg_error := ErrNoNSG | ErrMultipleNSGs (names : string) | ErrListing (e : string).

Definition ManagedNetworkSecurityGroup (pages : list (result string (list NSG))) (p : Provider) :
    result nsg_error NSG * Provider :=
  match found p with
  | Some nsg => (Ok nsg, p)
  | None =>
      match loadFromAzure pages with
      | Err e => (Err (ErrListing e), p)
      | Ok nsgs =>
          match List.filter isClusterNSG nsgs with
          | [] => (Err ErrNoNSG, p)
          | [nsg] => (Ok nsg, mk_provider (Some nsg))
          | managed => (Err (ErrMultipleNSGs (GoString.Join (map (fun n => from_ptr "" (nsg_name n)) managed) ",")), p)
          end
      end
  end.

(** The group is the only one of the listing with a managed name, and is
    answered from then on without a listing. *)
Lemma managed_nsg_unique pages nsg p :
  ManagedNetworkSecurityGroup pages (mk_provider None) = (Ok nsg, p) ->
  (exists nsgs, loadFromAzure pages = Ok nsgs /\ nsg ∈ nsgs /\ isClusterNSG nsg = true /\
     forall n, n ∈ nsgs -> isClusterNSG n = true -> n = nsg) /\
  forall pages', ManagedNetworkSecurityGroup pages' p = (Ok nsg, p).
Proof.
  unfold ManagedNetworkSecurityGroup at 1. cbn [found]. destruct (loadFromAzure pages) as [nsgs|e]; [|done].
  destruct (List.filter isClusterNSG nsgs) as [|x [|y l]] eqn:F; try done. intros [= <- <-]. split; [|done].
  assert (I : forall n, n ∈ nsgs /\ isClusterNSG n = true <-> n = x).
  { intros n. rewrite list_elem_of_In, <- filter_In, F. simpl. naive_solver. }
  exists nsgs. split; [done|]. split; [by apply I|]. split; [by apply I|]. intros n Hn Hc. by apply I.
Qed.

End SecurityGroup.
