(* ===== verification/Poller.v ===== *)
(** * The machine poller ([pkg/providers/instance/aksmachinepoller])

    [PollUntilDone] reads a machine at every tick until it settles.  A run is
    the sequence of what the [select] statements observe: a tick with the
    answer of its GET and whether the context ended during the back-off it may
    cause, or the end of the context.  Durations are [int64]. *)

From S2P Require Import Prelude GoString AKSMachine.
#[local] Open Scope string_scope.
#[local] Open Scope list_scope.
#[local] Open Scope Z_scope.

Module Poller.
Import AKSMachine.

Record Options := mk_options {
  PollInterval : Z;
  RetryDelay : Z;
  MaxRetryDelay : Z;
  MaxRetries : Z
}.

Definition DefaultOptions : Options := mk_options (5 * Second) (1 * Second) (30 * Second) 10.
Definition Millisecond : Z := 1000000 * Nanosecond.
Definition InstantOptions : Options :=
  mk_options (1 * Millisecond) (1 * Millisecond) (1 * Millisecond) 3.

Inductive poll_error :=
| ErrContextPolling
| ErrContextGet
| ErrNonRetryable (e : CallError)
| ErrGetExhausted (e : CallError)
| ErrNilStateExhausted
| ErrState (e : state_error)
| ErrBackoff.

Inductive event :=
| CtxDone
| Tick (answer : result CallError Machine) (interrupted : bool).

(** The attempts left and the current delay. *)
Record retry := mk_retry { retryAttemptsLeft : Z; currentRetryDelay : Z }.

Definition resetRetryState (cfg : Options) : retry := mk_retry (MaxRetries cfg) (RetryDelay cfg).

(** [isTransientError] of an error that is not nil. *)
Definition isTransientError (e : CallError) : bool :=
  match ce_response e with
  | Some r =>
      (re_status r =? 408) || (re_status r =? 429) || (re_status r =? 500) ||
      (re_status r =? 502) || (re_status r =? 503) || (re_status r =? 504)
  | None => true
  end.

Definition retryWithBackoff (cfg : Options) (interrupted : bool) (r : retry) :
    bool * option poll_error * retry :=
  if retryAttemptsLeft r <=? 0 then (false, None, r)
  else if interrupted
  then (false, Some ErrBackoff, mk_retry (retryAttemptsLeft r - 1) (currentRetryDelay r))
  else (true, None,
        mk_retry (retryAttemptsLeft r - 1)
          (Z.min (i64 (currentRetryDelay r * 2)) (MaxRetryDelay cfg))).

(** Provisioning error, poller error, done. *)
Definition verdict : Type := option ErrorDetail * option poll_error * bool.

(** What the three users of [retryWithBackoff] do with it; [exhausted] is
    returned when no attempt is left. *)
Definition after_backoff (cfg : Options) (interrupted : bool) (exhausted : verdict) (r : retry) :
    verdict * retry :=
  match retryWithBackoff cfg interrupted r with
  | (_, Some e, r') => (None, Some e, true, r')
  | (true, None, r') => (None, None, false, r')
  | (false, None, r') => (exhausted, r')
  end.

Definition handleGetError (cfg : Options) (e : CallError) (interrupted : bool) (r : retry) :
    verdict * retry :=
  if ce_context e then (None, Some ErrContextGet, true, r)
  else if negb (isTransientError e) then (None, Some (ErrNonRetryable e), true, r)
  else after_backoff cfg interrupted (None, Some (ErrGetExhausted e), true) r.

Definition handleNilProvisioningState (cfg : Options) (interrupted : bool) (r : retry) :
    verdict * retry :=
  after_backoff cfg interrupted (None, Some ErrNilStateExhausted, true) r.

Definition pollOnce (cfg : Options) (answer : result CallError Machine) (interrupted : bool)
    (r : retry) : verdict * retry :=
  match answer with
  | Err e => handleGetError cfg e interrupted r
  | Ok m =>
      match ma_properties m with
      | None => handleNilProvisioningState cfg interrupted r
      | Some p =>
          match pr_state p with
          | None => handleNilProvisioningState cfg interrupted r
          | Some _ =>
              let '(errDetails, stateErr, done) := HandleProvisioningState p in
              let pollerErr := ErrState <$> stateErr in
              if done then (errDetails, pollerErr, true, r)
              else if bool_decide (errDetails = None) && bool_decide (stateErr = None)
              then (None, None, false, resetRetryState cfg)
              else after_backoff cfg interrupted (errDetails, pollerErr, true) r
          end
      end
  end.

(** The loop: its result, or [None] when it is still polling after the events. *)
Fixpoint run (cfg : Options) (events : list event) (r : retry) :
    option (option ErrorDetail * option poll_error) * retry :=
  match events with
  | [] => (None, r)
  | CtxDone :: _ => (Some (None, Some ErrContextPolling), r)
  | Tick answer interrupted :: rest =>
      let '(d, e, done, r') := pollOnce cfg answer interrupted r in
      if done then (Some (d, e), r') else run cfg rest r'
  end.

Definition PollUntilDone (cfg : Options) (events : list event) :
    option (option ErrorDetail * option poll_error) :=
  (run cfg events (resetRetryState cfg)).1.

(** ** Laws *)

(** The machine is seen in state [s]. *)
Definition sees (s : string) (a : result CallError Machine) (p : Properties) : Prop :=
  exists m, a = Ok m /\ ma_properties m = Some p /\ pr_state p = Some s.

(** An answer that is neither final nor healthy: a transient error, no state,
    or an unknown one. *)
Definition unsettled (a : result CallError Machine) : bool :=
  match a with
  | Err e => negb (ce_context e) && isTransientError e
  | Ok m =>
      match ma_properties m with
      | Some p =>
          match pr_state p with
          | Some s => negb (bool_decide (s ∈ [ProvisioningStateCreating; ProvisioningStateUpdating;
                        ProvisioningStateDeleting; ProvisioningStateSucceeded; ProvisioningStateFailed]))
          | None => true
          end
      | None => true
      end
  end.

Lemma after_backoff_verdict cfg i x r d e done r' :
  after_backoff cfg i x r = (d, e, done, r') -> x.2 = true ->
  (done = true -> e = Some ErrBackoff /\ d = None \/ (d, e, done) = x).
Proof. unfold after_backoff, retryWithBackoff. destruct x as [[xd xe] xb]. repeat case_match; naive_solver. Qed.

Lemma state_in s p :
  pr_state p = Some s ->
  HandleProvisioningState p =
    if bool_decide (s = ProvisioningStateCreating) || bool_decide (s = ProvisioningStateUpdating) then (None, None, false)
    else if bool_decide (s = ProvisioningStateDeleting) then (None, Some (ErrCanceledState s), true)
    else if bool_decide (s = ProvisioningStateSucceeded) then (None, None, true)
    else if bool_decide (s = ProvisioningStateFailed) then
      match pr_status p with
      | Some st => match st_provisioningError st with
                   | Some e => (Some e, None, true)
                   | None => (None, Some (ErrFatalState s), true)
                   end
      | None => (None, Some (ErrFatalState s), true)
      end
    else (None, Some (ErrUnrecognizedState s), false).
Proof. intros E. unfold HandleProvisioningState. by rewrite E. Qed.

(** A poll that ends the loop without a poller error saw a final state. *)
Lemma pollOnce_final cfg a i r d r' :
  pollOnce cfg a i r = (d, None, true, r') ->
  exists p, match d with
            | None => sees ProvisioningStateSucceeded a p
            | Some x => sees ProvisioningStateFailed a p /\
                        exists st, pr_status p = Some st /\ st_provisioningError st = Some x
            end.
Proof.
  unfold pollOnce. destruct a as [m|e]; last first.
  { unfold handleGetError, after_backoff, retryWithBackoff. repeat case_match; naive_solver. }
  destruct (ma_properties m) as [p|] eqn:P;
    [|unfold handleNilProvisioningState, after_backoff, retryWithBackoff; repeat case_match; naive_solver].
  destruct (pr_state p) as [s|] eqn:S;
    [|unfold handleNilProvisioningState, after_backoff, retryWithBackoff; repeat case_match; naive_solver].
  rewrite (state_in s p S).
  destruct (bool_decide (s = ProvisioningStateCreating) || bool_decide (s = ProvisioningStateUpdating)); [done|].
  destruct (bool_decide (s = ProvisioningStateDeleting)); [done|].
  destruct (bool_decide (s = ProvisioningStateSucceeded)) eqn:B1.
  { apply bool_decide_eq_true in B1 as ->. intros [= <- <-]. exists p, m. done. }
  destruct (bool_decide (s = ProvisioningStateFailed)) eqn:B2.
  { apply bool_decide_eq_true in B2 as ->. destruct (pr_status p) as [st|] eqn:St; [|done].
    destruct (st_provisioningError st) as [x|] eqn:X; [|done]. intros [= <- <-].
    exists p. split; [by exists m|]. by exists st. }
  unfold after_backoff, retryWithBackoff. simpl. repeat case_match; naive_solver.
Qed.

(** The poller reports what the machine said: it returns success only after
    a GET in which the machine was "Succeeded", and a provisioning error only
    when it is the error carried by a machine seen "Failed"; it never returns
    both kinds of error. *)
Theorem poll_reports_machine cfg events d e :
  PollUntilDone cfg events = Some (d, e) ->
  (d <> None -> e = None) /\
  (e = None -> exists a i p, Tick a i ∈ events /\
     match d with
     | None => sees ProvisioningStateSucceeded a p
     | Some x => sees ProvisioningStateFailed a p /\
                 exists st, pr_status p = Some st /\ st_provisioningError st = Some x
     end).
Proof.
  unfold PollUntilDone. generalize (resetRetryState cfg). induction events as [|ev events IH]; intros r E; [done|].
  destruct ev as [|a i]; simpl in E; [by simplify_eq|].
  destruct (pollOnce cfg a i r) as [[[d' e'] done] r'] eqn:Po. destruct done.
  - simpl in E. injection E as -> ->. split.
    + intros Nd. destruct e as [e|]; [|done]. exfalso. apply Nd. revert Po. clear.
      unfold pollOnce, handleGetError, handleNilProvisioningState, after_backoff, retryWithBackoff,
        HandleProvisioningState. repeat case_match; simplify_eq/=; naive_solver.
    + intros ->. destruct (pollOnce_final _ _ _ _ _ _ Po) as [p Hp]. exists a, i, p. split; [left|done].
  - destruct (IH r' E) as [H1 H2]. split; [done|]. intros He. destruct (H2 He) as (a' & i' & p & Hin & Hp).
    exists a', i', p. split; [by right|done].
Qed.

(** One unsettled answer uses one attempt. *)
Lemma pollOnce_unsettled cfg a i r :
  unsettled a = true ->
  exists d e, pollOnce cfg a i r = after_backoff cfg i (d, Some e, true) r.
Proof.
  unfold unsettled, pollOnce. destruct a as [m|e].
  - destruct (ma_properties m) as [p|]; [|by exists None, ErrNilStateExhausted].
    destruct (pr_state p) as [s|] eqn:S; [|by exists None, ErrNilStateExhausted].
    rewrite (state_in s p S). intros N%negb_true_iff%bool_decide_eq_false.
    rewrite !(bool_decide_eq_false_2 (s = _)) by (intros ->; apply N; set_solver). simpl.
    by exists None, (ErrState (ErrUnrecognizedState s)).
  - intros [H1 H2]%andb_true_iff. apply negb_true_iff in H1.
    unfold handleGetError. rewrite H1, H2. simpl. by exists None, (ErrGetExhausted e).
Qed.

(** The delay after [k] retries in a row. *)
Definition backoff (cfg : Options) (k : nat) : Z :=
  match k with
  | O => RetryDelay cfg
  | _ => Z.min (RetryDelay cfg * 2 ^ Z.of_nat k) (MaxRetryDelay cfg)
  end.

Lemma backoff_step cfg k :
  0 <= RetryDelay cfg < 2 ^ 61 -> 0 <= MaxRetryDelay cfg < 2 ^ 61 ->
  Z.min (i64 (backoff cfg k * 2)) (MaxRetryDelay cfg) = backoff cfg (S k).
Proof.
  intros HR HM. rewrite i64_id.
  - destruct k as [|k]; cbn [backoff]; [lia|].
    rewrite (Nat2Z.inj_succ (S k)), Z.pow_succ_r by lia.
    assert (0 <= RetryDelay cfg * 2 ^ Z.of_nat (S k)) by (apply Z.mul_nonneg_nonneg; lia). lia.
  - unfold int64_ok. destruct k as [|k]; cbn [backoff]; [lia|].
    assert (0 <= RetryDelay cfg * 2 ^ Z.of_nat (S k)) by (apply Z.mul_nonneg_nonneg; lia). lia.
Qed.

Lemma run_unsettled cfg bad k :
  0 <= RetryDelay cfg < 2 ^ 61 -> 0 <= MaxRetryDelay cfg < 2 ^ 61 ->
  Forall (fun a => unsettled a = true) bad -> (Z.of_nat k + Z.of_nat (length bad)) <= MaxRetries cfg ->
  run cfg (map (fun a => Tick a false) bad) (mk_retry (MaxRetries cfg - Z.of_nat k) (backoff cfg k)) =
  (None, mk_retry (MaxRetries cfg - Z.of_nat (k + length bad)) (backoff cfg (k + length bad))).
Proof.
  intros HR HM F. revert k. induction F as [|a bad U F IH]; intros k L.
  - simpl. by rewrite Nat.add_0_r.
  - cbn [map run]. destruct (pollOnce_unsettled cfg a false (mk_retry (MaxRetries cfg - Z.of_nat k) (backoff cfg k)) U)
      as (d & e & ->).
    unfold after_backoff, retryWithBackoff. cbn [retryAttemptsLeft currentRetryDelay].
    cbn [length] in L. destruct (Z.leb_spec (MaxRetries cfg - Z.of_nat k) 0); [lia|].
    rewrite backoff_step by done.
    replace (MaxRetries cfg - Z.of_nat k - 1) with (MaxRetries cfg - Z.of_nat (S k)) by lia.
    rewrite IH by lia. cbn [length]. by rewrite Nat.add_succ_r.
Qed.

Lemma run_app cfg l1 l2 r :
  run cfg (l1 ++ l2) r =
  match run cfg l1 r with (None, r') => run cfg l2 r' | x => x end.
Proof.
  revert r. induction l1 as [|[|a i] l1 IH]; intros r; [done|done|]. cbn [app run].
  destruct (pollOnce cfg a i r) as [[[d e] []] r']; [done|apply IH].
Qed.

(** C31. The retry budget and the back-off: after healthy polling, exactly
    [MaxRetries] unsettled answers in a row are tolerated, the delay before
    the next try doubling each time up to [MaxRetryDelay]; one more ends the
    polling with an error. *)
Theorem poll_retry_budget cfg bad last :
  0 <= RetryDelay cfg < 2 ^ 61 -> 0 <= MaxRetryDelay cfg < 2 ^ 61 -> 0 <= MaxRetries cfg ->
  Forall (fun a => unsettled a = true) bad -> unsettled last = true ->
  let k := length bad in
  (Z.of_nat k <= MaxRetries cfg ->
     run cfg (map (fun a => Tick a false) bad) (resetRetryState cfg) =
       (None, mk_retry (MaxRetries cfg - Z.of_nat k) (backoff cfg k))) /\
  (Z.of_nat k = MaxRetries cfg ->
     exists d e, PollUntilDone cfg (map (fun a => Tick a false) (bad ++ [last])) = Some (d, Some e)).
Proof.
  intros HR HM HN F U k. pose proof (run_unsettled cfg bad 0 HR HM F) as R.
  cbn [backoff Nat.add] in R. rewrite Z.sub_0_r in R. change (mk_retry _ _) with (resetRetryState cfg) in R at 1.
  split; [intros L; apply R; simpl; lia|].
  intros L. unfold PollUntilDone. rewrite map_app, run_app, R by (simpl; lia). simpl.
  destruct (pollOnce_unsettled cfg last false (mk_retry (MaxRetries cfg - Z.of_nat k) (backoff cfg k)) U)
    as (d & e & E). unfold k in E. rewrite E. unfold after_backoff, retryWithBackoff. cbn [retryAttemptsLeft].
  destruct (Z.leb_spec (MaxRetries cfg - Z.of_nat (length bad)) 0); [|lia]. simpl. by exists d, e.
Qed.

Definition demo_throttled : result CallError Machine :=
  Err (mk_call_error false (Some (mk_resp 429 "TooManyRequests" ""))).

Lemma poll_reports_machine_witness :
  exists a i p, Tick a i ∈ [Tick demo_throttled false; Tick (Ok demo_machine) false] /\
    sees ProvisioningStateSucceeded a p.
Proof.
  apply (poll_reports_machine DefaultOptions [Tick demo_throttled false; Tick (Ok demo_machine) false]
    None None); reflexivity.
Defined.

Lemma poll_retry_budget_witness :
  run DefaultOptions (map (fun a => Tick a false) (replicate 7 demo_throttled)) (resetRetryState DefaultOptions)
    = (None, mk_retry 3 (30 * Second)) /\
  exists d e, PollUntilDone DefaultOptions
    (map (fun a => Tick a false) (replicate 10 demo_throttled ++ [demo_throttled])) = Some (d, Some e).
Proof.
  split.
  - apply (poll_retry_budget DefaultOptions (replicate 7 demo_throttled) demo_throttled);
      try (vm_compute; split; congruence); try (vm_compute; congruence); repeat constructor.
  - apply (poll_retry_budget DefaultOptions (replicate 10 demo_throttled) demo_throttled);
      try (vm_compute; split; congruence); try (vm_compute; congruence); repeat constructor.
Defined.

End Poller.
