(* ===== verification/MachineCache.v ===== *)
(** * The machine cache ([pkg/providers/instance/machinecache])

    A cache of the machines of a pool, refreshed by one background worker and
    bypassed when it is stale or misses.  Reads, writes under the lock and the
    atomic time stamp are separate steps, because the worker publishes the
    list and the time stamp one after the other and because a GET is answered
    before its machine is stored.  [lastUpdated] is the number of nanoseconds
    since the Unix epoch, 0 for never. *)

From S2P Require Import Prelude GoString AKSMachine.
#[local] Open Scope string_scope.
#[local] Open Scope list_scope.
#[local] Open Scope Z_scope.

Module MachineCache.
Import AKSMachine.

Record opts := mk_opts { ttl : Z; pollInterval : Z; pollTimeout : Z }.
Definition defaultOpts : opts := mk_opts (30 * Second) (5 * Second) (15 * Minute).
Definition WithTTL (d : Z) (o : opts) : opts := mk_opts d (pollInterval o) (pollTimeout o).
Definition WithPollInterval (d : Z) (o : opts) : opts := mk_opts (ttl o) d (pollTimeout o).
Definition WithPollTimeout (d : Z) (o : opts) : opts := mk_opts (ttl o) (pollInterval o) d.

(** [requested] is the buffered update request. *)
Record Cache := mk_cache {
  machines : gmap string Machine;
  lastUpdated : Z;
  requested : bool
}.
Definition New : Cache := mk_cache ∅ 0 false.
Definition set_machines (ms : gmap string Machine) (c : Cache) : Cache :=
  mk_cache ms (lastUpdated c) (requested c).

Definition isFresh (o : opts) (now : Z) (c : Cache) : bool :=
  if lastUpdated c =? 0 then false else now - lastUpdated c <? ttl o.

Definition requestUpdate (c : Cache) : Cache := mk_cache (machines c) (lastUpdated c) true.

Definition isValid (p : option Properties) : bool :=
  match p with
  | Some p => match pr_tags p with
              | Some tags => bool_decide (is_Some (tags !! NodePoolTagKey))
              | None => false
              end
  | None => false
  end.

Definition set_priority (v : string) (p : Properties) : Properties :=
  mk_properties (pr_state p) (pr_status p) (pr_tags p) (Some v) (pr_resourceID p) (pr_eTag p)
    (pr_hardware p) (pr_nodeImageVersion p) (pr_crg p) (pr_other p).

Definition rehydrateMachine (m : Machine) : Machine :=
  match ma_properties m with
  | Some p =>
      match pr_priority p with
      | None => mk_machine (ma_id m) (ma_name m) (ma_zones m) (Some (set_priority ScaleSetPriorityRegular p))
      | Some _ => m
      end
  | None => m
  end.

(** Machine (when found), and whether the cache is fresh. *)
Definition getFromCache (o : opts) (now : Z) (name : string) (c : Cache) :
    option Machine * bool * Cache :=
  if negb (isFresh o now c) then (None, false, requestUpdate c)
  else (machines c !! name, true, c).

(** A machine just read from the API is stored. *)
Definition store (name : string) (m : Machine) (c : Cache) : Cache :=
  set_machines (<[name := rehydrateMachine m]> (machines c)) c.

(** [GetWithFallback] when nothing else runs in between; [api] is the answer
    of the GET it may make.  A hit rehydrates the shared machine in place. *)
Definition GetWithFallback (o : opts) (now : Z) (name : string) (useCache : bool)
    (api : result CallError Machine) (c : Cache) : result CallError Machine * Cache :=
  let '(hit, c) :=
    if useCache then
      match getFromCache o now name c with
      | (Some m, true, c) => (Some m, c)
      | (_, _, c) => (None, c)
      end
    else (None, c) in
  match hit with
  | Some m => (Ok (rehydrateMachine m), set_machines (<[name := rehydrateMachine m]> (machines c)) c)
  | None =>
      match api with
      | Err e => (Err e, c)
      | Ok m => (Ok (rehydrateMachine m), store name m c)
      end
  end.

(** The pages of a list call: an error that says the pool is missing ends the
    listing without failing it. *)
Fixpoint list_pages (pages : list (result CallError (list Machine))) : result CallError (list Machine) :=
  match pages with
  | [] => Ok []
  | Err e :: _ => if IsAKSMachineOrMachinesPoolNotFound (Some e) then Ok [] else Err e
  | Ok p :: rest => match list_pages rest with Ok l => Ok (p ++ l) | Err e => Err e end
  end.

Section Listing.
Context `{GoRange}.

Definition listFromCache (o : opts) (now : Z) (c : Cache) : option (list Machine) * Cache :=
  if negb (isFresh o now c) then (None, requestUpdate c)
  else
    let valid := filter (fun m => Is_true (isValid (ma_properties m)))
      (omap (fun k => machines c !! k) (range_keys (dom (machines c)))) in
    (Some (map rehydrateMachine valid),
     set_machines (fmap (fun m => if isValid (ma_properties m) then rehydrateMachine m else m) (machines c)) c).

(** [pages] is [None] when the created pager is nil. *)
Definition ListWithFallback (o : opts) (now : Z) (useCache : bool)
    (pages : option (list (result CallError (list Machine)))) (c : Cache) :
    option (result CallError (list Machine)) * Cache :=
  let '(cached, c) := if useCache then listFromCache o now c else (None, c) in
  match cached with
  | Some ms => (Some (Ok ms), c)
  | None =>
      match pages with
      | None => (None, c)
      | Some ps =>
          (Some (match list_pages ps with
                 | Ok ms => Ok (map rehydrateMachine
                     (filter (fun m => Is_true (isValid (ma_properties m))) ms))
                 | Err e => Err e
                 end), c)
      end
  end.

End Listing.

Definition Invalidate (name : string) (c : Cache) : Cache := set_machines (delete name (machines c)) c.
Definition InvalidateAll (c : Cache) : Cache := mk_cache ∅ 0 (requested c).

(** ** The worker *)

Definition by_name (ms : list Machine) : gmap string Machine :=
  foldl (fun acc m => <[from_ptr "" (ma_name m) := m]> acc) ∅ ms.

(** The two writes of [update], after its list call. *)
Definition publish_machines (ms : list Machine) (c : Cache) : Cache := set_machines (by_name ms) c.
Definition publish_time (now : Z) (c : Cache) : Cache := mk_cache (machines c) now (requested c).

(** [update] when nothing else runs in between. *)
Definition update (o : opts) (now now' : Z) (pages : option (list (result CallError (list Machine))))
    (c : Cache) : Cache * bool :=
  if isFresh o now c then (c, true)
  else
    match pages with
    | None => (c, false)
    | Some ps =>
        match list_pages ps with
        | Err _ => (c, false)
        | Ok ms => (publish_time now' (publish_machines ms c), true)
        end
    end.

(** ** Polling *)

Inductive poll_error :=
| ErrNotExist | ErrContext | ErrTimeout | ErrNotInCache | ErrState (e : state_error).

Definition pollOnce (o : opts) (now : Z) (name : string) (api : result CallError Machine) (c : Cache) :
    option ErrorDetail * option poll_error * bool * Cache :=
  match getFromCache o now name c with
  | (_, false, c) => (None, None, false, c)
  | (None, true, c) =>
      match GetWithFallback o now name true api c with
      | (Ok _, c) => (None, None, false, c)
      | (Err _, c) => (None, Some ErrNotInCache, true, c)
      end
  | (Some m, true, c) =>
      match ma_properties m with
      | None => (None, None, false, c)
      | Some p =>
          match pr_state p with
          | None => (None, None, false, c)
          | Some _ =>
              let '(d, e, done) := HandleProvisioningState p in (d, ErrState <$> e, done, c)
          end
      end
  end.

(** What the poller's loop observes: a tick (with the answer of the GET it may
    make), other goroutines changing the cache, the timeout, the context. *)
Inductive event :=
| Tick (now : Z) (api : result CallError Machine)
| Others (c : Cache)
| Timeout
| CtxDone.

Fixpoint poll_loop (o : opts) (name : string) (events : list event) (c : Cache) :
    option (option ErrorDetail * option poll_error) :=
  match events with
  | [] => None
  | CtxDone :: _ => Some (None, Some ErrContext)
  | Timeout :: _ => Some (None, Some ErrTimeout)
  | Others c' :: rest => poll_loop o name rest c'
  | Tick now api :: rest =>
      let '(d, e, done, c') := pollOnce o now name api c in
      if done then Some (d, e) else poll_loop o name rest c'
  end.

Definition checkMachineExists (o : opts) (now : Z) (name : string) (api : result CallError Machine)
    (c : Cache) : bool * Cache :=
  let '(r, c') := GetWithFallback o now name true api c in (is_ok r, c').

Definition PollUntilDone (o : opts) (now : Z) (name : string) (api : result CallError Machine)
    (events : list event) (c : Cache) : option (option ErrorDetail * option poll_error) :=
  let '(exists_, c) := checkMachineExists o now name api c in
  if exists_ then poll_loop o name events c else Some (None, Some ErrNotExist).

(** ** Single operations *)

Definition priority_known (m : Machine) : Prop :=
  forall p, ma_properties m = Some p -> is_Some (pr_priority p).

Lemma rehydrate_priority m : priority_known (rehydrateMachine m).
Proof.
  intros p. unfold rehydrateMachine. destruct (ma_properties m) as [q|] eqn:E; [|congruence].
  destruct (pr_priority q) eqn:Q; [intros; simplify_eq; by eexists|]. simpl. intros [= <-]. by eexists.
Qed.

(** Reading one machine: an error is the API's own error; a machine is
    the API's answer, or the cached one if the cache is fresh and may be used;
    its priority is filled in and it is what the cache holds afterwards; a
    machine that was invalidated is read from the API. *)
Theorem get_with_fallback o now name useCache api c r c' :
  GetWithFallback o now name useCache api c = (r, c') ->
  (forall e, r = Err e -> api = Err e /\ machines c' = machines c) /\
  (forall m, r = Ok m -> priority_known m /\ machines c' !! name = Some m /\
     exists m0, m = rehydrateMachine m0 /\
       (api = Ok m0 \/ (useCache = true /\ isFresh o now c = true /\ machines c !! name = Some m0))) /\
  (GetWithFallback o now name useCache api (Invalidate name c)).1 =
    match api with Ok m => Ok (rehydrateMachine m) | Err e => Err e end.
Proof.
  intros E. split; [|split].
  - intros e ->. revert E. unfold GetWithFallback, getFromCache.
    destruct useCache, (isFresh o now c); cbn; try destruct (machines c !! name);
      destruct api; intros E; simplify_eq; done.
  - intros m ->. revert E. unfold GetWithFallback, getFromCache.
    destruct useCache, (isFresh o now c) eqn:F; cbn; try destruct (machines c !! name) as [m0|] eqn:M;
      destruct api as [m1|e]; intros E; simplify_eq;
      (split; [apply rehydrate_priority|split; [apply lookup_insert_eq|]]);
      first [by exists m0; split; [done|right]|by exists m1; split; [done|left]].
  - clear E. unfold GetWithFallback, getFromCache.
    destruct useCache; [|by destruct api]. destruct (isFresh o now (Invalidate name c)); cbn;
      rewrite ?lookup_delete_eq; by destruct api.
Qed.

(** ** How old a cached machine can be *)

Inductive worker := Idle | Listing (started : Z) | Published (started : Z).

(** [read_at] records when the API gave each entry: for a listed machine, when
    the list call started. *)
Record system := mk_system {
  clock : Z;
  cache : Cache;
  read_at : gmap string Z;
  work : worker
}.

Section Steps.
Context (o : opts).
(** No call of the API takes longer than [D]. *)
Context (D : Z).

Inductive step : system -> system -> Prop :=
| step_clock t' t c ra w :
    t <= t' -> step (mk_system t c ra w) (mk_system t' c ra w)
| step_hit name m t c ra w :
    machines c !! name = Some m ->
    step (mk_system t c ra w)
      (mk_system t (set_machines (<[name := rehydrateMachine m]> (machines c)) c) ra w)
| step_request t c ra w : step (mk_system t c ra w) (mk_system t (requestUpdate c) ra w)
| step_store name m r t c ra w :
    r <= t -> t - r <= D ->
    step (mk_system t c ra w) (mk_system t (store name m c) (<[name := r]> ra) w)
| step_invalidate name t c ra w :
    step (mk_system t c ra w) (mk_system t (Invalidate name c) ra w)
| step_invalidate_all t c ra w :
    step (mk_system t c ra w) (mk_system t (InvalidateAll c) ra w)
| step_update_begin t c ra :
    requested c = true -> isFresh o t c = false ->
    step (mk_system t c ra Idle) (mk_system t (mk_cache (machines c) (lastUpdated c) false) ra (Listing t))
| step_update_skip t c ra :
    requested c = true -> isFresh o t c = true ->
    step (mk_system t c ra Idle) (mk_system t (mk_cache (machines c) (lastUpdated c) false) ra Idle)
| step_update_fail s t c ra :
    step (mk_system t c ra (Listing s)) (mk_system t c ra Idle)
| step_publish_machines ms s t c ra :
    step (mk_system t c ra (Listing s))
      (mk_system t (publish_machines ms c) (fmap (fun _ => s) (by_name ms)) (Published s))
| step_publish_time s t c ra :
    t - s <= D -> step (mk_system t c ra (Published s)) (mk_system t (publish_time t c) ra Idle).

Inductive reachable : system -> Prop :=
| reach_init t : 0 < t -> reachable (mk_system t New ∅ Idle)
| reach_step s s' : reachable s -> step s s' -> reachable s'.

(** Every entry was read at [b] or later. *)
Definition read_since (b : Z) (s : system) : Prop :=
  forall name m, machines (cache s) !! name = Some m ->
    exists r, read_at s !! name = Some r /\ b <= r <= clock s.

Record invariant (s : system) : Prop := {
  inv_clock : 0 < clock s /\ lastUpdated (cache s) <= clock s;
  inv_known : lastUpdated (cache s) <> 0 -> read_since (lastUpdated (cache s) - 2 * D) s;
  inv_work : match work s with
             | Idle => True
             | Listing b => 0 <= b <= clock s /\ lastUpdated (cache s) <= b
             | Published b => 0 <= b <= clock s /\ lastUpdated (cache s) <= b /\ read_since (b - D) s
             end
}.

(** The steps that touch the entries. *)
Lemma read_since_clock b t t' c ra w :
  t <= t' -> read_since b (mk_system t c ra w) -> read_since b (mk_system t' c ra w).
Proof. intros L R n m Hm. destruct (R n m Hm) as (r & Hr & ?). exists r. simpl in *. split; [done|lia]. Qed.

Lemma read_since_work b t c ra w w' :
  read_since b (mk_system t c ra w) -> read_since b (mk_system t c ra w').
Proof. done. Qed.

Lemma read_since_hit b t c ra w name m :
  machines c !! name = Some m -> read_since b (mk_system t c ra w) ->
  read_since b (mk_system t (set_machines (<[name := rehydrateMachine m]> (machines c)) c) ra w).
Proof.
  intros Hm R n x. simpl. destruct (decide (name = n)) as [->|N].
  - intros _. apply (R n m Hm).
  - rewrite lookup_insert_ne by done. apply R.
Qed.

Lemma read_since_store b t c ra w name m r :
  b <= r <= t -> read_since b (mk_system t c ra w) ->
  read_since b (mk_system t (store name m c) (<[name := r]> ra) w).
Proof.
  intros Hr R n x. simpl. destruct (decide (name = n)) as [->|N].
  - rewrite !lookup_insert_eq. intros _. by exists r.
  - rewrite !lookup_insert_ne by done. apply R.
Qed.

Lemma read_since_delete b t c ra w name :
  read_since b (mk_system t c ra w) -> read_since b (mk_system t (Invalidate name c) ra w).
Proof. intros R n x Hx. simpl in Hx. apply lookup_delete_Some in Hx as [_ Hx]. by apply (R n x). Qed.

Lemma read_since_empty b s : machines (cache s) = ∅ -> read_since b s.
Proof. intros E n m. by rewrite E, lookup_empty. Qed.

Lemma read_since_published b t c ms w :
  b <= t -> read_since b (mk_system t (publish_machines ms c) (fmap (fun _ => b) (by_name ms)) w).
Proof. intros L n m Hm. exists b. simpl in *. rewrite lookup_fmap, Hm. split; [done|lia]. Qed.

Lemma read_since_le b b' s : b' <= b -> read_since b s -> read_since b' s.
Proof. intros L R n m Hm. destruct (R n m Hm) as (r & Hr & ?). exists r. split; [done|lia]. Qed.

Lemma cache_step_invariant s s' : 0 <= D -> invariant s -> step s s' -> invariant s'.
Proof.
  intros HD [[C1 C2] K W] St. destruct St; simpl in *; (split; simpl; [| |]);
    try done; try lia; try (destruct w; simpl; intuition lia).
  - intros N. eapply read_since_clock; [done|auto].
  - destruct w; [done|lia|]. destruct W as (? & ? & R). split; [lia|]. split; [done|].
    by eapply read_since_clock.
  - intros N. apply read_since_hit; auto.
  - destruct w; try done. destruct W as (? & ? & R). split; [done|]. split; [done|]. by apply read_since_hit.
  - intros N. apply read_since_store; [lia|auto].
  - destruct w; try done. destruct W as (? & ? & R). split; [done|]. split; [done|].
    apply read_since_store; [lia|done].
  - intros N. apply read_since_delete. auto.
  - destruct w; try done. destruct W as (? & ? & R). split; [done|]. split; [done|].
    by apply read_since_delete.
  - destruct w; try done; [lia|]. destruct W as (? & ? & R). split; [done|]. split; [lia|].
    by apply read_since_empty.
  - intros N. eapply read_since_le; [|apply read_since_published]; lia.
  - split; [lia|]. split; [lia|]. eapply read_since_le; [|apply read_since_published]; lia.
  - intros N. destruct W as (? & ? & R). eapply read_since_le; [|exact R]. lia.
Qed.

(** A cached machine is recent: whatever the worker, the readers and the
    invalidations do, the data of a machine served from the cache was given
    by the API less than the time to live plus two API calls ago. *)
Theorem cached_machine_recent s name m c' :
  0 <= D -> reachable s -> getFromCache o (clock s) name (cache s) = (Some m, true, c') ->
  exists r, read_at s !! name = Some r /\ clock s - r < ttl o + 2 * D.
Proof.
  intros HD R E.
  assert (I : invariant s).
  { clear E. induction R as [t Ht|s s' _ IH St]; [|by eapply cache_step_invariant].
    split; simpl; [lia|done|done]. }
  destruct I as [_ K _]. unfold getFromCache, isFresh in E.
  destruct (Z.eqb_spec (lastUpdated (cache s)) 0) as [|N]; [done|].
  destruct (Z.ltb_spec (clock s - lastUpdated (cache s)) (ttl o)) as [L|]; [|done].
  cbn in E. injection E as Em _. destruct (K N name m Em) as (r & Hr & B). exists r. split; [done|lia].
Qed.

End Steps.

Lemma get_with_fallback_witness :
  let c := mk_cache {[ "np-a1b2c" := demo_machine ]} 100 false in
  GetWithFallback defaultOpts 101 "np-a1b2c" true (Err (mk_call_error false None)) c = (Ok demo_machine, c) /\
  priority_known demo_machine.
Proof.
  intros c.
  assert (E : GetWithFallback defaultOpts 101 "np-a1b2c" true (Err (mk_call_error false None)) c
    = (Ok demo_machine, c)) by reflexivity.
  split; [exact E|]. by apply (get_with_fallback _ _ _ _ _ _ _ _ E).
Defined.

Lemma cached_machine_recent_witness :
  exists s m c' r, reachable defaultOpts Second s /\
    getFromCache defaultOpts (clock s) "np-a1b2c" (cache s) = (Some m, true, c') /\
    read_at s !! "np-a1b2c" = Some r /\ clock s - r < 32 * Second.
Proof.
  set (c1 := mk_cache ∅ 0 true).
  set (s1 := mk_system 5 c1 ∅ Idle).
  set (s2 := mk_system 5 (mk_cache ∅ 0 false) ∅ (Listing 5)).
  set (s3 := mk_system 5 (publish_machines [demo_machine] (mk_cache ∅ 0 false))
    (fmap (fun _ => 5) (by_name [demo_machine])) (Published 5)).
  set (s4 := mk_system 5 (publish_time 5 (publish_machines [demo_machine] (mk_cache ∅ 0 false)))
    (fmap (fun _ => 5) (by_name [demo_machine])) Idle).
  assert (R : reachable defaultOpts Second s4).
  { apply (reach_step _ _ s3); [|apply step_publish_time; by vm_compute].
    apply (reach_step _ _ s2); [|apply step_publish_machines].
    apply (reach_step _ _ s1); [|by apply step_update_begin].
    apply (reach_step _ _ (mk_system 5 New ∅ Idle)); [by apply reach_init|apply step_request]. }
  assert (E : getFromCache defaultOpts (clock s4) "np-a1b2c" (cache s4) = (Some demo_machine, true, cache s4))
    by reflexivity.
  destruct (cached_machine_recent defaultOpts Second s4 "np-a1b2c" demo_machine (cache s4)
    ltac:(by vm_compute) R E) as (r & Hr & L).
  exists s4, demo_machine, (cache s4), r. done.
Defined.

End MachineCache.
