(* ===== verification/Batcher.v ===== *)
(** * The request batcher ([pkg/utils/batcher])

    Requests with the same key are collected and executed together.  The
    background loop, the callers and the goroutines that execute batches
    interleave; what happens under the batcher's lock is one step.  A response
    channel has a buffer of one and is read once by its caller. *)

From S2P Require Import Prelude.
#[local] Open Scope string_scope.
#[local] Open Scope list_scope.
#[local] Open Scope Z_scope.

Module Batcher.
Section Batcher.
Context {Req Resp Error : Type}.

Record Options := mk_options { IdleTimeout : Z; MaxTimeout : Z; MaxBatchSize : Z }.

(** A request: its key, the number of its response channel, its payload. *)
Record BatchedRequest := mk_request { br_key : string; br_chan : nat; br_payload : Req }.
Record Batch := mk_batch { ba_key : string; ba_requests : list BatchedRequest }.

Inductive Response := Payload (r : Resp) | Failed (e : Error).

(** A response channel: nothing yet, a buffered response, a response its
    caller has taken. *)
Inductive channel := Empty | Full (r : Response) | Taken (r : Response).

Record Batcher := mk_batcher {
  pendingBatches : gmap string Batch;
  trigger : bool;
  running : list Batch;
  chans : gmap nat channel;
  next : nat;
  stopped : bool
}.
Definition New : Batcher := mk_batcher ∅ false [] ∅ 0 false.

Context (determineBatchKey : Req -> result Error string) (opts : Options).
Context `{GoRange}.

Definition Enqueue (payload : Req) (b : Batcher) : result Error nat * Batcher :=
  match determineBatchKey payload with
  | Err e => (Err e, b)
  | Ok key =>
      let req := mk_request key (next b) payload in
      let batch := default (mk_batch key []) (pendingBatches b !! key) in
      let batch := mk_batch (ba_key batch) (ba_requests batch ++ [req]) in
      (Ok (next b),
       mk_batcher (<[key := batch]> (pendingBatches b)) true (running b)
         (<[next b := Empty]> (chans b)) (S (next b)) (stopped b))
  end.

Definition anyBatchFull (b : Batcher) : bool :=
  existsb (fun kb => MaxBatchSize opts <=? Z.of_nat (length (ba_requests kb.2)))
    (map_to_list (pendingBatches b)).

(** The pending batches in the order of the map's iteration. *)
Definition batches_of (m : gmap string Batch) : list Batch :=
  omap (fun k => m !! k) (range_keys (dom m)).

(** The map is swapped out and one goroutine starts per batch. *)
Definition executeBatches (b : Batcher) : Batcher :=
  mk_batcher ∅ (trigger b) (running b ++ batches_of (pendingBatches b)) (chans b) (next b) (stopped b).

(** [ch <- r]: [None] when the send would block. *)
Definition send (ch : nat) (r : Response) (cs : gmap nat channel) : option (gmap nat channel) :=
  match cs !! ch with
  | Some Empty => Some (<[ch := Full r]> cs)
  | Some (Full _) => None
  | Some (Taken _) => Some cs (* buffered, and never read *)
  | None => None
  end.

(** The non-blocking send of the panic handler. *)
Definition try_send (cs : gmap nat channel) (cr : nat * Response) : gmap nat channel :=
  default cs (send cr.1 cr.2 cs).

Fixpoint send_all (rs : list (nat * Response)) (cs : gmap nat channel) : option (gmap nat channel) :=
  match rs with
  | [] => Some cs
  | (ch, r) :: rest => match send ch r cs with Some cs' => send_all rest cs' | None => None end
  end.

(** A goroutine's end: the executor answered every request with [f], or it
    panicked after answering some, and the handler answers the others. *)
Definition responses (f : BatchedRequest -> Response) (ba : Batch) : list (nat * Response) :=
  map (fun r => (br_chan r, f r)) (ba_requests ba).

Definition recover (ba : Batch) (err : Error) (cs : gmap nat channel) : gmap nat channel :=
  foldl try_send cs (responses (fun _ => Failed err) ba).

Definition drain (shutdownErr : Error) (b : Batcher) : option Batcher :=
  match send_all (concat (map (responses (fun _ => Failed shutdownErr)) (batches_of (pendingBatches b))))
          (chans b) with
  | Some cs => Some (mk_batcher ∅ (trigger b) (running b) cs (next b) true)
  | None => None
  end.

Definition set_chans (run : list Batch) (cs : gmap nat channel) (b : Batcher) : Batcher :=
  mk_batcher (pendingBatches b) (trigger b) run cs (next b) (stopped b).

Definition wake (b : Batcher) : Batcher :=
  mk_batcher (pendingBatches b) false (running b) (chans b) (next b) (stopped b).

Inductive step : Batcher -> Batcher -> Prop :=
| step_enqueue payload b : step b (Enqueue payload b).2
| step_wake b : trigger b = true -> step b (wake b)
| step_fire b : stopped b = false -> step b (executeBatches b)
| step_answered f ba r1 r2 b cs :
    running b = r1 ++ ba :: r2 -> send_all (responses f ba) (chans b) = Some cs ->
    step b (set_chans (r1 ++ r2) cs b)
| step_panicked some_ err ba r1 r2 b cs :
    running b = r1 ++ ba :: r2 -> map fst some_ ⊆ map br_chan (ba_requests ba) ->
    send_all some_ (chans b) = Some cs ->
    step b (set_chans (r1 ++ r2) (recover ba err cs) b)
| step_read ch r b :
    chans b !! ch = Some (Full r) -> step b (set_chans (running b) (<[ch := Taken r]> (chans b)) b)
| step_drain err b b' : drain err b = Some b' -> step b b'.

Inductive reachable : Batcher -> Prop :=
| reach_init : reachable New
| reach_step b b' : reachable b -> step b b' -> reachable b'.

(** ** Waiting for a batch to fill *)

(** What [waitForIdle] observes and when: more requests (are they enough?) or
    the end of the context. *)
Inductive wait_event := More (full : bool) | Cancelled.

(** The instant [waitForIdle] returns: the timers fire at their deadlines
    unless an event comes first. *)
Fixpoint wait_loop (idle_deadline max_deadline : Z) (events : list (Z * wait_event)) : Z :=
  match events with
  | [] => Z.min idle_deadline max_deadline
  | (t, ev) :: rest =>
      if Z.min idle_deadline max_deadline <? t then Z.min idle_deadline max_deadline
      else match ev with
           | Cancelled => t
           | More full => if full then t else wait_loop (t + IdleTimeout opts) max_deadline rest
           end
  end.

Definition waitForIdle (now : Z) (full : bool) (events : list (Z * wait_event)) : Z :=
  if full then now else wait_loop (now + IdleTimeout opts) (now + MaxTimeout opts) events.

(** ** Every request is answered exactly once *)

Definition ids (ba : Batch) : list nat := map br_chan (ba_requests ba).
Definition pending_ids (m : gmap string Batch) : list nat := concat (map ids (map snd (map_to_list m))).
Definition outstanding (b : Batcher) : list nat :=
  pending_ids (pendingBatches b) ++ concat (map ids (running b)).

Definition same_key (ba : Batch) : Prop :=
  ba_requests ba <> [] /\ forall r, r ∈ ba_requests ba -> br_key r = ba_key ba /\
    determineBatchKey (br_payload r) = Ok (ba_key ba).

Record invariant (b : Batcher) : Prop := {
  inv_nodup : NoDup (outstanding b);
  inv_empty : forall ch, ch ∈ outstanding b <-> chans b !! ch = Some Empty;
  inv_next : forall ch, is_Some (chans b !! ch) <-> (ch < next b)%nat;
  inv_pending : forall k ba, pendingBatches b !! k = Some ba -> ba_key ba = k /\ same_key ba;
  inv_running : forall ba, ba ∈ running b -> same_key ba
}.

Lemma batches_of_perm m : batches_of m ≡ₚ map snd (map_to_list m).
Proof.
  unfold batches_of. rewrite range_keys_perm.
  assert (K : elements (dom m) ≡ₚ map fst (map_to_list m)).
  { apply NoDup_Permutation; [apply NoDup_elements|apply NoDup_fst_map_to_list|].
    intros k. rewrite elem_of_elements, elem_of_dom, list_elem_of_fmap. split.
    - intros [x Hx]. exists (k, x). by rewrite elem_of_map_to_list.
    - intros ([k' x] & -> & Hx%elem_of_map_to_list). by exists x. }
  rewrite K. assert (G : forall l, (forall kx, kx ∈ l -> m !! kx.1 = Some kx.2) ->
    omap (fun k => m !! k) (map fst l) = map snd l).
  { induction l as [|[k x] l IH]; intros F; [done|]. cbn.
    rewrite (F (k, x) ltac:(left) : m !! k = Some x). simpl. f_equal. apply IH. intros kx Hkx. apply F. by right. }
  rewrite G; [done|]. intros [k x] Hx%elem_of_map_to_list. done.
Qed.

Lemma pending_ids_perm m m' :
  map_to_list m ≡ₚ map_to_list m' -> pending_ids m ≡ₚ pending_ids m'.
Proof. intros P. unfold pending_ids. by rewrite P. Qed.

Lemma pending_ids_empty : pending_ids ∅ = [].
Proof. unfold pending_ids. by rewrite map_to_list_empty. Qed.

Lemma pending_ids_insert m k ba :
  m !! k = None -> pending_ids (<[k := ba]> m) ≡ₚ ids ba ++ pending_ids m.
Proof. intros N. unfold pending_ids. by rewrite map_to_list_insert. Qed.

Lemma pending_ids_update m k ba ba' r :
  m !! k = Some ba -> ids ba' = ids ba ++ [br_chan r] ->
  pending_ids (<[k := ba']> m) ≡ₚ br_chan r :: pending_ids m.
Proof.
  intros Hk E. rewrite <- (insert_id m k ba Hk) at 2. rewrite <- !(insert_delete_eq m).
  rewrite !pending_ids_insert by apply lookup_delete_eq. rewrite E, <- app_assoc. simpl.
  by rewrite Permutation_middle.
Qed.

Lemma pending_ids_batches m : concat (map ids (batches_of m)) ≡ₚ pending_ids m.
Proof. unfold pending_ids. by rewrite batches_of_perm. Qed.

Lemma batches_of_elem m ba : ba ∈ batches_of m <-> exists k, m !! k = Some ba.
Proof.
  rewrite batches_of_perm, list_elem_of_fmap. split.
  - intros ([k x] & -> & Hx%elem_of_map_to_list). by exists k.
  - intros [k Hk]. exists (k, ba). by rewrite elem_of_map_to_list.
Qed.

(** Answering a list of distinct channels that are empty. *)
Lemma send_all_empty rs cs :
  NoDup (map fst rs) -> (forall ch, ch ∈ map fst rs -> cs !! ch = Some Empty) ->
  exists cs', send_all rs cs = Some cs' /\
    (forall ch r, (ch, r) ∈ rs -> cs' !! ch = Some (Full r)) /\
    (forall ch, ch ∉ map fst rs -> cs' !! ch = cs !! ch).
Proof.
  revert cs. induction rs as [|[ch r] rs IH]; intros cs N Em.
  - exists cs. split; [done|]. split; [by intros ch r Hr%not_elem_of_nil|done].
  - simpl in N. apply NoDup_cons in N as [N1 N2]. cbn [send_all]. unfold send.
    rewrite (Em ch) by left.
    destruct (IH (<[ch := Full r]> cs)) as (cs' & E & A & B); [done| |].
    { intros ch' Hch'. rewrite lookup_insert_ne by (intros ->; done). apply Em. by right. }
    exists cs'. split; [done|]. split.
    + intros ch' r' [[= -> ->]|Hr']%elem_of_cons; [|by apply A].
      rewrite B by done. apply lookup_insert_eq.
    + intros ch' Hch'. simpl in Hch'. apply not_elem_of_cons in Hch' as [H1 H2].
      rewrite B by done. by rewrite lookup_insert_ne by done.
Qed.

(** What sending can change. *)
Lemma send_all_domain rs cs cs' :
  send_all rs cs = Some cs' ->
  (forall ch, is_Some (cs' !! ch) <-> is_Some (cs !! ch)) /\
  (forall ch, ch ∉ map fst rs -> cs' !! ch = cs !! ch) /\
  (forall ch, cs' !! ch = Some Empty -> cs !! ch = Some Empty) /\
  (forall ch x, cs !! ch = Some x -> x <> Empty -> cs' !! ch = Some x).
Proof.
  revert cs. induction rs as [|[ch r] rs IH]; intros cs E; simpl in E; [by simplify_eq|].
  unfold send in E. destruct (cs !! ch) as [[]|] eqn:C; simplify_eq; try done.
  - destruct (IH _ E) as (A & B & D & F). split; [|split; [|split]].
    + intros ch'. rewrite A. destruct (decide (ch = ch')) as [->|]; [|by rewrite lookup_insert_ne].
      rewrite lookup_insert_eq, C. split; by eexists.
    + intros ch' N. simpl in N. apply not_elem_of_cons in N as [N1 N2].
      rewrite B by done. by rewrite lookup_insert_ne.
    + intros ch' Hc%D. destruct (decide (ch = ch')) as [->|]; [|by rewrite lookup_insert_ne in Hc].
      by rewrite lookup_insert_eq in Hc.
    + intros ch' x Hx Nx. apply F; [|done]. rewrite lookup_insert_ne; [done|]. intros ->. congruence.
  - destruct (IH _ E) as (A & B & D & F). split; [done|]. split; [|done].
    intros ch' N. apply B. simpl in N. by apply not_elem_of_cons in N as [_ ?].
Qed.

Lemma recover_spec ba err cs :
  (forall ch, ch ∈ ids ba -> is_Some (cs !! ch)) ->
  (forall ch, ch ∈ ids ba -> exists x, recover ba err cs !! ch = Some x /\ x <> Empty) /\
  (forall ch, ch ∉ ids ba -> recover ba err cs !! ch = cs !! ch) /\
  (forall ch x, cs !! ch = Some x -> x <> Empty -> recover ba err cs !! ch = Some x) /\
  (forall ch, is_Some (recover ba err cs !! ch) <-> is_Some (cs !! ch)).
Proof.
  unfold recover, responses, ids. generalize (ba_requests ba) as l. intros l. revert cs.
  induction l as [|r l IH]; intros cs D; simpl.
  - split; [by intros ch Hc%not_elem_of_nil|]. done.
  - set (cs1 := try_send cs (br_chan r, Failed err)).
    assert (S : forall ch, cs1 !! ch = if decide (ch = br_chan r) then
        match cs !! ch with Some Empty => Some (Full (Failed err)) | x => x end else cs !! ch).
    { intros ch. unfold cs1, try_send, send. simpl.
      destruct (cs !! br_chan r) as [[]|] eqn:C; simpl; case_decide; subst; rewrite ?C; try done.
      - apply lookup_insert_eq.
      - by rewrite lookup_insert_ne. }
    destruct (IH cs1) as (A & B & C & F).
    { intros ch Hch. rewrite S. destruct (D ch) as [x Hx]; [by right|]. rewrite Hx.
      case_decide; [|by eexists]. destruct x; by eexists. }
    split; [|split; [|split]].
    + intros ch [->|Hch]%elem_of_cons; [|by apply A].
      destruct (D (br_chan r)) as [x Hx]; [left|].
      assert (K : exists y, cs1 !! br_chan r = Some y /\ y <> Empty).
      { rewrite S, decide_True, Hx by done. destruct x; by eexists. }
      destruct K as (y & Hy & Ny). exists y. split; [|done]. by apply C.
    + intros ch [N1 N2]%not_elem_of_cons. rewrite B, S by done. by rewrite decide_False.
    + intros ch x Hx Nx. apply C; [|done]. rewrite S, Hx. case_decide; [|done]. by destruct x.
    + intros ch. rewrite F, S. case_decide; [|done].
      destruct (cs !! ch) as [[]|]; split; intros [? ?]; by eexists.
Qed.

(** *** Every step keeps the invariant *)

Lemma finish_invariant b r1 ba r2 cs :
  invariant b -> running b = r1 ++ ba :: r2 ->
  (forall ch, ch ∈ ids ba -> exists x, cs !! ch = Some x /\ x <> Empty) ->
  (forall ch, ch ∉ ids ba -> cs !! ch = chans b !! ch) ->
  invariant (set_chans (r1 ++ r2) cs b).
Proof.
  intros [N Em Nx P R] Er A B.
  assert (O : outstanding b ≡ₚ ids ba ++ outstanding (set_chans (r1 ++ r2) cs b)).
  { unfold outstanding. cbn [pendingBatches running set_chans].
    rewrite Er, !map_app, !concat_app, map_cons, concat_cons.
    solve_Permutation. }
  rewrite O in N. apply NoDup_app in N as (N1 & N2 & N3).
  assert (D : forall ch, ch ∈ ids ba -> chans b !! ch = Some Empty).
  { intros ch Hch. apply Em. rewrite O, elem_of_app. by left. }
  split; cbn; try done.
  - intros ch. destruct (decide (ch ∈ ids ba)) as [Hin|Hin].
    + destruct (A ch Hin) as (x & Hx & Nex). rewrite Hx. split; [|congruence].
      intros Ho. by destruct (N2 ch Hin).
    + rewrite B by done. rewrite <- Em, O, elem_of_app. tauto.
  - intros ch. rewrite <- Nx. destruct (decide (ch ∈ ids ba)) as [Hin|Hin]; [|by rewrite B].
    rewrite D by done. destruct (A ch Hin) as (x & Hx & _). rewrite Hx. split; by eexists.
  - intros x Hx. apply R. rewrite Er. set_solver.
Qed.

Lemma responses_ids f ba : map fst (responses f ba) = ids ba.
Proof. unfold responses, ids. by rewrite map_map. Qed.

Lemma running_ids b r1 ba r2 :
  invariant b -> running b = r1 ++ ba :: r2 ->
  NoDup (ids ba) /\ forall ch, ch ∈ ids ba -> chans b !! ch = Some Empty.
Proof.
  intros [N Em _ _ _] Er.
  assert (O : forall ch, ch ∈ ids ba -> ch ∈ outstanding b).
  { intros ch Hch. unfold outstanding. rewrite elem_of_app. right. rewrite Er.
    apply elem_of_concat. exists (ids ba). split; [done|]. rewrite map_app. set_solver. }
  split; [|intros ch Hch; by apply Em, O].
  unfold outstanding in N. apply NoDup_app in N as (_ & _ & N).
  rewrite Er, map_app, concat_app, map_cons, concat_cons in N.
  by apply NoDup_app in N as (_ & _ & (? & _)%NoDup_app).
Qed.

Lemma enqueue_invariant payload b : invariant b -> invariant (Enqueue payload b).2.
Proof.
  intros I. pose proof I as [N Em Nx P R]. unfold Enqueue.
  destruct (determineBatchKey payload) as [key|] eqn:K; [|done]. cbv zeta. cbn [snd].
  set (req := mk_request key (next b) payload).
  set (ba := default (mk_batch key []) (pendingBatches b !! key)).
  set (ba' := mk_batch (ba_key ba) (ba_requests ba ++ [req])).
  assert (F : next b ∉ outstanding b).
  { rewrite Em. intros E. assert (C : is_Some (chans b !! next b)) by (by eexists). apply Nx in C. lia. }
  assert (O : pending_ids (<[key := ba']> (pendingBatches b)) ≡ₚ next b :: pending_ids (pendingBatches b)).
  { unfold ba', ba. destruct (pendingBatches b !! key) as [old|] eqn:Eo; simpl.
    - apply (pending_ids_update _ _ old _ req); [done|]. unfold ids. simpl. by rewrite map_app.
    - by rewrite pending_ids_insert. }
  assert (Same : same_key ba' /\ ba_key ba' = key).
  { unfold ba', ba. destruct (pendingBatches b !! key) as [old|] eqn:Eo; simpl.
    - destruct (P _ _ Eo) as [Ek [_ Sk]]. split; [|done]. split; simpl; [by destruct (ba_requests old)|].
      intros r [Hr| ->%list_elem_of_singleton]%elem_of_app; [by apply Sk|].
      simpl. by rewrite Ek.
    - split; [|done]. split; [done|]. simpl. by intros r ->%list_elem_of_singleton. }
  assert (Ou : next b :: outstanding b ≡ₚ
    pending_ids (<[key := ba']> (pendingBatches b)) ++ concat (map ids (running b))).
  { rewrite O. done. }
  split; unfold outstanding; cbn [pendingBatches running chans next].
  - rewrite <- Ou. by constructor.
  - intros ch. rewrite <- Ou, elem_of_cons, Em.
    destruct (decide (ch = next b)) as [->|Ne]; [rewrite lookup_insert_eq; tauto|].
    rewrite lookup_insert_ne by done. tauto.
  - intros ch. destruct (decide (ch = next b)) as [->|Ne].
    + rewrite lookup_insert_eq. split; [lia|by eexists].
    + rewrite lookup_insert_ne, Nx by done. lia.
  - intros k x. destruct (decide (key = k)) as [<-|Ne].
    + rewrite lookup_insert_eq. intros [= <-]. by destruct Same.
    + rewrite lookup_insert_ne by done. apply P.
  - done.
Qed.

Lemma drain_spec err b :
  invariant b -> exists cs, drain err b = Some (mk_batcher ∅ (trigger b) (running b) cs (next b) true) /\
    (forall ch, ch ∈ pending_ids (pendingBatches b) -> cs !! ch = Some (Full (Failed err))) /\
    (forall ch, ch ∉ pending_ids (pendingBatches b) -> cs !! ch = chans b !! ch).
Proof.
  intros [N Em _ _ _]. unfold drain.
  set (rs := concat _).
  assert (Ei : map fst rs ≡ₚ pending_ids (pendingBatches b)).
  { rewrite <- pending_ids_batches. unfold rs. rewrite concat_map, map_map.
    erewrite map_ext; [done|]. intros ba. apply responses_ids. }
  unfold outstanding in N. apply NoDup_app in N as (N1 & _ & _).
  destruct (send_all_empty rs (chans b)) as (cs & E & A & B).
  - by rewrite Ei.
  - intros ch Hch. apply Em. unfold outstanding. rewrite elem_of_app. left. by rewrite <- Ei.
  - exists cs. rewrite E. split; [done|]. split.
    + intros ch Hch. rewrite <- Ei in Hch. apply list_elem_of_fmap in Hch as ([c r] & -> & Hr).
      cbn [fst]. rewrite (A c r Hr). apply elem_of_concat in Hr as (l & Hr & (ba & -> & _)%list_elem_of_fmap).
      apply list_elem_of_fmap in Hr as (q & Hq & _). by injection Hq as _ ->.
    + intros ch Hch. apply B. by rewrite Ei.
Qed.

Lemma batcher_step_invariant b b' : invariant b -> step b b' -> invariant b'.
Proof.
  intros I St. destruct St as [payload b|b _|b _|f ba r1 r2 b cs Er Es|some_ err ba r1 r2 b cs Er Hs Es|ch r b Er|err b b' Ed].
  - by apply enqueue_invariant.
  - destruct I as [N Em Nx P R]. by split.
  - destruct I as [N Em Nx P R].
    assert (O : outstanding (executeBatches b) ≡ₚ outstanding b).
    { unfold outstanding. cbn [pendingBatches running executeBatches].
      rewrite map_app, concat_app, pending_ids_batches, pending_ids_empty. cbn [app].
      apply Permutation_app_comm. }
    split; cbn [chans executeBatches next pendingBatches running]; try done.
    + by rewrite O.
    + intros ch. by rewrite O, Em.
    + intros ba [Hba|[k Hk]%batches_of_elem]%elem_of_app; [by apply R|]. by destruct (P k ba Hk).
  - destruct (running_ids b r1 ba r2 I Er) as [N D].
    destruct (send_all_empty (responses f ba) (chans b)) as (cs' & E & A & B);
      [by rewrite responses_ids|by rewrite responses_ids|].
    rewrite Es in E. injection E as <-. apply (finish_invariant b r1 ba r2 cs I Er).
    + intros ch Hch. rewrite <- (responses_ids f) in Hch. apply list_elem_of_fmap in Hch as ([c r] & -> & Hr).
      exists (Full r). split; [by apply A|done].
    + intros ch Hch. apply B. by rewrite responses_ids.
  - destruct (running_ids b r1 ba r2 I Er) as [N D].
    destruct (send_all_domain some_ (chans b) cs Es) as (A & B & _ & _).
    destruct (recover_spec ba err cs) as (A' & B' & _ & _).
    { intros ch Hch. apply A. rewrite D by done. by eexists. }
    apply (finish_invariant b r1 ba r2 _ I Er); [done|].
    intros ch Hch. rewrite B' by done. apply B. intros Hc. apply Hch. by apply Hs.
  - destruct I as [N Em Nx P R]. split; cbn; try done.
    + intros c. change (outstanding (set_chans _ _ b)) with (outstanding b). rewrite Em.
      destruct (decide (ch = c)) as [->|Ne]; [rewrite lookup_insert_eq, Er; split; congruence|].
      by rewrite lookup_insert_ne.
    + intros c. rewrite <- Nx. destruct (decide (ch = c)) as [->|Ne]; [|by rewrite lookup_insert_ne].
      rewrite lookup_insert_eq, Er. split; by eexists.
  - destruct (drain_spec err b I) as (cs & E & A & B). rewrite E in Ed. injection Ed as <-.
    destruct I as [N Em Nx P R]. unfold outstanding in N. apply NoDup_app in N as (N1 & N2 & N3).
    split; unfold outstanding; cbn [pendingBatches running chans next app]; try done.
    + intros ch. rewrite pending_ids_empty. cbn [app].
      destruct (decide (ch ∈ pending_ids (pendingBatches b))) as [Hin|Hin].
      * rewrite A by done. split; [intros Hr; by destruct (N2 ch Hin)|done].
      * rewrite B, <- Em by done. unfold outstanding. rewrite elem_of_app. tauto.
    + intros ch. rewrite <- Nx. destruct (decide (ch ∈ pending_ids (pendingBatches b))) as [Hin|Hin]; [|by rewrite B].
      rewrite A by done. assert (E0 : chans b !! ch = Some Empty).
      { apply Em. unfold outstanding. rewrite elem_of_app. by left. }
      rewrite E0. split; by eexists.
Qed.

Lemma reachable_invariant b : reachable b -> invariant b.
Proof.
  induction 1 as [|b b' _ IH St]; [|by eapply batcher_step_invariant].
  split; cbn; [constructor| | |done|].
  - intros ch. rewrite lookup_empty. split; [by intros Hc%not_elem_of_nil|done].
  - intros ch. rewrite lookup_empty. split; [by intros [? ?]|lia].
  - by intros ba Hba%not_elem_of_nil.
Qed.

(** A channel that holds an answer keeps it. *)
Lemma answer_kept b b' ch r :
  invariant b -> step b b' -> chans b !! ch = Some (Full r) \/ chans b !! ch = Some (Taken r) ->
  chans b' !! ch = Some (Full r) \/ chans b' !! ch = Some (Taken r).
Proof.
  intros I St Hc.
  assert (Ne : exists x, chans b !! ch = Some x /\ x <> Empty /\ (x = Full r \/ x = Taken r))
    by (destruct Hc; by eauto).
  destruct Ne as (x & Hx & Nx & Cx).
  assert (Kp : chans b' !! ch = Some x -> chans b' !! ch = Some (Full r) \/ chans b' !! ch = Some (Taken r))
    by (intros ->; destruct Cx as [-> | ->]; auto).
  destruct St as [payload b|b _|b _|f ba r1 r2 b cs Er Es|some_ err ba r1 r2 b cs Er Hs Es|c r' b Er|err b b' Ed];
    try (by apply Kp).
  - apply Kp. unfold Enqueue. destruct (determineBatchKey payload); [|done]. simpl.
    rewrite lookup_insert_ne; [done|]. intros <-.
    assert (C : is_Some (chans b !! next b)) by (by eexists). apply (inv_next _ I) in C. lia.
  - apply Kp. by apply (send_all_domain _ _ _ Es).
  - apply Kp. simpl. destruct (send_all_domain _ _ _ Es) as (A & _ & _ & F).
    apply recover_spec; [|by apply F|done].
    intros c Hin. apply A. destruct (running_ids b r1 ba r2 I Er) as [_ D]. rewrite D by done. by eexists.
  - simpl. destruct (decide (c = ch)) as [->|]; [|by rewrite lookup_insert_ne].
    rewrite lookup_insert_eq. right. destruct Hc; congruence.
  - apply Kp. destruct (drain_spec err b I) as (cs & E & _ & B). rewrite E in Ed. injection Ed as <-. simpl.
    rewrite B; [done|]. intros Hin. assert (O : ch ∈ outstanding b) by (unfold outstanding; set_solver).
    apply (inv_empty _ I) in O. congruence.
Qed.

(** C32. Exactly one answer per request: in every reachable state each request
    is either outstanding, with an empty channel, or answered; requests are
    outstanding once; whoever answers (an executor, the shutdown) never
    blocks and gives each request of a batch its own answer; and an answer,
    once given, is never replaced. *)
Theorem answered_exactly_once b :
  reachable b ->
  NoDup (outstanding b) /\
  (forall ch, (ch < next b)%nat ->
     (ch ∈ outstanding b /\ chans b !! ch = Some Empty) \/
     ((ch ∉ outstanding b) /\
      (exists r, chans b !! ch = Some (Full r) \/ chans b !! ch = Some (Taken r)))) /\
  (forall ba f, ba ∈ running b -> same_key ba /\
     exists cs, send_all (responses f ba) (chans b) = Some cs /\
       forall r, r ∈ ba_requests ba -> cs !! br_chan r = Some (Full (f r))) /\
  (forall err, exists b', drain err b = Some b' /\ pendingBatches b' = ∅ /\
     forall ch, ch ∈ pending_ids (pendingBatches b) -> chans b' !! ch = Some (Full (Failed err))) /\
  (forall b' ch r, step b b' -> chans b !! ch = Some (Full r) \/ chans b !! ch = Some (Taken r) ->
     chans b' !! ch = Some (Full r) \/ chans b' !! ch = Some (Taken r)).
Proof.
  intros I%reachable_invariant. split; [apply I|]. split; [|split; [|split]].
  - intros ch L. apply (inv_next _ I) in L as [x Hx].
    destruct (decide (ch ∈ outstanding b)) as [Hin|Hin]; [left; split; [done|by apply I]|].
    right. split; [done|]. rewrite (inv_empty _ I) in Hin. destruct x; eauto. done.
  - intros ba f Hba. split; [by apply I|]. apply list_elem_of_split in Hba as (r1 & r2 & Er).
    destruct (running_ids b r1 ba r2 I Er) as [N D].
    destruct (send_all_empty (responses f ba) (chans b)) as (cs & E & A & _);
      [by rewrite responses_ids|by rewrite responses_ids|].
    exists cs. split; [done|]. intros r Hr. apply A. unfold responses.
    apply list_elem_of_fmap. by exists r.
  - intros err. destruct (drain_spec err b I) as (cs & E & A & _). by eexists.
  - intros b' ch r St. apply answer_kept; done.
Qed.

(** Latency is bounded: a wait that starts when the first request arrives
    ends at most [MaxTimeout] later, and if it was not ended by a full batch or
    by the context, no request came in its last [IdleTimeout] or the maximum
    was reached. *)
Theorem wait_bounded now full events :
  0 <= IdleTimeout opts -> 0 <= MaxTimeout opts ->
  (forall t ev, (t, ev) ∈ events -> now <= t) ->
  let r := waitForIdle now full events in
  now <= r <= now + MaxTimeout opts /\
  (full = false -> (forall t ev, (t, ev) ∈ events -> ev = More false) ->
     r = now + MaxTimeout opts \/ r = now + IdleTimeout opts \/
     exists t, (t, More false) ∈ events /\ r = t + IdleTimeout opts).
Proof.
  intros HI HM Ev. unfold waitForIdle. destruct full; [split; [lia|done]|].
  assert (G : forall idle, now <= idle ->
    now <= wait_loop idle (now + MaxTimeout opts) events <= now + MaxTimeout opts /\
    ((forall t ev, (t, ev) ∈ events -> ev = More false) ->
       let r := wait_loop idle (now + MaxTimeout opts) events in
       r = now + MaxTimeout opts \/ r = idle \/
       exists t, (t, More false) ∈ events /\ r = t + IdleTimeout opts)).
  { induction events as [|[t ev] events IH]; intros idle Li; cbn [wait_loop].
    - split; [lia|]. intros _. simpl. lia.
    - assert (Lt : now <= t) by (apply (Ev t ev); left).
      destruct (Z.ltb_spec (Z.min idle (now + MaxTimeout opts)) t) as [L|L]; [split; [lia|intros _; simpl; lia]|].
      destruct ev as [[]|]; [split; [lia|]| |split; [lia|]];
        try (intros A; specialize (A t _ (list_elem_of_here _ _)); done).
      destruct (IH (fun t' ev' H' => Ev t' ev' (list_elem_of_further _ _ _ H')) (t + IdleTimeout opts)) as [B C]; [lia|].
      split; [done|]. intros A. destruct C as [C|[C|(t' & Ht' & C)]].
      + intros t' ev' H'. by apply (A t' ev'), list_elem_of_further.
      + by left.
      + right. right. exists t. split; [left|done].
      + right. right. exists t'. split; [by right|done]. }
  destruct (G (now + IdleTimeout opts)) as [A B]; [lia|]. split; [done|]. intros _. exact B.
Qed.

End Batcher.
Arguments Batcher : clear implicits.
Arguments Response : clear implicits.

Lemma answered_exactly_once_witness :
  exists b, reachable (Req := nat) (Resp := unit) (Error := string) (fun _ => Ok "key") b /\
    outstanding b = [0%nat; 1%nat] /\ NoDup (outstanding b).
Proof.
  set (k := fun _ : nat => @Ok string string "key").
  set (b0 := New (Req := nat) (Resp := unit) (Error := string)).
  set (b2 := (Enqueue k 8%nat (Enqueue k 7%nat b0).2).2).
  assert (R : reachable k b2).
  { eapply reach_step; [eapply reach_step; [apply reach_init|apply step_enqueue]|apply step_enqueue]. }
  exists b2. split; [exact R|]. split; [by vm_compute|]. apply (answered_exactly_once k b2 R).
Defined.

Definition demo_opts : Options := mk_options (1 * Second) (10 * Second) 50.

Lemma wait_bounded_witness :
  let r := waitForIdle demo_opts 0 false [(Second / 2, More false); (1 * Second, More false)] in
  0 <= r <= 10 * Second /\ r = 2 * Second.
Proof.
  intros r. split; [|by vm_compute].
  apply (wait_bounded demo_opts 0 false [(Second / 2, More false); (1 * Second, More false)]);
    try (by vm_compute).
  intros t ev Hin.
  apply elem_of_cons in Hin as [E|Hin]; [injection E as -> ->; by vm_compute|].
  apply elem_of_cons in Hin as [E|Hin]; [injection E as -> ->; by vm_compute|].
  by apply not_elem_of_nil in Hin.
Defined.

End Batcher.
