(* ===== verification/HeaderBatch.v ===== *)
(** * Creating machines in batches ([pkg/providers/azclient/aksmachinesheaderbatch])

    A batch of machine creations is one API call: a template shared by all of
    them in the body and, in a header, what differs per machine.  Parameters:
    the digest of a template (JSON and SHA-256), the JSON encoding of the
    header and the decoding of error bodies, and the API itself.  [None] as a
    whole result is a run-time panic. *)

From S2P Require Import Prelude GoString AKSMachine ErrorHandlers Batcher.
#[local] Open Scope string_scope.
#[local] Open Scope list_scope.
#[local] Open Scope Z_scope.

Module HeaderBatch.
Import AKSMachine.

Record aksMachineCreatePayload := mk_payload {
  resourceGroupName : string;
  resourceName : string;
  agentPoolName : string;
  machineName : string;
  machineBody : option Machine
}.

Definition HandlableError : Type := ErrorHandlers.HandlableError.

Inductive error :=
| ErrNilPayload
| ErrMarshal (e : string)
| ErrHeader (e : string)
| ErrNilProperties
| ErrNotResponseError
| ErrParseDetails (e : string)
| ErrNoDetails
| ErrMissingTarget
| ErrUnknownMachine (name : string)
| ErrParseTopLevel (e : string).

(** ** The shared template *)

Definition requiresZonesInSharedTemplate (m : option Machine) : bool := isUltraSSDEnabled m.

(** [None] is the panic on nil properties. *)
Definition buildSharedAKSMachineTemplate (m : Machine) : option Machine :=
  match ma_properties m with
  | None => None
  | Some p =>
      Some (mk_machine None None
              (if requiresZonesInSharedTemplate (Some m) then ma_zones m else [])
              (Some (mk_properties None None None (pr_priority p) None None (pr_hardware p)
                       (pr_nodeImageVersion p) (pr_crg p) (pr_other p))))
  end.

Section Executor.
(** The first eight bytes of the digest of a template, in hexadecimal. *)
Variable digest : Machine -> result string string.

Definition determineBatchKey (item : aksMachineCreatePayload) : result error string :=
  match machineBody item with
  | None => Err ErrNilPayload
  | Some m =>
      match buildSharedAKSMachineTemplate m with
      | None => Err ErrNilPayload
      | Some template =>
          match digest template with
          | Err e => Err (ErrMarshal e)
          | Ok h => Ok (resourceGroupName item +:+ "/" +:+ resourceName item +:+ "/" +:+
                        agentPoolName item +:+ "/" +:+ h)
          end
      end
  end.

(** ** The header *)

Record MachineEntry := mk_entry {
  me_name : string;
  me_zones : list string;
  me_tags : gmap string string
}.

Definition extractZones (zones : list (option string)) : list string := omap id zones.
Definition extractTags (tags : option (gmap string (option string))) : gmap string string :=
  match tags with
  | None => ∅
  | Some ts => omap id ts
  end.

Definition request_entry (p : aksMachineCreatePayload) : option MachineEntry :=
  match machineBody p with
  | None => None
  | Some m =>
      Some (mk_entry (machineName p) (extractZones (ma_zones m))
              (match ma_properties m with
               | Some pr => extractTags (pr_tags pr)
               | None => ∅
               end))
  end.

Variable Marshal : list MachineEntry -> result string string.

Definition buildBatchHeader (ps : list aksMachineCreatePayload) :
    option (result error (string * list MachineEntry)) :=
  match mapM request_entry ps with
  | None => None
  | Some entries =>
      Some (match Marshal entries with
            | Err e => Err (ErrHeader e)
            | Ok header => Ok (header, entries)
            end)
  end.

(** ** Errors of the API *)

(** A detail of a batch error, and an API error: [None] when it is not an
    [*azcore.ResponseError]. *)
Record Detail := mk_bdetail {
  de_target : option string;
  de_code : option string;
  de_message : option string
}.
Record ResponseErr := mk_response_err { rr_code : string; rr_body : result string string }.

Definition BatchMachineClientError : string := "BatchMachineClientError".
Definition BatchMachineInternalServerError : string := "BatchMachineInternalServerError".

(** The decodings of a body: flat ([ErrorDetail]: message and details), the
    details inside a message, and wrapped and flat top-level errors. *)
Variable parse_flat : string -> result string (option string * list Detail).
Variable parse_inner : string -> result string (list Detail).
Variable parse_wrapped : string -> result string (option (option string * option string)).
Variable parse_code_message : string -> result string (option string * option string).

Definition parsePerMachineDetails (r : ResponseErr) : result string (list Detail) :=
  match rr_body r with
  | Err e => Err ("failed to parse response body: " +:+ e)
  | Ok body =>
      match parse_flat body with
      | Err e => Err ("failed to parse ErrorDetail: " +:+ e)
      | Ok (message, details) =>
          if rr_code r ==? BatchMachineInternalServerError then
            match parse_inner (from_ptr "" message) with
            | Err e => Err ("failed to parse BatchMachineInternalServerError message JSON: " +:+ e)
            | Ok inner => Ok inner
            end
          else if rr_code r ==? BatchMachineClientError then Ok details
          else Err "unrecognized batch error code"
      end
  end.

Definition parseTopLevelError (r : ResponseErr) : result string HandlableError :=
  match rr_body r with
  | Err e => Err ("failed to parse response body: " +:+ e)
  | Ok body =>
      match parse_wrapped body with
      | Ok (Some (code, message)) =>
          Ok (ErrorHandlers.mk_handlable (from_ptr "" code) (from_ptr "" message))
      | _ =>
          match parse_code_message body with
          | Err e => Err ("failed to parse API error body: " +:+ e)
          | Ok (code, message) =>
              Ok (ErrorHandlers.mk_handlable (from_ptr "" code) (from_ptr "" message))
          end
      end
  end.

(** The map from machine names to their errors; a nil error is [None]. *)
#[local] Abbreviation errors := (gmap string (option HandlableError)).

Fixpoint apply_details (ds : list Detail) (m : errors) : result error errors :=
  match ds with
  | [] => Ok m
  | d :: rest =>
      match de_target d with
      | None | Some "" => Err ErrMissingTarget
      | Some target =>
          match m !! target with
          | None => Err (ErrUnknownMachine target)
          | Some _ =>
              apply_details rest
                (<[target := Some (ErrorHandlers.mk_handlable (from_ptr "" (de_code d)) (from_ptr "" (de_message d)))]> m)
          end
      end
  end.

Definition is_batch_code (code : string) : bool :=
  (code ==? BatchMachineClientError) || (code ==? BatchMachineInternalServerError).

Definition extractPerMachineErrors (apiError : option ResponseErr) (m : errors) : result error errors :=
  match apiError with
  | None => Err ErrNotResponseError
  | Some r =>
      if is_batch_code (rr_code r) then
        match parsePerMachineDetails r with
        | Err e => Err (ErrParseDetails e)
        | Ok [] => Err ErrNoDetails
        | Ok ds => apply_details ds m
        end
      else
        match parseTopLevelError r with
        | Err e => Err (ErrParseTopLevel e)
        | Ok topLevel => Ok (fmap (fun _ => Some topLevel) m)
        end
  end.

(** ** Executing a batch *)

(** The API: the outer option says whether it failed, the inner one is its
    error.  It gets the header, the path, the first machine's name and the
    template. *)
Variable BeginCreateOrUpdate :
  string -> string * string * string * string -> Machine -> option (option ResponseErr).

(** One response per request, in order: a payload (no error, or the machine's
    error) or an operational error. *)
Definition response : Type := Batcher.Response (option HandlableError) error.

Definition distributePerMachine (ps : list aksMachineCreatePayload) (m : errors) : list response :=
  map (fun p => Batcher.Payload (default None (m !! machineName p))) ps.
Definition distributeSuccess (ps : list aksMachineCreatePayload) : list response :=
  map (fun _ => Batcher.Payload None) ps.
Definition distributeOperationalError (ps : list aksMachineCreatePayload) (e : error) : list response :=
  map (fun _ => Batcher.Failed e) ps.

Definition executeBatch (ps : list aksMachineCreatePayload) : option (list response) :=
  match buildBatchHeader ps, ps with
  | None, _ => None
  | Some (Err e), _ => Some (distributeOperationalError ps e)
  | Some (Ok _), [] => None
  | Some (Ok (header, _)), first :: _ =>
      match machineBody first with
      | None => None
      | Some m =>
          match buildSharedAKSMachineTemplate m with
          | None => Some (distributeOperationalError ps ErrNilProperties)
          | Some template =>
              match BeginCreateOrUpdate header
                      (resourceGroupName first, resourceName first, agentPoolName first, machineName first)
                      template with
              | None => Some (distributeSuccess ps)
              | Some apiError =>
                  let perMachineErrors : errors :=
                    foldl (fun acc p => <[machineName p := None]> acc) ∅ ps in
                  match extractPerMachineErrors apiError perMachineErrors with
                  | Err e => Some (distributeOperationalError ps e)
                  | Ok es => Some (distributePerMachine ps es)
                  end
              end
          end
      end
  end.

(** ** What each machine is told *)

Definition detail_error (d : Detail) : HandlableError :=
  ErrorHandlers.mk_handlable (from_ptr "" (de_code d)) (from_ptr "" (de_message d)).

(** The last detail about the machine [n], if any. *)
Definition last_detail (ds : list Detail) (n : string) : option HandlableError :=
  foldl (fun acc d => if bool_decide (de_target d = Some n) then Some (detail_error d) else acc) None ds.

(** The details name machines of the batch only. *)
Definition details_ok (ds : list Detail) (ps : list aksMachineCreatePayload) : Prop :=
  ds <> [] /\ forall d, d ∈ ds -> exists p, p ∈ ps /\ machineName p <> "" /\ de_target d = Some (machineName p).

Lemma last_detail_from ds n acc :
  foldl (fun acc d => if bool_decide (de_target d = Some n) then Some (detail_error d) else acc) acc ds =
  match last_detail ds n with Some e => Some e | None => acc end.
Proof.
  unfold last_detail. revert acc. induction ds as [|d ds IH] using rev_ind; intros acc; [done|].
  rewrite !foldl_app. simpl. by case_bool_decide.
Qed.

Lemma apply_details_spec ds m m' :
  apply_details ds m = Ok m' <->
  (forall d, d ∈ ds -> exists t, de_target d = Some t /\ t <> "" /\ is_Some (m !! t)) /\
  forall n, m' !! n = match m !! n with
                      | None => None
                      | Some old => Some (match last_detail ds n with Some e => Some e | None => old end)
                      end.
Proof.
  revert m. induction ds as [|d ds IH]; intros m; cbn [apply_details].
  - split.
    + intros [= <-]. split; [by intros d Hd%not_elem_of_nil|]. intros n. simpl. by destruct (m !! n).
    + intros [_ L]. f_equal. apply map_eq. intros n. rewrite L. by destruct (m !! n).
  - assert (Step : forall t, de_target d = Some t -> t <> "" -> is_Some (m !! t) ->
      apply_details ds (<[t := Some (detail_error d)]> m) = Ok m' <->
      (forall d', d' ∈ d :: ds -> exists t, de_target d' = Some t /\ t <> "" /\ is_Some (m !! t)) /\
      forall n, m' !! n = match m !! n with
                          | None => None
                          | Some old => Some (match last_detail (d :: ds) n with Some e => Some e | None => old end)
                          end).
    { intros t Et Nt [old Ho]. rewrite IH.
      assert (D : forall x, is_Some ((<[t := Some (detail_error d)]> m) !! x) <-> is_Some (m !! x)).
      { intros x. destruct (decide (t = x)) as [->|]; [rewrite lookup_insert_eq, Ho|by rewrite lookup_insert_ne].
        split; by eexists. }
      assert (L : forall n, match (<[t := Some (detail_error d)]> m) !! n with
          | None => None
          | Some old => Some (match last_detail ds n with Some e => Some e | None => old end) end =
        match m !! n with
          | None => None
          | Some old => Some (match last_detail (d :: ds) n with Some e => Some e | None => old end) end).
      { intros n. unfold last_detail at 2. cbn [foldl]. rewrite last_detail_from, Et.
        destruct (decide (t = n)) as [->|Ne].
        - rewrite lookup_insert_eq, Ho, bool_decide_eq_true_2 by done. by destruct (last_detail ds n).
        - rewrite lookup_insert_ne, bool_decide_eq_false_2 by congruence. destruct (m !! n); [|done].
          by destruct (last_detail ds n). }
      split.
      - intros [A B]. split; [|intros n; by rewrite B, L].
        intros d' [->|Hd]%elem_of_cons; [exists t; by repeat split|].
        destruct (A d' Hd) as (t' & ? & ? & ?). exists t'. by rewrite <- D.
      - intros [A B]. split; [|intros n; by rewrite B, <- L].
        intros d' Hd. destruct (A d') as (t' & ? & ? & ?); [by right|]. exists t'. by rewrite D. }
    destruct (de_target d) as [[|c s]|] eqn:Et.
    + split; [done|]. intros [A _]. destruct (A d) as (t & ? & ? & _); [left|]. congruence.
    + destruct (m !! String c s) as [old|] eqn:Em.
      * apply (Step (String c s)); [done|done|by eexists].
      * split; [done|]. intros [A _]. destruct (A d) as (t & Ht & _ & Hs); [left|].
        rewrite Et in Ht. injection Ht as <-. rewrite Em in Hs. by destruct Hs.
    + split; [done|]. intros [A _]. destruct (A d) as (t & ? & _); [left|]. congruence.
Qed.

(** The map before the details are applied: all machines of the batch, no error. *)
Lemma initial_errors (ps : list aksMachineCreatePayload) (acc : errors) n :
  foldl (fun acc p => <[machineName p := None]> acc) acc ps !! n =
  if bool_decide (n ∈ map machineName ps) then Some None else acc !! n.
Proof.
  revert acc. induction ps as [|p ps IH]; intros acc; cbn [foldl map].
  - by rewrite bool_decide_eq_false_2 by apply not_elem_of_nil.
  - rewrite IH. destruct (bool_decide (n ∈ map machineName ps)) eqn:B.
    + apply bool_decide_eq_true in B. by rewrite bool_decide_eq_true_2 by by right.
    + apply bool_decide_eq_false in B. destruct (decide (machineName p = n)) as [<-|Ne].
      * rewrite lookup_insert_eq. by rewrite bool_decide_eq_true_2 by left.
      * rewrite lookup_insert_ne by done. rewrite bool_decide_eq_false_2; [done|].
        rewrite elem_of_cons. intros [->|]; done.
Qed.

Lemma apply_initial ds ps m' :
  ds <> [] -> apply_details ds (foldl (fun acc p => <[machineName p := None]> acc) ∅ ps) = Ok m' <->
  details_ok ds ps /\ forall n, m' !! n = if bool_decide (n ∈ map machineName ps) then Some (last_detail ds n) else None.
Proof.
  intros Nd. rewrite apply_details_spec. unfold details_ok.
  assert (D : forall n, is_Some (foldl (fun (acc : errors) p => <[machineName p := None]> acc) ∅ ps !! n) <->
    exists p, p ∈ ps /\ machineName p = n).
  { intros n. rewrite initial_errors. case_bool_decide as B.
    - split; [|by eexists]. intros _. apply list_elem_of_fmap in B as (p & -> & Hp). by exists p.
    - split; [by intros [? ?]|]. intros (p & Hp & <-). destruct B. apply list_elem_of_fmap. by exists p. }
  split; intros [A B].
  - split; [split; [done|]|].
    + intros d Hd. destruct (A d Hd) as (t & Ht & Nt & (p & Hp & <-)%D). by exists p.
    + intros n. rewrite B, initial_errors. case_bool_decide; [by destruct (last_detail ds n)|done].
  - split.
    + intros d Hd. destruct A as [_ A]. destruct (A d Hd) as (p & Hp & Np & Et).
      exists (machineName p). split; [done|]. split; [done|]. apply D. by exists p.
    + intros n. rewrite B, initial_errors. case_bool_decide; [by destruct (last_detail ds n)|done].
Qed.

(** The one call made for a batch, and its answer. *)
Definition called (ps : list aksMachineCreatePayload) (answer : option (option ResponseErr)) : Prop :=
  exists header entries first m template,
    buildBatchHeader ps = Some (Ok (header, entries)) /\ head ps = Some first /\
    machineBody first = Some m /\ buildSharedAKSMachineTemplate m = Some template /\
    answer = BeginCreateOrUpdate header
      (resourceGroupName first, resourceName first, agentPoolName first, machineName first) template.

Lemma last_detail_none ds n :
  last_detail ds n = None <-> forall d, d ∈ ds -> de_target d <> Some n.
Proof.
  unfold last_detail. induction ds as [|d ds IH] using rev_ind.
  - split; [by intros _ d Hd%not_elem_of_nil|done].
  - rewrite foldl_app. simpl. case_bool_decide as B; split.
    + done.
    + intros A. destruct (A d); [set_solver|done].
    + intros E x [Hx| ->%list_elem_of_singleton]%elem_of_app; [|done]. by apply IH.
    + intros A. apply IH. intros x Hx. apply A. set_solver.
Qed.

Lemma last_detail_some ds n e :
  last_detail ds n = Some e -> exists d, d ∈ ds /\ de_target d = Some n /\ e = detail_error d.
Proof.
  unfold last_detail. induction ds as [|d ds IH] using rev_ind; [done|].
  rewrite foldl_app. simpl. case_bool_decide as B.
  - intros [= <-]. exists d. split; [set_solver|done].
  - intros E. destruct (IH E) as (x & Hx & ?). exists x. split; [set_solver|done].
Qed.

(** How a batch ends. *)
Lemma executeBatch_cases ps rs :
  executeBatch ps = Some rs ->
  (exists e, rs = distributeOperationalError ps e) \/
  (called ps None /\ rs = distributeSuccess ps) \/
  (exists r ds, called ps (Some (Some r)) /\ is_batch_code (rr_code r) = true /\
     parsePerMachineDetails r = Ok ds /\ details_ok ds ps /\
     rs = map (fun p => Batcher.Payload (last_detail ds (machineName p))) ps) \/
  (exists r e, called ps (Some (Some r)) /\ is_batch_code (rr_code r) = false /\
     parseTopLevelError r = Ok e /\ rs = map (fun p => Batcher.Payload (Some e)) ps).
Proof.
  unfold executeBatch. destruct (buildBatchHeader ps) as [[[header entries]|e]|] eqn:H; [| |done].
  2: { intros [= <-]. left. by exists e. }
  destruct ps as [|first rest]; [done|]. set (ps := first :: rest) in *.
  destruct (machineBody first) as [m|] eqn:M; [|done].
  destruct (buildSharedAKSMachineTemplate m) as [template|] eqn:T;
    [|intros [= <-]; left; by exists ErrNilProperties].
  assert (C : called ps (BeginCreateOrUpdate header
      (resourceGroupName first, resourceName first, agentPoolName first, machineName first) template))
    by (by exists header, entries, first, m, template).
  destruct (BeginCreateOrUpdate _ _ _) as [api|]; [|intros [= <-]; right; left; done].
  unfold extractPerMachineErrors. destruct api as [r|]; [|intros [= <-]; left; by eexists].
  destruct (is_batch_code (rr_code r)) eqn:B.
  - destruct (parsePerMachineDetails r) as [ds|e] eqn:P; [|intros [= <-]; left; by eexists].
    destruct ds as [|d ds]; [intros [= <-]; left; by eexists|].
    destruct (apply_details (d :: ds) _) as [es|e] eqn:A; [|intros [= <-]; left; by eexists].
    intros E. apply (inj Some) in E as <-. right. right. left. apply apply_initial in A as [Ok L]; [|done].
    exists r, (d :: ds). split; [done|]. split; [done|]. split; [done|]. split; [done|].
    unfold distributePerMachine. apply (map_ext_in _ _ ps). intros p Hp%list_elem_of_In.
    rewrite L, bool_decide_eq_true_2; [done|]. apply list_elem_of_fmap. by exists p.
  - destruct (parseTopLevelError r) as [e|e] eqn:P; [|intros [= <-]; left; by eexists].
    intros E. apply (inj Some) in E as <-. right. right. right. exists r, e. split; [done|]. split; [done|]. split; [done|].
    unfold distributePerMachine. apply (map_ext_in _ _ ps). intros p Hp%list_elem_of_In.
    rewrite lookup_fmap, initial_errors, bool_decide_eq_true_2; [done|].
    apply list_elem_of_fmap. by exists p.
Qed.


(** ** Batching loses nothing *)

(** What the API is to create: name, zones, tags and the shared properties. *)
Definition creation : Type := string * list string * gmap string string * (option string * option Hardware *
  option string * option (option (option string)) * string).
Definition shared_properties (p : Properties) :=
  (pr_priority p, pr_hardware p, pr_nodeImageVersion p, pr_crg p, pr_other p).
Definition wanted (p : aksMachineCreatePayload) : option creation :=
  m ← machineBody p; pr ← ma_properties m;
  Some (machineName p, extractZones (ma_zones m), extractTags (pr_tags pr), shared_properties pr).
Definition sent (template : Machine) (e : MachineEntry) : option creation :=
  pr ← ma_properties template; Some (me_name e, me_zones e, me_tags e, shared_properties pr).

(** Batching is lossless: in a batch of requests with the same key, the
    template made from the first and the header entry of each give, for each
    request, the machine it asked for, in the place it asked for (assuming the
    digest tells templates apart and path parts have no slash). *)
Theorem batch_lossless ps k first rest :
  ps = first :: rest ->
  (forall p, p ∈ ps -> determineBatchKey p = Ok k) ->
  (forall p p' m m' t t', p ∈ ps -> p' ∈ ps -> machineBody p = Some m -> machineBody p' = Some m' ->
     buildSharedAKSMachineTemplate m = Some t -> buildSharedAKSMachineTemplate m' = Some t' ->
     digest t = digest t' -> t = t') ->
  (forall p, p ∈ ps -> free_of "/" (resourceGroupName p) = true /\ free_of "/" (resourceName p) = true /\
     free_of "/" (agentPoolName p) = true) ->
  exists m template, machineBody first = Some m /\ buildSharedAKSMachineTemplate m = Some template /\
    forall p, p ∈ ps -> exists e, request_entry p = Some e /\ is_Some (wanted p) /\
      sent template e = wanted p /\
      resourceGroupName p = resourceGroupName first /\ resourceName p = resourceName first /\
      agentPoolName p = agentPoolName first.
Proof.
  intros -> K Dg Sl.
  assert (Key : forall p, p ∈ first :: rest -> exists m pr t, machineBody p = Some m /\ ma_properties m = Some pr /\
    buildSharedAKSMachineTemplate m = Some t /\ exists h, digest t = Ok h /\
    k = resourceGroupName p +:+ "/" +:+ resourceName p +:+ "/" +:+ agentPoolName p +:+ "/" +:+ h).
  { intros p Hp. pose proof (K p Hp) as E. unfold determineBatchKey in E.
    destruct (machineBody p) as [m|]; [|done].
    destruct (buildSharedAKSMachineTemplate m) as [t|] eqn:Et; [|done].
    destruct (digest t) as [h|] eqn:Dh; [|done].
    assert (Epr : exists pr, ma_properties m = Some pr).
    { unfold buildSharedAKSMachineTemplate in Et. destruct (ma_properties m); by eauto. }
    destruct Epr as [pr Epr]. exists m, pr, t. split; [done|]. split; [done|]. split; [done|].
    exists h. split; [done|]. by injection E as <-. }
  destruct (Key first) as (m & pr & t & Em & Epr & Et & h & Dh & Ek); [left|].
  exists m, t. split; [done|]. split; [done|]. intros p Hp.
  destruct (Key p Hp) as (m' & pr' & t' & Em' & Epr' & Et' & h' & Dh' & Ek').
  destruct (Sl p Hp) as (S1 & S2 & S3). destruct (Sl first) as (F1 & F2 & F3); [left|].
  rewrite Ek' in Ek.
  apply (sep_app_inj "/") in Ek as [R1 Ek]; [|done|done].
  apply (sep_app_inj "/") in Ek as [R2 Ek]; [|done|done].
  apply (sep_app_inj "/") in Ek as [R3 Ek]; [|done|done].
  assert (T : t' = t) by (apply (Dg p first m' m); try done; [left|congruence]). subst t'.
  unfold request_entry. rewrite Em'. eexists. split; [done|].
  unfold wanted. rewrite Em'. simpl. rewrite Epr'. simpl. split; [by eexists|].
  split; [|done]. unfold sent. unfold buildSharedAKSMachineTemplate in Et'. rewrite Epr' in Et'.
  by injection Et' as <-.
Qed.

End Executor.

(** ** Concrete instances *)

Definition demo_payload (name zone : string) : aksMachineCreatePayload :=
  mk_payload "rg" "cluster" "pool" name
    (Some (mk_machine None None [Some zone]
      (Some (mk_properties None None (Some {[ "nodeclaim" := Some name ]}) (Some "Spot") None None None None None "spec")))).
Definition demo_details (_ : string) : result string (option string * list Detail) :=
  Ok (None, [mk_bdetail (Some "b") (Some "SkuNotAvailable") None]).
Definition demo_digest (m : Machine) : result string string :=
  Ok (match ma_properties m with Some p => pr_other p | None => "" end).


Lemma batch_lossless_witness :
  exists m template, machineBody (demo_payload "a" "1") = Some m /\
    buildSharedAKSMachineTemplate m = Some template /\
    exists e, request_entry (demo_payload "b" "2") = Some e /\ sent template e = wanted (demo_payload "b" "2").
Proof.
  destruct (batch_lossless demo_digest [demo_payload "a" "1"; demo_payload "b" "2"]
    "rg/cluster/pool/spec" (demo_payload "a" "1") [demo_payload "b" "2"]) as (m & t & E1 & E2 & A); [done| | | |].
  - intros p [->|[->|H%not_elem_of_nil]%elem_of_cons]%elem_of_cons; done.
  - intros p p' m m' t t' [->|[->|H%not_elem_of_nil]%elem_of_cons]%elem_of_cons
      [->|[->|H'%not_elem_of_nil]%elem_of_cons]%elem_of_cons; try done;
      intros [= <-] [= <-] [= <-] [= <-] _; reflexivity.
  - intros p [->|[->|H%not_elem_of_nil]%elem_of_cons]%elem_of_cons; done.
  - exists m, t. split; [done|]. split; [done|]. destruct (A (demo_payload "b" "2")) as (e & Ee & _ & Es & _).
    + right. left.
    + by exists e.
Defined.

End HeaderBatch.
