(* ===== verification/NodeVersions.v ===== *)
(** * Kubernetes and node image versions of a NodeClass

    [controllers/nodeclass/status/kubernetesversion.go], [images.go] and the
    part of [controller.go] that remembers versions; the readiness checks of
    [apis/v1beta1/aksnodeclass_status.go].  A reconciler takes the NodeClass
    and returns it changed with its outcome; [None] is a run-time panic.  The
    conditions are those of [Conditions]; semantic versions ([blang/semver])
    are an interface; logging, messages and transition times are left out. *)

From S2P Require Import Prelude GoString GoSort Conditions.
#[local] Open Scope string_scope.
#[local] Open Scope list_scope.
#[local] Open Scope Z_scope.

Module NodeVersions.

(** ** Semantic versions *)

Class Semver := {
  version : Type;
  Parse : string -> option version;
  Major : version -> Z;
  Minor : version -> Z;
  Patch : version -> Z;
  Compare : version -> version -> Z
}.
Class SemverLaws `{Semver} : Prop := {
  compare_refl v : Compare v v = 0;
  minor_u64 v : 0 <= Minor v < 2 ^ 64
}.
Definition GT `{Semver} (v w : version) : bool := Compare v w =? 1.
Definition LT `{Semver} (v w : version) : bool := Compare v w =? -1.

(** ** The NodeClass *)

Definition ConditionTypeImagesReady : string := "ImagesReady".
Definition ConditionTypeKubernetesVersionReady : string := "KubernetesVersionReady".

(** A selector requirement (key, operator, values) and an image. *)
Definition Requirement : Type := string * string * list string.
Record NodeImage := mk_image { im_id : string; im_requirements : list Requirement }.

Record RecentlyUsedVersion := mk_used {
  ru_time : Z;
  ru_image : option string;
  ru_kubernetes : option string
}.
Record ObservedVersions := mk_observed {
  CurrentControlPlaneKubernetesVersion : option string;
  LatestImageVersion : option string;
  RecentlyUsedVersions : list RecentlyUsedVersion
}.
Record Versions := mk_versions {
  ve_kubernetes : option string;
  ve_image : option string
}.

#[export] Instance NodeImage_eq_dec : EqDecision NodeImage.
Proof. solve_decision. Defined.

Section Reconcilers.
Context `{ConditionSet}.

Record NodeClass := mk_nodeclass {
  nc_generation : Z;
  nc_imageID : option string;
  nc_imageFamily : option string;
  nc_fipsMode : option string;
  nc_versions : option Versions;
  nc_images : list NodeImage;
  nc_observed : option ObservedVersions;
  nc_kubernetes : option string;
  nc_conditions : conditions
}.

Definition set_conditions (c : conditions) (nc : NodeClass) : NodeClass :=
  mk_nodeclass (nc_generation nc) (nc_imageID nc) (nc_imageFamily nc) (nc_fipsMode nc) (nc_versions nc)
    (nc_images nc) (nc_observed nc) (nc_kubernetes nc) c.
Definition set_images (l : list NodeImage) (nc : NodeClass) : NodeClass :=
  mk_nodeclass (nc_generation nc) (nc_imageID nc) (nc_imageFamily nc) (nc_fipsMode nc) (nc_versions nc)
    l (nc_observed nc) (nc_kubernetes nc) (nc_conditions nc).
Definition set_observed (o : option ObservedVersions) (nc : NodeClass) : NodeClass :=
  mk_nodeclass (nc_generation nc) (nc_imageID nc) (nc_imageFamily nc) (nc_fipsMode nc) (nc_versions nc)
    (nc_images nc) o (nc_kubernetes nc) (nc_conditions nc).
Definition set_kubernetes (v : option string) (nc : NodeClass) : NodeClass :=
  mk_nodeclass (nc_generation nc) (nc_imageID nc) (nc_imageFamily nc) (nc_fipsMode nc) (nc_versions nc)
    (nc_images nc) (nc_observed nc) v (nc_conditions nc).

Definition Get (t : string) (nc : NodeClass) : Condition := cond_get t (nc_conditions nc).
Definition IsTrue (c : Condition) : bool := c_status c ==? CTrue.
Definition SetTrueWithReason (t reason : string) (nc : NodeClass) : NodeClass :=
  set_conditions (cond_true (nc_generation nc) t reason (nc_conditions nc)) nc.
(** [SetTrue]: the reason is the condition's type. *)
Definition SetTrue (t : string) (nc : NodeClass) : NodeClass := SetTrueWithReason t t nc.
Definition SetFalse (t reason : string) (nc : NodeClass) : NodeClass :=
  set_conditions (cond_false (nc_generation nc) t reason (nc_conditions nc)) nc.

Definition Windows2025ImageFamily : string := "Windows2025".
Definition FIPSModeFIPS : string := "FIPS".
Definition IsFIPSEnabled (nc : NodeClass) : bool :=
  (from_ptr "" (nc_imageFamily nc) ==? Windows2025ImageFamily) ||
  (from_ptr "" (nc_fipsMode nc) ==? FIPSModeFIPS).

(** Reading the status back, for users of the NodeClass. *)
Inductive not_ready := NotTrue (s : ConditionStatus) | StaleGeneration | Uninitialized.

Definition validate_condition (t : string) (nc : NodeClass) : option not_ready :=
  match c_status (Get t nc) with
  | CFalse => Some (NotTrue CFalse)
  | CUnknown => Some (NotTrue CUnknown)
  | CTrue => if c_generation (Get t nc) !=? nc_generation nc then Some StaleGeneration else None
  end.

Definition validateKubernetesVersionReadiness (nc : NodeClass) : option not_ready :=
  match validate_condition ConditionTypeKubernetesVersionReady nc with
  | Some e => Some e
  | None =>
      match nc_kubernetes nc with
      | None | Some "" => Some Uninitialized
      | Some _ => None
      end
  end.
Definition validateImagesReadiness (nc : NodeClass) : option not_ready :=
  validate_condition ConditionTypeImagesReady nc.

Definition GetKubernetesVersion (nc : NodeClass) : result not_ready string :=
  match validateKubernetesVersionReadiness nc with
  | Some e => Err e
  | None => Ok (from_ptr "" (nc_kubernetes nc))
  end.
Definition GetImages (nc : NodeClass) : result not_ready (list NodeImage) :=
  match validateImagesReadiness nc with Some e => Err e | None => Ok (nc_images nc) end.

(** ** Shared helpers *)

(** Image version and Kubernetes version asked for in the spec. *)
Definition requestedVersions (nc : NodeClass) : string * string :=
  match nc_versions nc with
  | None => ("", "")
  | Some v => (from_ptr "" (ve_image v), from_ptr "" (ve_kubernetes v))
  end.

(** The image ID without its last two parts; too few parts panic. *)
Definition trimVersionSuffix (imageID : string) : option string :=
  let parts := Split imageID "/" in
  if Nat.ltb (length parts) 2 then None
  else Some (GoString.Join (take (length parts - 2) parts) "/").

Definition parseVersion (imageID : string) : string :=
  let parts := Split imageID "/" in
  if Nat.ltb (length parts) 2 then "" else List.last parts "".

Definition first_version (images : list NodeImage) : string :=
  match images with [] => "" | i :: _ => parseVersion (im_id i) end.

(** Whether the image version was recently used, and with that Kubernetes
    version. *)
Fixpoint find_pair (k8s image : string) (l : list RecentlyUsedVersion) : bool * bool :=
  match l with
  | [] => (false, false)
  | u :: rest =>
      if from_ptr "" (ru_image u) !=? image then find_pair k8s image rest
      else if from_ptr "" (ru_kubernetes u) ==? k8s then (true, true)
      else (true, (find_pair k8s image rest).2)
  end.
Definition findRecentlyUsedPair (reqK8sVersion reqImageVersion : string) (nc : NodeClass) : bool * bool :=
  match nc_observed nc with
  | None => (false, false)
  | Some o => find_pair reqK8sVersion reqImageVersion (RecentlyUsedVersions o)
  end.

Definition Minute : Z := 60 * 1000000000.
Definition requeueTime : Z := 5 * Minute.
Definition KubernetesVersionTTL : Z := 15 * Minute.

(** What a reconciler returns: when to come back (0: not asked for), and the
    error. *)
Inductive reconcile_error :=
| ErrControlPlane (e : string) | ErrParseVersion (what : string) | ErrSupported (e : string)
| ErrListImages (e : string) | ErrNotExactlyOne | ErrMaintenanceWindow (e : string).
Record outcome := mk_outcome { requeueAfter : Z; err : option reconcile_error }.
Definition failed (e : reconcile_error) : outcome := mk_outcome 0 (Some e).
Definition requeue (d : Z) : outcome := mk_outcome d None.

(** ** Kubernetes version *)

Section KubernetesVersion.
Context `{Semver}.
(** The two operations of the Kubernetes version provider. *)
Variable KubeServerVersion : result string string.
Variable IsSupported : string -> result string bool.

Definition skew_reason : string := "KubernetesVersionControlPlaneIncompatible".

Definition validateKubernetesVersionSkew (nc : NodeClass) (v cp : version) : bool * NodeClass :=
  if negb (Major v =? Major cp) then
    (false, SetFalse ConditionTypeKubernetesVersionReady skew_reason nc)
  else if Minor cp <? Minor v then
    (false, SetFalse ConditionTypeKubernetesVersionReady skew_reason nc)
  else if 3 <? u64 (Minor cp - Minor v) then
    (false, SetFalse ConditionTypeKubernetesVersionReady skew_reason nc)
  else if (Minor v =? Minor cp) && (Patch cp <? Patch v) then
    (false, SetFalse ConditionTypeKubernetesVersionReady skew_reason nc)
  else (true, nc).

(** The observed versions are dereferenced: [None] without them. *)
Definition validateCurrentOrLatestImagePin (nc : NodeClass)
    (currentK8sVersion reqK8sVer reqImgVer : string) : option (bool * NodeClass) :=
  match nc_observed nc with
  | None => None
  | Some o =>
      let currentImageVersion := first_version (nc_images nc) in
      let latestImageVersion := from_ptr "" (LatestImageVersion o) in
      let kubernetesVersionChanging := (currentK8sVersion !=? "") && (currentK8sVersion !=? reqK8sVer) in
      let pinningCurrentOrLatestImage := (reqImgVer !=? "") &&
        ((reqImgVer ==? currentImageVersion) || (reqImgVer ==? latestImageVersion)) in
      Some (
        if kubernetesVersionChanging && pinningCurrentOrLatestImage then
          if (findRecentlyUsedPair reqK8sVer reqImgVer nc).2 then (true, nc)
          else (false, SetFalse ConditionTypeKubernetesVersionReady
                         "KubernetesVersionImagePinIncompatible" nc)
        else (true, nc))
  end.

Definition validatePinnedK8sVersion (nc : NodeClass) (reqK8sVer reqImgVer controlPlaneVersion : string) :
    option (result reconcile_error bool * NodeClass) :=
  match Parse reqK8sVer with
  | None =>
      Some (Ok false, SetFalse ConditionTypeKubernetesVersionReady "KubernetesVersionInvalidFormat" nc)
  | Some v =>
      match Parse controlPlaneVersion with
      | None => Some (Err (ErrParseVersion "control-plane"), nc)
      | Some cp =>
          match validateKubernetesVersionSkew nc v cp with
          | (false, nc1) => Some (Ok false, nc1)
          | (true, nc1) =>
              match IsSupported reqK8sVer with
              | Err e => Some (Err (ErrSupported e), nc1)
              | Ok false =>
                  Some (Ok false, SetFalse ConditionTypeKubernetesVersionReady "KubernetesVersionUnsupported" nc1)
              | Ok true =>
                  let currentK8sVersion := from_ptr "" (nc_kubernetes nc1) in
                  match validateCurrentOrLatestImagePin nc1 currentK8sVersion reqK8sVer reqImgVer with
                  | None => None
                  | Some (false, nc2) => Some (Ok false, nc2)
                  | Some (true, nc2) =>
                      Some (Ok true,
                        if currentK8sVersion !=? reqK8sVer
                        then SetFalse ConditionTypeImagesReady "KubernetesPinning" nc2 else nc2)
                  end
              end
          end
      end
  end.

Definition observe_control_plane (v : string) (nc : NodeClass) : NodeClass :=
  let o := default (mk_observed None None []) (nc_observed nc) in
  set_observed (Some (mk_observed (Some v) (LatestImageVersion o) (RecentlyUsedVersions o))) nc.

Definition publish_kubernetes (v : string) (nc : NodeClass) : NodeClass :=
  SetTrue ConditionTypeKubernetesVersionReady (set_kubernetes (Some v) nc).

(** The version in use, when it is ready. *)
Definition current_version (nc : NodeClass) : option string :=
  if negb (IsTrue (Get ConditionTypeKubernetesVersionReady nc)) then None
  else match nc_kubernetes nc with None | Some "" => None | Some v => Some v end.

(** [Reconcile] of [KubernetesVersionReconciler]. *)
Definition KubernetesVersion_Reconcile (nc0 : NodeClass) : option (outcome * NodeClass) :=
  match KubeServerVersion with
  | Err e => Some (failed (ErrControlPlane e), nc0)
  | Ok controlPlaneVersion =>
      let nc := observe_control_plane controlPlaneVersion nc0 in
      let '(reqImgVer, reqK8sVer) := requestedVersions nc in
      let done v nc := Some (requeue KubernetesVersionTTL, publish_kubernetes v nc) in
      if reqK8sVer !=? "" then
        match validatePinnedK8sVersion nc reqK8sVer reqImgVer controlPlaneVersion with
        | None => None
        | Some (Err e, nc1) => Some (failed e, nc1)
        | Some (Ok false, nc1) => Some (requeue KubernetesVersionTTL, nc1)
        | Some (Ok true, nc1) => done reqK8sVer nc1
        end
      else
        match current_version nc with
        | None => done controlPlaneVersion nc
        | Some current =>
            match Parse controlPlaneVersion, Parse current with
            | None, _ => Some (failed (ErrParseVersion "discovered"), nc)
            | _, None => Some (failed (ErrParseVersion "current"), nc)
            | Some new, Some old =>
                if GT new old then
                  done controlPlaneVersion (SetFalse ConditionTypeImagesReady "KubernetesUpgrade" nc)
                else if LT new old then done current nc
                else done controlPlaneVersion nc
            end
        end
  end.

End KubernetesVersion.

(** ** Node images *)

Section NodeImages.
Context `{GoSort}.

(** What the image provider lists: an image with its requirements, in the
    order of a map. *)
Record ListedImage := mk_listed { li_id : string; li_requirements : list Requirement }.
Variable List : NodeClass -> result string (list ListedImage).
(** [options.UseSIG], the namespace of the maintenance window, [time.Parse]
    of RFC 3339 and the ConfigMap's data ([None]: not found). *)
Variable UseSIG : bool.
Variable systemNamespace : string.
Variable ParseTime : string -> result string Z.
Variable ConfigMap : result string (option (gmap string string)).

Definition shorter_key (a b : Requirement) : bool :=
  let ka := a.1.1 in let kb := b.1.1 in
  if Nat.eqb (String.length ka) (String.length kb) then string_less ka kb
  else Nat.ltb (String.length ka) (String.length kb).

Definition nodeImageStatus (l : list ListedImage) : list NodeImage :=
  map (fun i => mk_image (li_id i) (Slice shorter_key (li_requirements i))) l.

Definition imageVersionsUnready (nc : NodeClass) : bool :=
  negb (IsTrue (Get ConditionTypeImagesReady nc)).

Definition clear_latest (nc : NodeClass) : NodeClass :=
  match nc_observed nc with
  | None => nc
  | Some o =>
      set_observed (Some (mk_observed (CurrentControlPlaneKubernetesVersion o) None (RecentlyUsedVersions o))) nc
  end.

Definition reconcileCustomImage (nc : NodeClass) : outcome * NodeClass :=
  let fail e := (mk_outcome requeueTime (Some e),
    SetFalse ConditionTypeImagesReady "CustomImageError" (set_images [] (clear_latest nc))) in
  match List nc with
  | Err e => fail (ErrListImages e)
  | Ok [i] =>
      (requeue requeueTime,
       SetTrueWithReason ConditionTypeImagesReady "CustomImageResolved"
         (set_images (nodeImageStatus [i]) (clear_latest nc)))
  | Ok _ => fail ErrNotExactlyOne
  end.

Definition nodeOSMaintenanceWindowChannel : string := "aksManagedNodeOSUpgradeSchedule".

Definition isMaintenanceWindowOpen (now : Z) : result string bool :=
  if systemNamespace ==? "" then Ok true
  else
    match ConfigMap with
    | Err e => Err ("error getting maintenance window configmap, " +:+ e)
    | Ok None => Ok true
    | Ok (Some data) =>
        if bool_decide (data = ∅) then Ok true
        else
          let start := default "" (data !! (nodeOSMaintenanceWindowChannel +:+ "-start")) in
          let stop := default "" (data !! (nodeOSMaintenanceWindowChannel +:+ "-end")) in
          let okStart := start !=? "" in
          let okEnd := stop !=? "" in
          if negb okStart && negb okEnd then Ok true
          else if (okStart && negb okEnd) || (negb okStart && okEnd) then
            Err "unexpected state, with incomplete maintenance window data"
          else
            match ParseTime start with
            | Err e => Err ("error parsing maintenance window start time, " +:+ e)
            | Ok s =>
                match ParseTime stop with
                | Err e => Err ("error parsing maintenance window end time, " +:+ e)
                | Ok e => Ok ((s <? now) && (now <? e))
                end
            end
    end.

(** Base ID to image; the last image of a base wins.  [None]: an ID without
    two parts. *)
Definition mapImageBasesToImages (images : list NodeImage) : option (gmap string NodeImage) :=
  fold_panic (fun (m : gmap string NodeImage) i => base ← trimVersionSuffix (im_id i); Some (<[base := i]> m))
    ∅ images.

Definition keep_existing (existing : gmap string NodeImage) (discovered : NodeImage) : option NodeImage :=
  base ← trimVersionSuffix (im_id discovered); Some (default discovered (existing !! base)).

Definition overrideAnyGoalStateVersionsWithExisting (nc : NodeClass) (discovered : list NodeImage) :
    option (list NodeImage) :=
  existing ← mapImageBasesToImages (nc_images nc); mapM (keep_existing existing) discovered.

Definition validateRollback (reqK8sVersion reqImageVersion : string) (nc : NodeClass) : bool * NodeClass :=
  match nc_observed nc with
  | None => (false, SetFalse ConditionTypeImagesReady "NodeImageVersionInvalid" nc)
  | Some _ =>
      let '(imageFound, pairFound) := findRecentlyUsedPair reqK8sVersion reqImageVersion nc in
      if pairFound then (true, nc)
      else if imageFound then
        (false, SetFalse ConditionTypeImagesReady "RollbackTargetKubernetesVersionMismatch" nc)
      else (false, SetFalse ConditionTypeImagesReady "NodeImageVersionInvalid" nc)
  end.

Definition validatePinning (reqImgVer reqK8sVer : string) (nc : NodeClass) : bool * NodeClass :=
  let currentImgVer := first_version (nc_images nc) in
  let latestImgVer :=
    match nc_observed nc with None => "" | Some o => from_ptr "" (LatestImageVersion o) end in
  if (reqImgVer ==? currentImgVer) || (reqImgVer ==? latestImgVer) then
    (IsTrue (Get ConditionTypeKubernetesVersionReady nc), nc)
  else validateRollback reqK8sVer reqImgVer nc.

(** The ID with its last part replaced; it needs at least three parts, the
    last but one "versions" and the last not empty. *)
Definition replace_version (newSuffix : string) (i : NodeImage) : option NodeImage :=
  let parts := Split (im_id i) "/" in
  let n := length parts in
  if Nat.ltb n 3 || (List.nth (n - 2) parts "" !=? "versions") || (List.last parts "" ==? "") then None
  else Some (mk_image (GoString.Join (take (n - 1) parts ++ [newSuffix]) "/") (im_requirements i)).
Definition replaceSuffixes (images : list NodeImage) (newSuffix : string) : option (list NodeImage) :=
  if (newSuffix ==? "") || Contains newSuffix "/" then None
  else mapM (replace_version newSuffix) images.

Definition applyImagePinning (nc : NodeClass) (defaultImages : list NodeImage) (reqImgVer : string) :
    (list NodeImage * bool) * NodeClass :=
  if reqImgVer ==? "" then ((defaultImages, true), nc)
  else
    match replaceSuffixes defaultImages reqImgVer with
    | None => (([], false), SetFalse ConditionTypeImagesReady "RequestedNodeImageVersionUnavailable" nc)
    | Some l => ((l, true), nc)
    end.

Definition nodeImageVersionPinnedReason : string := "NodeImageVersionPinned".

Definition pinningShouldUpdate (nc : NodeClass) (reqImgVer : string) : bool :=
  match nc_images nc with [] => true | i :: _ => parseVersion (im_id i) !=? reqImgVer end.

(** The goal images take effect. *)
Definition publish_images (goal : list NodeImage) (latest reqImgVer : string) (nc : NodeClass) : NodeClass :=
  let o := default (mk_observed None None []) (nc_observed nc) in
  let nc1 := set_observed (Some (mk_observed (CurrentControlPlaneKubernetesVersion o) (Some latest)
                                   (RecentlyUsedVersions o))) (set_images goal nc) in
  if reqImgVer !=? "" then SetTrueWithReason ConditionTypeImagesReady nodeImageVersionPinnedReason nc1
  else SetTrue ConditionTypeImagesReady nc1.

(** From the goal images to the end of [Reconcile]. *)
Definition settle_images (now : Z) (goal : list NodeImage) (latest reqImgVer : string) (should : bool)
    (nc : NodeClass) : option (outcome * NodeClass) :=
  match (if should then Ok true else isMaintenanceWindowOpen now) with
  | Err e => Some (failed (ErrMaintenanceWindow e), nc)
  | Ok update =>
      match (if update then Some goal else overrideAnyGoalStateVersionsWithExisting nc goal) with
      | None => None
      | Some [] =>
          Some (requeue requeueTime, SetFalse ConditionTypeImagesReady "ImagesNotFound" (set_images [] nc))
      | Some l => Some (requeue requeueTime, publish_images l latest reqImgVer nc)
      end
  end.

(** [Reconcile] of [NodeImageReconciler]. *)
Definition NodeImage_Reconcile (now : Z) (nc : NodeClass) : option (outcome * NodeClass) :=
  match nc_imageID nc with
  | Some _ => Some (reconcileCustomImage nc)
  | None =>
      if IsFIPSEnabled nc && negb UseSIG then
        Some (requeue 0, SetFalse ConditionTypeImagesReady "SIGRequiredForFIPS" (set_images [] nc))
      else
        let '(reqImgVer, reqK8sVer) := requestedVersions nc in
        let '(valid, nc1) :=
          if reqImgVer !=? "" then validatePinning reqImgVer reqK8sVer nc else (true, nc) in
        if negb valid then Some (requeue requeueTime, nc1)
        else
          let unpinning := (reqImgVer ==? "") &&
            (c_reason (Get ConditionTypeImagesReady nc1) ==? nodeImageVersionPinnedReason) in
          match List nc1 with
          | Err e => Some (failed (ErrListImages e), nc1)
          | Ok listed =>
              let listing := nodeImageStatus listed in
              let latest := first_version listing in
              let '((goal, valid2), nc2) := applyImagePinning nc1 listing reqImgVer in
              if negb valid2 then Some (requeue requeueTime, nc2)
              else
                let should := imageVersionsUnready nc2
                  || ((reqImgVer !=? "") && pinningShouldUpdate nc2 reqImgVer) || unpinning in
                settle_images now goal latest reqImgVer should nc2
          end
  end.

End NodeImages.

(** ** Remembering versions ([snapshotRecentlyUsed]) *)

Definition snapshotRecentlyUsed (now : Z) (old new : NodeClass) : NodeClass :=
  if negb (IsTrue (Get ConditionTypeKubernetesVersionReady old)) ||
     negb (IsTrue (Get ConditionTypeImagesReady old)) then new
  else
    match nc_kubernetes old, nc_images old with
    | None, _ | _, [] => new
    | Some oldK8sVer, oldImage :: _ =>
        let oldSuffix := parseVersion (im_id oldImage) in
        let newSuffix := first_version (nc_images new) in
        let newK8sVer := from_ptr "" (nc_kubernetes new) in
        if (newSuffix !=? oldSuffix) || (newK8sVer !=? oldK8sVer) then
          let o := default (mk_observed None None []) (nc_observed new) in
          set_observed (Some (mk_observed (CurrentControlPlaneKubernetesVersion o) (LatestImageVersion o)
                               [mk_used now (Some oldSuffix) (Some oldK8sVer)])) new
        else new
    end.

End Reconcilers.
(** ** Laws of the helpers *)

Section Laws.
Context `{!ConditionSet, !ConditionLaws}.

Lemma get_set_false_eq t r nc :
  t <> RootCondition -> Get t (SetFalse t r nc) = mk_condition CFalse r (nc_generation nc).
Proof. apply get_false_eq. Qed.
Lemma get_set_false_ne t t' r nc :
  t <> t' -> t' <> RootCondition -> Get t' (SetFalse t r nc) = Get t' nc.
Proof. apply get_false_ne. Qed.
Lemma get_set_true_eq t r nc :
  t <> RootCondition -> Get t (SetTrueWithReason t r nc) = mk_condition CTrue r (nc_generation nc).
Proof. apply get_true_eq. Qed.
Lemma get_set_true_ne t t' r nc :
  t <> t' -> t' <> RootCondition -> Get t' (SetTrueWithReason t r nc) = Get t' nc.
Proof. apply get_true_ne. Qed.

(** A condition just set makes the status readable. *)
Lemma set_true_valid t r nc :
  t <> RootCondition -> validate_condition t (SetTrueWithReason t r nc) = None.
Proof.
  intros Ht. unfold validate_condition. rewrite get_set_true_eq by done. simpl.
  by rewrite bool_decide_eq_true_2.
Qed.

Section Kubernetes.
Context `{!Semver, !SemverLaws}.

Lemma skew_spec nc v cp b nc' :
  validateKubernetesVersionSkew nc v cp = (b, nc') ->
  (b = false /\ nc' = SetFalse ConditionTypeKubernetesVersionReady skew_reason nc) \/
  (b = true /\ nc' = nc /\ Major v = Major cp /\ Minor cp - 3 <= Minor v <= Minor cp /\
   (Minor v = Minor cp -> Patch v <= Patch cp)).
Proof.
  unfold validateKubernetesVersionSkew. pose proof (minor_u64 v). pose proof (minor_u64 cp).
  destruct (Z.eqb_spec (Major v) (Major cp)); simpl; [|intros [= <- <-]; by left].
  destruct (Z.ltb_spec (Minor cp) (Minor v)); [intros [= <- <-]; by left|].
  rewrite u64_id by lia.
  destruct (Z.ltb_spec 3 (Minor cp - Minor v)); [intros [= <- <-]; by left|].
  destruct ((Minor v =? Minor cp) && (Patch cp <? Patch v)) eqn:E; intros [= <- <-]; [by left|].
  right. repeat split; [done|lia|lia|]. intros Em. rewrite Em, Z.eqb_refl in E. simpl in E.
  by apply Z.ltb_ge in E.
Qed.

Lemma observe_reads v nc :
  requestedVersions (observe_control_plane v nc) = requestedVersions nc /\
  current_version (observe_control_plane v nc) = current_version nc /\
  (forall a b, findRecentlyUsedPair a b (observe_control_plane v nc) = findRecentlyUsedPair a b nc).
Proof.
  split; [done|]. split; [done|]. intros a b. unfold findRecentlyUsedPair, observe_control_plane. simpl.
  by destruct (nc_observed nc).
Qed.

Lemma publish_ready v nc :
  v <> "" -> GetKubernetesVersion (publish_kubernetes v nc) = Ok v.
Proof.
  intros Hv. unfold GetKubernetesVersion, validateKubernetesVersionReadiness.
  unfold publish_kubernetes, SetTrue. rewrite set_true_valid by done.
  simpl. by destruct v.
Qed.

Lemma publish_keeps_images v nc :
  Get ConditionTypeImagesReady (publish_kubernetes v nc) = Get ConditionTypeImagesReady nc.
Proof. unfold publish_kubernetes, SetTrue. by rewrite get_set_true_ne. Qed.

(** Following the control plane: an unpinned NodeClass takes the control
    plane's version, except that a ready one is never lowered.  Raising a
    ready version asks for new images; otherwise images are left alone; an
    error changes neither the version nor any condition. *)
Theorem kubernetes_never_downgraded server supported nc :
  (requestedVersions nc).2 = "" ->
  exists o nc', KubernetesVersion_Reconcile server supported nc = Some (o, nc') /\
  nc_images nc' = nc_images nc /\
  match err o with
  | Some _ => nc_kubernetes nc' = nc_kubernetes nc /\ nc_conditions nc' = nc_conditions nc
  | None =>
      exists cp v, server = Ok cp /\ nc_kubernetes nc' = Some v /\
        (v <> "" -> GetKubernetesVersion nc' = Ok v) /\
        match current_version nc with
        | None => v = cp /\ Get ConditionTypeImagesReady nc' = Get ConditionTypeImagesReady nc
        | Some current => exists old new now_,
            Parse current = Some old /\ Parse cp = Some new /\ Parse v = Some now_ /\
            LT now_ old = false /\ (LT new old = false -> v = cp) /\ (LT new old = true -> v = current) /\
            Get ConditionTypeImagesReady nc' =
              if GT new old then mk_condition CFalse "KubernetesUpgrade" (nc_generation nc)
              else Get ConditionTypeImagesReady nc
        end
  end.
Proof.
  intros Hr. unfold KubernetesVersion_Reconcile.
  destruct server as [cp|e]; [|by eexists _, _].
  destruct (observe_reads cp nc) as (-> & -> & _). destruct (requestedVersions nc) as [img k8s].
  simpl in Hr. subst k8s. rewrite bool_decide_eq_true_2 by done. cbn [negb].
  destruct (current_version nc) as [cur|].
  - destruct (Parse cp) as [new|] eqn:Pn; [|by eexists _, _].
    destruct (Parse cur) as [old|] eqn:Po; [|by eexists _, _].
    destruct (GT new old) eqn:G; [|destruct (LT new old) eqn:L].
    + eexists _, _. split; [done|]. split; [done|]. exists cp, cp. split; [done|]. split; [done|].
      split; [apply publish_ready|]. exists old, new, new. unfold GT, LT in *.
      assert ((Compare new old =? -1) = false) as -> by lia. repeat split; try done.
      by rewrite publish_keeps_images, G, get_set_false_eq.
    + eexists _, _. split; [done|]. split; [done|]. exists cp, cur. split; [done|]. split; [done|].
      split; [apply publish_ready|]. exists old, new, old. unfold LT at 1. rewrite compare_refl.
      repeat split; try (done || congruence). by rewrite publish_keeps_images, G.
    + eexists _, _. split; [done|]. split; [done|]. exists cp, cp. split; [done|]. split; [done|].
      split; [apply publish_ready|]. exists old, new, new.
      repeat split; try (done || congruence). by rewrite publish_keeps_images, G.
  - eexists _, _. split; [done|]. split; [done|]. exists cp, cp. split; [done|]. split; [done|].
    split; [apply publish_ready|]. split; [done|].
    by rewrite publish_keeps_images.
Qed.

Lemma image_pin_check nc cur req img b nc' :
  validateCurrentOrLatestImagePin nc cur req img = Some (b, nc') ->
  (b = false /\ nc' = SetFalse ConditionTypeKubernetesVersionReady "KubernetesVersionImagePinIncompatible" nc) \/
  (b = true /\ nc' = nc /\
   (cur <> "" -> cur <> req -> img <> "" ->
    img = first_version (nc_images nc) \/ Some img = (o ← nc_observed nc; LatestImageVersion o) ->
    (findRecentlyUsedPair req img nc).2 = true)).
Proof.
  unfold validateCurrentOrLatestImagePin. destruct (nc_observed nc) as [ob|]; [|done].
  destruct ((cur !=? "") && (cur !=? req) && _) eqn:C.
  - destruct (findRecentlyUsedPair req img nc).2 eqn:F; intros [= <- <-]; [|by left]. right. auto.
  - intros [= <- <-]. right. split; [done|]. split; [done|]. intros N1 N2 N3 E.
    exfalso. apply not_true_iff_false in C. apply C. rewrite !andb_true_iff, orb_true_iff, !neqb_true, !bool_decide_eq_true.
    repeat split; try done. destruct E as [?|E]; [by left|right]. simpl in E. by rewrite <- E.
Qed.

(** A pinned Kubernetes version is checked: either the version in use
    stays as it was, with an error or a false readiness condition, or it
    becomes the pin, which parses, has the control plane's major, is at most
    three minors behind and not ahead, is supported, and if it is a change,
    asks for new images and does not keep the current or latest image unless
    that pair was recently used. *)
Theorem kubernetes_pin_checked server supported nc img req :
  requestedVersions nc = (img, req) -> req <> "" ->
  exists o nc', KubernetesVersion_Reconcile server supported nc = Some (o, nc') /\
  ((nc_kubernetes nc' = nc_kubernetes nc /\
    (is_Some (err o) \/ c_status (Get ConditionTypeKubernetesVersionReady nc') = CFalse)) \/
   (err o = None /\ nc_kubernetes nc' = Some req /\ GetKubernetesVersion nc' = Ok req /\
    supported req = Ok true /\
    (exists cp v c, server = Ok cp /\ Parse req = Some v /\ Parse cp = Some c /\ Major v = Major c /\
       Minor c - 3 <= Minor v <= Minor c /\ (Minor v = Minor c -> Patch v <= Patch c)) /\
    (nc_kubernetes nc <> Some req ->
       c_status (Get ConditionTypeImagesReady nc') = CFalse /\
       (from_ptr "" (nc_kubernetes nc) <> "" -> img <> "" ->
        img = first_version (nc_images nc) \/ Some img = (o ← nc_observed nc; LatestImageVersion o) ->
        (findRecentlyUsedPair req img nc).2 = true)))).
Proof.
  intros Hr Hreq. unfold KubernetesVersion_Reconcile.
  destruct server as [cp|e]; [|by eexists _, _; split; [done|]; left; split; [done|]; left; eexists].
  destruct (observe_reads cp nc) as (-> & _ & F). rewrite Hr, bool_decide_eq_false_2 by done. cbn [negb].
  set (nc1 := observe_control_plane cp nc). unfold validatePinnedK8sVersion.
  assert (Fail : forall r, nc_kubernetes (SetFalse ConditionTypeKubernetesVersionReady r nc1) = nc_kubernetes nc /\
    c_status (Get ConditionTypeKubernetesVersionReady (SetFalse ConditionTypeKubernetesVersionReady r nc1)) = CFalse)
    by (intros r; by rewrite get_set_false_eq).
  destruct (Parse req) as [v|] eqn:Pv; [|by eexists _, _; split; [done|]; left; destruct (Fail "KubernetesVersionInvalidFormat"); auto].
  destruct (Parse cp) as [c|] eqn:Pc; [|by eexists _, _; split; [done|]; left; split; [done|]; left; eexists].
  destruct (validateKubernetesVersionSkew nc1 v c) as [b nc2] eqn:Sk.
  apply skew_spec in Sk as [[-> ->]|(-> & -> & M1 & M2 & M3)];
    [by eexists _, _; split; [done|]; left; destruct (Fail skew_reason); auto|].
  destruct (supported req) as [[]|] eqn:Su;
    [|by eexists _, _; split; [done|]; left; destruct (Fail "KubernetesVersionUnsupported"); auto
     |by eexists _, _; split; [done|]; left; split; [done|]; left; eexists].
  destruct (validateCurrentOrLatestImagePin nc1 _ req img) as [[b nc3]|] eqn:I; [|by unfold nc1 in I].
  apply image_pin_check in I as [[-> ->]|(-> & -> & P)];
    [by eexists _, _; split; [done|]; left; destruct (Fail "KubernetesVersionImagePinIncompatible"); auto|].
  eexists _, _. split; [done|]. right. split; [done|]. split; [done|]. split; [by apply publish_ready|].
  split; [done|]. split; [by eexists _, _, _|]. intros N. rewrite publish_keeps_images.
  assert (C : from_ptr "" (nc_kubernetes nc) <> req) by (destruct (nc_kubernetes nc); simpl; congruence).
  rewrite bool_decide_eq_false_2 by done. cbn [negb]. rewrite get_set_false_eq by done. split; [done|].
  intros N1 N2 E. rewrite <- F. apply P; try done.
  destruct E as [E|E]; [by left|right]. rewrite E. unfold nc1. simpl. by destruct (nc_observed nc).
Qed.

End Kubernetes.

(** *** Image IDs *)

(** Every listed or stored ID has a base. *)
Definition based (id : string) : Prop := is_Some (trimVersionSuffix id).

(** The goal image [g] became [i] without an update: the image of its base in
    use, or [g] itself if there was none. *)
Definition held (old : list NodeImage) (g i : NodeImage) : Prop :=
  trimVersionSuffix (im_id i) = trimVersionSuffix (im_id g) /\
  (i ∈ old \/ (i = g /\ forall e, e ∈ old -> trimVersionSuffix (im_id e) <> trimVersionSuffix (im_id g))).

Lemma replace_version_spec v i i' :
  free_of "/" v = true -> replace_version v i = Some i' ->
  parseVersion (im_id i') = v /\ trimVersionSuffix (im_id i') = trimVersionSuffix (im_id i) /\
  im_requirements i' = im_requirements i.
Proof.
  intros Fv. unfold replace_version. pose proof (Split_free (im_id i) "/") as Fr.
  set (parts := Split (im_id i) "/") in *. destruct (Nat.ltb_spec (length parts) 3); [done|].
  case_match; [done|]. intros [= <-]. unfold parseVersion, trimVersionSuffix. simpl.
  fold parts. rewrite Split_Join.
  2: { intros N. by apply app_eq_nil in N as [_ ?]. }
  2: { intros w [Hw|Hw]%elem_of_app; [|by apply list_elem_of_singleton in Hw as ->].
       apply Fr. rewrite <- (take_drop (length parts - 1) parts). apply elem_of_app. by left. }
  rewrite length_app, length_take. simpl.
  assert (((length parts - 1) `min` length parts + 1)%nat = length parts) as -> by lia.
  destruct (Nat.ltb_spec (length parts) 2); [lia|].
  split; [apply List.last_last|]. split; [|done]. do 2 f_equal.
  rewrite take_app_le by (rewrite length_take; lia). rewrite take_take. f_equal. lia.
Qed.

Lemma map_bases_sound images m :
  mapImageBasesToImages images = Some m ->
  forall b i, m !! b = Some i -> i ∈ images /\ trimVersionSuffix (im_id i) = Some b.
Proof.
  apply (fold_panic_inv _ (fun m : gmap string NodeImage =>
    forall b i, m !! b = Some i -> i ∈ images /\ trimVersionSuffix (im_id i) = Some b)); [|done].
  intros x i x' Hi Px. destruct (trimVersionSuffix (im_id i)) as [b0|] eqn:E; [|done].
  intros [= <-] b j. destruct (decide (b0 = b)) as [->|N].
  - rewrite lookup_insert_eq. by intros [= <-].
  - rewrite lookup_insert_ne by done. apply Px.
Qed.

Lemma map_bases_complete images m e b :
  mapImageBasesToImages images = Some m -> e ∈ images -> trimVersionSuffix (im_id e) = Some b ->
  is_Some (m !! b).
Proof.
  unfold mapImageBasesToImages. intros F Hin Hb. apply list_elem_of_split in Hin as (l1 & l2 & ->).
  rewrite fold_panic_app in F. case_match; [|done]. simpl in F. rewrite Hb in F. simpl in F.
  revert F. apply (fold_panic_inv _ (fun m : gmap string NodeImage => is_Some (m !! b))).
  - intros x i x' _ Px. destruct (trimVersionSuffix (im_id i)) as [b0|]; [|done]. intros [= <-].
    destruct (decide (b0 = b)) as [->|N]; [rewrite lookup_insert_eq; by eexists|by rewrite lookup_insert_ne].
  - rewrite lookup_insert_eq. by eexists.
Qed.

Lemma override_spec nc goal :
  Forall (fun i => based (im_id i)) (nc_images nc) -> Forall (fun i => based (im_id i)) goal ->
  exists l, overrideAnyGoalStateVersionsWithExisting nc goal = Some l /\ Forall2 (held (nc_images nc)) goal l.
Proof.
  intros Bo Bg. unfold overrideAnyGoalStateVersionsWithExisting.
  destruct (fold_panic_total (fun (m : gmap string NodeImage) i =>
    base ← trimVersionSuffix (im_id i); Some (<[base := i]> m)) (nc_images nc) ∅) as [m E].
  { intros x i Hi. rewrite Forall_forall in Bo. destruct (Bo i Hi) as [b ->]. by eexists. }
  change (mapImageBasesToImages (nc_images nc) = Some m) in E. rewrite E. simpl.
  induction Bg as [|g goal [b Hb] Bg (l & F & H2)]; [by eexists|]. simpl.
  assert (keep_existing m g = Some (default g (m !! b))) as -> by (unfold keep_existing; by rewrite Hb).
  simpl. rewrite F. eexists. split; [done|]. constructor; [|done].
  destruct (m !! b) as [i|] eqn:L; simpl.
  - apply (map_bases_sound _ _ E) in L as [? ?]. split; [congruence|by left].
  - split; [done|]. right. split; [done|]. intros e He Eq. rewrite Hb in Eq.
    destruct (map_bases_complete _ _ e b E He Eq). congruence.
Qed.

(** *** Reconciling images *)

Section Images.
Context `{!GoSort}.
Variable List : NodeClass -> result string (list ListedImage).
Variable UseSIG : bool.
Variable namespace : string.
Variable ParseTime : string -> result string Z.
Variable ConfigMap : result string (option (gmap string string)).
#[local] Abbreviation window := (isMaintenanceWindowOpen namespace ParseTime ConfigMap).
#[local] Abbreviation Reconcile := (NodeImage_Reconcile List UseSIG namespace ParseTime ConfigMap).

(** What a settled reconcile leaves: no error, and images that are ready to
    use unless there are none. *)
Definition settled (o : outcome) (nc' : NodeClass) : Prop :=
  err o = None /\ (nc_images nc' <> [] -> GetImages nc' = Ok (nc_images nc')).

Lemma publish_settled l latest req nc :
  GetImages (publish_images l latest req nc) = Ok l.
Proof.
  unfold GetImages, validateImagesReadiness, publish_images.
  destruct (req !=? ""); unfold SetTrue; by rewrite set_true_valid.
Qed.

Lemma publish_published l latest req nc : nc_images (publish_images l latest req nc) = l.
Proof. unfold publish_images. by destruct (req !=? ""). Qed.

(** The images after [settle_images] that may update, and that may not. *)
Lemma settle_spec now goal latest req should nc :
  Forall (fun i => based (im_id i)) (nc_images nc) -> Forall (fun i => based (im_id i)) goal ->
  exists o nc', settle_images namespace ParseTime ConfigMap now goal latest req should nc = Some (o, nc') /\
  match (if should then Ok true else window now) with
  | Err _ => is_Some (err o) /\ nc' = nc
  | Ok true => settled o nc' /\ nc_images nc' = goal
  | Ok false => settled o nc' /\ Forall2 (held (nc_images nc)) goal (nc_images nc')
  end.
Proof.
  intros Bo Bg. unfold settle_images. destruct (if should then _ else _) as [[]|e].
  - destruct goal as [|g goal]; eexists _, _; (split; [done|]); [done|].
    rewrite publish_published. split; [|done]. split; [done|]. rewrite publish_settled, publish_published. done.
  - destruct (override_spec nc goal Bo Bg) as (l & -> & F).
    destruct l as [|i l]; eexists _, _; (split; [done|]); [done|].
    rewrite publish_published. split; [|done]. split; [done|]. rewrite publish_settled, publish_published. done.
  - eexists _, _. split; [done|]. split; [by eexists|done].
Qed.


(** A pin to an image version may be followed: it is the current or latest
    version with a ready Kubernetes version, or a recently used pair. *)
Definition pin_allowed (req k8s : string) (nc : NodeClass) : Prop :=
  ((req = first_version (nc_images nc) \/ Some req = (o ← nc_observed nc; LatestImageVersion o)) /\
   c_status (Get ConditionTypeKubernetesVersionReady nc) = CTrue) \/
  (findRecentlyUsedPair k8s req nc).2 = true.

Lemma validatePinning_spec req k8s nc b nc' :
  req <> "" -> validatePinning req k8s nc = (b, nc') ->
  (b = true /\ nc' = nc /\ pin_allowed req k8s nc) \/ (b = false /\ nc_images nc' = nc_images nc).
Proof.
  intros Hreq. unfold validatePinning, validateRollback.
  destruct ((req ==? first_version (nc_images nc)) || _) eqn:C.
  - destruct (IsTrue _) eqn:T; intros [= <- <-]; [left|by right].
    split; [done|]. split; [done|]. left. unfold IsTrue in T. apply bool_decide_eq_true in T. split; [|done].
    apply orb_true_iff in C as [C%bool_decide_eq_true|C%bool_decide_eq_true]; [by left|right].
    destruct (nc_observed nc) as [ob|]; simpl; [|done]. by destruct (LatestImageVersion ob); simpl in C; subst.
  - destruct (nc_observed nc) as [ob|]; [|intros [= <- <-]; by right].
    destruct (findRecentlyUsedPair k8s req nc) as [f []] eqn:F; [|destruct f; intros [= <- <-]; by right].
    intros [= <- <-]. left. split; [done|]. split; [done|]. right. by rewrite F.
Qed.

(** Two lists of images of the same definitions, with a further relation. *)
Definition same_base (Q : NodeImage -> Prop) (g i : NodeImage) : Prop :=
  trimVersionSuffix (im_id i) = trimVersionSuffix (im_id g) /\ Q i.

Lemma replaceSuffixes_spec images v l :
  replaceSuffixes images v = Some l ->
  Forall2 (same_base (fun i => parseVersion (im_id i) = v)) images l.
Proof.
  unfold replaceSuffixes. destruct ((v ==? "") || Contains v "/") eqn:C; [done|].
  apply orb_false_iff in C as [_ Fv%Contains_free]. intros M%mapM_Some_1.
  apply (Forall2_impl _ _ _ _ M). intros g i R. by apply (replace_version_spec v g i Fv) in R as (? & ? & _).
Qed.

Lemma same_base_based Q gs l :
  Forall2 (same_base Q) gs l -> Forall (fun i => based (im_id i)) gs -> Forall (fun i => based (im_id i)) l.
Proof.
  induction 1 as [|g i gs l [E _] F IH]; [done|]. intros [B Bs]%Forall_cons.
  constructor; [|by apply IH]. unfold based. by rewrite E.
Qed.

(** An image kept instead of a pinned one is of the same definition. *)
Lemma held_pinned old req gs l l' :
  Forall2 (same_base (fun i => parseVersion (im_id i) = req)) gs l -> Forall2 (held old) l l' ->
  Forall2 (same_base (fun i => parseVersion (im_id i) = req \/ i ∈ old)) gs l'.
Proof.
  intros F. revert l'. induction F as [|g i gs l [E V] F IH]; intros l' G; [inversion G; constructor|].
  inversion G as [|? i' ? l2 [E' K] G']; subst. constructor; [|by apply IH].
  split; [congruence|]. destruct K as [?|[-> _]]; auto.
Qed.

(** A pinned image version: the pin is followed only if it is allowed;
    then, if images are not ready, the first image in use is of another
    version or the maintenance window is open, every listed definition is
    used at the pinned version; otherwise the first image in use has it, and
    each other image is at it or was already in use. *)
Theorem image_pin_followed now nc listed req k8s :
  nc_imageID nc = None -> IsFIPSEnabled nc && negb UseSIG = false ->
  requestedVersions nc = (req, k8s) -> req <> "" -> List nc = Ok listed ->
  Forall (fun i => based (im_id i)) (nc_images nc) -> Forall (fun i => based (li_id i)) listed ->
  exists o nc', Reconcile now nc = Some (o, nc') /\
  (nc_images nc' = nc_images nc \/
   pin_allowed req k8s nc /\ settled o nc' /\
   (Forall2 (same_base (fun i => parseVersion (im_id i) = req)) (nodeImageStatus listed) (nc_images nc') \/
    imageVersionsUnready nc = false /\ first_version (nc_images nc) = req /\ window now = Ok false /\
    Forall2 (same_base (fun i => parseVersion (im_id i) = req \/ i ∈ nc_images nc))
      (nodeImageStatus listed) (nc_images nc'))).
Proof.
  intros Hid Hf Hr Hreq Hl Bo Bl. unfold NodeImage_Reconcile. rewrite Hid, Hf, Hr.
  rewrite bool_decide_eq_false_2 by done. cbn [negb andb].
  destruct (validatePinning req k8s nc) as [b nc1] eqn:V.
  apply validatePinning_spec in V as [(-> & -> & A)|[-> I]]; [|by eexists _, _; split; [done|left]|done].
  cbn [negb]. rewrite Hl. unfold applyImagePinning. rewrite bool_decide_eq_false_2 by done.
  destruct (replaceSuffixes (nodeImageStatus listed) req) as [goal|] eqn:R; [|by eexists _, _; split; [done|left]].
  apply replaceSuffixes_spec in R. cbn [negb]. rewrite orb_false_r.
  assert (Bg : Forall (fun i => based (im_id i)) goal).
  { eapply same_base_based; [exact R|]. unfold nodeImageStatus. by apply Forall_map. }
  cbn [andb]. edestruct (settle_spec now goal) as (o & nc' & -> & S); [exact Bo|exact Bg|].
  eexists _, _. split; [done|]. destruct (imageVersionsUnready nc || pinningShouldUpdate nc req) eqn:U.
  - destruct S as [S ->]. right. split; [done|]. split; [done|]. by left.
  - apply orb_false_iff in U as [U1 U2]. destruct (window now) as [[]|e] eqn:W.
    + destruct S as [S ->]. right. split; [done|]. split; [done|]. by left.
    + destruct S as [S F]. right. split; [done|]. split; [done|]. right.
      split; [exact U1|]. split; [|split; [done|exact (held_pinned _ _ _ _ _ R F)]].
      unfold pinningShouldUpdate in U2. destruct (nc_images nc) as [|i l]; [done|]. by apply negb_false_iff, bool_decide_eq_true in U2.
    + destruct S as [_ ->]. by left.
Qed.

End Images.

End Laws.

(** ** Concrete instances *)

Definition digit (a : ascii) : option Z :=
  let n := Z.of_nat (nat_of_ascii a) - 48 in if (0 <=? n) && (n <=? 9) then Some n else None.
Fixpoint number (acc : Z) (s : string) : option Z :=
  match s with
  | EmptyString => Some acc
  | String a s' => d ← digit a; number (acc * 10 + d) s'
  end.

(** Versions of three numbers. *)
#[export] Instance triple_semver : Semver := {|
  version := Z * Z * Z;
  Parse s := match Split s "." with
             | [a; b; c] => x ← number 0 a; y ← number 0 b; z ← number 0 c; Some (x, u64 y, z)
             | _ => None
             end;
  Major v := v.1.1; Minor v := u64 v.1.2; Patch v := v.2;
  Compare v w := if v ==? w then 0
                 else if lex_less [v.1.1; v.1.2; v.2] [w.1.1; w.1.2; w.2] then -1 else 1
|}.
#[export] Instance triple_semver_laws : SemverLaws (H := triple_semver).
Proof.
  split; intros v; simpl; [by rewrite bool_decide_eq_true_2|].
  apply u64_range.
Qed.

Definition image_id (definition v : string) : string :=
  "/CommunityGalleries/AKSUbuntu/images/" +:+ definition +:+ "/versions/" +:+ v.
Definition demo_conditions (reason : string) : conditions :=
  <[ConditionTypeImagesReady := mk_condition CTrue reason 1]>
    {[ConditionTypeKubernetesVersionReady := mk_condition CTrue ConditionTypeKubernetesVersionReady 1]}.
Definition demo_class (v : option Versions) (images : list NodeImage) : NodeClass :=
  mk_nodeclass 1 None None None v images None (Some "1.30.2") (demo_conditions ConditionTypeImagesReady).
Definition gen2 (v : string) : NodeImage := mk_image (image_id "2204gen2containerd" v) [].
Definition arm64 (v : string) : NodeImage := mk_image (image_id "2204gen2arm64containerd" v) [].
Definition demo_listing (_ : NodeClass) : result string (list ListedImage) :=
  Ok [mk_listed (im_id (gen2 "v2")) []; mk_listed (im_id (arm64 "v2")) []].
(** A maintenance window in the future: only instant 150 is inside. *)
Definition demo_time (s : string) : result string Z := Ok (if s ==? "start" then 100 else 200).
Definition demo_map : result string (option (gmap string string)) :=
  Ok (Some {[nodeOSMaintenanceWindowChannel +:+ "-start" := "start";
             nodeOSMaintenanceWindowChannel +:+ "-end" := "end"]}).

(** Read a field of the result of a concrete run. *)
Lemma result_field {A} (f : NodeClass -> A) m o nc' v :
  m = Some (o, nc') -> fmap (fun r : outcome * NodeClass => f r.2) m = Some v -> f nc' = v.
Proof. intros ->. simpl. congruence. Qed.

(** Evaluate the test that a conclusion branches on. *)
Ltac decide_branch H v :=
  match type of H with
  | match ?x with _ => _ end => let W := fresh in assert (W : x = v) by (by vm_compute); rewrite W in H; clear W
  end.

#[local] Abbreviation k8s_run server nc := (KubernetesVersion_Reconcile (Ok server) (fun _ => Ok true) nc).
#[local] Abbreviation image_run now nc :=
  (NodeImage_Reconcile demo_listing true "kube-system" demo_time demo_map now nc).

Lemma kubernetes_never_downgraded_witness :
  exists o nc', k8s_run "1.29.9" (demo_class None [gen2 "v1"]) = Some (o, nc') /\
    nc_images nc' = [gen2 "v1"] /\ nc_kubernetes nc' = Some "1.30.2".
Proof.
  destruct (kubernetes_never_downgraded (Ok "1.29.9") (fun _ => Ok true) (demo_class None [gen2 "v1"]) eq_refl)
    as (o & nc' & E & I & _).
  exists o, nc'. split; [exact E|]. split; [exact I|]. apply (result_field _ _ _ _ _ E). by vm_compute.
Defined.

Definition demo_pinned : NodeClass := demo_class (Some (mk_versions (Some "1.29.9") None)) [gen2 "v1"].

Lemma kubernetes_pin_checked_witness :
  exists o nc', k8s_run "1.31.1" demo_pinned = Some (o, nc') /\
    nc_kubernetes nc' = Some "1.29.9" /\ GetKubernetesVersion nc' = Ok "1.29.9".
Proof.
  destruct (kubernetes_pin_checked (Ok "1.31.1") (fun _ => Ok true) demo_pinned "" "1.29.9" eq_refl ltac:(done))
    as (o & nc' & E & [[N _]|(_ & K & G & _)]); [|by exists o, nc'].
  exfalso. assert (K : nc_kubernetes nc' = Some "1.29.9") by (apply (result_field _ _ _ _ _ E); by vm_compute).
  rewrite K in N. discriminate N.
Defined.

Lemma demo_based (nc : NodeClass) :
  forallb (fun i => bool_decide (is_Some (trimVersionSuffix (im_id i)))) (nc_images nc) = true ->
  Forall (fun i => based (im_id i)) (nc_images nc).
Proof.
  intros H. apply Forall_forall. intros i Hi%list_elem_of_In.
  rewrite List.forallb_forall in H. by apply H, bool_decide_eq_true in Hi.
Qed.
Lemma demo_listed_based :
  Forall (fun i => based (li_id i)) [mk_listed (im_id (gen2 "v2")) []; mk_listed (im_id (arm64 "v2")) []].
Proof. repeat constructor; unfold based; vm_compute; by eexists. Qed.


(** A pin to the version of the first image, outside the window: the second
    image keeps its other version although images are reported pinned. *)
Definition demo_mixed : NodeClass :=
  demo_class (Some (mk_versions (Some "1.30.2") (Some "v1"))) [gen2 "v1"; arm64 "v2"].

Lemma image_pin_partial :
  fmap (fun r : outcome * NodeClass =>
    (Get ConditionTypeImagesReady r.2, map (fun i => parseVersion (im_id i)) (nc_images r.2)))
    (image_run 50 demo_mixed) = Some (mk_condition CTrue nodeImageVersionPinnedReason 1, ["v1"; "v2"]).
Proof. by vm_compute. Qed.

Lemma image_pin_followed_witness :
  exists o nc', image_run 150 demo_mixed = Some (o, nc') /\
    Forall2 (same_base (fun i => parseVersion (im_id i) = "v1"))
      (nodeImageStatus [mk_listed (im_id (gen2 "v2")) []; mk_listed (im_id (arm64 "v2")) []]) (nc_images nc').
Proof.
  destruct (image_pin_followed demo_listing true "kube-system" demo_time demo_map 150 demo_mixed _ "v1" "1.30.2"
      eq_refl eq_refl eq_refl ltac:(done) eq_refl (demo_based demo_mixed ltac:(by vm_compute)) demo_listed_based)
    as (o & nc' & E & [F|(_ & _ & [F|(_ & _ & W & _)])]); [|by exists o, nc'|].
  - assert (I : map (fun i => parseVersion (im_id i)) (nc_images nc') = ["v1"; "v1"])
      by (apply (result_field (fun nc => map _ (nc_images nc)) _ _ _ _ E); by vm_compute).
    rewrite F in I. discriminate I.
  - vm_compute in W. discriminate W.
Defined.

End NodeVersions.
