(* ===== verification/Reservation.v ===== *)
(** * Capacity reservation groups
      ([pkg/controllers/nodeclass/status/capacityreservationgroup.go])

    The reconciler resolves the group a NodeClass names into its status and,
    when what was resolved changes, makes [Unavailable] forget the failures
    recorded inside the group.  Parameters: ARM's resource ID parser, the two
    Azure clients (by their answers) and the instance type provider. *)

From S2P Require Import Prelude GoString GoSort GoCache Cloud Conditions Unavailable.
#[local] Open Scope string_scope.
#[local] Open Scope list_scope.
#[local] Open Scope Z_scope.

Module Reservation.
Import Unavailable.

(** ** Data *)

Definition ConditionTypeCapacityReservationGroupReady : string := "CapacityReservationGroupReady".
Definition CapacityReservationProvisioningStateSucceeded : string := "Succeeded".

Record CapacityReservation := mk_reservation {
  cr_id : string;
  cr_name : string;
  cr_vmSize : string;
  cr_zones : list string;
  cr_quantity : option Z;
  cr_provisioningState : option string
}.
Record CapacityReservationGroup := mk_group {
  g_id : string;
  g_location : string;
  g_zones : list string;
  g_reservations : list CapacityReservation
}.
#[export] Instance CapacityReservation_eq_dec : EqDecision CapacityReservation.
Proof. solve_decision. Defined.
#[export] Instance CapacityReservationGroup_eq_dec : EqDecision CapacityReservationGroup.
Proof. solve_decision. Defined.

Definition IsEligible (cr : CapacityReservation) : bool :=
  match cr_provisioningState cr with
  | None => false
  | Some s => EqualFold s CapacityReservationProvisioningStateSucceeded
  end.

(** What ARM answers: a member (nil: [None]), a group, and an error, which is
    a response error with its status and code or something else. *)
Record armSKU := mk_arm_sku { as_name : option string; as_capacity : option Z }.
Record armReservation := mk_arm_reservation {
  ar_sku : option armSKU;
  ar_id : option string;
  ar_name : option string;
  ar_zones : list (option string);
  ar_properties : option (option string)
}.
Record armGroup := mk_arm_group {
  ag_id : option string;
  ag_location : option string;
  ag_zones : list (option string);
  ag_properties : option (option string)
}.
Record ResponseError := mk_response { StatusCode : Z; ErrorCode : string }.
Record azError := mk_az_error { az_response : option ResponseError; az_text : string }.
Record ResourceID := mk_resource_id {
  SubscriptionID : string;
  ResourceGroupName : string;
  Name : string;
  ResourceType : string
}.

Definition sortedNonNilStrings (values : list (option string)) : list string := Strings (omap id values).

Definition capacityReservationFromARM (cr : option armReservation) : option CapacityReservation :=
  match cr with
  | None => None
  | Some cr =>
      match ar_sku cr with
      | None => None
      | Some sku =>
          if (from_ptr "" (as_name sku) ==? "") || (from_ptr "" (ar_id cr) ==? "") || (from_ptr "" (ar_name cr) ==? "")
          then None
          else
            Some (mk_reservation (from_ptr "" (ar_id cr)) (from_ptr "" (ar_name cr)) (from_ptr "" (as_name sku))
                    (sortedNonNilStrings (ar_zones cr)) (as_capacity sku)
                    (match ar_properties cr with
                     | Some st => if from_ptr "" st !=? "" then st else None
                     | None => None
                     end))
      end
  end.

(** The pages of the listing, up to the first error, sorted by ID. *)
Fixpoint all_pages (pages : list (result azError (list (option armReservation)))) :
    result azError (list CapacityReservation) :=
  match pages with
  | [] => Ok []
  | Err e :: _ => Err e
  | Ok page :: rest =>
      match all_pages rest with
      | Err e => Err e
      | Ok l => Ok (omap capacityReservationFromARM page ++ l)
      end
  end.
Definition listReservations `{GoSort} (pages : list (result azError (list (option armReservation)))) :
    result azError (list CapacityReservation) :=
  match all_pages pages with
  | Err e => Err e
  | Ok l => Ok (Slice (fun a b => string_less (cr_id a) (cr_id b)) l)
  end.

(** ** The reconciler *)

Definition Minute : Z := 60 * 1000000000.
Definition unreadyRequeueInterval : Z := Minute.
Definition healthyRequeueInterval : Z := 3 * Minute.
Definition capacityReservationGroupResourceType : string := "capacityReservationGroups".
Definition ReservationTypeTargeted : string := "Targeted".
Definition StatusNotFound : Z := 404.
Definition StatusForbidden : Z := 403.
Definition StatusUnauthorized : Z := 401.

Inductive reason :=
| IDInvalid | GroupNotFound | AccessDenied | RegionMismatch | SubscriptionMismatch | UnsupportedType
| NoReservations | NoEligibleReservations | NoCompatibleReservations | UnsupportedCloud | UnknownError.
Definition reason_name (r : reason) : string :=
  "CapacityReservationGroup" +:+
  match r with
  | IDInvalid => "IDInvalid" | GroupNotFound => "NotFound" | AccessDenied => "AccessDenied"
  | RegionMismatch => "RegionMismatch" | SubscriptionMismatch => "SubscriptionMismatch"
  | UnsupportedType => "UnsupportedReservationType" | NoReservations => "NoReservations"
  | NoEligibleReservations => "NoEligibleReservations" | NoCompatibleReservations => "NoCompatibleReservations"
  | UnsupportedCloud => "UnsupportedCloud" | UnknownError => "UnknownError"
  end.

Section Reconciler.
Context `{ConditionSet} `{TTLCache} `{GoSort}.

(** What the reconciler reads and writes: the NodeClass (generation,
    [spec.capacityReservation] with its group ID, resolved group, conditions),
    the cache of unavailable offerings, and whether the cloud turned out not
    to support groups. *)
Record State := mk_state {
  generation : Z;
  spec : option (option string);
  group : option CapacityReservationGroup;
  conds : conditions;
  offerings : UnavailableOfferings;
  unsupportedCloud : bool
}.
Definition set_group (g : option CapacityReservationGroup) (s : State) : State :=
  mk_state (generation s) (spec s) g (conds s) (offerings s) (unsupportedCloud s).
Definition set_conds (c : conditions) (s : State) : State :=
  mk_state (generation s) (spec s) (group s) c (offerings s) (unsupportedCloud s).
Definition set_offerings (u : UnavailableOfferings) (s : State) : State :=
  mk_state (generation s) (spec s) (group s) (conds s) u (unsupportedCloud s).
Definition set_unsupported (s : State) : State :=
  mk_state (generation s) (spec s) (group s) (conds s) (offerings s) true.

Definition GetCapacityReservationGroupID (s : State) : string :=
  match spec s with None => "" | Some id => from_ptr "" id end.

Variable subscriptionID : string.
Variable location : string.
Variable ParseResourceID : string -> option ResourceID.
Variable GetGroup : string -> string -> result azError armGroup.
Variable ListPages : string -> string -> list (result azError (list (option armReservation))).
Variable ListInstanceTypes : State -> result string (list string).
Variable now : Z.

Definition condition_false (r : reason) (s : State) : State :=
  set_conds (cond_false (generation s) ConditionTypeCapacityReservationGroupReady (reason_name r) (conds s)) s.
Definition condition_true (s : State) : State :=
  set_conds (cond_true (generation s) ConditionTypeCapacityReservationGroupReady
               ConditionTypeCapacityReservationGroupReady (conds s)) s.

Definition invalidate (s : State) : State :=
  set_offerings (InvalidateCapacityReservationGroup now (offerings s) (GetCapacityReservationGroupID s)) s.

Definition setFalse (r : reason) (s : State) : State :=
  let s := match group s with Some _ => invalidate s | None => s end in
  condition_false r (set_group None s).

(** When to come back, and the error. *)
Definition outcome : Type := Z * option string.

Definition is_denied (r : ResponseError) : bool :=
  (StatusCode r =? StatusForbidden) || (StatusCode r =? StatusUnauthorized).

Definition get_failed (e : azError) (s : State) : outcome * State :=
  let unknown := ((0, Some (az_text e)), setFalse UnknownError s) in
  match az_response e with
  | None => unknown
  | Some r =>
      if EqualFold (ErrorCode r) "InvalidResourceType" || EqualFold (ErrorCode r) "NoRegisteredProviderFound"
      then ((0, None), setFalse UnsupportedCloud (set_unsupported s))
      else if StatusCode r =? StatusNotFound then ((unreadyRequeueInterval, None), setFalse GroupNotFound s)
      else if is_denied r then ((unreadyRequeueInterval, None), setFalse AccessDenied s)
      else unknown
  end.

Definition list_failed (e : azError) (s : State) : outcome * State :=
  let unknown := ((0, Some (az_text e)), setFalse UnknownError s) in
  match az_response e with
  | None => unknown
  | Some r => if is_denied r then ((unreadyRequeueInterval, None), setFalse AccessDenied s) else unknown
  end.

(** Recording the resolved group: a different shape under the same ID makes
    the recorded failures stale. *)
Definition resolve (resolved : CapacityReservationGroup) (s : State) : State :=
  let s :=
    match group s with
    | None => s
    | Some previous =>
        if EqualFold (g_id previous) (g_id resolved) && (previous !=? resolved) then invalidate s else s
    end in
  set_group (Some resolved) s.

(** From the listed members to the end. *)
Definition judge (reservations : list CapacityReservation) (s : State) : outcome * State :=
  if negb (existsb IsEligible reservations) then
    ((unreadyRequeueInterval, None), condition_false NoEligibleReservations s)
  else
    match ListInstanceTypes s with
    | Err e => ((0, Some e), condition_false UnknownError s)
    | Ok [] => ((unreadyRequeueInterval, None), condition_false NoCompatibleReservations s)
    | Ok _ => ((healthyRequeueInterval, None), condition_true s)
    end.

(** The group ARM gave, resolved with its members. *)
Definition resolved_group (crgID : string) (g : armGroup) (reservations : list CapacityReservation) :
    CapacityReservationGroup :=
  mk_group (if from_ptr "" (ag_id g) ==? "" then crgID else from_ptr "" (ag_id g))
    (from_ptr "" (ag_location g)) (sortedNonNilStrings (ag_zones g)) reservations.

(** An explicit reservation type other than Targeted. *)
Definition unsupported_type (g : armGroup) : bool :=
  match ag_properties g with Some (Some t) => t !=? ReservationTypeTargeted | _ => false end.

Definition Reconcile (s : State) : outcome * State :=
  match spec s with
  | None =>
      ((0, None), set_conds (cond_clear ConditionTypeCapacityReservationGroupReady (conds s)) (set_group None s))
  | Some _ =>
      let crgID := GetCapacityReservationGroupID s in
      match ParseResourceID crgID with
      | None => ((0, None), setFalse IDInvalid s)
      | Some rid =>
          if negb (EqualFold (ResourceType rid) capacityReservationGroupResourceType) then
            ((0, None), setFalse IDInvalid s)
          else if negb (EqualFold (SubscriptionID rid) subscriptionID) then
            ((0, None), setFalse SubscriptionMismatch s)
          else if unsupportedCloud s then ((0, None), setFalse UnsupportedCloud s)
          else
            match GetGroup (ResourceGroupName rid) (Name rid) with
            | Err e => get_failed e s
            | Ok g =>
                if negb (EqualFold (from_ptr "" (ag_location g)) location) then
                  ((0, None), setFalse RegionMismatch s)
                else if unsupported_type g then ((0, None), setFalse UnsupportedType s)
                else
                  match listReservations (ListPages (ResourceGroupName rid) (Name rid)) with
                  | Err e => list_failed e s
                  | Ok [] => ((unreadyRequeueInterval, None), setFalse NoReservations s)
                  | Ok reservations =>
                      judge reservations (resolve (resolved_group crgID g reservations) s)
                  end
            end
      end
  end.

End Reconciler.
(** ** Theorems *)

Section Laws.
Context `{!ConditionSet, !ConditionLaws, !TTLCache, !TTLCacheLaws, !GoSort}.
Variable subscriptionID location : string.
Variable ParseResourceID : string -> option ResourceID.
Variable GetGroup : string -> string -> result azError armGroup.
Variable ListPages : string -> string -> list (result azError (list (option armReservation))).
Variable ListInstanceTypes : State -> result string (list string).
Variable now : Z.
#[local] Abbreviation Reconcile :=
  (Reconcile subscriptionID location ParseResourceID GetGroup ListPages ListInstanceTypes now).

Definition ready_condition (s : State) : Condition :=
  cond_get ConditionTypeCapacityReservationGroupReady (conds s).

(** The group the NodeClass names, resolved through ARM: in this subscription
    and location, with members. *)
Definition resolves (s : State) (g : armGroup) (rs : list CapacityReservation) : Prop :=
  exists rid, ParseResourceID (GetCapacityReservationGroupID s) = Some rid /\
    EqualFold (ResourceType rid) capacityReservationGroupResourceType = true /\
    EqualFold (SubscriptionID rid) subscriptionID = true /\
    unsupportedCloud s = false /\
    GetGroup (ResourceGroupName rid) (Name rid) = Ok g /\
    EqualFold (from_ptr "" (ag_location g)) location = true /\ unsupported_type g = false /\
    listReservations (ListPages (ResourceGroupName rid) (Name rid)) = Ok rs /\ rs <> [].

(** A reconcile either fails closed, or judges the resolved group. *)
Inductive course (s : State) : outcome * State -> Prop :=
| course_closed o r s0 :
    (s0 = s \/ s0 = set_unsupported s) -> course s (o, setFalse now r s0)
| course_resolved g rs :
    resolves s g rs ->
    course s (judge ListInstanceTypes rs (resolve now (resolved_group (GetCapacityReservationGroupID s) g rs) s)).

Lemma reconcile_course s : spec s <> None -> course s (Reconcile s).
Proof.
  intros Hs. unfold Reservation.Reconcile. destruct (spec s); [|done].
  destruct (ParseResourceID _) as [rid|] eqn:P; [|constructor; by left].
  destruct (EqualFold (ResourceType rid) _) eqn:T; cbn [negb]; [|constructor; by left].
  destruct (EqualFold (SubscriptionID rid) _) eqn:S; cbn [negb]; [|constructor; by left].
  destruct (unsupportedCloud s) eqn:U; [constructor; by left|].
  destruct (GetGroup _ _) as [g|e] eqn:G.
  2: { unfold get_failed. repeat case_match; constructor; auto. }
  destruct (EqualFold (from_ptr "" (ag_location g)) location) eqn:L; cbn [negb]; [|constructor; by left].
  destruct (unsupported_type g) eqn:Y; [constructor; by left|].
  destruct (listReservations _) as [rs|e] eqn:R.
  2: { unfold list_failed. repeat case_match; constructor; auto. }
  destruct rs as [|r rs]; [constructor; by left|]. apply course_resolved. by exists rid.
Qed.

Lemma resolve_fields g s :
  generation (resolve now g s) = generation s /\ group (resolve now g s) = Some g /\
  conds (resolve now g s) = conds s /\ spec (resolve now g s) = spec s.
Proof. unfold resolve. destruct (group s) as [p|]; [|done]. by destruct (_ && _). Qed.

Lemma setFalse_fields r s :
  group (setFalse now r s) = None /\
  ready_condition (setFalse now r s) = mk_condition CFalse (reason_name r) (generation s) /\
  offerings (setFalse now r s) =
    match group s with
    | Some _ => InvalidateCapacityReservationGroup now (offerings s) (GetCapacityReservationGroupID s)
    | None => offerings s
    end.
Proof.
  unfold setFalse, ready_condition. destruct (group s); (split; [done|]); (split; [|done]); by apply get_false_eq.
Qed.

Lemma judge_fields rs s o s' :
  judge ListInstanceTypes rs s = (o, s') ->
  group s' = group s /\ offerings s' = offerings s /\
  ((exists r, ready_condition s' = mk_condition CFalse (reason_name r) (generation s)) \/
   (ready_condition s' = mk_condition CTrue ConditionTypeCapacityReservationGroupReady (generation s) /\
    existsb IsEligible rs = true /\ (exists i its, ListInstanceTypes s = Ok (i :: its)) /\
    o = (healthyRequeueInterval, None))).
Proof.
  unfold judge, ready_condition. destruct (existsb IsEligible rs); cbn [negb].
  2: { intros [= <- <-]. split; [done|]. split; [done|]. left. eexists. by apply get_false_eq. }
  destruct (ListInstanceTypes s) as [[|i its]|e] eqn:L; intros [= <- <-]; (split; [done|]); (split; [done|]);
    [left; eexists; by apply get_false_eq| |left; eexists; by apply get_false_eq].
  right. split; [by apply get_true_eq|]. split; [done|]. split; [by eexists _, _|done].
Qed.

(** A reservation group is ready only when it can back a launch: the
    readiness condition is set at the NodeClass's generation by every
    reconcile; it is true only if the named group was resolved in this
    subscription and location, is what the status records, has an eligible
    member and backs some instance type; and a status without a group is
    never ready. *)
Theorem reservation_ready_sound s o s' :
  spec s <> None -> Reconcile s = (o, s') ->
  c_generation (ready_condition s') = generation s /\
  (group s' = None -> c_status (ready_condition s') = CFalse) /\
  (forall grp, group s' = Some grp -> exists g rs, resolves s g rs /\
     grp = resolved_group (GetCapacityReservationGroupID s) g rs) /\
  (c_status (ready_condition s') = CTrue ->
     exists g rs, resolves s g rs /\ group s' = Some (resolved_group (GetCapacityReservationGroupID s) g rs) /\
       existsb IsEligible rs = true /\ o = (healthyRequeueInterval, None) /\
       exists s1 i its, group s1 = group s' /\ ListInstanceTypes s1 = Ok (i :: its)).
Proof.
  intros Hs E. pose proof (reconcile_course s Hs) as C. rewrite E in C.
  inversion C as [? r s0 Hs0|g rs Rs J]; subst.
  - destruct (setFalse_fields r s0) as (G & R & _). rewrite G, R.
    assert (generation s0 = generation s) as -> by (by destruct Hs0 as [-> | ->]). by repeat split.
  - apply judge_fields in J as (G & _ & J).
    destruct (resolve_fields (resolved_group (GetCapacityReservationGroupID s) g rs) s) as (F1 & F2 & _).
    rewrite F1, F2 in *. rewrite G. destruct J as [[r ->]|(-> & El & (i & its & L) & ->)].
    + simpl. split; [done|]. split; [done|]. split; [|done]. intros grp [= <-]. by exists g, rs.
    + simpl. split; [done|]. split; [done|]. split; [intros grp [= <-]; by exists g, rs|]. intros _.
      exists g, rs. split; [done|]. split; [done|]. split; [done|]. split; [done|]. by eexists _, i, its.
Qed.

(** The shape recorded under the group's ID changed or went away. *)
Definition shape_changed (before after : option CapacityReservationGroup) : bool :=
  match before, after with
  | None, _ => false
  | Some _, None => true
  | Some g, Some g' => EqualFold (g_id g) (g_id g') && (g !=? g')
  end.

Lemma reconcile_offerings s :
  spec s <> None ->
  offerings (Reconcile s).2 =
  if shape_changed (group s) (group (Reconcile s).2)
  then InvalidateCapacityReservationGroup now (offerings s) (GetCapacityReservationGroupID s)
  else offerings s.
Proof.
  intros Hs. destruct (reconcile_course s Hs) as [o r s0 Hs0|g rs Rs].
  - cbn [snd]. destruct (setFalse_fields r s0) as (-> & _ & ->).
    destruct Hs0 as [-> | ->]; simpl; by destruct (group s).
  - destruct (judge _ rs _) as [o s'] eqn:J. apply judge_fields in J as (G & O & _). cbn [snd]. rewrite G, O.
    unfold resolve. destruct (group s) as [p|]; simpl; [|done]. by destruct (_ && _).
Qed.

(** A changed reservation group starts afresh: when the shape recorded for
    the group changes or is withdrawn, the failures recorded inside the group
    are forgotten (the restrictions of every scope remain); any other query,
    and every query when the shape stays, keeps its answer. *)
Theorem reservation_change_forgets s t q :
  let s' := (Reconcile s).2 in let id := GetCapacityReservationGroupID s in
  spec s <> None -> wf_query q = true -> q_scope q = ToLower (q_scope q) ->
  free_of ":"%char id = true -> now <= t ->
  answer t (offerings s') q =
  if shape_changed (group s) (group s') && (id !=? "") && (q_scope q ==? ForCapacityReservationGroup id)
  then tc_has t (zone_key q) (singleOfferingCache (offerings s)) ||
       ((q_ct q ==? CapacityTypeSpot) && tc_has t spotKey (singleOfferingCache (offerings s)))
  else answer t (offerings s) q.
Proof.
  cbv zeta. intros Hs W L F Ht. rewrite reconcile_offerings by done.
  destruct (shape_changed _ _); cbn [andb]; [|done]. by apply invalidate_answer.
Qed.

End Laws.

(** ** Concrete instances *)

Definition demo_member : CapacityReservation :=
  mk_reservation "/crg/a/r1" "r1" "Standard_D8s_v5" ["1"] (Some 3) (Some "Succeeded").
Definition demo_arm_member : armReservation :=
  mk_arm_reservation (Some (mk_arm_sku (Some "Standard_D8s_v5") (Some 3))) (Some "/crg/a/r1") (Some "r1")
    [Some "1"] (Some (Some "Succeeded")).
Definition demo_group (members : list CapacityReservation) : CapacityReservationGroup :=
  mk_group "/CRG/A" "eastus" ["1"] members.
(** The group was seen without members; failures were recorded in it. *)
Definition demo_state : State :=
  mk_state 7 (Some (Some "/crg/a")) (Some (demo_group [])) (∅ : gmap string Condition)
    (mark 10 NewUnavailableOfferings w_group Hour) false.
#[local] Abbreviation demo_reconcile :=
  (Reconcile "SUB" "EastUS" (fun _ => Some (mk_resource_id "sub" "rg" "a" "CapacityReservationGroups"))
     (fun _ _ => Ok (mk_arm_group (Some "/CRG/A") (Some "eastus") [Some "1"; None] None))
     (fun _ _ => [Ok [Some demo_arm_member; None]]) (fun _ => Ok ["Standard_D8s_v5"]) 20 demo_state).

Lemma reservation_ready_sound_witness :
  exists o s', demo_reconcile = (o, s') /\ group s' = Some (demo_group [demo_member]) /\
    c_status (ready_condition s') = CTrue /\ c_generation (ready_condition s') = 7.
Proof.
  destruct demo_reconcile as [o s'] eqn:E. exists o, s'. split; [done|].
  destruct (reservation_ready_sound _ _ _ _ _ _ _ demo_state o s' ltac:(done) E) as (G & _).
  change (generation demo_state) with 7 in G. rewrite G.
  assert (F : forall (A : Type) (f : outcome * State -> A), f demo_reconcile = f (o, s')) by (intros; by rewrite E).
  pose proof (F _ (fun r => group r.2)) as F1. pose proof (F _ (fun r => c_status (ready_condition r.2))) as F2.
  cbn [snd] in F1, F2. rewrite <- F1, <- F2. by vm_compute.
Defined.

Lemma reservation_change_forgets_witness :
  answer 20 (offerings demo_state) w_group = true /\
  answer 20 (offerings demo_reconcile.2) w_group = false.
Proof.
  split; [by vm_compute|].
  rewrite reservation_change_forgets; [by vm_compute|done|by vm_compute|by vm_compute|by vm_compute|lia].
Defined.

End Reservation.
