(* ===== verification/GarbageCollection.v ===== *)
(** * Garbage collection ([pkg/controllers/nodeclaim/garbagecollection],
      [pkg/providers/instance/publicip.go], [pkg/controllers/nodeclass/termination])

    Instances, network interfaces and public IPs that nothing in the cluster
    owns any more are deleted.  A pass takes what the listings and the other
    calls answer and returns the deletions it makes and its error.  Workers
    run in parallel on different items; the deletions are given in the order
    of the items.  Logging and events are left out. *)

From S2P Require Import Prelude GoString AKSMachine ResourceIDs.
#[local] Open Scope string_scope.
#[local] Open Scope list_scope.
#[local] Open Scope Z_scope.

Module GarbageCollection.
Import ResourceIDs.

Definition Second : Z := 1000000000.
Definition Minute : Z := 60 * Second.

Inductive action :=
| DeleteInstance (providerID : string)
| DeleteNode (name : string)
| DeleteNic (name : string)
| DeleteIP (name : string).

(** ** Instances *)

(** A NodeClaim made from a cloud instance; [cc_creation] is an instant and
    [cc_deletion] is [None] for the zero time. *)
Record CloudClaim := mk_claim {
  cc_providerID : string;
  cc_creation : Z;
  cc_deletion : option Z;
  cc_annotations : gmap string string
}.
Record Node := mk_node { no_name : string; no_providerID : string }.

Definition VMStateDeleted : string := "Deleted".
Definition AKSMachineVMStateListInterval : Z := 5 * Minute.

Definition isAKSMachineVMDeleted (nc : CloudClaim) : bool :=
  default "" (cc_annotations nc !! AKSMachine.AnnotationAKSMachineVMState) ==? VMStateDeleted.

(** Which listing a pass makes, and the new time of the last expanded one
    ([None]: never). *)
Definition listCloudNodeClaims (now : Z) (last : option Z) : bool * option Z :=
  match last with
  | Some t => if AKSMachineVMStateListInterval <=? now - t then (true, Some now) else (false, last)
  | None => (true, Some now)
  end.

(** What deleting an instance or a node answers. *)
Inductive delete_answer := Deleted | Missing | DeleteFailed (e : string).

Section Instances.
Variable Delete : string -> delete_answer.
Variable DeleteNodeCall : string -> delete_answer.

Definition ignore_missing (a : delete_answer) : option string :=
  match a with DeleteFailed e => Some e | _ => None end.

Definition garbageCollect (nodes : list Node) (nc : CloudClaim) : list action * option string :=
  let delete := DeleteInstance (cc_providerID nc) in
  match Delete (cc_providerID nc) with
  | DeleteFailed e => ([delete], Some e)
  | Missing => ([delete], None)
  | Deleted =>
      match List.find (fun n => no_providerID n ==? cc_providerID nc) nodes with
      | None => ([delete], None)
      | Some n => ([delete; DeleteNode (no_name n)], ignore_missing (DeleteNodeCall (no_name n)))
      end
  end.

Definition still_there (nc : CloudClaim) : bool :=
  match cc_deletion nc with None => true | Some _ => isAKSMachineVMDeleted nc end.

Definition collectable (now : Z) (clusterProviderIDs : gset string) (nc : CloudClaim) : bool :=
  isAKSMachineVMDeleted nc ||
  (negb (bool_decide (cc_providerID nc ∈ clusterProviderIDs)) && (5 * Minute <? now - cc_creation nc)).

(** [Reconcile] of the instance controller, with the provider IDs of the
    cluster's NodeClaims.  An error of a listing ends the pass. *)
Definition Instance_Reconcile (now : Z) (cloud : result string (list CloudClaim))
    (cluster : result string (list string)) (nodes : result string (list Node)) :
    list action * result (list string) Z :=
  match cloud, cluster, nodes with
  | Err e, _, _ => ([], Err [e])
  | _, Err e, _ => ([], Err [e])
  | _, _, Err e => ([], Err [e])
  | Ok claims, Ok ids, Ok ns =>
      let present := list_to_set (filter (fun id => id <> "") ids) : gset string in
      let runs := map (garbageCollect ns)
        (filter (fun nc => Is_true (collectable now present nc)) (filter (fun nc => Is_true (still_there nc)) claims)) in
      (concat (map fst runs),
       match omap snd runs with [] => Ok (2 * Minute) | errs => Err errs end)
  end.

End Instances.

(** ** Public IPs *)

Record PublicIP := mk_ip { ip_name : option string; ip_tags : gmap string (option string); ip_attached : bool }.
Definition publicIPOwnerTag : string := "karpenter.azure.com_public-ip-owner".
Definition KarpenterManagedTagKey : string := "karpenter.azure.com_cluster".

Definition tag (a : PublicIP) (k : string) : string := from_ptr "" (default None (ip_tags a !! k)).
Definition ownedPublicIP (address : option PublicIP) (name cluster : string) : bool :=
  match address with
  | None => false
  | Some a => (tag a publicIPOwnerTag ==? name) && (tag a KarpenterManagedTagKey ==? cluster)
  end.

(** The answer of a GET: what it found, nothing there, or an error. *)
Inductive answer (A : Type) := There (a : A) | NotFound | Failed (e : string).
Arguments There {A} a.
Arguments NotFound {A}.
Arguments Failed {A} e.

Section PublicIPs.
Variable cluster : string.
Variable GetNic : string -> answer unit.
Variable GetIP : string -> answer PublicIP.
(** The start of a deletion, and the end of one that started. *)
Variable BeginDelete : string -> delete_answer.
Variable PollDelete : string -> delete_answer.

Definition deletePublicIP (name : string) : list action * option string :=
  match GetIP name with
  | NotFound => ([], None)
  | Failed e => ([], Some e)
  | There address =>
      if negb (ownedPublicIP (Some address) name cluster) then ([], None)
      else
        match BeginDelete name with
        | Missing => ([DeleteIP name], None)
        | DeleteFailed e => ([DeleteIP name], Some e)
        | Deleted => ([DeleteIP name], ignore_missing (PollDelete name))
        end
  end.

Definition publicIPIsOrphan (address : option PublicIP) (protected : gset string) : result string bool :=
  match address with
  | None => Ok false
  | Some a =>
      let name := from_ptr "" (ip_name a) in
      if name ==? "" then Ok false
      else if bool_decide (name ∈ protected) || negb (ownedPublicIP (Some a) name cluster) then Ok false
      else if ip_attached a then Ok false
      else match GetNic name with NotFound => Ok true | There _ => Ok false | Failed e => Err e end
  end.

(** One address of a page. *)
Definition cleanup_ip (protected : gset string) (address : option PublicIP) : list action * option string :=
  match publicIPIsOrphan address protected with
  | Err e => ([], Some e)
  | Ok false => ([], None)
  | Ok true =>
      match address with Some a => deletePublicIP (from_ptr "" (ip_name a)) | None => ([], None) end
  end.

(** The pages of the listing, up to the first error; the deletions and the
    failures, in order. *)
Fixpoint cleanup_pages (protected : gset string) (pages : list (result string (list (option PublicIP)))) :
    list action * list string :=
  match pages with
  | [] => ([], [])
  | Err e :: _ => ([], [e])
  | Ok page :: rest =>
      let runs := map (cleanup_ip protected) page in
      let '(acts, errs) := cleanup_pages protected rest in
      (concat (map fst runs) ++ acts, omap snd runs ++ errs)
  end.

(** [pages] is [None] when no client is configured. *)
Definition CleanupPublicIPs (protected : gset string)
    (pages : option (list (result string (list (option PublicIP))))) : list action * list string :=
  match pages with None => ([], []) | Some ps => cleanup_pages protected ps end.

(** ** Network interfaces *)

Definition NicGarbageCollectionInterval : Z := 5 * Minute.

Definition populateUnremovableInterfaces (vms : result string (list (option string)))
    (nodeClaims : result string (list string)) : result string (gset string) :=
  vs ← vms; ncs ← nodeClaims;
  Ok (list_to_set (map (from_ptr "") vs) ∪ list_to_set (map GenerateResourceName ncs)).

(** [Reconcile] of the network interface controller; a failed deletion of an
    interface is only logged. *)
Definition NetworkInterface_Reconcile (nics : result string (list (option string)))
    (vms : result string (list (option string))) (nodeClaims : result string (list string))
    (pages : option (list (result string (list (option PublicIP))))) :
    list action * result (list string) Z :=
  match nics, populateUnremovableInterfaces vms nodeClaims with
  | Err e, _ => ([], Err [e])
  | _, Err e => ([], Err [e])
  | Ok ns, Ok unremovable =>
      let deletions := map DeleteNic (filter (fun n => n ∉ unremovable) (map (from_ptr "") ns)) in
      let '(ips, errs) := CleanupPublicIPs unremovable pages in
      (deletions ++ ips, match errs with [] => Ok NicGarbageCollectionInterval | _ => Err errs end)
  end.

End PublicIPs.

(** ** Termination of a NodeClass *)

(** The patch that removes the finalizer: applied, refused as a conflict, or
    failed for another reason. *)
Inductive patch_answer := Patched | Conflict | PatchMissing | PatchFailed (e : string).

(** Returns whether the finalizer was removed, when to come back, the error.
    [nodeClaims] are those that use the NodeClass. *)
Definition Termination_Reconcile (deleting hasFinalizer : bool) (nodeClaims : result string (list string))
    (patch : patch_answer) : bool * Z * option string :=
  if negb deleting then (false, 0, None)
  else if negb hasFinalizer then (false, 0, None)
  else
    match nodeClaims with
    | Err e => (false, 0, Some e)
    | Ok (_ :: _) => (false, 10 * Minute, None)
    | Ok [] =>
        match patch with
        | Patched => (true, 0, None)
        | Conflict => (false, 10 * Second, None)
        | PatchMissing => (false, 0, None)
        | PatchFailed e => (false, 0, Some e)
        end
    end.

(** ** Safety *)

Lemma elem_of_runs {A} (f : A -> list action * option string) l a :
  a ∈ concat (map fst (map f l)) <-> exists x, x ∈ l /\ a ∈ (f x).1.
Proof.
  rewrite map_map, elem_of_concat. split.
  - intros (w & Ha & (x & -> & Hx)%list_elem_of_fmap). by exists x.
  - intros (x & Hx & Ha). exists (f x).1. split; [done|]. apply list_elem_of_fmap. by exists x.
Qed.

(** The instance behind a cloud NodeClaim may go: its machine's VM is deleted,
    or it is not being deleted, no NodeClaim of the cluster has its provider
    ID and it is older than five minutes. *)
Definition orphan (now : Z) (ids : list string) (c : CloudClaim) : Prop :=
  isAKSMachineVMDeleted c = true \/
  (cc_deletion c = None /\ (cc_providerID c = "" \/ cc_providerID c ∉ ids) /\ cc_creation c + 5 * Minute < now).

Lemma collectable_orphan now ids c :
  still_there c = true /\
    collectable now (list_to_set (filter (fun id => id <> "") ids)) c = true <-> orphan now ids c.
Proof.
  unfold still_there, collectable, orphan. rewrite orb_true_iff, andb_true_iff, negb_true_iff.
  rewrite bool_decide_eq_false, elem_of_list_to_set, list_elem_of_filter, Z.ltb_lt.
  destruct (cc_deletion c); destruct (isAKSMachineVMDeleted c); try naive_solver.
  destruct (decide (cc_providerID c = "")) as [->|N]; naive_solver lia.
Qed.

Lemma garbageCollect_instance Delete DeleteNodeCall ns c p :
  DeleteInstance p ∈ (garbageCollect Delete DeleteNodeCall ns c).1 <-> p = cc_providerID c.
Proof.
  unfold garbageCollect. destruct (Delete _); [destruct (List.find _ _)|..]; simpl; set_solver.
Qed.

Lemma garbageCollect_node Delete DeleteNodeCall ns c n :
  DeleteNode n ∈ (garbageCollect Delete DeleteNodeCall ns c).1 ->
  Delete (cc_providerID c) = Deleted /\
  exists node, node ∈ ns /\ no_name node = n /\ no_providerID node = cc_providerID c.
Proof.
  unfold garbageCollect. destruct (Delete _); [destruct (List.find _ _) as [node|] eqn:F|..]; simpl; try set_solver.
  apply List.find_some in F as [Hin%list_elem_of_In Eq%bool_decide_eq_true]. intros Hn.
  split; [done|]. exists node. set_solver.
Qed.


Section NetworkLaws.
Variable cluster : string.
Variable GetNic : string -> answer unit.
Variable GetIP : string -> answer PublicIP.
Variable BeginDelete : string -> delete_answer.
Variable PollDelete : string -> delete_answer.

(** A public IP may go: nothing in the cluster is named like it, it carries
    the tags of its owner and of this cluster when listed and when read again,
    it was not attached, and there is no interface of its name. *)
Definition orphan_ip (protected : gset string) (listed : list (option PublicIP)) (n : string) : Prop :=
  n <> "" /\ n ∉ protected /\ GetNic n = NotFound /\
  (exists a, Some a ∈ listed /\ ip_name a = Some n /\ ownedPublicIP (Some a) n cluster = true /\ ip_attached a = false) /\
  exists a, GetIP n = There a /\ ownedPublicIP (Some a) n cluster = true.

Lemma cleanup_ip_safe protected address act :
  act ∈ (cleanup_ip cluster GetNic GetIP BeginDelete PollDelete protected address).1 ->
  exists n, act = DeleteIP n /\ orphan_ip protected [address] n.
Proof.
  unfold cleanup_ip, publicIPIsOrphan, deletePublicIP. destruct address as [a|]; [|set_solver].
  set (n := from_ptr "" (ip_name a)). destruct (decide (n = "")) as [E|Hn].
  { rewrite bool_decide_eq_true_2 by done. set_solver. }
  rewrite bool_decide_eq_false_2 by done.
  destruct (bool_decide (n ∈ protected)) eqn:P; cbn [orb]; [set_solver|].
  destruct (ownedPublicIP (Some a) n cluster) eqn:O; cbn [negb]; [|set_solver].
  destruct (ip_attached a) eqn:At; [set_solver|].
  destruct (GetNic n) eqn:N; try set_solver.
  destruct (GetIP n) as [b| |] eqn:G; try set_solver.
  destruct (ownedPublicIP (Some b) n cluster) eqn:Ob; cbn [negb]; [|set_solver].
  intros Hact. exists n. split; [destruct (BeginDelete n); set_solver|].
  apply bool_decide_eq_false in P. split; [done|]. split; [done|]. split; [done|]. split; [|by exists b].
  exists a. split; [set_solver|]. split; [|done]. unfold n in *. by destruct (ip_name a).
Qed.

(** The addresses of the pages before the first error. *)
Fixpoint listed_ips (pages : list (result string (list (option PublicIP)))) : list (option PublicIP) :=
  match pages with Ok page :: rest => page ++ listed_ips rest | _ => [] end.

Lemma cleanup_pages_safe protected pages act :
  act ∈ (cleanup_pages cluster GetNic GetIP BeginDelete PollDelete protected pages).1 ->
  exists n, act = DeleteIP n /\ orphan_ip protected (listed_ips pages) n.
Proof.
  induction pages as [|[page|e] pages IH]; simpl; [set_solver| |set_solver].
  destruct (cleanup_pages _ _ _ _ _ _ _) as [acts errs]. simpl in *.
  rewrite elem_of_app, elem_of_runs. intros [(x & Hx & A)|A].
  - apply cleanup_ip_safe in A as (n & -> & O). exists n. split; [done|].
    destruct O as (? & ? & ? & (a & Ha & ?) & ?). repeat split; try done. exists a. set_solver.
  - destruct (IH A) as (n & -> & O). exists n. split; [done|].
    destruct O as (? & ? & ? & (a & Ha & ?) & ?). repeat split; try done. exists a. set_solver.
Qed.

(** Only orphaned network resources are collected: an interface is
    deleted exactly when it is listed and neither a virtual machine nor a
    NodeClaim of the cluster goes by its name; a public IP only when it is an
    orphan of this cluster; no instance or node is touched. *)
Theorem nic_gc_safe nics vms nodeClaims pages acts r :
  NetworkInterface_Reconcile cluster GetNic GetIP BeginDelete PollDelete
    (Ok nics) (Ok vms) (Ok nodeClaims) (Some pages) = (acts, r) ->
  (forall n, DeleteNic n ∈ acts <-> n ∈ map (from_ptr "") nics /\ (n ∉ map (from_ptr "") vms) /\
     forall c, c ∈ nodeClaims -> n <> GenerateResourceName c) /\
  (forall n, DeleteIP n ∈ acts ->
     orphan_ip (list_to_set (map (from_ptr "") vms) ∪ list_to_set (map GenerateResourceName nodeClaims))
       (listed_ips pages) n) /\
  (forall n, (DeleteInstance n ∉ acts) /\ (DeleteNode n ∉ acts)).
Proof.
  unfold NetworkInterface_Reconcile, CleanupPublicIPs. cbn [populateUnremovableInterfaces mbind result_bind].
  set (protected := _ ∪ _ : gset string).
  pose proof (cleanup_pages_safe protected pages) as S.
  destruct (cleanup_pages _ _ _ _ _ _ _) as [ips errs]. intros [= <- _]. simpl in S.
  assert (K : forall m, GenerateResourceName m ∈ map GenerateResourceName nodeClaims <-> m ∈ nodeClaims).
  { intros m. rewrite list_elem_of_fmap. split; [intros (c & E & ?)|by exists m]. apply (string_app_inv_head "aks-") in E. by subst. }
  split; [|split].
  - intros n. rewrite elem_of_app, list_elem_of_fmap. unfold protected.
    setoid_rewrite list_elem_of_filter. setoid_rewrite not_elem_of_union. setoid_rewrite elem_of_list_to_set.
    split.
    + intros [(m & [= ->] & (Nv & Nc) & Hm)|A]; [|by destruct (S _ A) as (? & ? & _)].
      split; [done|]. split; [done|]. intros c Hc ->. by apply Nc, K.
    + intros (Hn & Nv & Nc). left. exists n. split; [done|]. split; [|done]. split; [done|].
      intros (c & -> & Hc)%list_elem_of_fmap. by apply (Nc c).
  - intros n [A|A]%elem_of_app; [apply list_elem_of_fmap in A as (? & ? & _); done|].
    by destruct (S _ A) as (m & [= ->] & O).
  - intros n. rewrite !elem_of_app, !list_elem_of_fmap.
    split; intros [(? & ? & _)|A]; try done; by destruct (S _ A) as (? & ? & _).
Qed.

End NetworkLaws.

(** ** Concrete instances *)

Definition demo_claim (p : string) (created : Z) : CloudClaim := mk_claim p created None ∅.
Definition demo_lost : CloudClaim :=
  mk_claim "azure:///lost" 0 (Some 5) {[AKSMachine.AnnotationAKSMachineVMState := VMStateDeleted]}.


Definition demo_ip (n : string) : PublicIP :=
  mk_ip (Some n) {[publicIPOwnerTag := Some n; KarpenterManagedTagKey := Some "cluster"]} false.

Lemma nic_gc_safe_witness :
  NetworkInterface_Reconcile "cluster" (fun _ => NotFound) (fun n => There (demo_ip n))
    (fun _ => Deleted) (fun _ => Deleted) (Ok [Some "aks-a"; Some "aks-b"; Some "aks-c"]) (Ok [Some "aks-a"]) (Ok ["b"])
    (Some [Ok [Some (demo_ip "aks-a"); Some (demo_ip "aks-d")]])
  = ([DeleteNic "aks-c"; DeleteIP "aks-d"], Ok NicGarbageCollectionInterval) /\
  "aks-c" ∉ ["aks-a"].
Proof.
  assert (E : NetworkInterface_Reconcile "cluster" (fun _ => NotFound) (fun n => There (demo_ip n))
    (fun _ => Deleted) (fun _ => Deleted) (Ok [Some "aks-a"; Some "aks-b"; Some "aks-c"]) (Ok [Some "aks-a"]) (Ok ["b"])
    (Some [Ok [Some (demo_ip "aks-a"); Some (demo_ip "aks-d")]])
    = ([DeleteNic "aks-c"; DeleteIP "aks-d"], Ok NicGarbageCollectionInterval)) by (by vm_compute).
  split; [exact E|]. destruct (nic_gc_safe _ _ _ _ _ _ _ _ _ _ _ E) as (I & _ & _).
  destruct (I "aks-c") as [A _]. destruct A as (_ & V & _); [left|exact V].
Defined.

End GarbageCollection.
