(* ===== verification/VMInstance.v ===== *)
(** * The VM provider ([pkg/providers/instance/vminstance.go], [quota.go],
      [publicip.go], [lberrors.go], [azureresourcemanagerutils.go])

    Launching, updating and deleting virtual machines, as programs that call
    Azure and the other providers ([Effects]).  A call answers anything of its
    type; polling a long-running operation is a call of its own.  Logging and
    metrics are left out. *)

From S2P Require Import Prelude GoString Effects Cloud Zones Allocation AKSMachine ResourceIDs VirtualMachines Network GarbageCollection.
#[local] Open Scope string_scope.
#[local] Open Scope list_scope.
#[local] Open Scope Z_scope.

Module VMInstance.
Import VirtualMachines.

(** ** Data *)

(** Pools, subnets and addresses are given by their IDs. *)
Record IPConfiguration := mk_ip_config {
  ic_name : string; ic_primary : option bool; ic_pools : option (list string);
  ic_subnet : option string; ic_publicIP : option (option string)
}.
Record Interface := mk_nic {
  ni_id : option string; ni_location : string; ni_tags : gmap string (option string);
  ni_nsg : option string; ni_accelerated : bool; ni_configs : list (option IPConfiguration)
}.
Record PublicIPAddress := mk_address {
  pa_id : option string; pa_tags : gmap string (option string); pa_zones : list string
}.

(** The NodeClass fields the launch reads beside those of the VM object. *)
Record LaunchClass := mk_launch_class {
  lc_class : NodeClass;
  lc_nodePublicIP : option (option bool * list string * list string);
  lc_enableNodePublicIP : option bool;
  lc_maxPods : option Z
}.
Definition IsNodePublicIPEnabled (c : LaunchClass) : bool :=
  match lc_nodePublicIP c with
  | Some (enabled, _, _) => from_ptr false enabled
  | None => from_ptr false (lc_enableNodePublicIP c)
  end.
Definition GetNodePublicIPPrefixIDs (c : LaunchClass) : list string :=
  match lc_nodePublicIP c with
  | None => []
  | Some (_, prefixIDs, _) => if IsNodePublicIPEnabled c then prefixIDs else []
  end.
Definition GetNodePublicIPTags (c : LaunchClass) : list string :=
  match lc_nodePublicIP c with
  | None => []
  | Some (_, _, ipTags) => if IsNodePublicIPEnabled c then ipTags else []
  end.

Definition NetworkPluginNone : string := "none".
Definition NetworkPluginAzure : string := "azure".
Definition NetworkPluginModeOverlay : string := "overlay".
Definition NetworkPluginModeNone : string := "".
Definition GetMaxPods (c : LaunchClass) (networkPlugin networkPluginMode : string) : Z :=
  match lc_maxPods c with
  | Some n => n
  | None =>
      if networkPlugin ==? NetworkPluginNone then 250
      else if (networkPlugin ==? NetworkPluginAzure) && (networkPluginMode ==? NetworkPluginModeOverlay) then 250
      else if (networkPlugin ==? NetworkPluginAzure) && (networkPluginMode ==? NetworkPluginModeNone) then 30
      else 110
  end.

(** The NodeClaim: its name, labels and annotations, whether its requirements
    ask for ultra disks, and the labels of its single-valued requirements. *)
Record Claim := mk_launch_claim {
  la_name : string; la_labels : gmap string string; la_annotations : gmap string string;
  la_ultraSSD : bool; la_requirements : gmap string string
}.

(** The operator's options and the provider's own settings. *)
Record Settings := mk_settings {
  s_location : string; s_resourceGroup : string; s_subscriptionID : string; s_provisionMode : string;
  s_diskEncryptionSetID : string; s_identifyingExtension : bool; s_publicIPClient : bool;
  s_networkPlugin : string; s_networkPluginMode : string; s_nodeResourceGroup : string;
  s_sshPublicKey : string; s_linuxAdminUsername : string; s_nodeIdentities : list string; s_useSIG : bool;
  s_clusterName : string
}.

(** The quota identity of an accepted create. *)
Record quotaMetadata := mk_quota_metadata { qm_familyName : string; qm_vCPUs : Z; qm_eligible : bool }.
Definition no_metadata : quotaMetadata := mk_quota_metadata "" 0 false.

Definition aksIdentifyingExtensionName : string := "computeAksLinuxBilling".
Definition cseNameWindows : string := "windows-cse-agent-karpenter".
Definition cseNameLinux : string := "cse-agent-karpenter".

(** An update of a VM: its new tags and identities, where they change. *)
Record VirtualMachineUpdate := mk_update {
  up_tags : option (gmap string (option string)); up_identity : option (gset string)
}.

Record createNICOptions := mk_nic_options {
  no_NICName : string; no_Zone : string; no_EnableNodePublicIP : bool;
  no_BackendPools : LoadBalancer.BackendAddressPools; no_InstanceType : InstanceType; no_LaunchTemplate : Template;
  no_NetworkPlugin : string; no_NetworkPluginMode : string; no_MaxPods : Z; no_NetworkSecurityGroupID : string
}.

(** ** Calls *)

Section Provider.
(** Errors of Azure, and the errors the launch error handlers give. *)
Context {E H : Type}.

Inductive req :=
| GetVM (name : string)
| BeginCreateVM (name : string) (vm : VirtualMachine)
| PollCreateVM (name : string)
| BeginUpdateVM (name : string) (update : VirtualMachineUpdate)
| PollUpdateVM (name : string)
| BeginDeleteVM (name : string)
| PollDeleteVM (name : string)
| GetNIC (name : string)
| BeginCreateNIC (name : string) (nic : Interface)
| PollCreateNIC (name : string)
| UpdateNICTags (name : string) (tags : gmap string (option string))
| BeginDeleteNIC (name : string)
| PollDeleteNIC (name : string)
| GetIP (name : string)
| BeginCreateIP (name : string) (address : PublicIPAddress)
| PollCreateIP (name : string)
| DeletePublicIP (name : string)
| BeginCreateExtension (vm name : string) (cse : string)
| PollCreateExtension (vm name : string)
| BeginUpdateExtension (vm name : string) (tags : gmap string (option string))
| PollUpdateExtension (vm name : string)
| AllocateOffering
| GetTemplate (instanceType : string) (labels : gmap string string)
| GetPools
| RefreshPools (observed : LoadBalancer.BackendAddressPools)
| GetNSG
| GetSKU (name : string)
| HandleError (sku : SKU) (instanceType : InstanceType) (zone capacityType crg : string) (err : E)
| SnapshotGeneration
| RecordCreate (generation : Z) (claim family : string) (vCPUs : Z)
| RecordDelete (claim family : string) (vCPUs : Z)
| Deleting (name : string)
| SetDeleting (name : string)
| UnsetDeleting (name : string)
| Clock.

Definition resp (q : req) : Type :=
  match q with
  | GetVM _ => result E VirtualMachine
  | GetNIC _ | PollCreateNIC _ => result E Interface
  | GetIP _ | PollCreateIP _ => result E PublicIPAddress
  | BeginCreateVM _ _ | PollCreateVM _ | BeginUpdateVM _ _ | PollUpdateVM _ | BeginDeleteVM _ | PollDeleteVM _
  | BeginCreateNIC _ _ | UpdateNICTags _ _ | BeginDeleteNIC _ | PollDeleteNIC _ | BeginCreateIP _ _
  | BeginCreateExtension _ _ _ | PollCreateExtension _ _ | BeginUpdateExtension _ _ _ | PollUpdateExtension _ _
  | DeletePublicIP _ => result E unit
  | AllocateOffering => option Allocation.Selection
  | GetTemplate _ _ => result string Template
  | GetPools | RefreshPools _ => result string LoadBalancer.BackendAddressPools
  | GetNSG => result string SecurityGroup.NSG
  | GetSKU _ => result E SKU
  | HandleError _ _ _ _ _ _ => option H
  | SnapshotGeneration | Clock => Z
  | Deleting _ => bool
  | RecordCreate _ _ _ _ | RecordDelete _ _ _ | SetDeleting _ | UnsetDeleting _ => unit
  end.
#[local] Abbreviation io := (io resp).

(** ** Outcomes *)

Inductive launch_error :=
| ErrAzure (context : string) (e : E)
| ErrReservation (actual desired : string)
| ErrPublicIPMode
| ErrNoCapacity
| ErrTemplate (e : string)
| ErrSpotPrice (e : price_error)
| ErrPools (e : string)
| ErrVNET (e : string)
| ErrNSG (e : string)
| ErrPublicIP (what : string)
| ErrHandled (h : H).

(** A step of a launch is done, failed or panicked. *)
Inductive outcome (A : Type) := Done (a : A) | Failed (e : launch_error) | Panicked.
Arguments Done {A} a.
Arguments Failed {A} e.
Arguments Panicked {A}.

Definition then_ {A B} (m : io (outcome A)) (k : A -> io (outcome B)) : io (outcome B) :=
  o ← m; match o with Done a => k a | Failed e => mret (Failed e) | Panicked => mret Panicked end.
Definition try_call {A} (what : string) (m : io (result E A)) : io (outcome A) :=
  r ← m; mret (match r with Ok a => Done a | Err e => Failed (ErrAzure what e) end).
#[local] Notation "x <- m ;; k" := (then_ m (fun x => k)) (at level 100, m at next level, right associativity).

Variable settings : Settings.
(** The recognisers of the Azure SDK: a missing resource, and code, text and
    HTTP status of a response error (through any wrapping). *)
Variable IsNotFoundErr : E -> bool.
Variable ErrorCode : E -> option string.
Variable ErrorText : E -> string.
Variable StatusCode : E -> option Z.
Variable ParseResourceName : string -> option string.
Variable ParseFloat : string -> option float64.
(** The labels of an instance type's single-valued requirements, and whether
    its requirements allow accelerated networking. *)
Variable type_labels : InstanceType -> gmap string string.
Variable accelerated : InstanceType -> bool.

(** ** Quota accounting *)

Definition metadata (instanceType capacityType : string) (reserved : bool) : io quotaMetadata :=
  if (instanceType ==? "") || (capacityType !=? CapacityTypeOnDemand) || reserved then mret no_metadata
  else
    sku ← call (GetSKU instanceType);
    mret (match sku with
          | Err _ => no_metadata
          | Ok sku =>
              match sku_vcpu sku with
              | Some vCPUs => if sku_family sku ==? "" then no_metadata
                              else mk_quota_metadata (sku_family sku) vCPUs true
              | None => no_metadata
              end
          end).
Definition recordCreate (generation : Z) (claim : string) (m : quotaMetadata) : io unit :=
  if qm_eligible m then call (RecordCreate generation claim (qm_familyName m) (qm_vCPUs m)) else mret tt.
Definition recordDelete (claim : string) (m : quotaMetadata) : io unit :=
  if qm_eligible m then call (RecordDelete claim (qm_familyName m) (qm_vCPUs m)) else mret tt.

Definition LabelInstanceTypeStable : string := "node.kubernetes.io/instance-type".
Definition recordDeleteFromNodeClaim (c : Claim) : io unit :=
  if AKSMachine.map_get (la_labels c) AKSMachine.CapacityTypeLabelKey !=? CapacityTypeOnDemand then mret tt
  else
    match la_annotations c !! AKSMachine.AnnotationCapacityReservationGroupID with
    | None => mret tt
    | Some crg =>
        m ← metadata (AKSMachine.map_get (la_labels c) LabelInstanceTypeStable) CapacityTypeOnDemand (crg !=? "");
        recordDelete (la_name c) m
    end.

(** ** Deleting *)

(** The errors of the deletions, [None] when all is well. *)
Definition deleteNic (nicName : string) : io (option E) :=
  b ← call (BeginDeleteNIC nicName);
  match b with
  | Err e => mret (Some e)
  | Ok _ =>
      r ← call (PollDeleteNIC nicName);
      mret (match r with Ok _ => None | Err e => if IsNotFoundErr e then None else Some e end)
  end.
Definition deleteNicIfExists (nicName : string) : io (option E) :=
  n ← call (GetNIC nicName);
  match n with
  | Err e => mret (if IsNotFoundErr e then None else Some e)
  | Ok _ => deleteNic nicName
  end.
(** The public IP goes as [GarbageCollection.deletePublicIP] says. *)
Definition DeleteNic (nicName : string) : io (option E) :=
  n ← deleteNicIfExists nicName;
  match n with
  | Some e => mret (Some e)
  | None => r ← call (DeletePublicIP nicName); mret (match r with Ok _ => None | Err e => Some e end)
  end.

Definition deleteVirtualMachine (vmName : string) : io (option E) :=
  _ ← call (SetDeleting vmName);
  b ← call (BeginDeleteVM vmName);
  r ← match b with
      | Err e => mret (Some e)
      | Ok _ =>
          p ← call (PollDeleteVM vmName);
          mret (match p with Ok _ => None | Err e => if IsNotFoundErr e then None else Some e end)
      end;
  _ ← call (UnsetDeleting vmName);
  mret r.
Definition deleteVirtualMachineIfExists (vmName : string) : io (option E) :=
  v ← call (GetVM vmName);
  match v with
  | Err e => mret (if IsNotFoundErr e then None else Some e)
  | Ok _ => deleteVirtualMachine vmName
  end.

Definition cleanupAzureResources (resourceName : string) (mustDeleteNic : bool) : io (list E) :=
  vmErr ← deleteVirtualMachineIfExists resourceName;
  nicErr ← DeleteNic resourceName;
  mret (omap id (if mustDeleteNic then [vmErr; nicErr] else [vmErr])).

(** What a deletion reports: the VM is not there any more, or something went
    wrong. *)
Inductive delete_error := NodeClaimNotFound (e : E) | DeleteErrors (es : list E).

Definition Get (vmName : string) : io (result delete_error VirtualMachine) :=
  v ← call (GetVM vmName);
  mret (match v with
        | Ok vm => Ok vm
        | Err e => Err (if IsNotFoundErr e then NodeClaimNotFound e else DeleteErrors [e])
        end).

Definition deleteImpl (resourceName : string) : io (bool * option delete_error) :=
  deleting ← call (Deleting resourceName);
  if deleting : bool then mret (false, None)
  else
    v ← Get resourceName;
    match v with
    | Err (NodeClaimNotFound e) =>
        c ← DeleteNic resourceName;
        mret (true, Some (match c with Some e' => DeleteErrors [e'] | None => NodeClaimNotFound e end))
    | Err e => mret (false, Some e)
    | Ok vm =>
        if IsVMDeleting vm then mret (false, None)
        else
          es ← cleanupAzureResources resourceName false;
          mret (match es with [] => (true, None) | _ => (false, Some (DeleteErrors es)) end)
    end.
Definition Delete (c : Claim) (resourceName : string) : io (option delete_error) :=
  d ← deleteImpl resourceName;
  _ ← (if d.1 : bool then recordDeleteFromNodeClaim c else mret tt);
  mret d.2.

(** ** Network interfaces *)

Definition newNetworkInterfaceForVM (o : createNICOptions) : Interface :=
  let primary := mk_ip_config (no_NICName o) (Some true)
    (Some (LoadBalancer.IPv4PoolIDs (no_BackendPools o))) None None in
  let secondary :=
    if (no_NetworkPlugin o ==? NetworkPluginAzure) && (no_NetworkPluginMode o !=? NetworkPluginModeOverlay)
    then map (fun i => mk_ip_config ("ipconfig" +:+ pretty (N.of_nat i)) (Some false) None None None)
           (seq 1 (Z.to_nat (no_MaxPods o - 1)))
    else [] in
  mk_nic None (s_location settings) ∅
    (if no_NetworkSecurityGroupID o ==? "" then None else Some (no_NetworkSecurityGroupID o))
    (accelerated (no_InstanceType o)) (map Some (primary :: secondary)).
Definition applyTemplateToNic (t : Template) (nic : Interface) : Interface :=
  mk_nic (ni_id nic) (ni_location nic) (lt_tags t) (ni_nsg nic) (ni_accelerated nic)
    (map (fmap (fun c => mk_ip_config (ic_name c) (ic_primary c) (ic_pools c) (Some (lt_subnetID t)) (ic_publicIP c)))
       (ni_configs nic)).

Definition createNic (nicName : string) (nic : Interface) : io (result E Interface) :=
  b ← call (BeginCreateNIC nicName nic);
  match b with Err e => mret (Err e) | Ok _ => call (PollCreateNIC nicName) end.

Definition owned (a : PublicIPAddress) (name : string) : bool :=
  GarbageCollection.ownedPublicIP (Some (GarbageCollection.mk_ip None (pa_tags a) false)) name (s_clusterName settings).

Definition ensurePublicIP (name zone : string) (tags : gmap string (option string)) : io (outcome PublicIPAddress) :=
  if negb (s_publicIPClient settings) then mret (Failed (ErrPublicIP "public IP client is not configured"))
  else
    existing ← call (GetIP name);
    match existing with
    | Ok a => mret (if owned a name then Done a else Failed (ErrPublicIP "refusing to reuse public IP"))
    | Err e =>
        if negb (IsNotFoundErr e) then mret (Failed (ErrAzure "getting public IP" e))
        else
          match Zones.MakeARMZonesFromAKSLabelZone zone with
          | None => mret Panicked
          | Some zones =>
              let address := mk_address None
                (<[GarbageCollection.publicIPOwnerTag := Some name]>
                  (<[GarbageCollection.KarpenterManagedTagKey := Some (s_clusterName settings)]> tags)) zones in
              _ <- try_call "creating public IP" (call (BeginCreateIP name address));;
              try_call "waiting for public IP" (call (PollCreateIP name))
          end
    end.

Definition publicIPBindingMatches (c : IPConfiguration) (address : PublicIPAddress) (backendPools : list string) : bool :=
  match ic_publicIP c with
  | None => false
  | Some id => EqualFold (from_ptr "" id) (from_ptr "" (pa_id address)) && bool_decide (ic_pools c = Some backendPools)
  end.

Definition is_primary (c : option IPConfiguration) : bool :=
  match c with Some c => from_ptr false (ic_primary c) | None => false end.
(** The first primary configuration is changed in place. *)
Fixpoint bind_primary (address : PublicIPAddress) (pools : list string) (cs : list (option IPConfiguration)) :
    list (option IPConfiguration) :=
  match cs with
  | [] => []
  | c :: rest =>
      if is_primary c
      then fmap (fun c => mk_ip_config (ic_name c) (ic_primary c) (Some pools) (ic_subnet c) (Some (pa_id address))) c :: rest
      else c :: bind_primary address pools rest
  end.

Definition attachPublicIP (nic : Interface) (o : createNICOptions) : io (outcome unit) :=
  match ni_nsg nic with
  | None => mret (Failed (ErrPublicIP "a network security group is required"))
  | Some _ =>
      match List.find is_primary (ni_configs nic) with
      | None | Some None => mret (Failed (ErrPublicIP "primary NIC IP configuration is missing"))
      | Some (Some configuration) =>
          address <- ensurePublicIP (no_NICName o) (no_Zone o) (lt_tags (no_LaunchTemplate o));;
          if from_ptr "" (pa_id address) ==? "" then mret (Failed (ErrPublicIP "created node public IP has no resource ID"))
          else
            let pools := LoadBalancer.IPv4PoolIDs (no_BackendPools o) in
            if publicIPBindingMatches configuration address pools then mret (Done tt)
            else
              _ <- try_call "attaching public IP" (createNic (no_NICName o)
                     (mk_nic (ni_id nic) (ni_location nic) (ni_tags nic) (ni_nsg nic) (ni_accelerated nic)
                       (bind_primary address pools (ni_configs nic))));;
              mret (Done tt)
      end
  end.

Definition createNetworkInterface (o : createNICOptions) : io (outcome string) :=
  let nic := applyTemplateToNic (no_LaunchTemplate o) (newNetworkInterfaceForVM o) in
  res <- (if no_EnableNodePublicIP o then
            existing ← call (GetNIC (no_NICName o));
            match existing with
            | Ok n => mret (Done n)
            | Err e => if negb (IsNotFoundErr e) then mret (Failed (ErrAzure "" e))
                       else try_call "" (createNic (no_NICName o) nic)
            end
          else try_call "" (createNic (no_NICName o) nic));;
  _ <- (if no_EnableNodePublicIP o then attachPublicIP res o else mret (Done tt));;
  mret (match ni_id res with Some i => Done i | None => Panicked end).

Definition invalidResourceReferenceCode : string := "InvalidResourceReference".
Definition isMissingSubmittedBackendPool (err : launch_error) (pools : LoadBalancer.BackendAddressPools) : bool :=
  match err with
  | ErrAzure context e =>
      match ErrorCode e with
      | None => false
      | Some code =>
          if negb (EqualFold code invalidResourceReferenceCode) then false
          else
            let errMsg := ToLower (context +:+ ErrorText e) in
            existsb (fun p => Contains errMsg (ToLower p)) (LoadBalancer.IPv4PoolIDs pools) ||
            existsb (fun p => Contains errMsg (ToLower p)) (LoadBalancer.IPv6PoolIDs pools)
      end
  | _ => false
  end.

(** ** Launching *)

Definition LabelNodeExcludeBalancers : string := "node.kubernetes.io/exclude-from-external-load-balancers".
Definition filterBackendPools (pools : LoadBalancer.BackendAddressPools) (claim : Claim) (c : LaunchClass) :
    LoadBalancer.BackendAddressPools :=
  let pools := if IsNodePublicIPEnabled c then LoadBalancer.WithoutOutboundPools ParseResourceName pools else pools in
  match la_labels claim !! LabelNodeExcludeBalancers with
  | Some _ => LoadBalancer.WithoutKubernetesInboundPools ParseResourceName pools
  | None => pools
  end.

Definition getLaunchTemplate (claim : Claim) (t : InstanceType) (capacityType placementScope : string) (ultraSSD : bool) :
    io (outcome Template) :=
  let additionalLabels :=
    {[ AKSMachine.CapacityTypeLabelKey := capacityType; AKSMachine.LabelPlacementScope := placementScope;
       AKSMachine.LabelUltraSSD := if ultraSSD then "true" else "false" ]} ∪ type_labels t ∪ la_requirements claim in
  r ← call (GetTemplate (it_name t) additionalLabels);
  mret (match r with Ok l => Done l | Err e => Failed (ErrTemplate e) end).

(** What is decided before the first resource is created. *)
Record plan := mk_plan {
  pl_selection : Allocation.Selection; pl_template : Template; pl_price : option float64;
  pl_pools : LoadBalancer.BackendAddressPools; pl_nsgID : string
}.

Definition prepare (c : LaunchClass) (claim : Claim) (s : Allocation.Selection) : io (outcome plan) :=
  let capacityType := Allocation.CapacityType s in
  template <- getLaunchTemplate claim (Allocation.sel_type s) capacityType (Allocation.PlacementScope s) (la_ultraSSD claim);;
  price <- mret (if capacityType ==? CapacityTypeSpot
                 then match parseSpotMaxPriceAnnotation ParseFloat (la_annotations claim) with
                      | Ok p => Done p | Err e => Failed (ErrSpotPrice e)
                      end
                 else Done None);;
  pools <- (r ← call GetPools; mret (match r with Ok p => Done p | Err e => Failed (ErrPools e) end));;
  managed <- mret (match ResourceIDs.IsAKSManagedVNET (s_nodeResourceGroup settings) (lt_subnetID template) with
                   | Ok b => Done b | Err e => Failed (ErrVNET e)
                   end);;
  nsgID <- (if negb managed || IsNodePublicIPEnabled c
            then r ← call GetNSG;
                 mret (match r with Ok n => Done (from_ptr "" (SecurityGroup.nsg_id n)) | Err e => Failed (ErrNSG e) end)
            else mret (Done ""));;
  mret (Done (mk_plan s template price (filterBackendPools pools claim c) nsgID)).

Definition nic_options (c : LaunchClass) (resourceName : string) (p : plan) (pools : LoadBalancer.BackendAddressPools) :
    createNICOptions :=
  mk_nic_options resourceName (Allocation.Zone (pl_selection p)) (IsNodePublicIPEnabled c) pools
    (Allocation.sel_type (pl_selection p)) (pl_template p) (s_networkPlugin settings) (s_networkPluginMode settings)
    (GetMaxPods c (s_networkPlugin settings) (s_networkPluginMode settings)) (pl_nsgID p).

(** The interface, tried a second time with fresh backend pools when Azure
    does not know one of those submitted. *)
Definition create_interface (c : LaunchClass) (claim : Claim) (resourceName : string) (p : plan) : io (outcome string) :=
  o ← createNetworkInterface (nic_options c resourceName p (pl_pools p));
  match o with
  | Failed err =>
      if isMissingSubmittedBackendPool err (pl_pools p) then
        refreshed <- (r ← call (RefreshPools (pl_pools p));
                      mret (match r with Ok q => Done q | Err e => Failed (ErrPools e) end));;
        createNetworkInterface (nic_options c resourceName p (filterBackendPools refreshed claim c))
      else mret (Failed err)
  | _ => mret o
  end.

Definition vm_options (c : LaunchClass) (claim : Claim) (resourceName nicReference : string) (p : plan) : createVMOptions :=
  mk_create resourceName nicReference (Allocation.Zone (pl_selection p)) (Allocation.CapacityType (pl_selection p))
    (pl_price p) (s_location settings) (s_sshPublicKey settings) (s_linuxAdminUsername settings) (s_nodeIdentities settings)
    (lc_class c) (pl_template p) (it_name (Allocation.sel_type (pl_selection p))) (s_provisionMode settings) (s_useSIG settings)
    (s_diskEncryptionSetID settings) (la_ultraSSD claim).

(** What to report when Azure refuses or fails to create the VM. *)
Definition handle_create_error (c : LaunchClass) (s : Allocation.Selection) (context : string) (err : E) : io launch_error :=
  sku ← call (GetSKU (it_name (Allocation.sel_type s)));
  match sku with
  | Err _ => mret (ErrAzure "failed to get instance type" err)
  | Ok sku =>
      h ← call (HandleError sku (Allocation.sel_type s) (Allocation.Zone s) (Allocation.CapacityType s)
                  (GetCapacityReservationGroupID (lc_class c)) err);
      mret (match h with Some h => ErrHandled h | None => ErrAzure context err end)
  end.

Definition createVirtualMachine (o : createVMOptions) : io (outcome (result E VirtualMachine)) :=
  match newVMObject o with
  | None => mret Panicked
  | Some vm => r ← call (BeginCreateVM (o_VMName o) vm); mret (Done (match r with Ok _ => Ok vm | Err e => Err e end))
  end.

Definition create_extension (vmName extension cse : string) : io (option launch_error) :=
  b ← call (BeginCreateExtension vmName extension cse);
  match b with
  | Err e => mret (Some (ErrAzure "creating VM extension" e))
  | Ok _ =>
      r ← call (PollCreateExtension vmName extension);
      mret (match r with Err e => Some (ErrAzure "creating VM extension" e) | Ok _ => None end)
  end.
Definition createCSExtension (vmName cse : string) (isWindows : bool) : io (option launch_error) :=
  create_extension vmName (if isWindows then cseNameWindows else cseNameLinux) cse.
Definition createAKSIdentifyingExtension (vmName : string) : io (option launch_error) :=
  create_extension vmName aksIdentifyingExtensionName "".

(** The promise's [Wait] for a VM whose creation was accepted. *)
Definition wait_for_vm (c : LaunchClass) (s : Allocation.Selection) (t : Template) (resourceName : string) :
    io (option launch_error) :=
  r ← call (PollCreateVM resourceName);
  match r with
  | Err err => e ← handle_create_error c s "" err; mret (Some e)
  | Ok _ =>
      e ← (if s_provisionMode settings ==? ProvisionModeBootstrappingClient
           then createCSExtension resourceName (lt_customScriptsCSE t) (lt_isWindows t) else mret None);
      match e with
      | Some e => mret (Some e)
      | None => if s_identifyingExtension settings then createAKSIdentifyingExtension resourceName else mret None
      end
  end.

Record VirtualMachinePromise := mk_promise {
  pm_vm : VirtualMachine; pm_wait : io (option launch_error); pm_createIssued : bool;
  pm_claim : string; pm_metadata : quotaMetadata
}.

Definition launch (c : LaunchClass) (claim : Claim) (resourceName : string) (s : Allocation.Selection) :
    io (outcome VirtualMachinePromise) :=
  p <- prepare c claim s;;
  nicReference <- create_interface c claim resourceName p;;
  result <- createVirtualMachine (vm_options c claim resourceName nicReference p);;
  match result with
  | Err err => e ← handle_create_error c s "virtualMachine.BeginCreateOrUpdate" err; mret (Failed e)
  | Ok vm =>
      match vm_properties vm with
      | None => mret Panicked
      | Some _ =>
          now ← call Clock;
          mret (Done (mk_promise
            (created (ResourceIDs.VMResourceID (s_subscriptionID settings) (s_resourceGroup settings) resourceName) now vm)
            (wait_for_vm c s (pl_template p) resourceName) true "" no_metadata))
      end
  end.

Definition validateExistingCapacityReservation (vm : VirtualMachine) (c : LaunchClass) : option launch_error :=
  let actual := CapacityReservationGroupID (Some vm) in
  let desired := GetCapacityReservationGroupID (lc_class c) in
  if EqualFold actual desired then None else Some (ErrReservation actual desired).

Definition beginLaunchInstance (c : LaunchClass) (claim : Claim) : io (outcome VirtualMachinePromise) :=
  let resourceName := ResourceIDs.GenerateResourceName (la_name claim) in
  existing ← call (GetVM resourceName);
  match existing with
  | Ok vm =>
      mret (match validateExistingCapacityReservation vm c with
            | Some e => Failed e
            | None => Done (mk_promise vm (mret None) false "" no_metadata)
            end)
  | Err e =>
      if negb (IsNotFoundErr e) then mret (Failed (ErrAzure "getting VM" e))
      else if negb (Nat.eqb (length (GetNodePublicIPPrefixIDs c)) 0) || negb (Nat.eqb (length (GetNodePublicIPTags c)) 0)
      then mret (Failed ErrPublicIPMode)
      else
        selection ← call AllocateOffering;
        match selection with
        | None => mret (Failed ErrNoCapacity)
        | Some s => launch c claim resourceName s
        end
  end.

(** The VM's size and whether the log line's pointers are there. *)
Definition vm_size (vm : VirtualMachine) : option string :=
  match vm_properties vm with Some p => match vp_hardware p with Some s => s | None => None end | None => None end.
Definition loggable (vm : VirtualMachine) : bool :=
  bool_decide (is_Some (vm_id vm)) && bool_decide (is_Some (vm_name vm)) && bool_decide (is_Some (vm_size vm)).

Definition BeginCreate (c : LaunchClass) (claim : Claim) : io (outcome VirtualMachinePromise) :=
  quotaGeneration ← call SnapshotGeneration;
  o ← beginLaunchInstance c claim;
  match o with
  | Panicked => mret Panicked
  | Failed e => _ ← cleanupAzureResources (ResourceIDs.GenerateResourceName (la_name claim)) true; mret (Failed e)
  | Done p =>
      m ← (if pm_createIssued p
           then metadata (from_ptr "" (vm_size (pm_vm p))) (GetCapacityTypeFromVM (Some (pm_vm p)))
                  (CapacityReservationGroupID (Some (pm_vm p)) !=? "")
           else mret no_metadata);
      _ ← recordCreate quotaGeneration (la_name claim) m;
      mret (if loggable (pm_vm p)
            then Done (mk_promise (pm_vm p) (pm_wait p) (pm_createIssued p) (la_name claim) m) else Panicked)
  end.

(** The promise's [Cleanup]. *)
Definition Cleanup (p : VirtualMachinePromise) : io (option delete_error) :=
  d ← deleteImpl (from_ptr "" (vm_name (pm_vm p)));
  _ ← (if d.1 : bool then recordDelete (pm_claim p) (pm_metadata p) else mret tt);
  mret d.2.

(** ** Updating *)

Definition GetManagedExtensionNames : list string :=
  (if s_identifyingExtension settings then [aksIdentifyingExtensionName] else []) ++
  (if s_provisionMode settings ==? ProvisionModeBootstrappingClient then [cseNameLinux] else []).

(** The extensions whose update was accepted, or an error.  Only the
    identifying extension may be missing. *)
Fixpoint begin_extension_updates (vmName : string) (tags : gmap string (option string)) (names : list string) :
    io (result E (list string)) :=
  match names with
  | [] => mret (Ok [])
  | n :: rest =>
      b ← call (BeginUpdateExtension vmName n tags);
      match b with
      | Ok _ =>
          r ← begin_extension_updates vmName tags rest;
          mret (match r with Ok l => Ok (n :: l) | Err e => Err e end)
      | Err e =>
          if (n ==? aksIdentifyingExtensionName) && (StatusCode e ==? Some 404)
          then begin_extension_updates vmName tags rest else mret (Err e)
      end
  end.
Fixpoint poll_extensions (vmName : string) (names : list string) : io (option E) :=
  match names with
  | [] => mret None
  | n :: rest =>
      r ← call (PollUpdateExtension vmName n);
      match r with Ok _ => poll_extensions vmName rest | Err e => mret (Some e) end
  end.

(** The tags of the interface and the extensions first, the VM last; the
    pollers are a map, waited for in any order. *)
Definition Update `{GoRange} (vmName : string) (update : VirtualMachineUpdate) : io (option E) :=
  e ← match up_tags update with
      | None => mret None
      | Some tags =>
          n ← call (UpdateNICTags vmName tags);
          match n with
          | Err e => mret (Some e)
          | Ok _ =>
              b ← begin_extension_updates vmName tags GetManagedExtensionNames;
              match b with
              | Err e => mret (Some e)
              | Ok names => poll_extensions vmName (range_keys (list_to_set names))
              end
          end
      end;
  match e with
  | Some e => mret (Some e)
  | None =>
      b ← call (BeginUpdateVM vmName update);
      match b with
      | Err e => mret (Some e)
      | Ok _ => r ← call (PollUpdateVM vmName); mret (match r with Ok _ => None | Err e => Some e end)
      end
  end.

(** ** Laws *)

#[local] Abbreviation event := (event resp).

(** The calls that create something, and those that only look at or delete
    what belongs to one name. *)
Definition creates (q : req) : bool :=
  match q with BeginCreateVM _ _ | BeginCreateNIC _ _ | BeginCreateIP _ _ => true | _ => false end.
Definition cleans (n : string) (q : req) : Prop :=
  match q with
  | GetVM m | GetNIC m | BeginDeleteVM m | PollDeleteVM m | BeginDeleteNIC m | PollDeleteNIC m | DeletePublicIP m
  | SetDeleting m | UnsetDeleting m => m = n
  | _ => False
  end.

Lemma cleans_only n b : only (cleans n) (cleanupAzureResources n b).
Proof.
  unfold cleanupAzureResources, deleteVirtualMachineIfExists, deleteVirtualMachine, DeleteNic, deleteNicIfExists, deleteNic.
  only_calls.
Qed.

(** What a clean-up did: it looked for the VM and the interface of the name,
    asked to delete each one it found, and the public IP as well unless the
    interface would not go. *)
Record cleaned (n : string) (t : list event) : Prop := {
  cl_only : Forall (fun e => cleans n (asked e)) t;
  cl_vm : exists r : result E VirtualMachine, existT (GetVM n) r ∈ t /\
    (is_ok r = true -> BeginDeleteVM n ∈ map asked t);
  cl_nic : exists r : result E Interface, existT (GetNIC n) r ∈ t /\
    (is_ok r = true -> BeginDeleteNIC n ∈ map asked t);
  cl_ip : DeletePublicIP n ∈ map asked t \/
    (exists e, IsNotFoundErr e = false /\ existT (P := resp) (GetNIC n) (Err e) ∈ t) \/
    (exists e, existT (P := resp) (BeginDeleteNIC n) (Err e) ∈ t) \/
    (exists e, IsNotFoundErr e = false /\ existT (P := resp) (PollDeleteNIC n) (Err e) ∈ t)
}.

Lemma cleanup_cleans n b : post (cleanupAzureResources n b) (fun _ t => cleaned n t).
Proof.
  apply (post_mono _ (fun _ t => Forall (fun e => cleans n (asked e)) t /\
    (exists r : result E VirtualMachine, existT (GetVM n) r ∈ t /\ (is_ok r = true -> BeginDeleteVM n ∈ map asked t)) /\
    (exists r : result E Interface, existT (GetNIC n) r ∈ t /\ (is_ok r = true -> BeginDeleteNIC n ∈ map asked t)) /\
    (DeletePublicIP n ∈ map asked t \/ (exists e, IsNotFoundErr e = false /\ existT (P := resp) (GetNIC n) (Err e) ∈ t) \/
     (exists e, existT (P := resp) (BeginDeleteNIC n) (Err e) ∈ t) \/
     (exists e, IsNotFoundErr e = false /\ existT (P := resp) (PollDeleteNIC n) (Err e) ∈ t)))).
  { intros es t (F & V & N & I). by constructor. }
  apply post_conj; [apply only_post, cleans_only|].
  unfold cleanupAzureResources, deleteVirtualMachineIfExists, deleteVirtualMachine, DeleteNic, deleteNicIfExists, deleteNic.
  repeat io_step; repeat case_match; simplify_eq.
  all: split; [eexists; split; [solve [in_trace]|first [done|intros _; solve [in_trace]]]|].
  all: split; [eexists; split; [solve [in_trace]|first [done|intros _; solve [in_trace]]]|].
  all: first [left; solve [in_trace]|right; left; eexists; split; [eassumption|]; solve [in_trace]
    |do 2 right; left; eexists; solve [in_trace]|do 3 right; eexists; split; [eassumption|]; solve [in_trace]].
Qed.

(** C2. A failed launch leaves nothing behind: when creating an instance fails
    before its promise, the trace ends with a clean-up of the claim's
    resources, after the last call that creates something, in which the VM and
    the interface are looked for and deleted if found, and the public IP is
    deleted too unless the interface could not be. *)
Theorem failed_launch_cleaned env c claim e t :
  run env (BeginCreate c claim) [] = (Failed e, t) ->
  exists before after, t = before ++ after /\
    cleaned (ResourceIDs.GenerateResourceName (la_name claim)) after /\
    forall x, x ∈ after -> creates (asked x) = false.
Proof.
  intros R. destruct (post_run (BeginCreate c claim) (fun o t => forall e, o = Failed e ->
    exists before after, t = before ++ after /\ cleaned (ResourceIDs.GenerateResourceName (la_name claim)) after)
    env []) as (t' & Et & HQ).
  - unfold BeginCreate. io_step. io_step. io_step.
    apply (post_mono _ (fun _ _ => True)); [|apply post_true]. intros [p|e'|] t1 _.
    + do 2 (io_step; apply (post_mono _ (fun _ _ => True)); [|apply post_true]; intros ? ? _). io_step.
      by intros ?; destruct (loggable (pm_vm p)).
    + io_step. eapply post_mono; [|apply cleanup_cleans]. intros es t2 C. io_step. intros e0 _.
      exists ([existT SnapshotGeneration r] ++ t1), t2. by rewrite app_nil_r, <- app_assoc.
    + io_step. done.
  - rewrite R in Et, HQ. simpl in Et. subst t'. destruct (HQ e eq_refl) as (before & after & -> & C).
    exists before, after. split; [done|]. split; [done|]. intros x Hx.
    pose proof (cl_only _ _ C) as F. rewrite Forall_forall in F. specialize (F x Hx). by destruct (asked x).
Qed.

(** ** One VM per launch *)

Definition quiet (q : req) : Prop := match q with BeginCreateVM _ _ => False | _ => True end.

Lemma quiet_prepare c claim s : only quiet (prepare c claim s).
Proof. unfold prepare, then_, getLaunchTemplate. only_calls. Qed.
Lemma quiet_createNic n nic : only quiet (createNic n nic).
Proof. unfold createNic. only_calls. Qed.
#[local] Hint Resolve quiet_createNic : io.
Lemma quiet_ensure n z tags : only quiet (ensurePublicIP n z tags).
Proof. unfold ensurePublicIP, then_, try_call. only_calls. Qed.
#[local] Hint Resolve quiet_ensure : io.
Lemma quiet_attach nic o : only quiet (attachPublicIP nic o).
Proof. unfold attachPublicIP, then_, try_call. only_calls. Qed.
#[local] Hint Resolve quiet_attach : io.
Lemma quiet_interface o : only quiet (createNetworkInterface o).
Proof. unfold createNetworkInterface, then_, try_call. only_calls. Qed.
#[local] Hint Resolve quiet_interface : io.
Lemma quiet_create_interface c claim n p : only quiet (create_interface c claim n p).
Proof. unfold create_interface, then_. only_calls. Qed.

#[local] Hint Resolve quiet_prepare quiet_create_interface : io.
Lemma quiet_handle c s w e : only quiet (handle_create_error c s w e).
Proof. unfold handle_create_error. only_calls. Qed.
Lemma quiet_metadata t ct r : only quiet (metadata t ct r).
Proof. unfold metadata. only_calls. Qed.
Lemma quiet_recordCreate g n m : only quiet (recordCreate g n m).
Proof. unfold recordCreate. only_calls. Qed.
Lemma quiet_cleanup n b : only quiet (cleanupAzureResources n b).
Proof. eapply only_mono; [|apply cleans_only]. by intros []. Qed.
#[local] Hint Resolve quiet_handle quiet_metadata quiet_recordCreate quiet_cleanup : io.

#[local] Abbreviation all_quiet t := (Forall (fun e : event => quiet (asked e)) t).

(** An interface with this ID was made or found. *)
Definition nic_known (n i : string) (t : list event) : Prop :=
  exists nic, ni_id nic = Some i /\
    (existT (P := resp) (PollCreateNIC n) (Ok nic) ∈ t \/ existT (P := resp) (GetNIC n) (Ok nic) ∈ t).

Lemma post_then {A B} (m : io (outcome A)) (k : A -> io (outcome B)) Q :
  post m (fun o t => match o with
                     | Done a => post (k a) (fun b t' => Q b (t ++ t'))
                     | Failed e => Q (Failed e) t | Panicked => Q Panicked t
                     end) -> post (then_ m k) Q.
Proof.
  intros W. apply post_bind. eapply post_mono; [|exact W].
  intros [a|e|] t; [done| |]; intros HQ; io_step; by rewrite app_nil_r.
Qed.

Lemma interface_answered o :
  post (createNetworkInterface o) (fun r t => forall i, r = Done i -> nic_known (no_NICName o) i t).
Proof.
  unfold createNetworkInterface. apply post_then.
  apply (post_mono _ (fun r t => forall nic, r = Done nic ->
    existT (P := resp) (PollCreateNIC (no_NICName o)) (Ok nic) ∈ t \/ existT (P := resp) (GetNIC (no_NICName o)) (Ok nic) ∈ t)).
  - intros [nic|e|] t HQ; [|done..]. apply post_then.
    apply (post_mono _ (fun _ _ => True)); [|apply post_true]. intros [[]|e|] t' _; [|done..].
    io_step. destruct (ni_id nic) as [j|] eqn:I; [|done]. intros i [= <-].
    exists nic. split; [done|]. destruct (HQ nic eq_refl); [left|right]; apply elem_of_app; by left.
  - unfold try_call, createNic. repeat io_step; intros nic' Hn; repeat case_match; simplify_eq; first [left; solve [in_trace]|right; solve [in_trace]].
Qed.

Lemma nic_known_mono n i t t' : nic_known n i t -> nic_known n i (t ++ t').
Proof. intros (nic & ? & [?|?]); exists nic; (split; [done|]); [left|right]; apply elem_of_app; by left. Qed.
Lemma nic_known_r n i t t' : nic_known n i t' -> nic_known n i (t ++ t').
Proof. intros (nic & ? & [?|?]); exists nic; (split; [done|]); [left|right]; apply elem_of_app; by right. Qed.

Lemma create_interface_answered c claim n p :
  post (create_interface c claim n p) (fun r t => all_quiet t /\ forall i, r = Done i -> nic_known n i t).
Proof.
  apply post_conj; [apply only_post; auto with io|]. unfold create_interface. io_step.
  eapply post_mono; [|apply interface_answered]. intros [i|err|] t HQ.
  - io_step. intros j [= <-]. apply nic_known_mono. by apply HQ.
  - destruct (isMissingSubmittedBackendPool _ _); [|by io_step]. apply post_then. io_step. io_step.
    destruct r as [q|e]; [|by io_step]. io_step.
    eapply post_mono; [|apply interface_answered]. intros o t' HQ' i Hi. apply nic_known_r, nic_known_r. by apply HQ'.
  - by io_step.
Qed.

Lemma prepare_selection c claim s :
  post (prepare c claim s) (fun r t => all_quiet t /\ forall p, r = Done p -> pl_selection p = s).
Proof.
  apply post_conj; [apply only_post; auto with io|]. unfold prepare.
  do 5 (apply post_then; apply (post_mono _ (fun _ _ => True)); [|apply post_true]; intros [?|?|] ? _; [|done..]).
  io_step. by intros p [= <-].
Qed.

(** The trace of a launch: no VM is asked for, or exactly one is. *)
Definition one_vm (c : LaunchClass) (claim : Claim) (n : string) (known : Allocation.Selection -> list event -> Prop)
    (t : list event) : Prop :=
  all_quiet t \/
  exists A vm r B p i, t = A ++ existT (P := resp) (BeginCreateVM n vm) r :: B /\ all_quiet A /\ all_quiet B /\
    known (pl_selection p) A /\ nic_known n i A /\ newVMObject (vm_options c claim n i p) = Some vm.

Lemma launch_one_vm c claim n s :
  post (launch c claim n s) (fun _ t => one_vm c claim n (fun s' _ => s' = s) t).
Proof.
  unfold launch. apply post_then. eapply post_mono; [|apply prepare_selection].
  intros [p|e|] t [Q1 Sel]; [|by left..]. apply post_then. eapply post_mono; [|apply create_interface_answered].
  intros [i|e|] t2 [Q2 Nic]; [|by left; apply Forall_app..]. apply post_then. unfold createVirtualMachine.
  destruct (newVMObject _) as [vm|] eqn:V; [|io_step; left; rewrite app_nil_r; by apply Forall_app].
  assert (K : forall (r : result E unit) B, all_quiet B ->
    one_vm c claim n (fun s' _ => s' = s) (t ++ t2 ++ existT (P := resp) (BeginCreateVM n vm) r :: B)).
  { intros r B QB. right. exists (t ++ t2), vm, r, B, p, i. rewrite <- app_assoc. split; [done|].
    split; [by apply Forall_app|]. split; [done|]. split; [by apply Sel|].
    split; [apply nic_known_r; by apply Nic|done]. }
  io_step. io_step. io_step. destruct r as [[]|err].
  - case_match; [|by io_step; apply K]. io_step. io_step. io_step. apply K. by repeat constructor.
  - io_step. eapply post_mono; [|apply (only_post quiet); auto with io]. intros e t4 Q4. io_step. simpl. apply K.
    by rewrite app_nil_r.
Qed.

#[local] Abbreviation chosen := (fun s t => existT (P := resp) AllocateOffering (Some s) ∈ t).

Lemma begin_one_vm c claim :
  post (beginLaunchInstance c claim)
    (fun _ t => one_vm c claim (ResourceIDs.GenerateResourceName (la_name claim)) chosen t).
Proof.
  unfold beginLaunchInstance. io_step. io_step. destruct r as [vm|e]; [io_step; left; by repeat constructor|].
  destruct (negb (IsNotFoundErr e)); [io_step; left; by repeat constructor|].
  destruct (_ || _); [io_step; left; by repeat constructor|]. io_step. io_step.
  destruct r as [s|]; [|io_step; left; by repeat constructor].
  eapply post_mono; [|apply launch_one_vm]. intros o t [Q|(A & vm & r & B & p & i & -> & QA & QB & <- & N & V)].
  - left. by repeat (constructor; [done|]).
  - right. exists ([existT (P := resp) (GetVM (ResourceIDs.GenerateResourceName (la_name claim))) (Err e)] ++ [existT (P := resp) AllocateOffering (Some (pl_selection p))] ++ A).
    exists vm, r, B, p, i. split; [done|]. split; [by repeat (constructor; [done|])|]. split; [done|].
    split; [solve [in_trace]|]. split; [by do 2 apply nic_known_r|done].
Qed.

(** C1. One VM per launch, and the right one: a launch asks for at most one VM,
    named after the claim; it does so after the allocation strategy chose an
    offering and with an interface that Azure had just given; its object has
    the size, capacity type and zone of that offering, that interface, and the
    reservation group of the NodeClass. *)
Theorem one_vm_per_launch env c claim o t t1 n vm r t2 :
  run env (BeginCreate c claim) [] = (o, t) -> t = t1 ++ existT (P := resp) (BeginCreateVM n vm) r :: t2 ->
  n = ResourceIDs.GenerateResourceName (la_name claim) /\ all_quiet t1 /\ all_quiet t2 /\
  exists s p i, chosen s t1 /\ pl_selection p = s /\ nic_known n i t1 /\ newVMObject (vm_options c claim n i p) = Some vm /\
    (lt_isWindows (pl_template p) = false ->
     vm_size vm = Some (it_name (Allocation.sel_type s)) /\
     priority_of (Some vm) = Some (AKSMachine.map_get KarpCapacityTypeToVMPriority (Allocation.CapacityType s)) /\
     Zones.MakeARMZonesFromAKSLabelZone (Allocation.Zone s) = Some (omap id (vm_zones vm)) /\
     CapacityReservationGroupID (Some vm) = GetCapacityReservationGroupID (lc_class c)).
Proof.
  intros R Et. destruct (post_run (BeginCreate c claim)
    (fun _ t => one_vm c claim (ResourceIDs.GenerateResourceName (la_name claim)) chosen t) env []) as (t' & E' & HQ).
  { clear R Et. unfold BeginCreate. io_step. io_step. rename r0 into g. io_step. eapply post_mono; [|apply begin_one_vm]. intros o' u HQ.
    assert (K : forall w, all_quiet w -> one_vm c claim (ResourceIDs.GenerateResourceName (la_name claim)) chosen
      ([existT SnapshotGeneration g] ++ u ++ w)).
    { intros w Qu. destruct HQ as [Q|(A & v & x & B & p & i & -> & QA & QB & S & N & V)].
      - left. constructor; [done|]. by apply Forall_app.
      - right. exists ([existT SnapshotGeneration g] ++ A), v, x, (B ++ w), p, i. split; [by rewrite <- !app_assoc|].
        split; [by constructor|]. split; [by apply Forall_app|]. split; [apply elem_of_app; by right|].
        split; [by apply nic_known_r|done]. }
    assert (M : forall {A} (m : io A), only quiet m -> post m (fun _ w =>
      one_vm c claim (ResourceIDs.GenerateResourceName (la_name claim)) chosen ([existT SnapshotGeneration g] ++ u ++ w))).
    { intros A m Q. eapply post_mono; [|apply only_post, Q]. intros a w. apply K. }
    destruct o' as [p|e|]; apply M; only_calls. }
  rewrite R in E'. simpl in E'. subst t' t.
  destruct HQ as [Q|(A & v & x & B & p & i & Es & QA & QB & S & N & V)].
  { apply Forall_app in Q as [_ Q]. by apply Forall_cons in Q as [? _]. }
  symmetry in Es. apply (unique_split (fun e : event => quiet (asked e))) in Es as (-> & Eq & ->); [|done|done|by intros []]. apply (f_equal asked) in Eq. injection Eq as -> ->.
  split; [done|]. split; [done|]. split; [done|]. exists (pl_selection p), p, i. do 4 (split; [done|]).
  intros W. destruct (new_vm_properties (vm_options c claim (ResourceIDs.GenerateResourceName (la_name claim)) i p) v W V) as (zones & pr & Ez & _ & _ & Evz & _ & Ep & Hw & Pr & _ & _ & Cr & _).
  unfold vm_size, priority_of. rewrite Ep, Hw, Pr, Cr. split; [done|]. split; [done|]. split; [|done].
  rewrite Evz. simpl in Ez. rewrite Ez. f_equal. clear. induction zones as [|z l IH]; simpl; [done|]. by f_equal.
Qed.

(** ** Quota *)

Definition unrecorded (q : req) : Prop :=
  match q with RecordCreate _ _ _ _ | RecordDelete _ _ _ => False | _ => True end.
(** The quota adjustments a trace makes: creations and deletions. *)
Definition adjustment (e : event) : option (bool * string * string * Z) :=
  match asked e with
  | RecordCreate _ n f v => Some (true, n, f, v)
  | RecordDelete n f v => Some (false, n, f, v)
  | _ => None
  end.
Definition adjustments (t : list event) := omap adjustment t.

Lemma unrecorded_adjustments t : Forall (fun e => unrecorded (asked e)) t -> adjustments t = [].
Proof.
  induction 1 as [|e t He _ IH]; [done|]. unfold adjustments, adjustment in *. simpl.
  by destruct (asked e); rewrite ?IH.
Qed.
Lemma adjustments_app t t' : adjustments (t ++ t') = adjustments t ++ adjustments t'.
Proof. apply omap_app. Qed.
Lemma silent {A} (m : io A) : only unrecorded m -> post m (fun _ t => adjustments t = []).
Proof. intros O. eapply post_mono; [|apply only_post, O]. intros a t. apply unrecorded_adjustments. Qed.

Lemma unrecorded_cleanup n b : only unrecorded (cleanupAzureResources n b).
Proof. eapply only_mono; [|apply cleans_only]. by intros []. Qed.
Lemma unrecorded_DeleteNic n : only unrecorded (DeleteNic n).
Proof. unfold DeleteNic, deleteNicIfExists, deleteNic. only_calls. Qed.
#[local] Hint Resolve unrecorded_cleanup unrecorded_DeleteNic : io.
Lemma unrecorded_deleteImpl n : only unrecorded (deleteImpl n).
Proof. unfold deleteImpl, Get. only_calls. Qed.
Lemma unrecorded_metadata t ct r : only unrecorded (metadata t ct r).
Proof. unfold metadata. only_calls. Qed.
Lemma unrecorded_prepare c claim s : only unrecorded (prepare c claim s).
Proof. unfold prepare, then_, getLaunchTemplate. only_calls. Qed.
Lemma unrecorded_ensure n z tags : only unrecorded (ensurePublicIP n z tags).
Proof. unfold ensurePublicIP, then_, try_call. only_calls. Qed.
#[local] Hint Resolve unrecorded_ensure unrecorded_prepare : io.
Lemma unrecorded_interface o : only unrecorded (createNetworkInterface o).
Proof. unfold createNetworkInterface, attachPublicIP, createNic, then_, try_call. only_calls. Qed.
#[local] Hint Resolve unrecorded_interface : io.
Lemma unrecorded_begin c claim : only unrecorded (beginLaunchInstance c claim).
Proof.
  unfold beginLaunchInstance, launch, create_interface, createVirtualMachine, handle_create_error, then_. only_calls.
Qed.

(** What a launch adjusts, and what undoing it adjusts. *)
Definition created_adjustment (p : VirtualMachinePromise) : list (bool * string * string * Z) :=
  if qm_eligible (pm_metadata p)
  then [(true, pm_claim p, qm_familyName (pm_metadata p), qm_vCPUs (pm_metadata p))] else [].
Definition deleted_adjustment (p : VirtualMachinePromise) : list (bool * string * string * Z) :=
  if qm_eligible (pm_metadata p)
  then [(false, pm_claim p, qm_familyName (pm_metadata p), qm_vCPUs (pm_metadata p))] else [].

Lemma recordCreate_adjusts g n m :
  post (recordCreate g n m) (fun _ t => adjustments t =
    if qm_eligible m then [(true, n, qm_familyName m, qm_vCPUs m)] else []).
Proof. unfold recordCreate. destruct (qm_eligible m); by repeat io_step. Qed.
Lemma recordDelete_adjusts n m :
  post (recordDelete n m) (fun _ t => adjustments t =
    if qm_eligible m then [(false, n, qm_familyName m, qm_vCPUs m)] else []).
Proof. unfold recordDelete. destruct (qm_eligible m); by repeat io_step. Qed.

(** Only on-demand VMs outside reservation groups count, with their SKU's
    family and cores. *)
Lemma metadata_eligible t ct r :
  post (metadata t ct r) (fun m u => qm_eligible m = true ->
    t <> "" /\ ct = CapacityTypeOnDemand /\ r = false /\
    exists sku, existT (P := resp) (GetSKU t) (Ok sku) ∈ u /\ sku_vcpu sku = Some (qm_vCPUs m) /\ sku_family sku = qm_familyName m).
Proof.
  unfold metadata. destruct (bool_decide (t = "")) eqn:B1; [by io_step|]. apply bool_decide_eq_false in B1.
  destruct (ct !=? CapacityTypeOnDemand) eqn:B2; [by io_step|]. apply negb_false_iff, bool_decide_eq_true in B2.
  destruct r eqn:B3; [by io_step|]. cbn [orb]. io_step. io_step. io_step.
  destruct r0 as [sku|e]; [|done]. destruct (sku_vcpu sku) as [v|] eqn:V; [|done]. case_match; [done|].
  intros _. split; [done|]. split; [done|]. split; [done|]. exists sku. split; [solve [in_trace]|by split].
Qed.

(** Azure said that the VM is not there, or has finished deleting it. *)
Definition vm_gone (n : string) (t : list event) : Prop :=
  (exists e, IsNotFoundErr e = true /\
     (existT (P := resp) (GetVM n) (Err e) ∈ t \/ existT (P := resp) (PollDeleteVM n) (Err e) ∈ t)) \/
  exists u, existT (P := resp) (PollDeleteVM n) (Ok u) ∈ t.

Lemma deleteImpl_gone n :
  post (deleteImpl n) (fun d t => adjustments t = [] /\ (d.1 = true -> vm_gone n t)).
Proof.
  apply post_conj; [apply silent, unrecorded_deleteImpl|].
  unfold deleteImpl, Get, cleanupAzureResources, deleteVirtualMachineIfExists, deleteVirtualMachine, DeleteNic,
    deleteNicIfExists, deleteNic.
  repeat io_step; intros D; simpl in D; repeat case_match; simplify_eq.
  all: first [solve [right; eexists; in_trace]
    |left; match goal with H : IsNotFoundErr ?e = true |- _ =>
       exists e; split; [exact H|]; first [solve [left; in_trace]|solve [right; in_trace]] end].
Qed.


(** ** Updates *)

(** The interface took the tags, and every managed extension took them and
    finished; the identifying extension may be missing. *)
Definition extension_tagged (vmName : string) (tags : gmap string (option string)) (t : list event) (n : string) : Prop :=
  (existT (P := resp) (BeginUpdateExtension vmName n tags) (Ok tt) ∈ t /\
   existT (P := resp) (PollUpdateExtension vmName n) (Ok tt) ∈ t) \/
  (n = aksIdentifyingExtensionName /\ exists e, StatusCode e = Some 404 /\
     existT (P := resp) (BeginUpdateExtension vmName n tags) (Err e) ∈ t).
Definition tagged (vmName : string) (update : VirtualMachineUpdate) (t : list event) : Prop :=
  forall tags, up_tags update = Some tags ->
    existT (P := resp) (UpdateNICTags vmName tags) (Ok tt) ∈ t /\
    Forall (extension_tagged vmName tags t) GetManagedExtensionNames.
Definition before_vm (q : req) : Prop :=
  match q with UpdateNICTags _ _ | BeginUpdateExtension _ _ _ | PollUpdateExtension _ _ => True | _ => False end.

Lemma begin_extensions_answered vmName tags names :
  post (begin_extension_updates vmName tags names) (fun r t => forall l, r = Ok l -> Forall (fun n =>
    (n ∈ l /\ existT (P := resp) (BeginUpdateExtension vmName n tags) (Ok tt) ∈ t) \/
    (n = aksIdentifyingExtensionName /\ exists e, StatusCode e = Some 404 /\
       existT (P := resp) (BeginUpdateExtension vmName n tags) (Err e) ∈ t)) names).
Proof.
  induction names as [|n names IH]; cbn [begin_extension_updates]; [by io_step|]. io_step. io_step. destruct r as [[]|e].
  - io_step. eapply post_mono; [|exact IH]. intros [l'|e] t HQ; io_step; [|done]. intros l [= <-].
    specialize (HQ l' eq_refl). rewrite app_nil_r. constructor; [left; split; left|].
    eapply Forall_impl; [exact HQ|]. intros m [[I J]|(? & e & ? & I)].
    + left. split; [by right|]. simpl. by right.
    + right. split; [done|]. exists e. split; [done|]. simpl. by right.
  - destruct (_ && _) eqn:B; [|by io_step]. apply andb_true_iff in B as [B1%bool_decide_eq_true B2%bool_decide_eq_true].
    eapply post_mono; [|exact IH]. intros r t HQ l Hl. constructor.
    + right. split; [done|]. exists e. split; [done|]. left.
    + eapply Forall_impl; [exact (HQ l Hl)|]. intros m [[I J]|(? & e' & ? & I)].
      * left. split; [done|]. simpl. by right.
      * right. split; [done|]. exists e'. split; [done|]. simpl. by right.
Qed.
Lemma before_begin_extensions vmName tags names : only before_vm (begin_extension_updates vmName tags names).
Proof. induction names as [|n names IH]; cbn [begin_extension_updates]; only_calls. Qed.

Lemma poll_extensions_answered vmName names :
  post (poll_extensions vmName names) (fun r t =>
    r = None -> Forall (fun n => existT (P := resp) (PollUpdateExtension vmName n) (Ok tt) ∈ t) names).
Proof.
  induction names as [|n names IH]; cbn [poll_extensions]; [by io_step|]. io_step. io_step. destruct r as [[]|e]; [|by io_step].
  eapply post_mono; [|exact IH]. intros r t HQ N. constructor; [left|].
  eapply Forall_impl; [exact (HQ N)|]. intros m I. simpl. by right.
Qed.
Lemma before_poll_extensions vmName names : only before_vm (poll_extensions vmName names).
Proof. induction names as [|n names IH]; cbn [poll_extensions]; only_calls. Qed.
#[local] Hint Resolve before_begin_extensions before_poll_extensions : io.

Lemma tags_answered `{GoRange} vmName tags :
  post (n ← call (UpdateNICTags vmName tags);
        match n with
        | Err e => mret (Some e)
        | Ok _ =>
            b ← begin_extension_updates vmName tags GetManagedExtensionNames;
            match b with
            | Err e => mret (Some e)
            | Ok names => poll_extensions vmName (range_keys (list_to_set names))
            end
        end)
    (fun e t => e = None -> existT (P := resp) (UpdateNICTags vmName tags) (Ok tt) ∈ t /\
       Forall (extension_tagged vmName tags t) GetManagedExtensionNames).
Proof.
  io_step. io_step. destruct r as [[]|e]; [|by io_step]. io_step.
  eapply post_mono; [|apply begin_extensions_answered]. intros [l|e] t HQ; [|by io_step]. specialize (HQ l eq_refl).
  eapply post_mono; [|apply poll_extensions_answered]. intros e u HP N. specialize (HP N). split; [left|].
  rewrite Forall_forall in HP. eapply Forall_impl; [exact HQ|]. intros n [[I J]|(En & e' & S & J)].
  - left. split; [simpl; right; apply elem_of_app; by left|]. simpl. right. apply elem_of_app. right.
    apply HP. by apply elem_of_range, elem_of_list_to_set.
  - right. split; [done|]. exists e'. split; [done|]. simpl. right. apply elem_of_app. by left.
Qed.

(** How an update went: what came before the VM's own update, and that. *)
Definition update_outcome (vmName : string) (update : VirtualMachineUpdate) (err : option E) (t : list event) : Prop :=
  exists t1 t2, t = t1 ++ t2 /\ Forall (fun e => before_vm (asked e)) t1 /\
    ((t2 = [] /\ is_Some err) \/
     (tagged vmName update t1 /\
      ((exists e, t2 = [existT (P := resp) (BeginUpdateVM vmName update) (Err e)] /\ err = Some e) \/
       (exists p : result E unit, t2 = [existT (P := resp) (BeginUpdateVM vmName update) (Ok tt); existT (P := resp) (PollUpdateVM vmName) p] /\
          err = match p with Ok _ => None | Err e => Some e end)))).

Lemma update_answered `{GoRange} vmName update : post (Update vmName update) (update_outcome vmName update).
Proof.
  unfold Update. io_step. apply (post_mono _ (fun e t1 => Forall (fun e => before_vm (asked e)) t1 /\
    (e = None -> tagged vmName update t1))).
  - intros [e|] t1 [B T].
    + io_step. exists t1, []. split; [by rewrite !app_nil_r|]. split; [done|]. left. by eexists.
    + specialize (T eq_refl). io_step. io_step. destruct r as [[]|e].
      * io_step. io_step. io_step. eexists t1, _. do 2 (split; [done|]). right. split; [done|]. right. by exists r.
      * io_step. eexists t1, _. do 2 (split; [done|]). right. split; [done|]. left. by exists e.
  - apply post_conj.
    + apply only_post. only_calls.
    + destruct (up_tags update) as [tags|] eqn:U; [|io_step; intros _ tags; by rewrite U].
      eapply post_mono; [|apply tags_answered]. intros e t1 HQ N tags'. rewrite U. intros [= <-]. by apply HQ.
Qed.

(** A VM is updated last: an update changes the VM only after the network
    interface and every managed extension took the new tags (the identifying
    extension may be missing, nothing else), so that an update cut short is
    tried again; it reports no error exactly when the VM's own update, its
    last step, is polled to success. *)
Theorem update_vm_last `{GoRange} env vmName update err t :
  run env (Update vmName update) [] = (err, t) ->
  exists t1 t2, t = t1 ++ t2 /\ Forall (fun e => before_vm (asked e)) t1 /\
    ((t2 = [] /\ is_Some err) \/
     (tagged vmName update t1 /\
      ((exists e, t2 = [existT (P := resp) (BeginUpdateVM vmName update) (Err e)] /\ err = Some e) \/
       (exists p : result E unit, t2 = [existT (P := resp) (BeginUpdateVM vmName update) (Ok tt); existT (P := resp) (PollUpdateVM vmName) p] /\
          err = match p with Ok _ => None | Err e => Some e end)))).
Proof.
  intros R. destruct (post_run _ _ env [] (update_answered vmName update)) as (t' & Et & HQ).
  rewrite R in Et, HQ. simpl in Et, HQ. by subst t'.
Qed.

End Provider.
Arguments Done {E H A} a.
Arguments Failed {E H A} e.
Arguments Panicked {E H A}.

(** ** The theorems at concrete inputs *)

Definition demo_settings : Settings :=
  mk_settings "eastus" "mc_rg" "sub" "aksscriptless" "" true true NetworkPluginAzure NetworkPluginModeOverlay "mc_rg"
    "key" "azureuser" ["id-1"] false "cluster".
Definition demo_launch_class : LaunchClass := mk_launch_class (mk_class None None) None (Some true) None.
Definition demo_claim : Claim := mk_launch_claim "default-2jf98" ∅ ∅ false ∅.
Definition demo_selection : Allocation.Selection :=
  Allocation.mk_selection (mk_instance_type "Standard_D2s_v3" "linux" [])
    (mk_offering CapacityTypeOnDemand "eastus-2" "zonal" 1 true).
Definition demo_template : Template :=
  mk_template "data" "/CommunityGalleries/AKSUbuntu/images/i/versions/1" false
    "/subscriptions/sub/resourceGroups/rg/providers/Microsoft.Network/virtualNetworks/vnet/subnets/nodes"
    ∅ "" "" false false "" 128 None.
Definition demo_nic : Interface :=
  mk_nic (Some "nic-1") "eastus" ∅ (Some "nsg-1") false
    [Some (mk_ip_config "primary" (Some true) (Some ["pool-1"]) None None)].

(** An Azure where nothing exists yet, that accepts or refuses the VM. *)
Definition demo_azure (accepts : bool) (h : list (event (@resp string unit))) (q : @req string) : @resp string unit q :=
  match q with
  | GetVM _ | GetNIC _ | GetIP _ => Err "not found"
  | PollCreateNIC _ => Ok demo_nic
  | PollCreateIP _ => Ok (mk_address (Some "ip-1") ∅ [])
  | BeginCreateVM _ _ => if accepts then Ok tt else Err "no"
  | PollCreateVM _ | BeginUpdateVM _ _ | PollUpdateVM _ | BeginDeleteVM _ | PollDeleteVM _
  | BeginCreateNIC _ _ | UpdateNICTags _ _ | BeginDeleteNIC _ | PollDeleteNIC _ | BeginCreateIP _ _
  | BeginCreateExtension _ _ _ | PollCreateExtension _ _ | PollUpdateExtension _ _ | DeletePublicIP _ => Ok tt
  | BeginUpdateExtension _ _ _ => Err "not found"
  | AllocateOffering => Some demo_selection
  | GetTemplate _ _ => Ok demo_template
  | GetPools | RefreshPools _ => Ok (LoadBalancer.mk_pools ["pool-1"] [] [] 0)
  | GetNSG => Ok (SecurityGroup.mk_nsg (Some "nsg-1") None)
  | GetSKU n => Ok (mk_sku n "standardDSv3Family" (Some 2))
  | HandleError _ _ _ _ _ _ => None
  | SnapshotGeneration | Clock => 0
  | Deleting _ => false
  | RecordCreate _ _ _ _ | RecordDelete _ _ _ | SetDeleting _ | UnsetDeleting _ => tt
  end.
Definition demo_launch : io (@resp string unit) (outcome VirtualMachinePromise) :=
  BeginCreate demo_settings (fun e => e ==? "not found") (fun _ => None) (fun e => e) (fun _ => None) (fun _ => None)
    (fun _ => ∅) (fun _ => false) demo_launch_class demo_claim.

Definition demo_count (p : @req string -> bool) (t : list (event (@resp string unit))) : nat :=
  length (List.filter (fun e => p (asked e)) t).

Lemma failed_launch_cleaned_witness :
  exists before after, (run (demo_azure false) demo_launch []).2 = before ++ after /\
    cleaned (fun e => e ==? "not found") "aks-default-2jf98" after /\
    demo_count creates (run (demo_azure false) demo_launch []).2 = 4%nat /\
    demo_count (fun q => match q with DeletePublicIP _ => true | _ => false end)
      (run (demo_azure false) demo_launch []).2 = 1%nat.
Proof.
  destruct (failed_launch_cleaned demo_settings (fun e => e ==? "not found") (fun _ => None) (fun e => e) (fun _ => None)
    (fun _ => None) (fun _ => ∅) (fun _ => false) (demo_azure false) demo_launch_class demo_claim
    (ErrAzure "virtualMachine.BeginCreateOrUpdate" "no") (run (demo_azure false) demo_launch []).2)
    as (b & a & E & C & _); [apply run_outcome; vm_compute; reflexivity|].
  exists b, a. split; [exact E|]. split; [exact C|]. split; vm_compute; reflexivity.
Defined.

Lemma one_vm_per_launch_witness :
  exists t1 vm t2, (run (demo_azure true) demo_launch []).2 =
      t1 ++ existT (P := @resp string unit) (BeginCreateVM "aks-default-2jf98" vm) (Ok tt) :: t2 /\
    Forall (fun e => quiet (asked e)) t1 /\ Forall (fun e => quiet (asked e)) t2 /\
    exists p i, newVMObject (vm_options demo_settings demo_launch_class demo_claim "aks-default-2jf98" i p) = Some vm.
Proof.
  set (t := (run (demo_azure true) demo_launch []).2).
  assert (S : exists n vm r, nth_error t 14 = Some (existT (P := @resp string unit) (BeginCreateVM n vm) r) /\ r = Ok tt).
  { eexists _, _, _. split; vm_compute; reflexivity. }
  destruct S as (n & vm & r & S & Er). apply nth_error_split in S as (t1 & t2 & Et & _).
  destruct (one_vm_per_launch demo_settings (fun e => e ==? "not found") (fun _ => None) (fun e => e) (fun _ => None)
    (fun _ => None) (fun _ => ∅) (fun _ => false) (demo_azure true) demo_launch_class demo_claim
    (run (demo_azure true) demo_launch []).1 t t1 n vm r t2 (surjective_pairing _) Et) as (En & Q1 & Q2 & s & p & i & C & Sp & _ & V & W).
  exists t1, vm, t2. subst r. rewrite En in Et. rewrite En in V. split; [exact Et|]. split; [exact Q1|]. split; [exact Q2|]. exists p, i. exact V.
Defined.


Lemma update_vm_last_witness :
  exists t1 t2, (run (demo_azure true) (Update demo_settings (fun _ => Some 404) "aks-default-2jf98"
      (mk_update (Some {[ "team" := Some "a" ]}) None)) []).2 = t1 ++ t2 /\
    tagged demo_settings (fun _ => Some 404) "aks-default-2jf98" (mk_update (Some {[ "team" := Some "a" ]}) None) t1 /\
    exists p, t2 = [existT (P := @resp string unit) (BeginUpdateVM "aks-default-2jf98" (mk_update (Some {[ "team" := Some "a" ]}) None)) (Ok tt);
                    existT (P := @resp string unit) (PollUpdateVM "aks-default-2jf98") p].
Proof.
  destruct (update_vm_last demo_settings (fun _ => Some 404) (demo_azure true) "aks-default-2jf98"
    (mk_update (Some {[ "team" := Some "a" ]}) None) None
    (run (demo_azure true) (Update demo_settings (fun _ => Some 404) "aks-default-2jf98"
      (mk_update (Some {[ "team" := Some "a" ]}) None)) []).2) as (t1 & t2 & E & _ & [[_ N]|[T [(e & _ & N)|(p & -> & _)]]]).
  - by vm_compute.
  - by destruct N.
  - done.
  - eexists t1, _. split; [exact E|]. split; [exact T|]. by exists p.
Defined.

End VMInstance.
