(* ===== verification/Options.v ===== *)
(** * Operator options ([pkg/operator/options/options_validation.go],
      [options.go])

    The options that [Validate] looks at and every check it makes, in its
    order; what accepted options guarantee to the rest of the program.  The
    checks of [netip], [net/url], of UUIDs, of the ARM SDK's resource IDs and
    of the struct validator are parameters. *)

From S2P Require Import Prelude GoString Regexp Allocation ResourceIDs VirtualMachines VMInstance Batcher.
#[local] Open Scope string_scope.
#[local] Open Scope list_scope.
#[local] Open Scope Z_scope.

Module Options.

(** A parsed ARM resource ID: its type, subscription, group and name. *)
Record ResourceID := mk_resource_id {
  ri_type : string; ri_subscription : string; ri_group : string; ri_name : string
}.

Record Options := mk_options {
  ClusterName : string; ClusterEndpoint : string; VMMemoryOverheadPercent : VirtualMachines.float64;
  KubeletClientTLSBootstrapToken : string; LinuxAdminUsername : string; SSHPublicKey : string;
  NetworkPlugin : string; NetworkPluginMode : string; NetworkDataplane : string; DNSServiceIP : string;
  NodeIdentities : list string; KubeletIdentityClientID : string; VnetGUID : string; SubnetID : string;
  ProvisionMode : string; NodeBootstrappingServerURL : string; UseSIG : bool;
  SIGAccessTokenServerURL : string; SIGSubscriptionID : string; NodeResourceGroup : string;
  AdditionalTags : gmap string string; DiskEncryptionSetID : string; EnableFIPS : bool; EnableNodeHardening : bool;
  AKSMachinesPoolName : string; ProviderBatchIdleDuration : Z; ProviderBatchMaxDuration : Z; ProviderBatchMaxSize : Z;
  ComputeRecommendationMode : string
}.

Definition NetworkDataplaneNone : string := "".
Definition NetworkDataplaneCilium : string := "cilium".
Definition NetworkDataplaneAzure : string := "azure".
Definition ProvisionModeAKSScriptless : string := "aksscriptless".
Definition ProvisionModeAKSMachineAPI : string := "aksmachineapi".
Definition ProvisionModeAKSMachineAPIHeaderBatch : string := "aksmachineapiheaderbatch".
Definition AKSMachineAPIHeaderBatchMaxSize : Z := 50.

Definition IsAKSMachineAPIMode (o : Options) : bool :=
  (ProvisionMode o ==? ProvisionModeAKSMachineAPI) || (ProvisionMode o ==? ProvisionModeAKSMachineAPIHeaderBatch).
Definition ShouldUseNodeHardening (o : Options) : bool :=
  EnableNodeHardening o && ((ProvisionMode o ==? ProvisionModeAKSScriptless) || IsAKSMachineAPIMode o).

(** What is wrong, and with which option. *)
Inductive invalid :=
| Missing (field : string)
| Malformed (field : string)
| OutOfRange (field : string)
| TagKeyTooLong (key : string)
| TagValueTooLong (key : string)
| TagKeyInvalid (key : string)
| TagKeyDuplicate (key : string).

(** Runs the checks in order up to the first that fails. *)
Definition require (ok : bool) (e : invalid) : result invalid unit := if ok then Ok tt else Err e.
Definition failure {A} (m : result invalid A) : option invalid := match m with Ok _ => None | Err e => Some e end.

Section Validate.
Context `{GoRange}.
Variable uuid_valid : string -> bool.
(** [netip.ParseAddr] accepts the string; [url.Parse] does, the URL is
    absolute and has a host name. *)
Variable ParseAddr : string -> bool.
Variable isValidURL : string -> bool.
Variable ParseResourceID : string -> option ResourceID.
(** The errors of the struct validator. *)
Variable validate_Struct : Options -> list invalid.

Definition validateClusterDNSIP (o : Options) : result invalid unit :=
  require ((DNSServiceIP o ==? "") || ParseAddr (DNSServiceIP o)) (Malformed "dns-service-ip").
Definition validateVNETGUID (o : Options) : result invalid unit :=
  require ((VnetGUID o ==? "") || uuid_valid (VnetGUID o)) (Malformed "vnet-guid").
Definition validateKubeletIdentityClientID (o : Options) : result invalid unit :=
  require ((KubeletIdentityClientID o ==? "") || uuid_valid (KubeletIdentityClientID o)) (Malformed "kubelet-identity-client-id").

Definition validateNetworkingOptions (o : Options) : result invalid unit :=
  _ ← require ((NetworkPlugin o ==? VMInstance.NetworkPluginAzure) || (NetworkPlugin o ==? VMInstance.NetworkPluginNone))
        (Malformed "network-plugin");
  _ ← require ((NetworkPluginMode o ==? VMInstance.NetworkPluginModeOverlay) ||
               (NetworkPluginMode o ==? VMInstance.NetworkPluginModeNone)) (Malformed "network-plugin-mode");
  _ ← require ((NetworkDataplane o ==? NetworkDataplaneAzure) || (NetworkDataplane o ==? NetworkDataplaneCilium) ||
               (NetworkDataplane o ==? NetworkDataplaneNone)) (Malformed "network-dataplane");
  require (negb ((NetworkPlugin o ==? VMInstance.NetworkPluginNone) &&
                 (NetworkPluginMode o !=? VMInstance.NetworkPluginModeNone))) (Malformed "network-plugin-mode").

Definition validateVnetSubnetID (o : Options) : result invalid unit :=
  require (is_ok (ResourceIDs.GetVnetSubnetIDComponents (SubnetID o))) (Malformed "vnet-subnet-id").
Definition validateEndpoint (o : Options) : result invalid unit :=
  require ((ClusterEndpoint o ==? "") || isValidURL (ClusterEndpoint o)) (Malformed "cluster-endpoint").

(** Comparisons with NaN are false. *)
Definition negative (x : VirtualMachines.float64) : bool :=
  match x with
  | VirtualMachines.Finite n => n <? 0
  | VirtualMachines.Inf b => b
  | VirtualMachines.NaN => false
  end.
Definition validateVMMemoryOverheadPercent (o : Options) : result invalid unit :=
  require (negb (negative (VMMemoryOverheadPercent o))) (OutOfRange "vm-memory-overhead-percent").

Definition validateBatchOptions (o : Options) : result invalid unit :=
  _ ← require (negb ((ProviderBatchMaxSize o <? 1) || (AKSMachineAPIHeaderBatchMaxSize <? ProviderBatchMaxSize o)))
        (OutOfRange "provider-batch-max-size");
  _ ← require (negb (ProviderBatchIdleDuration o <? 0)) (OutOfRange "provider-batch-idle-duration");
  _ ← require (negb (ProviderBatchMaxDuration o <? 0)) (OutOfRange "provider-batch-max-duration");
  require (negb (ProviderBatchMaxDuration o <? ProviderBatchIdleDuration o)) (OutOfRange "provider-batch-max-duration").

Definition validateProvisionMode (o : Options) : result invalid unit :=
  _ ← require ((ProvisionMode o ==? ProvisionModeAKSScriptless) ||
               (ProvisionMode o ==? VirtualMachines.ProvisionModeBootstrappingClient) || IsAKSMachineAPIMode o)
        (Malformed "provision-mode");
  if ProvisionMode o ==? VirtualMachines.ProvisionModeBootstrappingClient
  then require (NodeBootstrappingServerURL o !=? "") (Missing "nodebootstrapping-server-url")
  else if IsAKSMachineAPIMode o then
    _ ← require (AKSMachinesPoolName o !=? "") (Missing "aks-machines-pool-name");
    _ ← require (UseSIG o) (Missing "use-sig");
    if ProvisionMode o ==? ProvisionModeAKSMachineAPIHeaderBatch then validateBatchOptions o else Ok tt
  else Ok tt.

Definition validateRequiredFields (o : Options) : result invalid unit :=
  _ ← require (ClusterEndpoint o !=? "") (Missing "cluster-endpoint");
  _ ← require (ClusterName o !=? "") (Missing "cluster-name");
  _ ← require (KubeletClientTLSBootstrapToken o !=? "") (Missing "kubelet-bootstrap-token");
  _ ← require (SSHPublicKey o !=? "") (Missing "ssh-public-key");
  _ ← require (SubnetID o !=? "") (Missing "vnet-subnet-id");
  require (NodeResourceGroup o !=? "") (Missing "node-resource-group").

Definition validateUseSIG (o : Options) : result invalid unit :=
  if UseSIG o then
    _ ← (if IsAKSMachineAPIMode o then Ok tt
         else
           _ ← require (SIGAccessTokenServerURL o !=? "") (Missing "sig-access-token-server-url");
           require (isValidURL (SIGAccessTokenServerURL o)) (Malformed "sig-access-token-server-url"));
    require (SIGSubscriptionID o !=? "") (Missing "sig-subscription-id")
  else Ok tt.

Definition letter (a : ascii) : bool :=
  let n := nat_of_ascii a in
  (Nat.leb 65 n && Nat.leb n 90) || (Nat.leb 97 n && Nat.leb n 122).
Definition usernameRegex : list Regexp.item :=
  [Regexp.Rep letter 1 (Some 1%nat) false;
   Regexp.Rep (fun a => letter a || Regexp.digit a || (a ==? "-"%char) || (a ==? "_"%char)) 0 None false].
Definition validateAdminUsername (o : Options) : result invalid unit :=
  _ ← require (negb (Nat.ltb 32 (String.length (LinuxAdminUsername o)))) (OutOfRange "linux-admin-username");
  require (bool_decide (is_Some (Regexp.find_submatch true true usernameRegex (LinuxAdminUsername o))))
    (Malformed "linux-admin-username").

Definition ContainsAny (s chars : string) : bool :=
  existsb (fun a => existsb (fun b => a ==? b) (String.list_ascii_of_string chars)) (String.list_ascii_of_string s).
Definition check_tag (seen : gset string) (key value : string) : result invalid (gset string) :=
  _ ← require (negb (Nat.ltb 512 (String.length key))) (TagKeyTooLong key);
  _ ← require (negb (Nat.ltb 256 (String.length value))) (TagValueTooLong key);
  _ ← require (negb (ContainsAny key "<>%&\?/")) (TagKeyInvalid key);
  _ ← require (negb (bool_decide (ToLower key ∈ seen))) (TagKeyDuplicate key);
  Ok ({[ToLower key]} ∪ seen).
Fixpoint check_tags (tags : gmap string string) (seen : gset string) (keys : list string) : result invalid unit :=
  match keys with
  | [] => Ok tt
  | k :: keys => seen ← check_tag seen k (default "" (tags !! k)); check_tags tags seen keys
  end.
Definition validateAdditionalTags (o : Options) : result invalid unit :=
  check_tags (AdditionalTags o) ∅ (range_keys (dom (AdditionalTags o))).

(** The parsed ID is kept in the options. *)
Definition validateDiskEncryptionSetID (o : Options) : result invalid (option ResourceID) :=
  if DiskEncryptionSetID o ==? "" then Ok None
  else
    match ParseResourceID (DiskEncryptionSetID o) with
    | None => Err (Malformed "disk-encryption-set-id")
    | Some i =>
        _ ← require (EqualFold (ri_type i) "Microsoft.Compute/diskEncryptionSets") (Malformed "disk-encryption-set-id");
        _ ← require (ri_subscription i !=? "") (Malformed "disk-encryption-set-id");
        _ ← require (ri_group i !=? "") (Malformed "disk-encryption-set-id");
        _ ← require (ri_name i !=? "") (Malformed "disk-encryption-set-id");
        Ok (Some i)
    end.

Definition validateComputeRecommendationMode (o : Options) : result invalid unit :=
  require ((ComputeRecommendationMode o ==? Allocation.ComputeRecommendationModeDisabled) ||
           (ComputeRecommendationMode o ==? Allocation.ComputeRecommendationModeLog) ||
           (ComputeRecommendationMode o ==? Allocation.ComputeRecommendationModeEnabled))
    (Malformed "compute-recommendation-mode").

(** All checks run; their errors are combined. *)
Definition Validate (o : Options) : list invalid * option ResourceID :=
  let disk := validateDiskEncryptionSetID o in
  (omap id
    [failure (validateRequiredFields o); failure (validateVNETGUID o); failure (validateKubeletIdentityClientID o);
     failure (validateEndpoint o); failure (validateNetworkingOptions o); failure (validateVMMemoryOverheadPercent o);
     failure (validateVnetSubnetID o); failure (validateProvisionMode o); failure (validateUseSIG o);
     failure (validateAdminUsername o); failure (validateAdditionalTags o); failure disk;
     failure (validateClusterDNSIP o); failure (validateComputeRecommendationMode o)] ++ validate_Struct o,
   match disk with Ok i => i | Err _ => None end).

(** ** What accepted options guarantee *)

Definition tags_valid (tags : gmap string string) : Prop :=
  (forall k v, tags !! k = Some v ->
     (String.length k <= 512)%nat /\ (String.length v <= 256)%nat /\ ContainsAny k "<>%&\?/" = false) /\
  (forall k k' v v', tags !! k = Some v -> tags !! k' = Some v' -> ToLower k = ToLower k' -> k = k').

Record accepted (o : Options) : Prop := {
  ac_required : Forall (fun s => s <> "") [ClusterEndpoint o; ClusterName o; KubeletClientTLSBootstrapToken o;
    SSHPublicKey o; SubnetID o; NodeResourceGroup o];
  ac_endpoint : isValidURL (ClusterEndpoint o) = true;
  ac_ids : Forall (fun s => s <> "" -> uuid_valid s = true) [VnetGUID o; KubeletIdentityClientID o];
  ac_network : (NetworkPlugin o, NetworkPluginMode o) ∈ [("azure", "overlay"); ("azure", ""); ("none", "")] /\
    NetworkDataplane o ∈ ["azure"; "cilium"; ""];
  ac_overhead : negative (VMMemoryOverheadPercent o) = false;
  ac_subnet : exists r, ResourceIDs.GetVnetSubnetIDComponents (SubnetID o) = Ok r;
  ac_mode : ProvisionMode o ∈ ["aksscriptless"; "bootstrappingclient"; "aksmachineapi"; "aksmachineapiheaderbatch"];
  ac_bootstrapping : ProvisionMode o = "bootstrappingclient" -> NodeBootstrappingServerURL o <> "";
  ac_machines : IsAKSMachineAPIMode o = true -> AKSMachinesPoolName o <> "" /\ UseSIG o = true;
  ac_batch : ProvisionMode o = "aksmachineapiheaderbatch" -> 1 <= ProviderBatchMaxSize o <= 50 /\
    0 <= ProviderBatchIdleDuration o <= ProviderBatchMaxDuration o;
  ac_sig : UseSIG o = true -> SIGSubscriptionID o <> "" /\
    (IsAKSMachineAPIMode o = false -> SIGAccessTokenServerURL o <> "" /\ isValidURL (SIGAccessTokenServerURL o) = true);
  ac_username : (String.length (LinuxAdminUsername o) <= 32)%nat /\
    is_Some (Regexp.find_submatch true true usernameRegex (LinuxAdminUsername o));
  ac_tags : tags_valid (AdditionalTags o);
  ac_disk : DiskEncryptionSetID o = "" \/ exists i, ParseResourceID (DiskEncryptionSetID o) = Some i /\
    EqualFold (ri_type i) "Microsoft.Compute/diskEncryptionSets" = true /\
    Forall (fun s => s <> "") [ri_subscription i; ri_group i; ri_name i];
  ac_dns : DNSServiceIP o = "" \/ ParseAddr (DNSServiceIP o) = true;
  ac_recommendations : ComputeRecommendationMode o ∈ ["disabled"; "log-only"; "enabled"];
  ac_struct : validate_Struct o = []
}.

(** ** Each check *)

Lemma require_ok ok e : require ok e = Ok tt <-> ok = true.
Proof. by destruct ok. Qed.
Lemma then_ok {A} ok e (k : unit -> result invalid A) x : (require ok e ≫= k) = Ok x <-> ok = true /\ k tt = Ok x.
Proof. destruct ok; split; [by intros ?|by intros [_ ?]|done|by intros [? _]]. Qed.
Lemma failure_none {A} (m : result invalid A) : failure m = None <-> exists a, m = Ok a.
Proof. destruct m as [a|e]; split; [by eexists|done|done|by intros [a ?]]. Qed.
Lemma failure_unit (m : result invalid unit) : failure m = None <-> m = Ok tt.
Proof. rewrite failure_none. split; [by intros [[] ?]|by eexists]. Qed.

Create Rewrite HintDb options.
#[local] Hint Rewrite @then_ok require_ok orb_true_iff andb_true_iff negb_true_iff bool_decide_eq_true
  bool_decide_eq_false orb_false_iff andb_false_iff negb_false_iff Z.ltb_ge Nat.ltb_ge : options.
Ltac options := autorewrite with options in *.
(** Decides the comparisons of constants. *)
Ltac closed_tests :=
  repeat match goal with
  | |- context [bool_decide (String ?a ?s = ?b)] =>
      let v := eval vm_compute in (bool_decide (String a s = b)) in
      match v with true => idtac | false => idtac end; change (bool_decide (String a s = b)) with v
  end; cbn [orb andb negb].

Lemma network_ok o : validateNetworkingOptions o = Ok tt <->
  (NetworkPlugin o, NetworkPluginMode o) ∈ [("azure", "overlay"); ("azure", ""); ("none", "")] /\
  NetworkDataplane o ∈ ["azure"; "cilium"; ""].
Proof.
  unfold validateNetworkingOptions. options. set_unfold. unfold VMInstance.NetworkPluginAzure,
    VMInstance.NetworkPluginNone, VMInstance.NetworkPluginModeOverlay, VMInstance.NetworkPluginModeNone,
    NetworkDataplaneAzure, NetworkDataplaneCilium, NetworkDataplaneNone.
  generalize (NetworkPlugin o) (NetworkPluginMode o) (NetworkDataplane o). intros p m d. split.
  - intros (P & M & D & N). split; [|tauto]. destruct P as [-> | ->], M as [-> | ->]; naive_solver.
  - intros [[E|[E|[E|[]]]] D]; injection E as -> ->; (split; [tauto|]); (split; [tauto|]); (split; [tauto|]); naive_solver.
Qed.

Lemma batch_ok o : validateBatchOptions o = Ok tt <->
  1 <= ProviderBatchMaxSize o <= 50 /\ 0 <= ProviderBatchIdleDuration o <= ProviderBatchMaxDuration o.
Proof. unfold validateBatchOptions, AKSMachineAPIHeaderBatchMaxSize. options. lia. Qed.

Lemma machine_mode o : IsAKSMachineAPIMode o = true <->
  ProvisionMode o = "aksmachineapi" \/ ProvisionMode o = "aksmachineapiheaderbatch".
Proof. unfold IsAKSMachineAPIMode. by options. Qed.

Lemma mode_ok o : validateProvisionMode o = Ok tt <->
  ProvisionMode o ∈ ["aksscriptless"; "bootstrappingclient"; "aksmachineapi"; "aksmachineapiheaderbatch"] /\
  (ProvisionMode o = "bootstrappingclient" -> NodeBootstrappingServerURL o <> "") /\
  (IsAKSMachineAPIMode o = true -> AKSMachinesPoolName o <> "" /\ UseSIG o = true) /\
  (ProvisionMode o = "aksmachineapiheaderbatch" -> validateBatchOptions o = Ok tt).
Proof.
  unfold validateProvisionMode. rewrite then_ok. unfold IsAKSMachineAPIMode.
  generalize (validateBatchOptions o) (UseSIG o) (AKSMachinesPoolName o) (NodeBootstrappingServerURL o) (ProvisionMode o).
  intros batch sig pool url m. set_unfold.
  destruct (decide (m = "aksscriptless")) as [->|N1]; [closed_tests; naive_solver|].
  destruct (decide (m = "bootstrappingclient")) as [->|N2]; [closed_tests; options; naive_solver|].
  destruct (decide (m = "aksmachineapi")) as [->|N3]; [closed_tests; options; naive_solver|].
  destruct (decide (m = "aksmachineapiheaderbatch")) as [->|N4]; [closed_tests; options; naive_solver|].
  options. tauto.
Qed.

Lemma sig_ok o : validateUseSIG o = Ok tt <-> (UseSIG o = true -> SIGSubscriptionID o <> "" /\
  (IsAKSMachineAPIMode o = false -> SIGAccessTokenServerURL o <> "" /\ isValidURL (SIGAccessTokenServerURL o) = true)).
Proof.
  unfold validateUseSIG. destruct (UseSIG o); [|done]. destruct (IsAKSMachineAPIMode o).
  - change (mbind ?k (Ok tt)) with (k tt). rewrite require_ok, neqb_true. split; [by intros N _|]. intros G. by destruct (G eq_refl).
  - rewrite bind_ok. split.
    + intros ([] & Hs & Ht%require_ok%neqb_true) _. by apply then_ok in Hs as [?%neqb_true ?%require_ok].
    + intros G. destruct (G eq_refl) as (G1 & G2). destruct (G2 eq_refl) as [G3 G4]. exists tt.
      split; [apply then_ok; split; [by apply neqb_true|by apply require_ok]|by apply require_ok, neqb_true].
Qed.

Lemma disk_ok o : (exists i, validateDiskEncryptionSetID o = Ok i) <->
  DiskEncryptionSetID o = "" \/ exists i, ParseResourceID (DiskEncryptionSetID o) = Some i /\
    EqualFold (ri_type i) "Microsoft.Compute/diskEncryptionSets" = true /\
    Forall (fun s => s <> "") [ri_subscription i; ri_group i; ri_name i].
Proof.
  unfold validateDiskEncryptionSetID. destruct (decide (DiskEncryptionSetID o = "")) as [E|N].
  { rewrite (bool_decide_eq_true_2 _ E). split; [by left|by eexists]. }
  rewrite (bool_decide_eq_false_2 _ N). destruct (ParseResourceID _) as [i|]; [|naive_solver].
  split.
  - intros [j V]. options. right. exists i. split; [done|]. split; [naive_solver|]. repeat constructor; naive_solver.
  - intros [?|(? & [= <-] & T & F)]; [done|]. exists (Some i). options. rewrite !Forall_cons in F. naive_solver.
Qed.

Lemma tags_ok tags seen keys : NoDup keys -> (forall k, k ∈ keys -> is_Some (tags !! k)) ->
  check_tags tags seen keys = Ok tt <->
  (forall k v, k ∈ keys -> tags !! k = Some v ->
     (String.length k <= 512)%nat /\ (String.length v <= 256)%nat /\ ContainsAny k "<>%&\?/" = false /\ ToLower k ∉ seen) /\
  (forall k k', k ∈ keys -> k' ∈ keys -> ToLower k = ToLower k' -> k = k').
Proof.
  revert seen. induction keys as [|k keys IH]; intros seen ND S; simpl.
  { split; [intros _; split; [by intros ? ? ?%not_elem_of_nil|by intros ? ? ?%not_elem_of_nil]|done]. }
  apply NoDup_cons in ND as [Nk ND]. destruct (S k ltac:(left)) as [v Hv]. rewrite Hv. simpl. rewrite bind_ok.
  setoid_rewrite then_ok. setoid_rewrite then_ok. setoid_rewrite then_ok. setoid_rewrite then_ok.
  assert (S' : forall k, k ∈ keys -> is_Some (tags !! k)) by (intros; apply S; by right). split.
  - intros (seen' & (L1 & L2 & C & D & [= <-]) & R). apply (IH _ ND S') in R as [R1 R2]. options. split.
    + intros k' v' [->|I]%elem_of_cons Hv'; [by simplify_eq|]. destruct (R1 k' v' I Hv') as (? & ? & ? & [_ N]%not_elem_of_union). done.
    + intros k1 k2 [->|I1]%elem_of_cons [->|I2]%elem_of_cons Ek; [done| | |by apply R2].
      * destruct (S' k2 I2) as [v2 H2]. destruct (R1 k2 v2 I2 H2) as (_ & _ & _ & [N%not_elem_of_singleton _]%not_elem_of_union). by destruct N.
      * destruct (S' k1 I1) as [v1 H1]. destruct (R1 k1 v1 I1 H1) as (_ & _ & _ & [N%not_elem_of_singleton _]%not_elem_of_union). by destruct N.
  - intros [A B]. exists ({[ToLower k]} ∪ seen). destruct (A k v ltac:(left) Hv) as (? & ? & ? & ?).
    split; [options; repeat (split; [done|]); done|]. apply (IH _ ND S'). split.
    + intros k' v' I Hv'. destruct (A k' v' ltac:(by right) Hv') as (? & ? & ? & ?). do 3 (split; [done|]).
      apply not_elem_of_union. split; [|done]. intros Ek%elem_of_singleton.
      rewrite (B k' k ltac:(by right) ltac:(left) Ek) in I. done.
    + intros k1 k2 I1 I2. apply B; by right.
Qed.

Lemma additional_tags_ok o : validateAdditionalTags o = Ok tt <-> tags_valid (AdditionalTags o).
Proof.
  unfold validateAdditionalTags. rewrite tags_ok.
  - setoid_rewrite elem_of_range. setoid_rewrite elem_of_dom. unfold tags_valid. split.
    + intros [A B]. split; [|naive_solver]. intros k v Hk. destruct (A k v (ltac:(by eexists)) Hk) as (? & ? & ? & _). done.
    + intros [A B]. split; [|intros k k' [v ?] [v' ?]; by eapply B]. intros k v _ Hk. destruct (A k v Hk) as (? & ? & ?).
      do 3 (split; [done|]). apply not_elem_of_empty.
  - rewrite range_keys_perm. apply NoDup_elements.
  - intros k Hk%elem_of_range%elem_of_dom. done.
Qed.

Lemma omap_id_nil {A} (l : list (option A)) : omap id l = [] <-> Forall (fun x => x = None) l.
Proof.
  induction l as [|[a|] l IH]; simpl; [by split; [constructor|]| |].
  - split; [done|]. intros F. by apply Forall_cons in F as [? _].
  - rewrite Forall_cons, <- IH. tauto.
Qed.

(** Options are accepted exactly when they are consistent: all checks pass
    if and only if the required fields are there, the IDs, addresses and URLs
    are well formed, the network settings are a supported combination, each
    provision mode has the settings it needs, the batch limits are ordered and
    within the API's limit, and the additional tags are within Azure's rules
    with keys unique up to letter case; the disk encryption set is then kept
    parsed. *)
Theorem validate_exactly o :
  ((Validate o).1 = [] <-> accepted o) /\
  ((Validate o).1 = [] -> DiskEncryptionSetID o <> "" -> (Validate o).2 = ParseResourceID (DiskEncryptionSetID o)).
Proof.
  assert (V : (Validate o).1 = [] <->
    (validateRequiredFields o = Ok tt /\ validateVNETGUID o = Ok tt /\ validateKubeletIdentityClientID o = Ok tt /\
     validateEndpoint o = Ok tt /\ validateNetworkingOptions o = Ok tt /\ validateVMMemoryOverheadPercent o = Ok tt /\
     validateVnetSubnetID o = Ok tt /\ validateProvisionMode o = Ok tt /\ validateUseSIG o = Ok tt /\
     validateAdminUsername o = Ok tt /\ validateAdditionalTags o = Ok tt /\
     (exists i, validateDiskEncryptionSetID o = Ok i) /\ validateClusterDNSIP o = Ok tt /\
     validateComputeRecommendationMode o = Ok tt /\ validate_Struct o = [])).
  { rewrite <- !failure_unit, <- failure_none. unfold Validate. cbn [fst]. rewrite app_nil, omap_id_nil, !Forall_cons, Forall_nil. tauto. }
  split; [rewrite V; split|].
  - intros (R & G & K & E & N & M & S & P & U & A & T & D & I & C & X). apply mode_ok in P as (P1 & P2 & P3 & P4).
    unfold validateRequiredFields in R. rewrite !then_ok, require_ok, !neqb_true in R. destruct R as (R1 & R2 & R3 & R4 & R5 & R6).
    apply require_ok, orb_true_iff in G, K, E, I. apply require_ok in M, S, C. rewrite !bool_decide_eq_true in G, K, E, I.
    split.
    + by repeat constructor.
    + by destruct E.
    + repeat constructor; intros ?; tauto.
    + by apply network_ok.
    + by apply negb_true_iff in M.
    + by apply is_ok_true in S.
    + done.
    + done.
    + done.
    + intros B. by apply batch_ok, P4.
    + by apply sig_ok.
    + apply then_ok in A as [A1 A2%require_ok]. split; [by apply negb_true_iff, Nat.ltb_ge in A1|by apply bool_decide_eq_true in A2].
    + by apply additional_tags_ok.
    + by apply disk_ok.
    + done.
    + rewrite !orb_true_iff, !bool_decide_eq_true in C. rewrite !elem_of_cons. tauto.
    + done.
  - intros [].
    repeat match goal with H : Forall _ (_ :: _) |- _ => apply Forall_cons in H as [? H] end.
    split; [unfold validateRequiredFields; rewrite !then_ok, require_ok, !neqb_true; tauto|].
    split; [apply require_ok, orb_true_iff; rewrite bool_decide_eq_true; destruct (decide (VnetGUID o = "")); tauto|].
    split; [apply require_ok, orb_true_iff; rewrite bool_decide_eq_true; destruct (decide (KubeletIdentityClientID o = "")); tauto|].
    split; [apply require_ok, orb_true_iff; by right|]. split; [by apply network_ok|].
    split; [by apply require_ok, negb_true_iff|]. split; [by apply require_ok, is_ok_true|].
    split; [apply mode_ok; rewrite batch_ok; exact (conj ac_mode0 (conj ac_bootstrapping0 (conj ac_machines0 ac_batch0)))|]. split; [by apply sig_ok|].
    split; [destruct ac_username0; apply then_ok; split; [by apply negb_true_iff, Nat.ltb_ge|by apply require_ok, bool_decide_eq_true]|].
    split; [by apply additional_tags_ok|]. split; [by apply disk_ok|].
    split; [apply require_ok, orb_true_iff; by rewrite bool_decide_eq_true|].
    split; [|done]. apply require_ok. rewrite !orb_true_iff, !bool_decide_eq_true.
    rewrite !elem_of_cons in ac_recommendations0. destruct ac_recommendations0 as [?|[?|[?|[]%not_elem_of_nil]]]; tauto.
  - intros W N. apply V in W as (_ & _ & _ & _ & _ & _ & _ & _ & _ & _ & _ & (i & D) & _). unfold Validate. simpl. rewrite D.
    unfold validateDiskEncryptionSetID in D. rewrite (bool_decide_eq_false_2 _ N) in D.
    destruct (ParseResourceID _) as [j|]; [|done]. rewrite !then_ok in D. by destruct D as (_ & _ & _ & _ & [= <-]).
Qed.

End Validate.
(** ** The theorem at a concrete input *)

Definition demo_options : Options :=
  mk_options "cluster" "https://c.example.com" (VirtualMachines.Finite 1) "token" "azureuser" "key" "azure" "overlay" "cilium" ""
    [] "" "" "/subscriptions/sub/resourceGroups/rg/providers/Microsoft.Network/virtualNetworks/vnet/subnets/nodes"
    "aksmachineapiheaderbatch" "" true "" "sig" "mc_rg" {[ "team" := "a"; "Cost_Center" := "b" ]} "" false false
    "pool" 1000000000 5000000000 50 "log-only".

Lemma validate_exactly_witness :
  accepted (fun _ => true) (fun _ => true) (fun _ => true) (fun _ => None) (fun _ => []) demo_options /\
  1 <= ProviderBatchMaxSize demo_options <= 50.
Proof.
  destruct (validate_exactly (fun _ => true) (fun _ => true) (fun _ => true) (fun _ => None) (fun _ => []) demo_options)
    as [[V _] _].
  assert (A : accepted (fun _ => true) (fun _ => true) (fun _ => true) (fun _ => None) (fun _ => []) demo_options)
    by (apply V; vm_compute; reflexivity).
  split; [exact A|]. by apply (ac_batch _ _ _ _ _ _ A).
Defined.

End Options.
