(* ===== verification/InPlaceUpdate.v ===== *)
(** * In-place updates ([pkg/controllers/nodeclaim/inplaceupdate],
      [pkg/providers/launchtemplate/tags.go])

    The tags of every resource, the hash that says whether a NodeClaim's
    instance has them, the patches of virtual machines and AKS machines, and
    the controller that applies them, composed with the VM provider's
    [VMInstance.Update]. *)

From S2P Require Import Prelude GoString GoSort Effects Cloud AKSMachine ResourceIDs VirtualMachines GarbageCollection VMInstance Options.
#[local] Open Scope string_scope.
#[local] Open Scope list_scope.
#[local] Open Scope Z_scope.

Module InPlaceUpdate.
Import Options.

(** ** Tags *)

Definition BillingTagKey : string := "compute.aks.billing".
Definition BillingTagValueLinux : string := "linux".

Definition mapTags (key value : string) : string * string := (ReplaceAll key "/" "_", value).

(** [lo.MapEntries]: the entries in the order of the range, the last one of a
    key stays. *)
Definition MapEntries `{GoRange} (m : gmap string string) (f : string -> string -> string * string) : gmap string string :=
  foldl (fun out k => let e := f k (default "" (m !! k)) in <[e.1 := e.2]> out) ∅ (range_keys (dom m)).

Definition default_tags (clusterName : string) (labels : gmap string string) : gmap string string :=
  let defaultTags := {[ GarbageCollection.KarpenterManagedTagKey := clusterName; BillingTagKey := BillingTagValueLinux ]} in
  match labels !! AKSMachine.NodePoolLabelKey with
  | Some val => <[AKSMachine.NodePoolTagKey := val]> defaultTags
  | None => defaultTags
  end.

(** [lo.Assign]: later maps win; no tag's pointer is nil. *)
Definition Tags `{GoRange} (o : Options) (classTags labels : gmap string string) : gmap string (option string) :=
  Some <$> (MapEntries (default_tags (ClusterName o) labels) mapTags ∪
            (MapEntries classTags mapTags ∪ MapEntries (AdditionalTags o) mapTags)).

(** [ConfigureAKSMachineTags] *)
Definition ConfigureAKSMachineTags `{GoRange} (o : Options) (classTags : gmap string string) (nc : AKSMachine.NodeClaim) :
    gmap string (option string) :=
  <[AKSMachine.KarpenterAKSMachineNodeClaimTagKey := Some (AKSMachine.nc_name nc)]>
    (Tags o classTags (AKSMachine.nc_labels nc)).

(** ** Hashes *)

Module Json.

(** The bytes of the first rune of a string, when it is valid UTF-8 beyond
    ASCII. *)
Definition byte_in (lo hi : nat) (a : ascii) : bool := Nat.leb lo (nat_of_ascii a) && Nat.leb (nat_of_ascii a) hi.
Definition continuation (s : string) (n : nat) : bool :=
  (Nat.leb n (String.length s)) && forallb (byte_in 128 191) (firstn n (String.list_ascii_of_string s)).
Definition rune_tail (s : string) : option nat :=
  match s with
  | EmptyString => None
  | String a r =>
      if byte_in 194 223 a then if continuation r 1 then Some 1%nat else None
      else if byte_in 224 239 a then
        if continuation r 2 &&
           match r with
           | String b _ => match nat_of_ascii a with
                           | 224%nat => byte_in 160 191 b | 237%nat => byte_in 128 159 b | _ => true
                           end
           | EmptyString => false
           end then Some 2%nat else None
      else if byte_in 240 244 a then
        if continuation r 3 &&
           match r with
           | String b _ => match nat_of_ascii a with
                           | 240%nat => byte_in 144 191 b | 244%nat => byte_in 128 143 b | _ => true
                           end
           | EmptyString => false
           end then Some 3%nat else None
      else None
  end.

Definition hex (n : nat) : string := String.substring n 1 "0123456789abcdef".
Definition escape (a : ascii) : string :=
  let n := nat_of_ascii a in
  match n with
  | 34%nat => "\" +:+ String a ""
  | 92%nat => "\\"
  | 8%nat => "\b" | 12%nat => "\f" | 10%nat => "\n" | 13%nat => "\r" | 9%nat => "\t"
  | _ => if Nat.ltb n 32 || (Nat.eqb n 60 || Nat.eqb n 62 || Nat.eqb n 38)
         then "\u00" +:+ hex (Nat.div n 16) +:+ hex (Nat.modulo n 16) else String a ""
  end.

(** The body of a quoted string; [skip] bytes of a rune remain, to be copied
    or dropped. *)
Fixpoint body (copy : bool) (skip : nat) (s : string) : string :=
  match s with
  | EmptyString => ""
  | String a r =>
      match skip with
      | S k => (if copy then String a "" else "") +:+ body copy k r
      | O =>
          if Nat.ltb (nat_of_ascii a) 128 then escape a +:+ body true 0 r
          else
            match rune_tail s with
            | None => "\ufffd" +:+ body true 0 r
            | Some n =>
                if HasPrefix s (String "226" (String "128" (String "168" ""))) then "\u2028" +:+ body false n r
                else if HasPrefix s (String "226" (String "128" (String "169" ""))) then "\u2029" +:+ body false n r
                else String a (body true n r)
            end
      end
  end.
Definition quote_char : string := String "034" "".
Definition quoted (s : string) : string := quote_char +:+ body true 0 s +:+ quote_char.
Definition field (name value : string) : string := quote_char +:+ name +:+ quote_char +:+ ":" +:+ value.
Definition object (fields : list string) : string := "{" +:+ GoString.Join fields "," +:+ "}".
(** A map, sorted by key. *)
Definition of_map (m : gmap string string) : string :=
  object (map (fun k => quoted k +:+ ":" +:+ quoted (default "" (m !! k))) (Strings (elements (dom m)))).
Definition of_set (s : gset string) : string :=
  object (map (fun k => quoted k +:+ ":{}") (Strings (elements s))).

End Json.

(** The fields of the hash; empty ones are left out. *)
Inductive hashStruct :=
| aksMachineInPlaceUpdateFields (tags : gmap string string)
| vmInPlaceUpdateFields (identities : gset string) (tags : gmap string string).
Definition tags_field (tags : gmap string string) : list string :=
  if Nat.eqb (size tags) 0 then [] else [Json.field "tags" (Json.of_map tags)].
Definition Marshal (h : hashStruct) : string :=
  match h with
  | aksMachineInPlaceUpdateFields tags => Json.object (tags_field tags)
  | vmInPlaceUpdateFields identities tags =>
      Json.object ((if Nat.eqb (size identities) 0 then [] else [Json.field "identities" (Json.of_set identities)]) ++
                   tags_field tags)
  end.

(** FNV-1a on 32 bits. *)
Definition fnv32a (s : string) : Z :=
  foldl (fun h a => wrap_u 32 (Z.lxor h (Z.of_nat (nat_of_ascii a)) * 16777619)) 2166136261 (String.list_ascii_of_string s).
Definition CalculateHash (h : hashStruct) : string := pretty (Z.to_N (fnv32a (Marshal h))).

Example fnv32a_a : fnv32a "a" = 3826002220.
Proof. reflexivity. Qed.
Example marshal_vm : Marshal (vmInPlaceUpdateFields {[ "id2"; "id1" ]} {[ "b" := "1<"; "a" := "2" ]}) =
  ReplaceAll "{'identities':{'id1':{},'id2':{}},'tags':{'a':'2','b':'1\u003c'}}" "'" "034".
Proof. reflexivity. Qed.

Definition HashFromNodeClaim `{GoRange} (o : Options) (nc : AKSMachine.NodeClaim) (classTags : gmap string string) : string :=
  let tagsForHash := from_ptr "" <$> Tags o classTags (AKSMachine.nc_labels nc) in
  CalculateHash
    (match AKSMachine.GetAKSMachineNameFromNodeClaim nc with
     | Some _ => aksMachineInPlaceUpdateFields tagsForHash
     | None => vmInPlaceUpdateFields (list_to_set (NodeIdentities o)) tagsForHash
     end).

(** ** Patches *)

Definition stringPtrEqual (v1 v2 : option string) : bool :=
  match v1, v2 with None, None => true | Some a, Some b => a ==? b | _, _ => false end.
(** [maps.EqualFunc] *)
Definition tagsEqual (expected current : gmap string (option string)) : bool :=
  Nat.eqb (size expected) (size current) &&
  forallb (fun kv => match current !! kv.1 with Some v => stringPtrEqual kv.2 v | None => false end) (map_to_list expected).

Definition lo_Difference (l l' : list string) : list string := List.filter (fun x => negb (bool_decide (x ∈ l'))) l.

(** The update under construction, and whether the patcher changed it. *)
Definition patchVMIdentities `{GoRange} (u : VMInstance.VirtualMachineUpdate) (o : Options) (vm : VirtualMachines.VirtualMachine) :
    VMInstance.VirtualMachineUpdate * bool :=
  let currentIdentities := match VirtualMachines.vm_identity vm with Some s => range_keys s | None => [] end in
  match lo_Difference (NodeIdentities o) currentIdentities with
  | [] => (u, false)
  | toAdd => (VMInstance.mk_update (VMInstance.up_tags u) (VirtualMachines.ConvertToVirtualMachineIdentity toAdd), true)
  end.
Definition patchVMTags `{GoRange} (u : VMInstance.VirtualMachineUpdate) (o : Options) (classTags labels : gmap string string)
    (vm : VirtualMachines.VirtualMachine) : VMInstance.VirtualMachineUpdate * bool :=
  let expectedTags := Tags o classTags labels in
  if tagsEqual expectedTags (VirtualMachines.vm_tags vm) then (u, false)
  else (VMInstance.mk_update (Some expectedTags) (VMInstance.up_identity u), true).

Definition CalculateVMPatch `{GoRange} (o : Options) (nc : AKSMachine.NodeClaim) (classTags : gmap string string)
    (vm : VirtualMachines.VirtualMachine) : option VMInstance.VirtualMachineUpdate :=
  let '(u, p1) := patchVMIdentities (VMInstance.mk_update None None) o vm in
  let '(u, p2) := patchVMTags u o classTags (AKSMachine.nc_labels nc) vm in
  if p1 || p2 then Some u else None.

Definition set_tags (tags : gmap string (option string)) (p : AKSMachine.Properties) : AKSMachine.Properties :=
  AKSMachine.mk_properties (AKSMachine.pr_state p) (AKSMachine.pr_status p) (Some tags) (AKSMachine.pr_priority p)
    (AKSMachine.pr_resourceID p) (AKSMachine.pr_eTag p) (AKSMachine.pr_hardware p) (AKSMachine.pr_nodeImageVersion p)
    (AKSMachine.pr_crg p) (AKSMachine.pr_other p).
Definition no_properties : AKSMachine.Properties := AKSMachine.mk_properties None None None None None None None None None "".
Definition with_properties (m : AKSMachine.Machine) (p : AKSMachine.Properties) : AKSMachine.Machine :=
  AKSMachine.mk_machine (AKSMachine.ma_id m) (AKSMachine.ma_name m) (AKSMachine.ma_zones m) (Some p).

(** The machine, changed in place, and whether it was. *)
Definition CalculateAKSMachinePatch `{GoRange} (o : Options) (nc : AKSMachine.NodeClaim) (classTags : gmap string string)
    (m : AKSMachine.Machine) : AKSMachine.Machine * bool :=
  let expectedTags := ConfigureAKSMachineTags o classTags nc in
  match AKSMachine.ma_properties m with
  | None => if Nat.eqb (size expectedTags) 0 then (m, false) else (with_properties m (set_tags expectedTags no_properties), true)
  | Some p => if tagsEqual expectedTags (default ∅ (AKSMachine.pr_tags p)) then (m, false)
              else (with_properties m (set_tags expectedTags p), true)
  end.

(** ** Laws of the tags *)

Definition mapped (k : string) : string := ReplaceAll k "/" "_".

Section Entries.
Variable m : gmap string string.
Definition enter (out : gmap string string) (k : string) : gmap string string :=
  let e := mapTags k (default "" (m !! k)) in <[e.1 := e.2]> out.

Lemma entries_snoc out l q : foldl enter out (l ++ [q]) = <[mapped q := default "" (m !! q)]> (foldl enter out l).
Proof. by rewrite foldl_app. Qed.
Lemma entries_app out l q : foldl enter out (l ++ [q]) !! mapped q = Some (default "" (m !! q)).
Proof. rewrite entries_snoc. apply lookup_insert_eq. Qed.

Lemma entries_from l k v : foldl enter ∅ l !! k = Some v -> exists q, q ∈ l /\ mapped q = k /\ v = default "" (m !! q).
Proof.
  induction l as [|q l IH] using rev_ind; [simpl; by rewrite lookup_empty|]. rewrite entries_snoc.
  destruct (decide (mapped q = k)) as [<-|N].
  - rewrite lookup_insert_eq. intros [= <-]. exists q. split; [apply elem_of_app; right; left|done].
  - rewrite lookup_insert_ne by done. intros L. destruct (IH L) as (q' & I & ? & ?). exists q'. split; [apply elem_of_app; by left|done].
Qed.

Lemma entries_reach l q : q ∈ l -> is_Some (foldl enter ∅ l !! mapped q).
Proof.
  induction l as [|q' l IH] using rev_ind; [by intros ?%not_elem_of_nil|]. intros I. rewrite entries_snoc.
  destruct (decide (mapped q' = mapped q)) as [E|N].
  - rewrite E, lookup_insert_eq. by eexists.
  - rewrite lookup_insert_ne by done. apply IH.
    apply elem_of_app in I as [I|I%list_elem_of_singleton]; [done|by subst].
Qed.

End Entries.

(** Each key of the result comes from a key of the map. *)
Lemma MapEntries_from `{GoRange} m k v :
  MapEntries m mapTags !! k = Some v -> exists q, mapped q = k /\ m !! q = Some v.
Proof.
  intros L. apply entries_from in L as (q & I%elem_of_range & Q & ->). exists q. split; [done|].
  apply elem_of_dom in I as [w ->]. done.
Qed.
Lemma MapEntries_reach `{GoRange} m q v : m !! q = Some v -> is_Some (MapEntries m mapTags !! mapped q).
Proof. intros L. apply entries_reach, elem_of_range, elem_of_dom. by exists v. Qed.
Lemma MapEntries_only `{GoRange} m q v :
  m !! q = Some v -> (forall q' w, m !! q' = Some w -> mapped q' = mapped q -> q' = q) ->
  MapEntries m mapTags !! mapped q = Some v.
Proof.
  intros L U. destruct (MapEntries_reach m q v L) as [w W]. rewrite W. apply MapEntries_from in W as (q' & Q & L').
  rewrite (U q' w L' Q) in L'. congruence.
Qed.
Lemma MapEntries_plain `{GoRange} m : (forall q v, m !! q = Some v -> mapped q = q) -> MapEntries m mapTags = m.
Proof.
  intros P. apply map_eq. intros k. destruct (m !! k) as [v|] eqn:L.
  - rewrite <- (P k v L) at 1. apply MapEntries_only; [done|]. intros q w Lq. by rewrite (P q w Lq), (P k v L).
  - destruct (MapEntries m mapTags !! k) as [w|] eqn:W; [|done]. apply MapEntries_from in W as (q & Q & Lq).
    rewrite (P q w Lq) in Q. congruence.
Qed.

(** An iteration that ends with a given key. *)
Definition range_last (q : string) : GoRange.
Proof.
  refine {| range_keys s := if decide (q ∈ s) then elements (s ∖ {[q]}) ++ [q] else elements s |}.
  intros s. destruct (decide (q ∈ s)) as [I|]; [|done].
  rewrite (union_difference_L {[q]} s) at 2 by set_solver. rewrite elements_disj_union by set_solver.
  by rewrite elements_singleton, Permutation_app_comm.
Defined.
Lemma MapEntries_attained m q v : m !! q = Some v -> @MapEntries (range_last q) m mapTags !! mapped q = Some v.
Proof.
  intros L. unfold MapEntries. simpl. rewrite decide_True by (apply elem_of_dom; by exists v).
  change (foldl (enter m) ∅ (elements (dom m ∖ {[q]}) ++ [q]) !! mapped q = Some v). by rewrite entries_app, L.
Qed.

Lemma mapped_free k : free_of "/" k = true -> mapped k = k.
Proof.
  unfold mapped. induction k as [|a k IH]; [done|]. simpl. intros [Na F]%andb_true_iff.
  apply negb_true_iff, bool_decide_eq_false in Na. rewrite bool_decide_eq_false_2 by done. by rewrite IH.
Qed.
Lemma default_tags_plain cluster labels q v : default_tags cluster labels !! q = Some v -> mapped q = q.
Proof.
  intros L. apply mapped_free. unfold default_tags in L. destruct (labels !! _).
  all: repeat (apply lookup_insert_Some in L as [[<- _]|[_ L]]; [reflexivity|]); by apply lookup_singleton_Some in L as [<- _].
Qed.

Lemma ContainsAny_free c chars k :
  c ∈ String.list_ascii_of_string chars -> ContainsAny k chars = false -> free_of c k = true.
Proof.
  intros I. unfold ContainsAny. induction k as [|a k IH]; [done|]. simpl. intros [N F]%orb_false_iff. rewrite IH by done.
  rewrite andb_true_r. apply negb_true_iff, bool_decide_eq_false. intros ->.
  assert (existsb (fun b => c ==? b) (String.list_ascii_of_string chars) = true); [|congruence].
  apply existsb_exists. exists c. split; [by apply list_elem_of_In|by apply bool_decide_eq_true].
Qed.
Lemma valid_mapped tags q v : tags_valid tags -> tags !! q = Some v -> mapped q = q.
Proof.
  intros [W _] L. destruct (W q v L) as (_ & _ & C). apply mapped_free. eapply ContainsAny_free; [|exact C].
  simpl. do 6 right. left.
Qed.

Lemma Tags_lookup `{GoRange} o classTags labels k v :
  Tags o classTags labels !! k = Some (Some v) <->
  default_tags (ClusterName o) labels !! k = Some v \/
  (default_tags (ClusterName o) labels !! k = None /\
   (MapEntries classTags mapTags !! k = Some v \/
    (MapEntries classTags mapTags !! k = None /\ MapEntries (AdditionalTags o) mapTags !! k = Some v))).
Proof.
  unfold Tags. rewrite (MapEntries_plain (default_tags _ _)) by (intros q w; apply default_tags_plain).
  rewrite lookup_fmap, fmap_Some. setoid_rewrite lookup_union_Some_raw. setoid_rewrite lookup_union_Some_raw. split.
  - intros (w & L & [= <-]). exact L.
  - intros L. by exists v.
Qed.

(** What the tags are: the default tags are always there; any other key
    comes from the NodeClass's tags if one of its keys reads so with slashes
    as underscores, and else from the operator's; where several keys read the
    same each of their values can be the one, depending on the order in which
    Go ranges over the map; with accepted options and no such clash in the
    NodeClass the order does not matter. *)
Theorem tags_exactly o classTags labels :
  (forall (R : GoRange) k v, default_tags (ClusterName o) labels !! k = Some v -> @Tags R o classTags labels !! k = Some (Some v)) /\
  (forall k v, default_tags (ClusterName o) labels !! k = None ->
     ((exists R, @Tags R o classTags labels !! k = Some (Some v)) <->
      (exists q, mapped q = k /\ classTags !! q = Some v) \/
      ((forall q, mapped q = k -> classTags !! q = None) /\ exists q, mapped q = k /\ AdditionalTags o !! q = Some v))) /\
  (tags_valid (AdditionalTags o) ->
   (forall q q' v v', classTags !! q = Some v -> classTags !! q' = Some v' -> mapped q = mapped q' -> q = q') ->
   forall R R', @Tags R o classTags labels = @Tags R' o classTags labels).
Proof.
  split; [|split].
  - intros R k v D. apply Tags_lookup. by left.
  - intros k v D. split.
    + intros [R L%Tags_lookup]. destruct L as [L|[_ [L|[N L]]]]; [congruence|left; by apply MapEntries_from in L|right].
      split; [|by apply MapEntries_from in L]. intros q <-. destruct (classTags !! q) as [w|] eqn:W; [|done].
      destruct (MapEntries_reach _ _ _ W) as [? ?]. congruence.
    + intros [(q & <- & L)|(N & q & <- & L)]; exists (range_last q); apply Tags_lookup; right; (split; [done|]).
      * left. by apply MapEntries_attained.
      * right. split; [|by apply MapEntries_attained]. destruct (MapEntries _ _ !! _) as [w|] eqn:W; [|done].
        apply MapEntries_from in W as (q' & Q & L'). rewrite (N q' Q) in L'. done.
  - intros V U R R'. assert (A : forall R, @MapEntries R (AdditionalTags o) mapTags = AdditionalTags o).
    { intros R0. apply MapEntries_plain. intros q v. by apply valid_mapped. }
    assert (C : @MapEntries R classTags mapTags = @MapEntries R' classTags mapTags).
    { apply map_eq. intros k. destruct (@MapEntries R _ _ !! k) as [v|] eqn:L.
      - apply MapEntries_from in L as (q & <- & L). symmetry. apply MapEntries_only; [done|]. intros q' w L' Q. by apply (U q' q w v).
      - destruct (@MapEntries R' _ _ !! k) as [v|] eqn:L'; [|done]. apply MapEntries_from in L' as (q & <- & L').
        destruct (@MapEntries_reach R _ _ _ L'). congruence. }
    unfold Tags. rewrite !A, C. by rewrite !(MapEntries_plain (default_tags _ _)) by (intros q w; apply default_tags_plain).
Qed.

(** ** Laws of the patches *)

Lemma stringPtrEqual_iff a b : stringPtrEqual a b = true <-> a = b.
Proof. destruct a, b; simpl; rewrite ?bool_decide_eq_true; split; congruence. Qed.
Lemma tagsEqual_iff e c : tagsEqual e c = true <-> e = c.
Proof.
  unfold tagsEqual. rewrite andb_true_iff, Nat.eqb_eq, forallb_forall. split.
  - intros [S F]. assert (I : e ⊆ c).
    { apply map_subseteq_spec. intros k v L. specialize (F (k, v) (proj1 (list_elem_of_In _ _) (proj2 (elem_of_map_to_list _ _ _) L))).
      simpl in F. destruct (c !! k) as [w|]; [|done]. apply stringPtrEqual_iff in F. congruence. }
    assert (D : dom e = dom c).
    { apply leibniz_equiv, set_subseteq_size_equiv; [by apply subseteq_dom|]. by rewrite !size_dom, S. }
    apply map_eq. intros k. destruct (e !! k) as [v|] eqn:L; [by rewrite (lookup_weaken _ _ _ _ L I)|].
    symmetry. apply not_elem_of_dom. rewrite <- D. by apply not_elem_of_dom.
  - intros ->. split; [done|]. intros [k v] L%list_elem_of_In%elem_of_map_to_list. simpl. rewrite L. by apply stringPtrEqual_iff.
Qed.

Definition identities (vm : VirtualMachines.VirtualMachine) : gset string := default ∅ (VirtualMachines.vm_identity vm).
Lemma elem_of_Difference x l l' : x ∈ lo_Difference l l' <-> x ∈ l /\ x ∉ l'.
Proof.
  unfold lo_Difference. rewrite list_elem_of_In, filter_In, negb_true_iff, bool_decide_eq_false. by rewrite <- list_elem_of_In.
Qed.

Lemma identities_patch `{GoRange} u o vm :
  match patchVMIdentities u o vm with
  | (u', false) => u' = u /\ (forall i, i ∈ NodeIdentities o -> i ∈ identities vm)
  | (u', true) => VMInstance.up_tags u' = VMInstance.up_tags u /\ exists s, VMInstance.up_identity u' = Some s /\
      (forall i, i ∈ s <-> i ∈ NodeIdentities o /\ i ∉ identities vm) /\ exists i, i ∈ NodeIdentities o /\ i ∉ identities vm
  end.
Proof.
  unfold patchVMIdentities. set (cur := match VirtualMachines.vm_identity vm with Some s => range_keys s | None => [] end).
  assert (C : forall i, i ∈ cur <-> i ∈ identities vm).
  { intros i. unfold cur, identities. destruct (VirtualMachines.vm_identity vm) as [s|]; simpl; [apply elem_of_range|set_solver]. }
  destruct (lo_Difference _ cur) as [|x l] eqn:D.
  - split; [done|]. intros i I. apply C. destruct (decide (i ∈ cur)) as [|N]; [done|].
    assert (J : i ∈ lo_Difference (NodeIdentities o) cur) by by apply elem_of_Difference. rewrite D in J. by apply not_elem_of_nil in J.
  - split; [done|]. exists (list_to_set (x :: l)). split; [done|].
    assert (M : forall i, i ∈ x :: l <-> i ∈ NodeIdentities o /\ i ∉ identities vm).
    { intros i. rewrite <- D, elem_of_Difference. by rewrite C. }
    split; [intros i; by rewrite elem_of_list_to_set|]. exists x. apply M. left.
Qed.

Lemma tags_patch `{GoRange} u o classTags labels vm :
  match patchVMTags u o classTags labels vm with
  | (u', false) => u' = u /\ VirtualMachines.vm_tags vm = Tags o classTags labels
  | (u', true) => VMInstance.up_tags u' = Some (Tags o classTags labels) /\ VMInstance.up_identity u' = VMInstance.up_identity u /\
      VirtualMachines.vm_tags vm <> Tags o classTags labels
  end.
Proof.
  unfold patchVMTags. destruct (tagsEqual _ _) eqn:T; [by apply tagsEqual_iff in T|].
  do 2 (split; [done|]). intros Q. symmetry in Q. apply tagsEqual_iff in Q. congruence.
Qed.

Lemma vm_patch_none `{GoRange} o nc classTags vm :
  CalculateVMPatch o nc classTags vm = None <->
  VirtualMachines.vm_tags vm = Tags o classTags (AKSMachine.nc_labels nc) /\ (forall i, i ∈ NodeIdentities o -> i ∈ identities vm).
Proof.
  unfold CalculateVMPatch. pose proof (identities_patch (VMInstance.mk_update None None) o vm) as I.
  destruct (patchVMIdentities _ o vm) as [u1 p1].
  pose proof (tags_patch u1 o classTags (AKSMachine.nc_labels nc) vm) as T. destruct (patchVMTags _ _ _ _ _) as [u2 p2].
  destruct p1, p2; simpl; (split; [intros ?|intros [? M]]); try done.
  - destruct I as (_ & s & _ & _ & i & J & N). by destruct (N (M i J)).
  - destruct I as (_ & s & _ & _ & i & J & N). by destruct (N (M i J)).
  - destruct I as [-> _], T as (_ & _ & N). by destruct N.
  - by destruct I as [-> M], T as [-> T].
Qed.

(** A patch brings a VM to its goal and no further: there is none exactly
    when the VM has the expected tags and all node identities; otherwise it
    sets the tags to the expected ones if they differ, and adds the missing
    identities only; a VM updated so (its tags replaced, the identities added)
    needs no other patch. *)
Theorem vm_patch_converges `{GoRange} o nc classTags vm :
  match CalculateVMPatch o nc classTags vm with
  | None => VirtualMachines.vm_tags vm = Tags o classTags (AKSMachine.nc_labels nc) /\
      (forall i, i ∈ NodeIdentities o -> i ∈ identities vm)
  | Some u =>
      VMInstance.up_tags u = (if decide (VirtualMachines.vm_tags vm = Tags o classTags (AKSMachine.nc_labels nc)) then None
                              else Some (Tags o classTags (AKSMachine.nc_labels nc))) /\
      (forall i, i ∈ default ∅ (VMInstance.up_identity u) <-> i ∈ NodeIdentities o /\ i ∉ identities vm) /\
      (forall vm', VirtualMachines.vm_tags vm' = default (VirtualMachines.vm_tags vm) (VMInstance.up_tags u) ->
         identities vm' = identities vm ∪ default ∅ (VMInstance.up_identity u) ->
         CalculateVMPatch o nc classTags vm' = None)
  end.
Proof.
  destruct (CalculateVMPatch o nc classTags vm) as [u|] eqn:P; [|by apply vm_patch_none].
  assert (S : VMInstance.up_tags u = (if decide (VirtualMachines.vm_tags vm = Tags o classTags (AKSMachine.nc_labels nc)) then None
                              else Some (Tags o classTags (AKSMachine.nc_labels nc))) /\
      (forall i, i ∈ default ∅ (VMInstance.up_identity u) <-> i ∈ NodeIdentities o /\ i ∉ identities vm)).
  { unfold CalculateVMPatch in P. pose proof (identities_patch (VMInstance.mk_update None None) o vm) as I.
    destruct (patchVMIdentities _ o vm) as [u1 p1].
    pose proof (tags_patch u1 o classTags (AKSMachine.nc_labels nc) vm) as T. destruct (patchVMTags _ _ _ _ _) as [u2 p2].
    destruct p1, p2; simplify_eq/=.
    - destruct I as (_ & s & Es & M & _), T as (Et & Ei & N). rewrite decide_False by done. split; [done|]. by rewrite Ei, Es.
    - destruct I as (Et & s & Es & M & _), T as (-> & Q). rewrite decide_True by done. split; [done|]. by rewrite Es.
    - destruct I as (-> & M), T as (Et & Ei & N). rewrite decide_False by done. split; [done|]. rewrite Ei. simpl. set_solver. }
  destruct S as [S1 S2]. split; [done|]. split; [done|]. intros vm' T I. apply vm_patch_none. split.
  - rewrite T, S1. by destruct (decide _).
  - intros i J. rewrite I. destruct (decide (i ∈ identities vm)) as [|N]; [by apply elem_of_union_l|].
    apply elem_of_union_r. by apply S2.
Qed.

(** ** The controller *)

Section Controller.
Context {E H : Type} `{GoRange}.

Inductive req :=
| GetNodeClass (name : string)
| Vm (q : VMInstance.req (E := E))
| GetMachine (name : string)
| UpdateMachine (name : string) (m : AKSMachine.Machine) (etag : option string)
| PatchAnnotations (claim : string) (annotations : gmap string string).
(** A NodeClass: its tags, and whether it is being deleted. *)
Definition resp (q : req) : Type :=
  match q with
  | GetNodeClass _ => result E (gmap string string * bool)
  | Vm q => VMInstance.resp (H := H) q
  | GetMachine _ => result E AKSMachine.Machine
  | UpdateMachine _ _ _ | PatchAnnotations _ _ => result E unit
  end.
#[local] Abbreviation io := (io resp).
#[local] Abbreviation event := (event resp).

(** A call of the VM provider. *)
Definition vm_io {A} (m : Effects.io (VMInstance.resp (H := H)) A) : io A := lift Vm (fun _ r => r) m.

Variable settings : VMInstance.Settings.
Variable IsNotFoundErr : E -> bool.
Variable StatusCode : E -> option Z.
(** The Kubernetes client's recogniser of a missing object. *)
Variable IsNotFound : E -> bool.

Inductive update_error :=
| ErrNodeClass (e : option E)
| ErrProviderID (e : string)
| ErrGettingVM (e : VMInstance.delete_error (E := E))
| ErrUpdate (e : E)
| ErrPatch (e : E).

(** The NodeClaim with its NodeClass reference and whether it is registered. *)
Record Claim := mk_claim {
  cl_claim : AKSMachine.NodeClaim; cl_classRef : option string; cl_registered : bool
}.

Definition GetAKSNodeClass (c : Claim) : io (result update_error (gmap string string)) :=
  match cl_classRef c with
  | None => mret (Err (ErrNodeClass None))
  | Some name =>
      r ← call (GetNodeClass name);
      mret (match r with
            | Err e => Err (ErrNodeClass (Some e))
            | Ok (tags, deleting) => if deleting : bool then Err (ErrNodeClass None) else Ok tags
            end)
  end.

(** Whether to go on, and when to come back. *)
Definition shouldProcess (c : Claim) : bool * Z :=
  if bool_decide (is_Some (AKSMachine.nc_deletion (cl_claim c))) then (false, 0)
  else if negb (cl_registered c) then (false, 60 * Second)
  else if AKSMachine.nc_providerID (cl_claim c) ==? "" then (false, 60 * Second)
  else (true, 0).

Definition applyVMPatch (o : Options) (nc : AKSMachine.NodeClaim) (classTags : gmap string string)
    (vm : VirtualMachines.VirtualMachine) : io (option update_error) :=
  match CalculateVMPatch o nc classTags vm with
  | None => mret None
  | Some u =>
      r ← vm_io (VMInstance.Update settings StatusCode (from_ptr "" (VirtualMachines.vm_name vm)) u);
      mret (match r with Some e => Some (ErrUpdate e) | None => None end)
  end.
Definition processVMInstance (o : Options) (nc : AKSMachine.NodeClaim) (classTags : gmap string string) :
    io (option update_error) :=
  match ResourceIDs.GetVMName (AKSMachine.nc_providerID nc) with
  | Err e => mret (Some (ErrProviderID e))
  | Ok vmName =>
      r ← vm_io (VMInstance.Get IsNotFoundErr vmName);
      match r with Err e => mret (Some (ErrGettingVM e)) | Ok vm => applyVMPatch o nc classTags vm end
  end.

Definition applyAKSMachinePatch (o : Options) (nc : AKSMachine.NodeClaim) (classTags : gmap string string)
    (aksMachineName : string) (aksMachine : AKSMachine.Machine) : io (option update_error) :=
  let '(patched, patchExists) := CalculateAKSMachinePatch o nc classTags aksMachine in
  if patchExists then
    let etag := match AKSMachine.ma_properties patched with Some p => AKSMachine.pr_eTag p | None => None end in
    r ← call (UpdateMachine aksMachineName patched etag);
    mret (match r with Err e => Some (ErrUpdate e) | Ok _ => None end)
  else mret None.
Definition processAKSMachineInstance (o : Options) (nc : AKSMachine.NodeClaim) (classTags : gmap string string)
    (aksMachineName : string) : io (option update_error) :=
  r ← call (GetMachine aksMachineName);
  match r with Err e => mret (Some (ErrUpdate e)) | Ok m => applyAKSMachinePatch o nc classTags aksMachineName m end.

Definition AnnotationInPlaceUpdateHash : string := "karpenter.azure.com/in-place-update-hash".

Definition Reconcile (o : Options) (c : Claim) : io (Z * option update_error) :=
  let nc := cl_claim c in
  nodeClass ← GetAKSNodeClass c;
  match nodeClass with
  | Err e => mret (0, Some e)
  | Ok classTags =>
      let goalHash := HashFromNodeClaim o nc classTags in
      if goalHash ==? AKSMachine.map_get (AKSMachine.nc_annotations nc) AnnotationInPlaceUpdateHash then mret (0, None)
      else
        let '(go, requeue) := shouldProcess c in
        if negb go then mret (requeue, None)
        else
          e ← match AKSMachine.GetAKSMachineNameFromNodeClaim nc with
              | Some name => processAKSMachineInstance o nc classTags name
              | None => processVMInstance o nc classTags
              end;
          match e with
          | Some e => mret (0, Some e)
          | None =>
              r ← call (PatchAnnotations (AKSMachine.nc_name nc)
                          (<[AnnotationInPlaceUpdateHash := goalHash]> (AKSMachine.nc_annotations nc)));
              mret (0, match r with Err e => if IsNotFound e then None else Some (ErrPatch e) | Ok _ => None end)
          end
  end.

(** ** The hash tells the truth *)

#[local] Abbreviation vm_event := (lift_event (resp' := resp) Vm (fun (q : VMInstance.req (E := E)) (r : VMInstance.resp (H := H) q) => r)).

(** Nothing had to change, or the change was made. *)
Definition aligned (o : Options) (nc : AKSMachine.NodeClaim) (classTags : gmap string string) (t : list event) : Prop :=
  match AKSMachine.GetAKSMachineNameFromNodeClaim nc with
  | Some name =>
      exists m, existT (P := resp) (GetMachine name) (Ok m) ∈ t /\
        let '(m', patch) := CalculateAKSMachinePatch o nc classTags m in
        patch = true -> exists etag, existT (P := resp) (UpdateMachine name m' etag) (Ok tt) ∈ t
  | None =>
      exists n vm, ResourceIDs.GetVMName (AKSMachine.nc_providerID nc) = Ok n /\
        vm_event (existT (P := VMInstance.resp) (VMInstance.GetVM n) (Ok vm)) ∈ t /\
        forall u, CalculateVMPatch o nc classTags vm = Some u ->
          exists before w, t = before ++ map vm_event w /\
            VMInstance.update_outcome settings StatusCode (from_ptr "" (VirtualMachines.vm_name vm)) u None w
  end.

Lemma post_vm {A} (m : Effects.io (VMInstance.resp (H := H)) A) Q :
  post m Q -> post (vm_io m) (fun a t => exists u, t = map vm_event u /\ Q a u).
Proof. by apply post_lift. Qed.

Definition no_patch (q : req) : Prop := match q with PatchAnnotations _ _ => False | _ => True end.
Lemma no_patch_vm {A} (m : Effects.io (VMInstance.resp (H := H)) A) : only no_patch (vm_io m).
Proof. by apply only_lift. Qed.
#[local] Hint Resolve no_patch_vm : io.

Lemma get_vm_answered n : post (VMInstance.Get (H := H) IsNotFoundErr n) (fun r t =>
  forall vm, r = Ok vm -> t = [existT (P := VMInstance.resp) (VMInstance.GetVM n) (Ok vm)]).
Proof. unfold VMInstance.Get. repeat io_step. intros vm. destruct r; [intros [= ->]|]; done. Qed.

Lemma process_aligned o nc classTags :
  post (match AKSMachine.GetAKSMachineNameFromNodeClaim nc with
        | Some name => processAKSMachineInstance o nc classTags name
        | None => processVMInstance o nc classTags
        end) (fun e t => Forall (fun x => no_patch (asked x)) t /\ (e = None -> aligned o nc classTags t)).
Proof.
  apply post_conj.
  { apply only_post. unfold processAKSMachineInstance, applyAKSMachinePatch, processVMInstance, applyVMPatch. only_calls. }
  unfold aligned. destruct (AKSMachine.GetAKSMachineNameFromNodeClaim nc) as [name|].
  - unfold processAKSMachineInstance. io_step. io_step. destruct r as [m|e]; [|by io_step].
    unfold applyAKSMachinePatch. destruct (CalculateAKSMachinePatch o nc classTags m) as [m' []] eqn:C.
    + io_step. io_step. io_step. destruct r as [[]|e]; [|done]. intros _. exists m. split; [left|]. rewrite C. intros _.
      eexists. simpl. right. left.
    + io_step. intros _. exists m. split; [left|]. by rewrite C.
  - unfold processVMInstance. destruct (ResourceIDs.GetVMName _) as [n|e] eqn:N; [|by io_step]. io_step.
    eapply post_mono; [|apply post_vm, get_vm_answered].
    intros [vm|e] t (u & -> & HQ); [|by io_step]. rewrite (HQ vm eq_refl). unfold applyVMPatch.
    destruct (CalculateVMPatch o nc classTags vm) as [up|] eqn:C.
    + io_step. eapply post_mono; [|apply post_vm, VMInstance.update_answered].
      intros [e|] t' (w & -> & HU); io_step; [done|]. intros _. exists n, vm. split; [done|]. split; [left|].
      rewrite C. intros up' [= <-]. eexists _, w. by rewrite app_nil_r.
    + io_step. intros _. exists n, vm. split; [done|]. split; [left|]. by rewrite C.
Qed.

Lemma machine_name_kept k v nc : k <> AKSMachine.AnnotationAKSMachineResourceID ->
  AKSMachine.GetAKSMachineNameFromNodeClaim (AKSMachine.set_annotation k v nc) = AKSMachine.GetAKSMachineNameFromNodeClaim nc.
Proof. intros N. unfold AKSMachine.GetAKSMachineNameFromNodeClaim. simpl. by rewrite lookup_insert_ne. Qed.

(** A claim that bears its goal's hash is left alone. *)
Lemma hash_left_alone (env : list event -> forall q, resp q) o c cls classTags :
  cl_classRef c = Some cls -> env [] (GetNodeClass cls) = Ok (classTags, false) ->
  AKSMachine.nc_annotations (cl_claim c) !! AnnotationInPlaceUpdateHash = Some (HashFromNodeClaim o (cl_claim c) classTags) ->
  run env (Reconcile o c) [] = ((0, None), [existT (P := resp) (GetNodeClass cls) (Ok (classTags, false))]).
Proof.
  intros C V A. unfold Reconcile, GetAKSNodeClass, AKSMachine.map_get. rewrite C, A. simpl. rewrite V. simpl.
  by rewrite bool_decide_eq_true_2.
Qed.


End Controller.
(** ** The theorem at a concrete input *)

Definition demo_vm : VirtualMachines.VirtualMachine :=
  VirtualMachines.mk_vm (Some "id") (Some "aks-default-2jf98") None None [] {[ "old" := Some "x" ]} None.
Definition demo_claim : Claim :=
  mk_claim (AKSMachine.mk_nodeclaim "default-2jf98" {[ AKSMachine.NodePoolLabelKey := "default" ]} ∅ 0 None
    "azure:///subscriptions/s/resourceGroups/rg/providers/Microsoft.Compute/virtualMachines/aks-default-2jf98" "" ∅ ∅)
    (Some "default") true.
Definition demo_cloud (h : list (event (@resp string unit))) (q : @req string) : @resp string unit q :=
  match q with
  | GetNodeClass _ => Ok ({[ "team/x" := "a" ]}, false)
  | Vm q => match q with VMInstance.GetVM _ => Ok demo_vm | q => VMInstance.demo_azure true [] q end
  | GetMachine _ => Err "no"
  | UpdateMachine _ _ _ | PatchAnnotations _ _ => Ok tt
  end.
Definition demo_pass : list (event (@resp string unit)) :=
  (run demo_cloud (Reconcile VMInstance.demo_settings (fun e => e ==? "not found") (fun _ => Some 404) (fun _ => false)
    demo_options demo_claim) []).2.


End InPlaceUpdate.
