(* ===== verification/Drift.v ===== *)
(** * Drift ([pkg/cloudprovider/drift.go], [Hash] of
      [pkg/apis/v1beta1/aksnodeclass.go])

    What the hash of a NodeClass is taken of, and the checks that tell whether
    an instance no longer matches its NodeClass.  The structural hash is the
    library's. *)

From S2P Require Import Prelude GoString Effects Cloud Conditions AKSMachine ResourceIDs NodeVersions Options.
#[local] Open Scope string_scope.
#[local] Open Scope list_scope.
#[local] Open Scope Z_scope.

Module Drift.

(** ** What is hashed *)

Record NodePublicIP := mk_public_ip {
  np_enabled : option bool; np_prefixIDs : list string; np_ipTags : list string
}.
(** The NVIDIA block: its management mode and the rest. *)
Record GPU := mk_gpu { gp_nvidia : option (option string * string); gp_other : string }.
(** The hashed spec; [hs_other] stands for the fields hashed as they are. *)
Record Spec := mk_spec {
  hs_enableNodePublicIP : option bool;
  hs_nodePublicIP : option NodePublicIP;
  hs_capacityReservation : option (option string);
  hs_workloadRuntime : option string;
  hs_gpu : option GPU;
  hs_other : string
}.

Definition WorkloadRuntimeOCIContainer : string := "OCIContainer".
Definition ManagementModeUnmanaged : string := "Unmanaged".
Definition AKSNodeClassHashVersion : string := "v3".

Definition normalizeNodePublicIPHash (s : Spec) : Spec :=
  let legacy := match hs_nodePublicIP s with
                | Some _ => None
                | None => if negb (from_ptr false (hs_enableNodePublicIP s)) then None else hs_enableNodePublicIP s
                end in
  let ip := match hs_nodePublicIP s with
            | Some ip => if from_ptr false (np_enabled ip)
                         then Some (mk_public_ip (np_enabled ip) (map ToLower (np_prefixIDs ip)) (np_ipTags ip)) else None
            | None => None
            end in
  mk_spec legacy ip (hs_capacityReservation s) (hs_workloadRuntime s) (hs_gpu s) (hs_other s).
Definition normalize (s : Spec) : Spec :=
  let s := normalizeNodePublicIPHash s in
  mk_spec (hs_enableNodePublicIP s) (hs_nodePublicIP s)
    (match hs_capacityReservation s with Some g => Some (Some (ToLower (from_ptr "" g))) | None => None end)
    (if from_ptr "" (hs_workloadRuntime s) ==? WorkloadRuntimeOCIContainer then None else hs_workloadRuntime s)
    (match hs_gpu s with
     | Some g =>
         Some (mk_gpu (match gp_nvidia g with
                       | Some (Some mode, rest) => if mode ==? ManagementModeUnmanaged then None else Some (Some mode, rest)
                       | _ => None
                       end) (gp_other g))
     | None => None
     end)
    (hs_other s).
Definition Hash (hashstructure : Spec -> string) (s : Spec) : string := hashstructure (normalize s).

(** What a spec asks for, as the rest of the program reads it. *)
Definition public_ip (s : Spec) : option (list string * list string) :=
  match hs_nodePublicIP s with
  | Some ip => if from_ptr false (np_enabled ip) then Some (map ToLower (np_prefixIDs ip), np_ipTags ip) else None
  | None => if from_ptr false (hs_enableNodePublicIP s) then Some ([], []) else None
  end.
Definition group (s : Spec) : string :=
  match hs_capacityReservation s with Some g => ToLower (from_ptr "" g) | None => "" end.
Definition runtime (s : Spec) : string :=
  let r := from_ptr "" (hs_workloadRuntime s) in if r ==? "" then WorkloadRuntimeOCIContainer else r.
Definition managed_nvidia (s : Spec) : option (string * string) :=
  match hs_gpu s with
  | Some g => match gp_nvidia g with
              | Some (Some mode, rest) => if mode ==? ManagementModeUnmanaged then None else Some (mode, rest)
              | _ => None
              end
  | None => None
  end.

(** The hash sees every difference that matters and no spelling: specs
    that are hashed alike ask for the same public IPs, reservation group,
    runtime and GPU management, and agree on all other fields; conversely a
    disabled public IP block, the letter case of IDs, the default runtime and
    an unmanaged or empty NVIDIA block leave what is hashed unchanged. *)
Theorem hash_normalizes_exactly :
  (forall s s', normalize s = normalize s' ->
     public_ip s = public_ip s' /\ group s = group s' /\ runtime s = runtime s' /\ managed_nvidia s = managed_nvidia s' /\
     hs_other s = hs_other s' /\ gp_other <$> hs_gpu s = gp_other <$> hs_gpu s') /\
  (forall s e ip g r gpu,
     (ip = None \/ exists ip0, ip = Some ip0 /\ from_ptr false (np_enabled ip0) = false) ->
     normalize (mk_spec (Some false) ip (Some (Some g)) (Some WorkloadRuntimeOCIContainer) (Some (mk_gpu (Some (Some ManagementModeUnmanaged, r)) gpu)) s) =
     normalize (mk_spec None None (Some (Some (ToLower g))) None (Some (mk_gpu (Some (None, e)) gpu)) s)).
Proof.
  split.
  - intros [l ip c w g o] [l' ip' c' w' g' o'] N. unfold normalize, normalizeNodePublicIPHash in N. simpl in N.
    injection N as N1 N2 N3 N4 N5 N6. unfold public_ip, group, runtime, managed_nvidia. simpl.
    split; [|split; [|split; [|split; [|split; [done|]]]]].
    + destruct ip as [[[[]|] p t]|], ip' as [[[[]|] p' t']|], l as [[]|], l' as [[]|]; simpl in *; simplify_eq; try done; congruence.
    + destruct c as [c|], c' as [c'|]; simplify_eq; done.
    + revert N4. unfold WorkloadRuntimeOCIContainer. destruct w as [w|], w' as [w'|]; simpl; repeat case_bool_decide; intros; by simplify_eq.
    + destruct g as [[[[[m|] r]|] ot]|], g' as [[[[[m'|] r']|] ot']|]; simpl in *; repeat case_bool_decide; simplify_eq; done.
    + destruct g as [[n ot]|], g' as [[n' ot']|]; simpl in *; simplify_eq; done.
  - intros s e ip g r gpu D. unfold normalize, normalizeNodePublicIPHash. simpl. rewrite ToLower_idemp. f_equal.
    + by destruct ip.
    + destruct D as [->|(ip0 & -> & D)]; [done|by rewrite D].
Qed.

(** ** The checks *)

Inductive DriftReason := NoDrift | NodeClassDrift | K8sVersionDrift | ImageDrift | KubeletIdentityDrift | ClusterConfigDrift.
#[export] Instance DriftReason_eq_dec : EqDecision DriftReason.
Proof. solve_decision. Defined.

Record Node := mk_node { nd_kubeletVersion : string; nd_labels : gmap string string; nd_deleting : bool }.

Definition AnnotationAKSNodeClassHash : string := "karpenter.azure.com/aksnodeclass-hash".
Definition AnnotationAKSNodeClassHashVersion : string := "karpenter.azure.com/aksnodeclass-hash-version".
Definition AKSLabelKubeletIdentityClientID : string := "kubernetes.azure.com/kubelet-identity-client-id".

Section Checks.
Context `{ConditionSet} {E : Type}.

(** The NodeClass: what the versions reconcilers maintain, and its
    annotations. *)
Record Class := mk_class { dc_status : NodeVersions.NodeClass; dc_annotations : gmap string string }.

Inductive node_error := NodeNotFound | DuplicateNode | NodeError (e : E).
Inductive req :=
| GetNodePool (name : string)
| GetNodeClass (name : string)
| NodeForNodeClaim (claim : string)
| GetMachineWithCache (name : string)
| PublishFailedToResolve (pool : string).
(** A NodePool: the name of the NodeClass it refers to. *)
Definition resp (q : req) : Type :=
  match q with
  | GetNodePool _ => result E (option string)
  | GetNodeClass _ => result E (Class * bool)
  | NodeForNodeClaim _ => result node_error Node
  | GetMachineWithCache _ => result E (option AKSMachine.Machine)
  | PublishFailedToResolve _ => unit
  end.
#[local] Abbreviation io := (io resp).
#[local] Abbreviation event := (event resp).

Inductive drift_error :=
| ErrNoProviderID
| ErrNoImages
| ErrNoImageID
| ErrNode (e : node_error)
| ErrMachine (e : E)
| ErrMachineNotFound
| ErrResolve (e : E).

Variable kubeletIdentityClientID : string.
Variable IsNotFound : E -> bool.
(** The SDK's drift action for a machine in its goal state; every other one
    than the empty action means drift. *)
Variable DriftActionSynced : string.

Definition checked : Type := result drift_error DriftReason.

(** [None]: there is no node to compare with yet, or no more. *)
Definition getNodeForDrift (nc : AKSMachine.NodeClaim) : io (result drift_error (option Node)) :=
  n ← call (NodeForNodeClaim (AKSMachine.nc_name nc));
  mret (match n with
        | Err NodeNotFound => Ok None
        | Err e => Err (ErrNode e)
        | Ok n => if nd_deleting n then Ok None else Ok (Some n)
        end).

Definition areStaticFieldsDrifted (nc : AKSMachine.NodeClaim) (c : Class) : io checked :=
  mret (Ok (match dc_annotations c !! AnnotationAKSNodeClassHash, AKSMachine.nc_annotations nc !! AnnotationAKSNodeClassHash,
                  dc_annotations c !! AnnotationAKSNodeClassHashVersion,
                  AKSMachine.nc_annotations nc !! AnnotationAKSNodeClassHashVersion with
            | Some classHash, Some claimHash, Some classVersion, Some claimVersion =>
                if classVersion !=? claimVersion then NoDrift
                else if classHash !=? claimHash then NodeClassDrift else NoDrift
            | _, _, _, _ => NoDrift
            end)).

Definition isK8sVersionDrifted (nc : AKSMachine.NodeClaim) (c : Class) : io checked :=
  match NodeVersions.GetKubernetesVersion (dc_status c) with
  | Err _ => mret (Ok NoDrift)
  | Ok k8sVersion =>
      node ← getNodeForDrift nc;
      mret (match node with
            | Err e => Err e
            | Ok None => Ok NoDrift
            | Ok (Some n) => Ok (if TrimPrefix (nd_kubeletVersion n) "v" !=? k8sVersion then K8sVersionDrift else NoDrift)
            end)
  end.

(** Whether an image of the NodeClass is the one the claim reports. *)
Definition same_image (nc : AKSMachine.NodeClaim) (image : NodeVersions.NodeImage) : bool :=
  match AKSMachine.GetAKSMachineNameFromNodeClaim nc with
  | Some _ => match ResourceIDs.GetAKSMachineNodeImageVersionFromImageID (NodeVersions.im_id image) with
              | Ok v => v ==? AKSMachine.nc_imageID nc
              | Err _ => false
              end
  | None => NodeVersions.im_id image ==? AKSMachine.nc_imageID nc
  end.
Definition isImageVersionDrifted (nc : AKSMachine.NodeClaim) (c : Class) : io checked :=
  mret (match NodeVersions.GetImages (dc_status c) with
        | Err _ => Ok NoDrift
        | Ok [] => Err ErrNoImages
        | Ok images =>
            if AKSMachine.nc_imageID nc ==? "" then Err ErrNoImageID
            else Ok (if existsb (same_image nc) images then NoDrift else ImageDrift)
        end).

Definition isKubeletIdentityDrifted (nc : AKSMachine.NodeClaim) (_ : Class) : io checked :=
  node ← getNodeForDrift nc;
  mret (match node with
        | Err e => Err e
        | Ok None => Ok NoDrift
        | Ok (Some n) =>
            let id := AKSMachine.map_get (nd_labels n) AKSLabelKubeletIdentityClientID in
            Ok (if id ==? "" then NoDrift else if id !=? kubeletIdentityClientID then KubeletIdentityDrift else NoDrift)
        end).

Definition drift_action (m : AKSMachine.Machine) : option string :=
  match AKSMachine.ma_properties m with
  | Some p => match AKSMachine.pr_status p with Some s => AKSMachine.st_driftAction s | None => None end
  | None => None
  end.
Definition isMachineDrifted (nc : AKSMachine.NodeClaim) (_ : Class) : io checked :=
  match AKSMachine.GetAKSMachineNameFromNodeClaim nc with
  | None => mret (Ok NoDrift)
  | Some name =>
      m ← call (GetMachineWithCache name);
      mret (match m with
            | Err e => Err (ErrMachine e)
            | Ok None => Err ErrMachineNotFound
            | Ok (Some m) =>
                match drift_action m with
                | None => Ok NoDrift
                | Some a => Ok (if (a ==? "") || (a ==? DriftActionSynced) then NoDrift else ClusterConfigDrift)
                end
            end)
  end.

(** The first check that fails or finds drift. *)
Fixpoint run_checks (checks : list (AKSMachine.NodeClaim -> Class -> io checked)) (nc : AKSMachine.NodeClaim) (c : Class) :
    io checked :=
  match checks with
  | [] => mret (Ok NoDrift)
  | check :: checks =>
      r ← check nc c;
      match r with
      | Ok NoDrift => run_checks checks nc c
      | _ => mret r
      end
  end.

Definition isNodeClassDrifted (nc : AKSMachine.NodeClaim) (c : Class) : io checked :=
  if AKSMachine.nc_providerID nc ==? "" then mret (Err ErrNoProviderID)
  else
    run_checks (match AKSMachine.GetAKSMachineNameFromNodeClaim nc with
                | Some _ => [areStaticFieldsDrifted; isK8sVersionDrifted; isImageVersionDrifted; isMachineDrifted]
                | None => [areStaticFieldsDrifted; isK8sVersionDrifted; isKubeletIdentityDrifted; isImageVersionDrifted]
                end) nc c.

(** [IgnoreNotFound] *)
Definition ignore_not_found (e : E) : checked := if IsNotFound e then Ok NoDrift else Err (ErrResolve e).

(** A NodeClass being deleted is a missing one. *)
Definition IsDrifted (nc : AKSMachine.NodeClaim) : io checked :=
  match AKSMachine.nc_labels nc !! AKSMachine.NodePoolLabelKey with
  | None => mret (Ok NoDrift)
  | Some pool =>
      p ← call (GetNodePool pool);
      match p with
      | Err e => mret (ignore_not_found e)
      | Ok None => mret (Ok NoDrift)
      | Ok (Some ref) =>
          k ← call (GetNodeClass ref);
          match k with
          | Err e =>
              _ ← (if IsNotFound e then call (PublishFailedToResolve pool) else mret tt);
              mret (ignore_not_found e)
          | Ok (c, deleting) =>
              if deleting : bool then _ ← call (PublishFailedToResolve pool); mret (Ok NoDrift)
              else isNodeClassDrifted nc c
          end
      end
  end.

(** ** Reasons *)

(** The cause a reason stands for, in the answers on a trace. *)
Definition saw_node (nc : AKSMachine.NodeClaim) (t : list event) (P : Node -> Prop) : Prop :=
  exists n, existT (P := resp) (NodeForNodeClaim (AKSMachine.nc_name nc)) (Ok n) ∈ t /\ nd_deleting n = false /\ P n.
Definition static_drift (nc : AKSMachine.NodeClaim) (c : Class) : Prop :=
  exists h h' v, dc_annotations c !! AnnotationAKSNodeClassHash = Some h /\
    AKSMachine.nc_annotations nc !! AnnotationAKSNodeClassHash = Some h' /\
    dc_annotations c !! AnnotationAKSNodeClassHashVersion = Some v /\
    AKSMachine.nc_annotations nc !! AnnotationAKSNodeClassHashVersion = Some v /\ h <> h'.
Definition image_drift (nc : AKSMachine.NodeClaim) (c : Class) : Prop :=
  exists images, NodeVersions.GetImages (dc_status c) = Ok images /\ images <> [] /\ AKSMachine.nc_imageID nc <> "" /\
    forall i, i ∈ images -> same_image nc i = false.
Definition k8s_settled (nc : AKSMachine.NodeClaim) (c : Class) (t : list event) : Prop :=
  forall v, NodeVersions.GetKubernetesVersion (dc_status c) = Ok v ->
    existT (P := resp) (NodeForNodeClaim (AKSMachine.nc_name nc)) (Err NodeNotFound) ∈ t \/
    exists n, existT (P := resp) (NodeForNodeClaim (AKSMachine.nc_name nc)) (Ok n) ∈ t /\
      (nd_deleting n = true \/ TrimPrefix (nd_kubeletVersion n) "v" = v).
Definition machine_settled (nc : AKSMachine.NodeClaim) (t : list event) : Prop :=
  forall name, AKSMachine.GetAKSMachineNameFromNodeClaim nc = Some name ->
    exists m, existT (P := resp) (GetMachineWithCache name) (Ok (Some m)) ∈ t /\
      forall a, drift_action m = Some a -> a = "" \/ a = DriftActionSynced.
Definition cause (nc : AKSMachine.NodeClaim) (c : Class) (t : list event) (r : DriftReason) : Prop :=
  match r with
  | NoDrift => ~ static_drift nc c /\ ~ image_drift nc c /\ k8s_settled nc c t /\ machine_settled nc t
  | NodeClassDrift => static_drift nc c
  | K8sVersionDrift => exists v, NodeVersions.GetKubernetesVersion (dc_status c) = Ok v /\
      saw_node nc t (fun n => TrimPrefix (nd_kubeletVersion n) "v" <> v)
  | ImageDrift => image_drift nc c
  | KubeletIdentityDrift => AKSMachine.GetAKSMachineNameFromNodeClaim nc = None /\
      saw_node nc t (fun n => AKSMachine.map_get (nd_labels n) AKSLabelKubeletIdentityClientID <> "" /\
        AKSMachine.map_get (nd_labels n) AKSLabelKubeletIdentityClientID <> kubeletIdentityClientID)
  | ClusterConfigDrift => exists name m a, AKSMachine.GetAKSMachineNameFromNodeClaim nc = Some name /\
      existT (P := resp) (GetMachineWithCache name) (Ok (Some m)) ∈ t /\ drift_action m = Some a /\
      a <> "" /\ a <> DriftActionSynced
  end.

Lemma saw_node_mono nc u t v P : saw_node nc t P -> saw_node nc (u ++ t ++ v) P.
Proof. intros (n & I & D). exists n. rewrite !elem_of_app. auto. Qed.
Lemma cause_mono nc c u t v d : d <> NoDrift -> cause nc c t d -> cause nc c (u ++ t ++ v) d.
Proof.
  destruct d; simpl; try done.
  - intros _ (w & ? & S). exists w. split; [done|]. by apply saw_node_mono.
  - intros _ [? S]. split; [done|]. by apply saw_node_mono.
  - intros _ (name & m & a & ? & I & R). exists name, m, a. rewrite !elem_of_app. auto.
Qed.

(** A check with what it means to pass it. *)
Definition means (nc : AKSMachine.NodeClaim) (c : Class) (x : (AKSMachine.NodeClaim -> Class -> io checked) * (list event -> Prop)) :
    Prop :=
  post (x.1 nc c) (fun r t => forall d, r = Ok d -> match d with NoDrift => x.2 t | _ => cause nc c t d end) /\
  forall u t v, x.2 t -> x.2 (u ++ t ++ v).

Lemma run_checks_post nc c cs : Forall (means nc c) cs ->
  post (run_checks (map fst cs) nc c) (fun r t => forall d, r = Ok d ->
    match d with NoDrift => Forall (fun x => x.2 t) cs | _ => cause nc c t d end).
Proof.
  induction 1 as [|[k N] cs [W M] F IH]; cbn [map fst run_checks].
  { io_step. by intros d [= <-]. }
  simpl in W, M. io_step. eapply post_mono; [|exact W]. intros [d|e] t HQ; [|by io_step]. specialize (HQ d eq_refl).
  assert (St : forall d' u, d' <> NoDrift -> match d' with NoDrift => N t | _ => cause nc c t d' end ->
    match d' with NoDrift => Forall (fun x => x.2 (t ++ u)) ((k, N) :: cs) | _ => cause nc c (t ++ u) d' end).
  { intros d' u Nd Hd. assert (C : cause nc c t d') by by destruct d'. apply (cause_mono nc c [] t u d' Nd) in C. by destruct d'. }
  destruct d; [|io_step; intros d' [= <-]; match type of HQ with cause _ _ _ ?d0 => exact (St d0 [] ltac:(done) HQ) end..].
  eapply post_mono; [|exact IH]. intros r u HQ' d' R. specialize (HQ' d' R). destruct (decide (d' = NoDrift)) as [->|Nd'].
  - constructor; [by apply (M [])|]. rewrite Forall_forall in HQ', F |- *. intros x I. destruct (F x I) as [_ Mx].
    specialize (Mx t u [] (HQ' x I)). by rewrite app_nil_r in Mx.
  - assert (C : cause nc c u d') by by destruct d'. apply (cause_mono nc c t u [] d' Nd') in C.
    rewrite app_nil_r in C. by destruct d'.
Qed.

Lemma node_answered nc : post (getNodeForDrift nc) (fun r t => forall o, r = Ok o ->
  match o with
  | Some n => existT (P := resp) (NodeForNodeClaim (AKSMachine.nc_name nc)) (Ok n) ∈ t /\ nd_deleting n = false
  | None => existT (P := resp) (NodeForNodeClaim (AKSMachine.nc_name nc)) (Err NodeNotFound) ∈ t \/
      exists n, existT (P := resp) (NodeForNodeClaim (AKSMachine.nc_name nc)) (Ok n) ∈ t /\ nd_deleting n = true
  end).
Proof.
  unfold getNodeForDrift. do 3 io_step. destruct r as [n|[| |e]]; [|intros o [= <-]; left; left|done|done].
  destruct (nd_deleting n) eqn:D; intros o [= <-].
  - right. exists n. split; [left|done].
  - split; [left|done].
Qed.

Lemma static_means nc c : means nc c (areStaticFieldsDrifted, fun _ => ~ static_drift nc c).
Proof.
  split; [|done]. cbn [fst snd]. unfold areStaticFieldsDrifted. io_step.
  destruct (dc_annotations c !! AnnotationAKSNodeClassHash) as [h|] eqn:A1; [|intros d [= <-] (? & ? & ? & ? & ? & _); congruence].
  destruct (AKSMachine.nc_annotations nc !! AnnotationAKSNodeClassHash) as [h'|] eqn:A2;
    [|intros d [= <-] (? & ? & ? & ? & ? & _); congruence].
  destruct (dc_annotations c !! AnnotationAKSNodeClassHashVersion) as [v|] eqn:A3;
    [|intros d [= <-] (? & ? & ? & ? & ? & ? & _); congruence].
  destruct (AKSMachine.nc_annotations nc !! AnnotationAKSNodeClassHashVersion) as [v'|] eqn:A4;
    [|intros d [= <-] (? & ? & ? & ? & ? & ? & ? & _); congruence].
  intros d [= <-]. destruct (v !=? v') eqn:V; rewrite ?neqb_true, ?neqb_false in V.
  { intros (? & ? & ? & ? & ? & ? & ? & _). congruence. }
  destruct (h !=? h') eqn:Hh; rewrite ?neqb_true, ?neqb_false in Hh.
  - subst v'. exists h, h', v. done.
  - intros (? & ? & ? & ? & ? & ? & ? & ?). congruence.
Qed.

Lemma k8s_means nc c : means nc c (isK8sVersionDrifted, k8s_settled nc c).
Proof.
  split; cbn [fst snd].
  - unfold isK8sVersionDrifted, k8s_settled. destruct (NodeVersions.GetKubernetesVersion _) as [v|e] eqn:K; [|io_step; by intros d [= <-]].
    io_step. eapply post_mono; [|apply node_answered]. intros [[n|]|e] t HQ; io_step; [| |done]; rewrite app_nil_r.
    + destruct (HQ _ eq_refl) as [I D]. intros d [= <-]. destruct (_ !=? _) eqn:T; simpl.
      * rewrite neqb_true in T. exists v. split; [done|]. by exists n.
      * rewrite neqb_false in T. intros v' [= <-]. right. exists n. auto.
    + intros d [= <-]. simpl. intros v' [= <-]. destruct (HQ _ eq_refl) as [|(n & I & D)]; [by left|right]. exists n. auto.
  - intros u t v S w Hw. destruct (S w Hw) as [I|(n & I & D)]; [left|right; exists n; split; [|done]]; rewrite !elem_of_app; auto.
Qed.

Lemma image_means nc c : means nc c (isImageVersionDrifted, fun _ => ~ image_drift nc c).
Proof.
  split; [|done]. cbn [fst snd]. unfold isImageVersionDrifted, image_drift. io_step.
  destruct (NodeVersions.GetImages _) as [[|i images]|e] eqn:G; [done| |intros d [= <-]; simpl; naive_solver].
  destruct (AKSMachine.nc_imageID nc ==? "") eqn:I; [done|]. apply bool_decide_eq_false in I. intros d [= <-].
  change (same_image nc i || existsb (same_image nc) images) with (existsb (same_image nc) (i :: images)).
  destruct (existsb (same_image nc) (i :: images)) eqn:X; cbn [cause].
  - intros (im & [= <-] & _ & _ & A). apply existsb_exists in X as (j & J & S). rewrite (A j) in S; [done|by apply list_elem_of_In].
  - exists (i :: images). do 3 (split; [done|]). intros j J. destruct (same_image nc j) eqn:S; [|done].
    assert (existsb (same_image nc) (i :: images) = true); [|congruence]. apply existsb_exists. exists j. split; [by apply list_elem_of_In|done].
Qed.

Lemma identity_means nc c : AKSMachine.GetAKSMachineNameFromNodeClaim nc = None ->
  means nc c (isKubeletIdentityDrifted, fun _ => True).
Proof.
  intros N. split; [|done]. cbn [fst snd]. unfold isKubeletIdentityDrifted. io_step. eapply post_mono; [|apply node_answered].
  intros [[n|]|e] t HQ; io_step; [|by intros d [= <-]|done]. rewrite app_nil_r. destruct (HQ _ eq_refl) as [I D]. intros d [= <-].
  destruct (_ ==? "") eqn:Z; [done|]. apply bool_decide_eq_false in Z. destruct (_ !=? _) eqn:Y; [|done]. rewrite neqb_true in Y.
  simpl. split; [done|]. by exists n.
Qed.

Lemma machine_means nc c : means nc c (isMachineDrifted, machine_settled nc).
Proof.
  split; cbn [fst snd].
  - unfold isMachineDrifted, machine_settled. destruct (AKSMachine.GetAKSMachineNameFromNodeClaim nc) as [name|] eqn:N; [|io_step; by intros d [= <-]].
    do 3 io_step. destruct r as [[m|]|e]; [|done|done]. destruct (drift_action m) as [a|] eqn:A.
    + intros d [= <-]. destruct (_ || _) eqn:B; simpl.
      * apply orb_true_iff in B. rewrite !bool_decide_eq_true in B. intros n [= <-]. exists m. split; [left|]. intros b Hb. rewrite A in Hb. by simplify_eq.
      * apply orb_false_iff in B as [B1%bool_decide_eq_false B2%bool_decide_eq_false]. exists name, m, a. split; [done|]. by split; [left|].
    + intros d [= <-]. simpl. intros n [= <-]. exists m. split; [left|]. intros a Ha. by rewrite A in Ha.
  - intros u t v S n Hn. destruct (S n Hn) as (m & I & A). exists m. rewrite !elem_of_app. auto.
Qed.

(** C14. Drift has a cause: a reason is reported only when what it stands for
    is there (NodeClass hashes of one version that differ, a node with
    another Kubernetes version or kubelet identity, an image the NodeClass no
    longer has, a machine AKS asks to recreate); and when none is reported,
    neither the hashes nor the images differ, and the node's version and the
    machine's drift action were seen to be right as far as they were known. *)
Theorem drift_has_cause (env : list event -> forall q, resp q) nc c d t :
  run env (isNodeClassDrifted nc c) [] = (Ok d, t) -> cause nc c t d.
Proof.
  intros R. destruct (post_run (isNodeClassDrifted nc c) (fun r t => forall d, r = Ok d -> cause nc c t d) env [])
    as (t' & Et & HQ); [|rewrite R in Et, HQ; simpl in Et; subst t'; by apply HQ].
  clear R. unfold isNodeClassDrifted. destruct (_ ==? ""); [by io_step|].
  destruct (AKSMachine.GetAKSMachineNameFromNodeClaim nc) as [name|] eqn:N.
  - eapply post_mono; [|apply (run_checks_post nc c [(areStaticFieldsDrifted, fun _ => ~ static_drift nc c);
      (isK8sVersionDrifted, k8s_settled nc c); (isImageVersionDrifted, fun _ => ~ image_drift nc c); (isMachineDrifted, machine_settled nc)])].
    + intros r u HQ d' R. specialize (HQ d' R). destruct d'; [|done..].
      rewrite !Forall_cons in HQ. simpl in *. tauto.
    + repeat first [apply Forall_nil_2|apply Forall_cons_2; [first [apply static_means|apply k8s_means|by apply identity_means
        |apply image_means|apply machine_means]|]].
  - eapply post_mono; [|apply (run_checks_post nc c [(areStaticFieldsDrifted, fun _ => ~ static_drift nc c);
      (isK8sVersionDrifted, k8s_settled nc c); (isKubeletIdentityDrifted, fun _ => True); (isImageVersionDrifted, fun _ => ~ image_drift nc c)])].
    + intros r u HQ d' R. specialize (HQ d' R). destruct d'; [|done..].
      rewrite !Forall_cons in HQ. simpl in *. split; [tauto|]. split; [tauto|]. split; [tauto|]. intros n. by rewrite N.
    + repeat first [apply Forall_nil_2|apply Forall_cons_2; [first [apply static_means|apply k8s_means|by apply identity_means
        |apply image_means|apply machine_means]|]].
Qed.

End Checks.
(** ** The theorem at a concrete input *)

Definition demo_class : Class (H := map_conditions) :=
  mk_class (NodeVersions.mk_nodeclass (H := map_conditions) 1 None None None None
    [NodeVersions.mk_image "image-2" []] None (Some "1.31.2")
    {[ NodeVersions.ConditionTypeKubernetesVersionReady := mk_condition CTrue "" 1;
       NodeVersions.ConditionTypeImagesReady := mk_condition CTrue "" 1 ]}) ∅.
Definition demo_claim : AKSMachine.NodeClaim := AKSMachine.mk_nodeclaim "default-2jf98" ∅ ∅ 0 None "azure:///x" "image-2" ∅ ∅.
Definition demo_cluster (version : string) (h : list (event (@resp map_conditions unit))) (q : req) : @resp map_conditions unit q :=
  match q with
  | GetNodePool _ => Ok (Some "default")
  | GetNodeClass _ => Ok (demo_class, false)
  | NodeForNodeClaim _ => Ok (mk_node version ∅ false)
  | GetMachineWithCache _ => Ok None
  | PublishFailedToResolve _ => tt
  end.

Lemma drift_has_cause_witness :
  (exists t, run (demo_cluster "v1.30.0") (isNodeClassDrifted "id" "Synced" demo_claim demo_class) [] = (Ok K8sVersionDrift, t) /\
    cause "id" "Synced" demo_claim demo_class t K8sVersionDrift) /\
  (exists t, run (demo_cluster "v1.31.2") (isNodeClassDrifted "id" "Synced" demo_claim demo_class) [] = (Ok NoDrift, t) /\
    cause "id" "Synced" demo_claim demo_class t NoDrift).
Proof.
  split.
  - assert (R : (run (demo_cluster "v1.30.0") (isNodeClassDrifted "id" "Synced" demo_claim demo_class) []).1 = Ok K8sVersionDrift)
      by (vm_compute; reflexivity).
    eexists. split; [apply run_outcome, R|]. apply (drift_has_cause "id" "Synced" (demo_cluster "v1.30.0")), run_outcome, R.
  - assert (R : (run (demo_cluster "v1.31.2") (isNodeClassDrifted "id" "Synced" demo_claim demo_class) []).1 = Ok NoDrift)
      by (vm_compute; reflexivity).
    eexists. split; [apply run_outcome, R|]. apply (drift_has_cause "id" "Synced" (demo_cluster "v1.31.2")), run_outcome, R.
Defined.

End Drift.
