(* ===== verification/CloudProvider.v ===== *)
(** * The cloud provider ([pkg/cloudprovider/cloudprovider.go])

    What Karpenter's core calls: creating an instance for a NodeClaim and
    following it up, reading, listing and deleting instances.  The VM
    provider's programs ([VMInstance]) run inside; the AKS machine provider,
    the instance type provider and Kubernetes are called.  Logs and metrics
    are left out. *)

From S2P Require Import Prelude GoString Effects Cloud Conditions AKSMachine ResourceIDs VirtualMachines VMInstance NodeVersions Options InPlaceUpdate Drift.
#[local] Open Scope string_scope.
#[local] Open Scope list_scope.
#[local] Open Scope Z_scope.

Module CloudProvider.

Definition NodeClassReadinessUnknownReason : string := "NodeClassReadinessUnknown".
Definition InstanceTypeResolutionFailedReason : string := "InstanceTypeResolutionFailed".
Definition CreateInstanceFailedReason : string := "CreateInstanceFailed".
Definition truncateAt : nat := 1200.

Definition truncateMessage (msg : string) : string :=
  if Nat.ltb (String.length msg) truncateAt then msg else String.substring 0 truncateAt msg +:+ "...".

(** ** When a node is repaired *)

Definition SpotConditionPreemptionScheduled : string := "PreemptionScheduled".
Inductive action := ReplaceNode | RebootNode.
Record RepairPolicy := mk_policy {
  rp_condition : string; rp_status : ConditionStatus; rp_reason : string; rp_toleration : Z; rp_grace : option Z; rp_action : action
}.
Definition legacyRepairPolicies : list RepairPolicy := [
  mk_policy "Ready" CFalse "" (10 * Minute) None ReplaceNode;
  mk_policy "Ready" CUnknown "" (10 * Minute) None ReplaceNode;
  mk_policy "kubernetes.azure.com/NodeHealthy" CFalse "" 0 None ReplaceNode;
  mk_policy SpotConditionPreemptionScheduled CTrue "" 0 None ReplaceNode ].
Definition budgetAwareRepairPolicies : list RepairPolicy := [
  mk_policy "Ready" CFalse "" (10 * Minute) (Some 0) ReplaceNode;
  mk_policy "Ready" CUnknown ".*" (10 * Minute) (Some 0) ReplaceNode;
  mk_policy "kubernetes.azure.com/NodeHealthy" CFalse ".*" 0 (Some 0) ReplaceNode;
  mk_policy SpotConditionPreemptionScheduled CTrue ".*" 0 (Some 0) ReplaceNode ].
Definition RepairPolicies (legacy : bool) : list RepairPolicy := if legacy then legacyRepairPolicies else budgetAwareRepairPolicies.

(** Both profiles repair the same conditions after the same time, by replacing;
    the newer one drains forcefully. *)
Lemma profiles_agree legacy :
  map (fun p => (rp_condition p, rp_status p, rp_toleration p, rp_action p)) (RepairPolicies legacy) =
  map (fun p => (rp_condition p, rp_status p, rp_toleration p, rp_action p)) (RepairPolicies true) /\
  Forall (fun p => rp_grace p = if legacy then None else Some 0) (RepairPolicies legacy).
Proof. destruct legacy; (split; [done|by repeat constructor]). Qed.

(** The errors core tells apart. *)
Inductive create_error :=
| InsufficientCapacityError
| NodeClassNotReadyError (message : string)
| CreateError (reason message : string)
| OtherError.

Section Provider.
Context {E H : Type} `{GoRange} `{ConditionSet}.

(** ** Data *)

(** A NodeClass as a launch reads it, with its status, the message of its
    Ready condition, its tags and its hashed spec. *)
Record Class := mk_class {
  cc_launch : VMInstance.LaunchClass; cc_status : NodeVersions.NodeClass; cc_message : string;
  cc_tags : gmap string string; cc_spec : Drift.Spec
}.
(** A NodeClaim: [cp_wellKnown] are the labels of its single-valued well-known
    requirements. *)
Record Claim := mk_claim {
  cp_launch : VMInstance.Claim; cp_classRef : option string; cp_wellKnown : gmap string string
}.
(** What the machine provider promises. *)
Record MachinePromise := mk_machine_promise {
  mp_template : AKSMachine.Machine; mp_type : option InstanceType; mp_capacityType : string; mp_zone : string;
  mp_machineID : string; mp_vmID : string; mp_imageVersion : string; mp_creation : Z
}.

Inductive event_kind := NodeClaimFailedToResolveNodeClass | NodeClaimFailedToRegister | NodePoolFailedToResolveNodeClass.

Inductive req :=
| GetNodeClass (name : string)
| GetNodePool (name : string)
| Publish (kind : event_kind) (name : string)
| ListInstanceTypes (class : string)
| ApplyAll (pool : string) (types : list InstanceType)
| Apply (pool : string) (type : option InstanceType)
| Vm (q : VMInstance.req (E := E))
| ListVMs
| BeginCreateMachine (claim : string)
| WaitMachine (claim : string)
| CleanupMachine (claim : string)
| GetMachine (name : string)
| ListMachines (withVMState : bool)
| DeleteMachine (claim name : string)
| GetClaim (name : string)
| DeleteClaim (name : string)
| Sleep
| Now.
(** A NodePool: the name of its NodeClass.  [GetClaim]: whether the Launched
    condition is known.  [Sleep]: whether the context ended meanwhile. *)
Definition resp (q : req) : Type :=
  match q with
  | GetNodeClass _ => result E (Class * bool)
  | GetNodePool _ => result E string
  | ListInstanceTypes _ | ApplyAll _ _ => result E (list InstanceType)
  | Apply _ _ => result E (option InstanceType)
  | Publish _ _ => unit
  | Vm q => VMInstance.resp (H := H) q
  | ListVMs => result E (list VirtualMachines.VirtualMachine)
  | BeginCreateMachine _ => result E MachinePromise
  | WaitMachine _ | CleanupMachine _ => option E
  | GetMachine _ => result E AKSMachine.Machine
  | ListMachines _ => result E (list AKSMachine.Machine)
  | DeleteMachine _ _ => option E
  | GetClaim _ => result E bool
  | DeleteClaim _ => result E unit
  | Sleep => bool
  | Now => Z
  end.
#[local] Abbreviation io := (io resp).
#[local] Abbreviation event := (event resp).
Definition vm_io {A} (m : Effects.io (VMInstance.resp (H := H)) A) : io A := lift Vm (fun _ r => r) m.

(** An answer, an error or a panic. *)
Inductive answer (Er A : Type) := Done (a : A) | Failed (e : Er) | Panicked.
Arguments Done {Er A} a.
Arguments Failed {Er A} e.
Arguments Panicked {Er A}.
Definition and_then {Er A B} (m : io (answer Er A)) (k : A -> io (answer Er B)) : io (answer Er B) :=
  o ← m; match o with Done a => k a | Failed e => mret (Failed e) | Panicked => mret Panicked end.
#[local] Notation "x <- m ;; k" := (and_then m (fun x => k)) (at level 100, m at next level, right associativity).

(** Errors of instances. *)
Inductive failure := VmFailure (e : VMInstance.launch_error (E := E) (H := H)) | MachineFailure (e : E).

Variable o : Options.Options.
Variable settings : VMInstance.Settings.
Variable IsNotFoundErr : E -> bool.
Variable ErrorCode : E -> option string.
Variable ErrorText : E -> string.
Variable ParseResourceName : string -> option string.
Variable ParseFloat : string -> option VirtualMachines.float64.
Variable type_labels : InstanceType -> gmap string string.
Variable accelerated : InstanceType -> bool.
Variable capacity allocatable : InstanceType -> gmap string Z.
(** The Kubernetes client's recogniser of a missing object. *)
Variable IsNotFound : E -> bool.
(** The text of an instance error, and the reason and message of a classified
    create error inside it. *)
Variable ErrorString : failure -> string.
Variable Classified : failure -> option (string * string).
(** The text of an error of the instance type provider. *)
Variable ErrorOf : E -> string.
(** Core's scheduling tests: the claim's requirements are compatible with the
    type and one of its offerings, and its requests fit. *)
Variable fits : Claim -> InstanceType -> bool.
Variable hashstructure : Drift.Spec -> string.
(** The options of core. *)
Variable nodeOverlay : bool.

(** ** Creating *)

Definition GetAKSNodeClass (c : Claim) : io (result (option E) Class) :=
  match cp_classRef c with
  | None => mret (Err None)
  | Some name =>
      r ← call (GetNodeClass name);
      mret (match r with Err e => Err (Some e) | Ok (k, deleting) => if deleting : bool then Err None else Ok k end)
  end.
(** Whether the error is a missing NodeClass: one being deleted is. *)
Definition class_not_found (c : Claim) (e : option E) : bool :=
  match e with Some e => IsNotFound e | None => bool_decide (is_Some (cp_classRef c)) end.

Definition validateNodeClass (k : Class) : option create_error :=
  let ready := NodeVersions.Get RootCondition (cc_status k) in
  if Options.EnableFIPS o && (from_ptr "" (NodeVersions.nc_fipsMode (cc_status k)) !=? NodeVersions.FIPSModeFIPS)
  then Some (NodeClassNotReadyError "AKSNodeClass spec.fipsMode must be set to FIPS because FIPS is enabled at the cluster level")
  else
    match c_status ready with
    | CFalse => Some (NodeClassNotReadyError (cc_message k))
    | CUnknown => Some (CreateError NodeClassReadinessUnknownReason "NodeClass is in Ready=Unknown")
    | CTrue =>
        match NodeVersions.GetKubernetesVersion (cc_status k), NodeVersions.GetImages (cc_status k) with
        | Err _, _ | _, Err _ => Some OtherError
        | Ok _, Ok _ => None
        end
    end.

Definition resolveInstanceTypes (c : Claim) (className : string) : io (result E (list InstanceType)) :=
  ts ← call (ListInstanceTypes className);
  match ts with
  | Err e => mret (Err e)
  | Ok ts =>
      ts ← (if nodeOverlay then
              match VMInstance.la_labels (cp_launch c) !! AKSMachine.NodePoolLabelKey with
              | Some pool => call (ApplyAll pool ts)
              | None => mret (Ok ts)
              end
            else mret (Ok ts));
      mret (match ts with Err e => Err e | Ok ts => Ok (List.filter (fits c) ts) end)
  end.

Definition toCreateError (e : failure) : create_error :=
  match Classified e with
  | Some (reason, message) => CreateError reason (truncateMessage message)
  | None => CreateError CreateInstanceFailedReason (truncateMessage (ErrorString e))
  end.

(** A promise: waiting for it and cleaning up after it. *)
Record Promise := mk_promise { pr_wait : io (option failure); pr_cleanup : io unit }.
Definition vm_wait (p : VMInstance.VirtualMachinePromise (E := E) (H := H)) : io (option failure) :=
  e ← vm_io (VMInstance.pm_wait p); mret (match e with Some e => Some (VmFailure e) | None => None end).
Definition vm_cleanup (p : VMInstance.VirtualMachinePromise (E := E) (H := H)) : io unit :=
  _ ← vm_io (VMInstance.Cleanup IsNotFoundErr p); mret tt.
Definition machine_wait (claim : string) : io (option failure) :=
  e ← call (WaitMachine claim); mret (match e with Some e => Some (MachineFailure e) | None => None end).
Definition machine_cleanup (claim : string) : io unit := _ ← call (CleanupMachine claim); mret tt.
Definition vm_promise (p : VMInstance.VirtualMachinePromise) : Promise := mk_promise (vm_wait p) (vm_cleanup p).
Definition machine_promise (claim : string) : Promise := mk_promise (machine_wait claim) (machine_cleanup claim).

Definition isNodeClaimStandalone (c : Claim) : bool :=
  negb (bool_decide (is_Some (VMInstance.la_labels (cp_launch c) !! AKSMachine.NodePoolLabelKey))).

Definition handleInstancePromiseWaitError (p : Promise) (claim : string) : io unit :=
  _ ← call (Publish NodeClaimFailedToRegister claim); pr_cleanup p.

(** A poll that ends the wait: the claim is launched, or gone. *)
Definition settled (r : result E bool) : bool := match r with Err e => IsNotFound e | Ok launched => launched end.

(** Polls until the claim is settled or the context ends; [false] when the
    fuel ran out first. *)
Fixpoint waitUntilLaunched (fuel : nat) (claim : string) : io bool :=
  match fuel with
  | O => mret false
  | S fuel =>
      r ← call (GetClaim claim);
      if settled r then mret true
      else
        done ← call Sleep;
        if done : bool then mret true else waitUntilLaunched fuel claim
  end.

(** The goroutine that follows up a NodePool's claim. *)
Definition follow_up (fuel : nat) (p : Promise) (claim : string) : io bool :=
  e ← pr_wait p;
  launched ← waitUntilLaunched fuel claim;
  if launched : bool then
    match e with
    | None => mret true
    | Some _ => _ ← handleInstancePromiseWaitError p claim; _ ← call (DeleteClaim claim); mret true
    end
  else mret false.

(** The error of a standalone claim, or the work left to a goroutine. *)
Definition handleInstancePromise (p : Promise) (c : Claim) : io (answer create_error (option Promise)) :=
  if isNodeClaimStandalone c then
    e ← pr_wait p;
    match e with
    | None => mret (Done None)
    | Some e =>
        _ ← handleInstancePromiseWaitError p (VMInstance.la_name (cp_launch c));
        mret (Failed (toCreateError e))
    end
  else mret (Done (Some p)).

Definition setAdditionalAnnotationsForNewNodeClaim (nc : AKSMachine.NodeClaim) (k : Class) : AKSMachine.NodeClaim :=
  let set := AKSMachine.set_annotation in
  let hash := InPlaceUpdate.HashFromNodeClaim o nc (cc_tags k) in
  set AKSMachine.AnnotationCapacityReservationGroupID
    (VirtualMachines.GetCapacityReservationGroupID (VMInstance.lc_class (cc_launch k)))
    (set InPlaceUpdate.AnnotationInPlaceUpdateHash hash
      (set Drift.AnnotationAKSNodeClassHashVersion Drift.AKSNodeClassHashVersion
        (set Drift.AnnotationAKSNodeClassHash (Drift.Hash hashstructure (cc_spec k)) nc))).

Definition assign_labels (nc : AKSMachine.NodeClaim) (labels : gmap string string) : AKSMachine.NodeClaim :=
  AKSMachine.mk_nodeclaim (AKSMachine.nc_name nc) (labels ∪ AKSMachine.nc_labels nc) (AKSMachine.nc_annotations nc)
    (AKSMachine.nc_creation nc) (AKSMachine.nc_deletion nc) (AKSMachine.nc_providerID nc) (AKSMachine.nc_imageID nc)
    (AKSMachine.nc_capacity nc) (AKSMachine.nc_allocatable nc).

(** [lo.Find] by the VM's size; [None] is the panic of nil properties. *)
Definition find_type (ts : list InstanceType) (vm : VirtualMachines.VirtualMachine) : option (option InstanceType) :=
  match ts with
  | [] => Some None
  | _ =>
      match VirtualMachines.vm_properties vm with
      | Some p => match VirtualMachines.vp_hardware p with
                  | Some size => Some (lo_find (fun t => it_name t ==? from_ptr "" size) ts)
                  | None => None
                  end
      | None => None
      end
  end.
Definition vm_nodeclaim (vm : VirtualMachines.VirtualMachine) (t : option InstanceType) : io (answer E AKSMachine.NodeClaim) :=
  now ← call Now;
  mret (match VirtualMachines.vmInstanceToNodeClaim type_labels capacity allocatable now vm t with
        | Some nc => Done nc
        | None => Panicked
        end).

(** The new claim with its follow-up. *)
Definition created : Type := AKSMachine.NodeClaim * option Promise.
Definition finish (c : Claim) (k : Class) (nc : AKSMachine.NodeClaim) (p : option Promise) : created :=
  (setAdditionalAnnotationsForNewNodeClaim (assign_labels nc (cp_wellKnown c)) k, p).

Definition createVMInstance (k : Class) (c : Claim) (ts : list InstanceType) : io (answer create_error created) :=
  b ← vm_io (VMInstance.BeginCreate settings IsNotFoundErr ErrorCode ErrorText ParseResourceName ParseFloat type_labels
               accelerated (cc_launch k) (cp_launch c));
  match b with
  | VMInstance.Panicked => mret Panicked
  | VMInstance.Failed e => mret (Failed (toCreateError (VmFailure e)))
  | VMInstance.Done p =>
      follow <- handleInstancePromise (vm_promise p) c;;
      match find_type ts (VMInstance.pm_vm p) with
      | None => mret Panicked
      | Some t =>
          nc ← vm_nodeclaim (VMInstance.pm_vm p) t;
          mret (match nc with Done nc => Done (finish c k nc follow) | _ => Panicked end)
      end
  end.

Definition createAKSMachineInstance (k : Class) (c : Claim) : io (answer create_error created) :=
  let claim := VMInstance.la_name (cp_launch c) in
  b ← call (BeginCreateMachine claim);
  match b with
  | Err e => mret (Failed (toCreateError (MachineFailure e)))
  | Ok p =>
      follow <- handleInstancePromise (machine_promise claim) c;;
      now ← call Now;
      mret (match AKSMachine.BuildNodeClaimFromAKSMachineTemplate type_labels capacity allocatable now (mp_template p) (mp_type p)
                    (mp_capacityType p) (Some (mp_zone p)) (mp_machineID p) (mp_vmID p) false (mp_imageVersion p) (mp_creation p) with
            | Some nc => Done (finish c k nc follow)
            | None => Panicked
            end)
  end.

Definition Create (c : Claim) : io (answer create_error created) :=
  k ← GetAKSNodeClass c;
  match k with
  | Err e =>
      _ ← (if class_not_found c e then call (Publish NodeClaimFailedToResolveNodeClass (VMInstance.la_name (cp_launch c)))
           else mret tt);
      mret (Failed InsufficientCapacityError)
  | Ok k =>
      match validateNodeClass k with
      | Some e => mret (Failed e)
      | None =>
          ts ← resolveInstanceTypes c (from_ptr "" (cp_classRef c));
          match ts with
          | Err e => mret (Failed (CreateError InstanceTypeResolutionFailedReason (truncateMessage (ErrorOf e))))
          | Ok [] => mret (Failed InsufficientCapacityError)
          | Ok ts => if Options.IsAKSMachineAPIMode o then createAKSMachineInstance k c else createVMInstance k c ts
          end
      end
  end.

(** ** Reading *)

(** Looking up what belongs to an instance: [None] is the not-found error the
    program makes itself. *)
Definition missing (e : option E) : bool := match e with None => true | Some e => IsNotFound e end.

(** [resolveNodePoolFromVMInstance] and [FindNodePoolFromAKSMachine]: the pool
    of the tag and its NodeClass; a nil tag value panics. *)
Definition resolve_pool (tags : gmap string (option string)) : io (answer (option E) (string * string)) :=
  match tags !! AKSMachine.NodePoolTagKey with
  | Some None => mret Panicked
  | Some (Some pool) =>
      if pool ==? "" then mret (Failed None)
      else
        r ← call (GetNodePool pool);
        mret (match r with Ok class => Done (pool, class) | Err e => Failed (Some e) end)
  | None => mret (Failed None)
  end.
Definition resolveNodeClassFromNodePool (class : string) : io (answer (option E) Class) :=
  r ← call (GetNodeClass class);
  mret (match r with
        | Err e => Failed (Some e)
        | Ok (k, deleting) => if deleting : bool then Failed None else Done k
        end).
Definition GetInstanceTypes (pool class : string) : io (answer (option E) (list InstanceType)) :=
  k ← resolveNodeClassFromNodePool class;
  match k with
  | Panicked => mret Panicked
  | Failed e =>
      _ ← (if missing e then call (Publish NodePoolFailedToResolveNodeClass pool) else mret tt);
      mret (Failed e)
  | Done _ =>
      ts ← call (ListInstanceTypes class);
      mret (match ts with Ok ts => Done ts | Err e => Failed (Some e) end)
  end.

(** An unknown pool or NodeClass leaves the type unknown; other errors stop. *)
Definition tolerate {A} (z : A) (e : option E) : answer E A :=
  match e with None => Done z | Some e => if IsNotFound e then Done z else Failed e end.

Definition resolveInstanceTypeFromVMInstance (vm : VirtualMachines.VirtualMachine) : io (answer E (option InstanceType)) :=
  p ← resolve_pool (VirtualMachines.vm_tags vm);
  match p with
  | Panicked => mret Panicked
  | Failed e => mret (tolerate None e)
  | Done (pool, class) =>
      ts ← GetInstanceTypes pool class;
      match ts with
      | Panicked => mret Panicked
      | Failed e => mret (tolerate None e)
      | Done ts =>
          match find_type ts vm with
          | None => mret Panicked
          | Some t =>
              if nodeOverlay then
                r ← call (Apply pool t);
                mret (match r with Ok t => Done t | Err e => Failed e end)
              else mret (Done t)
          end
      end
  end.

Inductive get_error :=
| ErrProviderID (e : string)
| ErrInstance (e : E)
| ErrVM (e : VMInstance.delete_error (E := E))
| ErrBuild (e : AKSMachine.build_error).
Definition lift_error {A} (r : answer E A) : answer get_error A :=
  match r with Done a => Done a | Failed e => Failed (ErrInstance e) | Panicked => Panicked end.

Variable location : string.

Definition resolveNodeClaimFromAKSMachine (m : AKSMachine.Machine) : io (answer get_error AKSMachine.NodeClaim) :=
  ts <- match AKSMachine.ma_properties m with
        | None => mret Panicked
        | Some props =>
            p ← resolve_pool (default ∅ (AKSMachine.pr_tags props));
            match p with
            | Panicked => mret Panicked
            | Failed e => mret (lift_error (tolerate [] e))
            | Done (pool, class) =>
                ts ← GetInstanceTypes pool class;
                match ts with
                | Panicked => mret Panicked
                | Failed e => mret (lift_error (tolerate [] e))
                | Done ts =>
                    if nodeOverlay then
                      r ← call (ApplyAll pool ts);
                      mret (match r with Ok ts => Done ts | Err e => Failed (ErrInstance e) end)
                    else mret (Done ts)
                end
            end
        end;;
  now ← call Now;
  mret (match AKSMachine.BuildNodeClaimFromAKSMachine type_labels capacity allocatable now m ts location with
        | None => Panicked
        | Some (Err e) => Failed (ErrBuild e)
        | Some (Ok nc) => Done nc
        end).
Definition resolve_vm (vm : VirtualMachines.VirtualMachine) : io (answer get_error AKSMachine.NodeClaim) :=
  t ← resolveInstanceTypeFromVMInstance vm;
  match t with
  | Panicked => mret Panicked
  | Failed e => mret (Failed (ErrInstance e))
  | Done t => nc ← vm_nodeclaim vm t; mret (lift_error nc)
  end.

Definition Get (providerID : string) : io (answer get_error AKSMachine.NodeClaim) :=
  match ResourceIDs.GetVMName providerID with
  | Err e => mret (Failed (ErrProviderID e))
  | Ok vmName =>
      match AKSMachine.GetAKSMachineNameFromVMName (Options.AKSMachinesPoolName o) vmName with
      | Ok name =>
          m ← call (GetMachine name);
          match m with Err e => mret (Failed (ErrInstance e)) | Ok m => resolveNodeClaimFromAKSMachine m end
      | Err _ =>
          v ← vm_io (VMInstance.Get IsNotFoundErr vmName);
          match v with Err e => mret (Failed (ErrVM e)) | Ok vm => resolve_vm vm end
      end
  end.

(** All of a list, up to the first that fails. *)
Fixpoint convert {A} (f : A -> io (answer get_error AKSMachine.NodeClaim)) (l : list A) :
    io (answer get_error (list AKSMachine.NodeClaim)) :=
  match l with
  | [] => mret (Done [])
  | x :: l => nc <- f x;; ncs <- convert f l;; mret (Done (nc :: ncs))
  end.
Definition answered {A} (r : result E A) : answer get_error A :=
  match r with Ok a => Done a | Err e => Failed (ErrInstance e) end.

Definition list_claims (includeAKSMachineVMState : bool) : io (answer get_error (list AKSMachine.NodeClaim)) :=
  ms <- (r ← call (ListMachines includeAKSMachineVMState); mret (answered r));;
  ncs <- convert resolveNodeClaimFromAKSMachine ms;;
  vs <- (r ← call ListVMs; mret (answered r));;
  ncs' <- convert resolve_vm vs;;
  mret (Done (ncs ++ ncs')).
Definition List := list_claims false.
Definition ListWithAKSMachineVMState := list_claims true.

(** ** Deleting *)

Inductive deletion_error := DelProviderID (e : string) | DelMachine (e : E) | DelVM (e : VMInstance.delete_error (E := E)).
Definition Delete (claim : VMInstance.Claim) (nc : AKSMachine.NodeClaim) : io (option deletion_error) :=
  match AKSMachine.GetAKSMachineNameFromNodeClaim nc with
  | Some name => r ← call (DeleteMachine (AKSMachine.nc_name nc) name); mret (match r with Some e => Some (DelMachine e) | None => None end)
  | None =>
      match ResourceIDs.GetVMName (AKSMachine.nc_providerID nc) with
      | Err e => mret (Some (DelProviderID e))
      | Ok vmName =>
          r ← vm_io (VMInstance.Delete IsNotFoundErr claim vmName);
          mret (match r with Some e => Some (DelVM e) | None => None end)
      end
  end.

(** ** Following up *)

(** What a wait does: polls of a claim, with whether they settled it, and
    sleeps, with whether the context ended. *)
Definition polled (claim : string) (b : bool) (e : event) : Prop :=
  exists r, e = existT (P := resp) (GetClaim claim) r /\ settled r = b.
Definition slept (b : bool) : event := existT (P := resp) Sleep b.
Definition goes_on (claim : string) (e : event) : Prop := polled claim false e \/ e = slept false.
Definition ends (claim : string) (e : event) : Prop := polled claim true e \/ e = slept true.

(** Waiting for a claim to be launched ends: if, whatever happened before,
    the claim is launched or gone at its [n]-th poll after the first, then the
    wait is over by then, after at most [n] sleeps, and it ends with the first
    poll that settles the claim or the first sleep in which the context
    ended. *)
Lemma wait_until_launched_ends (env : list event -> forall q, resp q) claim n h :
  (forall h', length h' = (length h + 2 * n)%nat -> settled (env h' (GetClaim claim)) = true) ->
  exists u last, run env (waitUntilLaunched (S n) claim) h = (true, h ++ u ++ [last]) /\
    (length u <= 2 * n)%nat /\ ends claim last /\ Forall (goes_on claim) u.
Proof.
  revert h. induction n as [|n IH]; intros h St; cbn [waitUntilLaunched]; rewrite run_bind; cbn [run call fst snd];
    set (r := env h (GetClaim claim)); destruct (settled r) eqn:Sr;
    try (exists [], (existT (P := resp) (GetClaim claim) r); split; [done|]; split; [simpl; lia|]; split; [left; by exists r|done]).
  { unfold r in Sr. rewrite St in Sr by lia. done. }
  rewrite run_bind. cbn [run call fst snd]. set (h1 := h ++ [existT (P := resp) (GetClaim claim) r]).
  assert (Go : goes_on claim (existT (P := resp) (GetClaim claim) r)) by (left; by exists r).
  destruct (env h1 Sleep) eqn:Sl.
  - exists [existT (P := resp) (GetClaim claim) r], (slept true). split; [unfold h1; by rewrite <- app_assoc|].
    split; [simpl; lia|]. split; [by right|by constructor].
  - destruct (IH (h1 ++ [slept false])) as (u & last & R & L & La & Un).
    { intros h' Lh. apply St. rewrite Lh. unfold h1. rewrite !length_app. simpl. lia. }
    exists (existT (P := resp) (GetClaim claim) r :: slept false :: u), last. split; [|split; [simpl in *; lia|]].
    + etransitivity; [exact R|]. unfold h1. by rewrite <- !app_assoc.
    + split; [done|]. constructor; [done|]. constructor; [by right|done].
Qed.

(** ** Creating: refusals, and what a new claim says *)

(** A call that starts an instance. *)
Definition starts (q : req) : Prop := match q with Vm _ | BeginCreateMachine _ => True | _ => False end.
Definition quiet (t : list event) : Prop := Forall (fun e => ~ starts (asked e)) t.
(** The NodeClass was read, and is not being deleted. *)
Definition resolved (c : Claim) (k : Class) (t : list event) : Prop :=
  exists name, cp_classRef c = Some name /\ existT (P := resp) (GetNodeClass name) (Ok (k, false)) ∈ t.
(** The instance types offered to the claim. *)
Definition offered (t : list event) (ts : list InstanceType) : Prop :=
  (exists class, existT (P := resp) (ListInstanceTypes class) (Ok ts) ∈ t) \/
  (exists pool ts0, existT (P := resp) (ApplyAll pool ts0) (Ok ts) ∈ t).
Record ready (k : Class) : Prop := {
  rd_true : c_status (NodeVersions.Get RootCondition (cc_status k)) = CTrue;
  rd_fips : Options.EnableFIPS o = true -> NodeVersions.nc_fipsMode (cc_status k) = Some NodeVersions.FIPSModeFIPS;
  rd_version : exists v, NodeVersions.GetKubernetesVersion (cc_status k) = Ok v;
  rd_images : exists l, NodeVersions.GetImages (cc_status k) = Ok l
}.

Lemma validate_ready k : validateNodeClass k = None <-> ready k.
Proof.
  unfold validateNodeClass. split.
  - destruct (Options.EnableFIPS o && _) eqn:F; [done|]. destruct (c_status _) eqn:S; [|done..].
    destruct (NodeVersions.GetKubernetesVersion _) as [v|] eqn:V; [|done].
    destruct (NodeVersions.GetImages _) as [l|] eqn:I; [|done]. intros _. split; [done| |by exists v|by exists l].
    intros Ef. rewrite Ef in F. simpl in F. rewrite neqb_false in F.
    destruct (NodeVersions.nc_fipsMode _) as [m|]; [by simpl in F; subst m|done].
  - intros [S F [v V] [l I]]. rewrite S, V, I. destruct (Options.EnableFIPS o); simpl; [|done].
    rewrite F by done. unfold from_ptr. by rewrite (proj2 (neqb_false _ _)).
Qed.

(** The answer of a NodeClass's lookup. *)
Definition class_answer (e : event) : option (result E (Class * bool)) :=
  match e with existT (GetNodeClass _) r => Some r | _ => None end.

(** Nothing is started while the NodeClass and the types are looked up. *)
Lemma class_answered c : post (GetAKSNodeClass c) (fun r t => quiet t /\
  match r with
  | Ok k => resolved c k t
  | Err _ => forall k u, quiet u -> (forall n r, existT (P := resp) (GetNodeClass n) r ∉ u) -> ~ resolved c k (t ++ u)
  end).
Proof.
  unfold GetAKSNodeClass. destruct (cp_classRef c) as [n|] eqn:C.
  - do 3 io_step. split; [by repeat constructor; intros []|]. destruct r as [[k []]|e].
    + intros k' u _ N (n' & _ & I). apply elem_of_cons in I as [I%(f_equal class_answer)|I]; [by injection I|by apply N in I].
    + exists n. split; [done|left].
    + intros k' u _ N (n' & _ & I). apply elem_of_cons in I as [I%(f_equal class_answer)|I]; [by injection I|by apply N in I].
  - io_step. split; [constructor|]. intros k u _ _ (n & Cn & _). congruence.
Qed.

Lemma types_answered c class : post (resolveInstanceTypes c class) (fun r t => quiet t /\
  match r with Ok ts => exists ts0, offered t ts0 /\ ts = List.filter (fits c) ts0 | Err _ => True end).
Proof.
  unfold resolveInstanceTypes. do 2 io_step. destruct r as [ts|e]; [|io_step; split; [repeat constructor; intros []|done]].
  assert (Plain : forall ts, quiet [existT (P := resp) (ListInstanceTypes class) (Ok ts)] /\
    exists ts0, offered [existT (P := resp) (ListInstanceTypes class) (Ok ts)] ts0 /\ List.filter (fits c) ts = List.filter (fits c) ts0).
  { intros l. split; [by repeat constructor; intros []|]. exists l. split; [|done]. left. exists class. left. }
  destruct nodeOverlay; [|io_step; io_step; io_step; apply Plain].
  destruct (_ !! _) as [pool|]; [|io_step; io_step; io_step; apply Plain].
  do 3 io_step. split; [by repeat constructor; intros []|]. destruct r as [ts1|e]; [|done].
  exists ts1. split; [|done]. right. exists pool, ts. right. left.
Qed.

(** What a launch answers. *)
Definition launched (c : Claim) (k : Class) (a : answer create_error created) : Prop :=
  match a with
  | Done (nc, p) => exists nc0, nc = (finish c k nc0 p).1
  | Failed e => exists f, e = toCreateError f
  | Panicked => True
  end.

Lemma promise_handled p c : post (handleInstancePromise p c) (fun a _ => forall e, a = Failed e -> exists f, e = toCreateError f).
Proof.
  unfold handleInstancePromise. destruct (isNodeClaimStandalone c); [|io_step; by intros e].
  io_step. eapply post_mono; [|apply post_true]. intros [e|] t _; [|io_step; by intros e].
  io_step. eapply post_mono; [|apply post_true]. intros u t' _. io_step. intros e' [= <-]. by exists e.
Qed.

Lemma and_then_post {Er A B} (m : io (answer Er A)) (f : A -> io (answer Er B)) (Q : answer Er B -> list event -> Prop) :
  post m (fun r t => match r with
    | Done a => post (f a) (fun b t' => Q b (t ++ t'))
    | Failed e => Q (Failed e) t
    | Panicked => Q Panicked t
    end) -> post (and_then m f) Q.
Proof.
  intros W. unfold and_then. apply post_bind. eapply post_mono; [|exact W].
  intros [a|e|] t W'; [exact W'|io_step; by rewrite app_nil_r..].
Qed.

Lemma vm_launched k c ts : post (createVMInstance k c ts) (fun a _ => launched c k a).
Proof.
  unfold createVMInstance. io_step. eapply post_mono; [|apply post_true]. intros [p|e|] t _; cbv beta iota; [|io_step; by eexists|by io_step].
  apply and_then_post. eapply post_mono; [|apply promise_handled]. intros [q|e|] u He; [|by apply He|done].
  destruct (find_type ts _) as [ty|]; [|by io_step]. unfold vm_nodeclaim. do 5 io_step.
  destruct (VirtualMachines.vmInstanceToNodeClaim _ _ _ _ _ _) as [nc|]; [by eexists|done].
Qed.

Lemma machine_launched k c : post (createAKSMachineInstance k c) (fun a _ => launched c k a).
Proof.
  unfold createAKSMachineInstance. io_step. io_step. destruct r as [p|e]; [|io_step; by eexists].
  apply and_then_post. eapply post_mono; [|apply promise_handled]. intros [q|e|] u He; [|by apply He|done].
  do 3 io_step. destruct (AKSMachine.BuildNodeClaimFromAKSMachineTemplate _ _ _ _ _ _ _ _ _ _ _ _); [by eexists|done].
Qed.

(** The cases of a launch: refused before anything was started, or tried with
    a NodeClass that is ready. *)
Inductive creation (c : Claim) (a : answer create_error created) (t : list event) : Prop :=
| cr_unresolved : a = Failed InsufficientCapacityError -> quiet t -> (forall k, ~ resolved c k t) -> creation c a t
| cr_unready k e : resolved c k t -> validateNodeClass k = Some e -> a = Failed e -> quiet t -> creation c a t
| cr_untyped k e : resolved c k t -> ready k -> quiet t ->
    a = Failed (CreateError InstanceTypeResolutionFailedReason (truncateMessage (ErrorOf e))) -> creation c a t
| cr_no_type k ts : resolved c k t -> ready k -> quiet t -> a = Failed InsufficientCapacityError -> offered t ts ->
    (forall x, x ∈ ts -> fits c x = false) -> creation c a t
| cr_launched k : resolved c k t -> ready k -> launched c k a -> creation c a t.

Lemma create_cases c : post (Create c) (creation c).
Proof.
  unfold Create. io_step. eapply post_mono; [|apply class_answered]. intros [k|e] t [Q R].
  - assert (R' : forall u, resolved c k (t ++ u)).
    { intros u. destruct R as (n & C & I). exists n. rewrite elem_of_app. auto. }
    destruct (validateNodeClass k) as [e|] eqn:V.
    { io_step. rewrite app_nil_r. by apply (cr_unready _ _ _ k e). }
    apply validate_ready in V. io_step. eapply post_mono; [|apply types_answered]. intros [ts|e] u [Qu Hu].
    + destruct Hu as (ts0 & O & ->). destruct (List.filter (fits c) ts0) as [|x l] eqn:Fl.
      * io_step. rewrite app_nil_r. apply (cr_no_type _ _ _ k ts0); [done|done|by apply Forall_app|done| |].
        -- destruct O as [[class I]|(pool & l & I)]; [left; exists class|right; exists pool, l]; rewrite elem_of_app; auto.
        -- intros x I. destruct (fits c x) eqn:Fx; [|done]. exfalso.
           assert (In x []) by (rewrite <- Fl; by apply filter_In; rewrite <- list_elem_of_In). done.
      * destruct (Options.IsAKSMachineAPIMode o); (eapply post_mono; [|first [apply machine_launched|apply vm_launched]]);
          intros a w La; apply (cr_launched _ _ _ k); auto; rewrite <- app_assoc; apply R'.
    + io_step. rewrite app_nil_r. apply (cr_untyped _ _ _ k e); [done|done|by apply Forall_app|done].
  - destruct (class_not_found c e).
    + do 3 io_step. apply cr_unresolved; [done|apply Forall_app; split; [done|by repeat constructor; intros []]|].
      intros k. apply R; [by repeat constructor; intros []|]. intros n r' I. by apply list_elem_of_singleton in I.
    + do 3 io_step. rewrite app_nil_r. apply cr_unresolved; [done..|]. intros k. rewrite <- (app_nil_r t).
      apply R; [constructor|]. intros n r' I. by apply not_elem_of_nil in I.
Qed.

Lemma truncate_short m : (String.length (truncateMessage m) <= 1203)%nat.
Proof.
  unfold truncateMessage, truncateAt. destruct (Nat.ltb_spec (String.length m) 1200) as [L|L]; [lia|].
  rewrite length_string_app, length_substring by lia. simpl. lia.
Qed.

(** C6. A launch is refused before anything is started, and says why: without
    a NodeClass, or without a type that fits, it is an insufficient capacity
    error (core tries elsewhere); a NodeClass that is not ready, or not in
    FIPS mode when the cluster is, is reported as such; a create error never
    has a message longer than 1203 bytes.  Whatever is started is started for
    a NodeClass that was read, is not being deleted, is ready, and has a
    Kubernetes version and images. *)
Theorem create_refused_in_time (env : list event -> forall q, resp q) c a t :
  run env (Create c) [] = (a, t) ->
  (~ quiet t -> exists k, resolved c k t /\ ready k) /\
  match a with
  | Failed InsufficientCapacityError => quiet t /\
      ((forall k, ~ resolved c k t) \/
       exists k ts, resolved c k t /\ ready k /\ offered t ts /\ forall x, x ∈ ts -> fits c x = false)
  | Failed (NodeClassNotReadyError m) => quiet t /\ exists k, resolved c k t /\
      (Options.EnableFIPS o = true /\ NodeVersions.nc_fipsMode (cc_status k) <> Some NodeVersions.FIPSModeFIPS \/
       c_status (NodeVersions.Get RootCondition (cc_status k)) = CFalse /\ m = cc_message k)
  | Failed (CreateError reason m) => (String.length m <= 1203)%nat /\ exists k, resolved c k t /\
      (reason = NodeClassReadinessUnknownReason /\ quiet t /\ c_status (NodeVersions.Get RootCondition (cc_status k)) = CUnknown \/ ready k)
  | Failed OtherError => quiet t /\ exists k, resolved c k t /\ ~ ready k
  | Done (nc, _) => exists k, resolved c k t /\ ready k
  | Panicked => exists k, resolved c k t /\ ready k
  end.
Proof.
  intros R. destruct (post_run (Create c) (creation c) env [] (create_cases c)) as (t' & Et & HC).
  rewrite R in Et, HC. simpl in Et, HC. subst t'. destruct HC as [-> Q N|k e Rs V -> Q|k e Rs Rd Q ->|k ts Rs Rd Q -> O N|k Rs Rd L].
  - split; [done|]. split; [done|by left].
  - split; [done|]. unfold validateNodeClass in V.
    destruct (Options.EnableFIPS o && _) eqn:F.
    + injection V as <-. split; [done|]. exists k. split; [done|]. left. apply andb_true_iff in F as [F1 F2].
      split; [done|]. intros Fm. rewrite Fm, neqb_true in F2. done.
    + destruct (c_status _) eqn:S.
      * assert (e = OtherError) as ->.
        { destruct (NodeVersions.GetKubernetesVersion (cc_status k)), (NodeVersions.GetImages (cc_status k)); by simplify_eq. }
        split; [done|]. exists k. split; [done|]. intros [_ _ [v Kv] [l Il]]. rewrite Kv, Il in V. done.
      * injection V as <-. split; [done|]. exists k. split; [done|]. by right.
      * injection V as <-. split; [simpl; lia|]. exists k. split; [done|]. by left.
  - split; [done|]. split; [apply truncate_short|]. exists k. auto.
  - split; [done|]. split; [done|]. right. by exists k, ts.
  - split; [intros _; by exists k|]. destruct a as [[nc p]|e|]; [by exists k| |by exists k].
    destruct L as (f & ->). unfold toCreateError. destruct (Classified f) as [[reason m]|]; (split; [apply truncate_short|exists k; auto]).
Qed.


(** ** Following up *)

Lemma wait_error_handled (env : list event -> forall q, resp q) p claim h :
  let cleaned := (run env (pr_cleanup p) (h ++ [existT (P := resp) (Publish NodeClaimFailedToRegister claim) tt])).2 in
  run env (_ ← handleInstancePromiseWaitError p claim; _ ← call (DeleteClaim claim); mret true) h =
    (true, cleaned ++ [existT (P := resp) (DeleteClaim claim) (env cleaned (DeleteClaim claim))]).
Proof.
  intros cleaned. rewrite run_bind. unfold handleInstancePromiseWaitError. rewrite run_bind. cbn [run call fst snd].
  rewrite run_bind. cbn [run call fst snd]. by destruct (env h _).
Qed.

(** C4. No launch is left half done: whatever a promise's wait answers, the
    follow-up ends once the claim is launched or gone; after a launch that
    failed it reports the failure, cleans the instance up and deletes the
    claim, in this order and exactly once, and after a launch that went well
    it does nothing more. *)
Theorem failed_launch_followed_up (env : list event -> forall q, resp q) p claim n h :
  let waited := run env (pr_wait p) h in
  (forall h', length h' = (length waited.2 + 2 * n)%nat -> settled (env h' (GetClaim claim)) = true) ->
  exists polls : list event, (length polls <= 2 * n + 1)%nat /\ Forall (fun e => asked e = GetClaim claim \/ asked e = Sleep) polls /\
    let published := waited.2 ++ polls ++ [existT (P := resp) (Publish NodeClaimFailedToRegister claim) tt] in
    let cleaned := (run env (pr_cleanup p) published).2 in
    run env (follow_up (S n) p claim) h =
      match waited.1 with
      | None => (true, waited.2 ++ polls)
      | Some _ => (true, cleaned ++ [existT (P := resp) (DeleteClaim claim) (env cleaned (DeleteClaim claim))])
      end.
Proof.
  intros waited St. destruct (wait_until_launched_ends env claim n waited.2 St) as (u & last & R & L & La & Un).
  exists (u ++ [last]). split; [rewrite length_app; simpl; lia|]. split.
  { apply Forall_app. split; [eapply Forall_impl; [exact Un|]|apply Forall_singleton].
    - intros e [(r & -> & _)| ->]; [by left|by right].
    - destruct La as [(r & -> & _)| ->]; [by left|by right]. }
  intros published cleaned. unfold follow_up. rewrite run_bind. fold waited. rewrite run_bind, R. cbn [fst snd].
  destruct waited.1 as [e|] eqn:W; [|done]. rewrite wait_error_handled. unfold cleaned, published. by rewrite <- !app_assoc.
Qed.

(** ** Listing *)

(** A machine's or a VM's claim, as it is built at some time with some
    types. *)
Definition of_machine (m : AKSMachine.Machine) (nc : AKSMachine.NodeClaim) : Prop :=
  exists now ts, AKSMachine.BuildNodeClaimFromAKSMachine type_labels capacity allocatable now m ts location = Some (Ok nc).
Definition of_vm (vm : VirtualMachines.VirtualMachine) (nc : AKSMachine.NodeClaim) : Prop :=
  exists now t, VirtualMachines.vmInstanceToNodeClaim type_labels capacity allocatable now vm t = Some nc.

Lemma machine_resolved m : post (resolveNodeClaimFromAKSMachine m) (fun a _ => forall nc, a = Done nc -> of_machine m nc).
Proof.
  unfold resolveNodeClaimFromAKSMachine. apply and_then_post. eapply post_mono; [|apply post_true]. intros [ts|e|] t _; [|done..].
  do 3 io_step. intros nc. destruct (AKSMachine.BuildNodeClaimFromAKSMachine _ _ _ _ _ _ _) as [[nc'|e]|] eqn:B; [|done..].
  intros [= <-]. by exists r, ts.
Qed.

Lemma vm_resolved vm : post (resolve_vm vm) (fun a _ => forall nc, a = Done nc -> of_vm vm nc).
Proof.
  unfold resolve_vm. io_step. eapply post_mono; [|apply post_true]. intros [ty|e|] t _; [|by io_step..].
  unfold vm_nodeclaim. do 5 io_step. intros nc.
  destruct (VirtualMachines.vmInstanceToNodeClaim _ _ _ _ _ _) as [nc'|] eqn:B; simpl; [|done]. intros [= <-]. by exists r, ty.
Qed.

Lemma converted {A} (f : A -> io (answer get_error AKSMachine.NodeClaim)) (R : A -> AKSMachine.NodeClaim -> Prop) l :
  (forall x, post (f x) (fun a _ => forall nc, a = Done nc -> R x nc)) ->
  post (convert f l) (fun a _ => forall ncs, a = Done ncs -> Forall2 R l ncs).
Proof.
  intros W. induction l as [|x l IH]; cbn [convert]; [io_step; intros ncs [= <-]; constructor|].
  apply and_then_post. eapply post_mono; [|apply W]. intros [nc|e|] t Hn; [|done..]. apply and_then_post.
  eapply post_mono; [|apply IH]. intros [ncs|e|] u Hs; [|done..]. io_step. intros ncs' [= <-]. constructor; [by apply Hn|by apply Hs].
Qed.

(** A listing is complete or fails: what it answers is one claim for every
    AKS machine listed, in their order, then one for every VM listed, in
    theirs, each built from its machine or VM; if either list, or any of the
    conversions, fails, so does the listing (garbage collection never takes a
    partial list for the whole). *)
Theorem list_complete (env : list event -> forall q, resp q) b ncs t :
  run env (list_claims b) [] = (Done ncs, t) ->
  exists ms vs mcs vcs, existT (P := resp) (ListMachines b) (Ok ms) ∈ t /\ existT (P := resp) ListVMs (Ok vs) ∈ t /\
    ncs = mcs ++ vcs /\ Forall2 of_machine ms mcs /\ Forall2 of_vm vs vcs.
Proof.
  intros R. destruct (post_run (list_claims b) (fun a t => forall ncs, a = Done ncs ->
    exists ms vs mcs vcs, existT (P := resp) (ListMachines b) (Ok ms) ∈ t /\ existT (P := resp) ListVMs (Ok vs) ∈ t /\
      ncs = mcs ++ vcs /\ Forall2 of_machine ms mcs /\ Forall2 of_vm vs vcs) env []) as (t' & Et & HQ);
    [|rewrite R in Et, HQ; simpl in Et; subst t'; by apply HQ].
  clear R. unfold list_claims. apply and_then_post. do 3 io_step. destruct r as [ms|e]; cbn [answered]; [|done].
  apply and_then_post. eapply post_mono; [|apply (converted _ of_machine), machine_resolved]. intros [mcs|e|] u Hm; [|done..].
  apply and_then_post. do 3 io_step. destruct r as [vs|e]; cbn [answered]; [|done].
  apply and_then_post. eapply post_mono; [|apply (converted _ of_vm), vm_resolved]. intros [vcs|e|] w Hv; [|done..].
  io_step. intros ncs' [= <-]. exists ms, vs, mcs, vcs. split; [left|]. split; [|by auto].
  right. apply elem_of_app. right. left.
Qed.

(** ** Who is asked *)

Lemma not_a_machine_name prefix suffix :
  free_of "-" suffix = true -> suffix <> "vm" ->
  exists e, AKSMachine.GetAKSMachineNameFromVMName (Options.AKSMachinesPoolName o)
    (ResourceIDs.GenerateResourceName (prefix +:+ "-" +:+ suffix)) = Err e.
Proof.
  intros F N. unfold AKSMachine.GetAKSMachineNameFromVMName. set (pre := "aks-" +:+ _ +:+ "-").
  destruct (HasPrefix _ pre) eqn:P; [|by eexists]. cbn [negb]. unfold TrimPrefix. rewrite P.
  apply prefix_spec in P as [rest P]. rewrite P, drop_str_app. destruct (HasSuffix rest "-vm") eqn:S; [|by eexists].
  exfalso. apply HasSuffix_spec in S as [y ->]. apply N.
  assert (L : AKSMachine.last_split "-" (ResourceIDs.GenerateResourceName (prefix +:+ "-" +:+ suffix)) = Some ("aks-" +:+ prefix, suffix)).
  { unfold ResourceIDs.GenerateResourceName. rewrite <- string_app_assoc. by apply AKSMachine.last_split_app. }
  rewrite P, <- string_app_assoc in L. change "-vm" with (String "-" "vm") in L.
  rewrite AKSMachine.last_split_app in L by done. by injection L.
Qed.

(** An instance is asked of the provider that made it: [Get] reads the VM
    of a claim whose last dash-separated part is not "vm" (core's names end in
    five random letters and digits), and the machine of a VM that AKS named
    after a machine of the pool, whatever dashes the names contain. *)
Theorem get_asks_its_provider (env : list event -> forall q, resp q) providerID vmName :
  ResourceIDs.GetVMName providerID = Ok vmName ->
  (forall prefix suffix, free_of "-" suffix = true -> suffix <> "vm" ->
     vmName = ResourceIDs.GenerateResourceName (prefix +:+ "-" +:+ suffix) ->
     exists r rest, (run env (Get providerID) []).2 = existT (P := resp) (Vm (VMInstance.GetVM vmName)) r :: rest) /\
  (forall name unique, free_of "-" unique = true ->
     vmName = "aks-" +:+ Options.AKSMachinesPoolName o +:+ "-" +:+ name +:+ "-" +:+ unique +:+ "-vm" ->
     exists r rest, (run env (Get providerID) []).2 = existT (P := resp) (GetMachine name) r :: rest).
Proof.
  intros N.
  assert (First : forall q, post (Get providerID) (fun _ t => exists r rest, t = existT (P := resp) q r :: rest) ->
    exists r rest, (run env (Get providerID) []).2 = existT (P := resp) q r :: rest).
  { intros q W. by destruct (post_run _ _ env [] W) as (t & -> & HQ). }
  split.
  - intros prefix suffix F Nv Ev. apply First. unfold Get. rewrite N. rewrite Ev at 1.
    destruct (not_a_machine_name prefix suffix F Nv) as [e ->]. apply post_first.
  - intros name unique F ->. apply First. unfold Get. rewrite N, AKSMachine.vm_name_back by done. apply post_first.
Qed.

End Provider.
Arguments Done {Er A} a.
Arguments Failed {Er A} e.
Arguments Panicked {Er A}.

(** ** The theorems at concrete inputs *)

Definition demo_options : Options.Options :=
  Options.mk_options "cluster" "https://c.example.com" (VirtualMachines.Finite 1) "token" "azureuser" "key" "azure" "overlay" "cilium" ""
    [] "" "" "/subscriptions/sub/resourceGroups/rg/providers/Microsoft.Network/virtualNetworks/vnet/subnets/nodes"
    "aksscriptless" "" true "" "sig" "mc_rg" ∅ "" false false "pool" 1000000000 5000000000 50 "log-only".
Definition demo_class (ready : ConditionStatus) : Class (H1 := map_conditions) :=
  mk_class VMInstance.demo_launch_class
    (NodeVersions.mk_nodeclass (H := map_conditions) 1 None None None None
      [NodeVersions.mk_image "image-2" []] None (Some "1.31.2")
      {[ RootCondition := mk_condition ready "" 1;
         NodeVersions.ConditionTypeKubernetesVersionReady := mk_condition CTrue "" 1;
         NodeVersions.ConditionTypeImagesReady := mk_condition CTrue "" 1 ]})
    "images are not ready" {[ "team" := "a" ]} (Drift.mk_spec None None None None None "spec").
Definition demo_claim : Claim := mk_claim VMInstance.demo_claim (Some "default") {[ "kubernetes.io/os" := "linux" ]}.
Definition demo_type : InstanceType := mk_instance_type "Standard_D2s_v3" "linux" [].

(** A cluster whose NodeClass has the given readiness, whose claims are
    launched at the second look, and that has one machine and one VM. *)
Definition demo_world (ready : ConditionStatus) (h : list (event (@resp string unit map_conditions))) (q : @req string) :
    @resp string unit map_conditions q :=
  match q with
  | GetNodeClass _ => Ok (demo_class ready, false)
  | GetNodePool _ => Err "not found"
  | Publish _ _ => tt
  | ListInstanceTypes _ | ApplyAll _ _ => Ok [demo_type]
  | Apply _ t => Ok t
  | Vm q => VMInstance.demo_azure true [] q
  | ListVMs => Ok [VirtualMachines.mk_vm (Some "id") (Some "aks-default-2jf98") None None [] ∅ None]
  | BeginCreateMachine _ => Err "no"
  | WaitMachine _ => Some "allocation failed"
  | CleanupMachine _ => None
  | GetMachine _ => Err "no"
  | ListMachines _ => Ok [AKSMachine.demo_machine]
  | DeleteMachine _ _ => None
  | GetClaim _ => Ok (Nat.leb 3 (length h))
  | DeleteClaim _ => Ok tt
  | Sleep => false
  | Now => 9
  end.
Definition not_found (e : string) : bool := e ==? "not found".
Definition demo_create (ready : ConditionStatus) :=
  run (demo_world ready)
    (Create demo_options VMInstance.demo_settings not_found (fun _ => None) (fun e => e) (fun _ => None) (fun _ => None)
       (fun _ => ∅) (fun _ => false) (fun _ => ∅) (fun _ => ∅) not_found (fun _ => "failed") (fun _ => None) (fun e => e)
       (fun _ _ => true) (fun s => Drift.hs_other s) false demo_claim) [].

Lemma create_refused_in_time_witness :
  (demo_create CFalse).1 = Failed (NodeClassNotReadyError "images are not ready") /\ quiet (demo_create CFalse).2 /\
  exists k, resolved demo_claim k (demo_create CFalse).2.
Proof.
  assert (R : (demo_create CFalse).1 = Failed (NodeClassNotReadyError "images are not ready")) by (vm_compute; reflexivity).
  destruct (create_refused_in_time demo_options VMInstance.demo_settings not_found (fun _ => None) (fun e => e) (fun _ => None)
    (fun _ => None) (fun _ => ∅) (fun _ => false) (fun _ => ∅) (fun _ => ∅) not_found (fun _ => "failed") (fun _ => None)
    (fun e => e) (fun _ _ => true) (fun s => Drift.hs_other s) false (demo_world CFalse) demo_claim _ _ (run_outcome _ _ _ R))
    as [_ (Q & k & Rk & _)].
  split; [exact R|]. split; [exact Q|]. exists k. exact Rk.
Defined.


Lemma failed_launch_followed_up_witness :
  exists polls : list (event (@resp string unit map_conditions)), (length polls <= 3)%nat /\
    map asked (run (demo_world CTrue) (follow_up not_found 2 (machine_promise "default-2jf98") "default-2jf98") []).2 =
      WaitMachine "default-2jf98" :: map asked polls ++
      [Publish NodeClaimFailedToRegister "default-2jf98"; CleanupMachine "default-2jf98"; DeleteClaim "default-2jf98"].
Proof.
  destruct (failed_launch_followed_up not_found (demo_world CTrue) (machine_promise "default-2jf98") "default-2jf98" 1 [])
    as (polls & L & _ & R).
  { intros h' Lh. simpl in *. by rewrite Lh. }
  exists polls. split; [exact L|]. rewrite R. simpl. rewrite !map_app. simpl. by rewrite <- !app_assoc.
Defined.

Lemma list_complete_witness :
  exists ncs, (run (demo_world CTrue) (list_claims (fun _ => ∅) (fun _ => ∅) (fun _ => ∅) not_found false "WestUS2" false) []).1 = Done ncs /\
    exists ms vs, Forall2 (of_machine (fun _ => ∅) (fun _ => ∅) (fun _ => ∅) "WestUS2") ms (take (length ms) ncs) /\
      Forall2 (of_vm (fun _ => ∅) (fun _ => ∅) (fun _ => ∅)) vs (drop (length ms) ncs).
Proof.
  assert (D : match (run (demo_world CTrue) (list_claims (fun _ => ∅) (fun _ => ∅) (fun _ => ∅) not_found false "WestUS2" false) []).1 with
    Done _ => true | _ => false end = true) by (vm_compute; reflexivity).
  destruct ((run (demo_world CTrue) (list_claims (fun _ => ∅) (fun _ => ∅) (fun _ => ∅) not_found false "WestUS2" false) []).1)
    as [ncs|e|] eqn:R; [|discriminate D..].
  destruct (list_complete (fun _ => ∅) (fun _ => ∅) (fun _ => ∅) not_found false "WestUS2" (demo_world CTrue) false ncs _ (run_outcome _ _ _ R))
    as (ms & vs & mcs & vcs & _ & _ & -> & Fm & Fv).
  exists (mcs ++ vcs). split; [reflexivity|]. exists ms, vs. pose proof (Forall2_length _ _ _ Fm) as ->.
  rewrite take_app_length, drop_app_length. by split.
Defined.

Lemma get_asks_its_provider_witness :
  (exists r rest, (run (demo_world CTrue) (Get demo_options not_found (fun _ => ∅) (fun _ => ∅) (fun _ => ∅) not_found false "WestUS2"
      "azure:///subscriptions/s/resourceGroups/rg/providers/Microsoft.Compute/virtualMachines/aks-default-2jf98") []).2 =
    existT (P := @resp string unit map_conditions) (Vm (VMInstance.GetVM "aks-default-2jf98")) r :: rest) /\
  exists r rest, (run (demo_world CTrue) (Get demo_options not_found (fun _ => ∅) (fun _ => ∅) (fun _ => ∅) not_found false "WestUS2"
      "azure:///subscriptions/s/resourceGroups/rg/providers/Microsoft.Compute/virtualMachines/aks-pool-np-a1b2c-12345678-vm") []).2 =
    existT (P := @resp string unit map_conditions) (GetMachine "np-a1b2c") r :: rest.
Proof.
  split.
  - refine (proj1 (get_asks_its_provider demo_options not_found (fun _ => ∅) (fun _ => ∅) (fun _ => ∅) not_found false "WestUS2"
      (demo_world CTrue) _ "aks-default-2jf98" _) "default" "2jf98" _ _ _); [vm_compute; reflexivity|reflexivity|discriminate|reflexivity].
  - refine (proj2 (get_asks_its_provider demo_options not_found (fun _ => ∅) (fun _ => ∅) (fun _ => ∅) not_found false "WestUS2"
      (demo_world CTrue) _ "aks-pool-np-a1b2c-12345678-vm" _) "np-a1b2c" "12345678" _ _); [vm_compute; reflexivity|reflexivity|reflexivity].
Defined.

End CloudProvider.
