(* ===== verification/Resources.v ===== *)
(** * Resources of an instance type ([pkg/providers/instancetype/instancetype.go],
      [pkg/providers/instancetype/nodehardening.go])

    What a node of a SKU has, what AKS keeps for itself, and the memory and
    storage below which the kubelet evicts.  A [resource.Quantity] is a number
    of [10^-9] units; [Value] rounds up.  [int64] arithmetic wraps and floats
    are those of [GoFloat]. *)

From S2P Require Import Prelude GoString GoFloat.
#[local] Open Scope string_scope.
#[local] Open Scope Z_scope.

Module Resources.
Import GoFloat.

(** ** Quantities *)

Definition Quantity : Type := Z.
Definition nano : Z := 10 ^ 9.
Definition NewQuantity (n : Z) : Quantity := n * nano.
Definition NewMilliQuantity (n : Z) : Quantity := n * 10 ^ 6.
Definition Value (q : Quantity) : Z := - (- q / nano).

Definition ResourceCPU : string := "cpu".
Definition ResourceMemory : string := "memory".
Definition ResourceEphemeralStorage : string := "ephemeral-storage".
Definition ResourcePods : string := "pods".
Abbreviation ResourceList := (gmap string Quantity).
(** Reading a missing resource gives zero. *)
Definition resource_of (l : ResourceList) (name : string) : Quantity := default 0 (l !! name).

(** ** Constants *)

Definition MemoryAvailable : string := "memory.available".
Definition DefaultMemoryAvailable : Quantity := NewQuantity (100 * 2 ^ 20).
Definition systemReservedBaseMiB : Z := 200.
Definition systemReservedPerStepMiB : Z := 100.
Definition systemReservedStepGiB : Z := 32.
Definition systemReservedCNIBonusMiB : Z := 100.
Definition systemReservedCPUMillicores : Z := 100.
Definition bytesPerMiB : Z := 1024 * 1024.
Definition systemReservedEphemeralStorage : Quantity := NewQuantity (2 ^ 30).
Definition NodeFSAvailable : string := "nodefs.available".
Definition hardEvictionNodeFSAvailablePercent : Z := 10.
Definition NetworkPluginAzure : string := "azure".

(** ** The CPU reserve *)

Record TaxBracket := mk_bracket { UpperBound : float64; Rate : float64 }.
Definition TaxBrackets : Type := list TaxBracket.
Definition reservedCPUTaxVCPU : TaxBrackets := [
  mk_bracket (of_int 1) (literal 6 100);
  mk_bracket (of_int 2) (literal 4 100);
  mk_bracket (of_int 4) (literal 2 100);
  mk_bracket MaxFloat64 (literal 1 100)
].

(** One bracket: the tax so far and the lower bound. *)
Definition tax_step (amount : float64) (acc : float64 * float64) (bracket : TaxBracket) : float64 * float64 :=
  let '(tax, lower) := acc in
  if ltb amount lower then acc
  else
    let upper := if ltb amount (UpperBound bracket) then amount else UpperBound bracket in
    (add tax (mul (sub upper lower) (Rate bracket)), UpperBound bracket).
Definition Calculate (t : TaxBrackets) (amount : float64) : float64 :=
  (fold_left (tax_step amount) t (of_int 0, of_int 0)).1.

Definition reservedCPUMilli (vcpus : Z) : Z :=
  to_int64 (mul (of_int 1000) (Calculate reservedCPUTaxVCPU (of_int vcpus))).

(** ** The memory reserves *)

(** Go's division truncates. *)
Definition hardenedKubeReservedMemoryMiB (maxPods totalMemoryMiB : Z) : Z :=
  let capMiB := Z.quot totalMemoryMiB 4 in
  let reservedMiB := i64 (i64 (35 * maxPods) + Z.max (Z.quot (i64 (totalMemoryMiB * 2)) 100) 250) in
  Z.min reservedMiB capMiB.

Definition systemReservedMemoryMiB (totalMemoryMiB : Z) (isAzureCNI : bool) : Z :=
  let steps := Z.quot totalMemoryMiB (systemReservedStepGiB * 1024) in
  let mem := i64 (systemReservedBaseMiB + i64 (steps * systemReservedPerStepMiB)) in
  if isAzureCNI then i64 (mem + systemReservedCNIBonusMiB) else mem.

(** Soft and hard eviction. *)
Definition evictionMemoryLadder (totalMemoryMiB : Z) : Z * Z :=
  if 32 * 1024 <=? totalMemoryMiB then (1024, 512)
  else if 8 * 1024 <? totalMemoryMiB then (750, 375)
  else (500, 250).

(** ** Capacity *)

Definition memoryMiB (memoryGiB : float64) : Z := to_int64 (mul memoryGiB (of_int 1024)).
Definition CalculateMemoryWithoutOverhead (vmMemoryOverheadPercent skuMemoryGiB : float64) : Quantity :=
  let memory := NewQuantity (to_int64 skuMemoryGiB * 2 ^ 30) in
  memory - NewQuantity (ceil_int64 (mul (of_int (Value memory)) vmMemoryOverheadPercent)).

(** ** Overhead *)

Definition SystemReservedResources (totalMemoryMiB : Z) (networkPlugin : string) (enableNodeHardening : bool) :
    ResourceList :=
  if negb enableNodeHardening then {[ ResourceCPU := 0; ResourceMemory := 0 ]}
  else {[
    ResourceCPU := NewMilliQuantity systemReservedCPUMillicores;
    ResourceMemory := NewQuantity
      (i64 (systemReservedMemoryMiB totalMemoryMiB (networkPlugin ==? NetworkPluginAzure) * bytesPerMiB));
    ResourceEphemeralStorage := systemReservedEphemeralStorage
  ]}.

Section Overrides.
(** [resource.ParseQuantity] and [strconv.ParseFloat], [None] for an error. *)
Variable ParseQuantity : string -> option Quantity.
Variable ParseFloat : string -> option float64.

Definition apply_override (overrides : gmap string string) (l : ResourceList) (name : string) : ResourceList :=
  match overrides !! name with
  | Some value => match ParseQuantity value with Some q => <[name := q]> l | None => l end
  | None => l
  end.

Definition KubeReservedResources (vcpus totalMemoryMiB maxPods : Z) (enableNodeHardening : bool)
    (overrides : gmap string string) : ResourceList :=
  let reservedMemoryMiB :=
    if enableNodeHardening then hardenedKubeReservedMemoryMiB maxPods totalMemoryMiB
    else Z.min (i64 (i64 (20 * maxPods) + 50)) (Z.quot totalMemoryMiB 4) in
  fold_left (apply_override overrides) [ResourceCPU; ResourceMemory] {[
    ResourceCPU := NewMilliQuantity (reservedCPUMilli vcpus);
    ResourceMemory := NewQuantity (i64 (reservedMemoryMiB * bytesPerMiB))
  ]}.

(** The fraction a percentage of [0, 100] gives. *)
Definition percent_override (value : string) : option float64 :=
  match ParseFloat (TrimSuffix value "%") with
  | Some p => if negb (is_nan p) && leb (of_int 0) p && leb p (of_int 100)
              then Some (div32 (to_float32 p) (of_int 100)) else None
  | None => None
  end.

Definition memoryEvictionThreshold (totalMemoryMiB : Z) (enableNodeHardening : bool)
    (overrides : gmap string string) : Quantity :=
  let memory :=
    if enableNodeHardening then NewQuantity ((evictionMemoryLadder totalMemoryMiB).2 * bytesPerMiB)
    else DefaultMemoryAvailable in
  match overrides !! MemoryAvailable with
  | None => memory
  | Some value =>
      if HasSuffix value "%" then
        match percent_override value with
        | Some p => NewQuantity (to_int64 (mul (of_int (i64 (totalMemoryMiB * bytesPerMiB))) p))
        | None => memory
        end
      else match ParseQuantity value with Some q => q | None => memory end
  end.

Definition ephemeralStorageEvictionThreshold (capacity : Quantity) (overrides : gmap string string) : Quantity :=
  let storageBytes := to_int64 (mul (of_int (Value capacity))
                        (div32 (to_float32 (of_int hardEvictionNodeFSAvailablePercent)) (of_int 100))) in
  NewQuantity
    (match overrides !! NodeFSAvailable with
     | None => storageBytes
     | Some value =>
         if HasSuffix value "%" then
           match percent_override value with
           | Some p => to_int64 (mul (of_int (Value capacity)) p)
           | None => storageBytes
           end
         else match ParseQuantity value with Some q => Value q | None => storageBytes end
     end).

Definition EvictionThreshold (totalMemoryMiB : Z) (capacity : Quantity) (enableNodeHardening : bool)
    (overrides : gmap string string) : ResourceList :=
  {[ ResourceMemory := memoryEvictionThreshold totalMemoryMiB enableNodeHardening overrides;
     ResourceEphemeralStorage := ephemeralStorageEvictionThreshold capacity overrides ]}.
End Overrides.

Definition SoftEvictionThreshold (totalMemoryMiB : Z) : ResourceList :=
  {[ ResourceMemory := NewQuantity ((evictionMemoryLadder totalMemoryMiB).1 * bytesPerMiB) ]}.

(** ** Reserves *)

(** The documented reserve: 6% of the first core, 4% of the second, 2% of the
    next two and 1% of the others, in millicores. *)
Definition documentedCPUMilli (vcpus : Z) : Z :=
  if vcpus <=? 1 then 60 * vcpus
  else if vcpus <=? 2 then 60 + 40 * (vcpus - 1)
  else if vcpus <=? 4 then 100 + 20 * (vcpus - 2)
  else 140 + 10 * (vcpus - 4).

Definition cpu_test (vcpus : Z) : bool :=
  let d := documentedCPUMilli vcpus - reservedCPUMilli vcpus in
  (0 <=? d) && (d <=? if vcpus <=? 100 then 0 else 1).

(** A finite range is checked value by value. *)
Fixpoint all_from (n : nat) (start : Z) (p : Z -> bool) : bool :=
  match n with O => true | S n => p start && all_from n (start + 1) p end.
Lemma all_from_spec n start p x : all_from n start p = true -> start <= x < start + Z.of_nat n -> p x = true.
Proof.
  revert start. induction n as [|n IH]; intros start A R; [lia|]. cbn in A. apply andb_true_iff in A as [P A].
  destruct (decide (x = start)) as [->|]; [done|]. apply (IH (start + 1)); [done|lia].
Qed.

(** The CPU reserved for the kubelet is the documented tiered reserve: to
    the millicore up to 100 cores, and never more, nor less by more than one
    millicore, up to 1024 cores. *)
Theorem cpu_reserve_documented vcpus :
  0 <= vcpus <= 1024 ->
  reservedCPUMilli vcpus <= documentedCPUMilli vcpus <= reservedCPUMilli vcpus + 1 /\
  (vcpus <= 100 -> reservedCPUMilli vcpus = documentedCPUMilli vcpus).
Proof.
  intros R. assert (T : cpu_test vcpus = true).
  { apply (all_from_spec 1025 0); [vm_compute; reflexivity|lia]. }
  unfold cpu_test in T. apply andb_true_iff in T as [L U]. destruct (Z.leb_spec vcpus 100); lia.
Qed.
Lemma cpu_reserve_documented_witness :
  reservedCPUMilli 16 = 260 /\ reservedCPUMilli 120 = 1299 /\ documentedCPUMilli 120 = 1300 /\
  (reservedCPUMilli 120 <= documentedCPUMilli 120 <= reservedCPUMilli 120 + 1 /\
   (120 <= 100 -> reservedCPUMilli 120 = documentedCPUMilli 120)).
Proof.
  split; [by vm_compute|]. split; [by vm_compute|]. split; [by vm_compute|].
  apply (cpu_reserve_documented 120). lia.
Defined.

(** ** What is left for pods *)

Definition memory_test (quarters : Z) : bool :=
  let m := memoryMiB (literal quarters 4) in
  (m =? 256 * quarters) &&
  (0 <? CalculateMemoryWithoutOverhead (literal 75 1000) (literal quarters 4) -
        NewQuantity ((Z.quot m 4 + systemReservedMemoryMiB m true + (evictionMemoryLadder m).2) * bytesPerMiB)).

Lemma memory_test_ok quarters : 8 <= quarters < 520 -> memory_test quarters = true.
Proof. intros R. apply (all_from_spec 512 8); [vm_compute; reflexivity|lia]. Qed.

(** Both reserve formulas stay within a quarter of the memory. *)
Lemma kube_reserved_quarter PQ vcpus m maxPods hardened :
  0 <= m < 2 ^ 40 -> int32_ok maxPods ->
  resource_of (KubeReservedResources PQ vcpus m maxPods hardened ∅) ResourceMemory <=
  NewQuantity (Z.quot m 4 * bytesPerMiB).
Proof.
  intros M P. unfold int32_ok in P.
  assert (Q : 0 <= Z.quot m 4 < 2 ^ 38).
  { rewrite Z.quot_div_nonneg by lia. split; [apply Z.div_pos; lia|apply Z.div_lt_upper_bound; lia]. }
  unfold KubeReservedResources, resource_of, hardenedKubeReservedMemoryMiB.
  cbn [fold_left]. unfold apply_override. rewrite !lookup_empty. cbv beta iota.
  rewrite lookup_insert_ne, lookup_singleton_eq by done. unfold default, from_option, id.
  rewrite (i64_id (m * 2)) by (unfold int64_ok; lia).
  assert (U : 0 <= Z.quot (m * 2) 100 < 2 ^ 40).
  { rewrite Z.quot_div_nonneg by lia. split; [apply Z.div_pos; lia|apply Z.div_lt_upper_bound; lia]. }
  rewrite (i64_id (35 * maxPods)), (i64_id (20 * maxPods)), (i64_id (20 * maxPods + 50)) by (unfold int64_ok; lia).
  rewrite (i64_id (35 * maxPods + _)) by (unfold int64_ok; lia).
  unfold NewQuantity, nano, bytesPerMiB. rewrite i64_id by (unfold int64_ok; destruct hardened; lia).
  destruct hardened; lia.
Qed.

Lemma system_reserved_most m plugin hardened :
  0 <= m < 2 ^ 40 ->
  resource_of (SystemReservedResources m plugin hardened) ResourceMemory <=
  NewQuantity (systemReservedMemoryMiB m true * bytesPerMiB).
Proof.
  intros M. assert (U : 0 <= Z.quot m (32 * 1024) < 2 ^ 26).
  { rewrite Z.quot_div_nonneg by lia. split; [apply Z.div_pos; lia|apply Z.div_lt_upper_bound; lia]. }
  unfold SystemReservedResources, resource_of, systemReservedMemoryMiB, systemReservedStepGiB,
    systemReservedBaseMiB, systemReservedPerStepMiB, systemReservedCNIBonusMiB, NewQuantity, nano, bytesPerMiB.
  destruct hardened; cbn [negb].
  - rewrite lookup_insert_ne, lookup_insert_eq by done. unfold default, from_option, id.
    rewrite !(i64_id (_ * 100)), !(i64_id (200 + _)), !(i64_id (200 + _ + 100)) by (unfold int64_ok; lia).
    rewrite i64_id by (unfold int64_ok; case_match; lia). case_match; lia.
  - rewrite lookup_insert_ne, lookup_singleton_eq by done. unfold default, from_option, id.
    rewrite !(i64_id (_ * 100)), !(i64_id (200 + _)), !(i64_id (200 + _ + 100)) by (unfold int64_ok; lia). lia.
Qed.

Lemma memory_eviction_most PQ PF m hardened :
  memoryEvictionThreshold PQ PF m hardened ∅ <= NewQuantity ((evictionMemoryLadder m).2 * bytesPerMiB).
Proof.
  unfold memoryEvictionThreshold. rewrite lookup_empty. destruct hardened; [lia|].
  unfold DefaultMemoryAvailable, evictionMemoryLadder, NewQuantity, nano, bytesPerMiB. repeat case_match; cbn; lia.
Qed.

(** What the scheduler may place on a node. *)
Definition allocatable_memory (PQ : string -> option Quantity) (PF : string -> option float64)
    (overhead memoryGiB : float64) (storage : Quantity) (vcpus maxPods : Z) (networkPlugin : string)
    (hardened : bool) : Quantity :=
  let m := memoryMiB memoryGiB in
  CalculateMemoryWithoutOverhead overhead memoryGiB
  - resource_of (KubeReservedResources PQ vcpus m maxPods hardened ∅) ResourceMemory
  - resource_of (SystemReservedResources m networkPlugin hardened) ResourceMemory
  - resource_of (EvictionThreshold PQ PF m storage hardened ∅) ResourceMemory.

(** With the default VM memory overhead of 7.5%, a node of 2 to 128 GiB (in
    quarters of a GiB) has memory left for pods after all the reserves and the
    eviction threshold, whatever its pod limit, cores and network plugin,
    hardened or not. *)
Theorem allocatable_memory_positive PQ PF quarters storage vcpus maxPods networkPlugin hardened :
  8 <= quarters < 520 -> int32_ok maxPods ->
  0 < allocatable_memory PQ PF (literal 75 1000) (literal quarters 4) storage vcpus maxPods networkPlugin hardened.
Proof.
  intros R P. pose proof (memory_test_ok quarters R) as T. unfold memory_test in T.
  apply andb_true_iff in T as [M T]. apply Z.eqb_eq in M. apply Z.ltb_lt in T.
  unfold allocatable_memory, EvictionThreshold, resource_of at 3. rewrite lookup_insert_eq. unfold default, from_option, id.
  pose proof (kube_reserved_quarter PQ vcpus (memoryMiB (literal quarters 4)) maxPods hardened) as K.
  pose proof (system_reserved_most (memoryMiB (literal quarters 4)) networkPlugin hardened) as S.
  pose proof (memory_eviction_most PQ PF (memoryMiB (literal quarters 4)) hardened) as V.
  specialize (K ltac:(lia) P). specialize (S ltac:(lia)).
  set (c := CalculateMemoryWithoutOverhead _ _) in *. set (m := memoryMiB _) in *.
  unfold NewQuantity in *. unfold nano, bytesPerMiB in *. lia.
Qed.
Lemma allocatable_memory_positive_witness :
  memoryMiB (literal 14 4) = 3584 /\
  0 < allocatable_memory (fun _ => None) (fun _ => None) (literal 75 1000) (literal 14 4) 0 2 110 "azure" true.
Proof. split; [by vm_compute|]. apply allocatable_memory_positive; [lia|]. unfold int32_ok. lia. Defined.

End Resources.
