(* ===== verification/Pricing.v ===== *)
(** * Prices ([pkg/providers/pricing/pricing.go], [pkg/providers/pricing/client])

    On-demand and spot prices of the VM sizes: static ones at first, replaced
    by those of Azure's retail price list at each successful update.  Prices
    are in the unit of [Cloud.Offering].  The pages of the list are the answers
    of the HTTP calls, in order; the static tables are generated code and so
    parameters. *)

From S2P Require Import Prelude GoString GoSort.
#[local] Open Scope string_scope.
#[local] Open Scope list_scope.
#[local] Open Scope Z_scope.

Module Pricing.

(** ** The price list ([client]) *)

(** The fields of an item the program reads, and its meter, which tells items
    apart. *)
Record Item := mk_item {
  MeterID : string; ProductName : string; MeterName : string; SkuName : string; ArmSkuName : string;
  RetailPrice : Z; EffectiveEndDate : Z
}.
#[export] Instance Item_eq_dec : EqDecision Item.
Proof. solve_decision. Defined.

Record Filter := mk_filter { Field : string; Operator : string; FilterValue : string }.
Definition Equals : string := "eq".
Definition filter_String (f : Filter) : string :=
  Field f +:+ " " +:+ Operator f +:+ " '" +:+ FilterValue f +:+ "'".
Definition query (filters : list Filter) : string := GoString.Join (map filter_String filters) " and ".

(** A page, and the address of the next one. *)
Record ProductsPricePage := mk_page { Items : list Item; NextPageLink : string }.

Section Fetch.
(** What a GET of an address gives: a decoded page or an error. *)
Variable http_get : string -> result string ProductsPricePage.
Variable pricingURL : string.
Variable QueryEscape : string -> string.

(** The loop over the pages: the handled pages and the error that ended it.
    [None]: there are more than [fuel] of them. *)
Fixpoint get_pages (fuel : nat) (nextURL : string) : option (list ProductsPricePage * option string) :=
  if nextURL ==? "" then Some ([], None)
  else
    match fuel with
    | O => None
    | S fuel =>
        match http_get nextURL with
        | Err e => Some ([], Some e)
        | Ok page =>
            match get_pages fuel (NextPageLink page) with
            | Some (pages, e) => Some (page :: pages, e)
            | None => None
            end
        end
    end.
Definition firstURL (filters : list Filter) : string :=
  match filters with [] => pricingURL | _ => pricingURL +:+ "&$filter=" +:+ QueryEscape (query filters) end.
Definition GetProductsPricePages (fuel : nat) (public : bool) (filters : list Filter) :
    option (list ProductsPricePage * option string) :=
  if negb public then Some ([], Some "pricing API is not supported in non-public clouds")
  else get_pages fuel (firstURL filters).

(** The pages a server links from an address on. *)
Inductive linked : string -> list ProductsPricePage -> option string -> Prop :=
| linked_end : linked "" [] None
| linked_error url e : url <> "" -> http_get url = Err e -> linked url [] (Some e)
| linked_page url page pages e : url <> "" -> http_get url = Ok page ->
    linked (NextPageLink page) pages e -> linked url (page :: pages) e.

(** Fuel for one more call than there are pages is enough, and what the loop
    gives is what the server links. *)
Lemma get_pages_enough url pages e fuel :
  linked url pages e -> (length pages < fuel)%nat -> get_pages fuel url = Some (pages, e).
Proof.
  intros L. revert fuel. induction L as [|url e N G|url page pages e N G L IH]; intros [|fuel] F; simpl in *; try lia; [done|..].
  - by rewrite bool_decide_eq_false_2, G.
  - rewrite bool_decide_eq_false_2, G by done. by rewrite IH by lia.
Qed.
Lemma get_pages_linked url pages e fuel : get_pages fuel url = Some (pages, e) -> linked url pages e.
Proof.
  revert url pages e. induction fuel as [|fuel IH]; intros url pages e; simpl; case_bool_decide as U.
  - intros [= <- <-]. rewrite U. constructor.
  - done.
  - intros [= <- <-]. rewrite U. constructor.
  - destruct (http_get url) as [page|e'] eqn:G; [|intros [= <- <-]; by apply linked_error].
    destruct (get_pages fuel (NextPageLink page)) as [[ps e']|] eqn:R; [|done].
    intros [= <- <-]. eapply linked_page; [done..|]. by apply IH.
Qed.
Lemma linked_fun url pages e pages' e' : linked url pages e -> linked url pages' e' -> pages = pages' /\ e = e'.
Proof.
  intros L L'. pose proof (get_pages_enough _ _ _ (S (length pages + length pages')) L ltac:(lia)) as G.
  rewrite (get_pages_enough _ _ _ _ L') in G by lia. by injection G as -> ->.
Qed.

(** The address a page was read from, and the one read next. *)
Definition follows (next url : string) : Prop :=
  url <> "" /\ exists page, http_get url = Ok page /\ next = NextPageLink page.

Lemma acc_linked url : Acc follows url -> exists pages e, linked url pages e.
Proof.
  induction 1 as [url _ IH]. destruct (decide (url = "")) as [->|N]; [repeat eexists; constructor|].
  destruct (http_get url) as [page|e] eqn:G; [|exists [], (Some e); by constructor].
  destruct (IH (NextPageLink page)) as (pages & e & L); [by split; [|exists page]|].
  exists (page :: pages), e. by constructor.
Qed.
Lemma linked_acc url pages e : linked url pages e -> Acc follows url.
Proof.
  induction 1 as [|url e N G|url page pages e N G _ IH]; constructor; intros next (N' & page' & G' & ->); [done|congruence|].
  rewrite G in G'. by injection G' as <-.
Qed.

(** The addresses read on the way are distinct. *)
Lemma linked_path urls url pages e :
  (forall url page, url ∈ urls -> http_get url = Ok page -> NextPageLink page = "" \/ NextPageLink page ∈ urls) ->
  linked url pages e -> url = "" \/ url ∈ urls -> exists path : list string, length path = length pages /\ NoDup path /\ path ⊆ urls /\
    forall v, v ∈ path -> exists pages' e', linked v pages' e' /\ (length pages' <= length pages)%nat.
Proof.
  intros C. induction 1 as [|url e N G|url page pages e N G L IH]; intros U; try by exists []; split_and!;
    [|constructor|apply list_subseteq_nil|intros v []%not_elem_of_nil].
  destruct U as [|U]; [done|]. destruct (IH (C _ _ U G)) as (path & Len & D & S & R).
  assert (LU : linked url (page :: pages) e) by by constructor.
  exists (url :: path). split_and!.
  - simpl. by rewrite Len.
  - constructor; [|done]. intros (pages' & e' & L' & B)%R. destruct (linked_fun _ _ _ _ _ LU L') as [<- _]. simpl in B. lia.
  - intros v [->|V]%elem_of_cons; [done|by apply S].
  - intros v [->|I]%elem_of_cons; [by exists (page :: pages), e|].
    destruct (R v I) as (pages' & e' & L' & B). exists pages', e'. simpl. split; [done|lia].
Qed.

(** C40. The query of the price list ends exactly when the links of its pages
    do not go round: it then returns the linked pages up to the end or the
    first error, and it has asked the server at most once for each address the
    server links; more iterations change nothing. *)
Theorem price_query_terminates urls filters :
  (forall url page, url ∈ urls -> http_get url = Ok page -> NextPageLink page = "" \/ NextPageLink page ∈ urls) ->
  firstURL filters ∈ urls ->
  ((exists fuel r, GetProductsPricePages fuel true filters = Some r) <-> Acc follows (firstURL filters)) /\
  (Acc follows (firstURL filters) ->
   exists pages e, linked (firstURL filters) pages e /\ (length pages <= length urls)%nat /\
     forall fuel, (length urls < fuel)%nat -> GetProductsPricePages fuel true filters = Some (pages, e)).
Proof.
  intros C I. split; [split|].
  - intros (fuel & [pages e] & G%get_pages_linked). by eapply linked_acc.
  - intros (pages & e & L)%acc_linked. exists (S (length pages)), (pages, e). by apply get_pages_enough; [|lia].
  - intros (pages & e & L)%acc_linked. destruct (linked_path _ _ _ _ C L (or_intror I)) as (path & Len & D & S & _).
    assert (B : (length pages <= length urls)%nat).
    { rewrite <- Len. by apply submseteq_length, NoDup_submseteq. }
    exists pages, e. split_and!; [done..|]. intros fuel F. by apply get_pages_enough; [|lia].
Qed.
End Fetch.

(** ** Categorizing *)

Definition skipped (fetchTime : Z) (i : Item) : bool :=
  (HasSuffix (ProductName i) " Windows" || HasSuffix (ProductName i) " Win" ||
   HasSuffix (ProductName i) " Windows VM") ||
  (negb (IsZero (EffectiveEndDate i)) && (EffectiveEndDate i <? fetchTime)) ||
  HasSuffix (MeterName i) " Low Priority" ||
  (HasSuffix (ProductName i) " Cloud Services" || HasSuffix (ProductName i) " CloudServices").

(** The set of items, each once, in the order they came. *)
Definition processPage (fetchTime : Z) (prices : list Item) (page : ProductsPricePage) : list Item :=
  fold_left (fun prices i => if skipped fetchTime i || bool_decide (i ∈ prices) then prices else prices ++ [i])
    (Items page) prices.

Definition is_spot (i : Item) : bool := HasSuffix (SkuName i) " Spot".
Definition categorize (acc : gmap string Z * gmap string Z) (i : Item) : gmap string Z * gmap string Z :=
  if is_spot i then (acc.1, <[ArmSkuName i := RetailPrice i]> acc.2)
  else (<[ArmSkuName i := RetailPrice i]> acc.1, acc.2).
(** The set is ranged over in any order. *)
Definition categorizePrices `{GoShuffle} (prices : list Item) : gmap string Z * gmap string Z :=
  fold_left categorize (Shuffle 0 prices) (∅, ∅).

Definition filters (region : string) : list Filter := [
  mk_filter "priceType" Equals "Consumption"; mk_filter "currencyCode" Equals "USD";
  mk_filter "serviceFamily" Equals "Compute"; mk_filter "serviceName" Equals "Virtual Machines";
  mk_filter "armRegionName" Equals region
].

(** ** The provider *)

Definition defaultRegion : string := "eastus".
Definition MissingPrice : Z := 999 * 2 ^ 1074.

Record Provider := mk_provider {
  region : string;
  onDemandUpdateTime : Z; onDemandPrices : gmap string Z;
  spotUpdateTime : Z; spotPrices : gmap string Z
}.

(** What the price list answers: the pages until the end or an error. *)
Definition answer : Type := list ProductsPricePage * option string.

Section WithTables.
Context `{GoShuffle}.
Variable initialOnDemandPrices : gmap string (gmap string Z).
Variable InitialPriceUpdate : Z.

Definition staticPricing (region : string) : gmap string Z :=
  match initialOnDemandPrices !! region with
  | Some prices => prices
  | None => default ∅ (initialOnDemandPrices !! defaultRegion)
  end.
Definition NewProvider (region : string) : Provider :=
  mk_provider region InitialPriceUpdate (staticPricing region) InitialPriceUpdate (staticPricing region).
Definition Reset (p : Provider) : Provider := NewProvider (region p).
Definition Regions : gset string := dom initialOnDemandPrices.

Definition InstanceTypes (p : Provider) : gset string := dom (onDemandPrices p) ∪ dom (spotPrices p).
Definition OnDemandPrice (p : Provider) (instanceType : string) : Z * bool :=
  match onDemandPrices p !! instanceType with Some price => (price, true) | None => (MissingPrice, false) end.
Definition SpotPrice (p : Provider) (instanceType : string) : Z * bool :=
  match spotPrices p !! instanceType with Some price => (price, true) | None => (MissingPrice, false) end.

Definition FetchPricing (fetchTime : Z) (a : answer) : result string (gmap string Z * gmap string Z) :=
  match a.2 with
  | Some e => Err e
  | None => Ok (categorizePrices (fold_left (processPage fetchTime) a.1 []))
  end.

(** [cancelled]: the context is done, before the update or at its error. *)
Definition updatePricing (cancelled : bool) (now : Z) (a : answer) (p : Provider) : Provider :=
  if cancelled then p
  else
    match FetchPricing now a with
    | Err _ => p
    | Ok (onDemand, spot) =>
        let p := if bool_decide (onDemand = ∅) then p
                 else mk_provider (region p) now onDemand (spotUpdateTime p) (spotPrices p) in
        if bool_decide (spot = ∅) then p
        else mk_provider (region p) (onDemandUpdateTime p) (onDemandPrices p) now spot
    end.

(** ** Every quoted price comes from the list *)

(** An item of a page of the list that gives a size its price. *)
Definition prices_of (now : Z) (a : answer) (spot : bool) (size : string) (price : Z) : Prop :=
  a.2 = None /\ exists page i, page ∈ a.1 /\ i ∈ Items page /\ skipped now i = false /\
    is_spot i = spot /\ ArmSkuName i = size /\ RetailPrice i = price.

Lemma process_page_elem t prices page i :
  i ∈ processPage t prices page <-> i ∈ prices \/ (i ∈ Items page /\ skipped t i = false).
Proof.
  unfold processPage. generalize (Items page) as l. intros l. revert prices.
  induction l as [|j l IH]; intros prices; simpl.
  - rewrite elem_of_nil. naive_solver.
  - rewrite IH, elem_of_cons. destruct (skipped t j) eqn:S; simpl; [naive_solver congruence|].
    case_bool_decide as B; [naive_solver|]. rewrite elem_of_app, list_elem_of_singleton. naive_solver.
Qed.

Lemma process_pages_elem t pages prices i :
  i ∈ fold_left (processPage t) pages prices <->
  i ∈ prices \/ exists page, page ∈ pages /\ i ∈ Items page /\ skipped t i = false.
Proof.
  revert prices. induction pages as [|p ps IH]; intros prices; simpl.
  - split; [by left|]. intros [?|(page & N & _)]; [done|by apply not_elem_of_nil in N].
  - rewrite IH, process_page_elem. setoid_rewrite elem_of_cons. naive_solver.
Qed.

(** The last item of a kind and a size sets its price. *)
Lemma categorize_lookup l acc spot size :
  let m := fold_left categorize l acc in
  let sel := fun m : gmap string Z * gmap string Z => if spot : bool then m.2 else m.1 in
  (exists i, i ∈ l /\ is_spot i = spot /\ ArmSkuName i = size /\ sel m !! size = Some (RetailPrice i)) \/
  (sel m !! size = sel acc !! size /\ forall i, i ∈ l -> is_spot i = spot -> ArmSkuName i <> size).
Proof.
  revert acc. induction l as [|j l IH]; intros acc; simpl.
  - right. split; [done|]. intros i N. by apply not_elem_of_nil in N.
  - destruct (IH (categorize acc j)) as [(i & Hi & Es & Ea & El)|[El N]].
    + left. exists i. split; [by right|]. done.
    + destruct (decide (is_spot j = spot /\ ArmSkuName j = size)) as [[Es Ea]|D].
      * left. exists j. split; [left|]. split; [done|]. split; [done|]. cbn in El. rewrite El.
        unfold categorize. rewrite Es. destruct spot; cbn; by rewrite Ea, lookup_insert_eq.
      * right. split.
        -- cbn in El. rewrite El. unfold categorize. destruct (is_spot j) eqn:Ej, spot; cbn; try done;
             (rewrite lookup_insert_ne; [done|]); intros Ea; by apply D.
        -- intros i [->|Hi]%elem_of_cons; [intros Es Ea; by apply D|by apply N].
Qed.

Lemma fetched now a m spot size :
  FetchPricing now a = Ok m ->
  let sel := if spot : bool then m.2 else m.1 in
  (exists price, prices_of now a spot size price /\ sel !! size = Some price) \/
  (sel !! size = None /\ forall price, ~ prices_of now a spot size price).
Proof.
  unfold FetchPricing. destruct a.2 as [e|] eqn:A; [done|]. intros [= <-]. unfold categorizePrices.
  set (items := fold_left (processPage now) a.1 []).
  assert (I : forall i, i ∈ Shuffle 0 items <-> exists page, page ∈ a.1 /\ i ∈ Items page /\ skipped now i = false).
  { intros i. rewrite Shuffle_perm. unfold items. rewrite process_pages_elem, elem_of_nil. naive_solver. }
  pose proof (categorize_lookup (Shuffle 0 items) (∅, ∅) spot size) as C. cbn zeta in C.
  destruct C as [(i & Hi & Es & Ea & El)|[El N]]; cbn zeta.
  - left. exists (RetailPrice i). apply I in Hi as (page & Hp & Hi & Sk).
    split; [|by destruct spot]. split; [done|]. by exists page, i.
  - right. split; [by destruct spot|]. intros price (_ & page & i & Hp & Hi & Sk & Es & Ea & _).
    apply (N i); [|done..]. apply I. by exists page.
Qed.

(** The updates of a provider, each with its instant and answer. *)
Definition attempt : Type := bool * Z * answer.
Definition update_all (p : Provider) (l : list attempt) : Provider :=
  fold_left (fun p '(c, t, a) => updatePricing c t a p) l p.

Definition genuine (l : list attempt) (spot : bool) (initial : gmap string Z) (size : string) (price : Z) : Prop :=
  initial !! size = Some price \/ exists c t a, (c, t, a) ∈ l /\ c = false /\ prices_of t a spot size price.

Lemma update_genuine c t a p spot size price :
  let sel := fun p => if spot : bool then spotPrices p else onDemandPrices p in
  sel (updatePricing c t a p) !! size = Some price ->
  sel p !! size = Some price \/ (c = false /\ prices_of t a spot size price).
Proof.
  cbn zeta. unfold updatePricing. destruct c; [by left|].
  destruct (FetchPricing t a) as [[od sp]|e] eqn:F; [|by left].
  pose proof (fetched t a (od, sp) spot size F) as X. cbn in X.
  destruct spot; repeat case_bool_decide; cbn; intros L; try (by left);
    (destruct X as [(q & Q & Eq)|[N _]]; [right; split; [done|]; by simplify_eq|congruence]).
Qed.


End WithTables.

Definition demo_table : gmap string (gmap string Z) := {[ "eastus" := {[ "Standard_D2s_v5" := 96 ]} ]}.
Definition demo_item (spot : bool) (price : Z) : Item :=
  mk_item "m" "Virtual Machines Dsv5 Series" "D2s v5" (if spot then "D2s v5 Spot" else "D2s v5") "Standard_D2s_v5" price 0.
Definition demo_attempts : list attempt := [
  (false, 1, ([mk_page [demo_item false 95; demo_item true 20] ""], None));
  (false, 2, ([mk_page [demo_item false 1] ""], Some "500"));
  (true, 3, ([mk_page [demo_item false 2] ""], None));
  (false, 4, ([mk_page [demo_item false 94] ""], None))
].


(** Two pages, and two that link each other. *)
Definition demo_server (loops : bool) (url : string) : result string ProductsPricePage :=
  if url ==? "p1" then Ok (mk_page [demo_item false 95] "p2")
  else if url ==? "p2" then Ok (mk_page [] (if loops then "p1" else ""))
  else Err "404".

Lemma demo_closed loops url page : url ∈ ["p1"; "p2"] -> demo_server loops url = Ok page ->
  NextPageLink page = "" \/ NextPageLink page ∈ ["p1"; "p2"].
Proof.
  unfold demo_server. case_bool_decide; [intros _ [= <-]; right; right; left|].
  case_bool_decide; [|done]. intros _ [= <-]. destruct loops; [right; left|by left].
Qed.

Lemma price_query_terminates_witness :
  (exists pages e, linked (demo_server false) "p1" pages e /\ (length pages <= 2)%nat /\
     forall fuel, (2 < fuel)%nat -> GetProductsPricePages (demo_server false) "p1" id fuel true [] = Some (pages, e)) /\
  ~ Acc (follows (demo_server true)) "p1".
Proof.
  split.
  - destruct (price_query_terminates (demo_server false) "p1" id ["p1"; "p2"] []) as [T G];
      [by apply demo_closed|left|]. apply G, T. exists 3%nat. by eexists.
  - destruct (price_query_terminates (demo_server true) "p1" id ["p1"; "p2"] []) as [_ G];
      [by apply demo_closed|left|]. intros A. destruct (G A) as (pages & e & _ & _ & Q).
    by specialize (Q 3%nat (le_n 3)).
Defined.

End Pricing.
