(* ===== verification/NodeClassSpec.v ===== *)
(** * NodeClass settings ([pkg/apis/v1beta1/labels.go], [aksnodeclass.go],
      [pkg/providers/localdns], [pkg/utils/gpu.go], [pkg/utils/labels.go],
      [pkg/utils/sku])

    The fields of an AKSNodeClass the provisioning paths read beside those of
    [VirtualMachines] and [VMInstance], the effective settings they give, the
    label values of image families and GPU sizes, and LocalDNS on a given
    size.  Pointers are options; enumerations are strings. *)

From S2P Require Import Prelude GoString Cloud Zones AKSMachine VirtualMachines VMInstance.
#[local] Open Scope string_scope.
#[local] Open Scope list_scope.
#[local] Open Scope Z_scope.

Module NodeClassSpec.

(** ** Labels ([labels.go]) *)

Definition Group : string := "karpenter.azure.com".
Definition AKSLabelDomain : string := "kubernetes.azure.com".
Definition LabelSKUName : string := Group +:+ "/sku-name".
Definition LabelSKUFamily : string := Group +:+ "/sku-family".
Definition LabelSKUSeries : string := Group +:+ "/sku-series".
Definition LabelSKUVersion : string := Group +:+ "/sku-version".
Definition LabelSKUCPU : string := Group +:+ "/sku-cpu".
Definition LabelSKUMemory : string := Group +:+ "/sku-memory".
Definition AKSLabelCPU : string := AKSLabelDomain +:+ "/sku-cpu".
Definition AKSLabelMemory : string := AKSLabelDomain +:+ "/sku-memory".
Definition LabelSKUAcceleratedNetworking : string := Group +:+ "/sku-networking-accelerated".
Definition LabelSKUStoragePremiumCapable : string := Group +:+ "/sku-storage-premium-capable".
Definition LabelSKUStorageEphemeralOSMaxSize : string := Group +:+ "/sku-storage-ephemeralos-maxsize".
Definition LabelSKUGPUName : string := Group +:+ "/sku-gpu-name".
Definition LabelSKUGPUManufacturer : string := Group +:+ "/sku-gpu-manufacturer".
Definition LabelSKUGPUCount : string := Group +:+ "/sku-gpu-count".
Definition LabelSKUHyperVGeneration : string := Group +:+ "/sku-hyperv-generation".
Definition AKSLabelCluster : string := AKSLabelDomain +:+ "/cluster".
Definition AKSLabelMode : string := AKSLabelDomain +:+ "/mode".
Definition AKSLabelOSSKU : string := AKSLabelDomain +:+ "/os-sku".
Definition AKSLabelFIPSEnabled : string := AKSLabelDomain +:+ "/fips_enabled".
Definition AKSLabelKataVMIsolation : string := AKSLabelDomain +:+ "/kata-vm-isolation".
(** Kubernetes' own. *)
Definition LabelInstanceTypeStable : string := "node.kubernetes.io/instance-type".
Definition LabelArchStable : string := "kubernetes.io/arch".
Definition LabelOSStable : string := "kubernetes.io/os".
Definition LabelTopologyRegion : string := "topology.kubernetes.io/region".

Definition HyperVGenerationV1 : string := "1".
Definition HyperVGenerationV2 : string := "2".
Definition ManufacturerNvidia : string := "nvidia".
Definition ManufacturerAMD : string := "amd".
Definition ModeUser : string := "user".
Definition ModeSystem : string := "system".
Definition PriorityRegular : string := "regular".
Definition PrioritySpot : string := "spot".

Definition ArchitectureAmd64 : string := "amd64".
Definition ArchitectureArm64 : string := "arm64".
Definition AzureToKubeArchitectures : gmap string string :=
  {[ "x64" := ArchitectureAmd64; "Arm64" := ArchitectureArm64 ]}.
Definition getArchitecture (architecture : string) : string :=
  match AzureToKubeArchitectures !! architecture with Some v => v | None => architecture end.

(** ** Image families *)

Definition UbuntuImageFamily : string := "Ubuntu".
Definition Ubuntu2204ImageFamily : string := "Ubuntu2204".
Definition Ubuntu2404ImageFamily : string := "Ubuntu2404".
Definition AzureLinuxImageFamily : string := "AzureLinux".
Definition AzureContainerLinuxImageFamily : string := "AzureContainerLinux".
Definition Windows2022ImageFamily : string := "Windows2022".
Definition Windows2025ImageFamily : string := "Windows2025".
Definition UbuntuFamilies : list string := [UbuntuImageFamily; Ubuntu2204ImageFamily; Ubuntu2404ImageFamily].
Definition WindowsFamilies : list string := [Windows2022ImageFamily; Windows2025ImageFamily].
Definition imageFamilyToOSSKU : gmap string string := {[
  UbuntuImageFamily := "Ubuntu"; Ubuntu2204ImageFamily := "Ubuntu"; Ubuntu2404ImageFamily := "Ubuntu";
  AzureLinuxImageFamily := "AzureLinux"; Windows2022ImageFamily := "Windows2022";
  Windows2025ImageFamily := "Windows2025"; AzureContainerLinuxImageFamily := "AzureContainerLinux" ]}.

Definition GetOSSKUFromImageFamily (imageFamily : string) : string :=
  let imageFamily := if imageFamily ==? "" then UbuntuImageFamily else imageFamily in
  match imageFamilyToOSSKU !! imageFamily with Some s => s | None => imageFamily end.
Definition IsWindowsImageFamily (imageFamily : string) : bool := existsb (EqualFold imageFamily) WindowsFamilies.
Definition OSLinux : string := "linux".
Definition OSWindows : string := "windows".
Definition GetOSForImageFamily (imageFamily : string) : string :=
  if IsWindowsImageFamily imageFamily then OSWindows else OSLinux.

Definition aksLegacyLabels : list string := ["agentpool"; "storageprofile"; "storagetier"; "accelerator"].
Definition IsAKSLabel (label : string) : bool :=
  HasPrefix label (AKSLabelDomain +:+ "/") || bool_decide (label ∈ aksLegacyLabels).

(** The cluster label: at most 63 bytes, not ending in a separator. *)
Definition NormalizeClusterResourceGroupNameForLabel (resourceGroupName : string) : string :=
  let truncated := ReplaceAll (ReplaceAll resourceGroupName "(" "-") ")" "-" in
  let truncated := if Nat.ltb 63 (String.length truncated) then String.substring 0 63 truncated else truncated in
  if HasSuffix truncated "-" || HasSuffix truncated "_" || HasSuffix truncated "."
  then if Nat.ltb 62 (String.length truncated)
       then String.substring 0 (String.length truncated - 1) truncated +:+ "z"
       else truncated +:+ "z"
  else truncated.

(** ** The NodeClass *)

Record KubeReserved := mk_kube_reserved { CPUMillicores : option Z; MemoryMB : option Z }.
Record EvictionThreshold := mk_eviction {
  MemoryAvailable : option string; NodeFsAvailable : option string; NodeFsInodesFree : option string
}.
(** A [karpv1.NillableDuration], with the bytes it was read from. *)
Record NillableDuration := mk_duration { Duration : option Z; Raw : option string }.
Record EvictionSoftGracePeriod := mk_grace {
  gp_MemoryAvailable : option NillableDuration; gp_NodeFsAvailable : option NillableDuration;
  gp_NodeFsInodesFree : option NillableDuration
}.
Record KubeletConfiguration := mk_kubelet {
  CPUManagerPolicy : option string; CPUCFSQuota : option bool; CPUCFSQuotaPeriod : Z;
  ImageGCHighThresholdPercent : option Z; ImageGCLowThresholdPercent : option Z;
  TopologyManagerPolicy : option string; AllowedUnsafeSysctls : list string;
  ContainerLogMaxSize : option string; ContainerLogMaxFiles : option Z; PodPidsLimit : option Z;
  FailSwapOn : option bool; KubeReservedOf : option KubeReserved;
  EvictionHard : option EvictionThreshold; EvictionSoft : option EvictionThreshold;
  EvictionSoftGrace : option EvictionSoftGracePeriod; EvictionMaxPodGracePeriod : option Z
}.

Record LocalDNSZoneOverride := mk_zone_override {
  Zone : string; QueryLogging : string; Protocol : string; ForwardDestination : string; ForwardPolicy : string;
  MaxConcurrent : option Z; CacheDuration : NillableDuration; ServeStaleDuration : NillableDuration; ServeStale : string
}.
Record LocalDNS := mk_localdns {
  Mode : string; VnetDNSOverrides : list LocalDNSZoneOverride; KubeDNSOverrides : list LocalDNSZoneOverride
}.

(** [GPU_mode], and the management mode under [nvidia]. *)
Record GPU := mk_gpu { GPU_mode : option string; GPU_nvidia : option (option string) }.

Record SysctlConfiguration := mk_sysctl {
  FsAioMaxNr : option Z; FsFileMax : option Z; FsInotifyMaxUserWatches : option Z; FsNrOpen : option Z;
  KernelThreadsMax : option Z; NetCoreNetdevMaxBacklog : option Z; NetCoreOptmemMax : option Z;
  NetCoreRmemDefault : option Z; NetCoreRmemMax : option Z; NetCoreSomaxconn : option Z;
  NetCoreWmemDefault : option Z; NetCoreWmemMax : option Z; NetIPv4IPLocalPortRange : option string;
  NetIPv4NeighDefaultGcThresh1 : option Z; NetIPv4NeighDefaultGcThresh2 : option Z;
  NetIPv4NeighDefaultGcThresh3 : option Z; NetIPv4TCPFinTimeout : option Z; NetIPv4TCPKeepaliveProbes : option Z;
  NetIPv4TCPKeepaliveTime : option Z; NetIPv4TCPMaxSynBacklog : option Z; NetIPv4TCPMaxTwBuckets : option Z;
  NetIPv4TCPTwReuse : option bool; NetIPv4TCPKeepaliveIntvl : option Z; NetNetfilterNfConntrackBuckets : option Z;
  NetNetfilterNfConntrackMax : option Z; VMMaxMapCount : option Z; VMSwappiness : option Z;
  VMVfsCachePressure : option Z
}.
Record LinuxOSConfiguration := mk_linux_config {
  SwapFileSize : option string; Sysctls : option SysctlConfiguration;
  TransparentHugePageDefrag : option string; TransparentHugePageEnabled : option string
}.

(** [of_launch]: the fields of the launch path; the rest of the spec, and
    [Status.LocalDNSState]. *)
Record AKSNodeClass := mk_nodeclass {
  of_launch : VMInstance.LaunchClass;
  ImageFamily : option string; ImageID : option string; VNETSubnetID : option string;
  OSDiskSizeGB : option Z; OSDiskType : option string; FIPSMode : option string;
  WorkloadRuntime : option string; LocalDNSOf : option LocalDNS; GPUOf : option GPU;
  ArtifactStreaming : option (option bool); Kubelet : option KubeletConfiguration;
  LocalDNSState : option string; LinuxOSConfig : option LinuxOSConfiguration
}.
Definition class_of (n : AKSNodeClass) : VirtualMachines.NodeClass := VMInstance.lc_class (of_launch n).

Definition FIPSModeFIPS : string := "FIPS".
Definition FIPSModeDisabled : string := "Disabled".
Definition LocalDNSModePreferred : string := "Preferred".
Definition LocalDNSModeRequired : string := "Required".
Definition LocalDNSModeDisabled : string := "Disabled".
Definition LocalDNSStateEnabled : string := "Enabled".
Definition GPUModeDriver : string := "Driver".
Definition GPUModeNone : string := "None".
Definition ManagementModeManaged : string := "Managed".
Definition ManagementModeUnmanaged : string := "Unmanaged".
Definition WorkloadRuntimeOCIContainer : string := "OCIContainer".
Definition WorkloadRuntimeKataVMIsolation : string := "KataVmIsolation".

Definition GetEncryptionAtHost (n : AKSNodeClass) : bool :=
  match VirtualMachines.cl_security (class_of n) with
  | Some s => match VirtualMachines.sc_encryptionAtHost s with Some b => b | None => false end
  | None => false
  end.
Definition IsTrustedLaunchEnabled (n : AKSNodeClass) : bool := VirtualMachines.IsTrustedLaunchEnabled (class_of n).
Definition GetCapacityReservationGroupID (n : AKSNodeClass) : string :=
  VirtualMachines.GetCapacityReservationGroupID (class_of n).
Definition IsFIPSEnabled (n : AKSNodeClass) : bool :=
  (from_ptr "" (ImageFamily n) ==? Windows2025ImageFamily) || (from_ptr "" (FIPSMode n) ==? FIPSModeFIPS).
Definition ArtifactStreaming_IsEnabled (a : option (option bool)) (arch : string) : bool :=
  if arch ==? ArchitectureArm64 then false
  else match a with Some (Some b) => b | _ => false end.
Definition IsArtifactStreamingEnabled (n : AKSNodeClass) (arch : string) : bool :=
  ArtifactStreaming_IsEnabled (ArtifactStreaming n) arch.
Definition IsArtifactStreamingExplicitlyEnabled (n : AKSNodeClass) : bool :=
  match ArtifactStreaming n with Some (Some b) => b | _ => false end.
Definition IsLocalDNSRequired (n : AKSNodeClass) : bool :=
  match LocalDNSOf n with Some d => Mode d ==? LocalDNSModeRequired | None => false end.
Definition IsLocalDNSEnabled (n : AKSNodeClass) : bool :=
  match LocalDNSState n with Some s => s ==? LocalDNSStateEnabled | None => false end.
Definition GetGPUMode (n : AKSNodeClass) : string :=
  match GPUOf n with Some (mk_gpu (Some m) _) => m | _ => GPUModeDriver end.
Definition IsGPUDriverInstallationEnabled (n : AKSNodeClass) : bool := GetGPUMode n !=? GPUModeNone.
Definition GetManagementMode (n : AKSNodeClass) : string :=
  match GPUOf n with Some (mk_gpu _ (Some (Some m))) => m | _ => ManagementModeUnmanaged end.
Definition IsManagedGPUEnabled (n : AKSNodeClass) : bool := GetManagementMode n ==? ManagementModeManaged.
Definition GetWorkloadRuntime (n : AKSNodeClass) : string :=
  match WorkloadRuntime n with Some r => r | None => WorkloadRuntimeOCIContainer end.
Definition IsKataEnabled (n : AKSNodeClass) : bool := GetWorkloadRuntime n ==? WorkloadRuntimeKataVMIsolation.

(** ** GPU sizes ([gpu.go]) *)

Definition normalizeVMSize (vmSize : string) : string := TrimSuffix (ToLower vmSize) "_promo".

Section GPUs.
(** The embedded table: manufacturer and operating systems of each size. *)
Variable gpuSKUConfig : gmap string (string * list string).

Definition GetGPUManufacturer (vmSize : string) : string :=
  match gpuSKUConfig !! normalizeVMSize vmSize with Some (gpu, _) => gpu | None => "" end.
Definition IsGPUSKU (vmSize : string) : bool := bool_decide (is_Some (gpuSKUConfig !! normalizeVMSize vmSize)).
Definition IsNvidiaEnabledSKU (vmSize : string) : bool :=
  match gpuSKUConfig !! normalizeVMSize vmSize with Some (gpu, _) => gpu ==? ManufacturerNvidia | None => false end.
Definition IsAMDEnabledSKU (vmSize : string) : bool :=
  match gpuSKUConfig !! normalizeVMSize vmSize with Some (gpu, _) => gpu ==? ManufacturerAMD | None => false end.
Definition IsMarinerEnabledGPUSKU (vmSize : string) : bool :=
  match gpuSKUConfig !! normalizeVMSize vmSize with
  | Some (gpu, os) => (gpu ==? ManufacturerNvidia) && existsb (fun o => (o ==? "azurelinux") || (o ==? "azurelinux3")) os
  | None => false
  end.
Definition IsDriverInstallSupported (vmSize : string) : bool := IsNvidiaEnabledSKU vmSize.
Definition IsGPUSKUSupportedOnOS (vmSize osName : string) : bool :=
  match gpuSKUConfig !! normalizeVMSize vmSize with
  | Some (_, osList) => bool_decide (osName ∈ osList)
  | None => false
  end.
End GPUs.

(** Drivers. *)
Definition ConvergedGPUDriverSizes : list string := [
  "standard_nv6ads_a10_v5"; "standard_nv12ads_a10_v5"; "standard_nv18ads_a10_v5"; "standard_nv36ads_a10_v5";
  "standard_nv72ads_a10_v5"; "standard_nv36adms_a10_v5"; "standard_nc8ads_a10_v4"; "standard_nc16ads_a10_v4";
  "standard_nc32ads_a10_v4"].
Definition rtxPro6000GPUDriverSizes : list string := [
  "standard_nc24lds_xl_rtxpro6000bse_v6"; "standard_nc36ds_xl_rtxpro6000bse_v6"; "standard_nc36lds_xl_rtxpro6000bse_v6";
  "standard_nc72ds_xl_rtxpro6000bse_v6"; "standard_nc72lds_xl_rtxpro6000bse_v6"; "standard_nc144ds_xl_rtxpro6000bse_v6";
  "standard_nc144lds_xl_rtxpro6000bse_v6"; "standard_nc288ds_xl_rtxpro6000bse_v6"; "standard_nc288lds_xl_rtxpro6000bse_v6"].
Definition UseGridDrivers (size : string) : bool := bool_decide (ToLower size ∈ ConvergedGPUDriverSizes).
Definition UseGridV20Drivers (size : string) : bool := bool_decide (ToLower size ∈ rtxPro6000GPUDriverSizes).
Definition isStandardNCv1 (size : string) : bool :=
  HasPrefix (ToLower size) "standard_nc" && negb (Contains (ToLower size) "_v").
Definition GetGPUDriverVersion (size : string) : string :=
  if UseGridV20Drivers size then "595.58.03" else if UseGridDrivers size then "570.211.01"
  else if isStandardNCv1 size then "470.82.01" else "580.159.04".
Definition GetGPUDriverType (size : string) : string :=
  if UseGridV20Drivers size then "grid-v20" else if UseGridDrivers size then "grid"
  else if isStandardNCv1 size then "cuda" else "cuda-lts".
Definition GetAKSGPUImageSHA (size : string) : string :=
  if UseGridV20Drivers size then "20260609172331" else if UseGridDrivers size then "20260522192315"
  else "20260629214430".

(** [skuutil.IsConfidential]: of a size without its [Standard_]. *)
Definition IsConfidential (skuName : string) : bool := HasPrefix skuName "DC" || HasPrefix skuName "EC".

(** ** LocalDNS on a size ([localdns.go]) *)

(** Requirements on labels: the allowed values; the empty set: the label must
    not be there. *)
Abbreviation Requirements := (gmap string (gset string)).
(** [Values] of a label without a requirement is empty. *)
Definition values (reqs : Requirements) (label : string) : gset string := default ∅ (reqs !! label).

(** [strconv.ParseInt] in base 10 on 64 bits, and [fmt.Sprint] of an [int64]. *)
Definition digit_value (a : ascii) : option Z :=
  let n := Z.of_nat (nat_of_ascii a) in if (48 <=? n) && (n <=? 57) then Some (n - 48) else None.
Fixpoint parse_digits (acc : Z) (s : string) : option Z :=
  match s with
  | EmptyString => Some acc
  | String a s' => match digit_value a with Some d => parse_digits (10 * acc + d) s' | None => None end
  end.
Definition ParseInt (s : string) : option Z :=
  let '(negative, body) :=
    match s with
    | String "-" s' => (true, s')
    | String "+" s' => (false, s')
    | _ => (false, s)
    end in
  if body ==? "" then None
  else match parse_digits 0 body with
       | Some n => let v := if negative then - n else n in if bool_decide (int64_ok v) then Some v else None
       | None => None
       end.

Definition MinVCPU : Z := 4.
Definition MinMemoryMiB : Z := 244.
Definition SKUMeetsFloor (vcpu memoryMiB : Z) : bool := (MinVCPU <=? vcpu) && (MinMemoryMiB <=? memoryMiB).
Definition single_int (reqs : Requirements) (key : string) : option Z :=
  match reqs !! key with
  | None => None
  | Some vs => match elements vs with [v] => ParseInt v | _ => None end
  end.
Definition InstanceTypeMeetsFloor (reqs : Requirements) : bool :=
  match single_int reqs LabelSKUCPU, single_int reqs LabelSKUMemory with
  | Some vcpu, Some memoryMiB => SKUMeetsFloor vcpu memoryMiB
  | _, _ => false
  end.
Definition IsSupportedForInstanceType (n : AKSNodeClass) (reqs : Requirements) : bool :=
  IsLocalDNSEnabled n && InstanceTypeMeetsFloor reqs.
Definition ResolveForWire (n : AKSNodeClass) (reqs : Requirements) : option LocalDNS :=
  match LocalDNSOf n with
  | None => None
  | Some d =>
      if Mode d !=? LocalDNSModePreferred then Some d
      else Some (mk_localdns
             (if IsSupportedForInstanceType n reqs then LocalDNSModeRequired else LocalDNSModeDisabled)
             (VnetDNSOverrides d) (KubeDNSOverrides d))
  end.

(** ** Lemmas *)

Lemma windows_families f : IsWindowsImageFamily f = true -> ToLower f = "windows2022" \/ ToLower f = "windows2025".
Proof.
  unfold IsWindowsImageFamily, WindowsFamilies, EqualFold. simpl. rewrite orb_false_r, orb_true_iff, !bool_decide_eq_true.
  intros [X|X]; rewrite X; [by left|by right].
Qed.

(** The decimal numeral of a number, read back. *)
Lemma parse_digits_app acc a b :
  parse_digits acc (a +:+ b) = match parse_digits acc a with Some n => parse_digits n b | None => None end.
Proof.
  revert acc. induction a as [|c a IH]; intros acc; [done|]. cbn [parse_digits String.append].
  change (String c a +:+ b) with (String c (a +:+ b)). cbn [parse_digits].
  destruct (digit_value c); [apply IH|done].
Qed.

Lemma digit_char n : (n < 10)%N -> digit_value (pretty_N_char n) = Some (Z.of_N n).
Proof.
  intros L. destruct n as [|p]; [reflexivity|].
  do 4 (try destruct p as [p|p|]); try reflexivity; lia.
Qed.

Lemma parse_pretty_go n s acc :
  parse_digits acc (pretty_N_go n s) =
  match parse_digits acc (pretty_N_go n "") with Some m => parse_digits m s | None => None end.
Proof.
  revert s acc. induction (N.lt_wf_0 n) as [n _ IH]. intros s acc.
  destruct (decide (0 < n)%N) as [P|P].
  - rewrite !(pretty_N_go_step n) by done. assert (D : (n / 10 < n)%N) by (apply N.div_lt; lia).
    rewrite (IH _ D), (IH _ D (String _ "")).
    destruct (parse_digits acc (pretty_N_go (n / 10) "")) as [m|]; [|done]. cbn [parse_digits].
    by destruct (digit_value _).
  - assert (n = 0%N) as -> by lia. by rewrite !pretty_N_go_0.
Qed.

Lemma parse_pretty_N n : parse_digits 0 (pretty_N_go n "") = Some (Z.of_N n).
Proof.
  induction (N.lt_wf_0 n) as [n _ IH]. destruct (decide (0 < n)%N) as [P|P].
  - rewrite pretty_N_go_step by done. rewrite parse_pretty_go. rewrite IH by (apply N.div_lt; lia).
    cbn [parse_digits]. rewrite digit_char by (apply N.mod_lt; lia). f_equal.
    rewrite (N.div_mod n 10) at 3 by lia. lia.
  - assert (n = 0%N) as -> by lia. by rewrite pretty_N_go_0.
Qed.

Lemma ParseInt_pretty n : 0 <= n < 2 ^ 63 -> ParseInt (pretty n) = Some n.
Proof.
  intros R. assert (E : exists c s, pretty n = String c s /\ c <> "-"%char /\ c <> "+"%char /\ parse_digits 0 (String c s) = Some n).
  { destruct n as [|p|p]; [by exists "0"%char, ""| |lia].
    change (pretty (Zpos p)) with (pretty_N_go (Npos p) "").
    pose proof (parse_pretty_N (Npos p)) as Q. destruct (pretty_N_go (Npos p) "") as [|c s] eqn:G; [done|].
    exists c, s. split; [done|]. split; [|split; [|done]]; intros ->; by cbn in Q. }
  destruct E as (c & s & -> & N1 & N2 & P). unfold ParseInt.
  assert (M : match c with "-"%char => (true, s) | "+"%char => (false, s) | _ => (false, String c s) end = (false, String c s)).
  { clear P. destruct c as [[] [] [] [] [] [] [] []]; done || by destruct N1 || by destruct N2. }
  replace (match c with "-"%char => (true, s) | "+"%char => (false, s) | _ => (false, String c s) end) with (false, String c s).
  rewrite bool_decide_eq_false_2 by done. rewrite P. by rewrite bool_decide_eq_true_2 by (unfold int64_ok; lia).
Qed.

End NodeClassSpec.
