(* ===== verification/Wire.v ===== *)
(** * Node configuration on the wire ([customscriptsbootstrap/utils.go],
      [aksmachineinstancehelpers.go])

    The parts of a node's configuration that AKS machines and the node
    bootstrapping service take in the same shape: durations and sizes as
    numbers, LocalDNS overrides, sysctls. *)

From S2P Require Import Prelude GoString GoFloat NodeClassSpec.
From Stdlib Require Import SpecFloat.
#[local] Open Scope string_scope.
#[local] Open Scope list_scope.
#[local] Open Scope Z_scope.

Module Wire.
Import NodeClassSpec.

(** ** Durations ([time.Duration]) *)

(** The last [prec] digits of [v] as a fraction without trailing zeros, before
    [text], and what is left of [v]. *)
Fixpoint fmtFrac (prec : nat) (print : bool) (v : Z) (text : string) : string * Z :=
  match prec with
  | O => (if print then "." +:+ text else text, v)
  | S p =>
      let digit := v mod 10 in
      let print := print || negb (digit =? 0) in
      fmtFrac p print (v / 10) (if print then pretty digit +:+ text else text)
  end.
Definition DurationString (d : Z) : string :=
  let u := Z.abs d in
  let part prec unit := let '(text, v) := fmtFrac prec false u unit in pretty v +:+ text in
  let text :=
    if u <? 1000000000 then
      if u =? 0 then "0s"
      else if u <? 1000 then part 0%nat "ns"
      else if u <? 1000000 then part 3%nat "µs"
      else part 6%nat "ms"
    else
      let '(seconds, u) := fmtFrac 9 false u "s" in
      let text := pretty (u mod 60) +:+ seconds in
      if u / 60 =? 0 then text
      else
        let text := pretty (u / 60 mod 60) +:+ "m" +:+ text in
        if u / 60 / 60 =? 0 then text else pretty (u / 60 / 60) +:+ "h" +:+ text in
  if d <? 0 then "-" +:+ text else text.

Example duration_texts :
  map DurationString [0; 1; 1500; 100000000; 90000000000; 3600000000000; -1500000000] =
  ["0s"; "1ns"; "1.5µs"; "100ms"; "1m30s"; "1h0m0s"; "-1.5s"].
Proof. reflexivity. Qed.

Definition Seconds (d : Z) : GoFloat.float64 :=
  GoFloat.add (GoFloat.of_int (Z.quot d 1000000000)) (GoFloat.literal (Z.rem d 1000000000) 1000000000).

(** [int32] of a float: a value out of range gives the least one, as on
    amd64. *)
Definition in_int32 (z : option Z) : Z :=
  match z with Some z => if (- 2 ^ 31 <=? z) && (z <? 2 ^ 31) then z else - 2 ^ 31 | None => - 2 ^ 31 end.
Definition to_int32 (x : GoFloat.float64) : Z := in_int32 (GoFloat.truncated x).
(** [math.Round]: halves away from zero. *)
Definition rounded (x : GoFloat.float64) : option Z :=
  match x with
  | S754_finite s m e => Some (cond_Zopp s (if e <? 0 then (Zpos m + 2 ^ (- e - 1)) / 2 ^ (- e) else Zpos m * 2 ^ e))
  | S754_zero _ => Some 0
  | _ => None
  end.

(** ** Overrides of LocalDNS *)

Record LocalDNSOverride := mk_override {
  QueryLogging : option string; Protocol : option string; ForwardDestination : option string;
  ForwardPolicy : option string; MaxConcurrent : option Z; CacheDurationInSeconds : option Z;
  ServeStaleDurationInSeconds : option Z; ServeStale : option string
}.
Record LocalDNSProfile := mk_localdns_profile {
  lp_Mode : option string;
  lp_VnetDNSOverrides : option (gmap string LocalDNSOverride);
  lp_KubeDNSOverrides : option (gmap string LocalDNSOverride)
}.
(** A pointer to a string that is not empty. *)
Definition if_set (s : string) : option string := if s ==? "" then None else Some s.
Definition seconds_of (d : NillableDuration) : option Z :=
  match Duration d with Some d => Some (to_int32 (Seconds d)) | None => None end.

Definition convertLocalDNSOverride (o : LocalDNSZoneOverride) : LocalDNSOverride :=
  mk_override (if_set (NodeClassSpec.QueryLogging o)) (if_set (NodeClassSpec.Protocol o))
    (if_set (NodeClassSpec.ForwardDestination o)) (if_set (NodeClassSpec.ForwardPolicy o))
    (NodeClassSpec.MaxConcurrent o) (seconds_of (CacheDuration o)) (seconds_of (ServeStaleDuration o))
    (if_set (NodeClassSpec.ServeStale o)).
(** The last override of a zone counts. *)
Definition convertLocalDNSOverrides (overrides : list LocalDNSZoneOverride) : gmap string LocalDNSOverride :=
  fold_left (fun m o => <[Zone o := convertLocalDNSOverride o]> m) overrides ∅.
Definition if_any (overrides : list LocalDNSZoneOverride) : option (gmap string LocalDNSOverride) :=
  match overrides with [] => None | _ => Some (convertLocalDNSOverrides overrides) end.
Definition convertLocalDNS (spec : option LocalDNS) : option LocalDNSProfile :=
  match spec with
  | None => None
  | Some spec => Some (mk_localdns_profile (if_set (Mode spec)) (if_any (VnetDNSOverrides spec)) (if_any (KubeDNSOverrides spec)))
  end.

(** ** Kubelet and operating system *)

Definition ConvertPodMaxPids (podPidsLimit : option Z) : option Z :=
  match podPidsLimit with
  | Some limit => Some (if 2147483647 <? limit then 2147483647 else if limit <? 0 then -1 else limit)
  | None => None
  end.

(** A pointer to a text that is neither nil nor empty. *)
Definition non_empty (s : option string) : option string := match s with Some s => if_set s | None => None end.

Record LinuxOSConfigModel := mk_linux_model {
  lm_SwapFileSizeMB : option Z; lm_Sysctls : option SysctlConfiguration;
  lm_TransparentHugePageDefrag : option string; lm_TransparentHugePageEnabled : option string
}.
(** Each setting as it is. *)
Definition convertSysctlConfig (sysctls : option SysctlConfiguration) : option SysctlConfiguration :=
  match sysctls with
  | None => None
  | Some s => Some {|
      FsAioMaxNr := FsAioMaxNr s; FsFileMax := FsFileMax s; FsInotifyMaxUserWatches := FsInotifyMaxUserWatches s;
      FsNrOpen := FsNrOpen s; KernelThreadsMax := KernelThreadsMax s;
      NetCoreNetdevMaxBacklog := NetCoreNetdevMaxBacklog s; NetCoreOptmemMax := NetCoreOptmemMax s;
      NetCoreRmemDefault := NetCoreRmemDefault s; NetCoreRmemMax := NetCoreRmemMax s;
      NetCoreSomaxconn := NetCoreSomaxconn s; NetCoreWmemDefault := NetCoreWmemDefault s;
      NetCoreWmemMax := NetCoreWmemMax s; NetIPv4IPLocalPortRange := NetIPv4IPLocalPortRange s;
      NetIPv4NeighDefaultGcThresh1 := NetIPv4NeighDefaultGcThresh1 s;
      NetIPv4NeighDefaultGcThresh2 := NetIPv4NeighDefaultGcThresh2 s;
      NetIPv4NeighDefaultGcThresh3 := NetIPv4NeighDefaultGcThresh3 s;
      NetIPv4TCPFinTimeout := NetIPv4TCPFinTimeout s; NetIPv4TCPKeepaliveProbes := NetIPv4TCPKeepaliveProbes s;
      NetIPv4TCPKeepaliveTime := NetIPv4TCPKeepaliveTime s; NetIPv4TCPMaxSynBacklog := NetIPv4TCPMaxSynBacklog s;
      NetIPv4TCPMaxTwBuckets := NetIPv4TCPMaxTwBuckets s; NetIPv4TCPTwReuse := NetIPv4TCPTwReuse s;
      NetIPv4TCPKeepaliveIntvl := NetIPv4TCPKeepaliveIntvl s;
      NetNetfilterNfConntrackBuckets := NetNetfilterNfConntrackBuckets s;
      NetNetfilterNfConntrackMax := NetNetfilterNfConntrackMax s; VMMaxMapCount := VMMaxMapCount s;
      VMSwappiness := VMSwappiness s; VMVfsCachePressure := VMVfsCachePressure s |}
  end.

Section Sizes.
Context {Quantity : Type}.
(** [resource.ParseQuantity] and [AsApproximateFloat64]. *)
Variable ParseQuantity : string -> option Quantity.
Variable AsApproximateFloat64 : Quantity -> GoFloat.float64.

Definition ConvertContainerLogMaxSizeToMB (containerLogMaxSize : string) : option Z :=
  match ParseQuantity containerLogMaxSize with
  | Some q =>
      let kilo := GoFloat.of_int 1024 in
      Some (in_int32 (rounded (SFdiv 53 1024 (SFdiv 53 1024 (AsApproximateFloat64 q) kilo) kilo)))
  | None => None
  end.
Definition size_in_MB (size : option string) : option Z :=
  match non_empty size with Some s => ConvertContainerLogMaxSizeToMB s | None => None end.

Definition convertLinuxOSConfig (config : option LinuxOSConfiguration) : option LinuxOSConfigModel :=
  match config with
  | None => None
  | Some c => Some (mk_linux_model (size_in_MB (SwapFileSize c)) (convertSysctlConfig (Sysctls c))
                      (TransparentHugePageDefrag c) (TransparentHugePageEnabled c))
  end.

End Sizes.
End Wire.
