(* ===== verification/InstanceTypes.v ===== *)
(** * Instance types ([pkg/providers/instancetype/instancetypes.go],
      [instancetype.go], [skus.go])

    The provider that turns the sizes Azure offers in the region into the
    instance types Karpenter schedules on: what a size can do, where and at
    which price it is offered, what quota leaves of it, and the cache in front
    of all that.  A record holds the answers of skewer's accessors for a size;
    a lookup that panics gives [None]. *)

From S2P Require Import Prelude GoString GoCache GoFloat Cloud OSDisk Unavailable Zones Quota VirtualMachines VMInstance Reservation Options Resources Pricing NodeClassSpec AKSMachine.
From Stdlib Require Import SpecFloat.
#[local] Open Scope string_scope.
#[local] Open Scope list_scope.
#[local] Open Scope Z_scope.

Module InstanceTypes.
Import NodeClassSpec Unavailable.

(** ** Sizes *)

(** A parsed size name ([skewer.VMSizeType]). *)
Record VMSizeType := mk_vmsize {
  vs_family : string; vs_series : string; vs_version : string;
  vs_accelerator : option string; vs_cpusConstrained : option string
}.

(** [None] is an error of the accessor; the region is that of the provider. *)
Record SKU := mk_sku {
  sk_cloud : Cloud.SKU;
  sk_disk : OSDisk.SKU;
  sk_size : option string;
  sk_vmsize : option VMSizeType;
  sk_architecture : option string;
  sk_memory : option GoFloat.float64;
  sk_gpu : option Z;
  sk_zones : gset string;
  sk_restricted : bool;
  sk_retirement : option (option Z);
  sk_lowPriority : bool;
  sk_ultraRegional : bool;
  sk_ultraZones : gset string;
  sk_premiumIO : bool;
  sk_accelerated : bool;
  sk_hyperV1 : bool;
  sk_hyperV2 : bool;
  sk_nested : bool;
  sk_direct : bool;
  sk_trustedLaunch : option bool;
  sk_encryptionAtHost : OSDisk.capability;
  sk_diskControllers : OSDisk.capability
}.
Definition GetName (s : SKU) : string := sku_name (sk_cloud s).
Definition VCPU (s : SKU) : option Z := sku_vcpu (sk_cloud s).

(** ** Restricted sizes ([skus.go]) *)

Definition AKSRestrictedVMSizes : list string := [
  "Standard_A0"; "Standard_A1"; "Standard_A1_v2"; "Standard_B1s"; "Standard_B1ms"; "Standard_F1"; "Standard_F1s";
  "Basic_A0"; "Basic_A1"; "Basic_A2"; "Basic_A3"; "Basic_A4"].
Definition karpenterRestrictedVMSKUs : list string := ["Standard_E64i_v3"; "Standard_E64is_v3"].
Definition IsRestrictedSKU (name : string) : bool :=
  bool_decide (name ∈ AKSRestrictedVMSizes) || bool_decide (name ∈ karpenterRestrictedVMSKUs).

(** ** Parameters *)

Record capacityReservationPlacement := mk_placement { pl_VMSize : string; pl_Zone : string }.
#[export] Instance placement_eq_dec : EqDecision capacityReservationPlacement.
Proof. solve_decision. Defined.

Record instanceTypeParameters := mk_params {
  p_ImageFamily : string; p_OSDiskSizeGB : option Z; p_OSDiskType : string; p_MaxPods : Z;
  p_EncryptionAtHost : bool; p_TrustedLaunch : bool; p_GPUMode : string; p_ArtifactStreamingEnabled : bool;
  p_FIPSMode : string; p_LocalDNSRequired : bool; p_KubeReserved : gmap string string; p_EvictionHard : gmap string string;
  p_CapacityReservationGroupID : string; p_CapacityReservations : list capacityReservationPlacement; p_KataEnabled : bool
}.

(** [lo.Uniq]: the first occurrences. *)
Fixpoint uniq_from {A} `{EqDecision A} (seen : list A) (l : list A) : list A :=
  match l with
  | [] => []
  | x :: l' => if bool_decide (x ∈ seen) then uniq_from seen l' else x :: uniq_from (x :: seen) l'
  end.
Definition Uniq {A} `{EqDecision A} (l : list A) : list A := uniq_from [] l.

Definition KubeReservedOverrides (config : option KubeReserved) : gmap string string :=
  match config with
  | None => ∅
  | Some c =>
      let overrides : gmap string string :=
        match CPUMillicores c with Some n => {[ Resources.ResourceCPU := pretty n +:+ "m" ]} | None => ∅ end in
      match MemoryMB c with Some n => <[Resources.ResourceMemory := pretty n +:+ "Mi"]> overrides | None => overrides end
  end.
Definition evictionHardOverrides (config : option EvictionThreshold) : gmap string string :=
  match config with
  | None => ∅
  | Some c =>
      let overrides : gmap string string :=
        match MemoryAvailable c with Some s => {[ Resources.MemoryAvailable := s ]} | None => ∅ end in
      match NodeFsAvailable c with Some s => <[Resources.NodeFSAvailable := s]> overrides | None => overrides end
  end.

(** A NodeClass with the reservation group of its status. *)
Record Class_ := mk_class { k_spec : AKSNodeClass; k_group : option Reservation.CapacityReservationGroup }.

Definition placement_of (region : string) (r : Reservation.CapacityReservation) : option capacityReservationPlacement :=
  if negb (Reservation.IsEligible r) then None
  else match Zones.MakeAKSLabelZoneFromARMZones region (map Some (Reservation.cr_zones r)) with
       | Err _ => None
       | Ok zone => Some (mk_placement (ToLower (Reservation.cr_vmSize r)) zone)
       end.
Definition capacityReservationPlacements (region : string) (c : Class_) : list capacityReservationPlacement :=
  match VirtualMachines.cl_crg (class_of (k_spec c)) with
  | None => []
  | Some _ =>
      match k_group c with
      | None => []
      | Some g =>
          if negb (EqualFold (Reservation.g_id g) (GetCapacityReservationGroupID (k_spec c))) then []
          else Uniq (omap (placement_of region) (Reservation.g_reservations g))
      end
  end.

Definition parameters (o : Options.Options) (region : string) (c : Class_) : instanceTypeParameters :=
  let n := k_spec c in
  let reserved := match Kubelet n with Some k => KubeReservedOverrides (KubeReservedOf k) | None => ∅ end in
  let eviction := match Kubelet n with Some k => evictionHardOverrides (EvictionHard k) | None => ∅ end in
  mk_params (from_ptr "" (ImageFamily n)) (OSDiskSizeGB n) (from_ptr "" (OSDiskType n))
    (VMInstance.GetMaxPods (of_launch n) (Options.NetworkPlugin o) (Options.NetworkPluginMode o))
    (GetEncryptionAtHost n) (IsTrustedLaunchEnabled n) (GetGPUMode n) (IsArtifactStreamingExplicitlyEnabled n)
    (if IsFIPSEnabled n then FIPSModeFIPS else FIPSModeDisabled) (IsLocalDNSRequired n) reserved eviction
    (GetCapacityReservationGroupID n) (capacityReservationPlacements region c) (IsKataEnabled n).

(** ** Instance types *)

(** An offering: what allocation reads of it, its priority labels and the
    values of its ultra disk requirement. *)
Record Offering := mk_offering {
  of_base : Cloud.Offering; of_scaleSetPriority : string; of_priority : string; of_ultraSSD : list string
}.
Record InstanceType := mk_type {
  ty_name : string; ty_requirements : Requirements; ty_offerings : list Offering;
  ty_capacity : gmap string Resources.Quantity; ty_kubeReserved : gmap string Resources.Quantity;
  ty_systemReserved : gmap string Resources.Quantity; ty_eviction : gmap string Resources.Quantity
}.
Definition Available (l : list Offering) : list Offering := filter (fun o => Is_true (of_available (of_base o))) l.

(** A [VirtualMachines.float64] as a double. *)
Definition float_of (x : VirtualMachines.float64) : GoFloat.float64 :=
  match x with
  | VirtualMachines.Finite z => binary_normalize 53 1024 z (-1074) false
  | VirtualMachines.NaN => S754_nan
  | VirtualMachines.Inf negative => S754_infinity negative
  end.

Definition InstanceTypesCacheTTL : Z := 23 * Hour.

Record cachedInstanceTypes := mk_cached { c_base : list InstanceType; c_quotaSeqNum : Z; c_quota : list InstanceType }.

(** Collecting the results of a body that can panic. *)
Lemma fold_collects {A B} (f : list B -> A -> option (list B)) (g : A -> option (list B)) l acc :
  (forall acc x, f acc x = match g x with Some y => Some (acc ++ y) | None => None end) ->
  fold_panic f acc l = (fun ys => acc ++ concat ys) <$> mapM g l.
Proof.
  intros F. revert acc. induction l as [|x l IH]; intros acc; cbn; [by rewrite app_nil_r|].
  rewrite F. destruct (g x) as [y|]; cbn; [|done]. rewrite IH. destruct (mapM g l) as [ys|]; cbn; [|done].
  by rewrite <- app_assoc.
Qed.

Lemma fold_collect {A B} (f : A -> option (list B)) l acc r :
  fold_panic (fun acc x => match f x with Some y => Some (acc ++ y) | None => None end) acc l = Some r ->
  exists ys, mapM f l = Some ys /\ r = acc ++ concat ys.
Proof.
  rewrite (fold_collects _ f) by done. destruct (mapM f l) as [ys|]; [|done]. cbn. intros [= <-]. by exists ys.
Qed.

Lemma mapM_elem {A B} (f : A -> option B) l ys y : mapM f l = Some ys -> (y ∈ ys <-> exists x, x ∈ l /\ f x = Some y).
Proof.
  revert ys. induction l as [|x l IH]; intros ys M; cbn in M.
  - injection M as <-. split; [intros N; by apply not_elem_of_nil in N|]. intros (x & N & _). by apply not_elem_of_nil in N.
  - destruct (f x) as [z|] eqn:F; [|done]. cbn in M. destruct (mapM f l) as [zs|]; [|done]. injection M as <-.
    specialize (IH zs eq_refl). rewrite elem_of_cons, IH. setoid_rewrite elem_of_cons. naive_solver.
Qed.


Lemma uniq_from_elem {A} `{EqDecision A} (seen l : list A) x : x ∈ uniq_from seen l <-> x ∈ l /\ x ∉ seen.
Proof.
  revert seen. induction l as [|y l IH]; intros seen; cbn [uniq_from]; [rewrite elem_of_nil; naive_solver|].
  rewrite elem_of_cons. case_bool_decide as B.
  - rewrite IH. split; [naive_solver|]. intros [[->|?] ?]; [done|by split].
  - rewrite elem_of_cons, IH, elem_of_cons. destruct (decide (x = y)) as [->|]; naive_solver.
Qed.
Lemma elem_of_Uniq {A} `{EqDecision A} (l : list A) x : x ∈ Uniq l <-> x ∈ l.
Proof. unfold Uniq. rewrite uniq_from_elem, elem_of_nil. naive_solver. Qed.
Lemma NoDup_Uniq {A} `{EqDecision A} (l : list A) : NoDup (Uniq l).
Proof.
  unfold Uniq. generalize (@nil A) as seen. induction l as [|y l IH]; intros seen; cbn [uniq_from]; [constructor|].
  case_bool_decide; [done|]. constructor; [|done]. rewrite uniq_from_elem, elem_of_cons. naive_solver.
Qed.

Section Provider.
Context `{GoRange} `{TTLCache}.
Variable options : Options.Options.
Variable region : string.
(** The embedded tables. *)
Variable gpuSKUConfig : gmap string (string * list string).
Variable knownSKUNames : gset string.
(** [resource.ParseQuantity], [strconv.ParseFloat] and the hash of the
    parameters. *)
Variable ParseQuantity : string -> option Resources.Quantity.
Variable ParseFloat : string -> option GoFloat.float64.
Variable Hash : instanceTypeParameters -> string.

Definition IsKnownSKU (name : string) : bool := bool_decide (name ∈ knownSKUNames).

(** *** Offerings *)

Definition instanceTypeZones (s : SKU) : gset string :=
  if bool_decide (sk_zones s = ∅) then {[ Zones.Regional ]}
  else set_map (Zones.MakeAKSLabelZoneFromARMZone region) (sk_zones s) ∪ {[ Zones.Regional ]}.

Definition capacityReservationZones (p : instanceTypeParameters) : option (gmap string (gset string)) :=
  if p_CapacityReservationGroupID p ==? "" then None
  else Some (fold_left (fun m pl => <[pl_VMSize pl := {[ pl_Zone pl ]} ∪ default ∅ (m !! pl_VMSize pl)]> m)
               (p_CapacityReservations p) ∅).

Definition ultraSSDOptions (s : SKU) (zone : string) : option (list string) :=
  match Zones.MakeARMZonesFromAKSLabelZone zone with
  | None => None
  | Some [] => Some (if sk_ultraRegional s then ["true"; "false"] else ["false"])
  | Some [z] => Some (if bool_decide (z ∈ sk_ultraZones s) then ["true"; "false"] else ["false"])
  | Some _ => Some ["false"]
  end.

(** What an evaluation of the offerings reads: the instant, the unavailable
    offerings and the prices. *)
Record sources := mk_sources { so_now : Z; so_unavailable : UnavailableOfferings; so_prices : Pricing.Provider }.

Definition zone_offerings (src : sources) (s : SKU) (group zone : string) : option (list Offering) :=
  let capacityReserved := group !=? "" in
  let view := ForCapacityReservationGroup group in
  let placementScope := Zones.PlacementScopeForZone zone in
  let onDemandPrice := if IsKnownSKU (GetName s) then (Pricing.OnDemandPrice (so_prices src) (GetName s)).1 else Pricing.MissingPrice in
  let spotPrice := if IsKnownSKU (GetName s) then (Pricing.SpotPrice (so_prices src) (GetName s)).1 else Pricing.MissingPrice in
  let blocked capacityType := view_IsUnavailable (so_now src) (so_unavailable src) view (sk_cloud s) zone capacityType in
  match ultraSSDOptions s zone with
  | None => None
  | Some ultra =>
      let ultraSSD := if capacityReserved then ["false"] else ultra in
      let onDemand := mk_offering
        (Cloud.mk_offering CapacityTypeOnDemand zone placementScope onDemandPrice (negb (blocked CapacityTypeOnDemand)))
        PriorityRegular PriorityRegular ultraSSD in
      let spot := mk_offering
        (Cloud.mk_offering CapacityTypeSpot zone placementScope spotPrice
          (sk_lowPriority s && negb (blocked CapacityTypeSpot)))
        PrioritySpot PrioritySpot ultraSSD in
      Some (if capacityReserved then [onDemand] else [onDemand; spot])
  end.
Definition createOfferings (src : sources) (s : SKU) (offeringZones : gset string) (group : string) : option (list Offering) :=
  fold_panic (fun acc zone => match zone_offerings src s group zone with Some l => Some (acc ++ l) | None => None end)
    [] (range_keys offeringZones).

(** *** Requirements *)

Definition bool_value (b : bool) : string := if b then "true" else "false".
Definition In_ (label : string) (vs : list string) : string * gset string := (label, list_to_set vs).
Definition DoesNotExist (label : string) : string * gset string := (label, ∅).
(** [Insert] on the requirement of a label. *)
Definition insert_value (label value : string) (reqs : Requirements) : Requirements :=
  <[label := {[ value ]} ∪ values reqs label]> reqs.
Definition insert_if (b : bool) (label value : string) (reqs : Requirements) : Requirements :=
  if b then insert_value label value reqs else reqs.

Definition ExtractVersionFromVMSize (v : VMSizeType) : string :=
  match vs_version v with
  | EmptyString => "1"
  | String c rest => if (c ==? "V"%char) || (c ==? "v"%char) then rest else ""
  end.
Definition setRequirementsVersion (v : VMSizeType) (reqs : Requirements) : Requirements :=
  insert_if (ExtractVersionFromVMSize v !=? "") LabelSKUVersion (ExtractVersionFromVMSize v) reqs.
Definition setRequirementsEphemeralOSDiskSupported (s : SKU) (reqs : Requirements) : Requirements :=
  let sizeGB := (OSDisk.FindMaxEphemeralSizeGBAndPlacement (Some (sk_disk s))).1 in
  insert_if (0 <? sizeGB) LabelSKUStorageEphemeralOSMaxSize (pretty sizeGB) reqs.
Definition setRequirementsHyperVGeneration (s : SKU) (reqs : Requirements) : Requirements :=
  insert_if (sk_hyperV2 s) LabelSKUHyperVGeneration HyperVGenerationV2
    (insert_if (sk_hyperV1 s) LabelSKUHyperVGeneration HyperVGenerationV1 reqs).
Definition setRequirementsGPU (s : SKU) (v : VMSizeType) (reqs : Requirements) : Requirements :=
  let manufacturer := GetGPUManufacturer gpuSKUConfig (GetName s) in
  if (manufacturer ==? ManufacturerNvidia) || (manufacturer ==? ManufacturerAMD) then
    let reqs := insert_value LabelSKUGPUManufacturer manufacturer reqs in
    match vs_accelerator v with Some a => insert_value LabelSKUGPUName a reqs | None => reqs end
  else reqs.

Definition gpuCount (counts : bool) (s : SKU) : Z := if counts then default 0 (sk_gpu s) else 0.
Definition gpuTotalCount (s : SKU) : Z := gpuCount (IsGPUSKU gpuSKUConfig (GetName s)) s.
Definition gpuNvidiaCount (s : SKU) : Z := gpuCount (IsNvidiaEnabledSKU gpuSKUConfig (GetName s)) s.
Definition gpuAMDCount (s : SKU) : Z := gpuCount (IsAMDEnabledSKU gpuSKUConfig (GetName s)) s.

Definition computeRequirements (vcpus memoryMiB : Z) (s : SKU) (v : VMSizeType) (architecture : string)
    (offerings : list Offering) (p : instanceTypeParameters) : Requirements :=
  let available := map of_base (Available offerings) in
  let base : Requirements := list_to_map [
    In_ LabelInstanceTypeStable [GetName s]; In_ LabelArchStable [getArchitecture architecture];
    In_ LabelOSStable [GetOSForImageFamily (p_ImageFamily p)];
    In_ AKSMachine.LabelTopologyZone (map of_zone available); In_ LabelTopologyRegion [region];
    In_ AKSMachine.CapacityTypeLabelKey (map of_capacity_type available);
    In_ AKSMachine.LabelPlacementScope (map of_scope available);
    In_ AKSMachine.LabelUltraSSD (concat (map of_ultraSSD (Available offerings)));
    In_ LabelSKUCPU [pretty vcpus]; In_ LabelSKUMemory [pretty memoryMiB];
    In_ AKSLabelCPU [pretty vcpus]; In_ AKSLabelMemory [pretty memoryMiB];
    In_ LabelSKUGPUCount [pretty (gpuTotalCount s)];
    DoesNotExist LabelSKUGPUManufacturer; DoesNotExist LabelSKUGPUName;
    In_ AKSLabelCluster [NormalizeClusterResourceGroupNameForLabel (Options.NodeResourceGroup options)];
    In_ AKSLabelMode [ModeSystem; ModeUser];
    In_ AKSMachine.AKSLabelScaleSetPriority [PriorityRegular; PrioritySpot];
    In_ AKSMachine.AKSLabelPriority [PriorityRegular; PrioritySpot];
    In_ AKSLabelOSSKU [GetOSSKUFromImageFamily (p_ImageFamily p)];
    DoesNotExist AKSLabelFIPSEnabled; DoesNotExist AKSLabelKataVMIsolation;
    DoesNotExist LabelSKUName; DoesNotExist LabelSKUFamily; DoesNotExist LabelSKUSeries; DoesNotExist LabelSKUVersion;
    DoesNotExist LabelSKUStorageEphemeralOSMaxSize;
    In_ LabelSKUStoragePremiumCapable [bool_value (sk_premiumIO s)];
    In_ LabelSKUAcceleratedNetworking [bool_value (sk_accelerated s)];
    DoesNotExist LabelSKUHyperVGeneration
  ] in
  insert_if (p_KataEnabled p) AKSLabelKataVMIsolation "true"
    (insert_if (p_FIPSMode p ==? FIPSModeFIPS) AKSLabelFIPSEnabled "true"
      (setRequirementsVersion v
        (setRequirementsGPU s v
          (setRequirementsHyperVGeneration s
            (setRequirementsEphemeralOSDiskSupported s
              (insert_value LabelSKUSeries (vs_series v)
                (insert_value LabelSKUFamily (vs_family v)
                  (insert_value LabelSKUName (GetName s) base)))))))).

(** *** Capacity and overhead *)

Definition ephemeralStorage (s : SKU) (p : instanceTypeParameters) : Resources.Quantity :=
  Resources.NewQuantity (OSDisk.SizeGB (OSDisk.ResolveOSDiskProfileFromSKU (Some (sk_disk s))
    (p_OSDiskSizeGB p) (p_OSDiskType p) (p_TrustedLaunch p)) * 10 ^ 9).
Definition computeCapacity (vcpus : Z) (memoryGiB : GoFloat.float64) (s : SKU) (p : instanceTypeParameters) :
    gmap string Resources.Quantity := {[
  Resources.ResourceCPU := Resources.NewQuantity vcpus;
  Resources.ResourceMemory :=
    Resources.CalculateMemoryWithoutOverhead (float_of (Options.VMMemoryOverheadPercent options)) memoryGiB;
  Resources.ResourceEphemeralStorage := ephemeralStorage s p;
  Resources.ResourcePods := Resources.NewQuantity (p_MaxPods p);
  "nvidia.com/gpu" := Resources.NewQuantity (gpuNvidiaCount s);
  "amd.com/gpu" := Resources.NewQuantity (gpuAMDCount s)
]}.

(** [None]: the size has no cores or memory ([lo.Must]). *)
Definition newInstanceType (s : SKU) (v : VMSizeType) (offerings : list Offering) (p : instanceTypeParameters)
    (architecture : string) : option InstanceType :=
  match sk_memory s, VCPU s with
  | Some memoryGiB, Some vcpus =>
      let totalMemoryMiB := Resources.memoryMiB memoryGiB in
      let enableNodeHardening := Options.ShouldUseNodeHardening options in
      let capacity := computeCapacity vcpus memoryGiB s p in
      Some (mk_type (GetName s) (computeRequirements vcpus totalMemoryMiB s v architecture offerings p) offerings capacity
        (Resources.KubeReservedResources ParseQuantity vcpus totalMemoryMiB (p_MaxPods p) enableNodeHardening (p_KubeReserved p))
        (Resources.SystemReservedResources totalMemoryMiB (Options.NetworkPlugin options) enableNodeHardening)
        (Resources.EvictionThreshold ParseQuantity ParseFloat totalMemoryMiB
          (Resources.resource_of capacity Resources.ResourceEphemeralStorage) enableNodeHardening (p_EvictionHard p)))
  | _, _ => None
  end.

(** *** Filters *)

Definition isArchitectureSupportedByImageFamily (architecture imageFamily : string) : bool :=
  negb (IsWindowsImageFamily imageFamily) || (getArchitecture architecture ==? ArchitectureAmd64).
Definition isInstanceTypeSupportedByImageFamily (skuName imageFamily : string) : bool :=
  if negb (IsGPUSKU gpuSKUConfig skuName) then true
  else if bool_decide (imageFamily ∈ UbuntuFamilies) then IsGPUSKUSupportedOnOS gpuSKUConfig skuName "ubuntu"
  else if imageFamily ==? AzureLinuxImageFamily then
    IsGPUSKUSupportedOnOS gpuSKUConfig skuName "azurelinux" || IsGPUSKUSupportedOnOS gpuSKUConfig skuName "azurelinux3"
  else if imageFamily ==? AzureContainerLinuxImageFamily then
    IsGPUSKUSupportedOnOS gpuSKUConfig skuName "azurecontainerlinux"
  else false.
Definition isInstanceTypeSupportedByKata (s : SKU) (architecture : string) (p : instanceTypeParameters) : bool :=
  if negb (p_KataEnabled p) then true
  else if getArchitecture architecture !=? ArchitectureAmd64 then false
  else sk_nested s || sk_direct s.
Definition supportsEncryptionAtHost (s : SKU) : bool :=
  match sk_encryptionAtHost s with OSDisk.Found value => EqualFold value "True" | _ => false end.
Definition isInstanceTypeSupportedByEncryptionAtHost (s : SKU) (p : instanceTypeParameters) : bool :=
  if negb (p_EncryptionAtHost p) then true else supportsEncryptionAtHost s.
Definition isInstanceTypeSupportedByTrustedLaunch (s : SKU) (p : instanceTypeParameters) : bool :=
  if negb (p_TrustedLaunch p) then true else default false (sk_trustedLaunch s).
(** [None]: the memory is asked of a size without any. *)
Definition isInstanceTypeSupportedByLocalDNS (s : SKU) (p : instanceTypeParameters) : option bool :=
  if negb (p_LocalDNSRequired p) then Some true
  else match VCPU s with
       | None => Some false
       | Some cpu => match sk_memory s with Some m => Some (SKUMeetsFloor cpu (Resources.memoryMiB m)) | None => None end
       end.
Definition isInstanceTypeSupportedByGPUDriverMode (s : SKU) (p : instanceTypeParameters) : bool :=
  if p_GPUMode p !=? GPUModeDriver then true
  else if negb (IsGPUSKU gpuSKUConfig (GetName s)) then true
  else IsDriverInstallSupported gpuSKUConfig (GetName s).
Definition isInstanceTypeSupportedByArtifactStreaming (architecture : string) (p : instanceTypeParameters) : bool :=
  if negb (p_ArtifactStreamingEnabled p) then true else getArchitecture architecture !=? ArchitectureArm64.

Definition isInstanceTypeSupportedByFilters (s : SKU) (architecture : string) (p : instanceTypeParameters) : option bool :=
  if isArchitectureSupportedByImageFamily architecture (p_ImageFamily p) &&
     isInstanceTypeSupportedByImageFamily (GetName s) (p_ImageFamily p) &&
     isInstanceTypeSupportedByEncryptionAtHost s p then
    match isInstanceTypeSupportedByLocalDNS s p with
    | None => None
    | Some dns =>
        Some (dns && isInstanceTypeSupportedByGPUDriverMode s p &&
              isInstanceTypeSupportedByArtifactStreaming architecture p &&
              isInstanceTypeSupportedByTrustedLaunch s p && isInstanceTypeSupportedByKata s architecture p)
    end
  else Some false.

(** *** Building *)

Definition reserved_zones (p : instanceTypeParameters) (s : SKU) : gset string :=
  match capacityReservationZones p with
  | None => instanceTypeZones s
  | Some byVMSize => instanceTypeZones s ∩ default ∅ (byVMSize !! ToLower (GetName s))
  end.
(** The type of a size, [Some None] when it is left out.  An error is logged
    with the size, which panics when there is none. *)
Definition build_one (src : sources) (p : instanceTypeParameters) (s : SKU) : option (option InstanceType) :=
  match sk_vmsize s with
  | None => match sk_size s with Some _ => Some None | None => None end
  | Some v =>
      match sk_architecture s with
      | None => match sk_size s with Some _ => Some None | None => None end
      | Some architecture =>
          match createOfferings src s (reserved_zones p s) (p_CapacityReservationGroupID p) with
          | None => None
          | Some offerings =>
              match newInstanceType s v offerings p architecture with
              | None => None
              | Some t =>
                  if bool_decide (length (ty_offerings t) = 0%nat) then Some None
                  else match isInstanceTypeSupportedByFilters s architecture p with
                       | None => None
                       | Some supported => Some (if supported then Some t else None)
                       end
              end
          end
      end
  end.
Definition add_type (src : sources) (p : instanceTypeParameters) (info : gmap string SKU) (acc : list InstanceType)
    (name : string) : option (list InstanceType) :=
  match info !! name with
  | None => Some acc
  | Some s => match build_one src p s with
              | Some (Some t) => Some (acc ++ [t])
              | Some None => Some acc
              | None => None
              end
  end.
Definition buildInstanceTypes (info : gmap string SKU) (src : sources) (p : instanceTypeParameters) :
    option (list InstanceType) :=
  fold_panic (add_type src p info) [] (range_keys (dom info)).

(** *** Quota *)

Definition hide_onDemand (o : Offering) : Offering :=
  if of_capacity_type (of_base o) ==? CapacityTypeOnDemand
  then mk_offering (Cloud.mk_offering (of_capacity_type (of_base o)) (of_zone (of_base o)) (of_scope (of_base o))
                     (of_price (of_base o)) false) (of_scaleSetPriority o) (of_priority o) (of_ultraSSD o)
  else o.
Definition without_onDemand (t : InstanceType) : InstanceType :=
  mk_type (ty_name t) (ty_requirements t) (map hide_onDemand (ty_offerings t)) (ty_capacity t) (ty_kubeReserved t)
    (ty_systemReserved t) (ty_eviction t).
Definition apply_quota_to (hasQuotaMap : gmap string bool) (t : InstanceType) : InstanceType :=
  match hasQuotaMap !! ty_name t with
  | None | Some true => t
  | Some false =>
      if existsb (fun o => of_available (of_base o) && (of_capacity_type (of_base o) ==? CapacityTypeOnDemand)) (ty_offerings t)
      then without_onDemand t else t
  end.
Definition applyQuota (info : gmap string SKU) (q : Quota.Provider) (ts : list InstanceType) (group : string) :
    list InstanceType * Z :=
  if group !=? "" then (ts, Quota.SeqNum q)
  else
    let skus := omap (fun t => sk_cloud <$> info !! ty_name t) ts in
    let '(hasQuotaMap, quotaSeqNum) := Quota.HasQuotaForSKUs q skus in
    (map (apply_quota_to hasQuotaMap) ts, quotaSeqNum).

(** *** The provider *)

(** The cache holds the addresses of mutable entries.  [pv_seen] is what the
    change monitor saw last. *)
Record Provider := mk_provider {
  pv_info : gmap string SKU;
  pv_cache : tc nat;
  pv_heap : list cachedInstanceTypes;
  pv_generation : Z;
  pv_seen : option (gmap string SKU)
}.
Definition NewDefaultProvider : Provider := mk_provider ∅ tc_empty [] 0 None.
Definition flush (p : Provider) : Provider :=
  mk_provider (pv_info p) (tc_flush (pv_cache p)) (pv_heap p) (pv_generation p) (pv_seen p).
Definition set_entry (a : nat) (c : cachedInstanceTypes) (p : Provider) : Provider :=
  mk_provider (pv_info p) (pv_cache p) (<[a := c]> (pv_heap p)) (pv_generation p) (pv_seen p).

Definition Get (p : Provider) (instanceType : string) : result string SKU :=
  if bool_decide (size (pv_info p) = 0%nat) then Err "no instance types found"
  else match pv_info p !! instanceType with Some s => Ok s | None => Err "instance type not found" end.

Definition fresh_generation (src : sources) (p : Provider) : Provider :=
  let generation := SeqNum (so_unavailable src) in
  if generation ==? pv_generation p then p
  else mk_provider (pv_info p) (tc_flush (pv_cache p)) (pv_heap p) generation (pv_seen p).

(** The entry of the parameters, built when there is none; [None] when
    building panics. *)
Definition cached_entry (src : sources) (params : instanceTypeParameters) (p : Provider) :
    option (nat * cachedInstanceTypes) * Provider :=
  let key := Hash params in
  match (a ← tc_get (so_now src) key (pv_cache p); c ← pv_heap p !! a; Some (a, c)) with
  | Some ac => (Some ac, p)
  | None =>
      match buildInstanceTypes (pv_info p) src params with
      | None => (None, p)
      | Some base =>
          let a := length (pv_heap p) in
          let c := mk_cached base 0 [] in
          (Some (a, c), mk_provider (pv_info p) (tc_set (so_now src) key a InstanceTypesCacheTTL (pv_cache p))
                          (pv_heap p ++ [c]) (pv_generation p) (pv_seen p))
      end
  end.

(** The list, an error, or ([None]) a panic. *)
Definition List_ (src : sources) (q : Quota.Provider) (c : Class_) (p : Provider) :
    option (result string (list InstanceType)) * Provider :=
  if bool_decide (size (pv_info p) = 0%nat) then (Some (Err "no instance types found"), p)
  else
    let params := parameters options region c in
    let p := fresh_generation src p in
    match cached_entry src params p with
    | (None, p) => (None, p)
    | (Some (a, cached), p) =>
        if negb (bool_decide (c_quota cached = [])) && (c_quotaSeqNum cached ==? Quota.SeqNum q)
        then (Some (Ok (c_quota cached)), p)
        else
          let '(result, quotaSeqNum) := applyQuota (pv_info p) q (c_base cached) (p_CapacityReservationGroupID params) in
          (Some (Ok result), set_entry a (mk_cached (c_base cached) quotaSeqNum result) p)
    end.

(** *** Updates *)

Definition isRetired (retirementCutoff : Z) (s : SKU) : bool :=
  match sk_retirement s with Some (Some date) => date <? retirementCutoff | _ => false end.
Definition hasMinimumCPU (s : SKU) : bool := match VCPU s with Some cpu => 2 <=? cpu | None => false end.
Definition hasMinimumMemory (s : SKU) : bool :=
  match sk_memory s with Some memGiB => GoFloat.leb (GoFloat.literal 7 2) memGiB | None => false end.
Definition isUnsupportedByAKS (s : SKU) : bool := bool_decide (GetName s ∈ AKSRestrictedVMSizes).
Definition isUnsupportedGPU (s : SKU) : bool :=
  match sk_gpu s with
  | Some gpu => if gpu <=? 0 then false else negb (IsGPUSKU gpuSKUConfig (GetName s))
  | None => false
  end.
Definition hasConstrainedCPUs (v : VMSizeType) : bool := bool_decide (is_Some (vs_cpusConstrained v)).
Definition isConfidential (s : SKU) : bool := NodeClassSpec.IsConfidential (from_ptr "" (sk_size s)).
Definition isSupported (s : SKU) (v : VMSizeType) : bool :=
  hasMinimumCPU s && hasMinimumMemory s && negb (isUnsupportedByAKS s) && negb (isUnsupportedGPU s) &&
  negb (hasConstrainedCPUs v) && negb (isConfidential s).

Definition admit_sku (retirementCutoff : Z) (m : gmap string SKU) (s : SKU) : option (gmap string SKU) :=
  if IsRestrictedSKU (GetName s) then Some m
  else if isRetired retirementCutoff s then Some m
  else match sk_vmsize s with
       | None => match sk_size s with Some _ => Some m | None => None end
       | Some v => Some (if negb (sk_restricted s) && isSupported s v then <[GetName s := s]> m else m)
       end.

(** [HasChanged]: the change monitor's answer on what it saw last. *)
Variable HasChanged : option (gmap string SKU) -> gmap string SKU -> bool.

(** [skus]: the sizes the resource API lists, or its error. *)
Definition UpdateInstanceTypes (retirementCutoff : Z) (skus : result string (list SKU)) (p : Provider) :
    option (result string unit) * Provider :=
  match skus with
  | Err e => (Some (Err e), p)
  | Ok skus =>
      match fold_panic (admit_sku retirementCutoff) ∅ skus with
      | None => (None, p)
      | Some instanceTypes =>
          if bool_decide (size instanceTypes = 0%nat) then (Some (Err "no instance types found"), p)
          else
            let p := if HasChanged (pv_seen p) instanceTypes then flush p else p in
            (Some (Ok tt), mk_provider instanceTypes (pv_cache p) (pv_heap p) (pv_generation p) (Some instanceTypes))
      end
  end.
Definition Reset (p : Provider) : Provider :=
  flush (mk_provider ∅ (pv_cache p) (pv_heap p) (pv_generation p) (pv_seen p)).

Definition GetDiskControllerType (s : option SKU) : option string :=
  match s with
  | None => None
  | Some s =>
      match sk_diskControllers s with
      | OSDisk.Found controllers =>
          let names := map TrimSpace (Split controllers ",") in
          if existsb (fun c => EqualFold c "SCSI") names then None
          else if existsb (fun c => EqualFold c "NVMe") names then Some "NVMe" else None
      | _ => None
      end
  end.

(** ** Offerings of a size *)

Lemma zone_offerings_shape src s group zone l :
  zone_offerings src s group zone = Some l ->
  Forall (fun o =>
    of_zone (of_base o) = zone /\ of_scope (of_base o) = Zones.PlacementScopeForZone zone /\
    ((of_capacity_type (of_base o) = CapacityTypeOnDemand /\ of_priority o = PriorityRegular /\ of_scaleSetPriority o = PriorityRegular) \/
     (of_capacity_type (of_base o) = CapacityTypeSpot /\ of_priority o = PrioritySpot /\ of_scaleSetPriority o = PrioritySpot /\ group = "")) /\
    (of_ultraSSD o = ["false"] \/ (of_ultraSSD o = ["true"; "false"] /\ group = ""))) l /\
  map (fun o => of_capacity_type (of_base o)) l =
    (if group ==? "" then [CapacityTypeOnDemand; CapacityTypeSpot] else [CapacityTypeOnDemand]).
Proof.
  unfold zone_offerings. destruct (ultraSSDOptions s zone) as [ultra|] eqn:U; [|done].
  assert (V : ultra = ["false"] \/ ultra = ["true"; "false"]).
  { unfold ultraSSDOptions in U. repeat case_match; simplify_eq; auto. }
  intros [= <-]. destruct (decide (group = "")) as [->|G]; cbn [negb].
  - rewrite bool_decide_eq_true_2 by done. cbn [negb]. split; [|done].
    repeat (apply Forall_cons; split; [cbn; do 2 (split; [done|]); split; [by auto|destruct V; by auto]|]). by apply Forall_nil.
  - rewrite bool_decide_eq_false_2 by done. cbn [negb]. split; [|done].
    repeat (apply Forall_cons; split; [cbn; do 2 (split; [done|]); split; [by auto|destruct V; by auto]|]). by apply Forall_nil.
Qed.

Lemma range_NoDup s : NoDup (range_keys s).
Proof. rewrite range_keys_perm. apply NoDup_elements. Qed.

(** No zone and capacity type is offered twice. *)
Lemma createOfferings_NoDup src s zones group l :
  createOfferings src s zones group = Some l ->
  NoDup (map (fun o => (of_zone (of_base o), of_capacity_type (of_base o))) l).
Proof.
  intros C. apply fold_collect in C as (ys & M & ->). cbn [app].
  pose proof (range_NoDup zones) as N. revert ys M. induction N as [|z zs Nz _ IH]; intros ys M; cbn in M.
  - injection M as <-. constructor.
  - destruct (zone_offerings src s group z) as [l|] eqn:Z; [|done]. cbn in M.
    destruct (mapM (zone_offerings src s group) zs) as [ls|] eqn:Ms; [|done]. injection M as <-.
    apply zone_offerings_shape in Z as [F T]. cbn [concat]. rewrite map_app. apply NoDup_app. split; [|split; [|by apply IH]].
    + assert (E : map (fun o => (of_zone (of_base o), of_capacity_type (of_base o))) l =
        map (pair z) (map (fun o => of_capacity_type (of_base o)) l)).
      { rewrite map_map. apply map_ext_in. intros o Ho. apply list_elem_of_In in Ho.
        rewrite Forall_forall in F. by destruct (F o Ho) as (-> & _). }
      rewrite E, T. destruct (group ==? ""); repeat constructor; set_solver.
    + intros [z' ct] I1 I2. apply list_elem_of_fmap in I1 as (o & [= -> ->] & Ho).
      apply list_elem_of_fmap in I2 as (o' & [= Ez _] & Ho'). apply elem_of_concat in Ho' as (l' & Ho' & Hl').
      apply (mapM_elem _ _ _ _ Ms) in Hl' as (z' & Hz' & Zz'). apply zone_offerings_shape in Zz' as [F' _].
      rewrite Forall_forall in F, F'. destruct (F o Ho) as (Eo & _). destruct (F' o' Ho') as (Eo' & _). congruence.
Qed.

Lemma createOfferings_elem src s zones group l o :
  createOfferings src s zones group = Some l ->
  (o ∈ l <-> exists zone l', zone ∈ zones /\ zone_offerings src s group zone = Some l' /\ o ∈ l').
Proof.
  intros C. apply fold_collect in C as (ys & M & ->). cbn [app]. rewrite elem_of_concat.
  setoid_rewrite (fun y => mapM_elem _ _ _ y M). setoid_rewrite elem_of_range. naive_solver.
Qed.

(** ** Requirements of a type *)

Lemma values_insert_ne label value label' reqs :
  label <> label' -> values (insert_value label value reqs) label' = values reqs label'.
Proof. intros N. unfold values, insert_value. by rewrite lookup_insert_ne. Qed.
Lemma values_insert_if_ne b label value label' reqs :
  label <> label' -> values (insert_if b label value reqs) label' = values reqs label'.
Proof. intros N. destruct b; [by apply values_insert_ne|done]. Qed.

Ltac closed_ne := apply (bool_decide_unpack _); vm_compute; exact I.

Lemma values_gpu s v reqs label :
  label <> LabelSKUGPUManufacturer -> label <> LabelSKUGPUName -> values (setRequirementsGPU s v reqs) label = values reqs label.
Proof.
  intros N1 N2. unfold setRequirementsGPU. case_match; [|done]. case_match; by rewrite ?values_insert_ne by done.
Qed.

(** The values of a label of the base requirements. *)
Ltac base_value :=
  unfold computeRequirements, setRequirementsVersion, setRequirementsHyperVGeneration, setRequirementsEphemeralOSDiskSupported;
  repeat rewrite values_insert_if_ne by closed_ne; rewrite values_gpu by closed_ne;
  repeat rewrite values_insert_if_ne by closed_ne; repeat rewrite values_insert_ne by closed_ne;
  unfold values, list_to_map; cbn [foldr fmap list_fmap In_ DoesNotExist fst snd];
  repeat rewrite lookup_insert_ne by closed_ne; rewrite lookup_insert_eq; reflexivity.

Lemma values_zone vcpus m s v arch offs p :
  values (computeRequirements vcpus m s v arch offs p) AKSMachine.LabelTopologyZone =
  list_to_set (map of_zone (map of_base (Available offs))).
Proof. base_value. Qed.
Lemma values_capacity_type vcpus m s v arch offs p :
  values (computeRequirements vcpus m s v arch offs p) AKSMachine.CapacityTypeLabelKey =
  list_to_set (map of_capacity_type (map of_base (Available offs))).
Proof. base_value. Qed.
Lemma values_scope vcpus m s v arch offs p :
  values (computeRequirements vcpus m s v arch offs p) AKSMachine.LabelPlacementScope =
  list_to_set (map of_scope (map of_base (Available offs))).
Proof. base_value. Qed.
Lemma values_ultra vcpus m s v arch offs p :
  values (computeRequirements vcpus m s v arch offs p) AKSMachine.LabelUltraSSD =
  list_to_set (concat (map of_ultraSSD (Available offs))).
Proof. base_value. Qed.
Lemma values_name vcpus m s v arch offs p :
  values (computeRequirements vcpus m s v arch offs p) LabelInstanceTypeStable = {[ GetName s ]} ∪ ∅.
Proof. base_value. Qed.
Lemma values_cpu vcpus m s v arch offs p :
  values (computeRequirements vcpus m s v arch offs p) LabelSKUCPU = {[ pretty vcpus ]} ∪ ∅.
Proof. base_value. Qed.
Lemma values_memory vcpus m s v arch offs p :
  values (computeRequirements vcpus m s v arch offs p) LabelSKUMemory = {[ pretty m ]} ∪ ∅.
Proof. base_value. Qed.
Lemma values_arch vcpus m s v arch offs p :
  values (computeRequirements vcpus m s v arch offs p) LabelArchStable = {[ getArchitecture arch ]} ∪ ∅.
Proof. base_value. Qed.
Lemma values_cluster vcpus m s v arch offs p :
  values (computeRequirements vcpus m s v arch offs p) AKSLabelCluster = list_to_set [NormalizeClusterResourceGroupNameForLabel (Options.NodeResourceGroup options)].
Proof. base_value. Qed.
Lemma values_mode vcpus m s v arch offs p :
  values (computeRequirements vcpus m s v arch offs p) AKSLabelMode = list_to_set [ModeSystem; ModeUser].
Proof. base_value. Qed.
Lemma values_scale_set_priority vcpus m s v arch offs p :
  values (computeRequirements vcpus m s v arch offs p) AKSMachine.AKSLabelScaleSetPriority = list_to_set [PriorityRegular; PrioritySpot].
Proof. base_value. Qed.
Lemma values_priority vcpus m s v arch offs p :
  values (computeRequirements vcpus m s v arch offs p) AKSMachine.AKSLabelPriority = list_to_set [PriorityRegular; PrioritySpot].
Proof. base_value. Qed.
Lemma values_os_sku vcpus m s v arch offs p :
  values (computeRequirements vcpus m s v arch offs p) AKSLabelOSSKU = list_to_set [GetOSSKUFromImageFamily (p_ImageFamily p)].
Proof. base_value. Qed.

(** ** Well-formed types *)

(** What Karpenter relies on in a type of a group: at most one offering per
    zone and capacity type, whose placement scope and priority labels agree
    with them, spot and ultra disks only outside reservations, and
    requirements that admit every available offering and nothing that is not
    offered. *)
Record well_formed (group : string) (t : InstanceType) : Prop := {
  wf_offered : ty_offerings t <> [];
  wf_exclusive : NoDup (map (fun o => (of_zone (of_base o), of_capacity_type (of_base o))) (ty_offerings t));
  wf_offering o : o ∈ ty_offerings t ->
    of_scope (of_base o) = Zones.PlacementScopeForZone (of_zone (of_base o)) /\
    ((of_capacity_type (of_base o) = CapacityTypeOnDemand /\ of_priority o = PriorityRegular /\ of_scaleSetPriority o = PriorityRegular) \/
     (of_capacity_type (of_base o) = CapacityTypeSpot /\ of_priority o = PrioritySpot /\ of_scaleSetPriority o = PrioritySpot /\ group = "")) /\
    (of_ultraSSD o = ["false"] \/ (of_ultraSSD o = ["true"; "false"] /\ group = ""));
  wf_admits o : o ∈ ty_offerings t -> of_available (of_base o) = true ->
    of_zone (of_base o) ∈ values (ty_requirements t) AKSMachine.LabelTopologyZone /\
    of_capacity_type (of_base o) ∈ values (ty_requirements t) AKSMachine.CapacityTypeLabelKey /\
    of_scope (of_base o) ∈ values (ty_requirements t) AKSMachine.LabelPlacementScope;
  wf_offers zone : zone ∈ values (ty_requirements t) AKSMachine.LabelTopologyZone ->
    exists o, o ∈ ty_offerings t /\ of_zone (of_base o) = zone;
  wf_name : values (ty_requirements t) LabelInstanceTypeStable = {[ ty_name t ]}
}.

Lemma elem_of_available o l : o ∈ Available l <-> o ∈ l /\ of_available (of_base o) = true.
Proof. unfold Available. rewrite list_elem_of_filter, Is_true_true. naive_solver. Qed.

Lemma new_type_fields s v offs p arch t :
  newInstanceType s v offs p arch = Some t ->
  ty_name t = GetName s /\ ty_offerings t = offs /\ exists vcpus m,
    VCPU s = Some vcpus /\ sk_memory s = Some m /\
    ty_requirements t = computeRequirements vcpus (Resources.memoryMiB m) s v arch offs p.
Proof. unfold newInstanceType. repeat case_match; intros [= <-]; try done. split; [done|]. split; [done|]. by eexists _, _. Qed.

Lemma new_type_well_formed src s v zones p arch offs t :
  createOfferings src s zones (p_CapacityReservationGroupID p) = Some offs -> offs <> [] ->
  newInstanceType s v offs p arch = Some t -> well_formed (p_CapacityReservationGroupID p) t.
Proof.
  intros C N T. apply new_type_fields in T as (En & Eo & vcpus & m & _ & _ & Er).
  pose proof (createOfferings_NoDup _ _ _ _ _ C) as D.
  split; rewrite ?En, ?Eo, ?Er, ?values_zone, ?values_capacity_type, ?values_scope, ?values_name; [done|done|..].
  - intros o Ho. apply (createOfferings_elem _ _ _ _ _ o C) in Ho as (zone & l' & _ & Z & Ho).
    apply zone_offerings_shape in Z as [F _]. rewrite Forall_forall in F. destruct (F o Ho) as (-> & ? & ? & ?). done.
  - intros o Ho A. rewrite !elem_of_list_to_set, !map_map.
    assert (Av : o ∈ Available offs) by by apply elem_of_available.
    split; [|split]; apply list_elem_of_fmap; by exists o.
  - intros zone Z. rewrite elem_of_list_to_set, map_map in Z. apply list_elem_of_fmap in Z as (o & -> & Ho).
    apply elem_of_available in Ho as [Ho _]. by exists o.
  - by rewrite (right_id_L ∅ (∪)).
Qed.

(** Quota only hides offerings. *)
Lemma apply_quota_well_formed m group t : well_formed group t -> well_formed group (apply_quota_to m t).
Proof.
  unfold apply_quota_to. intros [O X F A Z N]. destruct (m !! ty_name t) as [[|]|]; [done| |done].
  destruct (existsb _ _); [|done]. unfold without_onDemand.
  assert (K : forall o, of_zone (of_base (hide_onDemand o)) = of_zone (of_base o) /\
    of_capacity_type (of_base (hide_onDemand o)) = of_capacity_type (of_base o) /\
    of_scope (of_base (hide_onDemand o)) = of_scope (of_base o) /\ of_priority (hide_onDemand o) = of_priority o /\
    of_scaleSetPriority (hide_onDemand o) = of_scaleSetPriority o /\ of_ultraSSD (hide_onDemand o) = of_ultraSSD o /\
    (of_available (of_base (hide_onDemand o)) = true -> of_available (of_base o) = true)).
  { intros o. unfold hide_onDemand. case_bool_decide; cbn; done. }
  split; cbn [ty_offerings ty_requirements ty_name]; [|..|done].
  - by destruct (ty_offerings t).
  - rewrite map_map. erewrite map_ext; [exact X|]. intros o. destruct (K o) as (K1 & K2 & _). by rewrite K1, K2.
  - intros o (o' & -> & Ho)%list_elem_of_fmap. destruct (K o') as (K1 & K2 & K3 & K4 & K5 & K6 & _).
    rewrite K1, K2, K3, K4, K5, K6. by apply F.
  - intros o (o' & -> & Ho)%list_elem_of_fmap Av. destruct (K o') as (K1 & K2 & K3 & K4 & K5 & K6 & K7).
    rewrite K1, K2, K3. by apply A, K7.
  - intros zone Hz. destruct (Z zone Hz) as (o & Ho & Eo). exists (hide_onDemand o).
    destruct (K o) as (K1 & _). split; [apply list_elem_of_fmap; by exists o|congruence].
Qed.

(** ** What is listed *)

(** The type a size contributes, as a list. *)
Definition build_list (src : sources) (p : instanceTypeParameters) (info : gmap string SKU) (name : string) :
    option (list InstanceType) :=
  match info !! name with
  | None => Some []
  | Some s => match build_one src p s with Some (Some t) => Some [t] | Some None => Some [] | None => None end
  end.

Lemma build_collects info src p :
  buildInstanceTypes info src p = (fun ys => concat ys) <$> mapM (build_list src p info) (range_keys (dom info)).
Proof.
  unfold buildInstanceTypes. rewrite (fold_collects _ (build_list src p info)); [done|].
  intros acc name. unfold add_type, build_list. repeat case_match; by rewrite ?app_nil_r.
Qed.

Lemma build_elem info src p ts t :
  buildInstanceTypes info src p = Some ts ->
  (t ∈ ts <-> exists name s, info !! name = Some s /\ build_one src p s = Some (Some t)).
Proof.
  rewrite build_collects. destruct (mapM _ _) as [ys|] eqn:M; [|done]. cbn. intros [= <-].
  rewrite elem_of_concat. setoid_rewrite (fun y => mapM_elem _ _ _ y M). setoid_rewrite elem_of_range.
  setoid_rewrite elem_of_dom. unfold build_list. split.
  - intros (l & Ht & name & _ & B). destruct (info !! name) as [s|] eqn:I; [|injection B as <-; by apply not_elem_of_nil in Ht].
    exists name, s. split; [done|]. destruct (build_one src p s) as [[t'|]|]; simplify_eq; [|by apply not_elem_of_nil in Ht].
    by apply list_elem_of_singleton in Ht as ->.
  - intros (name & s & I & B). exists [t]. split; [by left|]. exists name. by rewrite I, B.
Qed.

Lemma build_types_total info src p :
  is_Some (buildInstanceTypes info src p) <-> forall name s, info !! name = Some s -> is_Some (build_one src p s).
Proof.
  rewrite build_collects. rewrite fmap_is_Some, mapM_is_Some, Forall_forall. setoid_rewrite elem_of_range.
  setoid_rewrite elem_of_dom. unfold build_list. split.
  - intros F name s I. destruct (F name) as [l L]; [by eexists|]. rewrite I in L. destruct (build_one src p s); [by eexists|done].
  - intros F name [s I]. unfold compose. rewrite I. destruct (F name s I) as [[t|] ->]; by eexists.
Qed.

(** Why a size is listed: it can be parsed, there is a zone for it, and the
    filters let it through. *)
Lemma build_one_some src p s t :
  build_one src p s = Some (Some t) <->
  exists v arch offs, sk_vmsize s = Some v /\ sk_architecture s = Some arch /\
    createOfferings src s (reserved_zones p s) (p_CapacityReservationGroupID p) = Some offs /\ offs <> [] /\
    newInstanceType s v offs p arch = Some t /\ isInstanceTypeSupportedByFilters s arch p = Some true.
Proof.
  unfold build_one. split.
  - destruct (sk_vmsize s) as [v|]; [|by destruct (sk_size s)].
    destruct (sk_architecture s) as [arch|]; [|by destruct (sk_size s)].
    destruct (createOfferings _ _ _ _) as [offs|] eqn:C; [|done].
    destruct (newInstanceType s v offs p arch) as [t'|] eqn:T; [|done].
    destruct (new_type_fields _ _ _ _ _ _ T) as (_ & Eo & _). rewrite Eo.
    case_bool_decide as L; [done|]. destruct (isInstanceTypeSupportedByFilters s arch p) as [[|]|] eqn:F; [|done..].
    intros [= <-]. exists v, arch, offs. split; [done|]. split; [done|]. split; [done|]. split; [by intros ->|]. done.
  - intros (v & arch & offs & -> & -> & -> & N & T & F). rewrite T.
    destruct (new_type_fields _ _ _ _ _ _ T) as (_ & Eo & _). rewrite Eo, F.
    rewrite bool_decide_eq_false_2; [done|]. by destruct offs.
Qed.

(** ** The uncached provider *)

Definition uncached (info : gmap string SKU) (src : sources) (q : Quota.Provider) (params : instanceTypeParameters) :
    option (list InstanceType) :=
  base ← buildInstanceTypes info src params;
  Some (applyQuota info q base (p_CapacityReservationGroupID params)).1.

Lemma apply_quota_elem info q base group t :
  t ∈ (applyQuota info q base group).1 ->
  exists t', t' ∈ base /\ (t = t' \/ exists m, t = apply_quota_to m t').
Proof.
  unfold applyQuota. destruct (negb _); cbn [fst]; [intros Ht; exists t; auto|].
  destruct (Quota.HasQuotaForSKUs _ _) as [m n]. cbn [fst]. intros (t' & -> & Ht)%list_elem_of_fmap. exists t'. eauto.
Qed.

Lemma uncached_well_formed info src q params ts :
  uncached info src q params = Some ts -> Forall (well_formed (p_CapacityReservationGroupID params)) ts.
Proof.
  unfold uncached. destruct (buildInstanceTypes info src params) as [base|] eqn:B; [|done]. intros [= <-].
  apply Forall_forall. intros t Ht. apply apply_quota_elem in Ht as (t' & Ht & K).
  apply (build_elem _ _ _ _ t' B) in Ht as (name & s & _ & O).
  apply build_one_some in O as (v & arch & offs & _ & _ & C & N & T & _).
  pose proof (new_type_well_formed _ _ _ _ _ _ _ _ C N T) as W.
  destruct K as [->|[m ->]]; [done|by apply apply_quota_well_formed].
Qed.

(** ** Parameters that mean the same *)

(** Two parameters with the same placements, in any order. *)
Definition same_parameters (p p' : instanceTypeParameters) : Prop :=
  p' = mk_params (p_ImageFamily p) (p_OSDiskSizeGB p) (p_OSDiskType p) (p_MaxPods p) (p_EncryptionAtHost p)
         (p_TrustedLaunch p) (p_GPUMode p) (p_ArtifactStreamingEnabled p) (p_FIPSMode p) (p_LocalDNSRequired p)
         (p_KubeReserved p) (p_EvictionHard p) (p_CapacityReservationGroupID p) (p_CapacityReservations p') (p_KataEnabled p) /\
  forall pl, pl ∈ p_CapacityReservations p <-> pl ∈ p_CapacityReservations p'.

Definition add_placement (m : gmap string (gset string)) (pl : capacityReservationPlacement) : gmap string (gset string) :=
  <[pl_VMSize pl := {[ pl_Zone pl ]} ∪ default ∅ (m !! pl_VMSize pl)]> m.
Lemma placements_lookup l m size zone :
  zone ∈ (default ∅ (fold_left add_placement l m !! size) : gset string) <->
  zone ∈ (default ∅ (m !! size) : gset string) \/ mk_placement size zone ∈ l.
Proof.
  revert m. induction l as [|[sz z] l IH]; intros m; cbn [fold_left].
  - rewrite elem_of_nil. naive_solver.
  - rewrite IH, elem_of_cons. unfold add_placement. cbn. destruct (decide (sz = size)) as [->|N].
    + rewrite lookup_insert_eq. cbn. rewrite elem_of_union, elem_of_singleton. naive_solver.
    + rewrite lookup_insert_ne by done. naive_solver.
Qed.

Lemma reserved_zones_same p p' s : same_parameters p p' -> reserved_zones p s = reserved_zones p' s.
Proof.
  intros [E Pl]. assert (G : p_CapacityReservationGroupID p' = p_CapacityReservationGroupID p) by by rewrite E.
  unfold reserved_zones, capacityReservationZones. rewrite G. case_bool_decide; [done|]. f_equal.
  apply set_eq. intros zone. pose proof (placements_lookup (p_CapacityReservations p) ∅ (ToLower (GetName s)) zone) as L.
  pose proof (placements_lookup (p_CapacityReservations p') ∅ (ToLower (GetName s)) zone) as L'.
  unfold add_placement in L, L'. rewrite L, L', Pl. done.
Qed.

Lemma build_one_same src p p' s : same_parameters p p' -> build_one src p s = build_one src p' s.
Proof.
  intros S. unfold build_one. rewrite (reserved_zones_same p p' s S). destruct S as [E _].
  assert (G : p_CapacityReservationGroupID p' = p_CapacityReservationGroupID p) by by rewrite E. rewrite G.
  destruct (sk_vmsize s) as [v|]; [|done]. destruct (sk_architecture s) as [arch|]; [|done].
  destruct (createOfferings _ _ _ _) as [offs|]; [|done].
  assert (T : newInstanceType s v offs p' arch = newInstanceType s v offs p arch) by by rewrite E.
  assert (F : isInstanceTypeSupportedByFilters s arch p' = isInstanceTypeSupportedByFilters s arch p) by by rewrite E.
  by rewrite T, F.
Qed.

Lemma uncached_same info src q p p' : same_parameters p p' -> uncached info src q p = uncached info src q p'.
Proof.
  intros S. unfold uncached. assert (B : buildInstanceTypes info src p = buildInstanceTypes info src p').
  { rewrite !build_collects. f_equal. apply Forall_mapM_ext, Forall_forall. intros name _. unfold build_list.
    destruct (info !! name) as [s|]; [|done]. by rewrite (build_one_same src p p'). }
  rewrite B. destruct S as [E _]. by assert (p_CapacityReservationGroupID p' = p_CapacityReservationGroupID p) as -> by by rewrite E.
Qed.

(** ** The cache against the uncached provider *)

(** What happens to the provider: lists, updates and resets, one at a time as
    its locks have it. *)
Inductive event :=
| EvList (src : sources) (q : Quota.Provider) (c : Class_)
| EvUpdate (retirementCutoff : Z) (skus : result string (list SKU))
| EvReset.
Definition step (p : Provider) (e : event) : Provider :=
  match e with
  | EvList src q c => (List_ src q c p).2
  | EvUpdate cutoff skus => (UpdateInstanceTypes cutoff skus p).2
  | EvReset => Reset p
  end.
Definition reach (evs : list event) : Provider := fold_left step evs NewDefaultProvider.

(** The abstract provider only knows the sizes of the last update. *)
Definition abstract_step (info : gmap string SKU) (e : event) : gmap string SKU :=
  match e with
  | EvList _ _ _ => info
  | EvUpdate cutoff (Ok skus) =>
      match fold_panic (admit_sku cutoff) ∅ skus with
      | Some new => if bool_decide (size new = 0%nat) then info else new
      | None => info
      end
  | EvUpdate _ (Err _) => info
  | EvReset => ∅
  end.
Definition abstract_info (evs : list event) : gmap string SKU := fold_left abstract_step evs ∅.

Definition sources_of (evs : list event) : list sources := omap (fun e => match e with EvList s _ _ => Some s | _ => None end) evs.
Definition quotas_of (evs : list event) : list Quota.Provider := omap (fun e => match e with EvList _ q _ => Some q | _ => None end) evs.
Definition classes_of (evs : list event) : list Class_ := omap (fun e => match e with EvList _ _ c => Some c | _ => None end) evs.

(** What the abstract provider may answer: it recomputes the list, from sources
    and quota of the version of the current ones that were current at some list
    so far. *)
Inductive may_answer (evs : list event) (info : gmap string SKU) (src : sources) (q : Quota.Provider)
    (params : instanceTypeParameters) : option (result string (list InstanceType)) -> Prop :=
| may_be_empty : size info = 0%nat -> may_answer evs info src q params (Some (Err "no instance types found"))
| may_panic : size info <> 0%nat -> uncached info src q params = None -> may_answer evs info src q params None
| may_list src' q' ts :
    size info <> 0%nat -> src' ∈ sources_of evs -> q' ∈ quotas_of evs ->
    SeqNum (so_unavailable src') = SeqNum (so_unavailable src) -> Quota.SeqNum q' = Quota.SeqNum q ->
    uncached info src' q' params = Some ts -> may_answer evs info src q params (Some (Ok ts)).

#[local] Abbreviation params c := (parameters options region c).

(** The hash tells apart what is listed, and the monitor sees every change. *)
Definition faithful_hash (evs : list event) : Prop :=
  forall c c', c ∈ classes_of evs -> c' ∈ classes_of evs -> Hash (params c) = Hash (params c') -> same_parameters (params c) (params c').
Definition sound_monitor : Prop := forall seen new, HasChanged seen new = false -> seen = Some new.

Definition entry_ok (evs : list event) (p : Provider) (key : string) (c : cachedInstanceTypes) : Prop :=
  exists cl src', cl ∈ classes_of evs /\ Hash (params cl) = key /\ src' ∈ sources_of evs /\
    SeqNum (so_unavailable src') = pv_generation p /\ buildInstanceTypes (pv_info p) src' (params cl) = Some (c_base c) /\
    (c_quota c = [] \/ exists q', q' ∈ quotas_of evs /\ Quota.SeqNum q' = c_quotaSeqNum c /\
       c_quota c = (applyQuota (pv_info p) q' (c_base c) (p_CapacityReservationGroupID (params cl))).1).

Record coherent (evs : list event) (p : Provider) : Prop := {
  co_seen : pv_seen p = Some (pv_info p) \/ (size (pv_info p) = 0%nat /\ forall t k, tc_get t k (pv_cache p) = None);
  co_entry t k a : tc_get t k (pv_cache p) = Some a -> exists c, pv_heap p !! a = Some c /\ entry_ok evs p k c;
  co_own t t' k k' a : tc_get t k (pv_cache p) = Some a -> tc_get t' k' (pv_cache p) = Some a -> k = k'
}.

Context `{!TTLCacheLaws}.

Lemma entry_ok_mono evs evs' p key c :
  evs ⊆ evs' -> entry_ok evs p key c -> entry_ok evs' p key c.
Proof.
  intros S (cl & src' & Hc & K & Hs & G & B & Q). exists cl, src'.
  assert (M : forall A (f : event -> option A) x, x ∈ omap f evs -> x ∈ omap f evs').
  { intros A f x. rewrite !list_elem_of_omap. intros (e & He & Ef). exists e. split; [by apply S|done]. }
  repeat split; try done; [by apply M|by apply M|]. destruct Q as [Q|(q' & Hq & Q)]; [by left|right]. exists q'. split; [by apply M|done].
Qed.

Lemma coherent_mono evs evs' p : evs ⊆ evs' -> coherent evs p -> coherent evs' p.
Proof.
  intros S [C1 C2 C3]. split; [done| |done]. intros t k a G. destruct (C2 t k a G) as (c & L & O).
  exists c. split; [done|by eapply entry_ok_mono].
Qed.

(** A provider with an empty cache. *)
Lemma coherent_empty evs p :
  pv_seen p = Some (pv_info p) \/ size (pv_info p) = 0%nat -> (forall t k, tc_get t k (pv_cache p) = None) -> coherent evs p.
Proof. intros S N. split; [naive_solver|..]; intros *; by rewrite N. Qed.

Lemma coherent_generation evs src p : coherent evs p -> coherent evs (fresh_generation src p).
Proof.
  intros C. unfold fresh_generation. case_bool_decide; [done|]. destruct (co_seen _ _ C) as [S|[S _]];
    (apply coherent_empty; [cbn; auto|]); intros t k; apply tc_get_flush.
Qed.

Lemma fresh_generation_fields src p :
  pv_info (fresh_generation src p) = pv_info p /\ pv_seen (fresh_generation src p) = pv_seen p /\
  pv_generation (fresh_generation src p) = SeqNum (so_unavailable src).
Proof. unfold fresh_generation. by case_bool_decide. Qed.

Lemma quota_seq info q base group : (applyQuota info q base group).2 = Quota.SeqNum q.
Proof. unfold applyQuota, Quota.HasQuotaForSKUs, Quota.SeqNum. by destruct (negb _). Qed.

(** The entry that is found or made is right and stays so. *)
Lemma cached_entry_coherent evs src c p a e p' :
  coherent evs p -> size (pv_info p) <> 0%nat -> c ∈ classes_of evs -> src ∈ sources_of evs ->
  pv_generation p = SeqNum (so_unavailable src) ->
  cached_entry src (params c) p = (Some (a, e), p') ->
  coherent evs p' /\ pv_info p' = pv_info p /\ pv_heap p' !! a = Some e /\ entry_ok evs p' (Hash (params c)) e /\
  (forall t k, tc_get t k (pv_cache p') = Some a -> k = Hash (params c)).
Proof.
  intros C Ne Hc Hs G. unfold cached_entry.
  destruct (tc_get (so_now src) (Hash (params c)) (pv_cache p)) as [a0|] eqn:T; cbn [mbind option_bind].
  - destruct (co_entry _ _ C _ _ _ T) as (e0 & L & O). rewrite L. cbn. intros [= <- <- <-].
    do 4 (split; [done|]). intros t k Tk. by apply (co_own _ _ C t (so_now src) k _ a0).
  - destruct (buildInstanceTypes (pv_info p) src (params c)) as [base|] eqn:B; [|done]. intros [= <- <- <-].
    assert (O : entry_ok evs (mk_provider (pv_info p) (tc_set (so_now src) (Hash (params c)) (length (pv_heap p)) InstanceTypesCacheTTL (pv_cache p))
      (pv_heap p ++ [mk_cached base 0 []]) (pv_generation p) (pv_seen p)) (Hash (params c)) (mk_cached base 0 [])).
    { exists c, src. cbn. repeat split; try done. by left. }
    assert (Ge : forall t k a, tc_get t k (tc_set (so_now src) (Hash (params c)) (length (pv_heap p)) InstanceTypesCacheTTL (pv_cache p)) = Some a ->
      (k = Hash (params c) /\ a = length (pv_heap p)) \/ (k <> Hash (params c) /\ tc_get t k (pv_cache p) = Some a /\ (a < length (pv_heap p))%nat)).
    { intros t k a Tk. destruct (decide (k = Hash (params c))) as [->|N].
      - rewrite tc_get_set_eq in Tk by (unfold InstanceTypesCacheTTL; go_dur). case_decide; [|done]. injection Tk as <-. by left.
      - rewrite tc_get_set_ne in Tk by done. right. split; [done|]. split; [done|].
        destruct (co_entry _ _ C _ _ _ Tk) as (e0 & L & _). by apply lookup_lt_Some in L. }
    split; [|split; [done|split; [|split; [done|]]]].
    + split; cbn.
      * left. destruct (co_seen _ _ C) as [?|[? _]]; done.
      * intros t k a Tk. destruct (Ge t k a Tk) as [[-> ->]|(N & Tk' & La)].
        -- exists (mk_cached base 0 []). split; [by apply list_lookup_middle|done].
        -- destruct (co_entry _ _ C _ _ _ Tk') as (e0 & L & O'). exists e0. split; [by rewrite lookup_app_l|done].
      * intros t t' k k' a T1 T2. destruct (Ge t k a T1) as [[-> ->]|(N1 & T1' & L1)]; destruct (Ge t' k' _ T2) as [[-> E2]|(N2 & T2' & L2)];
          [done|lia|lia|by apply (co_own _ _ C t t' k k' a)].
    + cbn. by apply list_lookup_middle.
    + cbn. intros t k Tk. destruct (Ge t k _ Tk) as [[-> _]|(_ & _ & L)]; [done|lia].
Qed.

(** Writing a right entry back. *)
Lemma set_entry_coherent evs p a key e :
  coherent evs p -> is_Some (pv_heap p !! a) -> entry_ok evs p key e ->
  (forall t k, tc_get t k (pv_cache p) = Some a -> k = key) -> coherent evs (set_entry a e p).
Proof.
  intros C Ha O Own. split; cbn; [apply C| |apply C]. intros t k b Tk.
  destruct (decide (a = b)) as [->|N].
  - exists e. rewrite list_lookup_insert_eq by (destruct Ha as [? Ha]; by apply lookup_lt_Some in Ha).
    split; [done|]. by rewrite (Own t k Tk).
  - rewrite list_lookup_insert_ne by done. destruct (co_entry _ _ C t k b Tk) as (e0 & L & O'). by exists e0.
Qed.

(** The answer an entry gives. *)
Lemma entry_answers evs p src q c e :
  faithful_hash evs -> c ∈ classes_of evs -> size (pv_info p) <> 0%nat -> entry_ok evs p (Hash (params c)) e ->
  pv_generation p = SeqNum (so_unavailable src) ->
  (forall q', q' ∈ quotas_of evs -> Quota.SeqNum q' = Quota.SeqNum q ->
     may_answer evs (pv_info p) src q (params c) (Some (Ok (applyQuota (pv_info p) q' (c_base e) (p_CapacityReservationGroupID (params c))).1))) /\
  exists cl, cl ∈ classes_of evs /\ Hash (params cl) = Hash (params c) /\
    p_CapacityReservationGroupID (params cl) = p_CapacityReservationGroupID (params c).
Proof.
  intros F Hc Ne (cl & src' & Hcl & K & Hs & G & B & _) G'.
  pose proof (F cl c Hcl Hc K) as S.
  assert (Gr : p_CapacityReservationGroupID (params c) = p_CapacityReservationGroupID (params cl)) by by rewrite (proj1 S).
  split; [|by exists cl]. intros q' Hq Sq. apply (may_list _ _ _ _ _ src' q'); [done|done|done|congruence|done|].
  rewrite <- (uncached_same _ _ _ _ _ S). unfold uncached. rewrite B. cbn [mbind option_bind]. by rewrite Gr.
Qed.

Lemma build_same info src p p' : same_parameters p p' -> buildInstanceTypes info src p = buildInstanceTypes info src p'.
Proof.
  intros S. rewrite !build_collects. f_equal. apply Forall_mapM_ext, Forall_forall. intros name _. unfold build_list.
  destruct (info !! name) as [s|]; [|done]. by rewrite (build_one_same src p p').
Qed.

Lemma list_step evs src q c p :
  faithful_hash evs -> coherent evs p -> c ∈ classes_of evs -> src ∈ sources_of evs -> q ∈ quotas_of evs ->
  coherent evs (List_ src q c p).2 /\ pv_info (List_ src q c p).2 = pv_info p /\
  may_answer evs (pv_info p) src q (params c) (List_ src q c p).1.
Proof.
  intros F C Hc Hs Hq. unfold List_. case_bool_decide as Ne; [split; [done|split; [done|by apply may_be_empty]]|].
  pose proof (coherent_generation evs src p C) as C1. destruct (fresh_generation_fields src p) as (I1 & S1 & G1).
  set (p1 := fresh_generation src p) in *.
  destruct (cached_entry src (params c) p1) as [[[a e]|] p2] eqn:E.
  - destruct (cached_entry_coherent evs src c p1 a e p2) as (C2 & I2 & L2 & O2 & Own); [done|by rewrite I1|done|done|done|done|].
    assert (G2 : pv_generation p2 = SeqNum (so_unavailable src)).
    { rewrite <- G1. unfold cached_entry in E. repeat case_match; by simplify_eq. }
    destruct (entry_answers evs p2 src q c e) as [Ans _]; [done|done|by rewrite I2, I1|done|done|].
    rewrite I2, I1 in Ans. case_match eqn:Q.
    + apply andb_true_iff in Q as [Qn Qs]. apply bool_decide_eq_true in Qs. apply negb_true_iff, bool_decide_eq_false in Qn.
      split; [done|]. split; [by rewrite <- I1|]. destruct O2 as (cl & src' & Hcl & K & _ & _ & _ & [Qe|(q' & Hq' & Sq & Qe)]); [done|].
      cbn [fst]. rewrite Qe. pose proof (F cl c Hcl Hc K) as Sm.
      assert (p_CapacityReservationGroupID (params cl) = p_CapacityReservationGroupID (params c)) as -> by by rewrite (proj1 Sm).
      rewrite I2, I1. apply Ans; [done|congruence].
    + destruct (applyQuota (pv_info p2) q (c_base e) _) as [ts n] eqn:A. cbn [fst snd].
      pose proof (quota_seq (pv_info p2) q (c_base e) (p_CapacityReservationGroupID (params c))) as N. rewrite A in N. cbn in N. subst n.
      split; [|split; [by rewrite <- I1|]].
      * apply (set_entry_coherent evs p2 a (Hash (params c))); [done|by eexists| |done].
        destruct O2 as (cl & src' & Hcl & K & Hsr & Gs & B & _). pose proof (F cl c Hcl Hc K) as Sm.
        exists c, src'. cbn [c_quota c_quotaSeqNum c_base pv_generation pv_info]. do 4 (split; [done|]). split.
        -- by rewrite <- (build_same _ _ _ _ Sm).
        -- right. exists q. split; [done|]. split; [done|]. by rewrite A.
      * specialize (Ans q Hq eq_refl). rewrite <- I1, <- I2 in Ans. rewrite A in Ans. by rewrite I2, I1 in Ans.
  - cbn [fst snd]. assert (Ep : p2 = p1 /\ buildInstanceTypes (pv_info p1) src (params c) = None).
    { unfold cached_entry in E. repeat case_match; simplify_eq; done. }
    destruct Ep as [-> B]. split; [done|]. split; [done|]. apply may_panic; [done|]. unfold uncached. by rewrite <- I1, B.
Qed.

Lemma update_step evs cutoff skus p :
  sound_monitor -> coherent evs p ->
  coherent evs (UpdateInstanceTypes cutoff skus p).2 /\
  pv_info (UpdateInstanceTypes cutoff skus p).2 = abstract_step (pv_info p) (EvUpdate cutoff skus).
Proof.
  intros M C. unfold UpdateInstanceTypes. cbn [abstract_step]. destruct skus as [skus|e]; [|done].
  destruct (fold_panic (admit_sku cutoff) ∅ skus) as [new|]; [|done]. case_bool_decide; [done|]. cbn [fst snd]. split; [|done].
  destruct (HasChanged (pv_seen p) new) eqn:Ch.
  - apply coherent_empty; [by left|]. intros t k. apply tc_get_flush.
  - apply M in Ch. destruct (co_seen _ _ C) as [Sn|[Em N]].
    + rewrite Sn in Ch. injection Ch as Ei. split; cbn; [by left| |apply C].
      intros t k a Tk. destruct (co_entry _ _ C t k a Tk) as (c & L & O). exists c. split; [done|].
      unfold entry_ok in *. cbn. by rewrite <- Ei.
    + apply coherent_empty; [by left|done].
Qed.

Lemma reset_step evs p : coherent evs (Reset p) /\ pv_info (Reset p) = ∅.
Proof. split; [|done]. apply coherent_empty; [right; apply map_size_empty|]. intros t k. apply tc_get_flush. Qed.

Lemma faithful_prefix evs l : faithful_hash (evs ++ l) -> faithful_hash evs.
Proof. intros F c c' Hc Hc'. apply F; unfold classes_of; rewrite omap_app; apply elem_of_app; by left. Qed.
Lemma last_list evs src q c :
  let l := evs ++ [EvList src q c] in c ∈ classes_of l /\ src ∈ sources_of l /\ q ∈ quotas_of l.
Proof. unfold classes_of, sources_of, quotas_of. rewrite !omap_app, !elem_of_app. split; [|split]; right; by left. Qed.

Lemma reach_coherent evs :
  sound_monitor -> faithful_hash evs -> coherent evs (reach evs) /\ pv_info (reach evs) = abstract_info evs.
Proof.
  intros M. induction evs as [|e evs IH] using rev_ind; intros F.
  - split; [|done]. apply coherent_empty; [right; apply map_size_empty|]. intros t k. apply tc_get_empty.
  - assert (Sub : evs ⊆ evs ++ [e]) by set_solver. destruct (IH (faithful_prefix _ _ F)) as [C I]. apply (coherent_mono _ (evs ++ [e])) in C; [|done].
    unfold reach, abstract_info in *. rewrite !fold_left_app. cbn [fold_left]. rewrite <- I.
    destruct e as [src q c|cutoff skus|]; cbn [step].
    + destruct (last_list evs src q c) as (L1 & L2 & L3).
      by destruct (list_step (evs ++ [EvList src q c]) src q c (fold_left step evs NewDefaultProvider)) as (C' & I' & _).
    + by apply update_step.
    + apply reset_step.
Qed.

(** C7. The instance type cache is invisible but for the age of its data: in
    every run of lists, updates and resets, the sizes known are those of the
    last successful update, and each list answers what a provider without
    cache could: the list built from these sizes with sources and quota of the
    same version (sequence number) as the current ones, that were current at
    this or an earlier list; it fails exactly when no size is known and panics
    only where building afresh does. *)
Theorem cached_list_refines (evs : list event) src q c :
  sound_monitor -> faithful_hash (evs ++ [EvList src q c]) ->
  pv_info (reach evs) = abstract_info evs /\
  may_answer (evs ++ [EvList src q c]) (abstract_info evs) src q (params c) (List_ src q c (reach evs)).1.
Proof.
  intros M F. destruct (reach_coherent evs M (faithful_prefix _ _ F)) as [C I]. split; [done|]. rewrite <- I.
  destruct (last_list evs src q c) as (L1 & L2 & L3).
  apply list_step; [done|eapply coherent_mono; [|done]; set_solver|done..].
Qed.


(** ** The sizes known *)

Lemma list_info src q c p : pv_info (List_ src q c p).2 = pv_info p.
Proof.
  unfold List_. case_bool_decide; [done|]. destruct (fresh_generation_fields src p) as (I & _ & _).
  unfold cached_entry. repeat case_match; simplify_eq/=; done.
Qed.
Lemma step_info p e : pv_info (step p e) = abstract_step (pv_info p) e.
Proof.
  destruct e as [src q c|cutoff skus|]; cbn [step abstract_step]; [apply list_info| |done].
  unfold UpdateInstanceTypes. destruct skus as [skus|e]; [|done]. destruct (fold_panic _ _ _) as [new|]; [|done].
  by case_bool_decide.
Qed.
Lemma reach_info evs : pv_info (reach evs) = abstract_info evs.
Proof.
  induction evs as [|e evs IH] using rev_ind; [done|]. unfold reach, abstract_info in *. rewrite !fold_left_app. cbn [fold_left].
  by rewrite step_info, IH.
Qed.

(** A size that an update admits, under its name. *)
Definition admitted (evs : list event) (name : string) (s : SKU) : Prop :=
  GetName s = name /\ (exists v, sk_vmsize s = Some v /\ isSupported s v = true) /\
  exists cutoff skus, EvUpdate cutoff (Ok skus) ∈ evs /\ s ∈ skus.

Lemma info_admitted evs name s : abstract_info evs !! name = Some s -> admitted evs name s.
Proof using Type.
  revert name s. induction evs as [|e evs IH] using rev_ind; intros name s.
  - unfold abstract_info. cbn. by rewrite lookup_empty.
  - assert (Mono : abstract_info evs !! name = Some s -> admitted (evs ++ [e]) name s).
    { intros L. destruct (IH name s L) as (K1 & K2 & cutoff & skus & Hu & Hs). split; [done|]. split; [done|].
      exists cutoff, skus. split; [apply elem_of_app; by left|done]. }
    unfold abstract_info. rewrite fold_left_app. cbn [fold_left]. fold (abstract_info evs).
    destruct e as [src q c|cutoff [skus|err]|]; cbn [abstract_step]; [done| |done|by rewrite lookup_empty].
    destruct (fold_panic (admit_sku cutoff) ∅ skus) as [new|] eqn:A; [|done]. case_bool_decide; [done|]. clear Mono.
    revert name s. apply (fold_panic_inv (admit_sku cutoff) (fun m => forall name s, m !! name = Some s -> admitted (evs ++ [EvUpdate cutoff (Ok skus)]) name s) skus ∅ new); [|by intros ? ?; rewrite lookup_empty|done].
    intros m x m' Hx Pm Ax name s L. unfold admit_sku in Ax. repeat case_match; simplify_eq; try by apply Pm.
    match goal with B : _ && _ = true |- _ => apply andb_true_iff in B as [_ B] end.
    destruct (decide (GetName x = name)) as [<-|N]; [|rewrite lookup_insert_ne in L by done; by apply Pm].
    rewrite lookup_insert_eq in L. injection L as <-. split; [done|]. split; [by eexists|].
    exists cutoff, skus. split; [apply elem_of_app; right; by left|done].
Qed.

Lemma zones_nonempty s p zone : zone ∈ reserved_zones p s -> zone <> "".
Proof.
  assert (Z : zone ∈ instanceTypeZones s -> zone <> "").
  { unfold instanceTypeZones. case_bool_decide; [by intros ->%elem_of_singleton|].
    intros [(z & -> & _)%elem_of_map| ->%elem_of_singleton]%elem_of_union; [|done].
    unfold Zones.MakeAKSLabelZoneFromARMZone. by destruct (ToLower region). }
  unfold reserved_zones. destruct (capacityReservationZones p); [|done]. intros [Hz _]%elem_of_intersection. by apply Z.
Qed.

Lemma create_offerings_total src s zones group :
  (forall zone, zone ∈ zones -> zone <> "") -> is_Some (createOfferings src s zones group).
Proof.
  intros N. apply fold_panic_total. intros acc zone Hz. apply elem_of_range in Hz.
  unfold zone_offerings, ultraSSDOptions, Zones.MakeARMZonesFromAKSLabelZone.
  rewrite (bool_decide_eq_false_2 (zone = "")) by (by apply N). case_bool_decide; by eexists.
Qed.

Lemma supported_measures s v : isSupported s v = true -> is_Some (VCPU s) /\ is_Some (sk_memory s).
Proof.
  unfold isSupported, hasMinimumCPU, hasMinimumMemory. intros E. repeat apply andb_true_iff in E as [E ?].
  destruct (VCPU s), (sk_memory s); try done; by split.
Qed.

Lemma build_one_total src p s v :
  sk_vmsize s = Some v -> is_Some (sk_size s) -> isSupported s v = true -> is_Some (build_one src p s).
Proof.
  intros V [sz Z] S. destruct (supported_measures s v S) as [[vcpus C] [m Me]]. unfold build_one. rewrite V, Z.
  destruct (sk_architecture s) as [arch|]; [|by eexists].
  destruct (create_offerings_total src s (reserved_zones p s) (p_CapacityReservationGroupID p)) as [offs ->]; [apply zones_nonempty|].
  unfold newInstanceType. rewrite Me, C. cbn [ty_offerings]. case_bool_decide; [by eexists|].
  unfold isInstanceTypeSupportedByFilters, isInstanceTypeSupportedByLocalDNS. rewrite C, Me.
  repeat case_match; simplify_eq; by eexists.
Qed.


(** ** Reservations *)

Lemma placement_elem c pl :
  pl ∈ capacityReservationPlacements region c <->
  is_Some (VirtualMachines.cl_crg (class_of (k_spec c))) /\ exists g r, k_group c = Some g /\
    EqualFold (Reservation.g_id g) (GetCapacityReservationGroupID (k_spec c)) = true /\
    r ∈ Reservation.g_reservations g /\ Reservation.IsEligible r = true /\
    pl_VMSize pl = ToLower (Reservation.cr_vmSize r) /\
    Zones.MakeAKSLabelZoneFromARMZones region (map Some (Reservation.cr_zones r)) = Ok (pl_Zone pl).
Proof.
  unfold capacityReservationPlacements. destruct (VirtualMachines.cl_crg _) as [o|].
  2: { rewrite elem_of_nil. split; [done|]. by intros [[? ?] _]. }
  destruct (k_group c) as [g|].
  2: { rewrite elem_of_nil. split; [done|]. by intros (_ & g & r & ? & _). }
  destruct (EqualFold _ _) eqn:F; cbn [negb].
  2: { rewrite elem_of_nil. split; [done|]. intros (_ & g' & r & [= <-] & F' & _). congruence. }
  rewrite elem_of_Uniq, list_elem_of_omap. unfold placement_of. split.
  - intros (r & Hr & P). split; [done|]. exists g, r. destruct (Reservation.IsEligible r) eqn:El; [|done]. cbn [negb] in P.
    destruct (Zones.MakeAKSLabelZoneFromARMZones _ _) as [z|] eqn:Z; [|done]. injection P as <-. done.
  - intros (_ & g' & r & [= <-] & _ & Hr & El & Es & Ez). exists r. split; [done|]. rewrite El, Ez. cbn [negb].
    destruct pl as [sz z]. cbn in *. by subst sz.
Qed.

(** With a capacity reservation group, what is listed is what its members
    can back: every offering is on-demand, of a size and in a zone (or none)
    that an eligible member of the group in the status reserves, and the group
    in the status is the one of the spec. *)
Theorem reserved_types_backed (evs : list event) src q c ts t o :
  sound_monitor -> faithful_hash (evs ++ [EvList src q c]) ->
  (List_ src q c (reach evs)).1 = Some (Ok ts) -> GetCapacityReservationGroupID (k_spec c) <> "" ->
  t ∈ ts -> o ∈ ty_offerings t ->
  of_capacity_type (of_base o) = CapacityTypeOnDemand /\ exists g r,
    k_group c = Some g /\ EqualFold (Reservation.g_id g) (GetCapacityReservationGroupID (k_spec c)) = true /\
    r ∈ Reservation.g_reservations g /\ Reservation.IsEligible r = true /\
    EqualFold (Reservation.cr_vmSize r) (ty_name t) = true /\
    Zones.MakeAKSLabelZoneFromARMZones region (map Some (Reservation.cr_zones r)) = Ok (of_zone (of_base o)).
Proof.
  intros M F E G Ht Ho. destruct (reach_coherent evs M (faithful_prefix _ _ F)) as [C I].
  destruct (last_list evs src q c) as (L1 & L2 & L3).
  destruct (list_step (evs ++ [EvList src q c]) src q c (reach evs)) as (_ & _ & A);
    [done|eapply coherent_mono; [|done]; set_solver|done..|].
  rewrite E in A. inversion A as [| |src' q' ts' _ _ _ _ _ U]; subst. unfold uncached in U.
  destruct (buildInstanceTypes (pv_info (reach evs)) src' (params c)) as [base|] eqn:B; [|done]. cbn in U. injection U as <-.
  unfold applyQuota in Ht. cbn [parameters p_CapacityReservationGroupID] in Ht. rewrite bool_decide_eq_false_2 in Ht by done.
  cbn in Ht. apply (build_elem _ _ _ _ t B) in Ht as (name & s & _ & O).
  apply build_one_some in O as (v & arch & offs & _ & _ & Cr & _ & T & _).
  apply new_type_fields in T as (En & Eo & _). rewrite Eo in Ho.
  apply (createOfferings_elem _ _ _ _ _ o Cr) in Ho as (zone & l' & Hz & Z & Ho). apply zone_offerings_shape in Z as [Sh _].
  rewrite Forall_forall in Sh. destruct (Sh o Ho) as (Ez & _ & [Ct|(_ & _ & _ & N)] & _); [|done]. split; [by destruct Ct|].
  unfold reserved_zones, capacityReservationZones in Hz. cbn [parameters p_CapacityReservationGroupID] in Hz.
  rewrite bool_decide_eq_false_2 in Hz by done. apply elem_of_intersection in Hz as [_ Hz].
  pose proof (placements_lookup (p_CapacityReservations (params c)) ∅ (ToLower (GetName s)) zone) as P. unfold add_placement in P.
  apply P in Hz as [Hz|Hz]; [rewrite lookup_empty in Hz; set_solver|].
  apply placement_elem in Hz as (_ & g & r & K1 & K2 & K3 & K4 & K5 & K6). exists g, r. do 4 (split; [done|]).
  rewrite En, Ez. split; [|done]. unfold EqualFold. apply bool_decide_eq_true. by rewrite <- K5.
Qed.

(** ** Quota *)

Lemma quota_map_lookup q skus y :
  y ∈ skus -> (forall x, x ∈ skus -> sku_name x = sku_name y -> x = y) ->
  (Quota.HasQuotaForSKUs q skus).1 !! sku_name y = Some (Quota.HasQuotaFor q y).
Proof using Type.
  unfold Quota.HasQuotaForSKUs. cbn [fst]. induction skus as [|x l IH] using rev_ind; [intros N; by apply not_elem_of_nil in N|].
  intros Hy U. rewrite foldl_app. cbn [foldl]. destruct (decide (sku_name x = sku_name y)) as [Ex|N].
  - rewrite Ex, lookup_insert_eq. rewrite (U x); [done| |done]. apply elem_of_app. right. by left.
  - rewrite lookup_insert_ne by done. apply IH.
    + apply elem_of_app in Hy as [?| ->%list_elem_of_singleton]; done.
    + intros z Hz. apply U, elem_of_app. by left.
Qed.

(** Availability under a quota verdict. *)
Definition under_quota (hasQuota : bool) (o : Offering) : Offering :=
  mk_offering (Cloud.mk_offering (of_capacity_type (of_base o)) (of_zone (of_base o)) (of_scope (of_base o)) (of_price (of_base o))
    (of_available (of_base o) && ((of_capacity_type (of_base o) !=? CapacityTypeOnDemand) || hasQuota)))
    (of_scaleSetPriority o) (of_priority o) (of_ultraSSD o).

Lemma under_quota_true o : under_quota true o = o.
Proof using Type. destruct o as [[ct z sc pr av] a b u]. unfold under_quota. cbn. by rewrite orb_true_r, andb_true_r. Qed.
Lemma under_quota_false o : under_quota false o = hide_onDemand o.
Proof using Type.
  destruct o as [[ct z sc pr av] a b u]. unfold under_quota, hide_onDemand. cbn. rewrite orb_false_r.
  case_bool_decide; cbn; by rewrite ?andb_true_r, ?andb_false_r.
Qed.

(** Quota changes the list of a class without reservation in one way only:
    a size's on-demand offerings are available exactly when they were and the
    quota provider has room for the size, its spot offerings as they were; and
    with a reservation it changes nothing. *)
Theorem quota_hides_on_demand (evs : list event) q base t s group :
  let info := abstract_info evs in
  t ∈ base -> info !! ty_name t = Some s ->
  exists t', t' ∈ (applyQuota info q base group).1 /\ ty_name t' = ty_name t /\ ty_requirements t' = ty_requirements t /\
    ty_capacity t' = ty_capacity t /\
    ty_offerings t' = map (under_quota (bool_decide (group <> "") || Quota.HasQuotaFor q (sk_cloud s))) (ty_offerings t).
Proof using Type.
  intros info Ht L. destruct (decide (group = "")) as [->|G].
  2: { exists t. unfold applyQuota. rewrite bool_decide_eq_false_2, bool_decide_eq_true_2 by done. do 4 (split; [done|]).
       cbn [orb]. rewrite (map_ext _ id under_quota_true). by rewrite map_id. }
  unfold applyQuota. rewrite bool_decide_eq_true_2 by done. rewrite (bool_decide_eq_false_2 ("" <> "")) by (intros K; by apply K).
  cbn [negb orb].
  set (skus := omap _ base). destruct (info_admitted evs _ s L) as (Nm & _).
  assert (Q : (Quota.HasQuotaForSKUs q skus).1 !! ty_name t = Some (Quota.HasQuotaFor q (sk_cloud s))).
  { rewrite <- Nm. apply quota_map_lookup.
    - apply list_elem_of_omap. exists t. by rewrite L.
    - intros x Hx Ex. apply list_elem_of_omap in Hx as (t0 & _ & Hx). destruct (info !! ty_name t0) as [s0|] eqn:L0; [|done].
      cbn in Hx. injection Hx as <-. destruct (info_admitted evs _ s0 L0) as (Nm0 & _). unfold GetName in *.
      assert (ty_name t0 = ty_name t) as E0 by congruence. rewrite E0 in L0. congruence. }
  destruct (Quota.HasQuotaForSKUs q skus) as [m n]. cbn [fst] in *. exists (apply_quota_to m t).
  split; [apply list_elem_of_fmap; by exists t|]. unfold apply_quota_to. rewrite Q.
  destruct (Quota.HasQuotaFor q (sk_cloud s)).
  - do 3 (split; [done|]). rewrite (map_ext _ id under_quota_true). by rewrite map_id.
  - destruct (existsb _ _) eqn:X.
    + do 3 (split; [done|]). cbn. apply map_ext. intros o. symmetry. apply under_quota_false.
    + do 3 (split; [done|]). rewrite <- (map_id (ty_offerings t)) at 1. apply map_ext_in. intros o Ho.
      assert (Xo := X). rewrite <- not_true_iff_false, existsb_exists in Xo.
      destruct o as [[ct z sc pr av] a b u]. unfold under_quota. cbn. rewrite orb_false_r.
      destruct av; [|done]. destruct (decide (ct = CapacityTypeOnDemand)) as [->|Nc].
      * destruct Xo. eexists. split; [exact Ho|]. cbn. by rewrite bool_decide_eq_true_2.
      * by rewrite bool_decide_eq_false_2.
Qed.

(** ** LocalDNS *)

Lemma single_int_pretty reqs key n :
  values reqs key = {[ pretty n ]} -> 0 <= n < 2 ^ 63 -> single_int reqs key = Some n.
Proof.
  unfold values, single_int. intros V R. destruct (reqs !! key) as [vs|]; cbn in V.
  - rewrite V, elements_singleton. by apply ParseInt_pretty.
  - exfalso. set_solver.
Qed.

(** The LocalDNS floor read off an instance type is that of its size; so on
    every type listed for a class that requires LocalDNS, LocalDNS is on
    exactly when the class has it enabled, and what is sent for a node is
    never [Preferred], and changes only [Preferred], into [Required] where the
    class has it enabled and the size clears the floor and [Disabled]
    elsewhere. *)
Theorem localdns_resolution info src c ts t :
  let n := k_spec c in
  buildInstanceTypes info src (params c) = Some ts -> t ∈ ts ->
  exists name s vcpus m,
    info !! name = Some s /\ GetName s = ty_name t /\ VCPU s = Some vcpus /\ sk_memory s = Some m /\
    (0 <= vcpus < 2 ^ 63 -> 0 <= Resources.memoryMiB m ->
     InstanceTypeMeetsFloor (ty_requirements t) = SKUMeetsFloor vcpus (Resources.memoryMiB m) /\
     (IsLocalDNSRequired n = true -> IsSupportedForInstanceType n (ty_requirements t) = IsLocalDNSEnabled n)) /\
    match LocalDNSOf n, ResolveForWire n (ty_requirements t) with
    | None, None => True
    | Some d, Some d' =>
        VnetDNSOverrides d' = VnetDNSOverrides d /\ KubeDNSOverrides d' = KubeDNSOverrides d /\
        Mode d' <> LocalDNSModePreferred /\
        (Mode d <> LocalDNSModePreferred -> d' = d) /\
        (Mode d = LocalDNSModePreferred ->
           Mode d' = if IsSupportedForInstanceType n (ty_requirements t) then LocalDNSModeRequired else LocalDNSModeDisabled)
    | _, _ => False
    end.
Proof.
  intros n B Ht. apply (build_elem _ _ _ _ t B) in Ht as (name & s & Is & O).
  apply build_one_some in O as (v & arch & offs & _ & _ & _ & _ & T & Fl).
  apply new_type_fields in T as (En & _ & vcpus & m & V & Me & Er). exists name, s, vcpus, m.
  do 4 (split; [done|]). split.
  - intros Rv Pm. pose proof (GoFloat.to_int64_range (GoFloat.mul m (GoFloat.of_int 1024))) as Rm.
    fold (Resources.memoryMiB m) in Rm. unfold int64_ok in *.
    assert (Fl' : InstanceTypeMeetsFloor (ty_requirements t) = SKUMeetsFloor vcpus (Resources.memoryMiB m)).
    { unfold InstanceTypeMeetsFloor. rewrite Er.
      rewrite (single_int_pretty _ LabelSKUCPU vcpus), (single_int_pretty _ LabelSKUMemory (Resources.memoryMiB m)); try lia; [done|..].
      - by rewrite values_memory, (right_id_L ∅ (∪)).
      - by rewrite values_cpu, (right_id_L ∅ (∪)). }
    split; [done|]. intros Rq. unfold IsSupportedForInstanceType. rewrite Fl'.
    unfold isInstanceTypeSupportedByFilters in Fl. case_match; [|done].
    unfold isInstanceTypeSupportedByLocalDNS in Fl. cbn [parameters p_LocalDNSRequired] in Fl. fold n in Fl. rewrite Rq in Fl.
    cbn [negb] in Fl. rewrite V, Me in Fl. injection Fl as Fl. destruct (SKUMeetsFloor vcpus _); [by rewrite andb_true_r|done].
  - unfold ResolveForWire. destruct (LocalDNSOf n) as [d|]; [|done]. case_bool_decide as Md; cbn [negb].
    + cbn. do 2 (split; [done|]). split; [by case_match|]. split; [done|done].
    + done.
Qed.

End Provider.

(** ** Witnesses *)

#[export] Instance spec_float_eq_dec : EqDecision spec_float.
Proof. solve_decision. Defined.
#[export] Instance VMSizeType_eq_dec : EqDecision VMSizeType.
Proof. solve_decision. Defined.
#[export] Instance capability_eq_dec : EqDecision OSDisk.capability.
Proof. solve_decision. Defined.
#[export] Instance disk_eq_dec : EqDecision OSDisk.SKU.
Proof. solve_decision. Defined.
#[export] Instance SKU_eq_dec : EqDecision SKU.
Proof. solve_decision. Defined.

Definition demo_size (name : string) (vcpus gib : Z) : SKU :=
  mk_sku (Cloud.mk_sku name "standardDSv5Family" (Some vcpus)) (OSDisk.mk_sku false 0 0 0 OSDisk.NotFound (Some vcpus))
    (Some "D4s_v5") (Some (mk_vmsize "D" "Ds_v5" "v5" None None)) (Some "x64") (Some (GoFloat.of_int gib)) (Some 0)
    (list_to_set ["1"; "2"]) false (Some None) true false (list_to_set ["1"]) true true true true false false (Some true)
    OSDisk.NotFound OSDisk.NotFound.
Definition demo_spec (crg : option (option string)) : AKSNodeClass :=
  mk_nodeclass (VMInstance.mk_launch_class (VirtualMachines.mk_class None crg) None None None)
    (Some "Ubuntu") None None None None None None
    (Some (mk_localdns LocalDNSModePreferred [] [])) None None None (Some LocalDNSStateEnabled) None.
Definition demo_class : Class_ := mk_class (demo_spec None) None.
Definition demo_crg : string := "/crg/a".
Definition demo_reserved : Class_ := mk_class (demo_spec (Some (Some demo_crg)))
  (Some (Reservation.mk_group "/CRG/A" "westus2" []
    [Reservation.mk_reservation "r" "r" "standard_d4s_v5" ["2"] (Some 3) (Some "Succeeded")])).
Definition demo_prices : Pricing.Provider :=
  Pricing.mk_provider "westus2" 0 {[ "Standard_D4s_v5" := 96 ]} 0 {[ "Standard_D4s_v5" := 20 ]}.
Definition demo_sources : sources := mk_sources 10 NewUnavailableOfferings demo_prices.
(** Another instant: the unavailable offerings changed in between. *)
Definition demo_later : sources :=
  mk_sources 20 (MarkUnavailable 15 NewUnavailableOfferings (sk_cloud (demo_size "Standard_D4s_v5" 4 16)) "westus2-1" "spot") demo_prices.
Definition demo_quota : Quota.Provider := Quota.NewProvider.
Definition demo_events (c : Class_) : list event := [
  EvUpdate 0 (Ok [demo_size "Standard_D4s_v5" 4 16; demo_size "Standard_B1s" 1 1; demo_size "Standard_D2s_v5" 2 8]);
  EvList demo_sources demo_quota c; EvList demo_later demo_quota c ].
Definition demo_hash (p : instanceTypeParameters) : string := p_ImageFamily p.
Definition demo_changed (seen : option (gmap string SKU)) (new : gmap string SKU) : bool := bool_decide (seen <> Some new).
Definition demo_table : gmap string (string * list string) := ∅.
Definition demo_known : gset string := {[ "Standard_D4s_v5" ]}.
#[local] Abbreviation demo_list c evs src := (List_ Options.demo_options "westus2" demo_table demo_known (fun _ => None) (fun _ => None)
  demo_hash src demo_quota c (reach Options.demo_options "westus2" demo_table demo_known (fun _ => None) (fun _ => None) demo_hash demo_changed evs)).1.
Definition listed (r : option (result string (list InstanceType))) : list (string * list (string * string * bool)) :=
  match r with
  | Some (Ok ts) => map (fun t => (ty_name t, map (fun o => (of_zone (of_base o), of_capacity_type (of_base o), of_available (of_base o))) (ty_offerings t))) ts
  | _ => []
  end.

Lemma demo_monitor : sound_monitor demo_changed.
Proof. intros seen new. unfold demo_changed. intros E. apply bool_decide_eq_false in E. by apply dec_stable. Qed.
Lemma demo_faithful c : faithful_hash Options.demo_options "westus2" demo_hash (demo_events c ++ [EvList demo_later demo_quota c]).
Proof.
  intros c1 c2 K1 K2 _. assert (E : forall x, x ∈ [c; c; c] -> x = c) by (intros x; rewrite !elem_of_cons, elem_of_nil; naive_solver).
  rewrite (E c1 K1), (E c2 K2). split; [by destruct (parameters _ _ c)|done].
Qed.

(** The list a class gets. *)
Lemma listed_some r n : length (listed r) = S n -> exists ts, r = Some (Ok ts).
Proof. destruct r as [[ts|e]|]; [by eexists|done|done]. Qed.

Lemma cached_list_refines_witness :
  map fst (listed (demo_list demo_class (demo_events demo_class) demo_later)) = ["Standard_D2s_v5"; "Standard_D4s_v5"] /\
  may_answer Options.demo_options "westus2" demo_table demo_known (fun _ => None) (fun _ => None)
    (demo_events demo_class ++ [EvList demo_later demo_quota demo_class]) (abstract_info demo_table (demo_events demo_class))
    demo_later demo_quota (parameters Options.demo_options "westus2" demo_class)
    (demo_list demo_class (demo_events demo_class) demo_later).
Proof.
  split; [by vm_compute|].
  apply (cached_list_refines Options.demo_options "westus2" demo_table demo_known (fun _ => None) (fun _ => None)
    demo_hash demo_changed (demo_events demo_class) demo_later demo_quota demo_class demo_monitor (demo_faithful demo_class)).
Defined.



Lemma reserved_types_backed_witness :
  listed (demo_list demo_reserved (demo_events demo_reserved) demo_later) = [("Standard_D4s_v5", [("westus2-2", "on-demand", true)])] /\
  exists ts, demo_list demo_reserved (demo_events demo_reserved) demo_later = Some (Ok ts) /\
    forall t o, t ∈ ts -> o ∈ ty_offerings t -> of_capacity_type (of_base o) = CapacityTypeOnDemand.
Proof.
  split; [by vm_compute|].
  assert (L : length (listed (demo_list demo_reserved (demo_events demo_reserved) demo_later)) = 1%nat) by (vm_compute; reflexivity).
  destruct (listed_some _ _ L) as [ts E]. exists ts. split; [exact E|]. intros t o Ht Ho.
  exact (proj1 (reserved_types_backed Options.demo_options "westus2" demo_table demo_known (fun _ => None) (fun _ => None)
    demo_hash demo_changed (demo_events demo_reserved) demo_later demo_quota demo_reserved ts t o demo_monitor (demo_faithful demo_reserved)
    E ltac:(done) Ht Ho)).
Defined.

Definition demo_base : list InstanceType := [
  mk_type "Standard_D4s_v5" ∅ [
    mk_offering (Cloud.mk_offering "on-demand" "0" "regional" 96 true) "regular" "regular" ["false"];
    mk_offering (Cloud.mk_offering "spot" "0" "regional" 20 true) "spot" "spot" ["false"]] ∅ ∅ ∅ ∅ ].
Definition demo_full : Quota.Provider :=
  Quota.mk_provider {[ "standardDSv5Family" := Quota.mk_usage (Some (Some "standardDSv5Family")) (Some 10) (Some 8) ]} ∅ true 1 1 false ∅ ∅ ∅ 0.

Lemma quota_hides_on_demand_witness :
  exists t', t' ∈ (applyQuota (abstract_info demo_table (demo_events demo_class)) demo_full demo_base "").1 /\
    map (fun o => (of_capacity_type (of_base o), of_available (of_base o))) (ty_offerings t') = [("on-demand", false); ("spot", true)].
Proof.
  destruct (quota_hides_on_demand demo_table (demo_events demo_class) demo_full demo_base
    (mk_type "Standard_D4s_v5" ∅ [
      mk_offering (Cloud.mk_offering "on-demand" "0" "regional" 96 true) "regular" "regular" ["false"];
      mk_offering (Cloud.mk_offering "spot" "0" "regional" 20 true) "spot" "spot" ["false"]] ∅ ∅ ∅ ∅)
    (demo_size "Standard_D4s_v5" 4 16) "") as (t' & Ht & _ & _ & _ & Eo).
  - left.
  - vm_compute. reflexivity.
  - exists t'. split; [exact Ht|]. rewrite Eo. vm_compute. reflexivity.
Defined.

Lemma localdns_resolution_witness :
  exists ts t, buildInstanceTypes Options.demo_options "westus2" demo_table demo_known (fun _ => None) (fun _ => None)
      (abstract_info demo_table (demo_events demo_class)) demo_sources (parameters Options.demo_options "westus2" demo_class) = Some ts /\
    t ∈ ts /\ match ResolveForWire (k_spec demo_class) (ty_requirements t) with Some d => Mode d <> LocalDNSModePreferred | None => False end.
Proof.
  destruct (buildInstanceTypes Options.demo_options "westus2" demo_table demo_known (fun _ => None) (fun _ => None)
    (abstract_info demo_table (demo_events demo_class)) demo_sources (parameters Options.demo_options "westus2" demo_class)) as [ts|] eqn:B.
  2: { exfalso. assert (X : bool_decide (is_Some (buildInstanceTypes Options.demo_options "westus2" demo_table demo_known (fun _ => None) (fun _ => None)
         (abstract_info demo_table (demo_events demo_class)) demo_sources (parameters Options.demo_options "westus2" demo_class))) = true) by (vm_compute; reflexivity).
       rewrite B in X. discriminate X. }
  assert (N : match buildInstanceTypes Options.demo_options "westus2" demo_table demo_known (fun _ => None) (fun _ => None)
    (abstract_info demo_table (demo_events demo_class)) demo_sources (parameters Options.demo_options "westus2" demo_class) with Some l => length l | None => 0%nat end = 2%nat) by (vm_compute; reflexivity).
  rewrite B in N. destruct ts as [|t ts]; [discriminate N|]. exists (t :: ts), t. split; [reflexivity|]. split; [left|].
  destruct (localdns_resolution Options.demo_options "westus2" demo_table demo_known (fun _ => None) (fun _ => None)
    (abstract_info demo_table (demo_events demo_class)) demo_sources demo_class (t :: ts) t B ltac:(left)) as (name & s & vcpus & m & _ & _ & _ & _ & _ & R).
  cbn [LocalDNSOf k_spec demo_class demo_spec] in R.
  change (k_spec demo_class) with (demo_spec None).
  destruct (ResolveForWire (demo_spec None) (ty_requirements t)) as [d'|]; [apply R|exact R].
Defined.

End InstanceTypes.
