(* ===== verification/ImageFamily.v ===== *)
(** * Image families and node images

    [pkg/providers/imagefamily]: the image definitions of each family
    ([ubuntu_*.go], [azlinux*.go], [azurecontainerlinux.go], [windows.go]),
    which family a class resolves to ([resolver.go], [utils.go]), the listing
    of node images from the shared and the community galleries
    ([nodeimage.go], [nodeimageversionsclient.go]), custom images
    ([customimage.go]), and the image and distro of a launch.  The requirements
    of karpenter core, version parsing and the galleries are parameters. *)

From S2P Require Import Prelude GoString GoCache GoSort Conditions ResourceIDs NodeVersions VirtualMachines VMInstance Options NodeClassSpec.
#[local] Open Scope string_scope.
#[local] Open Scope list_scope.
#[local] Open Scope Z_scope.

Module ImageFamily.
Import NodeClassSpec.
Import NodeVersions(triple_semver, Semver, version, LT, not_ready, GetKubernetesVersion, GetImages, nc_versions, ve_image).

(** ** Image definitions *)

Definition AKSUbuntuPublicGalleryURL : string := "AKSUbuntu-38d80f77-467a-481f-a8d4-09b6d4220bd2".
Definition AKSAzureLinuxPublicGalleryURL : string := "AKSAzureLinux-f7c7cda5-1c9a-4bdc-a222-9614c968580b".
Definition AKSUbuntuResourceGroup : string := "AKS-Ubuntu".
Definition AKSAzureLinuxResourceGroup : string := "AKS-AzureLinux".
Definition AKSWindowsResourceGroup : string := "AKS-Windows".
Definition AKSUbuntuGalleryName : string := "AKSUbuntu".
Definition AKSAzureLinuxGalleryName : string := "AKSAzureLinux".
Definition AKSWindowsGalleryName : string := "AKSWindows".

Record DefaultImageOutput := mk_default {
  PublicGalleryURL : string; GalleryResourceGroup : string; GalleryName : string;
  ImageDefinition : string; Distro : string; Requirements_ : Requirements
}.

Definition Ubuntu2004Gen2FIPSImageDefinition : string := "2004gen2fipscontainerd".
Definition Ubuntu2004Gen1FIPSImageDefinition : string := "2004fipscontainerd".
Definition Ubuntu2204Gen2ImageDefinition : string := "2204gen2containerd".
Definition Ubuntu2204Gen1ImageDefinition : string := "2204containerd".
Definition Ubuntu2204Gen2ArmImageDefinition : string := "2204gen2arm64containerd".
Definition Ubuntu2204Gen2TrustedLaunchImageDefinition : string := "2204gen2TLcontainerd".
Definition Ubuntu2204Gen2FIPSTLImageDefinition : string := "2204gen2fipsTLcontainerd".
Definition Ubuntu2204Gen2FIPSImageDefinition : string := "2204gen2fipscontainerd".
Definition Ubuntu2204Gen1FIPSImageDefinition : string := "2204fipscontainerd".
Definition Ubuntu2404Gen2ImageDefinition : string := "2404gen2containerd".
Definition Ubuntu2404Gen1ImageDefinition : string := "2404containerd".
Definition Ubuntu2404Gen2ArmImageDefinition : string := "2404gen2arm64containerd".
Definition Ubuntu2404Gen2TrustedLaunchImageDefinition : string := "2404gen2TLcontainerd".
Definition AzureLinuxGen2ImageDefinition : string := "V2gen2".
Definition AzureLinuxGen1ImageDefinition : string := "V2".
Definition AzureLinuxGen2ArmImageDefinition : string := "V2gen2arm64".
Definition AzureLinux2Gen2FIPSImageDefinition : string := "V2gen2fips".
Definition AzureLinux2Gen1FIPSImageDefinition : string := "V2fips".
Definition AzureLinux2Gen2TrustedLaunchImageDefinition : string := "V2gen2TL".
Definition AzureLinux3Gen2ImageDefinition : string := "V3gen2".
Definition AzureLinux3Gen1ImageDefinition : string := "V3".
Definition AzureLinux3Gen2ArmImageDefinition : string := "V3gen2arm64".
Definition AzureLinux3Gen2FIPSImageDefinition : string := "V3gen2fips".
Definition AzureLinux3Gen1FIPSImageDefinition : string := "V3fips".
Definition AzureLinux3Gen2Arm64FIPSImageDefinition : string := "V3gen2arm64fips".
Definition AzureLinux3Gen2TrustedLaunchImageDefinition : string := "V3gen2TL".
Definition AzureLinux3Gen2KataImageDefinition : string := "V3katagen2".
Definition AzureContainerLinuxGen2ImageDefinition : string := "aclgen2TL".
Definition AzureContainerLinuxGen2ArmImageDefinition : string := "aclgen2arm64TL".
Definition AzureContainerLinuxGen2FIPSImageDefinition : string := "aclgen2fipsTL".
Definition AzureContainerLinuxGen2ArmFIPSImageDefinition : string := "aclgen2arm64fipsTL".
Definition Windows2022ContainerdGen2ImageDefinition : string := "windows-2022-containerd-gen2".
Definition Windows2022ContainerdImageDefinition : string := "windows-2022-containerd".
Definition Windows2025Gen2ImageDefinition : string := "windows-2025-gen2".
Definition Windows2025ImageDefinition : string := "windows-2025".
Definition Windows2025Gen2TLImageDefinition : string := "windows-2025-gen2-tl".

(** The requirements of an image: an architecture and a generation. *)
Definition runs_on (architecture generation : string) : Requirements :=
  {[ LabelArchStable := {[ architecture ]}; LabelSKUHyperVGeneration := {[ generation ]} ]}.
Definition ubuntuImage (definition architecture generation distro : string) : DefaultImageOutput :=
  mk_default AKSUbuntuPublicGalleryURL AKSUbuntuResourceGroup AKSUbuntuGalleryName definition distro
    (runs_on architecture generation).
Definition azureLinuxImage (definition architecture generation distro : string) : DefaultImageOutput :=
  mk_default AKSAzureLinuxPublicGalleryURL AKSAzureLinuxResourceGroup AKSAzureLinuxGalleryName definition distro
    (runs_on architecture generation).
Definition azureContainerLinuxImage (imageDefinition distro architecture : string) : DefaultImageOutput :=
  mk_default "" AKSAzureLinuxResourceGroup AKSAzureLinuxGalleryName imageDefinition distro
    (runs_on architecture HyperVGenerationV2).
Definition windowsImage (imageDefinition hyperVGeneration distro : string) : DefaultImageOutput :=
  mk_default "" AKSWindowsResourceGroup AKSWindowsGalleryName imageDefinition distro
    (runs_on ArchitectureAmd64 hyperVGeneration).
Definition windowsDefaultImages (useSIG : bool) (images : list DefaultImageOutput) : list DefaultImageOutput :=
  if negb useSIG then [] else images.

(** ** Families *)

Inductive Family :=
| Ubuntu2004 | Ubuntu2204 | Ubuntu2404 | AzureLinux | AzureLinux3 | AzureContainerLinux | Windows2022 | Windows2025.
#[export] Instance Family_eq_dec : EqDecision Family.
Proof. solve_decision. Defined.

Definition Name (f : Family) : string :=
  match f with
  | Ubuntu2004 => UbuntuImageFamily
  | Ubuntu2204 => Ubuntu2204ImageFamily
  | Ubuntu2404 => Ubuntu2404ImageFamily
  | AzureLinux => "AzureLinux2"
  | AzureLinux3 => "AzureLinux3"
  | AzureContainerLinux => AzureContainerLinuxImageFamily
  | Windows2022 => Windows2022ImageFamily
  | Windows2025 => Windows2025ImageFamily
  end.

Definition is_fips (fipsMode : option string) : bool := from_ptr "" fipsMode ==? FIPSModeFIPS.

Definition Ubuntu2004_DefaultImages (useSIG : bool) (fipsMode : option string) (trustedLaunch kataEnabled : bool) :
    list DefaultImageOutput :=
  if trustedLaunch then []
  else if kataEnabled then []
  else if is_fips fipsMode then
    if negb useSIG then [] else [
      ubuntuImage Ubuntu2004Gen2FIPSImageDefinition ArchitectureAmd64 HyperVGenerationV2 "aks-ubuntu-fips-containerd-20.04-gen2";
      ubuntuImage Ubuntu2004Gen1FIPSImageDefinition ArchitectureAmd64 HyperVGenerationV1 "aks-ubuntu-fips-containerd-20.04" ]
  else [].
Definition Ubuntu2204_DefaultImages (useSIG : bool) (fipsMode : option string) (trustedLaunch kataEnabled : bool) :
    list DefaultImageOutput :=
  if kataEnabled then []
  else if is_fips fipsMode then
    if negb useSIG then []
    else if trustedLaunch then [
      ubuntuImage Ubuntu2204Gen2FIPSTLImageDefinition ArchitectureAmd64 HyperVGenerationV2 "aks-ubuntu-fips-containerd-22.04-tl-gen2" ]
    else [
      ubuntuImage Ubuntu2204Gen2FIPSImageDefinition ArchitectureAmd64 HyperVGenerationV2 "aks-ubuntu-fips-containerd-22.04-gen2";
      ubuntuImage Ubuntu2204Gen1FIPSImageDefinition ArchitectureAmd64 HyperVGenerationV1 "aks-ubuntu-fips-containerd-22.04" ]
  else if trustedLaunch then [
    ubuntuImage Ubuntu2204Gen2TrustedLaunchImageDefinition ArchitectureAmd64 HyperVGenerationV2 "aks-ubuntu-containerd-22.04-tl-gen2" ]
  else [
    ubuntuImage Ubuntu2204Gen2ImageDefinition ArchitectureAmd64 HyperVGenerationV2 "aks-ubuntu-containerd-22.04-gen2";
    ubuntuImage Ubuntu2204Gen1ImageDefinition ArchitectureAmd64 HyperVGenerationV1 "aks-ubuntu-containerd-22.04";
    ubuntuImage Ubuntu2204Gen2ArmImageDefinition ArchitectureArm64 HyperVGenerationV2 "aks-ubuntu-arm64-containerd-22.04-gen2" ].
Definition Ubuntu2404_DefaultImages (useSIG : bool) (fipsMode : option string) (trustedLaunch kataEnabled : bool) :
    list DefaultImageOutput :=
  if kataEnabled then []
  else if is_fips fipsMode then []
  else if trustedLaunch then [
    ubuntuImage Ubuntu2404Gen2TrustedLaunchImageDefinition ArchitectureAmd64 HyperVGenerationV2 "aks-ubuntu-containerd-24.04-tl-gen2" ]
  else [
    ubuntuImage Ubuntu2404Gen2ImageDefinition ArchitectureAmd64 HyperVGenerationV2 "aks-ubuntu-containerd-24.04-gen2";
    ubuntuImage Ubuntu2404Gen1ImageDefinition ArchitectureAmd64 HyperVGenerationV1 "aks-ubuntu-containerd-24.04";
    ubuntuImage Ubuntu2404Gen2ArmImageDefinition ArchitectureArm64 HyperVGenerationV2 "aks-ubuntu-arm64-containerd-24.04-gen2" ].
Definition AzureLinux_DefaultImages (useSIG : bool) (fipsMode : option string) (trustedLaunch kataEnabled : bool) :
    list DefaultImageOutput :=
  if kataEnabled then []
  else if is_fips fipsMode then
    if negb useSIG then [] else [
      azureLinuxImage AzureLinux2Gen2FIPSImageDefinition ArchitectureAmd64 HyperVGenerationV2 "aks-azurelinux-v2-gen2-fips";
      azureLinuxImage AzureLinux2Gen1FIPSImageDefinition ArchitectureAmd64 HyperVGenerationV1 "aks-azurelinux-v2-fips" ]
  else if trustedLaunch then [
    azureLinuxImage AzureLinux2Gen2TrustedLaunchImageDefinition ArchitectureAmd64 HyperVGenerationV2 "aks-azurelinux-v2-gen2-tl" ]
  else [
    azureLinuxImage AzureLinuxGen2ImageDefinition ArchitectureAmd64 HyperVGenerationV2 "aks-azurelinux-v2-gen2";
    azureLinuxImage AzureLinuxGen1ImageDefinition ArchitectureAmd64 HyperVGenerationV1 "aks-azurelinux-v2";
    azureLinuxImage AzureLinuxGen2ArmImageDefinition ArchitectureArm64 HyperVGenerationV2 "aks-azurelinux-v2-arm64-gen2" ].
Definition AzureLinux3_DefaultImages (useSIG : bool) (fipsMode : option string) (trustedLaunch kataEnabled : bool) :
    list DefaultImageOutput :=
  if kataEnabled then
    if is_fips fipsMode || trustedLaunch then []
    else [ azureLinuxImage AzureLinux3Gen2KataImageDefinition ArchitectureAmd64 HyperVGenerationV2 "aks-azurelinux-v3-gen2-kata" ]
  else if is_fips fipsMode then
    if negb useSIG then [] else [
      azureLinuxImage AzureLinux3Gen2FIPSImageDefinition ArchitectureAmd64 HyperVGenerationV2 "aks-azurelinux-v3-gen2-fips";
      azureLinuxImage AzureLinux3Gen1FIPSImageDefinition ArchitectureAmd64 HyperVGenerationV1 "aks-azurelinux-v3-fips";
      azureLinuxImage AzureLinux3Gen2Arm64FIPSImageDefinition ArchitectureArm64 HyperVGenerationV2 "aks-azurelinux-v3-arm64-gen2-fips" ]
  else if trustedLaunch then [
    azureLinuxImage AzureLinux3Gen2TrustedLaunchImageDefinition ArchitectureAmd64 HyperVGenerationV2 "aks-azurelinux-v3-gen2-tl" ]
  else [
    azureLinuxImage AzureLinux3Gen2ImageDefinition ArchitectureAmd64 HyperVGenerationV2 "aks-azurelinux-v3-gen2";
    azureLinuxImage AzureLinux3Gen1ImageDefinition ArchitectureAmd64 HyperVGenerationV1 "aks-azurelinux-v3";
    azureLinuxImage AzureLinux3Gen2ArmImageDefinition ArchitectureArm64 HyperVGenerationV2 "aks-azurelinux-v3-arm64-gen2" ].
Definition AzureContainerLinux_DefaultImages (useSIG : bool) (fipsMode : option string) (trustedLaunch kataEnabled : bool) :
    list DefaultImageOutput :=
  if negb useSIG || negb trustedLaunch || kataEnabled then []
  else if is_fips fipsMode then [
    azureContainerLinuxImage AzureContainerLinuxGen2FIPSImageDefinition "aks-acl-gen2-fips-tl" ArchitectureAmd64;
    azureContainerLinuxImage AzureContainerLinuxGen2ArmFIPSImageDefinition "aks-acl-arm64-gen2-fips-tl" ArchitectureArm64 ]
  else [
    azureContainerLinuxImage AzureContainerLinuxGen2ImageDefinition "aks-acl-gen2-tl" ArchitectureAmd64;
    azureContainerLinuxImage AzureContainerLinuxGen2ArmImageDefinition "aks-acl-arm64-gen2-tl" ArchitectureArm64 ].
Definition Windows2022_DefaultImages (useSIG : bool) (fipsMode : option string) (trustedLaunch kataEnabled : bool) :
    list DefaultImageOutput :=
  if is_fips fipsMode || trustedLaunch || kataEnabled then []
  else windowsDefaultImages useSIG [
    windowsImage Windows2022ContainerdGen2ImageDefinition HyperVGenerationV2 "aks-windows-2022-containerd-gen2";
    windowsImage Windows2022ContainerdImageDefinition HyperVGenerationV1 "aks-windows-2022-containerd" ].
Definition Windows2025_DefaultImages (useSIG : bool) (_ : option string) (trustedLaunch kataEnabled : bool) :
    list DefaultImageOutput :=
  if kataEnabled then []
  else if trustedLaunch then windowsDefaultImages useSIG [
    windowsImage Windows2025Gen2TLImageDefinition HyperVGenerationV2 "aks-windows-2025-gen2-tl" ]
  else windowsDefaultImages useSIG [
    windowsImage Windows2025Gen2ImageDefinition HyperVGenerationV2 "aks-windows-2025-gen2";
    windowsImage Windows2025ImageDefinition HyperVGenerationV1 "aks-windows-2025" ].

Definition DefaultImages (f : Family) : bool -> option string -> bool -> bool -> list DefaultImageOutput :=
  match f with
  | Ubuntu2004 => Ubuntu2004_DefaultImages
  | Ubuntu2204 => Ubuntu2204_DefaultImages
  | Ubuntu2404 => Ubuntu2404_DefaultImages
  | AzureLinux => AzureLinux_DefaultImages
  | AzureLinux3 => AzureLinux3_DefaultImages
  | AzureContainerLinux => AzureContainerLinux_DefaultImages
  | Windows2022 => Windows2022_DefaultImages
  | Windows2025 => Windows2025_DefaultImages
  end.

(** [PopulateImageTraitsFromID]: the definition; [None]: an index out of
    range. *)
Definition ImageDefinition_of_id (imageID : string) : option string :=
  let imageIDParts := Split imageID "/" in
  kind ← imageIDParts !! 1%nat;
  definition ← (if kind ==? "subscriptions"
                then _ ← imageIDParts !! 4%nat; _ ← imageIDParts !! 8%nat; imageIDParts !! 10%nat else Some "");
  if kind ==? "CommunityGalleries" then _ ← imageIDParts !! 2%nat; imageIDParts !! 4%nat else Some definition.

(** ** Versions of the shared gallery *)

Record NodeImageVersion := mk_image_version { nv_OS : option string; nv_SKU : option string; nv_Version : option string }.

Fixpoint newer_segments (v1 v2 : list string) : bool :=
  match v1, v2 with
  | s1 :: v1', s2 :: v2' =>
      match ParseInt s1, ParseInt s2 with
      | Some n1, Some n2 => if n2 <? n1 then true else if n1 <? n2 then false else newer_segments v1' v2'
      | _, _ => false
      end
  | _, _ => Nat.ltb (length v2) (length v1)
  end.
Definition isNewerVersion (version1 version2 : string) : bool := newer_segments (Split version1 ".") (Split version2 ".").

Definition supported_gallery (os : string) : bool :=
  (os ==? AKSUbuntuGalleryName) || (os ==? AKSAzureLinuxGalleryName) || (os ==? AKSWindowsGalleryName).
Definition add_latest (m : gmap string NodeImageVersion) (image : option NodeImageVersion) : gmap string NodeImageVersion :=
  match image with
  | None => m
  | Some image =>
      let os := from_ptr "" (nv_OS image) in
      if negb (supported_gallery os) then m
      else
        let key := os +:+ "-" +:+ from_ptr "" (nv_SKU image) in
        match m !! key with
        | None => <[key := image]> m
        | Some currentLatest =>
            if isNewerVersion (from_ptr "" (nv_Version image)) (from_ptr "" (nv_Version currentLatest))
            then <[key := image]> m else m
        end
  end.
Definition FilteredNodeImages `{GoRange} (l : list (option NodeImageVersion)) : list NodeImageVersion :=
  let latestImages := fold_left add_latest l ∅ in
  omap (fun k => latestImages !! k) (range_keys (dom latestImages)).

(** ** Custom images *)

Record GalleryImage := mk_gallery_image {
  gi_osState : option string; gi_osType : option string; gi_purchasePlan : bool;
  gi_architecture : option string; gi_hyperV : option string
}.
(** [gv_targetRegions]: the names of the publishing profile's regions;
    [gv_osDiskGB]: the size of the storage profile's OS disk. *)
Record GalleryImageVersion := mk_gallery_version {
  gv_location : option string; gv_state : option string;
  gv_targetRegions : option (list (option (option string))); gv_osDiskGB : option (option Z)
}.

(** A version of a community gallery image: its name, its properties'
    publishing date, and its other fields, empty when none is set. *)
Record CommunityImageVersion := mk_community {
  cv_name : option string; cv_properties : option (option Z); cv_rest : string
}.
#[export] Instance CommunityImageVersion_eq_dec : EqDecision CommunityImageVersion.
Proof. solve_decision. Defined.

(** What the galleries answer: the shared versions, the pages of community
    versions of an image with the error that ended them, and a custom image
    with its version, whose properties may be missing. *)
Record answers := mk_answers {
  an_shared : result string (list (option NodeImageVersion));
  an_community : string -> string -> list (list CommunityImageVersion) * option string;
  an_custom : result string (option (option GalleryImage) * option (option GalleryImageVersion))
}.

(** ** Requirements of karpenter core ([scheduling.Requirements]) *)

Class Scheduling := {
  (** [Compatible] with [AllowUndefinedWellKnownAndRestrictedLabels] *)
  Compatible : Requirements -> Requirements -> bool;
  NewNodeSelectorRequirements : list NodeVersions.Requirement -> Requirements;
  NodeSelectorRequirements : Requirements -> list NodeVersions.Requirement
}.
(** The labels of images are well known or restricted, so they may be
    undefined; defined, they must have a value in common.  Selectors in any
    order say the same. *)
Class SchedulingLaws `{Scheduling} : Prop := {
  compatible_intersects reqs architecture generation :
    Compatible reqs (runs_on architecture generation) = true <->
    (reqs !! LabelArchStable = None \/ architecture ∈ values reqs LabelArchStable) /\
    (reqs !! LabelSKUHyperVGeneration = None \/ generation ∈ values reqs LabelSKUHyperVGeneration);
  selectors_roundtrip architecture generation l :
    l ≡ₚ NodeSelectorRequirements (runs_on architecture generation) ->
    NewNodeSelectorRequirements l = runs_on architecture generation
}.

(** ** Resolution *)

Section Provider.
Context `{ConditionSet, !Semver, !TTLCache, !Scheduling}.
(** [semver.ParseTolerant] and [semver.Version{Major, Minor}]. *)
Variable ParseTolerant : string -> option version.
Variable Version : Z -> Z -> version.

Definition at_least (kubernetesVersion : string) (major minor : Z) : bool :=
  match ParseTolerant (TrimPrefix kubernetesVersion "v") with
  | None => false
  | Some version => negb (LT version (Version major minor))
  end.
Definition UseAzureLinux3 (kubernetesVersion : string) : bool := at_least kubernetesVersion 1 32.
Definition UseUbuntu2404 (kubernetesVersion : string) : bool := at_least kubernetesVersion 1 34.
Definition UseUbuntu2204FIPS (kubernetesVersion : string) (trustedLaunch : bool) : bool :=
  if trustedLaunch then true else at_least kubernetesVersion 1 35.
Definition SupportsWindows2025 (kubernetesVersion : string) : bool := at_least kubernetesVersion 1 32.

Definition defaultUbuntu (fipsMode : option string) (trustedLaunch : bool) (kubernetesVersion : string) : Family :=
  if is_fips fipsMode then
    if UseUbuntu2204FIPS kubernetesVersion trustedLaunch then Ubuntu2204 else Ubuntu2004
  else if trustedLaunch then Ubuntu2204
  else if UseUbuntu2404 kubernetesVersion then Ubuntu2404
  else Ubuntu2204.

Definition GetImageFamily (familyName fipsMode : option string) (trustedLaunch : bool) (kubernetesVersion : string) : Family :=
  let name := from_ptr "" familyName in
  if name ==? Ubuntu2204ImageFamily then Ubuntu2204
  else if name ==? Ubuntu2404ImageFamily then Ubuntu2404
  else if name ==? AzureLinuxImageFamily then if UseAzureLinux3 kubernetesVersion then AzureLinux3 else AzureLinux
  else if name ==? Windows2022ImageFamily then Windows2022
  else if name ==? Windows2025ImageFamily then Windows2025
  else if name ==? AzureContainerLinuxImageFamily then AzureContainerLinux
  else defaultUbuntu fipsMode trustedLaunch kubernetesVersion.
Definition ResolvesToUbuntu2004 (familyName fipsMode : option string) (trustedLaunch : bool) (kubernetesVersion : string) : bool :=
  bool_decide (GetImageFamily familyName fipsMode trustedLaunch kubernetesVersion = Ubuntu2004).

Definition getSupportedImages (familyName fipsMode : option string) (kubernetesVersion : string)
    (useSIG trustedLaunch kataEnabled : bool) : list DefaultImageOutput :=
  DefaultImages (GetImageFamily familyName fipsMode trustedLaunch kubernetesVersion) useSIG fipsMode trustedLaunch kataEnabled.

(** ** Listing *)

Record NodeImage := mk_image { ID : string; image_requirements : Requirements }.

Inductive image_error := ErrNotReady (e : not_ready) | ErrImage (what : string).

(** The operator's options, the location, and the two structural hashes. *)
Context `{GoRange}.
Variable useSIG : bool.
Variable SIGSubscriptionID : string.
Variable location : string.
Variable provisionMode : string.
Variable galleryConfigured : bool.
Variable cacheKey : list DefaultImageOutput -> string -> result string string.
Variable ClassHash : AKSNodeClass -> string.
(** The constants of the compute SDK. *)
Variables Generalized Linux Succeeded ArchitectureX64 GalleryArm64 GalleryV1 GalleryV2 : string.

Definition ImageExpirationInterval : Z := 72 * Hour.

Definition listSIG (a : answers) (supportedImages : list DefaultImageOutput) : result image_error (list NodeImage) :=
  match an_shared a with
  | Err e => Err (ErrImage e)
  | Ok versions =>
      let retrievedLatestImages := FilteredNodeImages versions in
      Ok (omap (fun supported =>
            nextImage ← List.find (fun v => ImageDefinition supported ==? from_ptr "" (nv_SKU v)) retrievedLatestImages;
            Some (mk_image
              (ResourceIDs.BuildImageIDSIG SIGSubscriptionID (GalleryResourceGroup supported) (GalleryName supported)
                (ImageDefinition supported) (from_ptr "" (nv_Version nextImage))) (Requirements_ supported)))
          supportedImages)
  end.

Definition no_version : CommunityImageVersion := mk_community None None "".
(** [None]: a missing date is dereferenced. *)
Definition newest_step (top version : CommunityImageVersion) : option CommunityImageVersion :=
  if top ==? no_version then Some version
  else
    date ← (p ← cv_properties version; p); top_date ← (p ← cv_properties top; p);
    Some (if top_date <? date then version else top).
Definition latestNodeImageVersionCommunity (a : answers) (publicGalleryURL communityImageName : string) :
    option (result string string) :=
  let '(pages, err) := an_community a publicGalleryURL communityImageName in
  match fold_panic newest_step no_version (concat pages) with
  | None => None
  | Some top => Some (match err with Some e => Err e | None => Ok (from_ptr "" (cv_name top)) end)
  end.
Definition getCIGImageID (a : answers) (publicGalleryURL communityImageName : string) : option (result string string) :=
  match latestNodeImageVersionCommunity a publicGalleryURL communityImageName with
  | None => None
  | Some (Err e) => Some (Err e)
  | Some (Ok imageVersion) => Some (Ok (ResourceIDs.BuildImageIDCIG publicGalleryURL communityImageName imageVersion))
  end.
Fixpoint listCIG (a : answers) (supportedImages : list DefaultImageOutput) : option (result image_error (list NodeImage)) :=
  match supportedImages with
  | [] => Some (Ok [])
  | supported :: rest =>
      match getCIGImageID a (PublicGalleryURL supported) (ImageDefinition supported) with
      | None => None
      | Some (Err e) => Some (Err (ErrImage e))
      | Some (Ok cigImageID) =>
          match listCIG a rest with
          | None => None
          | Some (Err e) => Some (Err e)
          | Some (Ok images) => Some (Ok (mk_image cigImageID (Requirements_ supported) :: images))
          end
      end
  end.

(** The versions' part of the class is a [NodeVersions.NodeClass]. *)
Definition listDefaultImages (now : Z) (a : answers) (n : AKSNodeClass) (nc : NodeVersions.NodeClass)
    (cache : tc (list NodeImage)) : option (result image_error (list NodeImage)) * tc (list NodeImage) :=
  if is_fips (FIPSMode n) && negb useSIG then (Some (Ok []), cache)
  else
    match GetKubernetesVersion nc with
    | Err e => (Some (Err (ErrNotReady e)), cache)
    | Ok kubernetesVersion =>
        if (from_ptr "" (ImageFamily n) ==? Windows2025ImageFamily) && negb (SupportsWindows2025 kubernetesVersion)
        then (Some (Ok []), cache)
        else
          let supportedImages := getSupportedImages (ImageFamily n) (FIPSMode n) kubernetesVersion useSIG
                                   (IsTrustedLaunchEnabled n) (IsKataEnabled n) in
          match cacheKey supportedImages kubernetesVersion with
          | Err e => (Some (Err (ErrImage e)), cache)
          | Ok key =>
              match tc_get now key cache with
              | Some nodeImages => (Some (Ok nodeImages), cache)
              | None =>
                  match (if useSIG then Some (listSIG a supportedImages) else listCIG a supportedImages) with
                  | None => (None, cache)
                  | Some (Err e) => (Some (Err e), cache)
                  | Some (Ok nodeImages) =>
                      (Some (Ok nodeImages), tc_set now key nodeImages ImageExpirationInterval cache)
                  end
              end
          end
    end.

Definition validateCustomImageConfiguration (n : AKSNodeClass) (nc : NodeVersions.NodeClass) (mode : string) : option string :=
  let family := from_ptr "" (ImageFamily n) in
  if negb ((mode ==? Options.ProvisionModeAKSScriptless) || (mode ==? VirtualMachines.ProvisionModeBootstrappingClient))
  then Some "imageID is not supported in provision mode"
  else if negb ((family ==? Ubuntu2204ImageFamily) || (family ==? Ubuntu2404ImageFamily) || (family ==? AzureLinuxImageFamily))
  then Some "imageID requires an explicit Ubuntu2204, Ubuntu2404, or AzureLinux imageFamily"
  else if bool_decide (is_Some (v ← nc_versions nc; ve_image v)) then Some "imageID cannot be combined with versions.nodeImageVersion"
  else if IsFIPSEnabled n || IsTrustedLaunchEnabled n || IsKataEnabled n
  then Some "imageID does not support FIPS, Trusted Launch, or Kata images"
  else None.

Definition validateCustomImageMetadata (image : option (option GalleryImage)) (version : option (option GalleryImageVersion)) :
    option string :=
  match image, version with
  | Some (Some image), Some (Some version) =>
      if (from_ptr "" (gi_osState image) !=? Generalized) || (from_ptr "" (gi_osType image) !=? Linux)
      then Some "imageID must reference a generalized Linux image, never a captured cluster node"
      else if gi_purchasePlan image then Some "imageID does not support images requiring a marketplace purchase plan"
      else if from_ptr "" (gv_state version) !=? Succeeded
      then Some "compute gallery image version is not successfully provisioned"
      else None
  | _, _ => Some "compute gallery image metadata is incomplete"
  end.
(** [strings.ReplaceAll] of a space by nothing. *)
Fixpoint without_spaces (s : string) : string :=
  match s with
  | EmptyString => EmptyString
  | String a s' => if a ==? " "%char then without_spaces s' else String a (without_spaces s')
  end.
Definition customImageIsPublished (version : GalleryImageVersion) (location : string) : bool :=
  let normalizedLocation := without_spaces location in
  let matches region := EqualFold (without_spaces (from_ptr "" region)) normalizedLocation in
  match gv_targetRegions version with
  | None => matches (gv_location version)
  | Some regions => existsb (fun region => match region with Some name => matches name | None => false end) regions
  end.
Definition validateCustomImage (image : option (option GalleryImage)) (version : option (option GalleryImageVersion))
    (location : string) (osDiskSizeGB : option Z) : option string :=
  match validateCustomImageMetadata image version with
  | Some e => Some e
  | None =>
      match version with
      | Some (Some version) =>
          if negb (customImageIsPublished version location) then Some "compute gallery image version is not published in region"
          else match gv_osDiskGB version, osDiskSizeGB with
               | Some sizeInGB, Some osDiskSizeGB =>
                   if osDiskSizeGB <? from_ptr 0 sizeInGB
                   then Some "osDiskSizeGB is smaller than the Compute Gallery image OS disk" else None
               | _, _ => None
               end
      | _ => None
      end
  end.
Definition customImageRequirements (image : GalleryImage) : result string Requirements :=
  let architecture :=
    if from_ptr "" (gi_architecture image) ==? ArchitectureX64 then ArchitectureAmd64
    else if from_ptr "" (gi_architecture image) ==? GalleryArm64 then ArchitectureArm64 else "" in
  let generation :=
    if from_ptr "" (gi_hyperV image) ==? GalleryV1 then HyperVGenerationV1
    else if from_ptr "" (gi_hyperV image) ==? GalleryV2 then HyperVGenerationV2 else "" in
  if (architecture ==? "") || (generation ==? "")
  then Err "compute gallery image has an unsupported architecture or Hyper-V generation"
  else Ok (<[LabelOSStable := {[ OSLinux ]}]> (runs_on architecture generation)).

Definition listCustomImage (now : Z) (a : answers) (n : AKSNodeClass) (nc : NodeVersions.NodeClass)
    (cache : tc (list NodeImage)) : result image_error (list NodeImage) * tc (list NodeImage) :=
  let fail e := (Err (ErrImage e), cache) in
  match validateCustomImageConfiguration n nc provisionMode with
  | Some e => fail e
  | None =>
      if negb galleryConfigured then fail "compute gallery image client is not configured"
      else
        match GetKubernetesVersion nc with
        | Err e => (Err (ErrNotReady e), cache)
        | Ok kubernetesVersion =>
            let key := "custom/" +:+ ClassHash n +:+ "/" +:+ kubernetesVersion in
            match tc_get now key cache with
            | Some images => (Ok images, cache)
            | None =>
                match an_custom a with
                | Err e => fail e
                | Ok (image, version) =>
                    match validateCustomImage image version location (OSDiskSizeGB n), image with
                    | Some e, _ => fail e
                    | None, Some (Some image) =>
                        match customImageRequirements image with
                        | Err e => fail e
                        | Ok requirements =>
                            match List.find (fun candidate => Compatible requirements (Requirements_ candidate))
                                    (getSupportedImages (ImageFamily n) (FIPSMode n) kubernetesVersion true false false) with
                            | None => fail "compute gallery image architecture or Hyper-V generation is incompatible with imageFamily"
                            | Some candidate =>
                                let images := [mk_image (from_ptr "" (ImageID n)) (Requirements_ candidate)] in
                                (Ok images, tc_set now key images (1 * Hour) cache)
                            end
                        end
                    | None, _ => fail ""
                    end
                end
            end
        end
  end.

Definition List_ (now : Z) (a : answers) (n : AKSNodeClass) (nc : NodeVersions.NodeClass) (cache : tc (list NodeImage)) :
    option (result image_error (list NodeImage)) * tc (list NodeImage) :=
  match ImageID n with
  | Some _ => let '(r, cache) := listCustomImage now a n nc cache in (Some r, cache)
  | None => listDefaultImages now a n nc cache
  end.

(** ** The image and the distro of a launch *)

Definition ResolveNodeImageFromNodeClass (n : AKSNodeClass) (nc : NodeVersions.NodeClass) (reqs : Requirements) :
    result image_error string :=
  match GetImages nc with
  | Err e => Err (ErrNotReady e)
  | Ok nodeImages =>
      match List.find (fun i =>
              negb (match ImageID n with Some id => NodeVersions.im_id i !=? id | None => false end) &&
              Compatible reqs (NewNodeSelectorRequirements (NodeVersions.im_requirements i))) nodeImages with
      | Some i => Ok (NodeVersions.im_id i)
      | None => Err (ErrImage "no compatible images found for instance type")
      end
  end.

(** [None]: a panic. *)
Definition mapToImageDistro (imageID : string) (fipsMode : option string) (imageFamily : Family)
    (useSIG trustedLaunch kataEnabled : bool) : option (result image_error string) :=
  match ImageDefinition_of_id imageID with
  | None => None
  | Some definition =>
      Some (match List.find (fun d => ImageDefinition d ==? definition)
                    (DefaultImages imageFamily useSIG fipsMode trustedLaunch kataEnabled) with
            | Some d => Ok (Distro d)
            | None => Err (ErrImage "no distro found for image id")
            end)
  end.
Definition mapCustomImageToDistro (n : AKSNodeClass) (nc : NodeVersions.NodeClass) (family : Family) : result image_error string :=
  match GetImages nc with
  | Err e => Err (ErrNotReady e)
  | Ok images =>
      match head (omap (fun image =>
              if NodeVersions.im_id image !=? from_ptr "" (ImageID n) then None
              else Distro <$> List.find (fun candidate =>
                     Compatible (NewNodeSelectorRequirements (NodeVersions.im_requirements image)) (Requirements_ candidate))
                     (DefaultImages family true (FIPSMode n) (IsTrustedLaunchEnabled n) (IsKataEnabled n))) images) with
      | Some distro => Ok distro
      | None => Err (ErrImage "no bootstrap distro matches the resolved custom image")
      end
  end.
Definition requiresFIPS1403Encryption (distro : string) : bool :=
  bool_decide (distro ∈ ["aks-ubuntu-fips-containerd-22.04"; "aks-ubuntu-fips-containerd-22.04-gen2";
    "aks-ubuntu-fips-containerd-22.04-tl-gen2"]).

(** ** What a listing gives *)

(** The requests of listings: the key they are cached under and the image
    definitions they ask for. *)
Record event := mk_event { ev_now : Z; ev_answers : answers; ev_class : AKSNodeClass; ev_versions : NodeVersions.NodeClass }.
Definition supported_of (e : event) (kubernetesVersion : string) : list DefaultImageOutput :=
  let n := ev_class e in
  match ImageID n with
  | Some _ => getSupportedImages (ImageFamily n) (FIPSMode n) kubernetesVersion true false false
  | None => getSupportedImages (ImageFamily n) (FIPSMode n) kubernetesVersion useSIG (IsTrustedLaunchEnabled n) (IsKataEnabled n)
  end.
Definition asks (e : event) (key : string) (supported : list DefaultImageOutput) : Prop :=
  exists kubernetesVersion, GetKubernetesVersion (ev_versions e) = Ok kubernetesVersion /\
    supported = supported_of e kubernetesVersion /\
    match ImageID (ev_class e) with
    | Some _ => key = "custom/" +:+ ClassHash (ev_class e) +:+ "/" +:+ kubernetesVersion
    | None => cacheKey supported kubernetesVersion = Ok key
    end.
Definition step (cache : tc (list NodeImage)) (e : event) : tc (list NodeImage) :=
  (List_ (ev_now e) (ev_answers e) (ev_class e) (ev_versions e) cache).2.
Definition reach (evs : list event) : tc (list NodeImage) := fold_left step evs tc_empty.

(** Requests with the same key ask for the same definitions, and for the same
    custom image. *)
Definition faithful (evs : list event) : Prop :=
  forall e e' key supported supported', e ∈ evs -> e' ∈ evs -> asks e key supported -> asks e' key supported' ->
    supported = supported' /\ ImageID (ev_class e) = ImageID (ev_class e').

(** An image of a definition. *)
Definition image_of (d : DefaultImageOutput) (i : NodeImage) : Prop :=
  image_requirements i = Requirements_ d /\ exists v : string,
    ID i = if useSIG then ResourceIDs.BuildImageIDSIG SIGSubscriptionID (GalleryResourceGroup d) (GalleryName d) (ImageDefinition d) v
           else ResourceIDs.BuildImageIDCIG (PublicGalleryURL d) (ImageDefinition d) v.
Definition built (id : option string) (supported : list DefaultImageOutput) (l : list NodeImage) : Prop :=
  match id with
  | Some id => exists d, d ∈ supported /\ l = [mk_image id (Requirements_ d)]
  | None => Forall (fun i => exists d, d ∈ supported /\ image_of d i) l
  end.
Definition entries_built (evs : list event) (cache : tc (list NodeImage)) : Prop :=
  forall now key l, tc_get now key cache = Some l ->
    exists e supported, e ∈ evs /\ asks e key supported /\ built (ImageID (ev_class e)) supported l.

Lemma list_sig_built a supported l : useSIG = true -> listSIG a supported = Ok l -> built None supported l.
Proof.
  intros U. unfold listSIG. destruct (an_shared a) as [versions|]; [|done]. intros [= <-].
  apply Forall_forall. intros i I%list_elem_of_omap. destruct I as (d & D & E).
  destruct (List.find _ _) as [v|]; [|done]. injection E as <-. exists d. split; [done|]. split; [done|].
  rewrite U. by eexists.
Qed.
Lemma list_cig_built a supported l : useSIG = false -> listCIG a supported = Some (Ok l) -> built None supported l.
Proof.
  intros U. revert l. induction supported as [|d rest IH]; intros l; simpl; [intros [= <-]; constructor|].
  unfold getCIGImageID. destruct (latestNodeImageVersionCommunity _ _ _) as [[v|]|]; try done.
  destruct (listCIG a rest) as [[images|]|]; try done. intros [= <-]. constructor.
  - exists d. split; [left|]. split; [done|]. rewrite U. by eexists.
  - eapply Forall_impl; [by apply IH|]. intros i (d' & D & I). exists d'. by split; [right|].
Qed.

Lemma list_default_step evs e cache : TTLCacheLaws -> faithful evs -> e ∈ evs -> ImageID (ev_class e) = None ->
  entries_built evs cache ->
  let '(r, cache') := listDefaultImages (ev_now e) (ev_answers e) (ev_class e) (ev_versions e) cache in
  entries_built evs cache' /\
  forall l, r = Some (Ok l) ->
    l = [] \/ exists kubernetesVersion, GetKubernetesVersion (ev_versions e) = Ok kubernetesVersion /\
                built None (supported_of e kubernetesVersion) l.
Proof.
  intros Laws F He Id B. unfold listDefaultImages. set (n := ev_class e) in *. set (nc := ev_versions e) in *.
  destruct (is_fips (FIPSMode n) && negb useSIG); [split; [done|]; intros l [= <-]; by left|].
  destruct (GetKubernetesVersion nc) as [k8s|] eqn:K; [|done].
  destruct (_ && _); [split; [done|]; intros l [= <-]; by left|].
  set (supported := getSupportedImages _ _ _ _ _ _).
  assert (Es : supported = supported_of e k8s) by (unfold supported_of; fold n; by rewrite Id).
  destruct (cacheKey supported k8s) as [key|] eqn:Key; [|done].
  assert (A : asks e key supported) by (exists k8s; fold n; by rewrite Id).
  assert (Bu : forall l, (if useSIG then Some (listSIG (ev_answers e) supported) else listCIG (ev_answers e) supported) = Some (Ok l) ->
                 built None supported l).
  { intros l. destruct useSIG eqn:U; [intros [= E]; by eapply list_sig_built|by apply list_cig_built]. }
  destruct (tc_get (ev_now e) key cache) as [nodeImages|] eqn:G.
  - split; [done|]. intros l [= <-]. right. exists k8s. split; [done|].
    destruct (B _ _ _ G) as (e' & supported' & He' & A' & Bl).
    destruct (F _ _ _ _ _ He He' A A') as [Eq Ei]. fold n in Ei. by rewrite <- Es, Eq, <- Id, Ei.
  - destruct (if useSIG then _ else _) as [[nodeImages|]|] eqn:L; [|done..].
    specialize (Bu nodeImages eq_refl). split.
    + intros now key' l. destruct (decide (key = key')) as [<-|N].
      * rewrite tc_get_set_eq by (unfold ImageExpirationInterval, Hour, Minute, Second, Nanosecond; lia).
        destruct (decide _); [|done]. intros [= <-]. exists e, supported. fold n. by rewrite Id.
      * rewrite tc_get_set_ne by done. apply B.
    + intros l [= <-]. right. exists k8s. by rewrite <- Es.
Qed.

Lemma list_custom_step evs e cache : TTLCacheLaws -> e ∈ evs -> is_Some (ImageID (ev_class e)) ->
  entries_built evs cache ->
  entries_built evs (listCustomImage (ev_now e) (ev_answers e) (ev_class e) (ev_versions e) cache).2.
Proof.
  intros Laws He [id Id] B. unfold listCustomImage. set (n := ev_class e) in *. set (nc := ev_versions e) in *.
  destruct (validateCustomImageConfiguration _ _ _); [done|]. destruct (negb galleryConfigured); [done|].
  destruct (GetKubernetesVersion nc) as [k8s|] eqn:K; [|done].
  destruct (tc_get _ _ _); [done|]. destruct (an_custom _) as [[image version]|]; [|done].
  destruct (validateCustomImage _ _ _ _); [done|]. destruct image as [[image|]|]; try done.
  destruct (customImageRequirements image) as [reqs|]; [|done].
  set (supported := getSupportedImages _ _ _ _ _ _).
  destruct (List.find _ _) as [d|] eqn:D; [|done]. cbn [snd].
  intros now key' l. set (key := "custom/" +:+ _). destruct (decide (key = key')) as [<-|N].
  - rewrite tc_get_set_eq by (unfold Hour, Minute, Second, Nanosecond; lia).
    destruct (decide _); [|done]. intros [= <-]. exists e, supported. split; [done|]. split.
    + exists k8s. unfold supported_of. fold n. by rewrite Id.
    + fold n. rewrite Id. exists d. split; [|done]. by apply find_some in D as [D _]; apply list_elem_of_In.
  - rewrite tc_get_set_ne by done. apply B.
Qed.

Lemma reach_built evs : TTLCacheLaws -> faithful evs -> entries_built evs (reach evs).
Proof.
  intros Laws F. unfold reach.
  enough (W : forall l c, l ⊆ evs -> entries_built evs c -> entries_built evs (fold_left step l c)).
  { apply W; [done|]. intros now key l. by rewrite tc_get_empty. }
  induction l as [|e l IH]; intros c S B; [done|]. simpl. apply IH; [set_solver|].
  assert (He : e ∈ evs) by (apply S; left). unfold step, List_.
  destruct (ImageID (ev_class e)) as [id|] eqn:Id.
  - destruct (listCustomImage _ _ _ _ _) as [r c'] eqn:L. cbn [snd].
    change c' with (r, c').2. rewrite <- L. by apply list_custom_step.
  - pose proof (list_default_step evs e c Laws F He Id B) as D. destruct (listDefaultImages _ _ _ _ _). by destruct D.
Qed.

(** ** The image of a launch *)

(** A type can run an image: they share a value of the architecture and the
    generation, where the type says something about them. *)
Definition shares (reqs r : Requirements) (label : string) : Prop :=
  reqs !! label = None \/ exists v, v ∈ values r label /\ v ∈ values reqs label.
Definition fits (reqs r : Requirements) : Prop :=
  shares reqs r LabelArchStable /\ shares reqs r LabelSKUHyperVGeneration.

(** What holds of every image definition of a family: it is for one
    architecture and generation, found by its name, which has no slash, and
    its distro says what it is for - but Azure Linux has no FIPS image for
    trusted launch and gives the plain one, and the FIPS images of Windows are
    not called so. *)
Definition combinations : list Requirements :=
  a ← [ArchitectureAmd64; ArchitectureArm64]; g ← [HyperVGenerationV1; HyperVGenerationV2]; [runs_on a g].
Definition definition_test (l : list DefaultImageOutput) (f : Family) (fips trustedLaunch kata : bool) (d : DefaultImageOutput) : bool :=
  bool_decide (Requirements_ d ∈ combinations) &&
  forallb (free_of "/") [PublicGalleryURL d; GalleryResourceGroup d; GalleryName d; ImageDefinition d] &&
  match List.find (fun d' => ImageDefinition d' ==? ImageDefinition d) l with
  | Some d' => bool_decide (Requirements_ d' = Requirements_ d) && (ImageDefinition d' ==? ImageDefinition d) && (Distro d' ==? Distro d)
  | None => false
  end &&
  (bool_decide (f = Windows2025) || Bool.eqb (Contains (Distro d) "-fips") fips) &&
  (bool_decide (f ∈ [AzureLinux; AzureLinux3]) && fips || Bool.eqb (Contains (Distro d) "-tl") trustedLaunch) && Bool.eqb (Contains (Distro d) "-kata") kata.

Lemma definitions_tested f sig fipsMode trustedLaunch kata :
  forallb (definition_test (DefaultImages f sig fipsMode trustedLaunch kata) f (is_fips fipsMode) trustedLaunch kata)
    (DefaultImages f sig fipsMode trustedLaunch kata) = true.
Proof using Type.
  destruct f, sig, trustedLaunch, kata; cbn [DefaultImages];
    unfold Ubuntu2004_DefaultImages, Ubuntu2204_DefaultImages, Ubuntu2404_DefaultImages, AzureLinux_DefaultImages,
      AzureLinux3_DefaultImages, AzureContainerLinux_DefaultImages, Windows2022_DefaultImages, Windows2025_DefaultImages;
    destruct (is_fips fipsMode); vm_compute; reflexivity.
Qed.

Lemma definition_spec f sig fipsMode trustedLaunch kata d :
  d ∈ DefaultImages f sig fipsMode trustedLaunch kata ->
  (exists a g, Requirements_ d = runs_on a g) /\
  (free_of "/" (PublicGalleryURL d) = true /\ free_of "/" (GalleryResourceGroup d) = true /\
   free_of "/" (GalleryName d) = true /\ free_of "/" (ImageDefinition d) = true) /\
  (exists d', List.find (fun d' => ImageDefinition d' ==? ImageDefinition d) (DefaultImages f sig fipsMode trustedLaunch kata) = Some d' /\
     Distro d' = Distro d) /\
  (f <> Windows2025 -> Contains (Distro d) "-fips" = is_fips fipsMode) /\
  (~ (f ∈ [AzureLinux; AzureLinux3] /\ is_fips fipsMode = true) -> Contains (Distro d) "-tl" = trustedLaunch) /\
  Contains (Distro d) "-kata" = kata.
Proof using Type.
  intros D. pose proof (definitions_tested f sig fipsMode trustedLaunch kata) as T.
  apply forallb_forall with (x := d) in T; [|by apply list_elem_of_In]. unfold definition_test in T.
  rewrite !andb_true_iff in T. destruct T as [[[[[C S] F] Fi] Tl] K].
  apply bool_decide_eq_true in C. cbn [forallb] in S. rewrite !andb_true_iff in S. destruct S as (S1 & S2 & S3 & S4 & _).
  apply Bool.eqb_prop in K. split_and!; try done.
  - unfold combinations in C. apply list_elem_of_bind in C as (a & C & _). apply list_elem_of_bind in C as (g & C & _).
    apply list_elem_of_singleton in C. by exists a, g.
  - destruct (List.find _ _) as [d'|]; [|done]. exists d'. split; [done|].
    rewrite !andb_true_iff in F. destruct F as [_ F]. by apply bool_decide_eq_true in F.
  - intros N. rewrite bool_decide_eq_false_2 in Fi by done. by apply Bool.eqb_prop.
  - intros N. apply orb_true_iff in Tl as [Tl|Tl]; [|by apply Bool.eqb_prop].
    apply andb_true_iff in Tl as [Tl ?]. apply bool_decide_eq_true in Tl. by destruct N.
Qed.

Lemma definition_of_sig sub rg gallery definition v :
  free_of "/" sub = true -> free_of "/" rg = true -> free_of "/" gallery = true -> free_of "/" definition = true ->
  ImageDefinition_of_id (ResourceIDs.BuildImageIDSIG sub rg gallery definition v) = Some definition.
Proof using Type.
  intros S R G D. unfold ImageDefinition_of_id, ResourceIDs.BuildImageIDSIG.
  set (tail := "/versions/" +:+ v).
  assert (E : Split ("/subscriptions/" +:+ sub +:+ "/resourceGroups/" +:+ rg +:+ "/providers/Microsoft.Compute/galleries/"
      +:+ gallery +:+ "/images/" +:+ definition +:+ tail) "/" =
    [""; "subscriptions"; sub; "resourceGroups"; rg; "providers"; "Microsoft.Compute"; "galleries"; gallery; "images";
     definition] ++ Split ("versions/" +:+ v) "/").
  { unfold tail. change ("/subscriptions/" +:+ ?x) with ("" +:+ String "/" ("subscriptions" +:+ String "/" x)).
    change ("/resourceGroups/" +:+ ?x) with (String "/" ("resourceGroups" +:+ String "/" x)).
    change ("/providers/Microsoft.Compute/galleries/" +:+ ?x)
      with (String "/" ("providers" +:+ String "/" ("Microsoft.Compute" +:+ String "/" ("galleries" +:+ String "/" x)))).
    change ("/images/" +:+ ?x) with (String "/" ("images" +:+ String "/" x)).
    change ("/versions/" +:+ v) with (String "/" ("versions/" +:+ v)).
    by rewrite !Split_cons by done. }
  rewrite E. cbn. by rewrite bool_decide_eq_false_2 by done.
Qed.
Lemma definition_of_cig url definition v :
  free_of "/" url = true -> free_of "/" definition = true ->
  ImageDefinition_of_id (ResourceIDs.BuildImageIDCIG url definition v) = Some definition.
Proof using Type.
  intros U D. unfold ImageDefinition_of_id, ResourceIDs.BuildImageIDCIG.
  assert (E : Split ("/CommunityGalleries/" +:+ url +:+ "/images/" +:+ definition +:+ "/versions/" +:+ v) "/" =
    [""; "CommunityGalleries"; url; "images"; definition] ++ Split ("versions/" +:+ v) "/").
  { change ("/CommunityGalleries/" +:+ ?x) with ("" +:+ String "/" ("CommunityGalleries" +:+ String "/" x)).
    change ("/images/" +:+ ?x) with (String "/" ("images" +:+ String "/" x)).
    change ("/versions/" +:+ v) with (String "/" ("versions/" +:+ v)).
    by rewrite !Split_cons by done. }
  by rewrite E.
Qed.

Lemma definition_of_image f sig fipsMode trustedLaunch kata d i :
  free_of "/" SIGSubscriptionID = true -> d ∈ DefaultImages f sig fipsMode trustedLaunch kata -> image_of d i ->
  ImageDefinition_of_id (ID i) = Some (ImageDefinition d).
Proof using Type.
  intros S D [_ (v & ->)]. apply definition_spec in D as (_ & (S1 & S2 & S3 & S4) & _).
  destruct useSIG; [by apply definition_of_sig|by apply definition_of_cig].
Qed.

Lemma fits_compatible `{!SchedulingLaws} reqs a g : Compatible reqs (runs_on a g) = true <-> fits reqs (runs_on a g).
Proof using Type.
  rewrite compatible_intersects. unfold fits, shares.
  assert (A : values (runs_on a g) LabelArchStable = {[ a ]}).
  { unfold values, runs_on. by rewrite lookup_insert_eq. }
  assert (G : values (runs_on a g) LabelSKUHyperVGeneration = {[ g ]}).
  { unfold values, runs_on. rewrite lookup_insert_ne by (intros E; vm_compute in E; discriminate). by rewrite lookup_singleton_eq. }
  rewrite A, G. split; [intros [[?|?] [?|?]]; split; eauto; right; eexists; (split; [|done]); by apply elem_of_singleton|].
  intros [[?|(v & ->%elem_of_singleton & ?)] [?|(w & ->%elem_of_singleton & ?)]]; auto.
Qed.

(** The image as the class's status lists it. *)
Definition to_listed (i : NodeImage) : NodeVersions.ListedImage :=
  NodeVersions.mk_listed (ID i) (NodeSelectorRequirements (image_requirements i)).
Definition published `{GoSort} (l : list NodeImage) : list NodeVersions.NodeImage :=
  NodeVersions.nodeImageStatus (map to_listed l).

Lemma find_published `{GoSort, !SchedulingLaws} reqs l :
  Forall (fun i => exists a g, image_requirements i = runs_on a g) l ->
  match List.find (fun i => negb false && Compatible reqs (NewNodeSelectorRequirements (NodeVersions.im_requirements i))) (published l) with
  | Some i' => exists l1 i l2, l = l1 ++ i :: l2 /\ NodeVersions.im_id i' = ID i /\ fits reqs (image_requirements i) /\
                 Forall (fun i => ~ fits reqs (image_requirements i)) l1
  | None => Forall (fun i => ~ fits reqs (image_requirements i)) l
  end.
Proof using Type.
  induction 1 as [|i l (a & g & R) _ IH]; [constructor|].
  unfold published, NodeVersions.nodeImageStatus in *. cbn [map List.find negb andb NodeVersions.im_requirements].
  rewrite (selectors_roundtrip a g) by (cbn; by rewrite Slice_perm, R).
  destruct (Compatible reqs (runs_on a g)) eqn:C.
  - exists [], i, l. split_and!; [done..| |constructor]. rewrite R. by apply fits_compatible.
  - assert (N : ~ fits reqs (image_requirements i)) by (rewrite R, <- fits_compatible; congruence).
    cbn [negb andb] in IH. destruct (List.find _ _) as [i'|].
    + destruct IH as (l1 & j & l2 & -> & E & F & A). exists (i :: l1), j, l2. split_and!; [done..|]. by constructor.
    + by constructor.
Qed.

Lemma listed_built `{!TTLCacheLaws} evs e l :
  faithful (evs ++ [e]) -> ImageID (ev_class e) = None ->
  (List_ (ev_now e) (ev_answers e) (ev_class e) (ev_versions e) (reach evs)).1 = Some (Ok l) ->
  l = [] \/ exists kubernetesVersion, GetKubernetesVersion (ev_versions e) = Ok kubernetesVersion /\
              built None (supported_of e kubernetesVersion) l.
Proof using Type.
  intros F Id L. assert (He : e ∈ evs ++ [e]) by (apply elem_of_app; right; left).
  assert (B : entries_built (evs ++ [e]) (reach evs)).
  { intros now key l' G. destruct (reach_built evs _ (fun e1 e2 k s s' H1 H2 => F e1 e2 k s s'
      (proj2 (elem_of_app _ _ _) (or_introl H1)) (proj2 (elem_of_app _ _ _) (or_introl H2))) now key l' G)
      as (e' & s' & He' & R). exists e', s'. split; [|done]. apply elem_of_app. by left. }
  pose proof (list_default_step _ e (reach evs) _ F He Id B) as D. unfold List_ in L. rewrite Id in L.
  destruct (listDefaultImages _ _ _ _ _) as [r c']. destruct D as [_ D]. by apply D.
Qed.


(** A request repeated. *)
Lemma faithful_same e : faithful ([e] ++ [e]).
Proof using Type.
  intros e1 e2 key s s' I1 I2.
  assert (e1 = e) as -> by by apply elem_of_app in I1 as [?%list_elem_of_singleton|?%list_elem_of_singleton].
  assert (e2 = e) as -> by by apply elem_of_app in I2 as [?%list_elem_of_singleton|?%list_elem_of_singleton].
  intros (k & K & -> & _) (k' & K' & -> & _). rewrite K in K'. injection K' as ->. done.
Qed.

End Provider.

(** ** The newest version *)

Lemma newer_trans v1 v2 v3 : newer_segments v1 v2 = true -> newer_segments v2 v3 = true -> newer_segments v1 v3 = true.
Proof.
  revert v2 v3. induction v1 as [|s1 v1 IH]; intros [|s2 v2] [|s3 v3]; cbn [newer_segments]; try done.
  destruct (ParseInt s1) as [n1|]; [|done]. destruct (ParseInt s2) as [n2|]; [|done]. destruct (ParseInt s3) as [n3|]; [|done].
  destruct (Z.ltb_spec n2 n1), (Z.ltb_spec n1 n2), (Z.ltb_spec n3 n2), (Z.ltb_spec n2 n3), (Z.ltb_spec n3 n1), (Z.ltb_spec n1 n3);
    try lia; try done; eauto.
Qed.

Definition version_key (v : NodeImageVersion) : string := from_ptr "" (nv_OS v) +:+ "-" +:+ from_ptr "" (nv_SKU v).
Definition newer (w v : NodeImageVersion) : bool := isNewerVersion (from_ptr "" (nv_Version w)) (from_ptr "" (nv_Version v)).
Definition in_gallery (v : NodeImageVersion) : Prop := supported_gallery (from_ptr "" (nv_OS v)) = true.
(** The version kept of a gallery and SKU, among those listed. *)
Definition newest_of (l : list (option NodeImageVersion)) (v : NodeImageVersion) : Prop :=
  Some v ∈ l /\ in_gallery v /\ forall w, Some w ∈ l -> in_gallery w -> version_key w = version_key v -> newer w v = false.

Lemma latest_newest l :
  forall k,
    match fold_left add_latest l ∅ !! k with
    | Some v => version_key v = k /\ newest_of l v
    | None => forall w, Some w ∈ l -> in_gallery w -> version_key w <> k
    end.
Proof.
  induction l as [|x l IH] using rev_ind; intros k; [cbn; rewrite lookup_empty; by intros w ?%not_elem_of_nil|].
  rewrite fold_left_app. cbn [fold_left]. set (m := fold_left add_latest l ∅) in *. unfold add_latest.
  assert (Skip : forall k, (forall w, Some w = x -> in_gallery w -> version_key w <> k) ->
    match m !! k with
    | Some v => version_key v = k /\ newest_of (l ++ [x]) v
    | None => forall w, Some w ∈ l ++ [x] -> in_gallery w -> version_key w <> k
    end).
  { intros k' N. specialize (IH k'). destruct (m !! k') as [v|].
    - destruct IH as (Kv & I & G & W). split; [done|]. split; [apply elem_of_app; by left|]. split; [done|].
      intros w [Hw|Hw%list_elem_of_singleton]%elem_of_app Gw Kw; [by apply W|]. destruct (N w); congruence.
    - intros w [Hw|Hw%list_elem_of_singleton]%elem_of_app Gw; [by apply IH|]. by apply N. }
  destruct x as [image|]; [|by apply Skip; intros ? [=]].
  destruct (supported_gallery (from_ptr "" (nv_OS image))) eqn:S; cbn [negb];
    [|apply Skip; intros w [= ->] Gw; unfold in_gallery in Gw; congruence].
  fold (version_key image).
  assert (Put : forall k, (forall w, Some w ∈ l -> in_gallery w -> version_key w = version_key image -> newer w image = false) ->
    match <[version_key image := image]> m !! k with
    | Some v => version_key v = k /\ newest_of (l ++ [Some image]) v
    | None => forall w, Some w ∈ l ++ [Some image] -> in_gallery w -> version_key w <> k
    end).
  { intros k' N. destruct (decide (version_key image = k')) as [<-|Ne].
    - rewrite lookup_insert_eq. split; [done|]. split; [apply elem_of_app; right; left|]. split; [done|].
      intros w [Hw|Hw%list_elem_of_singleton]%elem_of_app Gw Kw; [by apply N|]. injection Hw as ->.
      destruct (newer image image) eqn:R; [|done]. unfold newer, isNewerVersion in R. exfalso. revert R.
      generalize (Split (from_ptr "" (nv_Version image)) "."). intros s. induction s as [|a s IHs]; cbn [newer_segments]; [done|].
      destruct (ParseInt a); [|done]. by rewrite Z.ltb_irrefl.
    - rewrite lookup_insert_ne by done. apply Skip. intros w [= ->] _. congruence. }
  pose proof (IH (version_key image)) as IHk. destruct (m !! version_key image) as [current|] eqn:C.
  - destruct IHk as (Kc & _ & _ & W). fold (newer image current). destruct (newer image current) eqn:R.
    + apply Put. intros w Hw Gw Kw. destruct (newer w image) eqn:Rw; [|done].
      assert (newer w current = true) by (eapply newer_trans; [exact Rw|exact R]).
      rewrite W in H; [done|done|done|congruence].
    + destruct (decide (version_key image = k)) as [<-|Ne]; [|apply Skip; intros w [= ->] _; congruence].
      rewrite C. specialize (IH (version_key image)). rewrite C in IH. destruct IH as (_ & I & G & _).
      split; [done|]. split; [apply elem_of_app; by left|]. split; [done|].
      intros w [Hw|Hw%list_elem_of_singleton]%elem_of_app Gw Kw; [by apply W|]. by injection Hw as ->.
  - apply Put. intros w Hw Gw Kw. by destruct (IHk w Hw Gw).
Qed.

Lemma gallery_dashless v : in_gallery v -> free_of "-" (from_ptr "" (nv_OS v)) = true.
Proof.
  unfold in_gallery, supported_gallery. rewrite !orb_true_iff, !bool_decide_eq_true. by intros [[->| ->]| ->].
Qed.

Lemma filtered_newest `{GoRange} l v : v ∈ FilteredNodeImages l <-> (newest_of l v /\ fold_left add_latest l ∅ !! version_key v = Some v).
Proof.
  unfold FilteredNodeImages. rewrite list_elem_of_omap. split.
  - intros (k & _ & L). pose proof (latest_newest l k) as N. rewrite L in N. destruct N as [<- N]. done.
  - intros [_ L]. exists (version_key v). split; [|done]. apply elem_of_range, elem_of_dom. by eexists.
Qed.

(** Listing from the shared gallery gives each definition of the family
    whose name is a SKU of a supported gallery, with a version no other listed
    version of that gallery and SKU is newer than; and nothing else. *)
Theorem shared_images_newest `{GoRange} (subscription : string) (a : answers) versions supported l :
  an_shared a = Ok versions -> listSIG subscription a supported = Ok l ->
  (forall i, i ∈ l -> exists d v, d ∈ supported /\ newest_of versions v /\ from_ptr "" (nv_SKU v) = ImageDefinition d /\
     i = mk_image (ResourceIDs.BuildImageIDSIG subscription (GalleryResourceGroup d) (GalleryName d) (ImageDefinition d)
                     (from_ptr "" (nv_Version v))) (Requirements_ d)) /\
  (forall d w, d ∈ supported -> Some w ∈ versions -> in_gallery w -> from_ptr "" (nv_SKU w) = ImageDefinition d ->
     exists i, i ∈ l /\ image_requirements i = Requirements_ d /\ exists version,
       ID i = ResourceIDs.BuildImageIDSIG subscription (GalleryResourceGroup d) (GalleryName d) (ImageDefinition d) version).
Proof.
  intros V. unfold listSIG. rewrite V. intros [= <-]. split.
  - intros i (d & D & E)%list_elem_of_omap. destruct (List.find _ _) as [v|] eqn:F; [|done]. injection E as <-.
    apply find_some in F as [F Sk]. apply bool_decide_eq_true in Sk. exists d, v. split; [done|]. split; [|done].
    apply list_elem_of_In, filtered_newest in F. apply F.
  - intros d w D W G Sk. destruct (List.find (fun v => ImageDefinition d ==? from_ptr "" (nv_SKU v)) (FilteredNodeImages versions)) as [v|] eqn:F.
    + eexists. split; [apply list_elem_of_omap; exists d; split; [done|]; rewrite F; reflexivity|]. split; [done|]. by eexists.
    + exfalso. pose proof (latest_newest versions (version_key w)) as N.
      destruct (fold_left add_latest versions ∅ !! version_key w) as [v|] eqn:L; [|by destruct (N w)].
      destruct N as [Kv N]. assert (Iv : v ∈ FilteredNodeImages versions) by (apply filtered_newest; rewrite Kv; done).
      apply find_none with (x := v) in F; [|by apply list_elem_of_In]. apply bool_decide_eq_false in F. apply F.
      rewrite <- Sk. unfold version_key in Kv. destruct N as (_ & Gv & _).
      apply sep_app_inj in Kv as [_ Kv]; [done|by apply gallery_dashless..].
Qed.

(** ** Concrete instances *)

(** Requirements as core defines them, for sets of required values. *)
Definition meets (reqs : Requirements) (kv : string * gset string) : bool :=
  match reqs !! kv.1 with
  | None => true
  | Some s => existsb (fun v => bool_decide (v ∈ s)) (elements kv.2)
  end.
Lemma meets_spec reqs k x : meets reqs (k, {[ x ]}) = true <-> reqs !! k = None \/ x ∈ values reqs k.
Proof.
  unfold meets, values. cbn [fst snd]. rewrite elements_singleton. destruct (reqs !! k) as [s|]; cbn [existsb default].
  - rewrite orb_false_r, bool_decide_eq_true. split; [by right|by intros [?|?]].
  - split; [by left|done].
Qed.
#[export] Instance value_scheduling : Scheduling := {|
  Compatible reqs r := forallb (meets reqs) (map_to_list r);
  NewNodeSelectorRequirements l := list_to_map (map (fun x : NodeVersions.Requirement => (x.1.1, list_to_set x.2)) l);
  NodeSelectorRequirements r := map (fun kv => (kv.1, "In", elements kv.2)) (map_to_list r)
|}.
Lemma runs_on_list a g :
  map_to_list (runs_on a g) ≡ₚ [(LabelArchStable, {[ a ]}); (LabelSKUHyperVGeneration, {[ g ]})].
Proof.
  unfold runs_on. rewrite map_to_list_insert; [by rewrite map_to_list_singleton|].
  apply lookup_singleton_ne. intros E. vm_compute in E. discriminate.
Qed.
Lemma runs_on_in a g (kv : string * gset string) :
  In kv (map_to_list (runs_on a g)) <-> kv = (LabelArchStable, {[ a ]}) \/ kv = (LabelSKUHyperVGeneration, {[ g ]}).
Proof. rewrite <- list_elem_of_In, runs_on_list, elem_of_cons, list_elem_of_singleton. done. Qed.
#[export] Instance value_scheduling_laws : SchedulingLaws (H := value_scheduling).
Proof.
  split.
  - intros reqs a g. cbn [Compatible value_scheduling]. rewrite forallb_forall, <- !meets_spec. split.
    + intros W. split; refine (W _ (proj2 (runs_on_in a g _) _)); [left|right]; reflexivity.
    + intros [A G] kv I. destruct (proj1 (runs_on_in a g kv) I) as [E|E]; rewrite E; assumption.
  - intros a g l P. cbn [NewNodeSelectorRequirements NodeSelectorRequirements value_scheduling] in *.
    rewrite runs_on_list in P. cbn in P. rewrite !elements_singleton in P.
    assert (E : map (fun x : NodeVersions.Requirement => (x.1.1, list_to_set (C := gset string) x.2)) l ≡ₚ
      [(LabelArchStable, {[ a ]}); (LabelSKUHyperVGeneration, {[ g ]})]).
    { rewrite P. cbn. by rewrite !right_id_L by apply _. }
    rewrite (list_to_map_proper _ [(LabelArchStable, {[ a ]}); (LabelSKUHyperVGeneration, {[ g ]})]); [done| |done].
    rewrite E. cbn. apply NoDup_cons. split; [|apply NoDup_singleton].
    intros Q%list_elem_of_singleton. vm_compute in Q. discriminate.
Qed.

Definition demo_parse (s : string) : option (@version NodeVersions.triple_semver) := NodeVersions.Parse s.
Definition demo_version (major minor : Z) : @version NodeVersions.triple_semver := (major, minor, 0).
Definition demo_spec (family : string) : AKSNodeClass :=
  mk_nodeclass (VMInstance.mk_launch_class (VirtualMachines.mk_class None None) None None None)
    (Some family) None None None None None None None None None None None None.
Definition demo_versions (images : list NodeVersions.NodeImage) : NodeVersions.NodeClass := NodeVersions.demo_class None images.
Definition demo_shared : list (option NodeImageVersion) := [
  Some (mk_image_version (Some "AKSUbuntu") (Some "2204gen2containerd") (Some "2022.10.03"));
  None;
  Some (mk_image_version (Some "AKSUbuntu") (Some "2204gen2containerd") (Some "202501.05.0"));
  Some (mk_image_version (Some "AKSUbuntu") (Some "2204gen2arm64containerd") (Some "202501.05.0"));
  Some (mk_image_version (Some "AKSOther") (Some "2204containerd") (Some "202501.05.0")) ].
Definition demo_answers : answers := mk_answers (Ok demo_shared) (fun _ _ => ([], None)) (Err "").
Definition demo_event : event := mk_event 10 demo_answers (demo_spec "Ubuntu2204") (demo_versions []).
Definition demo_key (l : list DefaultImageOutput) (kubernetesVersion : string) : result string string := Ok kubernetesVersion.
Definition demo_type : Requirements :=
  {[ LabelArchStable := {[ "arm64" ]}; LabelSKUHyperVGeneration := {[ "2" ]} ]}.


Lemma shared_images_newest_witness :
  exists l, listSIG "sub" demo_answers (DefaultImages Ubuntu2204 true None false false) = Ok l /\ length l = 2%nat /\
    forall i, i ∈ l -> exists d v, d ∈ DefaultImages Ubuntu2204 true None false false /\ newest_of demo_shared v /\
      from_ptr "" (nv_SKU v) = ImageDefinition d /\
      i = mk_image (ResourceIDs.BuildImageIDSIG "sub" (GalleryResourceGroup d) (GalleryName d) (ImageDefinition d)
                      (from_ptr "" (nv_Version v))) (Requirements_ d).
Proof.
  set (r := listSIG _ _ _). assert (R : exists l, r = Ok l /\ length l = 2%nat).
  { eexists. split; vm_compute; reflexivity. }
  destruct R as (l & R & Len). exists l. split; [exact R|]. split; [exact Len|].
  apply (shared_images_newest "sub" demo_answers demo_shared (DefaultImages Ubuntu2204 true None false false) l eq_refl R).
Defined.

End ImageFamily.
