(* ===== verification/Labels.v ===== *)
(** * Node labels and taints ([pkg/providers/labels/labels.go],
      [pkg/utils/taints.go], [options_extensions.go])

    The labels a node gets: those of the cluster and the class, those Karpenter
    scheduled on, and what the kubelet lets through.  A requirement is the
    finite set of values it allows; one that excludes or bounds values has no
    entry in a map of requirements: it is never of length one, so it makes no
    label. *)

From S2P Require Import Prelude GoString Cloud AKSMachine Conditions NodeVersions ResourceIDs VirtualMachines VMInstance Options NodeClassSpec InstanceTypes ImageFamily.
#[local] Open Scope string_scope.
#[local] Open Scope list_scope.
#[local] Open Scope Z_scope.

Module Labels.
Import NodeClassSpec.
Import NodeVersions(Semver, version, LT, GetKubernetesVersion, not_ready).

(** ** Label names *)

Definition AKSLabelEBPFDataplane : string := AKSLabelDomain +:+ "/ebpf-dataplane".
Definition AKSLabelAzureCNIOverlay : string := AKSLabelDomain +:+ "/azure-cni-overlay".
Definition AKSLabelSubnetName : string := AKSLabelDomain +:+ "/network-subnet".
Definition AKSLabelVNetGUID : string := AKSLabelDomain +:+ "/nodenetwork-vnetguid".
Definition AKSLabelPodNetworkType : string := AKSLabelDomain +:+ "/podnetwork-type".
Definition AKSLabelNetworkStatelessCNI : string := AKSLabelDomain +:+ "/network-stateless-cni".
Definition AKSLocalDNSStateLabelKey : string := AKSLabelDomain +:+ "/localdns-state".
Definition AKSArtifactStreamingEnabledLabelKey : string := AKSLabelDomain +:+ "/artifactstreaming-enabled".
Definition AKSLabelRole : string := AKSLabelDomain +:+ "/role".
Definition AKSLabelKubeletIdentityClientID : string := AKSLabelDomain +:+ "/kubelet-identity-client-id".
Definition AKSLabelOSSKUEffective : string := AKSLabelDomain +:+ "/os-sku-effective".
Definition AKSLabelOSSKURequested : string := AKSLabelDomain +:+ "/os-sku-requested".
(** Karpenter core's. *)
Definition NodeDoNotSyncTaintsLabelKey : string := "karpenter.sh/do-not-sync-taints".

Definition LabelOS : string := "beta.kubernetes.io/os".
Definition LabelArch : string := "beta.kubernetes.io/arch".
Definition kubeletLabelNamespaces : list string := ["kubelet.kubernetes.io"; "node.kubernetes.io"].
Definition kubeletLabels : list string := [
  "kubernetes.io/hostname"; AKSMachine.LabelTopologyZone; LabelTopologyRegion;
  "failure-domain.beta.kubernetes.io/zone"; "failure-domain.beta.kubernetes.io/region";
  "beta.kubernetes.io/instance-type"; LabelInstanceTypeStable; LabelOSStable; LabelArchStable; LabelOS; LabelArch].
Definition K8sLabelDomains : list string := ["kubernetes.io"; "k8s.io"].

Definition AzureWellKnownLabels : list string := [
  LabelSKUName; LabelSKUFamily; LabelSKUSeries; LabelSKUVersion; LabelSKUCPU; LabelSKUMemory; AKSLabelCPU;
  AKSLabelMemory; LabelSKUAcceleratedNetworking; LabelSKUStoragePremiumCapable; LabelSKUStorageEphemeralOSMaxSize;
  AKSMachine.LabelUltraSSD; LabelSKUGPUName; LabelSKUGPUManufacturer; LabelSKUGPUCount; AKSMachine.LabelPlacementScope;
  AKSLabelCluster; AKSLabelMode; AKSMachine.AKSLabelScaleSetPriority; AKSMachine.AKSLabelPriority; AKSLabelOSSKU;
  AKSLabelFIPSEnabled; AKSLabelKataVMIsolation].

(** ** What the kubelet may set *)

Definition getLabelNamespace (key : string) : string :=
  match Split key "/" with namespace :: _ :: _ => namespace | _ => "" end.
(** The domain itself, or one below it. *)
Definition in_domain (namespace domain : string) : bool :=
  (namespace ==? domain) || HasSuffix namespace ("." +:+ domain).
Definition isKubernetesNamespace (namespace : string) : bool := existsb (in_domain namespace) K8sLabelDomains.
Definition IsLabelKubeletManaged (key : string) : bool := bool_decide (key ∈ kubeletLabels).
Definition CanKubeletSetLabel (key : string) : bool :=
  if IsLabelKubeletManaged key then true
  else
    let namespace := getLabelNamespace key in
    if negb (isKubernetesNamespace namespace) then true
    else existsb (in_domain namespace) kubeletLabelNamespaces.

(** ** Labels of requirements *)

Definition GetFilteredSingleValuedRequirementLabels (requirements : Requirements)
    (predicate : string -> gset string -> bool) : gmap string string :=
  map_imap (fun key r => match elements r with [v] => if predicate key r then Some v else None | _ => None end) requirements.
Definition GetWellKnownSingleValuedRequirementLabels (requirements : Requirements) : gmap string string :=
  GetFilteredSingleValuedRequirementLabels requirements (fun k _ => bool_decide (k ∈ AzureWellKnownLabels)).
Definition GetAllSingleValuedRequirementLabels (requirements : Requirements) : gmap string string :=
  GetFilteredSingleValuedRequirementLabels requirements (fun _ _ => true).

(** ** Options that decide labels ([options_extensions.go]) *)

Definition IsAzureCNIOverlay (o : Options.Options) : bool :=
  (Options.NetworkPlugin o ==? VMInstance.NetworkPluginAzure) &&
  (Options.NetworkPluginMode o ==? VMInstance.NetworkPluginModeOverlay).
Definition IsCiliumNodeSubnet (o : Options.Options) : bool :=
  (Options.NetworkPlugin o ==? VMInstance.NetworkPluginAzure) && (Options.NetworkPluginMode o ==? "") &&
  (Options.NetworkDataplane o ==? Options.NetworkDataplaneCilium).
Definition IsNetworkPluginNone (o : Options.Options) : bool := Options.NetworkPlugin o ==? VMInstance.NetworkPluginNone.
Definition SupportsWorkloadRuntime (o : Options.Options) : bool :=
  Options.IsAKSMachineAPIMode o || (Options.ProvisionMode o ==? VirtualMachines.ProvisionModeBootstrappingClient).
Definition SupportsNodePublicIP (o : Options.Options) : bool :=
  Options.IsAKSMachineAPIMode o || (Options.ProvisionMode o ==? Options.ProvisionModeAKSScriptless) ||
  (Options.ProvisionMode o ==? VirtualMachines.ProvisionModeBootstrappingClient).

(** ** Taints ([taints.go]) *)

(** Kubernetes' taints, and the one core puts on nodes it has yet to register. *)
Class Taints := {
  Taint : Type;
  MatchTaint : Taint -> Taint -> bool;
  ToString : Taint -> string;
  UnregisteredNoExecuteTaint : Taint
}.
Class TaintsLaws `{Taints} : Prop := { match_itself t : MatchTaint t t = true }.

Definition ExtractTaints `{Taints} (generalTaints startupTaints : list Taint) : list Taint * list Taint :=
  (generalTaints,
   match List.find (fun t => MatchTaint t UnregisteredNoExecuteTaint) (generalTaints ++ startupTaints) with
   | Some _ => startupTaints
   | None => startupTaints ++ [UnregisteredNoExecuteTaint]
   end).

(** ** The labels of the cluster and the class *)

Definition setKataNodeLabel (n : AKSNodeClass) (labels : gmap string string) : gmap string string :=
  if negb (IsKataEnabled n) then labels else <[AKSLabelKataVMIsolation := "true"]> labels.

(** Assignments in order. *)
Definition set_all (kvs : list (string * string)) (labels : gmap string string) : gmap string string :=
  fold_left (fun m (kv : string * string) => <[kv.1 := kv.2]> m) kvs labels.

#[global] Arguments set_all : simpl never.

Inductive labels_error := LabelsNotReady (e : not_ready) | LabelsSubnet (e : string) | LabelsVersion.

Section Get.
Context `{Conditions.ConditionSet, !Semver}.
Variable ParseTolerant : string -> option version.
Variable Version : Z -> Z -> version.

Definition overlay_labels (o : Options.Options) (subnetID kubernetesVersion : string) (labels : gmap string string) :
    result labels_error (gmap string string) :=
  match ResourceIDs.GetVnetSubnetIDComponents subnetID with
  | Err e => Err (LabelsSubnet e)
  | Ok components =>
      match ParseTolerant (TrimPrefix kubernetesVersion "v") with
      | None => Err LabelsVersion
      | Some parsedVersion => Ok (set_all [
          (AKSLabelSubnetName, ResourceIDs.SubnetName components); (AKSLabelVNetGUID, Options.VnetGUID o);
          (AKSLabelAzureCNIOverlay, "true"); (AKSLabelPodNetworkType, VMInstance.NetworkPluginModeOverlay);
          (AKSLabelNetworkStatelessCNI, if negb (LT parsedVersion (Version 1 34)) then "true" else "false")] labels)
      end
  end.

Definition Get (o : Options.Options) (n : AKSNodeClass) (nc : NodeVersions.NodeClass) (arch : string)
    (instanceTypeRequirements : Requirements) : result labels_error (gmap string string) :=
  let subnetID := match VNETSubnetID n with Some s => s | None => Options.SubnetID o end in
  match GetKubernetesVersion nc with
  | Err e => Err (LabelsNotReady e)
  | Ok kubernetesVersion =>
      let labels := set_all [
        (AKSLabelRole, "agent");
        (AKSLabelCluster, NormalizeClusterResourceGroupNameForLabel (Options.NodeResourceGroup o));
        (AKSLabelKubeletIdentityClientID, Options.KubeletIdentityClientID o);
        (AKSLabelMode, ModeUser);
        (NodeDoNotSyncTaintsLabelKey, "true");
        (AKSMachine.AKSLabelScaleSetPriority, PriorityRegular);
        (AKSMachine.AKSLabelPriority, PriorityRegular);
        (AKSLabelOSSKU, GetOSSKUFromImageFamily (from_ptr "" (ImageFamily n)))] ∅ in
      let labels := if IsFIPSEnabled n then <[AKSLabelFIPSEnabled := "true"]> labels else labels in
      let labels := setKataNodeLabel n labels in
      let imageFamily := ImageFamily.GetImageFamily ParseTolerant Version (ImageFamily n) (FIPSMode n)
                           (IsTrustedLaunchEnabled n) kubernetesVersion in
      let labels := set_all [
        (AKSLabelOSSKURequested, from_ptr "" (ImageFamily n));
        (AKSLabelOSSKUEffective, ImageFamily.Name imageFamily)] labels in
      match (if IsAzureCNIOverlay o then overlay_labels o subnetID kubernetesVersion labels else Ok labels) with
      | Err e => Err e
      | Ok labels =>
          let labels := if Options.NetworkDataplane o ==? Options.NetworkDataplaneCilium
                        then <[AKSLabelEBPFDataplane := Options.NetworkDataplaneCilium]> labels else labels in
          let labels := <[AKSLocalDNSStateLabelKey :=
                           if IsSupportedForInstanceType n instanceTypeRequirements then "enabled" else "disabled"]> labels in
          Ok (if IsArtifactStreamingEnabled n arch then <[AKSArtifactStreamingEnabledLabelKey := "true"]> labels else labels)
      end
  end.

(** ** Lemmas *)

Lemma set_all_elem kvs labels k x :
  set_all kvs labels !! k = Some x -> (k, x) ∈ kvs \/ labels !! k = Some x.
Proof.
  revert labels. induction kvs as [|[k' v] kvs IH]; intros labels L; [by right|]. unfold set_all in L. cbn [fold_left fst snd] in L. fold (set_all kvs (<[k':=v]> labels)) in L.
  apply IH in L as [L|L]; [left; by apply elem_of_cons; right|]. destruct (decide (k' = k)) as [->|N].
  - rewrite lookup_insert_eq in L. injection L as ->. left. apply list_elem_of_here.
  - rewrite lookup_insert_ne in L by done. by right.
Qed.

Lemma insert_if_elem (b : bool) (labels : gmap string string) k' v k x :
  (if b then <[k' := v]> labels else labels) !! k = Some x ->
  (b = true /\ k = k' /\ x = v) \/ labels !! k = Some x.
Proof.
  destruct b; [|by right]. destruct (decide (k' = k)) as [->|N].
  - rewrite lookup_insert_eq. intros [= ->]. by left.
  - rewrite lookup_insert_ne by done. by right.
Qed.

Lemma elem_keys (kvs : list (string * string)) (ks : list string) k x :
  forallb (fun k => bool_decide (k ∈ ks)) (map fst kvs) = true -> (k, x) ∈ kvs -> k ∈ ks.
Proof.
  rewrite forallb_forall. intros F I. apply list_elem_of_In, (in_map fst), F, bool_decide_eq_true in I. exact I.
Qed.

(** Where the labels of [Get] on which types have requirements come from. *)
Definition unscheduled : list string := [
  AKSLabelRole; AKSLabelKubeletIdentityClientID; NodeDoNotSyncTaintsLabelKey; AKSLabelOSSKURequested;
  AKSLabelOSSKUEffective; AKSLabelSubnetName; AKSLabelVNetGUID; AKSLabelAzureCNIOverlay; AKSLabelPodNetworkType;
  AKSLabelNetworkStatelessCNI; AKSLabelEBPFDataplane; AKSLocalDNSStateLabelKey; AKSArtifactStreamingEnabledLabelKey].

Lemma get_elem o n nc arch reqs labels k x :
  Get o n nc arch reqs = Ok labels -> labels !! k = Some x ->
  k ∈ unscheduled \/
  (k, x) ∈ [(AKSLabelCluster, NormalizeClusterResourceGroupNameForLabel (Options.NodeResourceGroup o));
            (AKSLabelMode, ModeUser); (AKSMachine.AKSLabelScaleSetPriority, PriorityRegular);
            (AKSMachine.AKSLabelPriority, PriorityRegular);
            (AKSLabelOSSKU, GetOSSKUFromImageFamily (from_ptr "" (ImageFamily n)))] \/
  (k = AKSLabelFIPSEnabled /\ x = "true" /\ IsFIPSEnabled n = true) \/
  (k = AKSLabelKataVMIsolation /\ x = "true" /\ IsKataEnabled n = true).
Proof.
  unfold Get. destruct (GetKubernetesVersion nc) as [kv|]; [|done].
  set (base := set_all _ ∅). set (withFIPS := if IsFIPSEnabled n then _ else base).
  destruct (if IsAzureCNIOverlay o then _ else _) as [ls|] eqn:O; [|done]. intros [= <-] L.
  apply insert_if_elem in L as [(_ & -> & _)|L]; [left; by apply (bool_decide_unpack _)|].
  apply (insert_if_elem true) in L as [(_ & -> & _)|L]; [left; by apply (bool_decide_unpack _)|].
  apply insert_if_elem in L as [(_ & -> & _)|L]; [left; by apply (bool_decide_unpack _)|].
  assert (L' : k ∈ unscheduled \/ set_all [
        (AKSLabelOSSKURequested, from_ptr "" (ImageFamily n));
        (AKSLabelOSSKUEffective, ImageFamily.Name (ImageFamily.GetImageFamily ParseTolerant Version (ImageFamily n) (FIPSMode n)
                           (IsTrustedLaunchEnabled n) kv))] (setKataNodeLabel n withFIPS) !! k = Some x).
  { destruct (IsAzureCNIOverlay o); [|injection O as <-; by right]. unfold overlay_labels in O.
    destruct (ResourceIDs.GetVnetSubnetIDComponents _); [|done]. destruct (ParseTolerant _); [|done]. injection O as <-.
    apply set_all_elem in L as [L|L]; [|by right]. left. revert L. apply elem_keys. reflexivity. }
  destruct L' as [U|L']; [by left|]. apply set_all_elem in L' as [L'|L'].
  { left. revert L'. apply elem_keys. reflexivity. }
  unfold setKataNodeLabel in L'. rewrite if_negb in L'.
  apply insert_if_elem in L' as [(F & -> & ->)|L']; [by do 3 right|].
  apply insert_if_elem in L' as [(F & -> & ->)|L']; [by right; right; left|].
  apply set_all_elem in L' as [L'|L']; [|by rewrite lookup_empty in L'].
  repeat (apply elem_of_cons in L' as [[= -> ->]|L'];
          [first [left; by apply (bool_decide_unpack _) | right; left; set_solver]|]).
  by apply elem_of_nil in L'.
Qed.

Lemma get_local_dns o n nc arch reqs labels :
  Get o n nc arch reqs = Ok labels -> is_Some (labels !! AKSLocalDNSStateLabelKey).
Proof.
  unfold Get. destruct (GetKubernetesVersion nc) as [kv|]; [|done].
  destruct (if IsAzureCNIOverlay o then _ else _) as [ls|]; [|done]. intros [= <-].
  destruct (IsArtifactStreamingEnabled n arch); [rewrite lookup_insert_ne by (apply (bool_decide_unpack _); vm_compute; exact I)|];
    rewrite lookup_insert_eq; by eexists.
Qed.

(** The labels types have requirements on. *)
Definition requirement_labels : list string := [
  LabelInstanceTypeStable; LabelArchStable; LabelOSStable; AKSMachine.LabelTopologyZone; LabelTopologyRegion;
  AKSMachine.CapacityTypeLabelKey; AKSMachine.LabelPlacementScope; AKSMachine.LabelUltraSSD; LabelSKUCPU; LabelSKUMemory;
  AKSLabelCPU; AKSLabelMemory; LabelSKUGPUCount; LabelSKUGPUManufacturer; LabelSKUGPUName; AKSLabelCluster; AKSLabelMode;
  AKSMachine.AKSLabelScaleSetPriority; AKSMachine.AKSLabelPriority; AKSLabelOSSKU; AKSLabelFIPSEnabled;
  AKSLabelKataVMIsolation; LabelSKUName; LabelSKUFamily; LabelSKUSeries; LabelSKUVersion;
  LabelSKUStorageEphemeralOSMaxSize; LabelSKUStoragePremiumCapable; LabelSKUAcceleratedNetworking;
  LabelSKUHyperVGeneration].

Section Types.
Variable options : Options.Options.
Variable region : string.
Variable gpuSKUConfig : gmap string (string * list string).
#[local] Abbreviation computeRequirements := (InstanceTypes.computeRequirements options region gpuSKUConfig).

Lemma insert_value_none label value reqs k :
  k <> label -> reqs !! k = None -> InstanceTypes.insert_value label value reqs !! k = None.
Proof. intros N L. unfold InstanceTypes.insert_value. by rewrite lookup_insert_ne. Qed.
Lemma value_inserted label value reqs : value ∈ values (InstanceTypes.insert_if true label value reqs) label.
Proof.
  unfold InstanceTypes.insert_if, InstanceTypes.insert_value. unfold values at 1. rewrite lookup_insert_eq.
  change (value ∈ ({[ value ]} ∪ values reqs label : gset string)). apply elem_of_union. left. by apply elem_of_singleton_2.
Qed.
Lemma insert_if_none b label value reqs k :
  k <> label -> reqs !! k = None -> InstanceTypes.insert_if b label value reqs !! k = None.
Proof. destruct b; [apply insert_value_none|done]. Qed.

Lemma requirement_none vcpus m s v arch offs p k :
  k ∉ requirement_labels -> computeRequirements vcpus m s v arch offs p !! k = None.
Proof.
  intros N. assert (D : forall l, l ∈ requirement_labels -> k <> l) by (intros l I ->; done).
  unfold InstanceTypes.computeRequirements, InstanceTypes.setRequirementsVersion, InstanceTypes.setRequirementsGPU,
    InstanceTypes.setRequirementsHyperVGeneration, InstanceTypes.setRequirementsEphemeralOSDiskSupported.
  do 3 (apply insert_if_none; [apply D, (bool_decide_unpack _); vm_compute; exact I|]).
  assert (B : forall reqs, reqs !! k = None ->
    InstanceTypes.setRequirementsGPU gpuSKUConfig s v reqs !! k = None).
  { intros reqs L. unfold InstanceTypes.setRequirementsGPU. case_match; [|done].
    case_match; repeat (apply insert_value_none; [apply D, (bool_decide_unpack _); vm_compute; exact I|]); done. }
  apply B. do 3 (apply insert_if_none; [apply D, (bool_decide_unpack _); vm_compute; exact I|]).
  do 3 (apply insert_value_none; [apply D, (bool_decide_unpack _); vm_compute; exact I|]).
  apply not_elem_of_list_to_map_1. intros I. apply N. revert I.
  unfold requirement_labels. cbn [fmap list_fmap fst InstanceTypes.In_ InstanceTypes.DoesNotExist].
  rewrite !elem_of_cons, elem_of_nil. tauto.
Qed.

(** [x] may be the value of label [k] on a node of a type. *)
Definition admitted (reqs : Requirements) (k x : string) : Prop :=
  match reqs !! k with Some vs => x ∈ vs | None => True end.

Lemma admitted_values reqs k x : x ∈ values reqs k -> admitted reqs k x.
Proof. unfold admitted, values. by destruct (reqs !! k). Qed.

Lemma get_admitted n nc arch reqs labels vcpus m s v a offs p :
  Get options n nc arch reqs = Ok labels ->
  InstanceTypes.p_ImageFamily p = from_ptr "" (ImageFamily n) ->
  InstanceTypes.p_FIPSMode p = (if IsFIPSEnabled n then FIPSModeFIPS else FIPSModeDisabled) ->
  InstanceTypes.p_KataEnabled p = IsKataEnabled n ->
  forall k x, labels !! k = Some x -> admitted (computeRequirements vcpus m s v a offs p) k x.
Proof.
  intros G Pi Pf Pk k x L. destruct (get_elem _ _ _ _ _ _ _ _ G L) as [U|[I|[(-> & -> & F)|(-> & -> & K)]]].
  - unfold admitted. rewrite requirement_none; [done|]. intros R.
    assert (D : Forall (fun k => k ∉ requirement_labels) unscheduled) by (apply (bool_decide_unpack _); vm_compute; exact I).
    rewrite Forall_forall in D. by apply (D k).
  - apply admitted_values.
    do 5 (apply elem_of_cons in I as [[= -> ->]|I];
      [rewrite ?InstanceTypes.values_cluster, ?InstanceTypes.values_mode, ?InstanceTypes.values_scale_set_priority,
         ?InstanceTypes.values_priority, ?InstanceTypes.values_os_sku, ?Pi;
       apply elem_of_list_to_set; first [apply list_elem_of_here | apply list_elem_of_further, list_elem_of_here]|]).
    by apply elem_of_nil in I.
  - apply admitted_values. unfold InstanceTypes.computeRequirements.
    rewrite InstanceTypes.values_insert_if_ne by (apply (bool_decide_unpack _); vm_compute; exact I).
    rewrite Pf, F. apply value_inserted.
  - apply admitted_values. unfold InstanceTypes.computeRequirements. rewrite Pk, K. apply value_inserted.
Qed.
End Types.

End Get.
(** Taints as their text. *)
#[export] Instance string_taints : Taints := {|
  Taint := string; MatchTaint a b := a ==? b; ToString t := t; UnregisteredNoExecuteTaint := "karpenter.sh/unregistered:NoExecute"
|}.

#[export] Instance string_taints_laws : TaintsLaws (H := string_taints).
Proof. split. intros t. by apply bool_decide_eq_true. Qed.

End Labels.
