(* ===== verification/MachineTemplate.v ===== *)
(** * The template of an AKS machine ([aksmachineinstancehelpers.go])

    What Karpenter asks the AKS machine API for: every field of the machine,
    built from the class, the claim and the offering that was chosen.  Enums
    are strings; a nil pointer is [None]. *)

From S2P Require Import Prelude GoString GoFloat Cloud Zones ErrorHandlers AKSMachine Conditions NodeVersions ResourceIDs OSDisk VirtualMachines VMInstance Options InPlaceUpdate NodeClassSpec Wire InstanceTypes ImageFamily Labels.
From Stdlib Require Import SpecFloat.
#[local] Open Scope string_scope.
#[local] Open Scope list_scope.
#[local] Open Scope Z_scope.

Module MachineTemplate.
Import NodeClassSpec Labels.
Import NodeVersions(Semver, version, GetKubernetesVersion, not_ready).

(** ** Data *)

Record NetworkProperties := mk_network {
  np_VnetSubnetID : option string; np_EnableNodePublicIP : option bool; np_NodePublicIPPrefixID : option string;
  np_NodePublicIPTags : list string
}.
Record GPUProfile := mk_gpu_profile { gp_Driver : string; gp_Nvidia : option string }.
Record KubeletConfig := mk_kubelet_config {
  kc_CPUManagerPolicy : option string; kc_CPUCfsQuota : option bool; kc_CPUCfsQuotaPeriod : option string;
  kc_ImageGcHighThreshold : option Z; kc_ImageGcLowThreshold : option Z; kc_TopologyManagerPolicy : option string;
  kc_AllowedUnsafeSysctls : list string; kc_ContainerLogMaxSizeMB : option Z; kc_ContainerLogMaxFiles : option Z;
  kc_PodMaxPids : option Z; kc_FailSwapOn : option bool; kc_KubeReserved : option KubeReserved;
  kc_HardEvictionThreshold : option EvictionThreshold; kc_SoftEvictionThreshold : option EvictionThreshold;
  kc_SoftEvictionGracePeriod : option EvictionThreshold; kc_EvictionMaxPodGracePeriodInSeconds : option Z
}.
Record OSProfile := mk_os {
  os_OSType : string; os_OSSKU : string; os_DiskSizeGB : Z; os_DiskType : OSDisk.OSDiskType; os_EnableFIPS : bool;
  os_LinuxOSConfig : option Wire.LinuxOSConfigModel
}.
Record KubernetesProfile := mk_kubernetes {
  kp_NodeLabels : gmap string string; kp_OrchestratorVersion : string; kp_KubeletConfig : option KubeletConfig;
  kp_NodeInitializationTaints : list string; kp_NodeTaints : list string; kp_MaxPods : option Z;
  kp_WorkloadRuntime : option string; kp_ArtifactStreaming : option bool
}.
Record SecurityProfile := mk_security {
  sp_SSHAccess : string; sp_EnableEncryptionAtHost : bool; sp_EnableVTPM : bool; sp_EnableSecureBoot : bool
}.

(** The machine; [t_CRG]: the ID of the group of its capacity reservation. *)
Record Template := mk_template {
  t_Zones : list string; t_NodeImageVersion : string; t_Network : NetworkProperties;
  t_VMSize : string; t_GpuProfile : option GPUProfile; t_UltraSsdEnabled : bool;
  t_OperatingSystem : OSProfile; t_Kubernetes : KubernetesProfile; t_Mode : string; t_Security : SecurityProfile;
  t_Priority : string; t_SpotMaxPrice : option GoFloat.float32; t_Tags : gmap string (option string);
  t_LocalDNSProfile : option Wire.LocalDNSProfile; t_CRG : option string
}.

(** The claim: the fields of [AKSMachine], its parsed requirements, its taints. *)
Record Claim `{Taints} := mk_claim {
  cl_claim : AKSMachine.NodeClaim; cl_requirements : Requirements; cl_taints : list Taint; cl_startupTaints : list Taint
}.

(** Values of the SDK's enums. *)
Definition GPUDriverInstall : string := "Install".
Definition GPUDriverNone : string := "None".
Definition OSTypeLinux : string := "Linux".
Definition OSTypeWindows : string := "Windows".
Definition AgentPoolModeSystem : string := "System".
Definition AgentPoolModeUser : string := "User".
Definition OSSKUUbuntu : string := "Ubuntu".
Definition OSSKUUbuntu2204 : string := "Ubuntu2204".
Definition OSSKUUbuntu2404 : string := "Ubuntu2404".
Definition OSSKUAzureLinux : string := "AzureLinux".
Definition OSSKUAzureContainerLinux : string := "AzureContainerLinux".
Definition OSSKUWindows2022 : string := "Windows2022".
Definition OSSKUWindows2025 : string := "Windows2025".
Definition SSHAccessLocalUser : string := "LocalUser".

Inductive template_error {E : Type} :=
| ErrUnset (what : string)
| ErrImageIDUnsupported (provisionMode : string)
| ErrBilling (e : VirtualMachines.price_error)
| ErrPriceRange
| ErrResolveImage (e : ImageFamily.image_error)
| ErrImageVersion (e : string)
| ErrKubernetesVersion (e : not_ready)
| ErrDisk (e : E).
Arguments template_error : clear implicits.

(** ** Fields *)

Definition MaxFloat32 : GoFloat.float64 := S754_finite false 16777215 104.
Definition configureAKSMachineBillingProfile {E} (ParseFloat : string -> option VirtualMachines.float64)
    (annotations : gmap string string) (capacityType : string) : result (template_error E) (option GoFloat.float32) :=
  if capacityType !=? CapacityTypeSpot then Ok None
  else
    match VirtualMachines.parseSpotMaxPriceAnnotation ParseFloat annotations with
    | Err e => Err (ErrBilling e)
    | Ok None => Ok None
    | Ok (Some maxPrice) =>
        let maxPrice := InstanceTypes.float_of maxPrice in
        let zero := GoFloat.of_int 0 in
        if GoFloat.ltb MaxFloat32 maxPrice ||
           (GoFloat.ltb zero maxPrice && SFeqb (GoFloat.to_float32 maxPrice) zero) then Err ErrPriceRange
        else Ok (Some (GoFloat.to_float32 maxPrice))
    end.

Definition configureNetwork (n : AKSNodeClass) : NetworkProperties :=
  let c := of_launch n in
  if VMInstance.IsNodePublicIPEnabled c then
    mk_network (VNETSubnetID n) (Some true) (head (VMInstance.GetNodePublicIPPrefixIDs c)) (VMInstance.GetNodePublicIPTags c)
  else mk_network (VNETSubnetID n) None None [].

Definition configureCapacityReservation (n : AKSNodeClass) : option string := Wire.if_set (GetCapacityReservationGroupID n).

Definition configureWorkloadRuntime (n : AKSNodeClass) : option string :=
  if IsKataEnabled n then Some WorkloadRuntimeKataVMIsolation else None.

(** [None]: the type has no architecture. *)
Definition configureArtifactStreamingProfile `{GoRange} (n : AKSNodeClass) (reqs : Requirements) : option (option bool) :=
  match range_keys (values reqs LabelArchStable) with
  | [] => None
  | arch :: _ => Some (if IsArtifactStreamingEnabled n arch then Some true else None)
  end.

Definition configureLocalDNSProfile (n : AKSNodeClass) (reqs : Requirements) : option Wire.LocalDNSProfile :=
  Wire.convertLocalDNS (ResolveForWire n reqs).

Definition configureOSDisk {E} (getSKU : string -> result E (option OSDisk.SKU)) (n : AKSNodeClass) (name : string) :
    result (template_error E) (Z * OSDisk.OSDiskType) :=
  match OSDisk.ResolveOSDiskProfileFromInstanceType getSKU name (OSDiskSizeGB n) (from_ptr "" (OSDiskType n))
          (IsTrustedLaunchEnabled n) with
  | Err e => Err (ErrDisk e)
  | Ok p => Ok (OSDisk.SizeGB p, OSDisk.Type_ p)
  end.

Definition configurePriority (capacityType : string) : string :=
  if capacityType ==? CapacityTypeSpot then AKSMachine.ScaleSetPrioritySpot else AKSMachine.ScaleSetPriorityRegular.

Definition configureOSType (n : AKSNodeClass) : string :=
  if IsWindowsImageFamily (from_ptr "" (ImageFamily n)) then OSTypeWindows else OSTypeLinux.

Definition configureTaints `{Taints} (claim : Claim) : list string * list string :=
  let '(generalTaints, startupTaints) := ExtractTaints (cl_taints claim) (cl_startupTaints claim) in
  (InstanceTypes.Uniq (map ToString (generalTaints ++ startupTaints)), []).

(** What is sent of the labels. *)
Definition label_omitted (key : string) : bool :=
  IsAKSLabel key || IsLabelKubeletManaged key || negb (CanKubeletSetLabel key).
(** [lo.Assign] of the claim's labels, its requirements, the type's, and the
    offering. *)
Definition scheduled_labels (claimLabels : gmap string string) (claimReqs typeReqs : Requirements)
    (capacityType placementScope : string) (ultraSSD : bool) : gmap string string :=
  {[ AKSMachine.CapacityTypeLabelKey := capacityType; AKSMachine.LabelPlacementScope := placementScope;
     AKSMachine.LabelUltraSSD := if ultraSSD then "true" else "false" ]} ∪
  (GetAllSingleValuedRequirementLabels typeReqs ∪ (GetAllSingleValuedRequirementLabels claimReqs ∪ claimLabels)).
Definition configureLabelsAndMode `{Taints} (claim : Claim) (reqs : Requirements)
    (capacityType placementScope : string) (ultraSSD : bool) : gmap string string * string :=
  let nodeLabels := scheduled_labels (AKSMachine.nc_labels (cl_claim claim)) (cl_requirements claim) reqs
                      capacityType placementScope ultraSSD in
  (filter (fun kv => label_omitted kv.1 = false) nodeLabels,
   if bool_decide (nodeLabels !! AKSLabelMode = Some ModeSystem) then AgentPoolModeSystem else AgentPoolModeUser).

Definition configureSoftEvictionGracePeriod (durationString : option NillableDuration -> option string)
    (c : EvictionSoftGracePeriod) : EvictionThreshold :=
  mk_eviction (durationString (gp_MemoryAvailable c)) (durationString (gp_NodeFsAvailable c)) (durationString (gp_NodeFsInodesFree c)).

(** ** Custom image IDs *)

Section ImageIDs.
(** [arm.ParseResourceID]: the type, the subscription, the resource group, the
    name, and the names of the parents. *)
Record ResourceID := mk_resource_id {
  ri_type : string; ri_subscription : string; ri_resourceGroup : string; ri_name : string; ri_parents : list string
}.
Variable ParseResourceID : string -> option ResourceID.

Definition parseVMImageID (vmImageID : string) : result string (string * string * string * string * string) :=
  if vmImageID ==? "" then Err "vmImageID is empty"
  else
    match ParseResourceID vmImageID with
    | None => Err "invalid vmImageID format"
    | Some res =>
        if negb (EqualFold (ri_type res) "Microsoft.Compute/galleries/images/versions") then Err "resource type"
        else
          match ri_parents res with
          | imageName :: gallery :: _ =>
              if ri_name res ==? "" then Err "missing version"
              else if imageName ==? "" then Err "missing image name"
              else if gallery ==? "" then Err "missing gallery name"
              else if ri_subscription res ==? "" then Err "missing subscription ID"
              else if ri_resourceGroup res ==? "" then Err "missing resource group"
              else Ok (ri_subscription res, ri_resourceGroup res, gallery, imageName, ri_name res)
          | _ => Err "missing parent resources"
          end
    end.

End ImageIDs.

Section Build.
Context `{Conditions.ConditionSet, !Semver, !ImageFamily.Scheduling, GoRange, !Taints} {E Quantity : Type}.
Variable ParseTolerant : string -> option version.
Variable Version : Z -> Z -> version.
Variable gpuSKUConfig : gmap string (string * list string).
Variable ParseFloat : string -> option VirtualMachines.float64.
Variable ParseQuantity : string -> option Quantity.
Variable AsApproximateFloat64 : Quantity -> GoFloat.float64.
(** [json.Unmarshal] into a string. *)
Variable UnmarshalString : string -> option string.
(** The instance type provider's [Get]. *)
Variable getSKU : string -> result E (option OSDisk.SKU).

Definition configureNodeImageVersion (n : AKSNodeClass) (nc : NodeVersions.NodeClass) (t : InstanceTypes.InstanceType) :
    result (template_error E) string :=
  match ImageFamily.ResolveNodeImageFromNodeClass n nc (InstanceTypes.ty_requirements t) with
  | Err e => Err (ErrResolveImage e)
  | Ok vmImageID =>
      match ResourceIDs.GetAKSMachineNodeImageVersionFromImageID vmImageID with
      | Err e => Err (ErrImageVersion e)
      | Ok v => Ok v
      end
  end.

Definition configureGPUProfile (t : InstanceTypes.InstanceType) (n : AKSNodeClass) : option GPUProfile :=
  let name := InstanceTypes.ty_name t in
  if negb (IsGPUSKU gpuSKUConfig name) then None
  else Some (mk_gpu_profile
         (if IsGPUDriverInstallationEnabled n then GPUDriverInstall else GPUDriverNone)
         (if IsManagedGPUEnabled n && IsNvidiaEnabledSKU gpuSKUConfig name && IsGPUDriverInstallationEnabled n
          then Some ManagementModeManaged else None)).

Definition configureOSSKUAndFIPs (n : AKSNodeClass) (orchestratorVersion : string) : result (template_error E) (string * bool) :=
  match ImageFamily n with
  | None => Err (ErrUnset "ImageFamily")
  | Some family =>
      let enableFIPS := IsFIPSEnabled n in
      Ok (if family ==? Ubuntu2204ImageFamily then OSSKUUbuntu2204
          else if family ==? Ubuntu2404ImageFamily then OSSKUUbuntu2404
          else if family ==? AzureLinuxImageFamily then OSSKUAzureLinux
          else if family ==? Windows2022ImageFamily then OSSKUWindows2022
          else if family ==? Windows2025ImageFamily then OSSKUWindows2025
          else if family ==? AzureContainerLinuxImageFamily then OSSKUAzureContainerLinux
          else if enableFIPS then OSSKUUbuntu
          else if ImageFamily.UseUbuntu2404 ParseTolerant Version orchestratorVersion then OSSKUUbuntu2404
          else OSSKUUbuntu2204, enableFIPS)
  end.

Definition configureLinuxProfile (n : AKSNodeClass) : option Wire.LinuxOSConfigModel :=
  if IsWindowsImageFamily (from_ptr "" (ImageFamily n)) then None
  else Wire.convertLinuxOSConfig ParseQuantity AsApproximateFloat64 (LinuxOSConfig n).

Definition durationString (value : option NillableDuration) : option string :=
  match value with
  | None => None
  | Some v =>
      match Duration v with
      | None => None
      | Some d =>
          match (match Raw v with Some raw => UnmarshalString raw | None => None end) with
          | Some raw => Some raw
          | None => Some (Wire.DurationString d)
          end
      end
  end.

Definition configureKubeletConfig (n : AKSNodeClass) : option KubeletConfig :=
  match Kubelet n with
  | None => None
  | Some k => Some {|
      kc_CPUManagerPolicy := Wire.non_empty (CPUManagerPolicy k);
      kc_CPUCfsQuota := CPUCFSQuota k;
      kc_CPUCfsQuotaPeriod := (if Wire.DurationString (CPUCFSQuotaPeriod k) !=? "0s"
                               then Some (Wire.DurationString (CPUCFSQuotaPeriod k)) else None);
      kc_ImageGcHighThreshold := ImageGCHighThresholdPercent k; kc_ImageGcLowThreshold := ImageGCLowThresholdPercent k;
      kc_TopologyManagerPolicy := Wire.non_empty (TopologyManagerPolicy k);
      kc_AllowedUnsafeSysctls := AllowedUnsafeSysctls k;
      kc_ContainerLogMaxSizeMB := Wire.size_in_MB ParseQuantity AsApproximateFloat64 (ContainerLogMaxSize k);
      kc_ContainerLogMaxFiles := ContainerLogMaxFiles k; kc_PodMaxPids := Wire.ConvertPodMaxPids (PodPidsLimit k);
      kc_FailSwapOn := FailSwapOn k; kc_KubeReserved := KubeReservedOf k;
      kc_HardEvictionThreshold := EvictionHard k; kc_SoftEvictionThreshold := EvictionSoft k;
      kc_SoftEvictionGracePeriod := configureSoftEvictionGracePeriod durationString <$> EvictionSoftGrace k;
      kc_EvictionMaxPodGracePeriodInSeconds := EvictionMaxPodGracePeriod k |}
  end.

(** [None]: a panic. *)
Definition buildAKSMachineTemplate (o : Options.Options) (classTags : gmap string string)
    (instanceType : option InstanceTypes.InstanceType) (capacityType placementScope zone : string) (ultraSSD : bool)
    (nodeClass : option (AKSNodeClass * NodeVersions.NodeClass)) (nodeClaim : option Claim) :
    option (result (template_error E) Template) :=
  match instanceType, nodeClass, nodeClaim with
  | None, _, _ => Some (Err (ErrUnset "InstanceType"))
  | _, None, _ => Some (Err (ErrUnset "NodeClass"))
  | _, _, None => Some (Err (ErrUnset "NodeClaim"))
  | Some t, Some (n, nc), Some claim =>
      let reqs := InstanceTypes.ty_requirements t in
      match (_ ← (match ImageID n with Some _ => Err (ErrImageIDUnsupported (Options.ProvisionMode o)) | None => Ok tt end);
             billing ← configureAKSMachineBillingProfile ParseFloat (AKSMachine.nc_annotations (cl_claim claim)) capacityType;
             imageVersion ← configureNodeImageVersion n nc t;
             orchestratorVersion ← (match GetKubernetesVersion nc with Ok v => Ok v | Err e => Err (ErrKubernetesVersion e) end);
             sku ← configureOSSKUAndFIPs n orchestratorVersion;
             disk ← configureOSDisk getSKU n (InstanceTypes.ty_name t);
             Ok (billing, imageVersion, orchestratorVersion, sku, disk) : result (template_error E) _) with
      | Err e => Some (Err e)
      | Ok (billing, imageVersion, orchestratorVersion, (osSku, enableFIPS), (osDiskSizeGB, osDiskType)) =>
          let '(nodeInitializationTaints, nodeTaints) := configureTaints claim in
          let '(nodeLabels, mode) := configureLabelsAndMode claim reqs capacityType placementScope ultraSSD in
          match Zones.MakeARMZonesFromAKSLabelZone zone, configureArtifactStreamingProfile n reqs with
          | Some zones, Some streaming => Some (Ok {|
              t_Zones := zones; t_NodeImageVersion := imageVersion; t_Network := configureNetwork n;
              t_VMSize := InstanceTypes.ty_name t; t_GpuProfile := configureGPUProfile t n; t_UltraSsdEnabled := ultraSSD;
              t_OperatingSystem := mk_os (configureOSType n) osSku osDiskSizeGB osDiskType enableFIPS (configureLinuxProfile n);
              t_Kubernetes := mk_kubernetes nodeLabels orchestratorVersion (configureKubeletConfig n) nodeInitializationTaints
                                nodeTaints (VMInstance.lc_maxPods (of_launch n)) (configureWorkloadRuntime n) streaming;
              t_Mode := mode;
              t_Security := mk_security SSHAccessLocalUser (GetEncryptionAtHost n) (VirtualMachines.IsVTPMEnabled (class_of n))
                              (VirtualMachines.IsSecureBootEnabled (class_of n));
              t_Priority := configurePriority capacityType; t_SpotMaxPrice := billing;
              t_Tags := InPlaceUpdate.ConfigureAKSMachineTags o classTags (cl_claim claim);
              t_LocalDNSProfile := configureLocalDNSProfile n reqs; t_CRG := configureCapacityReservation n |})
          | _, _ => None
          end
      end
  end.

(** ** The machine as the rest of the program sees it *)

(** [render]: the fields [AKSMachine] keeps in one value. *)
Variable render : Template -> string.
Definition machine_of (t : Template) : AKSMachine.Machine :=
  AKSMachine.mk_machine None None (map Some (t_Zones t)) (Some
    (AKSMachine.mk_properties None None (Some (t_Tags t)) (Some (t_Priority t)) None None
       (Some (AKSMachine.mk_hardware (Some (t_VMSize t)) (Some (t_UltraSsdEnabled t))))
       (Some (t_NodeImageVersion t)) ((fun id => Some (Some id)) <$> t_CRG t) (render t))).

(** ** What a template holds *)

Record built (o : Options.Options) (classTags : gmap string string) (t : InstanceTypes.InstanceType)
    (capacityType placementScope zone : string) (ultraSSD : bool) (n : AKSNodeClass) (nc : NodeVersions.NodeClass)
    (claim : Claim) (m : Template) : Prop := {
  built_zones : Zones.MakeARMZonesFromAKSLabelZone zone = Some (t_Zones m);
  built_image : configureNodeImageVersion n nc t = Ok (t_NodeImageVersion m);
  built_version : GetKubernetesVersion nc = Ok (kp_OrchestratorVersion (t_Kubernetes m));
  built_sku : configureOSSKUAndFIPs n (kp_OrchestratorVersion (t_Kubernetes m)) =
    Ok (os_OSSKU (t_OperatingSystem m), os_EnableFIPS (t_OperatingSystem m));
  built_os : os_OSType (t_OperatingSystem m) = configureOSType n;
  built_labels : (kp_NodeLabels (t_Kubernetes m), t_Mode m) =
    configureLabelsAndMode claim (InstanceTypes.ty_requirements t) capacityType placementScope ultraSSD;
  built_size : t_VMSize m = InstanceTypes.ty_name t;
  built_ultra : t_UltraSsdEnabled m = ultraSSD;
  built_priority : t_Priority m = configurePriority capacityType;
  built_tags : t_Tags m = InPlaceUpdate.ConfigureAKSMachineTags o classTags (cl_claim claim);
  built_crg : t_CRG m = configureCapacityReservation n;
  built_imageID : ImageID n = None
}.

Lemma build_ok o classTags t ct scope zone ultra n nc claim m :
  buildAKSMachineTemplate o classTags (Some t) ct scope zone ultra (Some (n, nc)) (Some claim) = Some (Ok m) ->
  built o classTags t ct scope zone ultra n nc claim m.
Proof.
  unfold buildAKSMachineTemplate. destruct (ImageID n) eqn:Id; [done|]. cbn [mbind result_bind].
  destruct (configureAKSMachineBillingProfile _ _ _); [|done]. cbn [mbind result_bind].
  destruct (configureNodeImageVersion n nc t) eqn:Iv; [|done]. cbn [mbind result_bind].
  destruct (GetKubernetesVersion nc) eqn:Kv; [|done]. cbn [mbind result_bind].
  destruct (configureOSSKUAndFIPs n _) as [[sku fips]|] eqn:Sk; [|done]. cbn [mbind result_bind].
  destruct (configureOSDisk _ _ _) as [[size type]|]; [|done]. cbn [mbind result_bind].
  destruct (configureTaints claim). destruct (configureLabelsAndMode _ _ _ _ _) as [labels mode] eqn:L.
  destruct (Zones.MakeARMZonesFromAKSLabelZone zone) eqn:Z; [|done].
  destruct (configureArtifactStreamingProfile _ _); [|done]. intros [= <-]. by split.
Qed.

(** ** The image and the operating system *)

(** The class names no version: [Ubuntu], or a family that is not known. *)
Definition generic (n : AKSNodeClass) : bool :=
  negb (bool_decide (from_ptr "" (ImageFamily n) ∈ [Ubuntu2204ImageFamily; Ubuntu2404ImageFamily; AzureLinuxImageFamily;
    Windows2022ImageFamily; Windows2025ImageFamily; AzureContainerLinuxImageFamily])).
(** The SKU of a family's images; generic Ubuntu with FIPS leaves the version
    to AKS. *)
Definition sku_of (n : AKSNodeClass) (f : ImageFamily.Family) : string :=
  match f with
  | ImageFamily.Ubuntu2004 => OSSKUUbuntu
  | ImageFamily.Ubuntu2204 => if generic n && IsFIPSEnabled n then OSSKUUbuntu else OSSKUUbuntu2204
  | ImageFamily.Ubuntu2404 => OSSKUUbuntu2404
  | ImageFamily.AzureLinux | ImageFamily.AzureLinux3 => OSSKUAzureLinux
  | ImageFamily.AzureContainerLinux => OSSKUAzureContainerLinux
  | ImageFamily.Windows2022 => OSSKUWindows2022
  | ImageFamily.Windows2025 => OSSKUWindows2025
  end.
(** Generic Ubuntu with trusted launch, without FIPS, from Kubernetes 1.34. *)
Definition sku_disagrees (n : AKSNodeClass) (kubernetesVersion : string) : bool :=
  generic n && negb (IsFIPSEnabled n) && IsTrustedLaunchEnabled n && ImageFamily.UseUbuntu2404 ParseTolerant Version kubernetesVersion.

Lemma sku_matches n kv sku fips :
  let family := ImageFamily.GetImageFamily ParseTolerant Version (ImageFamily n) (FIPSMode n) (IsTrustedLaunchEnabled n) kv in
  configureOSSKUAndFIPs n kv = Ok (sku, fips) ->
  fips = IsFIPSEnabled n /\
  if sku_disagrees n kv then sku = OSSKUUbuntu2404 /\ family = ImageFamily.Ubuntu2204 else sku = sku_of n family.
Proof.
  intros family C. unfold configureOSSKUAndFIPs in C. unfold sku_disagrees, sku_of, family, ImageFamily.GetImageFamily, generic.
  destruct (ImageFamily n) as [f|] eqn:F; [|done]. cbn [from_ptr]. injection C as <- <-. split; [done|].
  change (from_ptr "" (Some f)) with f.
  destruct (decide (f = Ubuntu2204ImageFamily)) as [->|N1]; [by cbn|].
  destruct (decide (f = Ubuntu2404ImageFamily)) as [->|N2]; [by cbn|].
  destruct (decide (f = AzureLinuxImageFamily)) as [->|N3]; [cbn; by destruct (ImageFamily.UseAzureLinux3 _ _ _)|].
  destruct (decide (f = Windows2022ImageFamily)) as [->|N4]; [by cbn|].
  destruct (decide (f = Windows2025ImageFamily)) as [->|N5]; [by cbn|].
  destruct (decide (f = AzureContainerLinuxImageFamily)) as [->|N6]; [by cbn|].
  rewrite !(bool_decide_eq_false_2 (f = _)) by done.
  rewrite bool_decide_eq_false_2 by (rewrite !elem_of_cons, elem_of_nil; tauto).
  unfold ImageFamily.defaultUbuntu, ImageFamily.is_fips, IsFIPSEnabled. rewrite F. change (from_ptr "" (Some f)) with f.
  rewrite (bool_decide_eq_false_2 (f = _)) by done. cbn [negb andb orb].
  destruct (from_ptr "" (FIPSMode n) ==? FIPSModeFIPS); cbn [negb andb].
  - by destruct (ImageFamily.UseUbuntu2204FIPS _ _ _ _).
  - destruct (IsTrustedLaunchEnabled n), (ImageFamily.UseUbuntu2404 _ _ _); done.
Qed.

Lemma find_split {A} (f : A -> bool) l x :
  List.find f l = Some x -> f x = true /\ exists l1 l2, l = l1 ++ x :: l2 /\ Forall (fun y => f y = false) l1.
Proof.
  induction l as [|y l IH]; [done|]. cbn. destruct (f y) eqn:F.
  - intros [= <-]. split; [done|]. exists [], l. by split.
  - intros (Fx & l1 & l2 & -> & Fl)%IH. split; [done|]. exists (y :: l1), l2. split; [done|]. by constructor.
Qed.

(** The values the CRD allows. *)
Definition image_families : list string := UbuntuFamilies ++ [AzureLinuxImageFamily; AzureContainerLinuxImageFamily] ++ WindowsFamilies.

Lemma os_type_of_family n f kv :
  ImageFamily n = Some f -> f ∈ image_families ->
  configureOSType n = OSTypeWindows <->
  ImageFamily.GetImageFamily ParseTolerant Version (ImageFamily n) (FIPSMode n) (IsTrustedLaunchEnabled n) kv ∈
    [ImageFamily.Windows2022; ImageFamily.Windows2025].
Proof.
  intros F I. unfold configureOSType, ImageFamily.GetImageFamily. rewrite F. change (from_ptr "" (Some f)) with f.
  assert (D : forall mode, ImageFamily.defaultUbuntu ParseTolerant Version mode (IsTrustedLaunchEnabled n) kv ∉
    [ImageFamily.Windows2022; ImageFamily.Windows2025]).
  { intros mode. unfold ImageFamily.defaultUbuntu. repeat case_match; by rewrite !elem_of_cons, elem_of_nil; intros [|[]]. }
  unfold image_families in I. cbn in I.
  repeat (apply elem_of_cons in I as [->|I];
    [cbn; rewrite ?elem_of_cons, ?elem_of_nil;
     first [split; [done|intros W; exfalso; eapply D; rewrite !elem_of_cons, elem_of_nil; exact W] | naive_solver
           | destruct (ImageFamily.UseAzureLinux3 _ _ _); naive_solver]|]).
  by apply elem_of_nil in I.
Qed.


(** ** The machine and its claim *)

(** A machine the service gives for another: the fields it fills in aside. *)
Record served (m m' : AKSMachine.Machine) (p p' : AKSMachine.Properties) : Prop := {
  sv_properties : AKSMachine.ma_properties m = Some p;
  sv_properties' : AKSMachine.ma_properties m' = Some p';
  sv_zones : AKSMachine.ma_zones m' = AKSMachine.ma_zones m;
  sv_tags : AKSMachine.pr_tags p' = AKSMachine.pr_tags p;
  sv_priority : AKSMachine.pr_priority p' = AKSMachine.pr_priority p;
  sv_hardware : AKSMachine.pr_hardware p' = AKSMachine.pr_hardware p;
  sv_image : AKSMachine.pr_nodeImageVersion p' = AKSMachine.pr_nodeImageVersion p;
  sv_crg : AKSMachine.pr_crg p' = AKSMachine.pr_crg p
}.

Section Claims.
Variable single_valued_labels : InstanceType -> gmap string string.
Variable capacity allocatable : InstanceType -> gmap string Z.
#[local] Abbreviation of_template :=
  (AKSMachine.BuildNodeClaimFromAKSMachineTemplate single_valued_labels capacity allocatable).
#[local] Abbreviation of_machine := (AKSMachine.BuildNodeClaimFromAKSMachine single_valued_labels capacity allocatable).

(** Two claims that describe the same node. *)
Definition same_node (a b : AKSMachine.NodeClaim) : Prop :=
  AKSMachine.nc_name a = AKSMachine.nc_name b /\ AKSMachine.nc_labels a = AKSMachine.nc_labels b /\
  AKSMachine.nc_imageID a = AKSMachine.nc_imageID b /\
  AKSMachine.nc_annotations a !! AKSMachine.AnnotationCapacityReservationGroupID =
  AKSMachine.nc_annotations b !! AKSMachine.AnnotationCapacityReservationGroupID /\
  AKSMachine.nc_capacity a = AKSMachine.nc_capacity b /\ AKSMachine.nc_allocatable a = AKSMachine.nc_allocatable b.

Lemma template_congr now now' m m' p p' t ct z mid mid' vid vid' del del' iv cr cr' nc :
  served m m' p p' -> of_template now m t ct z mid vid del iv cr = Some nc ->
  exists nc', of_template now' m' t ct z mid' vid' del' iv cr' = Some nc' /\ same_node nc' nc.
Proof.
  intros [P P' _ T _ Hw _ C]. unfold AKSMachine.BuildNodeClaimFromAKSMachineTemplate.
  unfold AKSMachine.ultraSSDLabelFromAKSMachineTemplate, AKSMachine.isUltraSSDEnabled, AKSMachine.capacityReservationGroupIDFromAKSMachine.
  rewrite P, P', T, Hw, C. set (tags := default ∅ (AKSMachine.pr_tags p)).
  destruct (tags !! AKSMachine.NodePoolTagKey) as [[np|]|]; [|done|];
    (destruct (tags !! AKSMachine.KarpenterAKSMachineNodeClaimTagKey) as [[nm|]|]; [|done|]);
    intros B; injection B as <-; (eexists; split; [reflexivity|]); repeat split; cbn [AKSMachine.nc_annotations];
    by rewrite !lookup_insert_eq.
Qed.

(** The tags of a template read back. *)
Lemma template_tags o classTags nc k :
  InPlaceUpdate.ConfigureAKSMachineTags o classTags nc !! k <> Some None.
Proof.
  unfold InPlaceUpdate.ConfigureAKSMachineTags. destruct (decide (AKSMachine.KarpenterAKSMachineNodeClaimTagKey = k)) as [<-|N].
  - by rewrite lookup_insert_eq.
  - rewrite lookup_insert_ne by done. unfold InPlaceUpdate.Tags. rewrite lookup_fmap. by destruct (_ !! k).
Qed.

Lemma machine_capacity_type_back ct :
  ct = CapacityTypeOnDemand \/ ct = CapacityTypeSpot ->
  AKSMachine.getCapacityTypeFromAKSScaleSetPriority (configurePriority ct) = ct.
Proof. by intros [-> | ->]. Qed.

Lemma machine_zone_back location zone zs :
  zone = Zones.Regional \/ (exists z, Zones.one_byte z = true /\ location <> "" /\ zone = Zones.MakeAKSLabelZoneFromARMZone location z) ->
  Zones.MakeARMZonesFromAKSLabelZone zone = Some zs ->
  Zones.MakeAKSLabelZoneFromARMZones location (map Some zs) = Ok zone.
Proof.
  intros [->|(z & Oz & Nl & ->)]; [by intros [= <-]|]. destruct (Zones.zone_of_label location z Oz Nl) as [-> _].
  intros [= <-]. unfold Zones.MakeAKSLabelZoneFromARMZones. cbn [map]. by rewrite bool_decide_eq_false_2.
Qed.

Lemma template_made o classTags claim m now mt ti ct zone mid vid iv cr :
  (forall k, t_Tags m !! k <> Some None) -> AKSMachine.ma_properties mt = AKSMachine.ma_properties (machine_of m) ->
  t_Tags m = InPlaceUpdate.ConfigureAKSMachineTags o classTags (cl_claim claim) ->
  exists nc1, of_template now mt ti ct (Some zone) mid vid false iv cr = Some nc1 /\
    AKSMachine.nc_name nc1 = AKSMachine.nc_name (cl_claim claim) /\
    AKSMachine.nc_labels nc1 !! AKSMachine.LabelUltraSSD = Some (if t_UltraSsdEnabled m then "true" else "false") /\
    (forall pool, AKSMachine.nc_labels (cl_claim claim) !! AKSMachine.NodePoolLabelKey = Some pool ->
       AKSMachine.nc_labels nc1 !! AKSMachine.NodePoolLabelKey = Some pool).
Proof.
  intros N P Tg. assert (Cl : t_Tags m !! AKSMachine.KarpenterAKSMachineNodeClaimTagKey = Some (Some (AKSMachine.nc_name (cl_claim claim)))).
  { rewrite Tg. apply lookup_insert_eq. }
  assert (Po : forall pool, AKSMachine.nc_labels (cl_claim claim) !! AKSMachine.NodePoolLabelKey = Some pool ->
    t_Tags m !! AKSMachine.NodePoolTagKey = Some (Some pool)).
  { intros pool L. rewrite Tg. unfold InPlaceUpdate.ConfigureAKSMachineTags.
    rewrite lookup_insert_ne by (apply (bool_decide_unpack _); vm_compute; exact I).
    apply InPlaceUpdate.Tags_lookup. left. unfold InPlaceUpdate.default_tags. rewrite L. apply lookup_insert_eq. }
  unfold AKSMachine.BuildNodeClaimFromAKSMachineTemplate, AKSMachine.ultraSSDLabelFromAKSMachineTemplate, AKSMachine.isUltraSSDEnabled.
  rewrite P. cbn [machine_of AKSMachine.ma_properties AKSMachine.pr_tags AKSMachine.pr_hardware AKSMachine.hw_ultraSSD default from_option from_ptr id].
  rewrite Cl. destruct (t_Tags m !! AKSMachine.NodePoolTagKey) as [[np|]|] eqn:Q; [|by destruct (N _ Q)|];
    (eexists; split; [reflexivity|]); cbn [AKSMachine.nc_name AKSMachine.nc_labels]; (split; [done|]); split.
  - rewrite lookup_insert_ne by (apply (bool_decide_unpack _); vm_compute; exact I). apply lookup_insert_eq.
  - intros pool L. rewrite lookup_insert_eq. specialize (Po _ L). congruence.
  - apply lookup_insert_eq.
  - intros pool L. pose proof (Po _ L). congruence.
Qed.


End Claims.
End Build.

(** ** Witnesses *)

#[local] Existing Instance ImageFamily.value_scheduling.

Definition demo_image : string :=
  "/subscriptions/sub/resourceGroups/AKS-Ubuntu/providers/Microsoft.Compute/galleries/AKSUbuntu/images/2204gen2containerd/versions/202501.05.0".
Definition demo_versions : NodeVersions.NodeClass := ImageFamily.demo_versions [NodeVersions.mk_image demo_image []].
Definition demo_type : InstanceTypes.InstanceType :=
  InstanceTypes.mk_type "Standard_D4s_v5" {[ LabelArchStable := {[ "amd64" ]} ]} [] ∅ ∅ ∅ ∅.
Definition demo_claim : Claim :=
  mk_claim _ (AKSMachine.mk_nodeclaim "np-a1b2c" {[ AKSMachine.NodePoolLabelKey := "np"; "team" := "a" ]} ∅ 1 None "" "" ∅ ∅) ∅
    ["dedicated:NoSchedule"] [].
Definition demo_build : option (result (template_error string) Template) :=
  buildAKSMachineTemplate (Quantity := Z) ImageFamily.demo_parse ImageFamily.demo_version ∅ (fun _ => None) (fun _ => None)
    (fun _ => GoFloat.of_int 0) (fun _ => None) (fun _ => Ok None) Options.demo_options ∅ (Some demo_type) CapacityTypeSpot
    Zones.PlacementScopeZonal "westus2-3" true (Some (ImageFamily.demo_spec "Ubuntu2204", demo_versions)) (Some demo_claim).


End MachineTemplate.
