(* ===== verification/Bootstrap.v ===== *)
(** * Kubelet configuration and bootstrapping ([pkg/providers/imagefamily/resolver.go],
      [bootstrap], [customscriptsbootstrap])

    The kubelet configuration of a VM node, the variables and kubelet flags of
    the locally built bootstrap script, and the request to the node
    bootstrapping service.  Rendering the script's template, and base64, are
    parameters. *)

From S2P Require Import Prelude GoString GoSort GoFloat Cloud AKSMachine NodeVersions ResourceIDs VirtualMachines VMInstance Options Resources NodeClassSpec Wire InstanceTypes Labels.
From Stdlib Require Import SpecFloat.
#[local] Open Scope string_scope.
#[local] Open Scope list_scope.
#[local] Open Scope Z_scope.

Module Bootstrap.
Import NodeClassSpec Labels.
Import NodeVersions(Semver, version, Minor).

(** ** Kubelet configuration ([resolver.go], [nodehardening.go]) *)

Definition NodeFSInodesFree : string := "nodefs.inodesFree".
Definition PIDAvailable : string := "pid.available".
Definition HardEvictionNodeFSAvailable : string := "10%".
Definition HardEvictionNodeFSInodesFree : string := "5%".
Definition HardEvictionPIDAvailable : string := "2000".
Definition SoftEvictionNodeFSAvailable : string := "12%".
Definition SoftEvictionNodeFSInodesFree : string := "7%".
Definition SoftEvictionMemoryGracePeriod : Z := 30 * Second.
Definition SoftEvictionNodeFSGracePeriod : Z := 2 * Minute.
Definition SoftEvictionNodeFSInodesGracePeriod : Z := 2 * Minute.
Definition SoftEvictionMaxPodGracePeriodSeconds : Z := 60.
Definition KubeReservedPIDs : string := "1000".

(** [bootstrap.KubeletConfiguration]; [kb_base]: the one it embeds. *)
Record KubeletConfig := mk_config {
  kb_base : KubeletConfiguration; kb_MaxPods : Z; kb_ClusterDNSServiceIP : string;
  kb_SystemReserved : gmap string string; kb_KubeReserved : gmap string string;
  kb_EvictionHard : gmap string string; kb_EvictionSoft : gmap string string;
  kb_EvictionSoftGracePeriod : gmap string Z; kb_EvictionMaxPodGracePeriod : option Z;
  kb_EnforceNodeAllocatable : list string
}.
Definition no_kubelet : KubeletConfiguration :=
  mk_kubelet None None 0 None None None [] None None None None None None None None None.

Definition set_if {A B} (key : string) (value : option A) (f : A -> B) (m : gmap string B) : gmap string B :=
  match value with Some v => <[key := f v]> m | None => m end.
Definition evictionThresholdMap (config : option EvictionThreshold) : gmap string string :=
  match config with
  | None => ∅
  | Some c => set_if NodeFSInodesFree (NodeFsInodesFree c) id (set_if Resources.NodeFSAvailable (NodeFsAvailable c) id
                (set_if Resources.MemoryAvailable (MemoryAvailable c) id ∅))
  end.
Definition duration_of (d : option NillableDuration) : option Z := match d with Some d => Duration d | None => None end.
Definition evictionGracePeriodMap (config : option EvictionSoftGracePeriod) : gmap string Z :=
  match config with
  | None => ∅
  | Some c => set_if NodeFSInodesFree (duration_of (gp_NodeFsInodesFree c)) id
                (set_if Resources.NodeFSAvailable (duration_of (gp_NodeFsAvailable c)) id
                  (set_if Resources.MemoryAvailable (duration_of (gp_MemoryAvailable c)) id ∅))
  end.

Definition overlayKubeletConfiguration (c : KubeletConfig) (overrides : option KubeletConfiguration) : KubeletConfig :=
  match overrides with
  | None => c
  | Some k => mk_config (kb_base c) (kb_MaxPods c) (kb_ClusterDNSServiceIP c) (kb_SystemReserved c)
      (InstanceTypes.KubeReservedOverrides (KubeReservedOf k) ∪ kb_KubeReserved c)
      (evictionThresholdMap (EvictionHard k) ∪ kb_EvictionHard c) (evictionThresholdMap (EvictionSoft k) ∪ kb_EvictionSoft c)
      (evictionGracePeriodMap (EvictionSoftGrace k) ∪ kb_EvictionSoftGracePeriod c)
      (match EvictionMaxPodGracePeriod k with Some p => Some p | None => kb_EvictionMaxPodGracePeriod c end)
      (kb_EnforceNodeAllocatable c)
  end.

Section Kubelet.
Context `{GoRange}.
(** [Quantity.String] *)
Variable QuantityString : Resources.Quantity -> string.

Definition StringMap (l : gmap string Resources.Quantity) : gmap string string := QuantityString <$> l.

(** [None]: a panic; the memory label of a type is a single integer. *)
Definition prepareKubeletConfiguration (o : Options.Options) (t : InstanceTypes.InstanceType) (n : AKSNodeClass) :
    option KubeletConfig :=
  let base := match Kubelet n with Some k => k | None => no_kubelet end in
  let maxPods := VMInstance.GetMaxPods (of_launch n) (Options.NetworkPlugin o) (Options.NetworkPluginMode o) in
  let kubeReserved := StringMap (InstanceTypes.ty_kubeReserved t) in
  let systemReserved := StringMap (InstanceTypes.ty_systemReserved t) in
  let evictionHard := {[
    Resources.MemoryAvailable := QuantityString (Resources.resource_of (InstanceTypes.ty_eviction t) Resources.ResourceMemory);
    Resources.NodeFSAvailable := HardEvictionNodeFSAvailable;
    NodeFSInodesFree := HardEvictionNodeFSInodesFree ]} in
  let config :=
    if Options.ShouldUseNodeHardening o then
      match range_keys (values (InstanceTypes.ty_requirements t) LabelSKUMemory) with
      | [] => None
      | value :: _ =>
          match ParseInt value with
          | None => None
          | Some totalMemoryMiB => Some (mk_config base maxPods (Options.DNSServiceIP o) systemReserved kubeReserved evictionHard
              {[ Resources.MemoryAvailable :=
                   QuantityString (Resources.resource_of (Resources.SoftEvictionThreshold totalMemoryMiB) Resources.ResourceMemory);
                 Resources.NodeFSAvailable := SoftEvictionNodeFSAvailable;
                 NodeFSInodesFree := SoftEvictionNodeFSInodesFree ]}
              {[ Resources.MemoryAvailable := SoftEvictionMemoryGracePeriod;
                 Resources.NodeFSAvailable := SoftEvictionNodeFSGracePeriod;
                 NodeFSInodesFree := SoftEvictionNodeFSInodesGracePeriod ]}
              (Some SoftEvictionMaxPodGracePeriodSeconds) ["pods"; "kube-reserved"; "system-reserved"])
          end
      end
    else Some (mk_config base maxPods (Options.DNSServiceIP o) systemReserved (<["pid" := KubeReservedPIDs]> kubeReserved)
                (<[PIDAvailable := HardEvictionPIDAvailable]> evictionHard) ∅ ∅ None []) in
  match config with Some c => Some (overlayKubeletConfiguration c (Kubelet n)) | None => None end.

(** ** Kubelet flags ([aksbootstrap.go]) *)

(** [separator] between a key and its value, commas between the pairs, in the
    order of the range. *)
Definition JoinParameterArgsToMap (result : gmap string string) (name : string) (m : gmap string string) (separator : string) :
    gmap string string :=
  match range_keys (dom m) with
  | [] => result
  | ks => <[name := GoString.Join (map (fun k => k +:+ separator +:+ default "" (m !! k)) ks) ","]> result
  end.

Definition nodeHardeningKubeReservedCgroup : string := "/kubereserved.slice".
Definition nodeHardeningSystemReservedCgroup : string := "/system.slice".

Definition kubeletConfigToMap (kubeletConfig : option KubeletConfig) : gmap string string :=
  match kubeletConfig with
  | None => ∅
  | Some c =>
      let k := kb_base c in
      let args : gmap string string := {[ "--max-pods" := pretty (kb_MaxPods c) ]} in
      let args := JoinParameterArgsToMap args "--system-reserved" (kb_SystemReserved c) "=" in
      let args := JoinParameterArgsToMap args "--kube-reserved" (kb_KubeReserved c) "=" in
      let args := JoinParameterArgsToMap args "--eviction-hard" (kb_EvictionHard c) "<" in
      let args := JoinParameterArgsToMap args "--eviction-soft" (kb_EvictionSoft c) "<" in
      let args := JoinParameterArgsToMap args "--eviction-soft-grace-period"
                    (Wire.DurationString <$> kb_EvictionSoftGracePeriod c) "=" in
      let enforced := kb_EnforceNodeAllocatable c in
      let args := match enforced with
                  | [] => args
                  | _ =>
                      let args := <["--enforce-node-allocatable" := GoString.Join enforced ","]> args in
                      if bool_decide ("kube-reserved" ∈ enforced) && bool_decide ("system-reserved" ∈ enforced)
                      then <["--system-reserved-cgroup" := nodeHardeningSystemReservedCgroup]>
                             (<["--kube-reserved-cgroup" := nodeHardeningKubeReservedCgroup]> args)
                      else args
                  end in
      let args := set_if "--eviction-max-pod-grace-period" (kb_EvictionMaxPodGracePeriod c) pretty args in
      let args := set_if "--image-gc-high-threshold" (ImageGCHighThresholdPercent k) pretty args in
      let args := set_if "--image-gc-low-threshold" (ImageGCLowThresholdPercent k) pretty args in
      let args := set_if "--cpu-cfs-quota" (CPUCFSQuota k) (fun b : bool => if b then "true" else "false") args in
      let args := set_if "--cpu-manager-policy" (Wire.non_empty (CPUManagerPolicy k)) id args in
      let args := set_if "--topology-manager-policy" (Wire.non_empty (TopologyManagerPolicy k)) id args in
      let args := set_if "--container-log-max-size" (Wire.non_empty (ContainerLogMaxSize k)) id args in
      let args := set_if "--container-log-max-files" (ContainerLogMaxFiles k) pretty args in
      let args := set_if "--pod-max-pids" (PodPidsLimit k) pretty args in
      let args := match AllowedUnsafeSysctls k with [] => args | l => <["--allowed-unsafe-sysctls" := GoString.Join l ","]> args end in
      if kb_ClusterDNSServiceIP c ==? "" then args else <["--cluster-dns" := kb_ClusterDNSServiceIP c]> args
  end.

End Kubelet.

Definition getBaseKubeletFlags : gmap string string := list_to_map [
  ("--address", "0.0.0.0");
  ("--anonymous-auth", "false");
  ("--authentication-token-webhook", "true");
  ("--authorization-mode", "Webhook");
  ("--cgroups-per-qos", "true");
  ("--client-ca-file", "/etc/kubernetes/certs/ca.crt");
  ("--cloud-config", "/etc/kubernetes/azure.json");
  ("--cloud-provider", "external");
  ("--cluster-dns", "10.0.0.10");
  ("--cluster-domain", "cluster.local");
  ("--enforce-node-allocatable", "pods");
  ("--event-qps", "0");
  ("--eviction-hard", "memory.available<100Mi,nodefs.available<10%,nodefs.inodesFree<5%");
  ("--image-gc-high-threshold", "85");
  ("--image-gc-low-threshold", "80");
  ("--kubeconfig", "/var/lib/kubelet/kubeconfig");
  ("--max-pods", "110");
  ("--node-status-update-frequency", "10s");
  ("--pod-infra-container-image", "mcr.microsoft.com/oss/kubernetes/pause:3.6");
  ("--pod-manifest-path", "/etc/kubernetes/manifests");
  ("--pod-max-pids", "-1");
  ("--protect-kernel-defaults", "true");
  ("--read-only-port", "0");
  ("--resolv-conf", "/run/systemd/resolve/resolv.conf");
  ("--rotate-certificates", "true");
  ("--streaming-connection-idle-timeout", "4h");
  ("--tls-cert-file", "/etc/kubernetes/certs/kubeletserver.crt");
  ("--tls-cipher-suites", "TLS_ECDHE_ECDSA_WITH_AES_128_GCM_SHA256,TLS_ECDHE_RSA_WITH_AES_128_GCM_SHA256,TLS_ECDHE_ECDSA_WITH_CHACHA20_POLY1305,TLS_ECDHE_RSA_WITH_AES_256_GCM_SHA384,TLS_ECDHE_RSA_WITH_CHACHA20_POLY1305,TLS_ECDHE_ECDSA_WITH_AES_256_GCM_SHA384,TLS_RSA_WITH_AES_256_GCM_SHA384,TLS_RSA_WITH_AES_128_GCM_SHA256");
  ("--tls-private-key-file", "/etc/kubernetes/certs/kubeletserver.key")
].

Definition globalAKSMirror : string := "https://acs-mirror.azureedge.net".

(** ** The bootstrap script's variables ([aksbootstrap.go]) *)

(** [bootstrap.AKS] with its options. *)
Record AKS `{Taints} := mk_aks {
  a_KubeletConfig : option KubeletConfig; a_Taints : list Taint; a_Labels : gmap string string; a_CABundle : option string;
  a_GPUNode : bool; a_GPUDriverVersion : string; a_GPUDriverType : string; a_GPUImageSHA : string;
  a_GPUDriverInstallationEnabled : bool; a_SubnetID : string; a_Arch : string; a_TenantID : string;
  a_SubscriptionID : string; a_KubeletIdentityClientID : string; a_Location : string; a_ResourceGroup : string;
  a_NetworkSecurityGroupName : string; a_RouteTableName : string; a_APIServerName : string;
  a_KubeletClientTLSBootstrapToken : string; a_NetworkPlugin : string; a_NetworkPolicy : string; a_KubernetesVersion : string
}.

(** The variables the options decide; the others are constants of the
    template. *)
Record NodeBootstrapVariables := mk_nbv {
  KubeCACrt : string; APIServerName : string; TLSBootstrapToken : string; TenantID : string; SubscriptionID : string;
  Location : string; ResourceGroup : string; UserAssignedIdentityID : string; NetworkPlugin : string; NetworkPolicy : string;
  KubernetesVersion : string; KubeBinaryURL : string; VNETCNILinuxPluginsURL : string; CNIPluginsURL : string;
  NetworkSecurityGroup : string; RouteTable : string; GPUNode : bool; ConfigGPUDriverIfNeeded : bool;
  GPUDriverVersion : string; GPUDriverType : string; GPUImageSHA : string; Subnet : string;
  VirtualNetworkResourceGroup : string; VirtualNetwork : string; KubeletNodeLabels : string;
  CredentialProviderDownloadURL : string; KubeletFlags : string
}.

Section Script.
Context `{GoRange, GoSort, !Semver, !Taints}.

(** [None]: [semver.MustParse] panics. *)
Definition minor (kubernetesVersion : string) : option Z := Minor <$> NodeVersions.Parse kubernetesVersion.
Definition kubeBinaryURL (minorVersion : Z) (kubernetesVersion cpuArch : string) : string :=
  if 34 <=? minorVersion then ""
  else globalAKSMirror +:+ "/kubernetes/v" +:+ kubernetesVersion +:+ "/binaries/kubernetes-node-linux-" +:+ cpuArch +:+ ".tar.gz".
Definition CredentialProviderURL (minorVersion : Z) (arch : string) : string :=
  if minorVersion <? 30 then ""
  else
    let credentialProviderVersion :=
      if minorVersion =? 29 then "1.29.15" else if minorVersion =? 30 then "1.30.12" else if minorVersion =? 31 then "1.31.6"
      else if minorVersion =? 32 then "1.32.5" else "1.33.0" in
    globalAKSMirror +:+ "/cloud-provider-azure/v" +:+ credentialProviderVersion
      +:+ "/binaries/azure-acr-credential-provider-linux-" +:+ arch +:+ "-v" +:+ credentialProviderVersion +:+ ".tar.gz".

Definition kubelet_flags (minorVersion : Z) (a : AKS) : gmap string string :=
  let flags := getBaseKubeletFlags in
  let flags := if minorVersion <? 31 then <["--keep-terminated-pod-volumes" := "false"]> flags else flags in
  let flags := if 34 <=? minorVersion then delete "--cloud-config" flags else flags in
  let flags := if 35 <=? minorVersion then delete "--pod-infra-container-image" flags else flags in
  let flags :=
    if CredentialProviderURL minorVersion (a_Arch a) !=? "" then
      <["--image-credential-provider-bin-dir" := "/var/lib/kubelet/credential-provider"]>
        (<["--image-credential-provider-config" := "/var/lib/kubelet/credential-provider-config.yaml"]> flags)
    else
      <["--azure-container-registry-config" := "/etc/kubernetes/azure.json"]>
        (<["--feature-gates" := "DisableKubeletCloudCredentialProviders=false"]> flags) in
  let flags := match a_Taints a with
               | [] => flags
               | taints => <["--register-with-taints" := GoString.Join (map ToString taints) ","]> flags
               end in
  kubeletConfigToMap (a_KubeletConfig a) ∪ flags.

(** [k=v] in the order of the range, with commas. *)
Definition stringify_labels (labels : gmap string string) : string :=
  GoString.Join (map (fun k => k +:+ "=" +:+ default "" (labels !! k)) (range_keys (dom labels))) ",".
Definition stringify_flags (flags : gmap string string) : string :=
  GoString.Join (map (fun k => k +:+ "=" +:+ default "" (flags !! k))
    (Slice (fun a b => bool_decide (String.compare a b = Lt)) (range_keys (dom flags)))) " ".

(** [None]: a panic. *)
Definition applyOptions (a : AKS) : option NodeBootstrapVariables :=
  match a_CABundle a, minor (a_KubernetesVersion a) with
  | Some ca, Some minorVersion =>
      let gpu := a_GPUNode a && a_GPUDriverInstallationEnabled a in
      let subnetParts := match ResourceIDs.GetVnetSubnetIDComponents (a_SubnetID a) with
                         | Ok s => s | Err _ => ResourceIDs.mk_subnet "" "" "" "" end in
      Some {|
        KubeCACrt := ca; APIServerName := a_APIServerName a; TLSBootstrapToken := a_KubeletClientTLSBootstrapToken a;
        TenantID := a_TenantID a; SubscriptionID := a_SubscriptionID a; Location := a_Location a;
        ResourceGroup := a_ResourceGroup a; UserAssignedIdentityID := a_KubeletIdentityClientID a;
        NetworkPlugin := a_NetworkPlugin a; NetworkPolicy := a_NetworkPolicy a; KubernetesVersion := a_KubernetesVersion a;
        KubeBinaryURL := kubeBinaryURL minorVersion (a_KubernetesVersion a) (a_Arch a);
        VNETCNILinuxPluginsURL := globalAKSMirror +:+ "/azure-cni/v1.4.32/binaries/azure-vnet-cni-linux-" +:+ a_Arch a +:+ "-v1.4.32.tgz";
        CNIPluginsURL := globalAKSMirror +:+ "/cni-plugins/v1.1.1/binaries/cni-plugins-linux-" +:+ a_Arch a +:+ "-v1.1.1.tgz";
        NetworkSecurityGroup := a_NetworkSecurityGroupName a; RouteTable := a_RouteTableName a;
        GPUNode := gpu; ConfigGPUDriverIfNeeded := gpu; GPUDriverVersion := if gpu then a_GPUDriverVersion a else "";
        GPUDriverType := if gpu then a_GPUDriverType a else ""; GPUImageSHA := if gpu then a_GPUImageSHA a else "";
        Subnet := ResourceIDs.SubnetName subnetParts; VirtualNetworkResourceGroup := ResourceIDs.ResourceGroupName subnetParts;
        VirtualNetwork := ResourceIDs.VNetName subnetParts; KubeletNodeLabels := stringify_labels (a_Labels a);
        CredentialProviderDownloadURL := CredentialProviderURL minorVersion (a_Arch a);
        KubeletFlags := stringify_flags (kubelet_flags minorVersion a) |}
  | _, _ => None
  end.

(** Rendering the containerd and the script's template; base64. *)
Variable render : NodeBootstrapVariables -> result string string.
Variable EncodeToString : string -> string.

Definition Script (a : AKS) : option (result string string) :=
  match applyOptions a with
  | None => None
  | Some nbv => Some (match render nbv with Ok script => Ok (EncodeToString script) | Err e => Err e end)
  end.

End Script.

(** ** Node bootstrapping requests ([provisionclientbootstrap.go]) *)

Definition ImageFamilyOSSKUUbuntu2004 : string := "Ubuntu2004".
Definition ImageFamilyOSSKUUbuntu2204 : string := "Ubuntu2204".
Definition ImageFamilyOSSKUUbuntu2404 : string := "Ubuntu2404".
Definition ImageFamilyOSSKUAzureLinux2 : string := "AzureLinux2".
Definition ImageFamilyOSSKUAzureLinux3 : string := "AzureLinux3".

Record ProvisionClientBootstrap `{Taints} := mk_provision {
  b_KubeletConfig : option KubeletConfig; b_Taints : list Taint; b_StartupTaints : list Taint;
  b_Labels : gmap string string; b_SubnetID : string; b_Arch : string; b_KubeletClientTLSBootstrapToken : string;
  b_KubernetesVersion : string; b_ImageDistro : string; b_IsWindows : bool; b_InstanceType : InstanceTypes.InstanceType;
  b_StorageProfile : string; b_OSSKU : string; b_GPUDriverInstallationEnabled : bool; b_FIPSMode : option string;
  b_WorkloadRuntime : option string; b_LocalDNSProfile : option LocalDNS; b_ArtifactStreaming : option (option bool);
  b_LinuxOSConfig : option LinuxOSConfiguration; b_VTPMEnabled : option bool; b_SecureBootEnabled : option bool
}.

Record CustomKubeletConfig := mk_custom_kubelet {
  ck_CPUCfsQuota : option bool; ck_CPUCfsQuotaPeriod : option string; ck_CPUManagerPolicy : option string;
  ck_TopologyManagerPolicy : option string; ck_AllowedUnsafeSysctls : list string; ck_ImageGcHighThreshold : option Z;
  ck_ImageGcLowThreshold : option Z; ck_ContainerLogMaxFiles : option Z; ck_ContainerLogMaxSizeMB : option Z;
  ck_PodMaxPids : option Z; ck_FailSwapOn : option bool
}.
(** Values of the service's enums. *)
Definition OSSKUUbuntu : string := "Ubuntu".
Definition OSSKUAzureLinux : string := "AzureLinux".

Record ProvisionProfile := mk_profile {
  pp_Architecture : string; pp_VMSize : string; pp_Distro : string; pp_CustomNodeLabels : gmap string string;
  pp_OrchestratorVersion : string; pp_VnetSubnetID : string; pp_StorageProfile : string;
  pp_NodeInitializationTaints : list string; pp_NodeTaints : list string; pp_EnableVTPM : option bool;
  pp_EnableSecureBoot : option bool; pp_MaxPods : Z; pp_CustomLinuxOSConfig : option Wire.LinuxOSConfigModel;
  pp_EnableFIPS : bool; pp_Kata : bool; pp_ArtifactStreaming : bool; pp_LocalDNSProfile : option Wire.LocalDNSProfile;
  pp_OsSku : string; pp_CustomKubeletConfig : option CustomKubeletConfig; pp_SystemMode : bool;
  pp_GpuProfile : option (bool * bool)
}.
Record ProvisionValues := mk_values { pv_Profile : ProvisionProfile; pv_SkuCPU : GoFloat.float64; pv_SkuMemory : GoFloat.float64 }.

Definition reverseVMMemoryOverhead (vmMemoryOverheadPercent adjustedMemory : GoFloat.float64) : GoFloat.float64 :=
  SFdiv 53 1024 adjustedMemory (GoFloat.sub (GoFloat.of_int 1) vmMemoryOverheadPercent).

Section Provision.
Context `{!Taints} {Quantity : Type}.
Variable gpuSKUConfig : gmap string (string * list string).
Variable ParseQuantity : string -> option Quantity.
Variable AsApproximateFloat64 : Quantity -> GoFloat.float64.
(** [AsApproximateFloat64] of a quantity of the model, and [math.Ceil]. *)
Variable ApproximateFloat : Resources.Quantity -> GoFloat.float64.
Variable Ceil : GoFloat.float64 -> GoFloat.float64.

Definition convertWorkloadRuntimeToModel (workloadRuntime : option string) : bool :=
  from_ptr "" workloadRuntime ==? WorkloadRuntimeKataVMIsolation.

Definition custom_kubelet (c : KubeletConfig) : CustomKubeletConfig :=
  let k := kb_base c in {|
    ck_CPUCfsQuota := CPUCFSQuota k;
    ck_CPUCfsQuotaPeriod := (if Wire.DurationString (CPUCFSQuotaPeriod k) !=? "0s"
                             then Some (Wire.DurationString (CPUCFSQuotaPeriod k)) else None);
    ck_CPUManagerPolicy := Wire.non_empty (CPUManagerPolicy k);
    ck_TopologyManagerPolicy := Wire.non_empty (TopologyManagerPolicy k);
    ck_AllowedUnsafeSysctls := AllowedUnsafeSysctls k; ck_ImageGcHighThreshold := ImageGCHighThresholdPercent k;
    ck_ImageGcLowThreshold := ImageGCLowThresholdPercent k; ck_ContainerLogMaxFiles := ContainerLogMaxFiles k;
    ck_ContainerLogMaxSizeMB := (match ContainerLogMaxSize k with
                                 | Some s => Wire.ConvertContainerLogMaxSizeToMB ParseQuantity AsApproximateFloat64 s
                                 | None => None end);
    ck_PodMaxPids := Wire.ConvertPodMaxPids (PodPidsLimit k); ck_FailSwapOn := FailSwapOn k |}.

(** [None]: the kubelet configuration is dereferenced. *)
Definition ConstructProvisionValues (o : Options.Options) (p : ProvisionClientBootstrap) :
    option (result string ProvisionValues) :=
  if b_IsWindows p then Some (Err "windows is not supported")
  else
    match b_KubeletConfig p with
    | None => None
    | Some config =>
        let sku :=
          if bool_decide (b_OSSKU p ∈ [ImageFamilyOSSKUUbuntu2004; ImageFamilyOSSKUUbuntu2204; ImageFamilyOSSKUUbuntu2404])
          then Ok OSSKUUbuntu
          else if bool_decide (b_OSSKU p ∈ [ImageFamilyOSSKUAzureLinux2; ImageFamilyOSSKUAzureLinux3]) then Ok OSSKUAzureLinux
          else Err "unsupported OSSKU" in
        match sku with
        | Err e => Some (Err e)
        | Ok osSku =>
            let t := b_InstanceType p in
            let name := InstanceTypes.ty_name t in
            let capacity r := ApproximateFloat (Resources.resource_of (InstanceTypes.ty_capacity t) r) in
            let kilo := GoFloat.of_int 1024 in
            Some (Ok {| pv_Profile := {|
                pp_Architecture := if b_Arch p ==? ArchitectureAmd64 then "x64" else "Arm64";
                pp_VMSize := name; pp_Distro := b_ImageDistro p; pp_CustomNodeLabels := b_Labels p;
                pp_OrchestratorVersion := b_KubernetesVersion p; pp_VnetSubnetID := b_SubnetID p;
                pp_StorageProfile := b_StorageProfile p;
                pp_NodeInitializationTaints := map ToString (b_StartupTaints p); pp_NodeTaints := map ToString (b_Taints p);
                pp_EnableVTPM := b_VTPMEnabled p; pp_EnableSecureBoot := b_SecureBootEnabled p; pp_MaxPods := kb_MaxPods config;
                pp_CustomLinuxOSConfig := Wire.convertLinuxOSConfig ParseQuantity AsApproximateFloat64 (b_LinuxOSConfig p);
                pp_EnableFIPS := from_ptr "" (b_FIPSMode p) ==? FIPSModeFIPS;
                pp_Kata := convertWorkloadRuntimeToModel (b_WorkloadRuntime p);
                pp_ArtifactStreaming := ArtifactStreaming_IsEnabled (b_ArtifactStreaming p) (b_Arch p);
                pp_LocalDNSProfile := Wire.convertLocalDNS (b_LocalDNSProfile p); pp_OsSku := osSku;
                pp_CustomKubeletConfig := Some (custom_kubelet config);
                pp_SystemMode := bool_decide (b_Labels p !! AKSLabelMode = Some ModeSystem);
                pp_GpuProfile := (if IsNvidiaEnabledSKU gpuSKUConfig name
                                  then Some (UseGridDrivers name, b_GPUDriverInstallationEnabled p) else None) |};
              pv_SkuCPU := capacity Resources.ResourceCPU;
              pv_SkuMemory := Ceil (SFdiv 53 1024 (SFdiv 53 1024 (SFdiv 53 1024
                (reverseVMMemoryOverhead (InstanceTypes.float_of (Options.VMMemoryOverheadPercent o)) (capacity Resources.ResourceMemory))
                kilo) kilo) kilo) |})
        end
    end.

(** The service, base64, and [strings.ReplaceAll] of the token's placeholder. *)
Variable NodeBootstrapping_Get : option (ProvisionValues -> result string (string * string)).
Variable DecodeString : string -> result string string.
Variable EncodeToString : string -> string.
Variable replace_token : string -> string -> string.

Definition hydrateBootstrapTokenIfNeeded (customDataDehydratable cseDehydratable bootstrapToken : string) :
    result string (string * string) :=
  match DecodeString customDataDehydratable with
  | Err e => Err e
  | Ok decoded => Ok (EncodeToString (replace_token bootstrapToken decoded), replace_token bootstrapToken cseDehydratable)
  end.

Definition GetCustomDataAndCSE (o : Options.Options) (p : ProvisionClientBootstrap) : option (result string (string * string)) :=
  match ConstructProvisionValues o p with
  | None => None
  | Some (Err e) => Some (Err e)
  | Some (Ok provisionValues) =>
      Some (match NodeBootstrapping_Get with
            | None => Err "nodeBootstrapping provider is not initialized"
            | Some get =>
                match get provisionValues with
                | Err e => Err e
                | Ok (customData, cse) => hydrateBootstrapTokenIfNeeded customData cse (b_KubeletClientTLSBootstrapToken p)
                end
            end)
  end.

End Provision.

(** ** Reading flags back *)

(** The text before and after the first [c]. *)
Fixpoint cut (c : ascii) (s : string) : string * string :=
  match s with
  | EmptyString => ("", "")
  | String a s' => if a ==? c then ("", s') else let '(k, v) := cut c s' in (String a k, v)
  end.
(** What the kubelet reads: pairs between commas. *)
Definition read_pairs (separator : ascii) (s : string) : gmap string string := list_to_map (map (cut separator) (Split s ",")).

Lemma cut_app c k v : free_of c k = true -> cut c (k +:+ String c v) = (k, v).
Proof.
  induction k as [|a k IH].
  { intros _. change ("" +:+ String c v) with (String c v). cbn [cut]. by rewrite bool_decide_eq_true_2. }
  change (String a k +:+ String c v) with (String a (k +:+ String c v)). cbn [cut free_of]. intros [N F]%andb_true_iff.
  rewrite neqb_true in N. rewrite bool_decide_eq_false_2 by done. by rewrite (IH F).
Qed.

(** Keys and values that can be told apart. *)
Definition plain_pairs (separator : ascii) (m : gmap string string) : Prop :=
  forall k v, m !! k = Some v -> free_of "," k = true /\ free_of separator k = true /\ free_of "," v = true.

Lemma list_to_map_keys (m : gmap string string) ks :
  ks ≡ₚ elements (dom m) -> list_to_map (map (fun k => (k, default "" (m !! k))) ks) = m.
Proof.
  intros P. apply map_eq. intros k. destruct (m !! k) as [v|] eqn:L.
  - apply elem_of_list_to_map_1.
    + unfold fmap. rewrite map_map. cbn. rewrite map_id, P. apply NoDup_elements.
    + apply list_elem_of_In, in_map_iff. exists k. rewrite L. split; [done|]. apply list_elem_of_In. rewrite P.
      apply elem_of_elements, elem_of_dom. by eexists.
  - apply not_elem_of_list_to_map_1. unfold fmap. rewrite map_map. cbn. rewrite map_id, P, elem_of_elements.
    by apply not_elem_of_dom.
Qed.

Lemma pairs_read `{GoRange} separator m :
  separator <> ","%char -> m <> ∅ -> plain_pairs separator m ->
  read_pairs separator (GoString.Join (map (fun k => k +:+ String separator "" +:+ default "" (m !! k)) (range_keys (dom m))) ",") = m.
Proof.
  intros Ns Ne Pl. unfold read_pairs.
  assert (Fr : forall k, k ∈ range_keys (dom m) -> exists v, m !! k = Some v).
  { intros k I. apply elem_of_range, elem_of_dom in I as [v I]. by exists v. }
  rewrite Split_Join.
  - rewrite map_map. transitivity (list_to_map (M := gmap string string) (map (fun k => (k, default "" (m !! k))) (range_keys (dom m))));
      [|apply list_to_map_keys, range_keys_perm].
    f_equal. apply map_ext_in. intros k I.
    apply list_elem_of_In in I. destruct (Fr k I) as [v L]. rewrite L. apply cut_app. by destruct (Pl k v L) as (_ & ? & _).
  - intros N. apply map_eq_nil in N. pose proof (range_keys_perm (dom m)) as P. rewrite N in P.
    apply Ne, dom_empty_inv_L. apply Permutation_nil in P. apply (elements_empty_inv (C := gset string)) in P. by apply leibniz_equiv.
  - intros w I. apply list_elem_of_In, in_map_iff in I as (k & <- & I). apply list_elem_of_In in I. destruct (Fr k I) as [v L].
    destruct (Pl k v L) as (Fk & _ & Fv). rewrite L. cbn. rewrite !ResourceIDs.free_of_app, Fk. cbn. rewrite Fv, !andb_true_r.
    by apply neqb_true.
Qed.
Lemma join_read `{GoRange} separator m name result :
  separator <> ","%char -> m <> ∅ -> plain_pairs separator m ->
  exists s, JoinParameterArgsToMap result name m (String separator "") !! name = Some s /\ read_pairs separator s = m.
Proof.
  intros Ns Ne Pl. pose proof (pairs_read separator m Ns Ne Pl) as R. unfold JoinParameterArgsToMap.
  destruct (range_keys (dom m)) as [|k0 ks] eqn:K; [|eexists; split; [apply lookup_insert_eq|exact R]].
  exfalso. apply Ne, dom_empty_inv_L. pose proof (range_keys_perm (dom m)) as P. rewrite K in P.
  apply Permutation_nil in P. apply (elements_empty_inv (C := gset string)) in P. by apply leibniz_equiv.
Qed.

Lemma join_ne `{GoRange} result name m separator k :
  name <> k -> JoinParameterArgsToMap result name m separator !! k = result !! k.
Proof. intros N. unfold JoinParameterArgsToMap. case_match; [done|]. by rewrite lookup_insert_ne. Qed.
Lemma set_if_ne {A B} key (value : option A) (f : A -> B) m k : key <> k -> set_if key value f m !! k = m !! k.
Proof. intros N. unfold set_if. case_match; [by rewrite lookup_insert_ne|done]. Qed.

(** ** What the kubelet reserves *)

Lemma free_of_pretty_go c n s : digit_value c = None -> free_of c s = true -> free_of c (pretty_N_go n s) = true.
Proof.
  intros D. revert s. induction (N.lt_wf_0 n) as [n _ IH]. intros s F. destruct (decide (0 < n)%N) as [P|P].
  - rewrite pretty_N_go_step by lia. apply IH; [apply N.div_lt; lia|]. cbn. rewrite F, andb_true_r. apply neqb_true. intros E.
    pose proof (digit_char (n `mod` 10)%N ltac:(by apply N.mod_lt)) as K. rewrite E in K. congruence.
  - replace n with 0%N by lia. by rewrite pretty_N_go_0.
Qed.
Lemma free_of_pretty (z : Z) : free_of "," (pretty z) = true.
Proof.
  assert (F : forall n, free_of "," (pretty (n : N)) = true).
  { intros n. unfold pretty, pretty_N. case_decide; [done|]. by apply free_of_pretty_go. }
  destruct z as [|q|q]; [done|apply F|]. change (free_of "," ("-" +:+ pretty (Npos q)) = true). rewrite ResourceIDs.free_of_app, F. done.
Qed.

Section Reserves.
Context `{GoRange, GoSort, !Semver, !Taints}.
Variable QuantityString : Resources.Quantity -> string.
Variable o : Options.Options.
Variable region : string.
Variable gpuSKUConfig : gmap string (string * list string).
Variable ParseQuantity : string -> option Resources.Quantity.
Variable ParseFloat : string -> option GoFloat.float64.
(** The text of a quantity reads back, and has no comma. *)
Hypothesis parse_string : forall q, ParseQuantity (QuantityString q) = Some q.
Hypothesis string_plain : forall q, free_of "," (QuantityString q) = true.

(** The flags up to those of the reserves. *)
Lemma reserve_flag c k :
  k ∈ ["--max-pods"; "--system-reserved"; "--kube-reserved"; "--eviction-hard"] ->
  kubeletConfigToMap (Some c) !! k =
  JoinParameterArgsToMap (JoinParameterArgsToMap (JoinParameterArgsToMap {[ "--max-pods" := pretty (kb_MaxPods c) ]}
    "--system-reserved" (kb_SystemReserved c) "=") "--kube-reserved" (kb_KubeReserved c) "=")
    "--eviction-hard" (kb_EvictionHard c) "<" !! k.
Proof using Type.
  intros I. unfold kubeletConfigToMap. cbv zeta.
  assert (Ne : forall name, bool_decide (name ∈ ["--max-pods"; "--system-reserved"; "--kube-reserved"; "--eviction-hard"]) = false ->
    name <> k) by (intros name B ->; by rewrite bool_decide_eq_true_2 in B).
  assert (St : forall A (m m' : gmap string string) name (f : A -> string) v, name <> k -> m !! k = m' !! k -> set_if name v f m !! k = m' !! k)
    by (intros A m m' name f v N <-; by apply set_if_ne).
  destruct (kb_ClusterDNSServiceIP c ==? ""); [|rewrite lookup_insert_ne by (by apply Ne)];
    (destruct (AllowedUnsafeSysctls (kb_base c)); [|rewrite lookup_insert_ne by (by apply Ne)]);
    (repeat (apply St; [by apply Ne|]));
    (destruct (kb_EnforceNodeAllocatable c); [|case_match; rewrite ?lookup_insert_ne by (by apply Ne)]);
    by rewrite !join_ne by (by apply Ne).
Qed.

Definition reserved_overrides (n : AKSNodeClass) : gmap string string :=
  match Kubelet n with Some k => InstanceTypes.KubeReservedOverrides (KubeReservedOf k) | None => ∅ end.
Definition hard_overrides (n : AKSNodeClass) : gmap string string :=
  match Kubelet n with Some k => evictionThresholdMap (EvictionHard k) | None => ∅ end.

Lemma prepare_fields t n c :
  prepareKubeletConfiguration QuantityString o t n = Some c ->
  kb_MaxPods c = VMInstance.GetMaxPods (of_launch n) (Options.NetworkPlugin o) (Options.NetworkPluginMode o) /\
  kb_SystemReserved c = StringMap QuantityString (InstanceTypes.ty_systemReserved t) /\
  (exists pid : gmap string string, (pid = ∅ \/ pid = {[ "pid" := KubeReservedPIDs ]}) /\
     kb_KubeReserved c = reserved_overrides n ∪ (pid ∪ StringMap QuantityString (InstanceTypes.ty_kubeReserved t))) /\
  exists pid : gmap string string, (pid = ∅ \/ pid = {[ PIDAvailable := HardEvictionPIDAvailable ]}) /\
     kb_EvictionHard c = hard_overrides n ∪ (pid ∪ {[
       Resources.MemoryAvailable := QuantityString (Resources.resource_of (InstanceTypes.ty_eviction t) Resources.ResourceMemory);
       Resources.NodeFSAvailable := HardEvictionNodeFSAvailable; NodeFSInodesFree := HardEvictionNodeFSInodesFree ]}).
Proof using Type.
  unfold prepareKubeletConfiguration, reserved_overrides, hard_overrides. cbv zeta. intros P.
  destruct (Options.ShouldUseNodeHardening o).
  - destruct (range_keys _) as [|value vs]; [done|]. destruct (ParseInt value); [|done]. injection P as <-.
    unfold overlayKubeletConfiguration. destruct (Kubelet n); cbn [kb_MaxPods kb_SystemReserved kb_KubeReserved kb_EvictionHard kb_ClusterDNSServiceIP];
      (do 2 (split; [done|])); split; exists ∅; rewrite ?(left_id_L ∅ (∪)); (split; [by left|done]).
  - injection P as <-. unfold overlayKubeletConfiguration. destruct (Kubelet n); cbn [kb_MaxPods kb_SystemReserved kb_KubeReserved kb_EvictionHard kb_ClusterDNSServiceIP];
      (do 2 (split; [done|])); split; rewrite ?(left_id_L ∅ (∪)).
    all: rewrite ?(insert_union_singleton_l _ "pid"), ?(insert_union_singleton_l _ PIDAvailable); eexists; (split; [by right|by rewrite ?(left_id_L ∅ (∪))]).
Qed.

Lemma overrides_plain n r v :
  reserved_overrides n !! r = Some v -> (r = Resources.ResourceCPU \/ r = Resources.ResourceMemory) /\ free_of "," v = true.
Proof using Type.
  unfold reserved_overrides, InstanceTypes.KubeReservedOverrides. destruct (Kubelet n) as [k|]; [|by rewrite lookup_empty].
  destruct (KubeReservedOf k) as [[cpu mem]|]; [|by rewrite lookup_empty]. cbn [CPUMillicores MemoryMB].
  destruct mem as [m|], cpu as [x|]; rewrite ?lookup_insert_Some, ?lookup_singleton_Some, ?lookup_empty;
    [intros [[<- <-]|[_ [<- <-]]]|intros [[<- <-]|[_ L]]|intros [<- <-]|]; try done;
    rewrite ResourceIDs.free_of_app, free_of_pretty; split; auto.
Qed.

Lemma kube_reserved_lookup vcpus m maxPods h overrides r q :
  Resources.KubeReservedResources ParseQuantity vcpus m maxPods h overrides !! r = Some q ->
  (r = Resources.ResourceCPU \/ r = Resources.ResourceMemory) /\
  forall v, overrides !! r = Some v -> ParseQuantity v = Some q \/ ParseQuantity v = None.
Proof using Type.
  unfold Resources.KubeReservedResources. cbn [fold_left]. set (base := {[ _ := _; _ := _ ]}).
  assert (A : forall l name, Resources.apply_override ParseQuantity overrides l name =
    match overrides !! name ≫= ParseQuantity with Some q => <[name := q]> l | None => l end).
  { intros l name. unfold Resources.apply_override. by destruct (overrides !! name). }
  rewrite !A. intros L.
  assert (D : r = Resources.ResourceCPU \/ r = Resources.ResourceMemory).
  { revert L. unfold base. repeat case_match; rewrite ?lookup_insert_Some, ?lookup_singleton_Some;
      intros Cs; repeat match type of Cs with _ \/ _ => destruct Cs as [Cs|Cs] | _ /\ (_ /\ _) => destruct Cs as [_ Cs]
                         | _ <> _ /\ _ => destruct Cs as [_ Cs] | _ /\ _ => destruct Cs as [Cs _] end; subst; auto. }
  split; [exact D|]. intros v Ov. destruct (ParseQuantity v) as [q'|] eqn:P; [|by right]. left.
  destruct D as [-> | ->]; rewrite Ov in L; cbn [mbind option_bind] in L; rewrite P in L.
  - destruct (overrides !! Resources.ResourceMemory ≫= ParseQuantity); [rewrite lookup_insert_ne in L by done|];
      rewrite lookup_insert_eq in L; congruence.
  - rewrite lookup_insert_eq in L. congruence.
Qed.

Lemma system_reserved_keys m plugin h r q :
  Resources.SystemReservedResources m plugin h !! r = Some q ->
  r ∈ [Resources.ResourceCPU; Resources.ResourceMemory; Resources.ResourceEphemeralStorage].
Proof using Type.
  unfold Resources.SystemReservedResources. destruct (negb h);
    rewrite ?lookup_insert_Some, ?lookup_singleton_Some; intros Cs;
    repeat match type of Cs with _ \/ _ => destruct Cs as [Cs|Cs] | _ /\ (_ /\ _) => destruct Cs as [_ Cs]
           | _ <> _ /\ _ => destruct Cs as [_ Cs] | _ /\ _ => destruct Cs as [Cs _] end; subst; by apply (bool_decide_unpack _).
Qed.

(** The value of a flag, read as pairs. *)
Definition flag_pairs (separator : ascii) (flags : gmap string string) (name : string) : gmap string string :=
  read_pairs separator (default "" (flags !! name)).

Lemma flag_read minorVersion a c name separator m result :
  a_KubeletConfig a = Some c -> separator <> ","%char -> m <> ∅ -> plain_pairs separator m ->
  kubeletConfigToMap (Some c) !! name = JoinParameterArgsToMap result name m (String separator "") !! name ->
  flag_pairs separator (kubelet_flags minorVersion a) name = m.
Proof using Type.
  intros A Ns Ne Pl K. destruct (join_read separator m name result Ns Ne Pl) as (s & J & R). rewrite J in K.
  unfold flag_pairs, kubelet_flags. cbv zeta. rewrite A. rewrite (lookup_union_Some_l _ _ _ _ K). exact R.
Qed.

Lemma hard_keys n k v : hard_overrides n !! k = Some v ->
  k ∈ [Resources.MemoryAvailable; Resources.NodeFSAvailable; NodeFSInodesFree].
Proof using Type.
  unfold hard_overrides, evictionThresholdMap, set_if. intros L. destruct (Kubelet n) as [kb|]; [|by rewrite lookup_empty in L].
  destruct (EvictionHard kb) as [[a b c]|]; [|by rewrite lookup_empty in L]. cbn [MemoryAvailable NodeFsAvailable NodeFsInodesFree] in L.
  revert L. destruct a, b, c; rewrite ?lookup_insert_Some, ?lookup_empty; intros Cs;
    repeat match type of Cs with _ \/ _ => destruct Cs as [Cs|Cs]
           | _ <> _ /\ _ => destruct Cs as [_ Cs] | _ /\ _ => destruct Cs as [Cs _] end; subst; try done; by apply (bool_decide_unpack _).
Qed.

(** The taints the node registers with. *)
Lemma taints_flag minorVersion a t ts : a_Taints a = t :: ts ->
  kubelet_flags minorVersion a !! "--register-with-taints" = Some (GoString.Join (map ToString (t :: ts)) ",").
Proof using Type.
  intros T. unfold kubelet_flags. cbv zeta. rewrite T. rewrite lookup_union_r; [apply lookup_insert_eq|].
  destruct (a_KubeletConfig a) as [c|]; [|apply lookup_empty]. unfold kubeletConfigToMap. cbv zeta.
  assert (St : forall A (m : gmap string string) name (f : A -> string) v,
    name <> "--register-with-taints" -> m !! "--register-with-taints" = None -> set_if name v f m !! "--register-with-taints" = None)
    by (intros A m name f v N L; by rewrite set_if_ne).
  destruct (kb_ClusterDNSServiceIP c ==? ""); [|rewrite lookup_insert_ne by done];
    (destruct (AllowedUnsafeSysctls (kb_base c)); [|rewrite lookup_insert_ne by done]);
    (repeat (apply St; [done|]));
    (destruct (kb_EnforceNodeAllocatable c); [|case_match; rewrite ?lookup_insert_ne by done]);
    rewrite !join_ne by done; by apply lookup_singleton_ne.
Qed.

(** Both readings of a class's hard thresholds agree on memory. *)
Lemma hard_overrides_memory n :
  (match Kubelet n with Some k => InstanceTypes.evictionHardOverrides (EvictionHard k) | None => ∅ end) !! Resources.MemoryAvailable =
  hard_overrides n !! Resources.MemoryAvailable.
Proof using Type.
  unfold hard_overrides, InstanceTypes.evictionHardOverrides, evictionThresholdMap. destruct (Kubelet n) as [k|]; [|done].
  destruct (EvictionHard k) as [e|]; [|done]. rewrite !set_if_ne by done. unfold set_if, id.
  destruct (MemoryAvailable e), (NodeFsAvailable e); rewrite ?lookup_insert_eq, ?lookup_empty; try done;
    rewrite ?lookup_insert_ne, ?lookup_singleton_eq by done; done.
Qed.

Lemma plain_union separator (m1 m2 : gmap string string) :
  plain_pairs separator m1 -> plain_pairs separator m2 -> plain_pairs separator (m1 ∪ m2).
Proof using Type. intros P1 P2 k v [L|[_ L]]%lookup_union_Some_raw; [by apply P1|by apply P2]. Qed.
Lemma plain_singleton separator k v :
  free_of "," k && free_of separator k && free_of "," v = true -> plain_pairs separator {[ k := v ]}.
Proof using Type.
  intros P k' v' [<- <-]%lookup_singleton_Some. by apply andb_true_iff in P as [[? ?]%andb_true_iff ?].
Qed.
Lemma plain_empty separator : plain_pairs separator ∅.
Proof using Type. intros k v L. by rewrite lookup_empty in L. Qed.
(** The pids that may be reserved. *)
Lemma plain_pid separator (key value : string) (pid : gmap string string) :
  pid = ∅ \/ pid = {[ key := value ]} -> free_of "," key && free_of separator key && free_of "," value = true ->
  plain_pairs separator pid.
Proof using Type. intros [-> | ->] P; [apply plain_empty|by apply plain_singleton]. Qed.

Lemma kube_flag minorVersion a c n (pid : gmap string string) vcpus m maxPods h r q :
  let reserved := Resources.KubeReservedResources ParseQuantity vcpus m maxPods h (reserved_overrides n) in
  a_KubeletConfig a = Some c -> pid = ∅ \/ pid = {[ "pid" := KubeReservedPIDs ]} ->
  kb_KubeReserved c = reserved_overrides n ∪ (pid ∪ StringMap QuantityString reserved) ->
  (forall r x, reserved_overrides n !! r = Some x -> is_Some (ParseQuantity x)) ->
  reserved !! r = Some q ->
  exists x, flag_pairs "=" (kubelet_flags minorVersion a) "--kube-reserved" !! r = Some x /\ ParseQuantity x = Some q.
Proof.
  intros reserved A Pid Ku Po Q. pose proof Q as [D K]%kube_reserved_lookup.
  assert (L : exists x, kb_KubeReserved c !! r = Some x /\ ParseQuantity x = Some q).
  { rewrite Ku. destruct (reserved_overrides n !! r) as [x|] eqn:O.
    - exists x. split; [by apply lookup_union_Some_l|]. destruct (Po r x O) as [y Y]. destruct (K x eq_refl) as [K'|K']; congruence.
    - exists (QuantityString q). split; [|apply parse_string]. rewrite lookup_union_r by done.
      rewrite lookup_union_r by (destruct Pid as [-> | ->]; [done|]; apply lookup_singleton_ne; by destruct D as [-> | ->]).
      unfold StringMap. by rewrite lookup_fmap, Q. }
  destruct L as (x & L & P). exists x. split; [|done].
  rewrite (flag_read _ _ c _ "=" (kb_KubeReserved c)
    (JoinParameterArgsToMap {[ "--max-pods" := pretty (kb_MaxPods c) ]} "--system-reserved" (kb_SystemReserved c) "=")); try done.
  - intros E. by rewrite E, lookup_empty in L.
  - rewrite Ku. repeat apply plain_union.
    + intros k y [D' F]%overrides_plain. by destruct D' as [-> | ->].
    + by apply (plain_pid _ _ _ _ Pid).
    + intros k y. unfold StringMap. rewrite lookup_fmap. intros (q' & L' & ->)%fmap_Some.
      apply kube_reserved_lookup in L' as [[-> | ->] _]; by rewrite string_plain.
  - rewrite reserve_flag by (by apply (bool_decide_unpack _)). by rewrite join_ne.
Qed.

Lemma system_flag minorVersion a c m plugin h r q :
  a_KubeletConfig a = Some c ->
  kb_SystemReserved c = StringMap QuantityString (Resources.SystemReservedResources m plugin h) ->
  Resources.SystemReservedResources m plugin h !! r = Some q ->
  exists x, flag_pairs "=" (kubelet_flags minorVersion a) "--system-reserved" !! r = Some x /\ ParseQuantity x = Some q.
Proof.
  intros A Sy Q. assert (L : kb_SystemReserved c !! r = Some (QuantityString q)) by (rewrite Sy; unfold StringMap; by rewrite lookup_fmap, Q).
  exists (QuantityString q). split; [|apply parse_string].
  rewrite (flag_read _ _ c _ "=" (kb_SystemReserved c) {[ "--max-pods" := pretty (kb_MaxPods c) ]}); try done.
  - intros E. by rewrite E, lookup_empty in L.
  - rewrite Sy. intros k y. unfold StringMap. rewrite lookup_fmap. intros (q' & L' & ->)%fmap_Some.
    apply system_reserved_keys in L'. rewrite !elem_of_cons, elem_of_nil in L'. rewrite string_plain.
    by destruct L' as [-> |[-> |[-> |[]]]].
  - rewrite reserve_flag by (by apply (bool_decide_unpack _)). by rewrite 2!join_ne.
Qed.

Lemma hard_flag minorVersion a c n (pid : gmap string string) m capacity h :
  let eviction := Resources.EvictionThreshold ParseQuantity ParseFloat m capacity h
    (match Kubelet n with Some k => InstanceTypes.evictionHardOverrides (EvictionHard k) | None => ∅ end) in
  a_KubeletConfig a = Some c -> pid = ∅ \/ pid = {[ PIDAvailable := HardEvictionPIDAvailable ]} ->
  kb_EvictionHard c = hard_overrides n ∪ (pid ∪ {[
    Resources.MemoryAvailable := QuantityString (Resources.resource_of eviction Resources.ResourceMemory);
    Resources.NodeFSAvailable := HardEvictionNodeFSAvailable; NodeFSInodesFree := HardEvictionNodeFSInodesFree ]}) ->
  (forall r x, hard_overrides n !! r = Some x -> free_of "," x = true) ->
  exists x, flag_pairs "<" (kubelet_flags minorVersion a) "--eviction-hard" !! Resources.MemoryAvailable = Some x /\
    (HasSuffix x "%" = false -> forall q, ParseQuantity x = Some q -> eviction !! Resources.ResourceMemory = Some q).
Proof.
  intros eviction A Pid Ev Ph.
  assert (Me : eviction !! Resources.ResourceMemory = Some (Resources.resource_of eviction Resources.ResourceMemory)).
  { unfold Resources.resource_of. unfold eviction, Resources.EvictionThreshold. by rewrite lookup_insert_eq. }
  assert (L : exists x, kb_EvictionHard c !! Resources.MemoryAvailable = Some x /\
    (HasSuffix x "%" = false -> forall q, ParseQuantity x = Some q -> eviction !! Resources.ResourceMemory = Some q)).
  { rewrite Ev. destruct (hard_overrides n !! Resources.MemoryAvailable) as [x|] eqn:O.
    - exists x. split; [by apply lookup_union_Some_l|]. intros F q P. rewrite Me. f_equal. apply (inj Some). rewrite <- Me.
      unfold eviction, Resources.EvictionThreshold. rewrite lookup_insert_eq. f_equal. unfold Resources.memoryEvictionThreshold.
      rewrite (hard_overrides_memory n), O. by rewrite F, P.
    - eexists. split; [rewrite lookup_union_r by done; rewrite lookup_union_r; [by rewrite lookup_insert_eq|]|].
      + destruct Pid as [-> | ->]; [done|]. by apply lookup_singleton_ne.
      + intros _ q. rewrite parse_string, Me. congruence. }
  destruct L as (x & L & P). exists x. split; [|done].
  rewrite (flag_read _ _ c _ "<" (kb_EvictionHard c)
    (JoinParameterArgsToMap (JoinParameterArgsToMap {[ "--max-pods" := pretty (kb_MaxPods c) ]}
      "--system-reserved" (kb_SystemReserved c) "=") "--kube-reserved" (kb_KubeReserved c) "=")); try done.
  - intros E. by rewrite E, lookup_empty in L.
  - rewrite Ev. repeat apply plain_union.
    + intros k y O. pose proof (Ph _ _ O) as F. apply hard_keys in O. rewrite !elem_of_cons, elem_of_nil in O.
      rewrite F. by destruct O as [-> |[-> |[-> |[]]]].
    + by apply (plain_pid _ _ _ _ Pid).
    + intros k y. rewrite !lookup_insert_Some, lookup_singleton_Some.
      intros [[<- <-]|[_ [[<- <-]|[_ [<- <-]]]]]; rewrite ?string_plain; done.
  - by apply reserve_flag, (bool_decide_unpack _).
Qed.

Lemma pods_flag minorVersion a c : a_KubeletConfig a = Some c ->
  kubelet_flags minorVersion a !! "--max-pods" = Some (pretty (kb_MaxPods c)).
Proof using Type.
  intros A. unfold kubelet_flags. cbv zeta. rewrite A. apply lookup_union_Some_l.
  rewrite reserve_flag by (by apply (bool_decide_unpack _)). by rewrite !join_ne, lookup_singleton_eq.
Qed.

(** C21. A VM's kubelet reserves what the scheduler assumed: read off its flags,
    every resource the instance type reserves for Kubernetes and for the system
    is reserved in the same amount, the hard eviction threshold for memory is
    that of the type (a class that gives it as a percentage leaves the amount
    to the kubelet), and the pod limit is the type's capacity. *)
Theorem kubelet_reserves_assumed s v offs (cl : InstanceTypes.Class_) arch t c a minorVersion :
  let n := InstanceTypes.k_spec cl in
  let p := InstanceTypes.parameters o region cl in
  let flags := kubelet_flags minorVersion a in
  InstanceTypes.newInstanceType o region gpuSKUConfig ParseQuantity ParseFloat s v offs p arch = Some t ->
  prepareKubeletConfiguration QuantityString o t n = Some c -> a_KubeletConfig a = Some c ->
  (forall r x, reserved_overrides n !! r = Some x -> is_Some (ParseQuantity x)) ->
  (forall r x, hard_overrides n !! r = Some x -> free_of "," x = true) ->
  (forall r q, InstanceTypes.ty_kubeReserved t !! r = Some q ->
     exists x, flag_pairs "=" flags "--kube-reserved" !! r = Some x /\ ParseQuantity x = Some q) /\
  (forall r q, InstanceTypes.ty_systemReserved t !! r = Some q ->
     exists x, flag_pairs "=" flags "--system-reserved" !! r = Some x /\ ParseQuantity x = Some q) /\
  (exists x, flag_pairs "<" flags "--eviction-hard" !! Resources.MemoryAvailable = Some x /\
     (HasSuffix x "%" = false -> forall q, ParseQuantity x = Some q ->
      InstanceTypes.ty_eviction t !! Resources.ResourceMemory = Some q)) /\
  flags !! "--max-pods" = Some (pretty (kb_MaxPods c)) /\
  InstanceTypes.ty_capacity t !! Resources.ResourcePods = Some (Resources.NewQuantity (kb_MaxPods c)).
Proof.
  intros n p flags T P A Po Ph. apply prepare_fields in P as (Mp & Sy & (pid & Pid & Ku) & pid' & Pid' & Ev).
  unfold InstanceTypes.newInstanceType in T. destruct (InstanceTypes.sk_memory s) as [mem|]; [|done].
  destruct (InstanceTypes.VCPU s) as [vcpus|]; [|done]. injection T as <-.
  cbn [InstanceTypes.ty_kubeReserved InstanceTypes.ty_systemReserved InstanceTypes.ty_eviction InstanceTypes.ty_capacity] in *.
  split; [intros r q Q; exact (kube_flag _ a c n pid _ _ _ _ r q A Pid Ku Po Q)|].
  split; [intros r q Q; exact (system_flag _ a c _ _ _ r q A Sy Q)|].
  split; [exact (hard_flag _ a c n pid' _ _ _ A Pid' Ev Ph)|].
  split; [by apply pods_flag|].
  rewrite Mp. unfold InstanceTypes.computeCapacity. by simplify_map_eq.
Qed.

End Reserves.
(** A decimal text, or the one below. *)
Definition demo_text : string := "100m".
Definition demo_quantity (s : string) : option Resources.Quantity :=
  match s with
  | String "-" s' => Z.opp <$> parse_digits 0 s'
  | _ => match parse_digits 0 s with Some q => Some q | None => if s ==? demo_text then Some (Resources.NewMilliQuantity 100) else None end
  end.
Lemma demo_round q : demo_quantity (pretty q) = Some q.
Proof.
  destruct q as [|p|p]; [done| |].
  - change (pretty (Zpos p)) with (pretty_N_go (Npos p) ""). pose proof (parse_pretty_N (Npos p)) as Q.
    destruct (pretty_N_go (Npos p) "") as [|c s]; [done|]. unfold demo_quantity. rewrite Q.
    destruct (decide (c = "-"%char)) as [->|N]; [done|]. by destruct c as [[] [] [] [] [] [] [] []].
  - change (pretty (Zneg p)) with (String "-" (pretty_N_go (Npos p) "")). unfold demo_quantity. by rewrite parse_pretty_N.
Qed.

Definition demo_kubelet : AKSNodeClass :=
  let c := InstanceTypes.demo_spec None in
  mk_nodeclass (of_launch c) (ImageFamily c) None None None None None None (LocalDNSOf c) None None
    (Some (mk_kubelet None None 0 None None None [] None None None None (Some (mk_kube_reserved (Some 100) None))
      (Some (mk_eviction None None (Some "3%"))) None None None))
    (LocalDNSState c) None.
Definition demo_instance : option InstanceTypes.InstanceType :=
  InstanceTypes.newInstanceType Options.demo_options "westus2" ∅ demo_quantity (fun _ => None)
    (InstanceTypes.demo_size "Standard_D4s_v5" 4 16) (InstanceTypes.mk_vmsize "D" "Ds_v5" "v5" None None) []
    (InstanceTypes.parameters Options.demo_options "westus2" (InstanceTypes.mk_class demo_kubelet None)) "amd64".
Definition demo_config : option KubeletConfig :=
  t ← demo_instance; prepareKubeletConfiguration pretty Options.demo_options t demo_kubelet.

#[local] Existing Instance NodeVersions.triple_semver.
Definition demo_aks (c : KubeletConfig) : AKS :=
  mk_aks _ (Some c) [] ∅ (Some "ca") false "" "" "" false "/subscriptions/s/resourceGroups/rg/providers/Microsoft.Network/virtualNetworks/v/subnets/n"
    "amd64" "tenant" "s" "identity" "westus2" "mc_rg" "nsg" "rt" "api" "token" "azure" "cilium" "1.33.0".

Lemma kubelet_reserves_assumed_witness :
  exists t c, demo_instance = Some t /\ demo_config = Some c /\
    kb_KubeReserved c !! Resources.ResourceCPU = Some "100m" /\
    flag_pairs "=" (kubelet_flags 33 (demo_aks c)) "--kube-reserved" !! Resources.ResourceCPU = Some "100m" /\
    (forall q, InstanceTypes.ty_systemReserved t !! Resources.ResourceMemory = Some q ->
       exists x, flag_pairs "=" (kubelet_flags 33 (demo_aks c)) "--system-reserved" !! Resources.ResourceMemory = Some x /\
         demo_quantity x = Some q).
Proof.
  assert (T : exists t c, demo_instance = Some t /\ demo_config = Some c /\
    kb_KubeReserved c !! Resources.ResourceCPU = Some "100m" /\
    flag_pairs "=" (kubelet_flags 33 (demo_aks c)) "--kube-reserved" !! Resources.ResourceCPU = Some "100m").
  { do 2 eexists. repeat split; vm_compute; reflexivity. }
  destruct T as (t & c & T & C & K & F). exists t, c. do 4 (split; [done|]).
  destruct (kubelet_reserves_assumed pretty Options.demo_options "westus2" ∅ demo_quantity (fun _ => None) demo_round free_of_pretty
    (InstanceTypes.demo_size "Standard_D4s_v5" 4 16) (InstanceTypes.mk_vmsize "D" "Ds_v5" "v5" None None) []
    (InstanceTypes.mk_class demo_kubelet None) "amd64" t c (demo_aks c) 33) as (_ & Sy & _).
  - exact T.
  - unfold demo_config in C. rewrite T in C. exact C.
  - done.
  - intros r x L. destruct (overrides_plain _ _ _ L) as [[-> | ->] _]; vm_compute in L; [|done]. injection L as <-. by eexists.
  - intros r x L. pose proof (hard_keys _ _ _ L) as I. rewrite !elem_of_cons, elem_of_nil in I.
    destruct I as [-> |[-> |[-> |[]]]]; vm_compute in L; try done. by injection L as <-.
  - intros q. apply Sy.
Defined.

End Bootstrap.
