(* ===== verification/LaunchTemplate.v ===== *)
(** * Launch templates ([pkg/providers/launchtemplate], the resolver of
      [pkg/providers/imagefamily])

    What a VM is created with: the parameters known before its image is
    chosen, its labels among them, the image, disk and bootstrapper that are
    resolved, and the template.  The labels are shared with the machines of
    [MachineTemplate]. *)

From S2P Require Import Prelude GoString GoSort GoFloat Cloud Zones AKSMachine Conditions NodeVersions ResourceIDs OSDisk VirtualMachines Network VMInstance Options InPlaceUpdate Resources NodeClassSpec Wire InstanceTypes ImageFamily Labels MachineTemplate Bootstrap.
#[local] Open Scope string_scope.
#[local] Open Scope list_scope.
#[local] Open Scope Z_scope.

Module LaunchTemplate.
Import NodeClassSpec Labels.
Import NodeVersions(Semver, version, GetKubernetesVersion, not_ready).
Import MachineTemplate(Claim, cl_claim, cl_requirements, cl_taints, cl_startupTaints, scheduled_labels, label_omitted).

(** ** Data ([parameters/types.go]) *)

Record StaticParameters := mk_static {
  ClusterName : string; ClusterEndpoint : string; CABundle : option string; Arch : string; GPUNode : bool;
  GPUDriverVersion : string; GPUDriverType : string; GPUImageSHA : string; GPUDriverInstallationEnabled : bool;
  TenantID : string; SubscriptionID : string; KubeletIdentityClientID : string; Location : string; ResourceGroup : string;
  NetworkSecurityGroupName : string; RouteTableName : string; APIServerName : string;
  KubeletClientTLSBootstrapToken : string; NetworkPlugin : string; NetworkPolicy : string; KubernetesVersion : string;
  SubnetID : string; ClusterResourceGroup : string; Labels_ : gmap string string
}.

(** What the families give for either way of bootstrapping: a bootstrapper, or
    one that only fails. *)
Record Parameters `{Taints} := mk_parameters {
  pm_scriptless : result string Bootstrap.AKS; pm_customScripts : result string Bootstrap.ProvisionClientBootstrap;
  pm_imageID : string; pm_fips1403 : bool; pm_subnetID : string; pm_diskType : string; pm_isEphemeral : bool;
  pm_placement : string; pm_sizeGB : Z; pm_diskController : option string; pm_isWindows : bool
}.

(** The provider's settings; [p_NetworkPolicy] is an option of the operator. *)
Record Settings := mk_settings {
  p_caBundle : option string; p_clusterEndpoint : string; p_tenantID : string; p_subscriptionID : string;
  p_kubeletIdentityClientID : string; p_resourceGroup : string; p_clusterResourceGroup : string; p_location : string;
  p_provisionMode : string; p_NetworkPolicy : string
}.

Definition StorageProfileManagedDisks : string := "ManagedDisks".
Definition StorageProfileEphemeral : string := "Ephemeral".

Inductive template_error {E : Type} :=
| ErrLabels (e : labels_error)
| ErrSecurityGroup (e : SecurityGroup.nsg_error)
| ErrKubernetesVersion (e : not_ready)
| ErrKata (provisionMode : string)
| ErrImage (e : ImageFamily.image_error)
| ErrSKU (e : E)
| ErrBootstrap (e : string).
Arguments template_error : clear implicits.

(** ** The families' bootstrappers *)

(** What a family's nodes are bootstrapped as; [Err]: the family's
    bootstrappers fail. *)
Definition bootstrap_sku (f : ImageFamily.Family) : result string string :=
  match f with
  | ImageFamily.Ubuntu2004 => Ok Bootstrap.ImageFamilyOSSKUUbuntu2004
  | ImageFamily.Ubuntu2204 => Ok Bootstrap.ImageFamilyOSSKUUbuntu2204
  | ImageFamily.Ubuntu2404 => Ok Bootstrap.ImageFamilyOSSKUUbuntu2404
  | ImageFamily.AzureLinux => Ok Bootstrap.ImageFamilyOSSKUAzureLinux2
  | ImageFamily.AzureLinux3 => Ok Bootstrap.ImageFamilyOSSKUAzureLinux3
  | ImageFamily.AzureContainerLinux => Err "AzureContainerLinux requires an AKS Machine API provision mode"
  | ImageFamily.Windows2022 | ImageFamily.Windows2025 => Err "windows image family is only supported with aksmachineapi"
  end.

Section Families.
Context `{Taints}.

Definition ScriptlessCustomData (f : ImageFamily.Family) (s : StaticParameters) (kubeletConfig : option Bootstrap.KubeletConfig)
    (taints : list Taint) (labels : gmap string string) (caBundle : option string) : result string Bootstrap.AKS :=
  match bootstrap_sku f with
  | Err e => Err e
  | Ok _ => Ok (Bootstrap.mk_aks _ kubeletConfig taints labels caBundle (GPUNode s) (GPUDriverVersion s) (GPUDriverType s)
      (GPUImageSHA s) (GPUDriverInstallationEnabled s) (SubnetID s) (Arch s) (TenantID s) (SubscriptionID s)
      (KubeletIdentityClientID s) (Location s) (ResourceGroup s) (NetworkSecurityGroupName s) (RouteTableName s)
      (APIServerName s) (KubeletClientTLSBootstrapToken s) (NetworkPlugin s) (NetworkPolicy s) (KubernetesVersion s))
  end.

(** Ubuntu 20.04 has no LocalDNS. *)
Definition CustomScriptsNodeBootstrapping (f : ImageFamily.Family) (s : StaticParameters)
    (kubeletConfig : option Bootstrap.KubeletConfig) (taints startupTaints : list Taint) (labels : gmap string string)
    (t : InstanceTypes.InstanceType) (imageDistro storageProfile : string) (fipsMode workloadRuntime : option string)
    (localDNS : option LocalDNS) (artifactStreaming : option (option bool)) (linuxOSConfig : option LinuxOSConfiguration)
    (vtpmEnabled secureBootEnabled : option bool) : result string Bootstrap.ProvisionClientBootstrap :=
  match bootstrap_sku f with
  | Err e => Err e
  | Ok sku => Ok (Bootstrap.mk_provision _ kubeletConfig taints startupTaints labels (SubnetID s) (Arch s)
      (KubeletClientTLSBootstrapToken s) (KubernetesVersion s) imageDistro false t storageProfile sku
      (GPUDriverInstallationEnabled s) fipsMode workloadRuntime
      (match f with ImageFamily.Ubuntu2004 => None | _ => localDNS end) artifactStreaming linuxOSConfig
      vtpmEnabled secureBootEnabled)
  end.

End Families.

Definition getAgentbakerNetworkPlugin (o : Options.Options) : string :=
  if IsAzureCNIOverlay o || IsCiliumNodeSubnet o || IsNetworkPluginNone o then VMInstance.NetworkPluginNone
  else VMInstance.NetworkPluginAzure.

Section Launch.
Context `{Conditions.ConditionSet, !Semver, !ImageFamily.Scheduling, GoRange, GoSort, !Taints} {E : Type}.
Variable ParseTolerant : string -> option version.
Variable Version : Z -> Z -> version.
Variable gpuSKUConfig : gmap string (string * list string).
Variable QuantityString : Resources.Quantity -> string.
(** [url.Parse] and [Hostname] of a valid endpoint. *)
Variable Hostname : string -> string.
(** The instance type provider's [Get], and the cluster's security group. *)
Variable getSKU : string -> result E (option InstanceTypes.SKU).
Variable managedNSG : result SecurityGroup.nsg_error SecurityGroup.NSG.
Variable o : Options.Options.
Variable p : Settings.

Definition GetAPIServerName : string := Hostname (Options.ClusterEndpoint o).

Definition arch_of (t : InstanceTypes.InstanceType) : string :=
  if bool_decide (ArchitectureArm64 ∈ values (InstanceTypes.ty_requirements t) LabelArchStable) then ArchitectureArm64
  else ArchitectureAmd64.

Definition getStaticParameters (t : InstanceTypes.InstanceType) (n : AKSNodeClass) (nc : NodeVersions.NodeClass)
    (labels : gmap string string) : result (template_error E) StaticParameters :=
  let arch := arch_of t in
  let subnetID := match VNETSubnetID n with Some s => s | None => Options.SubnetID o end in
  match Get ParseTolerant Version o n nc arch (InstanceTypes.ty_requirements t) with
  | Err e => Err (ErrLabels e)
  | Ok baseLabels =>
      let labels := filter (fun kv : string * string => CanKubeletSetLabel kv.1 = true) (labels ∪ baseLabels) in
      match managedNSG with
      | Err e => Err (ErrSecurityGroup e)
      | Ok nsg =>
          let nsgName := from_ptr "" (SecurityGroup.nsg_name nsg) in
          let name := InstanceTypes.ty_name t in
          Ok {|
            ClusterName := Options.ClusterName o; ClusterEndpoint := p_clusterEndpoint p; CABundle := p_caBundle p; Arch := arch;
            GPUNode := IsNvidiaEnabledSKU gpuSKUConfig name; GPUDriverVersion := NodeClassSpec.GetGPUDriverVersion name;
            GPUDriverType := NodeClassSpec.GetGPUDriverType name; GPUImageSHA := GetAKSGPUImageSHA name;
            GPUDriverInstallationEnabled := IsGPUDriverInstallationEnabled n;
            TenantID := p_tenantID p; SubscriptionID := p_subscriptionID p;
            KubeletIdentityClientID := p_kubeletIdentityClientID p; Location := p_location p; ResourceGroup := p_resourceGroup p;
            NetworkSecurityGroupName := nsgName;
            RouteTableName := "aks-agentpool-" +:+ ResourceIDs.GetClusterIDFromNSGName nsgName +:+ "-routetable";
            APIServerName := GetAPIServerName; KubeletClientTLSBootstrapToken := Options.KubeletClientTLSBootstrapToken o;
            NetworkPlugin := getAgentbakerNetworkPlugin o; NetworkPolicy := p_NetworkPolicy p; KubernetesVersion := "";
            SubnetID := subnetID; ClusterResourceGroup := p_clusterResourceGroup p; Labels_ := labels |}
      end
  end.

Definition with_version (s : StaticParameters) (v : string) : StaticParameters :=
  mk_static (ClusterName s) (ClusterEndpoint s) (CABundle s) (Arch s) (GPUNode s) (GPUDriverVersion s) (GPUDriverType s)
    (GPUImageSHA s) (GPUDriverInstallationEnabled s) (TenantID s) (SubscriptionID s) (KubeletIdentityClientID s) (Location s)
    (ResourceGroup s) (NetworkSecurityGroupName s) (RouteTableName s) (APIServerName s) (KubeletClientTLSBootstrapToken s)
    (NetworkPlugin s) (NetworkPolicy s) v (SubnetID s) (ClusterResourceGroup s) (Labels_ s).

(** [None]: a panic. *)
Definition Resolve (n : AKSNodeClass) (nc : NodeVersions.NodeClass) (claim : Claim) (t : InstanceTypes.InstanceType)
    (s : StaticParameters) : option (result (template_error E) Parameters) :=
  match GetKubernetesVersion nc with
  | Err e => Some (Err (ErrKubernetesVersion e))
  | Ok kubernetesVersion =>
      if IsKataEnabled n && negb (SupportsWorkloadRuntime o) then Some (Err (ErrKata (Options.ProvisionMode o)))
      else
        let trustedLaunch := IsTrustedLaunchEnabled n in
        let imageFamily := ImageFamily.GetImageFamily ParseTolerant Version (ImageFamily n) (FIPSMode n) trustedLaunch
                             kubernetesVersion in
        match ImageFamily.ResolveNodeImageFromNodeClass n nc (InstanceTypes.ty_requirements t) with
        | Err e => Some (Err (ErrImage e))
        | Ok imageID =>
            match (match ImageID n with
                   | Some _ => Some (ImageFamily.mapCustomImageToDistro n nc imageFamily)
                   | None => ImageFamily.mapToImageDistro imageID (FIPSMode n) imageFamily (Options.UseSIG o) trustedLaunch
                               (IsKataEnabled n)
                   end) with
            | None => None
            | Some (Err e) => Some (Err (ErrImage e))
            | Some (Ok imageDistro) =>
                let '(generalTaints, startupTaints) := ExtractTaints (cl_taints claim) (cl_startupTaints claim) in
                match getSKU (InstanceTypes.ty_name t) with
                | Err e => Some (Err (ErrSKU e))
                | Ok sku =>
                    let osDiskProfile := OSDisk.ResolveOSDiskProfileFromSKU (InstanceTypes.sk_disk <$> sku) (OSDiskSizeGB n)
                                           (from_ptr "" (OSDiskType n)) trustedLaunch in
                    let ephemeral := match OSDisk.Type_ osDiskProfile with OSDisk.Ephemeral => true | OSDisk.Managed => false end in
                    let diskType := if ephemeral then StorageProfileEphemeral else StorageProfileManagedDisks in
                    let '(vtpmEnabled, secureBootEnabled) :=
                      match VirtualMachines.trusted_launch (class_of n) with
                      | Some l => (VirtualMachines.tl_vtpm l, VirtualMachines.tl_secureBoot l)
                      | None => (None, None)
                      end in
                    match Bootstrap.prepareKubeletConfiguration QuantityString o t n with
                    | None => None
                    | Some config => Some (Ok {|
                        pm_scriptless := ScriptlessCustomData imageFamily s (Some config) (generalTaints ++ startupTaints)
                          (Labels_ s) (CABundle s);
                        pm_customScripts := CustomScriptsNodeBootstrapping imageFamily s (Some config) generalTaints startupTaints
                          (Labels_ s) t imageDistro diskType (FIPSMode n) (WorkloadRuntime n)
                          (ResolveForWire n (InstanceTypes.ty_requirements t)) (ArtifactStreaming n) (LinuxOSConfig n)
                          vtpmEnabled secureBootEnabled;
                        pm_imageID := imageID; pm_fips1403 := ImageFamily.requiresFIPS1403Encryption imageDistro;
                        pm_subnetID := SubnetID s; pm_diskType := diskType; pm_isEphemeral := ephemeral;
                        pm_placement := (match OSDisk.Placement osDiskProfile with Some pl => OSDisk.placement_name pl | None => "" end);
                        pm_sizeGB := OSDisk.SizeGB osDiskProfile; pm_diskController := InstanceTypes.GetDiskControllerType sku;
                        pm_isWindows := false |})
                    end
                end
            end
        end
  end.

(** The two ways of bootstrapping: the script that is rendered here, and the
    custom data and extension command of the service. *)
Variable Script : Bootstrap.AKS -> option (result string string).
Variable GetCustomDataAndCSE : Bootstrap.ProvisionClientBootstrap -> option (result string (string * string)).

Definition createLaunchTemplate (params : Parameters) (tags : gmap string (option string)) :
    option (result (template_error E) VirtualMachines.Template) :=
  let template scriptless customData cse :=
    VirtualMachines.mk_template scriptless (pm_imageID params) (pm_fips1403 params) (pm_subnetID params) tags customData cse
      (pm_isWindows params) (pm_isEphemeral params) (pm_placement params) (pm_sizeGB params) (pm_diskController params) in
  if p_provisionMode p ==? VirtualMachines.ProvisionModeBootstrappingClient then
    match (match pm_customScripts params with Ok b => GetCustomDataAndCSE b | Err e => Some (Err e) end) with
    | None => None
    | Some (Err e) => Some (Err (ErrBootstrap e))
    | Some (Ok (customData, cse)) => Some (Ok (template "" customData cse))
    end
  else if p_provisionMode p ==? Options.ProvisionModeAKSScriptless then
    match (match pm_scriptless params with Ok b => Script b | Err e => Some (Err e) end) with
    | None => None
    | Some (Err e) => Some (Err (ErrBootstrap e))
    | Some (Ok userData) => Some (Ok (template userData "" ""))
    end
  else Some (Ok (template "" "" "")).

Definition GetTemplate (n : AKSNodeClass) (nc : NodeVersions.NodeClass) (classTags : gmap string string) (claim : Claim)
    (t : InstanceTypes.InstanceType) (additionalLabels : gmap string string) :
    option (result (template_error E) VirtualMachines.Template) :=
  match getStaticParameters t n nc (additionalLabels ∪ AKSMachine.nc_labels (cl_claim claim)) with
  | Err e => Some (Err e)
  | Ok s =>
      match GetKubernetesVersion nc with
      | Err e => Some (Err (ErrKubernetesVersion e))
      | Ok kubernetesVersion =>
          match Resolve n nc claim t (with_version s kubernetesVersion) with
          | None => None
          | Some (Err e) => Some (Err e)
          | Some (Ok params) =>
              createLaunchTemplate params (InPlaceUpdate.Tags o classTags (AKSMachine.nc_labels (cl_claim claim)))
          end
      end
  end.

(** [getLaunchTemplate] of the VM provider. *)
Definition additional_labels (claim : Claim) (t : InstanceTypes.InstanceType) (capacityType placementScope : string)
    (ultraSSD : bool) : gmap string string :=
  {[ AKSMachine.CapacityTypeLabelKey := capacityType; AKSMachine.LabelPlacementScope := placementScope;
     AKSMachine.LabelUltraSSD := if ultraSSD then "true" else "false" ]} ∪
  (GetAllSingleValuedRequirementLabels (InstanceTypes.ty_requirements t) ∪
   GetAllSingleValuedRequirementLabels (cl_requirements claim)).
Definition getLaunchTemplate (n : AKSNodeClass) (nc : NodeVersions.NodeClass) (classTags : gmap string string) (claim : Claim)
    (t : InstanceTypes.InstanceType) (capacityType placementScope : string) (ultraSSD : bool) :
    option (result (template_error E) VirtualMachines.Template) :=
  GetTemplate n nc classTags claim t (additional_labels claim t capacityType placementScope ultraSSD).

End Launch.

(** ** Labels *)

Lemma single_valued (reqs : Requirements) k x :
  GetAllSingleValuedRequirementLabels reqs !! k = Some x <-> reqs !! k = Some {[ x ]}.
Proof.
  unfold GetAllSingleValuedRequirementLabels, GetFilteredSingleValuedRequirementLabels. rewrite map_lookup_imap.
  destruct (reqs !! k) as [vs|]; cbn [mbind option_bind]; [|done]. split.
  - intros L. f_equal. destruct (elements vs) as [|v [|]] eqn:E; try done. injection L as ->. apply set_eq. intros y.
    by rewrite <- elem_of_elements, E, list_elem_of_singleton, elem_of_singleton.
  - intros [= ->]. by rewrite elements_singleton.
Qed.

(** What core ensures of a claim that it launches as a type: where a type has
    a requirement, the claim's label and its single required value meet it. *)
Definition fits_type `{Taints} (claim : Claim) (reqs : Requirements) : Prop :=
  (forall k x, AKSMachine.nc_labels (cl_claim claim) !! k = Some x -> admitted reqs k x) /\
  (forall k x, cl_requirements claim !! k = Some {[ x ]} -> admitted reqs k x).

Section Labels.
Context `{Conditions.ConditionSet, !Semver, !Taints} {E : Type}.
Variable ParseTolerant : string -> option version.
Variable Version : Z -> Z -> version.
Variable gpuSKUConfig : gmap string (string * list string).
Variable Hostname : string -> string.
Variable managedNSG : result SecurityGroup.nsg_error SecurityGroup.NSG.
Variable o : Options.Options.
Variable p : Settings.
Variable region : string.
Variable ParseQuantity : string -> option Resources.Quantity.
Variable ParseFloat : string -> option GoFloat.float64.

Lemma labels_of_vm claim t ct scope ultra :
  additional_labels claim t ct scope ultra ∪ AKSMachine.nc_labels (cl_claim claim) =
  scheduled_labels (AKSMachine.nc_labels (cl_claim claim)) (cl_requirements claim) (InstanceTypes.ty_requirements t) ct scope ultra.
Proof using Type. unfold additional_labels, scheduled_labels. by rewrite !(assoc_L (∪)). Qed.

Lemma static_labels t n nc claim ct scope ultra s :
  getStaticParameters (E := E) ParseTolerant Version gpuSKUConfig Hostname managedNSG o p t n nc
    (additional_labels claim t ct scope ultra ∪ AKSMachine.nc_labels (cl_claim claim)) = Ok s ->
  exists base, Get ParseTolerant Version o n nc (arch_of t) (InstanceTypes.ty_requirements t) = Ok base /\
    Labels_ s = filter (fun kv : string * string => CanKubeletSetLabel kv.1 = true)
      (scheduled_labels (AKSMachine.nc_labels (cl_claim claim)) (cl_requirements claim) (InstanceTypes.ty_requirements t)
         ct scope ultra ∪ base).
Proof using Type.
  unfold getStaticParameters. rewrite labels_of_vm. destruct (Get _ _ _ _ _ _ _) as [base|]; [|done].
  destruct managedNSG; [|done]. intros [= <-]. by exists base.
Qed.

Definition offering_labels (ct scope : string) (ultra : bool) : gmap string string :=
  {[ AKSMachine.CapacityTypeLabelKey := ct; AKSMachine.LabelPlacementScope := scope;
     AKSMachine.LabelUltraSSD := if ultra then "true" else "false" ]}.

Lemma scheduled_admitted claim reqs ct scope ultra k x :
  fits_type claim reqs ->
  (forall k x, offering_labels ct scope ultra !! k = Some x -> admitted reqs k x) ->
  scheduled_labels (AKSMachine.nc_labels (cl_claim claim)) (cl_requirements claim) reqs ct scope ultra !! k = Some x ->
  admitted reqs k x.
Proof using Type.
  intros [Fl Fr] Of L. unfold scheduled_labels in L.
  apply lookup_union_Some_raw in L as [L|[_ L]]; [by apply Of|].
  apply lookup_union_Some_raw in L as [L|[_ L]].
  { apply single_valued in L. unfold admitted. rewrite L. by apply elem_of_singleton. }
  apply lookup_union_Some_raw in L as [L|[_ L]]; [by apply Fr, single_valued|by apply Fl].
Qed.

Lemma scheduled_fixed claim reqs ct scope ultra k x :
  (forall k x, offering_labels ct scope ultra !! k = Some x -> admitted reqs k x) ->
  reqs !! k = Some {[ x ]} ->
  scheduled_labels (AKSMachine.nc_labels (cl_claim claim)) (cl_requirements claim) reqs ct scope ultra !! k = Some x.
Proof using Type.
  intros Of R. unfold scheduled_labels. fold (offering_labels ct scope ultra).
  destruct (offering_labels ct scope ultra !! k) as [y|] eqn:L.
  - rewrite (lookup_union_Some_l _ _ _ _ L). f_equal. apply Of in L. unfold admitted in L. rewrite R in L. set_solver.
  - rewrite lookup_union_r by done. apply lookup_union_Some_l. by apply single_valued.
Qed.

Lemma offering_admitted vcpus m s v arch (offs : list InstanceTypes.Offering) ip off (ultra : bool) :
  off ∈ offs -> Cloud.of_available (InstanceTypes.of_base off) = true ->
  (if ultra then "true" else "false") ∈ InstanceTypes.of_ultraSSD off ->
  forall k x, offering_labels (Cloud.of_capacity_type (InstanceTypes.of_base off)) (Cloud.of_scope (InstanceTypes.of_base off)) ultra !! k = Some x ->
  admitted (InstanceTypes.computeRequirements o region gpuSKUConfig vcpus m s v arch offs ip) k x.
Proof using Type.
  intros Ho Av Ul k x L. assert (I : off ∈ InstanceTypes.Available offs) by (unfold InstanceTypes.Available; rewrite list_elem_of_filter, Av; done).
  apply admitted_values. unfold offering_labels in L. rewrite !lookup_insert_Some, lookup_singleton_Some in L.
  destruct L as [[<- <-]|[_ [[<- <-]|[_ [<- <-]]]]].
  - rewrite InstanceTypes.values_capacity_type, elem_of_list_to_set, map_map. apply list_elem_of_fmap. by exists off.
  - rewrite InstanceTypes.values_scope, elem_of_list_to_set, map_map. apply list_elem_of_fmap. by exists off.
  - rewrite InstanceTypes.values_ultra, elem_of_list_to_set. apply list_elem_of_In, in_concat.
    exists (InstanceTypes.of_ultraSSD off). split; apply list_elem_of_In; [apply list_elem_of_fmap; by exists off|done].
Qed.

(** C22. A node never carries a label its instance type does not admit, and
    carries each one its type fixes: of the labels of a VM and of an AKS
    machine launched from an available offering of a type, those the type has
    a requirement on have a value it allows, the single value where there is
    one; only labels the kubelet may set are sent, none of AKS or the kubelet
    for a machine; and a VM gets every label a machine would. *)
Theorem node_labels_admitted s v offs (cl : InstanceTypes.Class_) nc arch t off (ultra : bool) claim params :
  let n := InstanceTypes.k_spec cl in
  let reqs := InstanceTypes.ty_requirements t in
  let ct := Cloud.of_capacity_type (InstanceTypes.of_base off) in
  let scope := Cloud.of_scope (InstanceTypes.of_base off) in
  let machine := (MachineTemplate.configureLabelsAndMode claim reqs ct scope ultra).1 in
  InstanceTypes.newInstanceType o region gpuSKUConfig ParseQuantity ParseFloat s v offs (InstanceTypes.parameters o region cl) arch = Some t ->
  off ∈ offs -> Cloud.of_available (InstanceTypes.of_base off) = true ->
  (if ultra then "true" else "false") ∈ InstanceTypes.of_ultraSSD off -> fits_type claim reqs ->
  getStaticParameters (E := E) ParseTolerant Version gpuSKUConfig Hostname managedNSG o p t n nc
    (additional_labels claim t ct scope ultra ∪ AKSMachine.nc_labels (cl_claim claim)) = Ok params ->
  (forall k x, Labels_ params !! k = Some x -> admitted reqs k x /\ CanKubeletSetLabel k = true) /\
  (forall k x, machine !! k = Some x ->
     IsAKSLabel k = false /\ IsLabelKubeletManaged k = false /\ Labels_ params !! k = Some x) /\
  (forall k x, reqs !! k = Some {[ x ]} ->
     (CanKubeletSetLabel k = true -> Labels_ params !! k = Some x) /\ (label_omitted k = false -> machine !! k = Some x)).
Proof.
  intros n reqs ct scope machine T Ho Av Ul Fit G. apply static_labels in G as (base & G & Lb).
  apply InstanceTypes.new_type_fields in T as (_ & _ & vcpus & m & _ & _ & Rq). fold reqs in Rq.
  assert (Of : forall k x, offering_labels ct scope ultra !! k = Some x -> admitted reqs k x).
  { rewrite Rq. by apply offering_admitted. }
  split; [|split].
  - intros k x L. rewrite Lb in L. apply map_lookup_filter_Some in L as [L C]. split; [|exact C].
    apply lookup_union_Some_raw in L as [L|[_ L]]; [by eapply scheduled_admitted|].
    fold reqs in G. rewrite Rq. by eapply get_admitted.
  - intros k x L. unfold machine, MachineTemplate.configureLabelsAndMode in L. cbn [fst] in L.
    apply map_lookup_filter_Some in L as [L M]. cbn [fst] in M. unfold label_omitted in M.
    apply orb_false_iff in M as [[A B]%orb_false_iff C%negb_false_iff]. do 2 (split; [done|]). rewrite Lb.
    apply map_lookup_filter_Some. split; [by apply lookup_union_Some_l|exact C].
  - intros k x R. pose proof (scheduled_fixed claim reqs ct scope ultra k x Of R) as L. split; intros C.
    + rewrite Lb. apply map_lookup_filter_Some. split; [by apply lookup_union_Some_l|exact C].
    + by apply map_lookup_filter_Some.
Qed.

End Labels.

(** ** Bootstrapping *)

(** The taints of the claim, and one that keeps pods off until the node is
    registered. *)
Definition registers_tainted `{Taints} (claim : Claim) (l : list Taint) : Prop :=
  (forall t, t ∈ cl_taints claim \/ t ∈ cl_startupTaints claim -> t ∈ l) /\
  exists t, t ∈ l /\ MatchTaint t UnregisteredNoExecuteTaint = true.

Lemma extract_tainted `{TaintsLaws} (claim : Claim) :
  let '(generalTaints, startupTaints) := ExtractTaints (cl_taints claim) (cl_startupTaints claim) in
  registers_tainted claim (generalTaints ++ startupTaints).
Proof.
  unfold ExtractTaints. destruct (List.find _ _) as [u|] eqn:F.
  - apply find_some in F as [I M]. split; [intros t; by rewrite elem_of_app|]. exists u. split; [by apply list_elem_of_In|done].
  - split; [intros t; rewrite !elem_of_app; tauto|]. exists UnregisteredNoExecuteTaint. split; [|apply match_itself].
    rewrite !elem_of_app, list_elem_of_singleton. auto.
Qed.

Section Bootstrapping.
Context `{Conditions.ConditionSet, !Semver, !ImageFamily.Scheduling, GoRange, GoSort, TaintsLaws} {E : Type}.
Variable ParseTolerant : string -> option version.
Variable Version : Z -> Z -> version.
Variable gpuSKUConfig : gmap string (string * list string).
Variable QuantityString : Resources.Quantity -> string.
Variable Hostname : string -> string.
Variable getSKU : string -> result E (option InstanceTypes.SKU).
Variable managedNSG : result SecurityGroup.nsg_error SecurityGroup.NSG.
Variable o : Options.Options.
Variable p : Settings.
Variable Script : Bootstrap.AKS -> option (result string string).
Variable GetCustomDataAndCSE : Bootstrap.ProvisionClientBootstrap -> option (result string (string * string)).
#[local] Abbreviation static := (getStaticParameters (E := E) ParseTolerant Version gpuSKUConfig Hostname managedNSG o p).

(** What a template is made from. *)
Lemma get_template_some n nc classTags claim t extra tpl :
  GetTemplate ParseTolerant Version gpuSKUConfig QuantityString Hostname getSKU managedNSG o p Script GetCustomDataAndCSE
    n nc classTags claim t extra = Some (Ok tpl) ->
  exists s kv params,
    static t n nc (extra ∪ AKSMachine.nc_labels (cl_claim claim)) = Ok s /\ GetKubernetesVersion nc = Ok kv /\
    Resolve ParseTolerant Version QuantityString getSKU o n nc claim t (with_version s kv) = Some (Ok params) /\
    createLaunchTemplate (E := E) p Script GetCustomDataAndCSE params
      (InPlaceUpdate.Tags o classTags (AKSMachine.nc_labels (cl_claim claim))) = Some (Ok tpl).
Proof using Type.
  unfold GetTemplate. destruct (static _ _ _ _) as [s|]; [|done]. destruct (GetKubernetesVersion nc) as [kv|] eqn:K; [|done].
  destruct (Resolve _ _ _ _ _ _ _ _ _ _) as [[params|]|] eqn:R; try done. intros C. by exists s, kv, params.
Qed.

Lemma resolve_some n nc claim t s kv params :
  GetKubernetesVersion nc = Ok kv -> Resolve ParseTolerant Version QuantityString getSKU o n nc claim t s = Some (Ok params) ->
  let f := ImageFamily.GetImageFamily ParseTolerant Version (ImageFamily n) (FIPSMode n) (IsTrustedLaunchEnabled n) kv in
  let '(generalTaints, startupTaints) := ExtractTaints (cl_taints claim) (cl_startupTaints claim) in
  (IsKataEnabled n = true -> SupportsWorkloadRuntime o = true) /\
  ImageFamily.ResolveNodeImageFromNodeClass n nc (InstanceTypes.ty_requirements t) = Ok (pm_imageID params) /\
  exists config distro vtpm secureBoot,
    Bootstrap.prepareKubeletConfiguration QuantityString o t n = Some config /\
    pm_scriptless params = ScriptlessCustomData f s (Some config) (generalTaints ++ startupTaints) (Labels_ s) (CABundle s) /\
    pm_customScripts params = CustomScriptsNodeBootstrapping f s (Some config) generalTaints startupTaints (Labels_ s) t distro
      (pm_diskType params) (FIPSMode n) (WorkloadRuntime n) (ResolveForWire n (InstanceTypes.ty_requirements t))
      (ArtifactStreaming n) (LinuxOSConfig n) vtpm secureBoot /\
    pm_fips1403 params = ImageFamily.requiresFIPS1403Encryption distro.
Proof using Type.
  intros K R. unfold Resolve in R. rewrite K in R.
  destruct (IsKataEnabled n && _) eqn:Ka; [done|].
  destruct (ImageFamily.ResolveNodeImageFromNodeClass _ _ _) as [imageID|]; [|done].
  destruct (match ImageID n with Some _ => _ | None => _ end) as [[distro|]|]; try done.
  destruct (ExtractTaints _ _) as [generalTaints startupTaints].
  destruct (getSKU _) as [sku|]; [|done]. cbv zeta in R.
  destruct (match VirtualMachines.trusted_launch _ with Some _ => _ | None => _ end) as [vtpm secureBoot].
  destruct (Bootstrap.prepareKubeletConfiguration _ _ _ _) as [config|]; [|done]. injection R as <-.
  split. { intros T. rewrite T in Ka. by destruct (SupportsWorkloadRuntime o). }
  split; [done|]. by exists config, distro, vtpm, secureBoot.
Qed.

Lemma labels_set t n nc extra s : static t n nc extra = Ok s -> Labels_ s <> ∅.
Proof using Type.
  unfold getStaticParameters. destruct (Get _ _ _ _ _ _ _) as [base|] eqn:G; [|done]. destruct managedNSG; [|done].
  intros [= <-] Em. cbn [Labels_] in Em. apply get_local_dns in G as [x G].
  destruct ((extra ∪ base) !! AKSLocalDNSStateLabelKey) as [y|] eqn:L; [|apply lookup_union_None in L as [_ L]; congruence].
  assert (F : filter (fun kv : string * string => CanKubeletSetLabel kv.1 = true) (extra ∪ base) !! AKSLocalDNSStateLabelKey = Some y)
    by (apply map_lookup_filter_Some; split; [done|by vm_compute]).
  by rewrite Em, lookup_empty in F.
Qed.

End Bootstrapping.

Section Modes.
Context `{Conditions.ConditionSet, !Semver, !ImageFamily.Scheduling, GoRange, GoSort, TaintsLaws} {E Quantity : Type}.
Variable ParseTolerant : string -> option version.
Variable Version : Z -> Z -> version.
Variable gpuSKUConfig : gmap string (string * list string).
Variable QuantityString : Resources.Quantity -> string.
Variable Hostname : string -> string.
Variable getSKU : string -> result E (option InstanceTypes.SKU).
Variable managedNSG : result SecurityGroup.nsg_error SecurityGroup.NSG.
Variable o : Options.Options.
Variable p : Settings.
Variable ParseQuantity : string -> option Quantity.
Variable AsApproximateFloat64 : Quantity -> GoFloat.float64.
Variable ApproximateFloat : Resources.Quantity -> GoFloat.float64.
Variable Ceil : GoFloat.float64 -> GoFloat.float64.
Variable render : Bootstrap.NodeBootstrapVariables -> result string string.
Variable EncodeToString : string -> string.
Variable NodeBootstrapping_Get : option (Bootstrap.ProvisionValues -> result string (string * string)).
Variable DecodeString : string -> result string string.
Variable replace_token : string -> string -> string.
#[local] Abbreviation custom_data := (Bootstrap.GetCustomDataAndCSE gpuSKUConfig ParseQuantity AsApproximateFloat64
  ApproximateFloat Ceil NodeBootstrapping_Get DecodeString EncodeToString replace_token o).

Lemma script_some a userData : Bootstrap.Script render EncodeToString a = Some (Ok userData) ->
  exists nbv script m, Bootstrap.applyOptions a = Some nbv /\ render nbv = Ok script /\ userData = EncodeToString script /\
    Bootstrap.KubeletNodeLabels nbv = Bootstrap.stringify_labels (Bootstrap.a_Labels a) /\
    Bootstrap.KubeletFlags nbv = Bootstrap.stringify_flags (Bootstrap.kubelet_flags m a).
Proof using Type.
  unfold Bootstrap.Script. destruct (Bootstrap.applyOptions a) as [nbv|] eqn:A; [|done].
  destruct (render nbv) as [script|] eqn:R; [|done]. intros [= <-]. pose proof A as A'. unfold Bootstrap.applyOptions in A'.
  destruct (Bootstrap.a_CABundle a); [|done]. destruct (Bootstrap.minor _) as [m|]; [|done]. injection A' as Eq.
  exists nbv, script, m. do 3 (split; [done|]). by rewrite <- Eq.
Qed.

Lemma custom_data_some b r : custom_data b = Some (Ok r) ->
  exists c values get answer, Bootstrap.b_KubeletConfig b = Some c /\ NodeBootstrapping_Get = Some get /\
    get values = Ok answer /\
    Bootstrap.hydrateBootstrapTokenIfNeeded DecodeString EncodeToString replace_token answer.1 answer.2
      (Bootstrap.b_KubeletClientTLSBootstrapToken b) = Ok r /\
    let v := Bootstrap.pv_Profile values in
    Bootstrap.pp_CustomNodeLabels v = Bootstrap.b_Labels b /\
    Bootstrap.pp_NodeTaints v = map ToString (Bootstrap.b_Taints b) /\
    Bootstrap.pp_NodeInitializationTaints v = map ToString (Bootstrap.b_StartupTaints b) /\
    Bootstrap.pp_MaxPods v = Bootstrap.kb_MaxPods c /\
    Bootstrap.pp_Kata v = (from_ptr "" (Bootstrap.b_WorkloadRuntime b) ==? WorkloadRuntimeKataVMIsolation).
Proof using Type.
  unfold Bootstrap.GetCustomDataAndCSE, Bootstrap.ConstructProvisionValues. destruct (Bootstrap.b_IsWindows b); [done|].
  destruct (Bootstrap.b_KubeletConfig b) as [c|]; [|done].
  destruct (if bool_decide _ then Ok Bootstrap.OSSKUUbuntu else _) as [sku|]; [|done].
  destruct NodeBootstrapping_Get as [get|]; [|done]. set (values := Bootstrap.mk_values _ _ _).
  destruct (get values) as [[cd cse]|] eqn:G; [|done]. intros [= Hy].
  by exists c, values, get, (cd, cse).
Qed.

Lemma kata_mode n : (from_ptr "" (WorkloadRuntime n) ==? WorkloadRuntimeKataVMIsolation) = IsKataEnabled n.
Proof using Type. unfold IsKataEnabled, GetWorkloadRuntime. by destruct (WorkloadRuntime n). Qed.

(** C17. A VM is bootstrapped as its claim and class ask: with the image that
    was resolved for its type; in scriptless mode the rendered script's kubelet
    registers the node with every taint of the claim and one that keeps pods
    off until Karpenter has seen the node, with the pod limit of the class,
    and with labels that read back as the ones computed for it; in the other
    mode the service is sent those taints, labels, pod limit and runtime; Kata
    never runs where it cannot be set up; and an AKS machine is given the same
    taints. *)
Theorem vm_bootstraps_as_asked n nc classTags claim t extra tpl s :
  GetTemplate ParseTolerant Version gpuSKUConfig QuantityString Hostname getSKU managedNSG o p
    (Bootstrap.Script render EncodeToString) custom_data n nc classTags claim t extra = Some (Ok tpl) ->
  getStaticParameters (E := E) ParseTolerant Version gpuSKUConfig Hostname managedNSG o p t n nc
    (extra ∪ AKSMachine.nc_labels (cl_claim claim)) = Ok s ->
  (IsKataEnabled n = true -> SupportsWorkloadRuntime o = true) /\
  ImageFamily.ResolveNodeImageFromNodeClass n nc (InstanceTypes.ty_requirements t) = Ok (VirtualMachines.lt_imageID tpl) /\
  (exists l, registers_tainted claim l /\
     (p_provisionMode p = Options.ProvisionModeAKSScriptless ->
        exists c nbv script flags, Bootstrap.prepareKubeletConfiguration QuantityString o t n = Some c /\
          render nbv = Ok script /\ VirtualMachines.lt_scriptlessCustomData tpl = EncodeToString script /\
          Bootstrap.KubeletFlags nbv = Bootstrap.stringify_flags flags /\
          flags !! "--register-with-taints" = Some (GoString.Join (map ToString l) ",") /\
          flags !! "--max-pods" = Some (pretty (Bootstrap.kb_MaxPods c)) /\
          (Bootstrap.plain_pairs "=" (Labels_ s) ->
           Bootstrap.read_pairs "=" (Bootstrap.KubeletNodeLabels nbv) = Labels_ s)) /\
     (p_provisionMode p = VirtualMachines.ProvisionModeBootstrappingClient ->
        exists c values get answer, Bootstrap.prepareKubeletConfiguration QuantityString o t n = Some c /\
          NodeBootstrapping_Get = Some get /\ get values = Ok answer /\
          Bootstrap.hydrateBootstrapTokenIfNeeded DecodeString EncodeToString replace_token answer.1 answer.2
            (Options.KubeletClientTLSBootstrapToken o) =
            Ok (VirtualMachines.lt_customScriptsCustomData tpl, VirtualMachines.lt_customScriptsCSE tpl) /\
          let v := Bootstrap.pv_Profile values in
          Bootstrap.pp_NodeTaints v ++ Bootstrap.pp_NodeInitializationTaints v = map ToString l /\
          Bootstrap.pp_CustomNodeLabels v = Labels_ s /\ Bootstrap.pp_MaxPods v = Bootstrap.kb_MaxPods c /\
          Bootstrap.pp_Kata v = IsKataEnabled n) /\
     forall x, x ∈ (MachineTemplate.configureTaints claim).1 <-> x ∈ map ToString l).
Proof.
  intros G St. pose proof (extract_tainted claim) as Ta. apply get_template_some in G as (s' & kv & params & St' & K & R & C).
  rewrite St in St'. injection St' as <-. apply (resolve_some _ _ _ _ _ _ _ _ _ _ _ _ K) in R. cbv zeta in R.
  unfold MachineTemplate.configureTaints. destruct (ExtractTaints _ _) as [general startup].
  destruct R as (Ka & Im & c & distro & vtpm & secureBoot & Pr & Sc & Cu & _). split; [exact Ka|].
  assert (Tk : KubeletClientTLSBootstrapToken s = Options.KubeletClientTLSBootstrapToken o).
  { unfold getStaticParameters in St. destruct (Get _ _ _ _ _ _ _); [|done]. destruct managedNSG; [|done]. by injection St as <-. }
  pose proof (labels_set _ _ _ _ _ _ _ _ _ _ _ _ St) as Ne. clear St.
  unfold createLaunchTemplate in C. rewrite Sc, Cu in C. unfold ScriptlessCustomData, CustomScriptsNodeBootstrapping in C.
  assert (Md : VirtualMachines.ProvisionModeBootstrappingClient <> Options.ProvisionModeAKSScriptless) by done.
  assert (Mt : forall x, x ∈ InstanceTypes.Uniq (map ToString (general ++ startup)) <-> x ∈ map ToString (general ++ startup))
    by (intros x; apply InstanceTypes.elem_of_Uniq).
  destruct (decide (p_provisionMode p = VirtualMachines.ProvisionModeBootstrappingClient)) as [M|M];
    [rewrite (bool_decide_eq_true_2 _ M) in C|rewrite (bool_decide_eq_false_2 _ M) in C].
  { destruct (bootstrap_sku _) as [sku|]; [|done]. destruct (custom_data _) as [[[cd cse]|]|] eqn:D; try done. injection C as <-.
    apply custom_data_some in D as (c' & values & get & answer & Kc & Ge & An & Hy & Lb & Nt & It & Mp & Ka').
    cbn in Kc, Hy, Lb, Nt, It, Ka'. injection Kc as <-. split; [exact Im|]. exists (general ++ startup). split; [exact Ta|].
    split; [congruence|]. split; [|exact Mt]. intros _. exists c, values, get, answer. rewrite <- Tk.
    do 4 (split; [done|]). cbv zeta. rewrite Nt, It, map_app. do 3 (split; [done|]). rewrite Ka'. apply kata_mode. }
  destruct (decide (p_provisionMode p = Options.ProvisionModeAKSScriptless)) as [M'|M'];
    [rewrite (bool_decide_eq_true_2 _ M') in C|rewrite (bool_decide_eq_false_2 _ M') in C].
  - destruct (bootstrap_sku _) as [sku|]; [|done]. destruct (Bootstrap.Script _ _ _) as [[userData|]|] eqn:D; try done.
    injection C as <-. apply script_some in D as (nbv & script & m & _ & Re & -> & Lb & Fl).
    split; [exact Im|]. exists (general ++ startup). split; [exact Ta|]. split; [|split; [congruence|exact Mt]].
    intros _. eexists c, nbv, script, _. do 3 (split; [done|]). split; [exact Fl|].
    destruct (general ++ startup) as [|t0 ts] eqn:Ap; [destruct Ta as [_ (u & I & _)]; by apply elem_of_nil in I|].
    split; [by apply Bootstrap.taints_flag|]. split; [by apply Bootstrap.pods_flag|]. intros Pl. rewrite Lb.
    by apply Bootstrap.pairs_read.
  - injection C as <-. split; [exact Im|]. exists (general ++ startup). split; [exact Ta|]. split; [congruence|]. split; [congruence|exact Mt].
Qed.

End Modes.

(** ** Witnesses *)

#[local] Existing Instance ImageFamily.value_scheduling.
#[local] Existing Instance NodeVersions.triple_semver.
#[local] Existing Instance Conditions.map_conditions.

Definition demo_offering : InstanceTypes.Offering :=
  InstanceTypes.mk_offering (Cloud.mk_offering CapacityTypeOnDemand "westus2-1" Zones.PlacementScopeZonal 1 true)
    PriorityRegular PriorityRegular ["false"].
Definition demo_class : InstanceTypes.Class_ := InstanceTypes.mk_class (ImageFamily.demo_spec "Ubuntu2204") None.
Definition demo_type : option InstanceTypes.InstanceType :=
  InstanceTypes.newInstanceType Options.demo_options "westus2" ∅ (fun _ => None) (fun _ => None)
    (InstanceTypes.demo_size "Standard_D4s_v5" 4 16) (InstanceTypes.mk_vmsize "D" "Ds_v5" "v5" None None) [demo_offering]
    (InstanceTypes.parameters Options.demo_options "westus2" demo_class) "x64".
Definition demo_settings (mode : string) : Settings :=
  mk_settings (Some "ca") "https://c.example.com" "tenant" "sub" "identity" "mc_rg" "rg" "westus2" mode "cilium".
Definition demo_nsg : result SecurityGroup.nsg_error SecurityGroup.NSG :=
  Ok (SecurityGroup.mk_nsg (Some "id") (Some "aks-agentpool-46593302-nsg")).
Definition demo_labels (t : InstanceTypes.InstanceType) : result (template_error string) StaticParameters :=
  getStaticParameters ImageFamily.demo_parse ImageFamily.demo_version ∅ (fun e => e) demo_nsg Options.demo_options
    (demo_settings Options.ProvisionModeAKSScriptless) t (InstanceTypes.k_spec demo_class) MachineTemplate.demo_versions
    (additional_labels MachineTemplate.demo_claim t CapacityTypeOnDemand Zones.PlacementScopeZonal false ∪
     AKSMachine.nc_labels (cl_claim MachineTemplate.demo_claim)).

Lemma node_labels_admitted_witness :
  exists t s, demo_type = Some t /\ demo_labels t = Ok s /\ Labels_ s !! LabelSKUCPU = Some "4" /\
    Labels_ s !! "team" = Some "a" /\
    (forall k x, Labels_ s !! k = Some x -> admitted (InstanceTypes.ty_requirements t) k x /\ CanKubeletSetLabel k = true).
Proof.
  assert (T : exists t s, demo_type = Some t /\ demo_labels t = Ok s /\ Labels_ s !! LabelSKUCPU = Some "4" /\
    Labels_ s !! "team" = Some "a" /\
    InstanceTypes.ty_requirements t !! "team" = None /\ InstanceTypes.ty_requirements t !! AKSMachine.NodePoolLabelKey = None).
  { do 2 eexists. repeat split; vm_compute; reflexivity. }
  destruct T as (t & s & T & L & C & U & R1 & R2). exists t, s. do 4 (split; [done|]).
  refine (proj1 (node_labels_admitted (E := string) ImageFamily.demo_parse ImageFamily.demo_version ∅ (fun e => e) demo_nsg
    Options.demo_options (demo_settings Options.ProvisionModeAKSScriptless) "westus2" (fun _ => None) (fun _ => None)
    (InstanceTypes.demo_size "Standard_D4s_v5" 4 16) (InstanceTypes.mk_vmsize "D" "Ds_v5" "v5" None None) [demo_offering]
    demo_class MachineTemplate.demo_versions "x64" t demo_offering false MachineTemplate.demo_claim s T _ eq_refl _ _ L)).
  - apply list_elem_of_here.
  - apply list_elem_of_here.
  - split; intros k x K.
    + change (({[ AKSMachine.NodePoolLabelKey := "np"; "team" := "a" ]} : gmap string string) !! k = Some x) in K.
      unfold admitted. apply lookup_insert_Some in K as [[<- _]|[_ K]]; [by rewrite R2|].
      apply lookup_singleton_Some in K as [<- _]. by rewrite R1.
    + change ((∅ : Requirements) !! k = Some {[ x ]}) in K. by rewrite lookup_empty in K.
Defined.

Definition demo_template (t : InstanceTypes.InstanceType) : option (result (template_error string) VirtualMachines.Template) :=
  getLaunchTemplate ImageFamily.demo_parse ImageFamily.demo_version ∅ pretty (fun e => e)
    (fun _ => Ok (Some (InstanceTypes.demo_size "Standard_D4s_v5" 4 16))) demo_nsg Options.demo_options
    (demo_settings Options.ProvisionModeAKSScriptless) (Bootstrap.Script (fun v => Ok (Bootstrap.KubeletFlags v)) (fun s => s))
    (Bootstrap.GetCustomDataAndCSE (Quantity := Z) ∅ (fun _ => None) (fun _ => GoFloat.of_int 0) (fun _ => GoFloat.of_int 0) (fun x => x)
       None (fun s => Ok s) (fun s => s) (fun _ s => s) Options.demo_options)
    (InstanceTypes.k_spec demo_class) MachineTemplate.demo_versions ∅ MachineTemplate.demo_claim t
    CapacityTypeOnDemand Zones.PlacementScopeZonal false.

Lemma demo_runs :
  exists t tpl s, demo_type = Some t /\ demo_template t = Some (Ok tpl) /\ demo_labels t = Ok s /\
    VirtualMachines.lt_imageID tpl = MachineTemplate.demo_image.
Proof.
  assert (R : match demo_type with
    | Some t => match demo_template t, demo_labels t with
                | Some (Ok tpl), Ok _ => VirtualMachines.lt_imageID tpl ==? MachineTemplate.demo_image
                | _, _ => false
                end
    | None => false end = true) by (vm_compute; reflexivity).
  destruct demo_type as [t|]; [|done]. destruct (demo_template t) as [[tpl|]|] eqn:G; try done.
  destruct (demo_labels t) as [s|] eqn:L; [|done]. apply bool_decide_eq_true in R. by exists t, tpl, s.
Qed.
Lemma vm_bootstraps_as_asked_witness :
  exists t tpl s, demo_type = Some t /\ demo_template t = Some (Ok tpl) /\ demo_labels t = Ok s /\
    VirtualMachines.lt_imageID tpl = MachineTemplate.demo_image /\
    exists l : list string, ("dedicated:NoSchedule" ∈ l) /\ (exists u, u ∈ l /\ MatchTaint u UnregisteredNoExecuteTaint = true) /\
      exists nbv : Bootstrap.NodeBootstrapVariables,
        VirtualMachines.lt_scriptlessCustomData tpl = Bootstrap.KubeletFlags nbv /\
        (Bootstrap.plain_pairs "=" (Labels_ s) -> Bootstrap.read_pairs "=" (Bootstrap.KubeletNodeLabels nbv) = Labels_ s).
Proof.
  destruct demo_runs as (t & tpl & s & T & G & L & I). exists t, tpl, s. do 4 (split; [done|]).
  destruct (vm_bootstraps_as_asked (Quantity := Z) (E := string) ImageFamily.demo_parse ImageFamily.demo_version ∅ pretty (fun e => e)
    (fun _ => Ok (Some (InstanceTypes.demo_size "Standard_D4s_v5" 4 16))) demo_nsg Options.demo_options
    (demo_settings Options.ProvisionModeAKSScriptless) (fun _ => None) (fun _ => GoFloat.of_int 0) (fun _ => GoFloat.of_int 0)
    (fun x => x) (fun v => Ok (Bootstrap.KubeletFlags v)) (fun s => s) None (fun s => Ok s) (fun _ s => s)
    (InstanceTypes.k_spec demo_class) MachineTemplate.demo_versions ∅ MachineTemplate.demo_claim t
    (additional_labels MachineTemplate.demo_claim t CapacityTypeOnDemand Zones.PlacementScopeZonal false) tpl s G L)
    as (_ & _ & l & (Ta & Un) & Sc & _).
  exists l. split; [apply Ta; left; apply list_elem_of_here|]. split; [exact Un|].
  destruct (Sc eq_refl) as (c & nbv & script & flags & _ & Re & Da & _ & _ & _ & Lb). exists nbv. split; [|exact Lb].
  rewrite Da. by injection Re as ->.
Defined.

End LaunchTemplate.
