(* ===== verification/MachineProvider.v ===== *)
(** * The AKS machine provider ([pkg/providers/instance/aksmachineinstance.go])

    Launching an AKS machine, in a batch or alone, adopting the one of an
    earlier attempt, cleaning up after a failure, waiting for it, listing,
    updating and deleting machines.  The calls to Azure, to the machine cache
    and to the launch error handlers are requests of [Effects]; those the VM
    provider makes too (allocation, sizes, quota, deletions in flight) are
    [VMInstance]'s. *)

From S2P Require Import Prelude GoString GoFloat Effects Cloud Conditions Zones ErrorHandlers Allocation AKSMachine NodeVersions OSDisk VirtualMachines VMInstance Options NodeClassSpec InstanceTypes ImageFamily Labels InPlaceUpdate MachineTemplate.
#[local] Open Scope string_scope.
#[local] Open Scope list_scope.
#[local] Open Scope Z_scope.

Module MachineProvider.
Import NodeClassSpec AKSMachine.
Import NodeVersions(Semver, version).
Import ErrorHandlers(HandlableError, go_error, ErrorToHandlableError, GetInstanceTypeFromVMSize).
Import VMInstance(quotaMetadata, qm_eligible, no_metadata, GetSKU, SnapshotGeneration, RecordCreate, RecordDelete, AllocateOffering, Deleting, SetDeleting, UnsetDeleting).

(** ** Data *)

(** The provider's settings, with the option it reads. *)
Record Settings := mk_settings {
  p_poolName : string; p_location : string; p_batchCreationEnabled : bool; p_ManageExistingAKSMachines : bool
}.

(** What is read of an existing machine's network block. *)
Record Network := mk_existing_network {
  nw_EnableNodePublicIP : option bool; nw_PrefixID : option string; nw_IPTags : list (option string)
}.

(** The machine of a request: a template, or one that was read and changed. *)
Inductive body := Templated (t : MachineTemplate.Template) | Existing (m : Machine).

Definition shouldAKSMachinesBeVisible (o : Options.Options) (s : Settings) : bool :=
  Options.IsAKSMachineAPIMode o || p_ManageExistingAKSMachines s.

(** Core's [Compatible] on one required value: the label has a requirement
    that allows it. *)
Definition resolveUltraSSDRequested (requirements : Requirements) : bool :=
  bool_decide ("true" ∈ values requirements LabelUltraSSD) && negb (bool_decide ("false" ∈ values requirements LabelUltraSSD)).

Definition validateCapacityReservationGroupAssociation (actual desired : string) : option string :=
  if negb (EqualFold actual desired) then Some "capacity reservation group" else None.

(** How a promise waits: for the cache's poller, for the SDK's, not at all. *)
Inductive waiting := WaitCache | WaitSDK | WaitNothing.

Record AKSMachinePromise := mk_promise {
  pm_wait : waiting; pm_machine : body; pm_name : string; pm_type : InstanceType; pm_capacityType : string; pm_zone : string;
  pm_id : string; pm_nodeImageVersion : string; pm_vmResourceID : string; pm_creationTimestamp : Z;
  pm_createIssued : bool; pm_claim : string; pm_metadata : quotaMetadata
}.

(** The accounting of a launch, kept for undoing it. *)
Definition with_quota (p : AKSMachinePromise) (claim : string) (m : quotaMetadata) : AKSMachinePromise :=
  mk_promise (pm_wait p) (pm_machine p) (pm_name p) (pm_type p) (pm_capacityType p) (pm_zone p) (pm_id p) (pm_nodeImageVersion p)
    (pm_vmResourceID p) (pm_creationTimestamp p) (pm_createIssued p) claim m.

Section Provider.
Context `{Conditions.ConditionSet, !Semver, !ImageFamily.Scheduling, GoRange, !Labels.Taints}.
(** Errors of Azure, and of the launch error handlers. *)
Context {E Handled : Type} {Quantity : Type}.

(** ** Calls *)

(** The answer of a poller that may panic. *)
Inductive polled (A : Type) := Polled (a : A) | PollPanicked.
Arguments Polled {A} a.
Arguments PollPanicked {A}.

Inductive req :=
| Shared (q : VMInstance.req (E := E))
| GetMachine (name : string) (useCache : bool)
| ListMachines (useCache expandVMState : bool)
| InvalidateMachine (name : string)
| BeginCreateBatch (name : string) (t : MachineTemplate.Template)
| BeginCreateOrUpdate (name : string) (b : body) (etag : option string)
| PollCreate (name : string)
| PollMachine (name : string)
| BeginDeleteMachines (name : string)
| PollDeleteMachines (name : string)
| HandleProvisioning (sku : Cloud.SKU) (t : InstanceType) (zone capacityType crg : string) (d : ErrorDetail)
| HandleBeginCreate (sku : Cloud.SKU) (t : InstanceType) (zone capacityType crg : string) (he : HandlableError).

Definition resp (q : req) : Type :=
  match q with
  | Shared q => VMInstance.resp (H := Handled) q
  | GetMachine _ _ => result E Machine
  | ListMachines _ _ => result E (list Machine)
  | InvalidateMachine _ => unit
  | BeginCreateBatch _ _ => result E (option HandlableError)
  | BeginCreateOrUpdate _ _ _ | BeginDeleteMachines _ | PollDeleteMachines _ => result E unit
  | PollCreate _ => polled (result E unit)
  | PollMachine _ => polled (result E (option ErrorDetail))
  | HandleProvisioning _ _ _ _ _ _ | HandleBeginCreate _ _ _ _ _ _ => option Handled
  end.
#[local] Abbreviation io := (io resp).

Definition shared {A} (m : Effects.io (VMInstance.resp (E := E) (H := Handled)) A) : io A :=
  lift (resp' := resp) Shared (fun _ r => r) m.

(** ** Outcomes *)

Inductive error :=
| ErrName (e : string)
| ErrTemplate (e : MachineTemplate.template_error E)
| ErrNoCapacity
| ErrAzure (what : string) (e : E)
| ErrSKU (e : E)
| ErrHandled (h : Handled)
| ErrUnhandledBegin (he : HandlableError)
| ErrUnhandledProvisioning (d : option ErrorDetail)
| ErrMachine (what : string)
| ErrZone (e : Zones.zone_error)
| ErrPanicked.
Inductive outcome (A : Type) := Done (a : A) | Failed (e : error) | Panicked.
Arguments Done {A} a.
Arguments Failed {A} e.
Arguments Panicked {A}.
Definition then_ {A B} (m : io (outcome A)) (k : A -> io (outcome B)) : io (outcome B) :=
  o ← m; match o with Done a => k a | Failed e => mret (Failed e) | Panicked => mret Panicked end.
#[local] Notation "x <- m ;; k" := (then_ m (fun x => k)) (at level 100, m at next level, right associativity).

Variable o : Options.Options.
Variable settings : Settings.
(** What the recognisers see of an Azure error. *)
Variable call_error : E -> CallError.
Variable response_error : E -> go_error.
(** Fields of the SDK's records that are not kept apart. *)
Variable Details : ErrorDetail -> list (option ErrorDetail).
Variable network : Properties -> option Network.
Variable Hash : string -> result string Z.
(** The instance type that allocation sees as this one. *)
Variable full_type : InstanceType -> InstanceTypes.InstanceType.
(** What building the template relies on. *)
Variable ParseTolerant : string -> option version.
Variable Version : Z -> Z -> version.
Variable gpuSKUConfig : gmap string (string * list string).
Variable ParseFloat : string -> option VirtualMachines.float64.
Variable ParseQuantity : string -> option Quantity.
Variable AsApproximateFloat64 : Quantity -> GoFloat.float64.
Variable UnmarshalString : string -> option string.
Variable getSKU : string -> result E (option OSDisk.SKU).

Definition not_found (e : E) : bool := IsAKSMachineOrMachinesPoolNotFound (Some (call_error e)).

(** ** Deleting *)

Definition deleteMachine (aksMachineName : string) : io (option E) :=
  _ ← call (Shared (SetDeleting aksMachineName));
  b ← call (BeginDeleteMachines aksMachineName);
  r ← match b with
      | Err e => mret (Some e)
      | Ok _ =>
          p ← call (PollDeleteMachines aksMachineName);
          match p with
          | Err e => mret (Some e)
          | Ok _ => _ ← call (InvalidateMachine aksMachineName); mret None
          end
      end;
  _ ← call (Shared (UnsetDeleting aksMachineName));
  mret r.

(** What [Get], [Update] and [Delete] report. *)
Inductive provider_error := NodeClaimNotFound (e : option E) | ProviderError (e : E).

Definition Get (aksMachineName : string) (useCache : bool) : io (result provider_error Machine) :=
  if negb (shouldAKSMachinesBeVisible o settings) || (p_poolName settings ==? "") then mret (Err (NodeClaimNotFound None))
  else
    m ← call (GetMachine aksMachineName useCache);
    mret (match m with
          | Ok m => Ok m
          | Err e => Err (if not_found e then NodeClaimNotFound (Some e) else ProviderError e)
          end).

Definition List_ (useCache expandMachineVMState : bool) : io (result E (list Machine)) :=
  if negb (shouldAKSMachinesBeVisible o settings) || (p_poolName settings ==? "") then mret (Ok [])
  else call (ListMachines (useCache && negb expandMachineVMState) expandMachineVMState).

Definition deleteImpl (aksMachineName : string) : io (bool * option provider_error) :=
  if negb (shouldAKSMachinesBeVisible o settings) then mret (true, Some (NodeClaimNotFound None))
  else
    deleting ← call (Shared (Deleting aksMachineName));
    if deleting : bool then mret (false, None)
    else
      m ← Get aksMachineName false;
      match m with
      | Err e => mret (match e with NodeClaimNotFound _ => true | ProviderError _ => false end, Some e)
      | Ok m =>
          if isAKSMachineDeleting (Some m) then mret (false, None)
          else
            e ← deleteMachine aksMachineName;
            mret (match e with
                  | None => (true, None)
                  | Some e => if not_found e then (true, Some (NodeClaimNotFound (Some e))) else (false, Some (ProviderError e))
                  end)
      end.

Definition Delete (claim : VMInstance.Claim) (aksMachineName : string) : io (option provider_error) :=
  d ← deleteImpl aksMachineName;
  _ ← (if d.1 : bool then shared (VMInstance.recordDeleteFromNodeClaim claim) else mret tt);
  mret d.2.

Definition Cleanup (p : AKSMachinePromise) : io (option provider_error) :=
  d ← deleteImpl (pm_name p);
  _ ← (if d.1 : bool then shared (VMInstance.recordDelete (pm_claim p) (pm_metadata p)) else mret tt);
  mret d.2.

(** [None]: the poller panicked. *)
Definition Update (aksMachineName : string) (m : Machine) (etag : option string) : io (option (option provider_error)) :=
  if negb (shouldAKSMachinesBeVisible o settings) then mret (Some (Some (NodeClaimNotFound None)))
  else
    b ← call (BeginCreateOrUpdate aksMachineName (Existing m) etag);
    match b with
    | Err e => mret (Some (Some (if not_found e then NodeClaimNotFound (Some e) else ProviderError e)))
    | Ok _ =>
        p ← call (PollCreate aksMachineName);
        match p with
        | Polled (Ok _) => _ ← call (InvalidateMachine aksMachineName); mret (Some None)
        | Polled (Err e) => mret (Some (Some (ProviderError e)))
        | PollPanicked => mret None
        end
    end.

(** ** Handling errors *)

Definition handleMachineProvisioningError (t : InstanceType) (zone capacityType crg : string)
    (provisioningError : option ErrorDetail) : io error :=
  match provisioningError with
  | None => mret (ErrUnhandledProvisioning None)
  | Some d =>
      let innerError := match head (Details d) with Some (Some inner) => inner | _ => d end in
      sku ← call (Shared (GetSKU (it_name t)));
      match sku with
      | Err e => mret (ErrSKU e)
      | Ok sku =>
          h ← call (HandleProvisioning sku t zone capacityType crg innerError);
          mret (match h with Some h => ErrHandled h | None => ErrUnhandledProvisioning (Some innerError) end)
      end
  end.
Definition handleMachineBeginCreateError (t : InstanceType) (zone capacityType crg : string) (he : HandlableError) : io error :=
  sku ← call (Shared (GetSKU (it_name t)));
  match sku with
  | Err e => mret (ErrSKU e)
  | Ok sku =>
      h ← call (HandleBeginCreate sku t zone capacityType crg he);
      mret (match h with Some h => ErrHandled h | None => ErrUnhandledBegin he end)
  end.
Definition failing {A} (m : io error) : io (outcome A) := e ← m; mret (Failed e).

Definition provisioning_error (p : Properties) : option ErrorDetail :=
  match pr_status p with Some s => st_provisioningError s | None => None end.
(** A machine whose provisioning has failed already. *)
Definition early_failure (t : InstanceType) (zone capacityType crg : string) (p : Properties) : io (outcome unit) :=
  if from_ptr "" (pr_state p) ==? ProvisioningStateFailed then
    match provisioning_error p with
    | None => mret (Failed (ErrMachine "Failed state but ProvisioningError is nil"))
    | Some d => failing (handleMachineProvisioningError t zone capacityType crg (Some d))
    end
  else mret (Done tt).

Definition getCreatedMachineAndHandleEarlyProvisioningError (aksMachineName : string) (t : InstanceType)
    (zone capacityType crg : string) : io (outcome Machine) :=
  m ← call (GetMachine aksMachineName false);
  match m with
  | Err e => mret (Failed (ErrAzure "get once after begin creation" e))
  | Ok m =>
      match validateRetrievedAKSMachineBasicProperties m, ma_properties m with
      | Some what, _ => mret (Failed (ErrMachine what))
      | None, None => mret Panicked
      | None, Some p => _ <- early_failure t zone capacityType crg p;; mret (Done m)
      end
  end.

(** ** Creating *)

Definition creation_timestamp (p : Properties) : Z :=
  match pr_status p with Some s => from_ptr 0 (st_creationTimestamp s) | None => 0 end.
Definition promise (wait : waiting) (b : body) (aksMachineName : string) (t : InstanceType) (capacityType zone : string)
    (m : Machine) (createIssued : bool) : outcome AKSMachinePromise :=
  match ma_properties m with
  | None => Panicked
  | Some p => Done (mk_promise wait b aksMachineName t capacityType zone (from_ptr "" (ma_id m)) (from_ptr "" (pr_nodeImageVersion p))
                     (from_ptr "" (pr_resourceID p)) (creation_timestamp p) createIssued "" no_metadata)
  end.

Definition beginCreateMachineBatch (template : MachineTemplate.Template) (aksMachineName : string) (t : InstanceType)
    (capacityType zone crg : string) : io (outcome AKSMachinePromise) :=
  b ← call (BeginCreateBatch aksMachineName template);
  match b with
  | Err e => mret (Failed (ErrAzure "begin create" e))
  | Ok (Some he) => failing (handleMachineBeginCreateError t zone capacityType crg he)
  | Ok None =>
      m <- getCreatedMachineAndHandleEarlyProvisioningError aksMachineName t zone capacityType crg;;
      mret (promise WaitCache (Templated template) aksMachineName t capacityType zone m true)
  end.
Definition beginCreateMachineNonBatch (template : MachineTemplate.Template) (aksMachineName : string) (t : InstanceType)
    (capacityType zone crg : string) : io (outcome AKSMachinePromise) :=
  b ← call (BeginCreateOrUpdate aksMachineName (Templated template) None);
  match b with
  | Err e =>
      match ErrorToHandlableError (response_error e) with
      | Some he => failing (handleMachineBeginCreateError t zone capacityType crg he)
      | None => mret (Failed (ErrAzure "begin create" e))
      end
  | Ok _ =>
      m <- getCreatedMachineAndHandleEarlyProvisioningError aksMachineName t zone capacityType crg;;
      mret (promise WaitSDK (Templated template) aksMachineName t capacityType zone m true)
  end.

(** ** Adopting *)

Definition validateExistingAKSMachineCapacityReservation (m : Machine) (n : AKSNodeClass) : option string :=
  validateCapacityReservationGroupAssociation (capacityReservationGroupIDFromAKSMachine (Some m)) (GetCapacityReservationGroupID n).
Definition public_ip_of (m : Machine) : bool * string * list string :=
  match (match ma_properties m with Some p => network p | None => None end) with
  | Some w => (from_ptr false (nw_EnableNodePublicIP w), from_ptr "" (nw_PrefixID w), omap id (nw_IPTags w))
  | None => (false, "", [])
  end.
Definition validateExistingAKSMachineNodePublicIP (m : Machine) (n : AKSNodeClass) : option string :=
  let '(actualEnabled, actualPrefixID, actualIPTags) := public_ip_of m in
  let c := of_launch n in
  if negb (Bool.eqb actualEnabled (VMInstance.IsNodePublicIPEnabled c)) then Some "node public IP enablement"
  else if negb (EqualFold actualPrefixID (default "" (head (VMInstance.GetNodePublicIPPrefixIDs c)))) then Some "node public IP prefix"
  else if negb (bool_decide (actualIPTags ≡ₚ VMInstance.GetNodePublicIPTags c)) then Some "node public IP tags"
  else None.
Definition claim_tag (p : Properties) : option string :=
  match pr_tags p with Some tags => match tags !! KarpenterAKSMachineNodeClaimTagKey with Some v => v | None => None end | None => None end.
Definition validateExistingAKSMachineForReuse (n : AKSNodeClass) (m : Machine) : option string :=
  match validateRetrievedAKSMachineBasicProperties m with
  | Some what => Some what
  | None =>
      match validateExistingAKSMachineCapacityReservation m n with
      | Some what => Some what
      | None =>
          match validateExistingAKSMachineNodePublicIP m n with
          | Some what => Some what
          | None => match (match ma_properties m with Some p => claim_tag p | None => None end) with
                    | None => Some "irretrievable karpenter.azure.com_aksmachine_nodeclaim tag"
                    | Some _ => None
                    end
          end
      end
  end.

(** The instance type is nil when its size is not offered any more: using it
    panics. *)
Definition reuseExistingMachine (aksMachineName : string) (n : AKSNodeClass) (nodeClaim : string)
    (instanceTypes : list InstanceType) (m : Machine) : io (outcome AKSMachinePromise) :=
  match validateExistingAKSMachineForReuse n m, ma_properties m with
  | Some what, _ => mret (Failed (ErrMachine what))
  | None, None => mret Panicked
  | None, Some p =>
      let vmSize := match pr_hardware p with Some h => from_ptr "" (hw_vmSize h) | None => "" end in
      let instanceType := GetInstanceTypeFromVMSize vmSize instanceTypes in
      let capacityType := getCapacityTypeFromAKSScaleSetPriority (from_ptr "" (pr_priority p)) in
      match Zones.MakeAKSLabelZoneFromARMZones (p_location settings) (ma_zones m) with
      | Err e => mret (Failed (ErrZone e))
      | Ok zone =>
          if from_ptr "" (claim_tag p) !=? nodeClaim then mret (Failed (ErrMachine "another NodeClaim"))
          else
            match pr_state p ==? Some ProvisioningStateFailed, provisioning_error p, instanceType with
            | true, None, _ => mret (Failed (ErrMachine "Failed state and ProvisioningError is nil"))
            | _, _, None => mret Panicked
            | true, Some d, Some t =>
                failing (handleMachineProvisioningError t zone capacityType (GetCapacityReservationGroupID n) (Some d))
            | false, _, Some t => mret (promise WaitNothing (Existing m) aksMachineName t capacityType zone m false)
            end
      end
  end.

(** ** Launching *)

Section Launch.
Variable classTags : gmap string string.
Variable n : AKSNodeClass.
Variable nc : NodeVersions.NodeClass.
Variable claim : MachineTemplate.Claim.
Variable instanceTypes : list InstanceType.
#[local] Abbreviation claim_name := (AKSMachine.nc_name (MachineTemplate.cl_claim claim)).

Definition template_of (s : Allocation.Selection) : option (result (MachineTemplate.template_error E) MachineTemplate.Template) :=
  MachineTemplate.buildAKSMachineTemplate ParseTolerant Version gpuSKUConfig ParseFloat ParseQuantity AsApproximateFloat64
    UnmarshalString getSKU o classTags (Some (full_type (Allocation.sel_type s))) (Allocation.CapacityType s)
    (Allocation.PlacementScope s) (Allocation.Zone s) (resolveUltraSSDRequested (MachineTemplate.cl_requirements claim))
    (Some (n, nc)) (Some claim).

Definition beginCreateMachine (aksMachineName : string) : io (outcome AKSMachinePromise) :=
  existing ← call (GetMachine aksMachineName true);
  match existing with
  | Ok m => reuseExistingMachine aksMachineName n claim_name instanceTypes m
  | Err _ =>
      selection ← call (Shared AllocateOffering);
      match selection with
      | None => mret (Failed ErrNoCapacity)
      | Some s =>
          match template_of s with
          | None => mret Panicked
          | Some (Err e) => mret (Failed (ErrTemplate e))
          | Some (Ok template) =>
              (if p_batchCreationEnabled settings then beginCreateMachineBatch else beginCreateMachineNonBatch)
                template aksMachineName (Allocation.sel_type s) (Allocation.CapacityType s) (Allocation.Zone s)
                (GetCapacityReservationGroupID n)
          end
      end
  end.

Definition machine_name : option (result string string) :=
  if IsWindowsImageFamily (from_ptr "" (ImageFamily n))
  then Some (GetWindowsAKSMachineName Hash claim_name (p_poolName settings))
  else GetLinuxAKSMachineName Hash claim_name.

Definition BeginCreate : io (outcome AKSMachinePromise) :=
  quotaGeneration ← call (Shared SnapshotGeneration);
  match machine_name with
  | None => mret Panicked
  | Some (Err e) => mret (Failed (ErrName e))
  | Some (Ok aksMachineName) =>
      r ← beginCreateMachine aksMachineName;
      match r with
      | Panicked => mret Panicked
      | Failed e => _ ← deleteMachine aksMachineName; mret (Failed e)
      | Done p =>
          m ← (if pm_createIssued p
               then m ← shared (VMInstance.metadata (it_name (pm_type p)) (pm_capacityType p) (GetCapacityReservationGroupID n !=? ""));
                    _ ← shared (VMInstance.recordCreate quotaGeneration claim_name m); mret m
               else mret no_metadata);
          mret (Done (with_quota p claim_name m))
      end
  end.

End Launch.

(** The promise's [Wait], with the group of the launch: what it reports;
    panics of the pollers, and of reading a machine that is not there, are
    recovered. *)
Definition Wait (p : AKSMachinePromise) (crg : string) : io (option error) :=
  match pm_wait p with
  | WaitNothing => mret None
  | WaitCache =>
      r ← call (PollMachine (pm_name p));
      match r with
      | PollPanicked => mret (Some ErrPanicked)
      | Polled (Err e) => mret (Some (ErrAzure "LRO (GET poller)" e))
      | Polled (Ok None) => mret None
      | Polled (Ok (Some d)) =>
          e ← handleMachineProvisioningError (pm_type p) (pm_zone p) (pm_capacityType p) crg (Some d); mret (Some e)
      end
  | WaitSDK =>
      r ← call (PollCreate (pm_name p));
      match r with
      | PollPanicked => mret (Some ErrPanicked)
      | Polled (Ok _) => mret None
      | Polled (Err e) =>
          m ← call (GetMachine (pm_name p) false);
          match m with
          | Err _ => mret (Some ErrPanicked)
          | Ok m =>
              match (pr ← ma_properties m; provisioning_error pr) with
              | Some d => e' ← handleMachineProvisioningError (pm_type p) (pm_zone p) (pm_capacityType p) crg (Some d); mret (Some e')
              | None => mret (Some (ErrAzure "LRO" e))
              end
          end
      end
  end.

(** ** What a launch asks for *)

#[local] Abbreviation event := (event resp).

(** Calls that neither create nor delete a machine, nor account for one. *)
Definition idle (q : req) : Prop :=
  match q with
  | BeginCreateBatch _ _ | BeginCreateOrUpdate _ _ _ | BeginDeleteMachines _ | Shared (RecordCreate _ _ _ _)
  | Shared (RecordDelete _ _ _) => False
  | _ => True
  end.
#[local] Abbreviation all_idle t := (Forall (fun e : event => idle (asked e)) t).

(** The request that creates machine [name] from a template. *)
Definition creates (name : string) (template : MachineTemplate.Template) (e : event) : Prop :=
  asked e = BeginCreateBatch name template \/ asked e = BeginCreateOrUpdate name (Templated template) None.
Lemma creates_busy name template e : creates name template e -> ~ idle (asked e).
Proof using Type. intros [Q|Q]; rewrite Q; by intros []. Qed.

Lemma idle_provisioning t z ct g d : only idle (handleMachineProvisioningError t z ct g d).
Proof using Type. unfold handleMachineProvisioningError. only_calls. Qed.
Lemma idle_begin t z ct g he : only idle (handleMachineBeginCreateError t z ct g he).
Proof using Type. unfold handleMachineBeginCreateError. only_calls. Qed.
#[local] Hint Resolve idle_provisioning idle_begin : io.
Lemma idle_failing {A} (m : io error) : only idle m -> only idle (failing (A := A) m).
Proof using Type. intros O. unfold failing. by apply only_bind. Qed.
#[local] Hint Resolve idle_failing : io.
Lemma idle_early t z ct g p : only idle (early_failure t z ct g p).
Proof using Type. unfold early_failure. only_calls. Qed.
#[local] Hint Resolve idle_early : io.
Lemma idle_created name t z ct g : only idle (getCreatedMachineAndHandleEarlyProvisioningError name t z ct g).
Proof using Type. unfold getCreatedMachineAndHandleEarlyProvisioningError, then_. only_calls. Qed.
#[local] Hint Resolve idle_created : io.
Lemma idle_reuse name n claim types m : only idle (reuseExistingMachine name n claim types m).
Proof using Type. unfold reuseExistingMachine. only_calls. Qed.
#[local] Hint Resolve idle_reuse : io.

Lemma post_idle {A} (m : io A) (Q : A -> list event -> Prop) :
  only idle m -> post m Q -> post m (fun a t => Q a t /\ all_idle t).
Proof using Type. intros O P. apply post_conj; [exact P|]. by apply (only_post idle). Qed.
(** *** Accounting and deleting *)

(** The quota adjustments of a trace: creations and deletions. *)
Definition account (e : event) : option (bool * string * string * Z) :=
  match asked e with
  | Shared (RecordCreate _ c f v) => Some (true, c, f, v)
  | Shared (RecordDelete c f v) => Some (false, c, f, v)
  | _ => None
  end.
Definition accounts (t : list event) := omap account t.
Definition recorded (created : bool) (c : string) (m : quotaMetadata) : list (bool * string * string * Z) :=
  if qm_eligible m then [(created, c, VMInstance.qm_familyName m, VMInstance.qm_vCPUs m)] else [].
Lemma accounts_app t t' : accounts (t ++ t') = accounts t ++ accounts t'.
Proof using Type. apply omap_app. Qed.

(** Calls that neither create nor delete a machine. *)
Definition machine_untouched (q : req) : Prop :=
  match q with BeginCreateBatch _ _ | BeginCreateOrUpdate _ _ _ | BeginDeleteMachines _ => False | _ => True end.
Lemma idle_untouched q : idle q -> machine_untouched q.
Proof using Type. by destruct q as [[]| | | | | | | | | | |]. Qed.
Lemma all_idle_untouched t : all_idle t -> Forall (fun e => machine_untouched (asked e)) t.
Proof using Type. intros F. eapply Forall_impl; [exact F|]. intros e. apply idle_untouched. Qed.
Lemma all_idle_accounts t : all_idle t -> accounts t = [].
Proof using Type.
  induction 1 as [|e t Q _ IH]; [done|]. unfold accounts, account in *. simpl. revert Q.
  destruct (asked e) as [[]| | | | | | | | | | |]; by rewrite ?IH.
Qed.
Lemma creates_account name template e : creates name template e -> account e = None.
Proof using Type. unfold account. by intros [Q|Q]; rewrite Q. Qed.

(** The deletion of [name]: marked in flight, begun, polled and forgotten by
    the cache as far as it got, and not marked any more. *)
Definition deletes (name : string) (d : list event) : Prop :=
  exists m, map asked d = [Shared (SetDeleting name); BeginDeleteMachines name] ++ m ++ [Shared (UnsetDeleting name)] /\
    m ∈ [[]; [PollDeleteMachines name]; [PollDeleteMachines name; InvalidateMachine name]].
Lemma deleteMachine_shape name : post (deleteMachine name) (fun _ d => deletes name d).
Proof using Type.
  unfold deleteMachine. repeat io_step; unfold deletes.
  all: first [by exists []; split; [|left] | by exists [PollDeleteMachines name]; split; [|right; left]
    | by exists [PollDeleteMachines name; InvalidateMachine name]; split; [|right; right; left]].
Qed.
Lemma deletes_accounts name d : deletes name d -> accounts d = [].
Proof using Type.
  intros (m & Ed & Im). assert (F : Forall (fun q => match q with Shared (RecordCreate _ _ _ _) | Shared (RecordDelete _ _ _) => False | _ => True end) (map asked d)).
  { rewrite Ed. rewrite !elem_of_cons, elem_of_nil in Im. destruct Im as [->|[->|[->|[]]]]; repeat constructor. }
  clear Ed Im. induction d as [|e d IH]; [done|]. apply Forall_cons in F as [Q F]. specialize (IH F). unfold accounts, account in *. simpl.
  revert Q. destruct (asked e) as [[]| | | | | | | | | | |]; by rewrite ?IH.
Qed.

Lemma creates_inj name template name' template' e :
  creates name template e -> creates name' template' e -> name = name' /\ template = template'.
Proof using Type. intros [Q|Q] [Q'|Q']; rewrite Q in Q'; by simplify_eq. Qed.
Definition uncreating (e : event) : Prop := forall name template, ~ creates name template e.
Lemma idle_uncreating t : all_idle t -> Forall uncreating t.
Proof using Type. intros F. eapply Forall_impl; [exact F|]. intros e Q nm tm C. by eapply creates_busy. Qed.
Lemma untouched_uncreating t : Forall (fun e => machine_untouched (asked e)) t -> Forall uncreating t.
Proof using Type. intros F. eapply Forall_impl; [exact F|]. intros e Q nm tm [C|C]; cbv beta in Q; by rewrite C in Q. Qed.
Lemma deletes_uncreating name d : deletes name d -> Forall uncreating d.
Proof using Type.
  intros (m & Ed & Im). assert (F : Forall (fun q => match q with BeginCreateBatch _ _ | BeginCreateOrUpdate _ _ _ => False | _ => True end) (map asked d)).
  { rewrite Ed. rewrite !elem_of_cons, elem_of_nil in Im. destruct Im as [->|[->|[->|[]]]]; repeat constructor. }
  apply Forall_map in F. eapply Forall_impl; [exact F|]. intros e Q nm tm [C|C]; cbv beta in Q; by rewrite C in Q.
Qed.

Definition undeleting (e : event) : Prop := match asked e with BeginDeleteMachines _ => False | _ => True end.
Lemma untouched_undeleting t : Forall (fun e => machine_untouched (asked e)) t -> Forall undeleting t.
Proof using Type. intros F. eapply Forall_impl; [exact F|]. intros e. cbv beta. unfold undeleting. by destruct (asked e). Qed.

(** Azure said that the machine is not there, or has finished deleting it; or
    the provider is not to see machines at all. *)
Definition machine_gone (name : string) (t : list event) : Prop :=
  (exists e, not_found e = true /\ (existT (P := resp) (GetMachine name false) (Err e) ∈ t \/
     existT (P := resp) (BeginDeleteMachines name) (Err e) ∈ t \/ existT (P := resp) (PollDeleteMachines name) (Err e) ∈ t)) \/
  existT (P := resp) (PollDeleteMachines name) (Ok tt) ∈ t \/
  shouldAKSMachinesBeVisible o settings = false \/ p_poolName settings = "".

(** What deleting [name] does: nothing while the machine is being deleted or is
    not seen, otherwise one deletion; it says that the machine is gone only
    when it is. *)
Definition deletion (name : string) (d : bool * option provider_error) (t : list event) : Prop :=
  (d.1 = true -> machine_gone name t) /\
  ((all_idle t /\ (d.2 = None -> existT (P := resp) (Shared (Deleting name)) true ∈ t \/
      exists m, existT (P := resp) (GetMachine name false) (Ok m) ∈ t /\ isAKSMachineDeleting (Some m) = true)) \/
   (exists m t2, isAKSMachineDeleting (Some m) = false /\ deletes name t2 /\
      t = [existT (P := resp) (Shared (Deleting name)) false; existT (P := resp) (GetMachine name false) (Ok m)] ++ t2 /\
      (d.2 = None -> existT (P := resp) (PollDeleteMachines name) (Ok tt) ∈ t2))).

Lemma deleteMachine_result name : post (deleteMachine name) (fun e d =>
  (e = None -> existT (P := resp) (PollDeleteMachines name) (Ok tt) ∈ d) /\
  (forall x, e = Some x -> existT (P := resp) (BeginDeleteMachines name) (Err x) ∈ d \/ existT (P := resp) (PollDeleteMachines name) (Err x) ∈ d)).
Proof using Type.
  unfold deleteMachine. repeat io_step; subst; repeat match goal with u : unit |- _ => destruct u end.
  all: split; [try done; intros _; in_trace|intros x Ex; simplify_eq]; first [left; solve [in_trace] | right; solve [in_trace]].
Qed.
Lemma deleteImpl_shape name : post (deleteImpl name) (deletion name).
Proof using Type.
  unfold deleteImpl. destruct (shouldAKSMachinesBeVisible o settings) eqn:Vi; cbn [negb].
  2: { io_step. split; [intros _; right; right; by left|]. left. by split; [constructor|]. }
  io_step. io_step. destruct r as [|]; [io_step; split; [done|]; left; split; [by repeat constructor|intros _; left; solve [in_trace]]|].
  io_step. unfold Get. rewrite Vi. cbn [negb orb]. case_bool_decide as Po.
  { cbv beta iota. io_step. cbv beta iota. io_step. split; [by do 3 right|]. left. by split; [repeat constructor|]. }
  cbv beta iota. do 3 io_step; cbv beta iota. destruct r as [m|e].
  - destruct (isAKSMachineDeleting (Some m)) eqn:De.
    + io_step. split; [done|]. left. split; [by repeat constructor|]. intros _. right. exists m. split; [in_trace|done].
    + io_step. eapply post_mono; [|apply post_conj; [apply deleteMachine_shape|apply deleteMachine_result]]. intros e d (Sh & No & So).
      io_step. rewrite !app_nil_r. destruct e as [x|].
      * destruct (not_found x) eqn:Nf.
        { split; [|right; exists m, d; do 3 (split; [done|]); done]. intros _. left. exists x. split; [done|]. right.
          destruct (So x eq_refl); [left|right]; simpl; by do 2 apply list_elem_of_further. }
        split; [done|]. right. exists m, d. by do 3 (split; [done|]).
      * split; [intros _; right; left; simpl; do 2 apply list_elem_of_further; by apply No|]. right. exists m, d. split; [done|]. split; [done|]. split; [done|]. intros _. by apply No.
  - io_step. destruct (not_found e) eqn:Nf.
    + split; [|left; by split; [repeat constructor|]]. intros _. left. exists e. split; [done|]. left. in_trace.
    + split; [done|]. left. by split; [repeat constructor|].
Qed.
Lemma deletion_accounts name d t : deletion name d t -> accounts t = [].
Proof using Type.
  intros [_ [[Q _]|(m & t2 & _ & D & -> & _)]]; [by apply all_idle_accounts|]. by rewrite accounts_app, (deletes_accounts _ _ D).
Qed.

Lemma shared_record created c g m : post (shared (if created : bool then VMInstance.recordCreate g c m else VMInstance.recordDelete c m))
  (fun _ t => accounts t = recorded created c m /\ Forall (fun e => machine_untouched (asked e)) t).
Proof using Type.
  unfold shared, VMInstance.recordCreate, VMInstance.recordDelete, recorded.
  destruct created, (qm_eligible m); cbn [lift mret io_mret call]; repeat io_step; (split; [done|repeat constructor]).
Qed.

Lemma machine_gone_app name t w : machine_gone name t -> machine_gone name (t ++ w).
Proof using Type.
  intros [(e & Ne & G)|[G|G]]; [left; exists e; split; [done|]|right; left; apply elem_of_app; by left|by do 2 right].
  destruct G as [G|[G|G]]; [left|right; left|do 2 right]; apply elem_of_app; by left.
Qed.
Lemma cleanup_accounts p : post (Cleanup p) (fun _ t => accounts t = [] \/
  (accounts t = recorded false (pm_claim p) (pm_metadata p) /\ machine_gone (pm_name p) t)).
Proof using Type.
  unfold Cleanup. io_step. eapply post_mono; [|apply deleteImpl_shape]. intros [gone e] t D.
  pose proof (deletion_accounts _ _ _ D) as Ac. destruct D as [G _]. io_step. cbn [fst snd] in *.
  destruct gone; [|do 2 io_step; left; by rewrite !app_nil_r].
  eapply post_mono; [|apply (shared_record false (pm_claim p) 0 (pm_metadata p))]. intros [] w [Aw _]. io_step. right.
  rewrite app_nil_r, accounts_app, Ac, Aw. split; [done|]. by apply machine_gone_app, G.
Qed.

(** *** Adopting *)

(** A promise for the machine of an earlier attempt: it is the claim's, has
    the reservation group and public IP settings of the class, is not failed,
    and is promised with its own size, priority and zone. *)
Record adopted (n : AKSNodeClass) (claim name : string) (types : list InstanceType) (m : Machine) (p : AKSMachinePromise) : Prop := {
  ad_machine : pm_machine p = Existing m /\ pm_name p = name /\ pm_wait p = WaitNothing;
  ad_claim : (pr ← ma_properties m; claim_tag pr) = Some claim;
  ad_group : EqualFold (capacityReservationGroupIDFromAKSMachine (Some m)) (GetCapacityReservationGroupID n) = true;
  ad_public_ip : let c := of_launch n in let '(enabled, prefix, tags) := public_ip_of m in
    enabled = VMInstance.IsNodePublicIPEnabled c /\
    EqualFold prefix (default "" (head (VMInstance.GetNodePublicIPPrefixIDs c))) = true /\
    tags ≡ₚ VMInstance.GetNodePublicIPTags c;
  ad_state : (pr ← ma_properties m; pr_state pr) <> Some ProvisioningStateFailed;
  ad_type : pm_type p ∈ types /\ (pr ← ma_properties m; h ← pr_hardware pr; hw_vmSize h) = Some (it_name (pm_type p));
  ad_capacity : (pr ← ma_properties m; getCapacityTypeFromAKSScaleSetPriority <$> pr_priority pr) = Some (pm_capacityType p);
  ad_zone : Zones.MakeAKSLabelZoneFromARMZones (p_location settings) (ma_zones m) = Ok (pm_zone p);
  ad_issued : pm_createIssued p = false
}.

Lemma reusable n m : validateExistingAKSMachineForReuse n m = None ->
  exists pr size priority, ma_properties m = Some pr /\ (h ← pr_hardware pr; hw_vmSize h) = Some size /\
    pr_priority pr = Some priority /\ is_Some (claim_tag pr) /\
    EqualFold (capacityReservationGroupIDFromAKSMachine (Some m)) (GetCapacityReservationGroupID n) = true /\
    let '(enabled, prefix, tags) := public_ip_of m in
    enabled = VMInstance.IsNodePublicIPEnabled (of_launch n) /\
    EqualFold prefix (default "" (head (VMInstance.GetNodePublicIPPrefixIDs (of_launch n)))) = true /\
    tags ≡ₚ VMInstance.GetNodePublicIPTags (of_launch n).
Proof using Type.
  unfold validateExistingAKSMachineForReuse. destruct (validateRetrievedAKSMachineBasicProperties m) eqn:V; [done|].
  unfold validateRetrievedAKSMachineBasicProperties in V. destruct (ma_properties m) as [pr|]; [|done].
  destruct (pr_status pr); [|done]. destruct (pr_hardware pr) as [[[size|] u]|] eqn:Hw; [|done..].
  destruct (pr_priority pr) as [priority|] eqn:Pri; [|done].
  unfold validateExistingAKSMachineCapacityReservation, validateCapacityReservationGroupAssociation.
  destruct (EqualFold (capacityReservationGroupIDFromAKSMachine (Some m)) _) eqn:G; [|done]. cbn [negb].
  destruct (validateExistingAKSMachineNodePublicIP m n) eqn:P; [done|]. destruct (claim_tag pr) eqn:T; [|done]. intros _.
  exists pr, size, priority. split; [done|]. split; [by rewrite Hw|]. split; [done|]. rewrite T. split; [by eexists|]. split; [done|].
  unfold validateExistingAKSMachineNodePublicIP in P. destruct (public_ip_of m) as [[enabled prefix] tags].
  destruct (Bool.eqb enabled _) eqn:Q; [|done]. cbn [negb] in P. destruct (EqualFold prefix _); [|done]. cbn [negb] in P.
  case_bool_decide as D; [|done]. split; [by apply Bool.eqb_prop|done].
Qed.

Lemma reuse_adopts name n claim types m :
  post (reuseExistingMachine name n claim types m)
    (fun r _ => match r with Done p => adopted n claim name types m p | _ => True end).
Proof using Type.
  unfold reuseExistingMachine. destruct (validateExistingAKSMachineForReuse n m) as [what|] eqn:V; [io_step; exact I|].
  apply reusable in V as (pr & size & priority & Pr & Sz & Pri & [tag T] & G & Ip). rewrite Pr.
  destruct (Zones.MakeAKSLabelZoneFromARMZones _ _) as [zone|] eqn:Z; [|io_step; exact I].
  rewrite T. cbn [from_ptr]. case_bool_decide as C; cbn [negb]; [|io_step; exact I].
  destruct (pr_state pr ==? Some ProvisioningStateFailed) eqn:St.
  { destruct (provisioning_error pr) as [d|]; [|io_step; exact I].
    destruct (GetInstanceTypeFromVMSize _ _); [|io_step; exact I]. unfold failing. io_step.
    eapply post_mono; [|apply post_true]. intros e t _. exact I. }
  destruct (GetInstanceTypeFromVMSize _ types) as [it|] eqn:Ty; [|destruct (provisioning_error pr); io_step; exact I].
  assert (R : post (mret (M := io) (promise WaitNothing (Existing m) name it
    (getCapacityTypeFromAKSScaleSetPriority (from_ptr "" (pr_priority pr))) zone m false))
    (fun r _ => match r with Done p => adopted n claim name types m p | _ => True end)).
  { io_step. unfold promise. rewrite Pr.
    unfold GetInstanceTypeFromVMSize in Ty. apply lo_find_some in Ty as [In Nm]. apply bool_decide_eq_true in Nm.
    assert (Hw : from_ptr "" (hw_vmSize (default (mk_hardware None None) (pr_hardware pr))) = size).
    { destruct (pr_hardware pr) as [h|]; [|done]. cbn in Sz |- *. by rewrite Sz. }
    split; cbn -[getCapacityTypeFromAKSScaleSetPriority EqualFold]; rewrite ?Pr; cbn -[getCapacityTypeFromAKSScaleSetPriority EqualFold]; try done.
    - rewrite T. by subst.
    - revert G. unfold capacityReservationGroupIDFromAKSMachine. by rewrite Pr.
    - by apply bool_decide_eq_false in St.
    - split; [done|]. rewrite Sz, Nm. f_equal. rewrite <- Hw. by destruct (pr_hardware pr).
    - by rewrite Pri. }
  by destruct (provisioning_error pr).
Qed.

(** *** Creating *)

Section Launches.
Variable classTags : gmap string string.
Variable n : AKSNodeClass.
Variable nc : NodeVersions.NodeClass.
Variable claim : MachineTemplate.Claim.
Variable instanceTypes : list InstanceType.
#[local] Abbreviation claim_name := (AKSMachine.nc_name (MachineTemplate.cl_claim claim)).
#[local] Abbreviation launch := (BeginCreate classTags n nc claim instanceTypes).
#[local] Abbreviation begin := (beginCreateMachine classTags n nc claim instanceTypes).

(** What a promise of a new machine keeps of the selection. *)
Definition issued_for (s : Allocation.Selection) (name : string) (template : MachineTemplate.Template) (p : AKSMachinePromise) : Prop :=
  pm_createIssued p = true /\ pm_name p = name /\ pm_machine p = Templated template /\
  pm_type p = Allocation.sel_type s /\ pm_capacityType p = Allocation.CapacityType s /\ pm_zone p = Allocation.Zone s.

Lemma create_shape (s : Allocation.Selection) name template :
  post ((if p_batchCreationEnabled settings then beginCreateMachineBatch else beginCreateMachineNonBatch)
          template name (Allocation.sel_type s) (Allocation.CapacityType s) (Allocation.Zone s) (GetCapacityReservationGroupID n))
    (fun r t => exists ev rest, t = ev :: rest /\ creates name template ev /\ all_idle rest /\
       match r with Done p => issued_for s name template p | _ => True end).
Proof using Type.
  assert (Af : forall wait, post
    (m <- getCreatedMachineAndHandleEarlyProvisioningError name (Allocation.sel_type s) (Allocation.Zone s) (Allocation.CapacityType s) (GetCapacityReservationGroupID n);;
     mret (promise wait (Templated template) name (Allocation.sel_type s) (Allocation.CapacityType s) (Allocation.Zone s) m true))
    (fun r t => (match r with Done p => issued_for s name template p | _ => True end) /\ all_idle t)).
  { intros wait. apply post_idle; [unfold then_; only_calls|]. unfold then_. io_step. eapply post_mono; [|apply post_true].
    intros [m| |] t _; io_step; [|exact I..]. unfold promise. by destruct (ma_properties m). }
  assert (Fa : forall m : io error, only idle m ->
    post (failing (A := AKSMachinePromise) m) (fun r t => (match r with Done p => issued_for s name template p | _ => True end) /\ all_idle t)).
  { intros m O. apply post_idle; [by apply idle_failing|]. unfold failing. io_step. eapply post_mono; [|apply post_true]. intros e t _. exact I. }
  assert (Wrap : forall q r (m : io (outcome AKSMachinePromise)), creates name template (existT (P := resp) q r) ->
    post m (fun r t => (match r with Done p => issued_for s name template p | _ => True end) /\ all_idle t) ->
    post m (fun o' t => exists ev rest, existT (P := resp) q r :: t = ev :: rest /\ creates name template ev /\ all_idle rest /\
       match o' with Done p => issued_for s name template p | _ => True end)).
  { intros q r m C P. eapply post_mono; [|exact P]. intros o' t [Q I]. by exists (existT q r), t. }
  destruct (p_batchCreationEnabled settings).
  - unfold beginCreateMachineBatch. io_step. io_step. apply Wrap; [by left|].
    destruct r as [[he|]|err]; [apply Fa; auto with io|apply Af|by io_step].
  - unfold beginCreateMachineNonBatch. io_step. io_step. apply Wrap; [by right|].
    destruct r as [[]|err]; [apply Af|]. destruct (ErrorToHandlableError _); [apply Fa; auto with io|by io_step].
Qed.

(** Either nothing is created, and a promise is for an adopted machine; or one
    machine is, after none was found and an offering was chosen. *)
Definition one_create (name : string) (r : outcome AKSMachinePromise) (t : list event) : Prop :=
  exists s template t1 ev t2 err, t = t1 ++ ev :: t2 /\ creates name template ev /\ all_idle t1 /\ all_idle t2 /\
    existT (P := resp) (GetMachine name true) (Err err) ∈ t1 /\
    existT (P := resp) (Shared AllocateOffering) (Some s) ∈ t1 /\ template_of classTags n nc claim s = Some (Ok template) /\
    match r with Done p => issued_for s name template p | _ => True end.
Definition no_create (name : string) (r : outcome AKSMachinePromise) (t : list event) : Prop :=
  all_idle t /\ match r with
    | Done p => exists m, existT (P := resp) (GetMachine name true) (Ok m) ∈ t /\ adopted n claim_name name instanceTypes m p
    | _ => True
    end.

Lemma begin_shape name : post (begin name) (fun r t => no_create name r t \/ one_create name r t).
Proof using Type.
  unfold beginCreateMachine. io_step. io_step. destruct r as [m|err].
  - eapply post_mono; [|apply (post_idle _ _ (idle_reuse _ _ _ _ _) (reuse_adopts name n claim_name instanceTypes m))].
    intros r t [Ad Q]. left. split; [by constructor|]. destruct r as [p| |]; [|done..]. exists m. split; [apply list_elem_of_here|done].
  - io_step. io_step. destruct r as [s|]; [|io_step; left; split; [by repeat constructor|exact I]].
    destruct (template_of classTags n nc claim s) as [[template|e]|] eqn:T;
      [|io_step; left; split; [by repeat constructor|exact I]..].
    eapply post_mono; [|apply create_shape]. intros r t (ev & rest & -> & C & Q & Is). right.
    exists s, template, [existT (P := resp) (GetMachine name true) (Err err); existT (P := resp) (Shared AllocateOffering) (Some s)], ev, rest, err.
    split; [done|]. split; [done|]. split; [by repeat constructor|]. split; [done|]. split; [apply list_elem_of_here|].
    split; [apply list_elem_of_further, list_elem_of_here|]. by split.
Qed.

(** A launch accounts for a machine it asked for: on demand, outside
    reservation groups. *)
Lemma issue_accounts (g : Z) p :
  post (if pm_createIssued p
        then m ← shared (VMInstance.metadata (it_name (pm_type p)) (pm_capacityType p) (GetCapacityReservationGroupID n !=? ""));
             _ ← shared (VMInstance.recordCreate g claim_name m); mret m
        else mret no_metadata)
    (fun m w => accounts w = recorded true claim_name m /\ Forall (fun e => machine_untouched (asked e)) w /\
      (qm_eligible m = true -> pm_createIssued p = true /\ pm_capacityType p = CapacityTypeOnDemand /\
         GetCapacityReservationGroupID n = "")).
Proof using Type.
  destruct (pm_createIssued p); [|by io_step]. io_step. unfold shared.
  eapply post_mono; [|apply (post_lift (resp' := resp) Shared (fun _ r => r) (fun _ r => r)); [done|]; apply post_conj;
    [apply VMInstance.metadata_eligible|eapply only_post, VMInstance.unrecorded_metadata]].
  intros m w (u & -> & El & Un). io_step. eapply post_mono; [|apply (shared_record true claim_name g m)].
  intros [] v [Av Uv]. io_step. rewrite app_nil_r, accounts_app, Av.
  assert (Q : all_idle (map (lift_event (resp' := resp) Shared (fun _ r => r)) u)).
  { apply Forall_map. eapply Forall_impl; [exact Un|]. intros [[] r]; simpl; done. }
  rewrite (all_idle_accounts _ Q). split; [done|]. split; [apply Forall_app; split; [by apply all_idle_untouched|done]|].
  intros Qe. destruct (El Qe) as (_ & -> & N & _). split; [done|]. split; [done|]. by apply negb_false_iff, bool_decide_eq_true in N.
Qed.

Lemma shape_undeleting name r t : no_create name r t \/ one_create name r t -> Forall undeleting t /\ accounts t = [].
Proof using Type.
  intros [[Q _]|(s & tm & A & ev & B & err & -> & C & QA & QB & _)].
  - split; [by apply untouched_undeleting, all_idle_untouched|by apply all_idle_accounts].
  - split.
    + apply Forall_app. split; [by apply untouched_undeleting, all_idle_untouched|].
      constructor; [by destruct C as [Q|Q]; unfold undeleting; rewrite Q|by apply untouched_undeleting, all_idle_untouched].
    + change (ev :: B) with ([ev] ++ B). rewrite !accounts_app, (all_idle_accounts _ QA), (all_idle_accounts _ QB).
      unfold accounts. simpl. by rewrite (creates_account _ _ _ C).
Qed.

(** *** The whole launch *)

(** What is made of the outcome of creating or adopting: the calls [w] that
    follow, and the launch's outcome. *)
Definition settled (name : string) (r0 r : outcome AKSMachinePromise) (w : list event) : Prop :=
  match r0 with
  | Panicked => r = Panicked /\ w = []
  | Failed e => r = Failed e /\ deletes name w
  | Done p => exists m, r = Done (with_quota p claim_name m) /\ accounts w = recorded true claim_name m /\
      Forall (fun e => machine_untouched (asked e)) w /\
      (qm_eligible m = true -> pm_createIssued p = true /\ pm_capacityType p = CapacityTypeOnDemand /\
         GetCapacityReservationGroupID n = "")
  end.

Lemma launch_shape : post launch (fun r t => exists g rest, t = existT (P := resp) (Shared SnapshotGeneration) g :: rest /\
  match machine_name n claim with
  | None => r = Panicked /\ rest = []
  | Some (Err e) => r = Failed (ErrName e) /\ rest = []
  | Some (Ok name) => exists r0 t0 w, rest = t0 ++ w /\ (no_create name r0 t0 \/ one_create name r0 t0) /\ settled name r0 r w
  end).
Proof using Type.
  unfold BeginCreate. io_step. io_step. rename r into g. destruct (machine_name n claim) as [[name|e]|]; [|io_step; by exists g, []..].
  io_step. eapply post_mono; [|apply begin_shape]. intros r0 t0 Sh.
  assert (W : forall {A} (m : io A) (f : A -> io (outcome AKSMachinePromise)),
    post m (fun a u => post (f a) (fun r v => settled name r0 r (u ++ v))) ->
    post (m ≫= f) (fun r w => exists g' rest, existT (P := resp) (Shared SnapshotGeneration) g :: t0 ++ w = existT (P := resp) (Shared SnapshotGeneration) g' :: rest /\
      exists r0 t0 w, rest = t0 ++ w /\ (no_create name r0 t0 \/ one_create name r0 t0) /\ settled name r0 r w)).
  { intros A m f P. apply post_bind. eapply post_mono; [|exact P]. intros a u Pu. eapply post_mono; [|exact Pu].
    intros r v S. exists g, (t0 ++ u ++ v). split; [done|]. by exists r0, t0, (u ++ v). }
  destruct r0 as [p|e|].
  - apply W. eapply post_mono; [|apply issue_accounts]. intros m u (A & U & El). io_step. exists m. by rewrite app_nil_r.
  - apply W. eapply post_mono; [|apply deleteMachine_shape]. intros a u D. io_step. by rewrite app_nil_r.
  - io_step. exists g, (t0 ++ []). split; [done|]. by exists Panicked, t0, [].
Qed.

Lemma settled_uncreating name r0 r w : settled name r0 r w -> Forall uncreating w.
Proof using Type.
  destruct r0; simpl; [intros (m & _ & _ & U & _); by apply untouched_uncreating|intros [_ D]; by eapply deletes_uncreating|by intros [_ ->]].
Qed.

(** C3. One machine per launch, and the right one: a launch asks for at most one
    machine, with the name computed from the claim, after the cache knew none
    of that name and the allocation strategy chose an offering; the template
    has that offering's size, priority and zone, the reservation group of the
    class and the tags of the claim, and the promise is for that offering. *)
Theorem one_machine_per_launch env r t t1 ev t2 name template :
  run env launch [] = (r, t) -> t = t1 ++ ev :: t2 -> creates name template ev ->
  machine_name n claim = Some (Ok name) /\ all_idle t1 /\
  Forall (fun e => forall name' template', ~ creates name' template' e) t2 /\
  exists s err, existT (P := resp) (GetMachine name true) (Err err) ∈ t1 /\
    existT (P := resp) (Shared AllocateOffering) (Some s) ∈ t1 /\
    MachineTemplate.t_VMSize template = InstanceTypes.ty_name (full_type (Allocation.sel_type s)) /\
    MachineTemplate.t_Priority template = MachineTemplate.configurePriority (Allocation.CapacityType s) /\
    Zones.MakeARMZonesFromAKSLabelZone (Allocation.Zone s) = Some (MachineTemplate.t_Zones template) /\
    MachineTemplate.t_CRG template = MachineTemplate.configureCapacityReservation n /\
    MachineTemplate.t_Tags template = InPlaceUpdate.ConfigureAKSMachineTags o classTags (MachineTemplate.cl_claim claim) /\
    match r with Done p => issued_for s name template p | _ => True end.
Proof using Type.
  intros R -> C. destruct (post_run _ _ env [] launch_shape) as (t' & Et' & g & rest & -> & Sh).
  rewrite R in Et', Sh. simpl in Et', Sh. destruct (machine_name n claim) as [[nm|e]|].
  2-3: destruct Sh as [_ ->]; destruct t1 as [|e1 [|]]; [injection Et' as -> _; by destruct C|done..].
  destruct Sh as (r0 & t0 & w & -> & Sh & St). symmetry in Et'.
  assert (Fw : Forall uncreating w) by by eapply settled_uncreating.
  destruct Sh as [[Q _]|(s & tm & A & ev' & B & err & -> & C' & QA & QB & G & Al & T & Is)].
  { exfalso. assert (F : Forall uncreating (t1 ++ ev :: t2)).
    { rewrite <- Et'. constructor; [by intros ?? [|]|]. apply Forall_app. split; [by apply idle_uncreating|done]. }
    apply Forall_app in F as [_ F]. apply Forall_cons in F as [F _]. by eapply F. }
  rewrite <- app_assoc in Et'. change (([existT (Shared SnapshotGeneration) g] ++ A) ++ ev' :: B ++ w = t1 ++ ev :: t2) in Et'.
  apply (unique_split uncreating) in Et' as (-> & -> & ->);
    [|by apply Forall_app; split; [repeat constructor; by intros ?? []|apply idle_uncreating]
     |by apply Forall_app; split; [apply idle_uncreating|]|intros U; by eapply U].
  destruct (creates_inj _ _ _ _ _ C C') as [-> ->]. split; [done|]. split; [by constructor|].
  split; [apply Forall_app; split; [by apply idle_uncreating|done]|].
  exists s, err. split; [by right|]. split; [by right|]. apply MachineTemplate.build_ok in T.
  split; [eapply MachineTemplate.built_size, T|]. split; [eapply MachineTemplate.built_priority, T|].
  split; [eapply MachineTemplate.built_zones, T|]. split; [eapply MachineTemplate.built_crg, T|].
  split; [eapply MachineTemplate.built_tags, T|].
  destruct r0 as [p|e|]; [|by destruct St as [-> _]..]. by destruct St as (m & -> & _).
Qed.

(** C5. A launch that fails takes its machine away again: nothing was counted
    against the quota, and unless no name could be computed, the last calls
    delete the machine of that very name, once, marked in flight while it
    lasts; nothing is deleted before, nor by a launch that succeeds. *)
Theorem failed_machine_cleaned env r t : run env launch [] = (r, t) ->
  match r with
  | Failed e => accounts t = [] /\
      match machine_name n claim with
      | Some (Ok name) => exists t1 t2, t = t1 ++ t2 /\ Forall undeleting t1 /\ deletes name t2
      | Some (Err why) => e = ErrName why /\ exists g, t = [existT (P := resp) (Shared SnapshotGeneration) g]
      | None => False
      end
  | Done _ | Panicked => Forall undeleting t
  end.
Proof using Type.
  intros R. destruct (post_run _ _ env [] launch_shape) as (t' & Et' & g & rest & -> & Sh).
  rewrite R in Et', Sh. simpl in Et', Sh. subst t. destruct (machine_name n claim) as [[nm|e]|].
  2: { destruct Sh as [-> ->]. split; [done|]. split; [done|]. by exists g. }
  2: { destruct Sh as [-> ->]. repeat constructor. }
  destruct Sh as (r0 & t0 & w & -> & Sh & St). apply shape_undeleting in Sh as [Un Ac].
  destruct r0 as [p|e|].
  - destruct St as (m & -> & _ & U & _). constructor; [done|]. apply Forall_app. split; [done|by apply untouched_undeleting].
  - destruct St as [-> D]. split.
    + change (accounts (t0 ++ w) = []). by rewrite accounts_app, Ac, (deletes_accounts _ _ D).
    + exists (existT (Shared SnapshotGeneration) g :: t0), w. split; [done|]. split; [by constructor|done].
  - destruct St as [-> ->]. rewrite app_nil_r. by constructor.
Qed.


(** C11. A launch adopts only its own machine: a promise for a machine that was
    not asked for is for the one the cache gave under the claim's name, it
    carries the claim's tag, the class's reservation group and public IP
    settings, has not failed, and is promised with its own size, priority and
    zone; nothing is created or deleted. *)
Theorem adopted_machine_matches env p t : run env launch [] = (Done p, t) -> pm_createIssued p = false ->
  exists m, machine_name n claim = Some (Ok (pm_name p)) /\ existT (P := resp) (GetMachine (pm_name p) true) (Ok m) ∈ t /\
    adopted n claim_name (pm_name p) instanceTypes m p /\ Forall (fun e => machine_untouched (asked e)) t.
Proof using Type.
  intros R Ni. destruct (post_run _ _ env [] launch_shape) as (t' & Et' & g & rest & -> & Sh).
  rewrite R in Et', Sh. simpl in Et', Sh. subst t. destruct (machine_name n claim) as [[nm|e]|]; [|by destruct Sh..].
  destruct Sh as (r0 & t0 & w & -> & Sh & St). destruct r0 as [p0|e|]; [|by destruct St..].
  destruct St as (m & Ep & _ & U & _). injection Ep as ->.
  destruct Sh as [[Q (mc & In & Ad)]|(? & ? & ? & ? & ? & ? & _ & _ & _ & _ & _ & _ & _ & Is & _)]; [|cbn in Ni; by rewrite Is in Ni].
  assert (Nm : pm_name p0 = nm) by apply (ad_machine _ _ _ _ _ _ Ad). exists mc. cbn [pm_name with_quota].
  rewrite Nm. split; [done|]. split; [right; by apply elem_of_app; left|]. split; [by destruct Ad; split|].
  constructor; [done|]. apply Forall_app. split; [by apply all_idle_untouched|done].
Qed.

End Launches.

Lemma deletes_split name d : deletes name d -> exists s b rest, d = s :: b :: rest /\ asked s = Shared (SetDeleting name) /\
  asked b = BeginDeleteMachines name /\ Forall undeleting rest /\ Shared (UnsetDeleting name) ∈ map asked rest.
Proof using Type.
  intros (m & Ed & Im). destruct d as [|s [|b rest]]; [done..|]. simpl in Ed. injection Ed as Es Eb Er.
  exists s, b, rest. split; [done|]. split; [done|]. split; [done|]. rewrite Er. split; [|apply elem_of_app; right; left].
  assert (F : Forall (fun q => match q with BeginDeleteMachines _ => False | _ => True end) (map asked rest)).
  { rewrite Er. rewrite !elem_of_cons, elem_of_nil in Im. destruct Im as [->|[->|[->|[]]]]; repeat constructor. }
  by apply Forall_map in F.
Qed.
Lemma delete_shape claim name : post (Delete claim name) (fun e t => exists d u w, e = d.2 /\ t = u ++ w /\ deletion name d u /\
  (d.1 = false -> accounts w = []) /\ Forall (fun e => machine_untouched (asked e)) w).
Proof using Type.
  unfold Delete. io_step. eapply post_mono; [|apply deleteImpl_shape]. intros d u D. io_step.
  assert (W : forall m : io unit, post m (fun _ w => (d.1 = false -> accounts w = []) /\ Forall (fun e => machine_untouched (asked e)) w) ->
    post m (fun a v => post (mret d.2) (fun e v' => exists d' u' w, e = d'.2 /\ u ++ v ++ v' = u' ++ w /\ deletion name d' u' /\
      (d'.1 = false -> accounts w = []) /\ Forall (fun e => machine_untouched (asked e)) w))).
  { intros m P. eapply post_mono; [|exact P]. intros a v [Q U]. io_step. exists d, u, v. by rewrite app_nil_r. }
  apply W. destruct (d.1); [|io_step; split; [done|constructor]]. unfold shared.
  eapply post_mono; [|apply only_post, (only_lift _ _ machine_untouched); by intros []]. intros a v U. by split.
Qed.


End Provider.
Arguments Done {E Handled A} a.
Arguments Failed {E Handled A} e.
Arguments Panicked {E Handled A}.
Arguments PollPanicked {A}.
Arguments Polled {A} a.

(** ** The theorems at concrete inputs *)

#[local] Existing Instance ImageFamily.value_scheduling.
#[local] Existing Instance NodeVersions.triple_semver.
#[local] Existing Instance Conditions.map_conditions.

Definition demo_settings : Settings := mk_settings "aksmanagedap" "westus2" true false.
Definition demo_selection : Allocation.Selection :=
  Allocation.mk_selection (mk_instance_type "Standard_D4s_v5" "linux" [])
    (mk_offering CapacityTypeOnDemand "westus2-3" "zonal" 1 true).
(** A machine of this name, made for the claim of that name. *)
Definition demo_found (claim state : string) : Machine :=
  mk_machine (Some "/machines/np-a1b2c") (Some "np-a1b2c") [Some "3"]
    (Some (mk_properties (Some state) (Some (mk_status None (Some 7) None None))
      (Some {[ KarpenterAKSMachineNodeClaimTagKey := Some claim ]}) (Some "Regular") (Some "/vm") (Some "e1")
      (Some (mk_hardware (Some "Standard_D4s_v5") None)) (Some "img") None "")).

(** An Azure that knows this machine, and takes or refuses requests. *)
Definition demo_azure (cached : option Machine) (actual : Machine) (accepts : bool)
    (h : list (event (@resp string unit))) (q : @req string) : @resp string unit q :=
  match q with
  | Shared AllocateOffering => Some demo_selection
  | Shared q => VMInstance.demo_azure true [] q
  | GetMachine _ useCache => if useCache then match cached with Some m => Ok m | None => Err "not found" end else Ok actual
  | ListMachines _ _ => Ok [actual]
  | InvalidateMachine _ => tt
  | BeginCreateBatch _ _ => if accepts then Ok None else Err "no"
  | BeginCreateOrUpdate _ _ _ | BeginDeleteMachines _ | PollDeleteMachines _ => Ok tt
  | PollCreate _ => Polled (Ok tt)
  | PollMachine _ => Polled (Ok None)
  | HandleProvisioning _ _ _ _ _ _ | HandleBeginCreate _ _ _ _ _ _ => None
  end.
(** What the launches of these inputs are given. *)
#[local] Notation "'demo_world' f" := (f (fun _ => ErrorHandlers.mk_go_error None "") (fun _ => []) (fun _ => None) (fun _ => Ok 7)
    (fun _ => MachineTemplate.demo_type) ImageFamily.demo_parse ImageFamily.demo_version ∅ (fun _ => None) (fun _ => None)
    (fun _ => GoFloat.of_int 0) (fun _ => None) (fun _ => Ok None) ∅ (ImageFamily.demo_spec "Ubuntu2204") MachineTemplate.demo_versions
    MachineTemplate.demo_claim [mk_instance_type "Standard_D4s_v5" "linux" []]) (at level 10, f at level 9).
Definition demo_launch : io (@resp string unit) (outcome AKSMachinePromise) :=
  demo_world (BeginCreate (Quantity := Z) Options.demo_options demo_settings).
Definition demo_env (accepts : bool) := demo_azure None (demo_found "np-a1b2c" "Creating") accepts.
Definition demo_adopting := demo_azure (Some (demo_found "np-a1b2c" "Succeeded")) (demo_found "np-a1b2c" "Succeeded") true.

Lemma one_machine_per_launch_witness :
  exists t1 template ev t2, (run (demo_env true) demo_launch []).2 = t1 ++ ev :: t2 /\ creates "np-a1b2c" template ev /\
    Forall (fun e => idle (asked e)) t1 /\ MachineTemplate.t_VMSize template = "Standard_D4s_v5".
Proof.
  set (t := (run (demo_env true) demo_launch []).2).
  assert (S : exists template r, nth_error t 3 = Some (existT (P := @resp string unit) (BeginCreateBatch "np-a1b2c" template) r)).
  { eexists _, _. vm_compute. reflexivity. }
  destruct S as (template & r & S). apply nth_error_split in S as (t1 & t2 & Et & _).
  assert (C : creates (E := string) (Handled := unit) "np-a1b2c" template (existT (BeginCreateBatch "np-a1b2c" template) r)) by (left; reflexivity).
  destruct (demo_world (one_machine_per_launch (Quantity := Z) Options.demo_options demo_settings) (demo_env true)
    _ _ _ _ _ _ _ (surjective_pairing _) Et C)
    as (_ & I & _ & s & err & _ & _ & Sz & _).
  exists t1, template, (existT (BeginCreateBatch "np-a1b2c" template) r), t2. split; [exact Et|]. split; [exact C|]. split; [exact I|]. exact Sz.
Defined.

Lemma failed_machine_cleaned_witness :
  exists e t1 t2, (run (demo_env false) demo_launch []).1 = Failed e /\
    (run (demo_env false) demo_launch []).2 = t1 ++ t2 /\ deletes "np-a1b2c" t2 /\ accounts (t1 ++ t2) = [].
Proof.
  assert (F : match (run (demo_env false) demo_launch []).1 with Failed _ => true | _ => false end = true) by (vm_compute; reflexivity).
  destruct (run (demo_env false) demo_launch []) as [r t] eqn:R.
  pose proof (demo_world (failed_machine_cleaned (Quantity := Z) Options.demo_options demo_settings) (demo_env false) _ _ R) as W.
  destruct r as [p|e|]; [discriminate F| |discriminate F]. destruct W as [A (t1 & t2 & -> & _ & D)].
  exists e, t1, t2. by repeat split.
Defined.


Lemma adopted_machine_matches_witness :
  exists p m, (run demo_adopting demo_launch []).1 = Done p /\
    pm_machine p = Existing m /\ pm_zone p = "westus2-3" /\ (pr ← ma_properties m; claim_tag pr) = Some "np-a1b2c".
Proof.
  assert (F : match (run demo_adopting demo_launch []).1 with
    | Done p => (pm_createIssued p, pm_zone p) | _ => (true, "") end = (false, "westus2-3")) by (vm_compute; reflexivity).
  destruct (run _ demo_launch []) as [r t] eqn:R. destruct r as [p|e|]; [|discriminate F..]. injection F as Ni Zo.
  destruct (demo_world (adopted_machine_matches (Quantity := Z) Options.demo_options demo_settings) demo_adopting _ _ R Ni) as (m & _ & _ & Ad & _).
  exists p, m. split; [reflexivity|]. split; [apply Ad|]. split; [exact Zo|]. apply (ad_claim _ _ _ _ _ _ _ _ Ad).
Defined.

Definition demo_delete : io (@resp string unit) (option (provider_error (E := string))) :=
  Delete Options.demo_options demo_settings (fun _ => mk_call_error false None) VMInstance.demo_claim "np-a1b2c".

End MachineProvider.
