(* ===== verification/NodeClassStatus.v ===== *)
(** * Readiness of a NodeClass ([pkg/controllers/nodeclass/status])

    The reconcilers of the status controller that the other files do not have
    ([status/staticvalidation.go], [localdns.go], [subnet.go]), the controller
    that runs all six ([status/controller.go]), and what a ready class
    guarantees to launches.  What Azure and Kubernetes
    answer during one reconcile is a record of answers; the patches are calls
    of [Effects]. *)

From S2P Require Import Prelude GoString GoSort GoCache Effects Cloud Conditions Unavailable ResourceIDs NodeVersions VirtualMachines VMInstance Options NodeClassSpec Reservation ImageFamily Labels LaunchTemplate.
#[local] Open Scope string_scope.
#[local] Open Scope list_scope.
#[local] Open Scope Z_scope.

Module NodeClassStatus.
Import NodeClassSpec.
Import NodeVersions(Semver, version, LT, SetTrue, SetFalse, IsTrue, nc_conditions, nc_generation).

(** ** Data *)

Definition ConditionTypeSubnetsReady : string := "SubnetsReady".
Definition ConditionTypeValidationSucceeded : string := "ValidationSucceeded".
Definition ConditionTypeLocalDNSReady : string := "LocalDNSReady".
Definition LocalDNSStateDisabled : string := "Disabled".
Definition NetworkPolicyCilium : string := "cilium".
Definition NetworkPolicyCalico : string := "calico".
Definition TerminationFinalizer : string := "karpenter.azure.com/termination".

Definition Minute : Z := 60 * 1000000000.
Definition ValidationSuccessRequeueInterval : Z := 60 * Minute.
Definition ValidationFailureRequeueInterval : Z := Minute.
Definition localDNSPreferredRequeueAfter : Z := 5 * Minute.
Definition healthyRequeueInterval : Z := 3 * Minute.
Definition LocalDNSPreferredK8sVersionThreshold : string := "1.37.0".
Definition konnectivityAgentPolicy : string * string := ("konnectivity-agent", "kube-system").

(** What validation finds wrong; the condition's reason is its name. *)
Inductive reason :=
| FIPSRequired | IncompatibleProvisionMode | SIGRequiredForAzureContainerLinux | WindowsUnsupportedNetworkDataplane
| WindowsUnsupportedProvisionMode | KataPodSandboxingUnsupportedProvisionMode | ManagedGPUUnsupportedProvisionMode
| NodePublicIPUnsupportedProvisionMode | KataRequiresAzureLinux3 | DiskEncryptionSetRBACMissing.
Definition reason_name (r : reason) : string :=
  match r with
  | FIPSRequired => "FIPSRequired" | IncompatibleProvisionMode => "IncompatibleProvisionMode"
  | SIGRequiredForAzureContainerLinux => "SIGRequiredForAzureContainerLinux"
  | WindowsUnsupportedNetworkDataplane => "WindowsUnsupportedNetworkDataplane"
  | WindowsUnsupportedProvisionMode => "WindowsUnsupportedProvisionMode"
  | KataPodSandboxingUnsupportedProvisionMode => "KataPodSandboxingUnsupportedProvisionMode"
  | ManagedGPUUnsupportedProvisionMode => "ManagedGPUUnsupportedProvisionMode"
  | NodePublicIPUnsupportedProvisionMode => "NodePublicIPUnsupportedProvisionMode"
  | KataRequiresAzureLinux3 => "KataRequiresAzureLinux3" | DiskEncryptionSetRBACMissing => "DiskEncryptionSetRBACMissing"
  end.

(** [pass], or [fail] with when to try again (0: not before a change). *)
Inductive validationResult := Pass | Fail (r : reason) (requeueAfter : Z).

(** A resource of the cluster: its group, version and name. *)
Definition GVR : Type := string * string * string.

Definition with_localdns (s : string) (n : AKSNodeClass) : AKSNodeClass :=
  mk_nodeclass (of_launch n) (ImageFamily n) (ImageID n) (VNETSubnetID n) (OSDiskSizeGB n) (OSDiskType n) (FIPSMode n)
    (WorkloadRuntime n) (LocalDNSOf n) (GPUOf n) (ArtifactStreaming n) (Kubelet n) (Some s) (LinuxOSConfig n).

Section Status.
Context `{!ConditionSet, !Semver, !TTLCache, !GoSort}.
(** Errors of Azure and of Kubernetes. *)
Context {E K : Type}.
Variable IsAuthorizationErr : E -> bool.
Variable StatusCode : E -> option Z.
Variable IsNotFound : K -> bool.
Variable IsNoMatchError : K -> bool.
Variable ParseTolerant : string -> option version.
Variable Version : Z -> Z -> version.
(** [ParseTolerant] of [LocalDNSPreferredK8sVersionThreshold], at start-up. *)
Variable localDNSPreferredVersionThreshold : version.
(** The operator's settings. *)
Variable o : Options.Options.
Variable networkPolicy : string.
Variable networkPlugin : string.
Variable parsedDiskEncryptionSetID : option (string * string).
Variable systemNamespace : string.
Variable subscriptionID : string.
Variable location : string.
Variable ParseTime : string -> result string Z.
Variable ParseResourceID : string -> option Reservation.ResourceID.

(** What the reconcilers read and write: the class ([LocalDNSState] is part of
    its status), its versions, images and conditions, its resolved group; the
    cache of unavailable offerings and what is known of the cloud; the class's
    finalizers. *)
Record State := mk_state {
  s_spec : AKSNodeClass; s_status : NodeVersions.NodeClass; s_group : option Reservation.CapacityReservationGroup;
  s_offerings : Unavailable.UnavailableOfferings; s_unsupported : bool; s_finalizers : list string
}.
Definition set_status (nc : NodeVersions.NodeClass) (s : State) : State :=
  mk_state (s_spec s) nc (s_group s) (s_offerings s) (s_unsupported s) (s_finalizers s).
Definition set_spec (n : AKSNodeClass) (s : State) : State :=
  mk_state n (s_status s) (s_group s) (s_offerings s) (s_unsupported s) (s_finalizers s).
Definition set_finalizers (l : list string) (s : State) : State :=
  mk_state (s_spec s) (s_status s) (s_group s) (s_offerings s) (s_unsupported s) l.
Definition Get (t : string) (s : State) : Condition := NodeVersions.Get t (s_status s).
Definition set_true (t : string) (s : State) : State := set_status (SetTrue t (s_status s)) s.
Definition set_false (t r : string) (s : State) : State := set_status (SetFalse t r (s_status s)) s.

Inductive failure :=
| ErrVersions (e : NodeVersions.reconcile_error) | ErrNotReady (e : NodeVersions.not_ready) | ErrParseVersion (v : string)
| ErrKube (e : K) | ErrAzure (e : E) | ErrReservation (e : string).

(** When to come back, and the error. *)
Definition outcome : Type := Z * option failure.

(** What Azure and Kubernetes answer during one reconcile.  Lists of policies
    and of resources are asked for with a limit. *)
Record Answers := mk_answers {
  a_now : Z;
  KubeServerVersion : result string string;
  IsSupported : string -> result string bool;
  ListImages : NodeVersions.NodeClass -> result string (list NodeVersions.ListedImage);
  MaintenanceWindow : result string (option (gmap string string));
  GetSubnet : string -> string -> string -> result E unit;
  GetDiskEncryptionSet : string -> string -> result E unit;
  ListNetworkPolicies : nat -> result K (list (string * string));
  ListResource : GVR -> nat -> result K (list string);
  GetNodeLocalDNS : result K unit;
  GetGroup : string -> string -> result Reservation.azError Reservation.armGroup;
  ListReservations : string -> string -> list (result Reservation.azError (list (option Reservation.armReservation)));
  ListInstanceTypes : Reservation.State -> result string (list string)
}.

(** ** Static validation ([staticvalidation.go]) *)

Definition incompatibleACLConfiguration (n : AKSNodeClass) : option reason :=
  if from_ptr "" (ImageFamily n) !=? AzureContainerLinuxImageFamily then None
  else if negb (Options.IsAKSMachineAPIMode o) then Some IncompatibleProvisionMode
  else if negb (Options.UseSIG o) then Some SIGRequiredForAzureContainerLinux
  else None.
Definition fail (r : reason) : result failure validationResult := Ok (Fail r 0).
Definition pass : result failure validationResult := Ok Pass.

Definition validateACLConfiguration (s : State) : result failure validationResult :=
  match incompatibleACLConfiguration (s_spec s) with Some r => fail r | None => pass end.
Definition validateFIPS (s : State) : result failure validationResult :=
  if Options.EnableFIPS o && (from_ptr "" (FIPSMode (s_spec s)) !=? FIPSModeFIPS) then fail FIPSRequired else pass.
Definition validateWindowsCompatibility (s : State) : result failure validationResult :=
  if negb (IsWindowsImageFamily (from_ptr "" (ImageFamily (s_spec s)))) then pass
  else if Options.NetworkDataplane o ==? Options.NetworkDataplaneCilium then fail WindowsUnsupportedNetworkDataplane
  else if negb (Options.IsAKSMachineAPIMode o) then fail WindowsUnsupportedProvisionMode
  else pass.
Definition validateKataProvisionMode (s : State) : result failure validationResult :=
  if IsKataEnabled (s_spec s) && negb (Labels.SupportsWorkloadRuntime o) then fail KataPodSandboxingUnsupportedProvisionMode else pass.
Definition validateManagedGPUProvisionMode (s : State) : result failure validationResult :=
  if IsManagedGPUEnabled (s_spec s) && negb (Options.IsAKSMachineAPIMode o) then fail ManagedGPUUnsupportedProvisionMode else pass.
Definition validateNodePublicIPProvisionMode (s : State) : result failure validationResult :=
  let c := of_launch (s_spec s) in
  let publicIPRequiresMachineAPI :=
    negb (Nat.eqb (length (VMInstance.GetNodePublicIPPrefixIDs c)) 0) || negb (Nat.eqb (length (VMInstance.GetNodePublicIPTags c)) 0) in
  if VMInstance.IsNodePublicIPEnabled c && (negb (Labels.SupportsNodePublicIP o) || (publicIPRequiresMachineAPI && negb (Options.IsAKSMachineAPIMode o)))
  then fail NodePublicIPUnsupportedProvisionMode else pass.
Definition validateKataImageFamily (s : State) : result failure validationResult :=
  if IsKataEnabled (s_spec s) && (from_ptr "" (ImageFamily (s_spec s)) ==? AzureLinuxImageFamily) then
    match NodeVersions.GetKubernetesVersion (s_status s) with
    | Err e => Err (ErrNotReady e)
    | Ok kubernetesVersion =>
        if negb (ImageFamily.UseAzureLinux3 ParseTolerant Version kubernetesVersion) then fail KataRequiresAzureLinux3 else pass
    end
  else pass.
Definition validateDiskEncryptionSetRBAC (a : Answers) (_ : State) : result failure validationResult :=
  match parsedDiskEncryptionSetID with
  | None => pass
  | Some (resourceGroup, name) =>
      match GetDiskEncryptionSet a resourceGroup name with
      | Ok _ => pass
      | Err e => if IsAuthorizationErr e then Ok (Fail DiskEncryptionSetRBACMissing ValidationFailureRequeueInterval)
                 else Err (ErrAzure e)
      end
  end.

Fixpoint run_validators (l : list (State -> result failure validationResult)) (s : State) : outcome * State :=
  match l with
  | [] => ((ValidationSuccessRequeueInterval, None), set_true ConditionTypeValidationSucceeded s)
  | validate :: l =>
      match validate s with
      | Err e => ((0, Some e), s)
      | Ok (Fail r requeueAfter) => ((requeueAfter, None), set_false ConditionTypeValidationSucceeded (reason_name r) s)
      | Ok Pass => run_validators l s
      end
  end.
Definition validators (a : Answers) : list (State -> result failure validationResult) :=
  [validateFIPS; validateACLConfiguration; validateWindowsCompatibility; validateKataProvisionMode; validateManagedGPUProvisionMode;
   validateNodePublicIPProvisionMode; validateKataImageFamily; validateDiskEncryptionSetRBAC a].
Definition Validation_Reconcile (a : Answers) (s : State) : outcome * State := run_validators (validators a) s.

(** ** LocalDNS ([localdns.go]) *)

Definition hasUpstreamNodeLocalDNS (a : Answers) : result K bool :=
  match GetNodeLocalDNS a with
  | Ok _ => Ok true
  | Err e => if IsNotFound e then Ok false else Err e
  end.
Definition hasConflictingK8sNetworkPolicies (a : Answers) : result K bool :=
  match ListNetworkPolicies a 2 with
  | Err e => Err e
  | Ok policies => Ok (existsb (fun p => p !=? konnectivityAgentPolicy) policies)
  end.
Definition crdResources (networkPolicyType : string) : list GVR :=
  if EqualFold networkPolicyType NetworkPolicyCilium then
    [("cilium.io", "v2", "ciliumnetworkpolicies"); ("cilium.io", "v2", "ciliumclusterwidenetworkpolicies")]
  else if EqualFold networkPolicyType NetworkPolicyCalico then
    [("crd.projectcalico.org", "v1", "networkpolicies"); ("crd.projectcalico.org", "v1", "globalnetworkpolicies")]
  else [].
Fixpoint any_listed (a : Answers) (l : list GVR) : result K bool :=
  match l with
  | [] => Ok false
  | gvr :: l =>
      match ListResource a gvr 1 with
      | Err e => if IsNotFound e || IsNoMatchError e then any_listed a l else Err e
      | Ok items => if Nat.ltb 0 (length items) then Ok true else any_listed a l
      end
  end.
Definition hasConflictingCRDNetworkPolicies (a : Answers) (networkPolicyType : string) : result K bool :=
  any_listed a (crdResources networkPolicyType).
Definition hasConflictingNetworkPolicies (a : Answers) (networkPolicyType : string) : result K bool :=
  match hasConflictingK8sNetworkPolicies a with
  | Ok false => hasConflictingCRDNetworkPolicies a networkPolicyType
  | r => r
  end.
Definition meetsClusterRequirements (a : Answers) : result K bool :=
  let upstream := match hasUpstreamNodeLocalDNS a with Err e => Err e | Ok has => Ok (negb has) end in
  if EqualFold networkPolicy NetworkPolicyCilium || EqualFold networkPolicy NetworkPolicyCalico then
    match hasConflictingNetworkPolicies a networkPolicy with
    | Err e => Err e
    | Ok true => Ok false
    | Ok false => upstream
    end
  else upstream.
Definition meetsStaticRequirements (s : State) : result failure bool :=
  match NodeVersions.GetKubernetesVersion (s_status s) with
  | Err e => Err (ErrNotReady e)
  | Ok k8sVersion =>
      if k8sVersion ==? "" then Ok false
      else
        match ParseTolerant (TrimPrefix k8sVersion "v") with
        | None => Err (ErrParseVersion k8sVersion)
        | Some parsed =>
            let n := s_spec s in
            Ok (negb (LT parsed localDNSPreferredVersionThreshold) && negb (EqualFold networkPlugin VMInstance.NetworkPluginNone) &&
                negb (ImageFamily.ResolvesToUbuntu2004 ParseTolerant Version (ImageFamily n) (FIPSMode n) (IsTrustedLaunchEnabled n) k8sVersion))
        end
  end.

Definition set_localdns (state : string) (s : State) : State :=
  set_true ConditionTypeLocalDNSReady (set_spec (with_localdns state (s_spec s)) s).
Definition localdns_failed (e : failure) (s : State) : outcome * State :=
  ((0, Some e), set_false ConditionTypeLocalDNSReady "CheckingClusterRequirementsFailed" s).

Definition reconcilePreferred (a : Answers) (s : State) : outcome * State :=
  if LocalDNSState (s_spec s) ==? Some LocalDNSStateEnabled then ((0, None), set_true ConditionTypeLocalDNSReady s)
  else
    match meetsStaticRequirements s with
    | Err e => localdns_failed e s
    | Ok false => ((localDNSPreferredRequeueAfter, None), set_localdns LocalDNSStateDisabled s)
    | Ok true =>
        match meetsClusterRequirements a with
        | Err e => localdns_failed (ErrKube e) s
        | Ok ok => ((localDNSPreferredRequeueAfter, None),
                    set_localdns (if ok then LocalDNSStateEnabled else LocalDNSStateDisabled) s)
        end
    end.
Definition LocalDNS_Reconcile (a : Answers) (s : State) : outcome * State :=
  match LocalDNSOf (s_spec s) with
  | None => ((0, None), set_localdns LocalDNSStateDisabled s)
  | Some d =>
      if Mode d ==? "" then ((0, None), set_localdns LocalDNSStateDisabled s)
      else if Mode d ==? LocalDNSModeRequired then ((0, None), set_localdns LocalDNSStateEnabled s)
      else if Mode d ==? LocalDNSModeDisabled then ((0, None), set_localdns LocalDNSStateDisabled s)
      else if Mode d ==? LocalDNSModePreferred then reconcilePreferred a s
      else ((0, None), set_localdns LocalDNSStateDisabled s)
  end.

(** ** Subnets ([subnet.go]) *)

Definition subnet_false (r : string) (s : State) : State := set_false ConditionTypeSubnetsReady r s.
Definition validateVNETSubnetID (a : Answers) (s : State) : outcome * State :=
  let clusterSubnetID := Options.SubnetID o in
  let subnetID := match VNETSubnetID (s_spec s) with Some id => id | None => clusterSubnetID end in
  match ResourceIDs.GetVnetSubnetIDComponents subnetID with
  | Err _ => ((0, None), subnet_false "SubnetIDInvalid" s)
  | Ok nodeClassSubnet =>
      let get :=
        match GetSubnet a (ResourceIDs.ResourceGroupName nodeClassSubnet) (ResourceIDs.VNetName nodeClassSubnet)
                (ResourceIDs.SubnetName nodeClassSubnet) with
        | Ok _ => ((healthyRequeueInterval, None), set_true ConditionTypeSubnetsReady s)
        | Err e =>
            if StatusCode e ==? Some 404 then ((Minute, Some (ErrAzure e)), subnet_false "SubnetNotFound" s)
            else ((0, Some (ErrAzure e)), subnet_false "SubnetUnknownError" s)
        end in
      if subnetID ==? clusterSubnetID then get
      else
        match ResourceIDs.GetVnetSubnetIDComponents clusterSubnetID with
        | Err _ => ((0, None), s)
        | Ok clusterSubnet =>
            match ResourceIDs.IsAKSManagedVNET (Options.NodeResourceGroup o) clusterSubnetID with
            | Err _ => ((0, None), s)
            | Ok isClusterManagedVNET =>
                if isClusterManagedVNET && ResourceIDs.IsSameVNET clusterSubnet nodeClassSubnet
                then ((0, None), subnet_false "SubnetIDInvalid" s)
                else if negb (ResourceIDs.IsSameVNET clusterSubnet nodeClassSubnet)
                then ((0, None), subnet_false "SubnetIDInvalid" s)
                else get
            end
        end
  end.

(** ** The status controller ([controller.go]) *)

Definition of_versions (m : option (NodeVersions.outcome * NodeVersions.NodeClass)) (s : State) : option (outcome * State) :=
  '(r, nc) ← m; Some ((NodeVersions.requeueAfter r, ErrVersions <$> NodeVersions.err r), set_status nc s).
Definition reservation_of (s : State) : Reservation.State :=
  Reservation.mk_state (nc_generation (s_status s)) (VirtualMachines.cl_crg (class_of (s_spec s))) (s_group s) (nc_conditions (s_status s))
    (s_offerings s) (s_unsupported s).
Definition of_reservation (m : Reservation.outcome * Reservation.State) (s : State) : outcome * State :=
  let r := m.2 in
  ((m.1.1, ErrReservation <$> m.1.2),
   mk_state (s_spec s) (NodeVersions.set_conditions (Reservation.conds r) (s_status s)) (Reservation.group r) (Reservation.offerings r)
     (Reservation.unsupportedCloud r) (s_finalizers s)).

(** The six reconcilers in their order; [None] is a panic. *)
Definition reconcilers (a : Answers) : list (State -> option (outcome * State)) := [
  (fun s => of_versions (NodeVersions.KubernetesVersion_Reconcile (KubeServerVersion a) (IsSupported a) (s_status s)) s);
  (fun s => of_versions (NodeVersions.NodeImage_Reconcile (ListImages a) (Options.UseSIG o) systemNamespace ParseTime (MaintenanceWindow a) (a_now a) (s_status s)) s);
  (fun s => Some (validateVNETSubnetID a s));
  (fun s => Some (Validation_Reconcile a s));
  (fun s => Some (LocalDNS_Reconcile a s));
  (fun s => Some (of_reservation (Reservation.Reconcile subscriptionID location ParseResourceID (GetGroup a) (ListReservations a)
                    (ListInstanceTypes a) (a_now a) (reservation_of s)) s)) ].
Fixpoint run_reconcilers (l : list (State -> option (outcome * State))) (s : State) : option (list outcome * State) :=
  match l with
  | [] => Some ([], s)
  | r :: l => '(x, s1) ← r s; '(xs, s2) ← run_reconcilers l s1; Some (x :: xs, s2)
  end.

(** The patches: of the class's finalizers, and of its status, which fails
    when the class changed meanwhile. *)
Inductive req := PatchFinalizers (l : list string) | PatchStatus (s : State).
Definition resp (_ : req) : Type := result K unit.
#[local] Abbreviation io := (io resp).

(** [Semantic.DeepEqual], and [result.Min] over what the reconcilers ask for. *)
Variable DeepEqual : State -> State -> bool.
Variable Min : list Z -> Z.

Definition AddFinalizer (s : State) : State := set_finalizers (s_finalizers s ++ [TerminationFinalizer]) s.
Definition errors (l : list outcome) : list failure := omap snd l.

Definition reconcile_status (a : Answers) (s : State) : io (option ((Z * list failure) * State)) :=
  match run_reconcilers (reconcilers a) s with
  | None => mret None
  | Some (results, s1) =>
      '(s2, patch) ← (if DeepEqual s s1 then mret (s1, [])
        else
          let s2 := set_status (NodeVersions.snapshotRecentlyUsed (a_now a) (s_status s) (s_status s1)) s1 in
          p ← call (PatchStatus s2);
          mret (s2, match p with Ok _ => [] | Err e => if IsNotFound e then [] else [ErrKube e] end));
      let errs := errors results ++ patch in
      mret (Some ((match errs with [] => Min (map fst results) | _ => 0 end, errs), s2))
  end.
Definition Reconcile (a : Answers) (s : State) : io (option ((Z * list failure) * State)) :=
  if bool_decide (TerminationFinalizer ∈ s_finalizers s) then reconcile_status a s
  else
    let s1 := AddFinalizer s in
    p ← call (PatchFinalizers (s_finalizers s1));
    match p with
    | Err e => mret (Some ((0, [ErrKube e]), s1))
    | Ok _ => reconcile_status a s1
    end.

End Status.

(** ** What the reconcilers leave alone *)

Section Frames.
Context `{!ConditionSet, !ConditionLaws, !Semver, !GoSort}.

(** The generation stays, and of the conditions at most these change. *)
Definition frame (cs : list string) (nc nc' : NodeVersions.NodeClass) : Prop :=
  nc_generation nc' = nc_generation nc /\
  forall t, t ∉ cs -> t <> RootCondition -> NodeVersions.Get t nc' = NodeVersions.Get t nc.
Lemma frame_refl cs nc : frame cs nc nc.
Proof using Type. by split. Qed.
Lemma frame_trans cs nc nc1 nc2 : frame cs nc nc1 -> frame cs nc1 nc2 -> frame cs nc nc2.
Proof using Type. intros [G1 W1] [G2 W2]. split; [by rewrite G2|]. intros t N R. by rewrite W2, W1. Qed.
Lemma frame_false cs nc nc1 t r : t ∈ cs -> frame cs nc nc1 -> frame cs nc (SetFalse t r nc1).
Proof using Type*.
  intros I [G W]. split; [done|]. intros t' N R. rewrite <- W by done.
  unfold NodeVersions.Get, SetFalse. simpl. apply get_false_ne; [by intros <-|done].
Qed.
Lemma frame_true cs nc nc1 t r : t ∈ cs -> frame cs nc nc1 -> frame cs nc (NodeVersions.SetTrueWithReason t r nc1).
Proof using Type*.
  intros I [G W]. split; [done|]. intros t' N R. rewrite <- W by done.
  unfold NodeVersions.Get, NodeVersions.SetTrueWithReason. simpl. apply get_true_ne; [by intros <-|done].
Qed.
Lemma frame_images cs nc nc1 l : frame cs nc nc1 -> frame cs nc (NodeVersions.set_images l nc1).
Proof using Type. done. Qed.
Lemma frame_observed cs nc nc1 v : frame cs nc nc1 -> frame cs nc (NodeVersions.set_observed v nc1).
Proof using Type. done. Qed.
Lemma frame_kubernetes cs nc nc1 v : frame cs nc nc1 -> frame cs nc (NodeVersions.set_kubernetes v nc1).
Proof using Type. done. Qed.

Create HintDb frame.
#[local] Hint Resolve frame_refl frame_false frame_true frame_images frame_observed frame_kubernetes : frame.
#[local] Ltac frames := simplify_eq; eauto 20 with frame; try (by repeat constructor).

Definition version_conditions : list string := [NodeVersions.ConditionTypeKubernetesVersionReady; NodeVersions.ConditionTypeImagesReady].
Lemma kubernetes_in : NodeVersions.ConditionTypeKubernetesVersionReady ∈ version_conditions.
Proof using Type. left. Qed.
Lemma images_in : NodeVersions.ConditionTypeImagesReady ∈ version_conditions.
Proof using Type. right. left. Qed.
#[local] Hint Resolve kubernetes_in images_in : frame.

Lemma kubernetes_frame server supported nc r nc' :
  NodeVersions.KubernetesVersion_Reconcile server supported nc = Some (r, nc') -> frame version_conditions nc nc'.
Proof using Type*.
  unfold NodeVersions.KubernetesVersion_Reconcile, NodeVersions.validatePinnedK8sVersion, NodeVersions.validateKubernetesVersionSkew,
    NodeVersions.validateCurrentOrLatestImagePin, NodeVersions.publish_kubernetes, NodeVersions.observe_control_plane, SetTrue.
  intros Q. repeat case_match; frames.
Qed.
Lemma settle_frame ns parse window now goal latest req should nc r nc' :
  NodeVersions.settle_images ns parse window now goal latest req should nc = Some (r, nc') -> frame version_conditions nc nc'.
Proof using Type*.
  unfold NodeVersions.settle_images, NodeVersions.publish_images, SetTrue. intros Q. repeat case_match; frames.
Qed.
Lemma image_frame listed useSIG ns parse window now nc r nc' :
  NodeVersions.NodeImage_Reconcile listed useSIG ns parse window now nc = Some (r, nc') -> frame version_conditions nc nc'.
Proof using Type*.
  unfold NodeVersions.NodeImage_Reconcile, NodeVersions.reconcileCustomImage, NodeVersions.clear_latest,
    NodeVersions.validatePinning, NodeVersions.validateRollback, NodeVersions.applyImagePinning.
  intros Q. repeat case_match; frames.
  all: eapply frame_trans; [|by eapply settle_frame]; frames.
Qed.

Section Reservations.
Context `{!TTLCache}.
Lemma reservation_frame sub loc parse get pages types now (r : Reservation.State) t :
  t <> Reservation.ConditionTypeCapacityReservationGroupReady -> t <> RootCondition ->
  cond_get t (Reservation.conds (Reservation.Reconcile sub loc parse get pages types now r).2) = cond_get t (Reservation.conds r).
Proof using Type*.
  intros N R. unfold Reservation.Reconcile, Reservation.get_failed, Reservation.list_failed, Reservation.judge, Reservation.resolve, Reservation.setFalse.
  repeat case_match; cbn; rewrite ?get_false_ne, ?get_true_ne, ?get_clear_ne by done; try done; cbn.
Qed.
End Reservations.

End Frames.

(** ** Theorems *)

Section Theorems.
Context `{!ConditionSet, !ConditionLaws, !Semver, !TTLCache, !GoSort} {E K : Type}.
Variable IsAuthorizationErr : E -> bool.
Variable StatusCode : E -> option Z.
Variable IsNotFound IsNoMatchError : K -> bool.
Variable ParseTolerant : string -> option version.
Variable Version : Z -> Z -> version.
Variable threshold : version.
Variable o : Options.Options.
Variable networkPolicy networkPlugin : string.
Variable parsedDiskEncryptionSetID : option (string * string).
Variable systemNamespace subscriptionID location : string.
Variable ParseTime : string -> result string Z.
Variable ParseResourceID : string -> option Reservation.ResourceID.
Variable DeepEqual : State -> State -> bool.
Variable Min : list Z -> Z.
#[local] Abbreviation Answers := (Answers (E := E) (K := K)).
#[local] Abbreviation all_reconcilers := (reconcilers IsAuthorizationErr StatusCode IsNotFound IsNoMatchError ParseTolerant Version
  threshold o networkPolicy networkPlugin parsedDiskEncryptionSetID systemNamespace subscriptionID location ParseTime ParseResourceID).
#[local] Abbreviation Reconcile := (Reconcile IsAuthorizationErr StatusCode IsNotFound IsNoMatchError ParseTolerant Version
  threshold o networkPolicy networkPlugin parsedDiskEncryptionSetID systemNamespace subscriptionID location ParseTime ParseResourceID
  DeepEqual Min).
#[local] Abbreviation LocalDNS := (LocalDNS_Reconcile IsNotFound IsNoMatchError ParseTolerant Version threshold networkPolicy networkPlugin).

(** *** One reconciler after the other *)

Lemma run_reconcilers_keeps (P : State -> Prop) (l : list (State -> option (outcome (E := E) (K := K) * State))) s xs s' :
  Forall (fun f => forall s x s', P s -> f s = Some (x, s') -> P s') l -> P s -> run_reconcilers l s = Some (xs, s') -> P s'.
Proof using Type.
  intros F. revert s xs. induction F as [|f l Pf _ IH]; intros s xs Ps R; cbn [run_reconcilers] in R; [by simplify_eq|].
  destruct (f s) as [[x s1]|] eqn:F1; [|done]. cbn in R. destruct (run_reconcilers l s1) as [[ys s2]|] eqn:R1; [|done].
  cbn in R. simplify_eq. eapply IH; [|exact R1]. by eapply Pf.
Qed.

(** What the status controller keeps of a state: the specification, up to the
    resolved LocalDNS state, and the generation. *)
Definition same_spec (n n' : AKSNodeClass) : Prop := n' = n \/ exists st, n' = with_localdns st n.

Lemma versions_keep (t : string) m s (x : outcome (E := E) (K := K)) s' :
  (forall r nc, m = Some (r, nc) -> frame version_conditions (s_status s) nc) -> t ∉ version_conditions -> t <> RootCondition ->
  of_versions m s = Some (x, s') ->
  s_spec s' = s_spec s /\ nc_generation (s_status s') = nc_generation (s_status s) /\ Get t s' = Get t s.
Proof using Type.
  intros F N R Q. unfold of_versions in Q. destruct m as [[r nc]|]; [|done]. cbn in Q. simplify_eq.
  destruct (F r nc eq_refl) as [G W]. split; [done|]. split; [done|]. by apply W.
Qed.
Lemma set_true_ne t t' s : t <> t' -> t' <> RootCondition -> Get t' (set_true t s) = Get t' s.
Proof using Type*. intros N R. by apply get_true_ne. Qed.
Lemma set_false_ne t t' r s : t <> t' -> t' <> RootCondition -> Get t' (set_false t r s) = Get t' s.
Proof using Type*. intros N R. by apply get_false_ne. Qed.

(** *** Validation *)

#[local] Abbreviation Validation := (Validation_Reconcile (K := K) IsAuthorizationErr ParseTolerant Version o parsedDiskEncryptionSetID).

(** What a provision mode, a dataplane and a gallery can carry. *)
Record supported (n : AKSNodeClass) : Prop := {
  su_fips : Options.EnableFIPS o = true -> FIPSMode n = Some FIPSModeFIPS;
  su_acl : ImageFamily n = Some AzureContainerLinuxImageFamily -> Options.IsAKSMachineAPIMode o = true /\ Options.UseSIG o = true;
  su_windows : IsWindowsImageFamily (from_ptr "" (ImageFamily n)) = true ->
    Options.NetworkDataplane o <> Options.NetworkDataplaneCilium /\ Options.IsAKSMachineAPIMode o = true;
  su_kata : IsKataEnabled n = true -> Labels.SupportsWorkloadRuntime o = true;
  su_gpu : IsManagedGPUEnabled n = true -> Options.IsAKSMachineAPIMode o = true;
  su_public_ip : VMInstance.IsNodePublicIPEnabled (of_launch n) = true -> Labels.SupportsNodePublicIP o = true;
  su_prefixes : VMInstance.GetNodePublicIPPrefixIDs (of_launch n) <> [] \/ VMInstance.GetNodePublicIPTags (of_launch n) <> [] ->
    Options.IsAKSMachineAPIMode o = true
}.

Lemma supported_localdns n st : supported n -> supported (with_localdns st n).
Proof using Type. intros []. by split. Qed.

Lemma run_validators_cases l s (r : outcome (E := E) (K := K)) s' : run_validators l s = (r, s') ->
  s' = s \/ (exists q, s' = set_false ConditionTypeValidationSucceeded q s) \/
  (s' = set_true ConditionTypeValidationSucceeded s /\ Forall (fun v => v s = Ok Pass) l).
Proof using Type.
  induction l as [|v l IH]; cbn [run_validators]; intros Q; [simplify_eq; by do 2 right|].
  destruct (v s) as [[|q d]|e] eqn:V; simplify_eq; [|right; left; by eexists|by left].
  destruct (IH Q) as [?|[?|[? F]]]; [by left|by right; left|do 2 right; split; [done|by constructor]].
Qed.

Lemma no_public_ip c : VMInstance.GetNodePublicIPPrefixIDs c <> [] \/ VMInstance.GetNodePublicIPTags c <> [] ->
  VMInstance.IsNodePublicIPEnabled c = true.
Proof using Type.
  unfold VMInstance.GetNodePublicIPPrefixIDs, VMInstance.GetNodePublicIPTags. destruct (VMInstance.lc_nodePublicIP c) as [[[? ?] ?]|];
    [|by intros []]. destruct (VMInstance.IsNodePublicIPEnabled c); [done|by intros []].
Qed.

Lemma passed_supported a s : Forall (fun v => v s = Ok Pass)
    (validators (E := E) (K := K) IsAuthorizationErr ParseTolerant Version o parsedDiskEncryptionSetID a) -> supported (s_spec s).
Proof using Type.
  unfold validators. rewrite !Forall_cons. intros (V1 & V2 & V3 & V4 & V5 & V6 & _ & _ & _). split.
  - unfold validateFIPS in V1. intros Q. rewrite Q in V1. cbn [andb] in V1. destruct (FIPSMode (s_spec s)) as [m|]; cbn in V1;
      case_bool_decide; [by subst|done..].
  - unfold validateACLConfiguration, incompatibleACLConfiguration in V2. intros Q. rewrite Q in V2. cbn -[Options.IsAKSMachineAPIMode] in V2.
    destruct (Options.IsAKSMachineAPIMode o); [|done]. by destruct (Options.UseSIG o).
  - unfold validateWindowsCompatibility in V3. intros Q. rewrite Q in V3. cbn [negb] in V3. case_bool_decide as D; [done|].
    split; [done|]. by destruct (Options.IsAKSMachineAPIMode o).
  - unfold validateKataProvisionMode in V4. intros Q. rewrite Q in V4. by destruct (Labels.SupportsWorkloadRuntime o).
  - unfold validateManagedGPUProvisionMode in V5. intros Q. rewrite Q in V5. by destruct (Options.IsAKSMachineAPIMode o).
  - unfold validateNodePublicIPProvisionMode in V6. intros Q. rewrite Q in V6. by destruct (Labels.SupportsNodePublicIP o).
  - intros Q. unfold validateNodePublicIPProvisionMode in V6. rewrite (no_public_ip _ Q) in V6.
    destruct (Options.IsAKSMachineAPIMode o); [done|]. cbn [negb andb] in V6. rewrite andb_true_r in V6.
    destruct (VMInstance.GetNodePublicIPPrefixIDs (of_launch (s_spec s))) eqn:P1, (VMInstance.GetNodePublicIPTags (of_launch (s_spec s))) eqn:P2;
      cbn in V6; rewrite ?orb_true_r in V6; [by destruct Q|done..].
Qed.

(** *** Whatever is kept by every reconciler is kept by the controller *)

Lemma snapshot_frame now old new : frame [] new (NodeVersions.snapshotRecentlyUsed now old new).
Proof using Type. unfold NodeVersions.snapshotRecentlyUsed. repeat case_match; by split. Qed.

Lemma reconcile_keeps (P : State -> Prop) a s :
  Forall (fun f => forall s x s', P s -> f s = Some (x, s') -> P s') (all_reconcilers a) ->
  (forall s l, P s -> P (set_finalizers l s)) -> (forall s nc, frame [] (s_status s) nc -> P s -> P (set_status nc s)) ->
  P s -> post (Reconcile a s) (fun r _ => match r with Some (_, s') => P s' | None => True end).
Proof using Type.
  intros F Fi St. assert (R : forall s, P s -> post (reconcile_status IsAuthorizationErr StatusCode IsNotFound IsNoMatchError ParseTolerant
    Version threshold o networkPolicy networkPlugin parsedDiskEncryptionSetID systemNamespace subscriptionID location ParseTime
    ParseResourceID DeepEqual Min a s) (fun r _ => match r with Some (_, s') => P s' | None => True end)).
  { clear s. intros s Ps. unfold reconcile_status. destruct (run_reconcilers _ s) as [[xs s1]|] eqn:Q; [|by io_step].
    assert (P1 : P s1) by by eapply run_reconcilers_keeps. io_step. destruct (DeepEqual s s1); [io_step; cbv beta iota; by io_step|].
    io_step. io_step. io_step. cbv beta iota. io_step. apply St; [apply snapshot_frame|done]. }
  intros Ps. unfold NodeClassStatus.Reconcile. case_bool_decide; [by apply R|]. io_step. io_step.
  destruct r as [u|e]; [|io_step; by apply Fi]. by apply R, Fi.
Qed.

(** A reconciler that keeps the condition [t], the generation and, up to [R],
    the specification. *)
Definition keeps (R : AKSNodeClass -> AKSNodeClass -> Prop) (t : string) (f : State -> option (outcome (E := E) (K := K) * State)) : Prop := forall s x s', f s = Some (x, s') ->
  R (s_spec s) (s_spec s') /\ nc_generation (s_status s') = nc_generation (s_status s) /\ Get t s' = Get t s.

Lemma keeps_versions t (m : State -> option (NodeVersions.outcome * NodeVersions.NodeClass)) : t ∉ version_conditions -> t <> RootCondition ->
  (forall s r nc, m s = Some (r, nc) -> frame version_conditions (s_status s) nc) -> keeps eq t (fun s => of_versions (m s) s).
Proof using Type. intros N R F s x s' Q. destruct (versions_keep t (m s) s x s' (F s) N R Q) as (-> & G & W). by split. Qed.
Lemma keeps_subnet t a : t <> ConditionTypeSubnetsReady -> t <> RootCondition -> keeps eq t (fun s => Some (validateVNETSubnetID StatusCode o a s)).
Proof using Type*.
  intros N R s x s' Q. injection Q as Q. unfold validateVNETSubnetID, subnet_false in Q.
  repeat case_match; simplify_eq; (split; [done|]); (split; [done|]); rewrite ?set_true_ne, ?set_false_ne by done; done.
Qed.
Lemma keeps_validation t a : t <> ConditionTypeValidationSucceeded -> t <> RootCondition -> keeps eq t (fun s => Some (Validation a s)).
Proof using Type*.
  intros N R s x s' Q. injection Q as Q. apply run_validators_cases in Q as [->|[[q ->]|[-> _]]];
    (split; [done|]); (split; [done|]); rewrite ?set_true_ne, ?set_false_ne by done; done.
Qed.
Lemma keeps_localdns t a : t <> ConditionTypeLocalDNSReady -> t <> RootCondition -> keeps same_spec t (fun s => Some (LocalDNS a s)).
Proof using Type*.
  intros N R s x s' Q. injection Q as Q. unfold LocalDNS_Reconcile, reconcilePreferred, localdns_failed, set_localdns in Q.
  repeat case_match; simplify_eq; (split; [first [by left|right; by eexists]|]); (split; [done|]);
    rewrite ?set_true_ne, ?set_false_ne by done; done.
Qed.
Lemma keeps_reservation t sub loc parse get pages types now :
  t <> Reservation.ConditionTypeCapacityReservationGroupReady -> t <> RootCondition ->
  keeps eq t (fun s => Some (of_reservation (Reservation.Reconcile sub loc parse get pages types now (reservation_of s)) s)).
Proof using Type*.
  intros N R s x s' Q. unfold of_reservation in Q. simplify_eq.
  split; [done|]. split; [done|]. by apply reservation_frame.
Qed.

(** *** The life of a class *)

(** Users edit the specification, which raises the generation; the controller
    reconciles, under any answers and any fate of its patches; a patch that
    failed leaves the class as it was, and what the controller has in memory as
    it is. *)
Inductive step : State -> State -> Prop :=
| step_edit s n nc :
    LocalDNSState n = LocalDNSState (s_spec s) -> nc_generation (s_status s) < nc_generation nc ->
    nc_conditions nc = nc_conditions (s_status s) -> step s (set_spec n (set_status nc s))
| step_reconcile a env x s s' : (run env (Reconcile a s) []).1 = Some (x, s') -> step s s'
| step_lost a env x s s' : (run env (Reconcile a s) []).1 = Some (x, s') ->
    step s (mk_state (s_spec s) (s_status s) (s_group s) (s_offerings s') (s_unsupported s') (s_finalizers s)).

Lemma reconcile_run (P : State -> Prop) a env s x s' :
  post (Reconcile a s) (fun r _ => match r with Some (_, s') => P s' | None => True end) ->
  (run env (Reconcile a s) []).1 = Some (x, s') -> P s'.
Proof using Type. intros W R. apply (post_run _ _ env []) in W as (t & _ & W). by rewrite R in W. Qed.

(** A condition that holds for the specification of now. *)
Definition holds_now (t : string) (s : State) : Prop :=
  IsTrue (Get t s) = true /\ c_generation (Get t s) = nc_generation (s_status s).
Definition checked (s : State) : Prop :=
  c_generation (Get ConditionTypeValidationSucceeded s) <= nc_generation (s_status s) /\
  (holds_now ConditionTypeValidationSucceeded s -> supported (s_spec s)).

Lemma checked_keeps s s' : same_spec (s_spec s) (s_spec s') -> nc_generation (s_status s') = nc_generation (s_status s) ->
  Get ConditionTypeValidationSucceeded s' = Get ConditionTypeValidationSucceeded s -> checked s -> checked s'.
Proof using Type.
  intros S G W [L C]. unfold checked, holds_now. rewrite G, W. split; [done|]. intros Q. destruct S as [->|[st ->]]; [by apply C|].
  by apply supported_localdns, C.
Qed.
Lemma keeps_checked (R : AKSNodeClass -> AKSNodeClass -> Prop) f : (forall n n', R n n' -> same_spec n n') -> keeps R ConditionTypeValidationSucceeded f ->
  forall s x s', checked s -> f s = Some (x, s') -> checked s'.
Proof using Type. intros I Kf s x s' C Q. destruct (Kf s x s' Q) as (S & G & W). eapply checked_keeps; [by apply I|done..]. Qed.
Lemma eq_same_spec n n' : n = n' -> same_spec n n'.
Proof using Type. intros ->. by left. Qed.

Lemma validation_checks a s x s' : checked s -> Some (Validation a s) = Some (x, s') -> checked s'.
Proof using Type*.
  intros C [= Q]. pose proof Q as Q'. apply run_validators_cases in Q as [->|[[q ->]|[-> F]]]; [done| |].
  - unfold checked, holds_now, Get, set_false. simpl. unfold NodeVersions.Get, SetFalse. simpl. rewrite get_false_eq by done. split; [done|].
    by intros [? _].
  - unfold checked, holds_now, Get, set_true. simpl. unfold NodeVersions.Get, SetTrue, NodeVersions.SetTrueWithReason. simpl.
    rewrite get_true_eq by done. split; [done|]. intros _. by eapply passed_supported.
Qed.

Lemma reconcilers_check a : Forall (fun f => forall s x s', checked s -> f s = Some (x, s') -> checked s') (all_reconcilers a).
Proof using Type*.
  unfold reconcilers. rewrite !Forall_cons. split_and!; [| | | | | |constructor].
  - apply (keeps_checked eq _ eq_same_spec), keeps_versions; [by apply (bool_decide_unpack _)|done|]. intros s r nc. apply kubernetes_frame.
  - apply (keeps_checked eq _ eq_same_spec), keeps_versions; [by apply (bool_decide_unpack _)|done|]. intros s r nc. apply image_frame.
  - by apply (keeps_checked eq _ eq_same_spec), keeps_subnet.
  - apply validation_checks.
  - by apply (keeps_checked same_spec _ (fun _ _ W => W)), keeps_localdns.
  - by apply (keeps_checked eq _ eq_same_spec), keeps_reservation.
Qed.

Lemma checked_reachable s0 s : checked s0 -> rtc step s0 s -> checked s.
Proof using Type*.
  intros C R. induction R as [s|s s1 s2 St _ IH]; [done|]. apply IH. destruct St as [s n nc L G Cd|a env x s s' Q|a env x s s' Q].
  - destruct C as [Le _]. unfold checked, holds_now, Get, NodeVersions.Get. cbn [s_status set_spec set_status s_spec]. rewrite Cd.
    unfold Get, NodeVersions.Get in Le. split; [lia|]. intros [_ Eq]. lia.
  - eapply (reconcile_run checked); [|exact Q]. apply reconcile_keeps; [apply reconcilers_check|done| |done].
    intros s0 nc [G W] C0. apply (checked_keeps s0); [by left|done|by apply W; [apply not_elem_of_nil|]|done].
  - done.
Qed.

(** C9. A validated class can be launched: from a class that was not validated
    yet, through any edits and reconciles, whenever the validation condition is
    true for the specification of now, no launch path refuses the class for
    what the operator cannot carry - Kata and FIPS, Windows with Cilium; and
    outside the AKS machine modes a VM launch gets past the public IP guard, no
    managed GPUs are asked for, and the image family has a bootstrapper,
    whatever the Kubernetes version. *)
Theorem validated_class_launches s0 s : rtc step s0 s ->
  IsTrue (Get ConditionTypeValidationSucceeded s0) = false ->
  c_generation (Get ConditionTypeValidationSucceeded s0) <= nc_generation (s_status s0) ->
  holds_now ConditionTypeValidationSucceeded s ->
  let n := s_spec s in let c := of_launch n in
  IsKataEnabled n && negb (Labels.SupportsWorkloadRuntime o) = false /\
  (Options.EnableFIPS o = true -> FIPSMode n = Some FIPSModeFIPS) /\
  (IsWindowsImageFamily (from_ptr "" (ImageFamily n)) = true -> Options.NetworkDataplane o <> Options.NetworkDataplaneCilium) /\
  (ImageFamily n = Some AzureContainerLinuxImageFamily -> Options.UseSIG o = true) /\
  (Options.IsAKSMachineAPIMode o = false ->
     negb (Nat.eqb (length (VMInstance.GetNodePublicIPPrefixIDs c)) 0) || negb (Nat.eqb (length (VMInstance.GetNodePublicIPTags c)) 0) = false /\
     IsManagedGPUEnabled n = false /\
     forall kubernetesVersion, is_Some (match LaunchTemplate.bootstrap_sku (ImageFamily.GetImageFamily ParseTolerant Version
       (ImageFamily n) (FIPSMode n) (IsTrustedLaunchEnabled n) kubernetesVersion) with Ok sku => Some sku | Err _ => None end)).
Proof using Type*.
  intros R N L Hd. assert (C0 : checked s0) by (split; [done|]; intros [W _]; by rewrite N in W).
  destruct (checked_reachable _ _ C0 R) as [_ S]. specialize (S Hd). destruct S as [Fi Acl Wi Ka Gp Ip Px]. cbv zeta.
  split; [destruct (IsKataEnabled _); [by rewrite Ka|done]|]. split; [exact Fi|]. split; [intros W; by apply Wi|].
  split; [intros W; by apply Acl|]. intros M. split; [|split].
  - destruct (VMInstance.GetNodePublicIPPrefixIDs _); [destruct (VMInstance.GetNodePublicIPTags _); [done|]|];
      rewrite Px in M by first [by left|by right]; discriminate M.
  - destruct (IsManagedGPUEnabled _); [|done]. by rewrite Gp in M.
  - intros kv. unfold ImageFamily.GetImageFamily. set (name := from_ptr "" (ImageFamily (s_spec s))) in *.
    assert (Wn : name <> Windows2022ImageFamily /\ name <> Windows2025ImageFamily).
    { split; intros Eq; rewrite Eq in Wi; destruct (Wi eq_refl) as [_ W]; by rewrite W in M. }
    assert (An : name <> AzureContainerLinuxImageFamily).
    { intros Eq. assert (W : ImageFamily (s_spec s) = Some AzureContainerLinuxImageFamily) by (subst name; destruct (ImageFamily (s_spec s)); [by f_equal|done]).
      apply Acl in W as [W _]. by rewrite W in M. }
    destruct Wn as [W1 W2]. rewrite (bool_decide_eq_false_2 _ W1), (bool_decide_eq_false_2 _ W2), (bool_decide_eq_false_2 _ An).
    unfold ImageFamily.defaultUbuntu.
    repeat match goal with |- context [if ?b then _ else _] => destruct b end; by eexists.
Qed.

(** *** LocalDNS *)

Definition LocalDNSMode (n : AKSNodeClass) : string := match LocalDNSOf n with Some d => Mode d | None => "" end.

(** No list of the resource has an item, or the cluster has no such resource. *)
Definition none_listed (a : Answers) (gvr : GVR) : Prop :=
  match ListResource a gvr 1 with Ok items => items = [] | Err e => IsNotFound e || IsNoMatchError e = true end.

(** The five gates, [all] being the cluster's network policies. *)
Record gates (a : Answers) (all : list (string * string)) (s : State) : Prop := {
  ga_version : exists kv v, NodeVersions.GetKubernetesVersion (s_status s) = Ok kv /\ kv <> "" /\
    ParseTolerant (TrimPrefix kv "v") = Some v /\ LT v threshold = false /\
    ImageFamily.ResolvesToUbuntu2004 ParseTolerant Version (ImageFamily (s_spec s)) (FIPSMode (s_spec s)) (IsTrustedLaunchEnabled (s_spec s)) kv = false;
  ga_plugin : EqualFold networkPlugin VMInstance.NetworkPluginNone = false;
  ga_policies : EqualFold networkPolicy NetworkPolicyCilium || EqualFold networkPolicy NetworkPolicyCalico = true ->
    Forall (fun p => p = konnectivityAgentPolicy) all /\ Forall (none_listed a) (crdResources networkPolicy);
  ga_upstream : exists e, GetNodeLocalDNS a = Err e /\ IsNotFound e = true
}.

(** Two policies are enough to tell: names are unique. *)
Lemma two_policies_tell (all : list (string * string)) : NoDup all ->
  existsb (fun p => p !=? konnectivityAgentPolicy) (take 2 all) = false <-> Forall (fun p => p = konnectivityAgentPolicy) all.
Proof using Type.
  intros ND. destruct all as [|p [|q l]]; cbn [take existsb].
  - split; [constructor|done].
  - rewrite orb_false_r. case_bool_decide as D; cbn; split; [by repeat constructor|done|done|]. intros F. by apply Forall_cons in F as [? _].
  - apply NoDup_cons in ND as [Np _]. split.
    + do 2 case_bool_decide; cbn; try done. subst. destruct Np. left.
    + intros F. rewrite !Forall_cons in F. destruct F as (-> & -> & _). destruct Np. left.
Qed.

Lemma any_listed_spec a l : match any_listed IsNotFound IsNoMatchError a l with
  | Ok true => ~ Forall (none_listed a) l
  | Ok false => Forall (none_listed a) l
  | Err e => ~ Forall (none_listed a) l
  end.
Proof using Type.
  induction l as [|gvr l IH]; cbn [any_listed]; [constructor|]. destruct (ListResource a gvr 1) as [items|e] eqn:L.
  - destruct items as [|i items]; cbn [length Nat.ltb Nat.leb].
    + assert (N : none_listed a gvr) by (unfold none_listed; by rewrite L).
      destruct (any_listed _ _ a l) as [[]|]; [intros F; by apply Forall_cons in F as [_ ?]|by constructor|intros F; by apply Forall_cons in F as [_ ?]].
    + intros F. apply Forall_cons in F as [N _]. unfold none_listed in N. by rewrite L in N.
  - destruct (IsNotFound e || IsNoMatchError e) eqn:Q.
    + assert (N : none_listed a gvr) by (unfold none_listed; by rewrite L).
      destruct (any_listed _ _ a l) as [[]|]; [intros F; by apply Forall_cons in F as [_ ?]|by constructor|intros F; by apply Forall_cons in F as [_ ?]].
    + intros F. apply Forall_cons in F as [N _]. unfold none_listed in N. rewrite L in N. congruence.
Qed.

Lemma cluster_gates a (all : list (string * string)) : (forall l, ListNetworkPolicies a 2 = Ok l -> l = take 2 all) -> NoDup all ->
  forall b, meetsClusterRequirements IsNotFound IsNoMatchError networkPolicy a = Ok b -> b = true <->
    (EqualFold networkPolicy NetworkPolicyCilium || EqualFold networkPolicy NetworkPolicyCalico = true ->
      Forall (fun p => p = konnectivityAgentPolicy) all /\ Forall (none_listed a) (crdResources networkPolicy)) /\
    exists e, GetNodeLocalDNS a = Err e /\ IsNotFound e = true.
Proof using Type.
  intros T ND b M. unfold meetsClusterRequirements in M.
  assert (Up : forall b', (match hasUpstreamNodeLocalDNS IsNotFound a with Err e => Err e | Ok has => Ok (negb has) end) = Ok b' ->
    b' = true <-> exists e, GetNodeLocalDNS a = Err e /\ IsNotFound e = true).
  { unfold hasUpstreamNodeLocalDNS. intros b' U. destruct (GetNodeLocalDNS a) as [u|e].
    - injection U as <-. split; [done|]. by intros (e & ? & _).
    - destruct (IsNotFound e) eqn:N; [|done]. injection U as <-. split; [intros _; by exists e|done]. }
  destruct (EqualFold networkPolicy NetworkPolicyCilium || _) eqn:Q.
  - unfold hasConflictingNetworkPolicies, hasConflictingK8sNetworkPolicies, hasConflictingCRDNetworkPolicies in M.
    destruct (ListNetworkPolicies a 2) as [l|e]; [|done]. rewrite (T l eq_refl) in M.
    destruct (existsb _ (take 2 all)) eqn:Ex.
    + injection M as <-. split; [done|]. intros [W _]. destruct (W eq_refl) as [F _]. apply (two_policies_tell _ ND) in F. congruence.
    + pose proof (any_listed_spec a (crdResources networkPolicy)) as S. destruct (any_listed _ _ a _) as [[]|e]; [| |done].
      * injection M as <-. split; [done|]. intros [W _]. by destruct (W eq_refl) as [_ ?].
      * apply (two_policies_tell _ ND) in Ex. rewrite (Up b M). split; [intros W; by split|by intros [_ ?]].
  - rewrite (Up b M). split; [intros W; by split|by intros [_ ?]].
Qed.

Lemma static_gates s : match meetsStaticRequirements (E := E) (K := K) ParseTolerant Version threshold networkPlugin s with
  | Ok b => b = true <-> EqualFold networkPlugin VMInstance.NetworkPluginNone = false /\
      exists kv v, NodeVersions.GetKubernetesVersion (s_status s) = Ok kv /\ kv <> "" /\
      ParseTolerant (TrimPrefix kv "v") = Some v /\ LT v threshold = false /\
      ImageFamily.ResolvesToUbuntu2004 ParseTolerant Version (ImageFamily (s_spec s)) (FIPSMode (s_spec s)) (IsTrustedLaunchEnabled (s_spec s)) kv = false
  | Err _ => True
  end.
Proof using Type.
  unfold meetsStaticRequirements. destruct (NodeVersions.GetKubernetesVersion _) as [kv|e]; [|done]. case_bool_decide as V.
  - subst. split; [done|]. intros (_ & kv & v & Eq & N & _). by injection Eq as <-.
  - destruct (ParseTolerant _) as [v|] eqn:P; [|done]. rewrite !andb_true_iff, !negb_true_iff. split.
    + intros ((L & Pl) & U). split; [done|]. by exists kv, v.
    + intros (Pl & kv' & v' & Eq & _ & P' & L & U). injection Eq as <-. rewrite P in P'. by injection P' as <-.
Qed.

Lemma localdns_set st s : let s' := set_localdns st s in
  holds_now ConditionTypeLocalDNSReady s' /\ LocalDNSState (s_spec s') = Some st.
Proof using Type*.
  split; [|done]. unfold holds_now, Get, NodeVersions.Get. cbn. by rewrite get_true_eq.
Qed.


Lemma preferred_keeps a : Forall (fun f => forall s x s', LocalDNSMode (s_spec s) = LocalDNSModePreferred /\
    LocalDNSState (s_spec s) = Some LocalDNSStateEnabled -> f s = Some (x, s') ->
    LocalDNSMode (s_spec s') = LocalDNSModePreferred /\ LocalDNSState (s_spec s') = Some LocalDNSStateEnabled) (all_reconcilers a).
Proof using Type*.
  assert (Kp : forall t f, keeps eq t f -> forall s x s', LocalDNSMode (s_spec s) = LocalDNSModePreferred /\
    LocalDNSState (s_spec s) = Some LocalDNSStateEnabled -> f s = Some (x, s') ->
    LocalDNSMode (s_spec s') = LocalDNSModePreferred /\ LocalDNSState (s_spec s') = Some LocalDNSStateEnabled).
  { intros t f Kf s x s' P Q. by destruct (Kf s x s' Q) as (<- & _ & _). }
  unfold reconcilers. rewrite !Forall_cons. split_and!; [| | | | | |constructor].
  - eapply (Kp ConditionTypeLocalDNSReady), keeps_versions; [by apply (bool_decide_unpack _)|done|]. intros s r nc. apply kubernetes_frame.
  - eapply (Kp ConditionTypeLocalDNSReady), keeps_versions; [by apply (bool_decide_unpack _)|done|]. intros s r nc. apply image_frame.
  - by apply (Kp ConditionTypeLocalDNSReady), keeps_subnet.
  - by apply (Kp ConditionTypeLocalDNSReady), keeps_validation.
  - intros s x s' [M En] [= Q]. unfold LocalDNSMode in M. unfold LocalDNS_Reconcile in Q. destruct (LocalDNSOf (s_spec s)) as [d|] eqn:D; [|done].
    rewrite M in Q. rewrite !bool_decide_eq_false_2 in Q by done. rewrite bool_decide_eq_true_2 in Q by done.
    unfold reconcilePreferred in Q. rewrite En, bool_decide_eq_true_2 in Q by done. injection Q as <- <-. unfold LocalDNSMode. cbn. by rewrite D.
  - by apply (Kp ConditionTypeLocalDNSReady), keeps_reservation.
Qed.

(** C19. LocalDNS does not flap: once it is enabled, it stays enabled through
    any edits and reconciles that leave the mode preferred, whatever is
    installed in the cluster meanwhile. *)
Theorem localdns_sticky s0 s : rtc (fun x y => step x y /\ LocalDNSMode (s_spec y) = LocalDNSModePreferred) s0 s ->
  LocalDNSMode (s_spec s0) = LocalDNSModePreferred -> LocalDNSState (s_spec s0) = Some LocalDNSStateEnabled ->
  LocalDNSState (s_spec s) = Some LocalDNSStateEnabled.
Proof using Type*.
  induction 1 as [s|s s1 s2 [St M1] _ IH]; [done|]. intros M En. apply IH; [done|].
  destruct St as [s n nc L G Cd|a env x s s' Q|a env x s s' Q]; [by rewrite <- En, <- L| |done].
  eapply (reconcile_run (fun s => LocalDNSMode (s_spec s) = LocalDNSModePreferred /\ LocalDNSState (s_spec s) = Some LocalDNSStateEnabled));
    [|exact Q]. by apply reconcile_keeps; [apply preferred_keeps|..].
Qed.

(** *** Subnets *)

(** A subnet is ready only if nodes can go there: the class's subnet, or the
    cluster's when it names none, was parsed and exists, and it is the cluster's
    own or another one of the same network, which AKS does not manage. *)
Theorem subnet_ready_sound (a : Answers) s r s' : validateVNETSubnetID StatusCode o a s = (r, s') ->
  IsTrue (Get ConditionTypeSubnetsReady s) = false -> IsTrue (Get ConditionTypeSubnetsReady s') = true ->
  let id := match VNETSubnetID (s_spec s) with Some id => id | None => Options.SubnetID o end in
  r = (healthyRequeueInterval, None) /\ holds_now ConditionTypeSubnetsReady s' /\
  exists v, ResourceIDs.GetVnetSubnetIDComponents id = Ok v /\
    is_Some (match GetSubnet a (ResourceIDs.ResourceGroupName v) (ResourceIDs.VNetName v) (ResourceIDs.SubnetName v) with Ok u => Some u | Err _ => None end) /\
    (id = Options.SubnetID o \/ exists cluster, ResourceIDs.GetVnetSubnetIDComponents (Options.SubnetID o) = Ok cluster /\
       ResourceIDs.IsSameVNET cluster v = true /\ ResourceIDs.IsAKSManagedVNET (Options.NodeResourceGroup o) (Options.SubnetID o) = Ok false).
Proof using Type*.
  intros Q F W. cbv zeta. unfold validateVNETSubnetID in Q. set (id := match VNETSubnetID (s_spec s) with Some id => id | None => _ end) in *.
  assert (Nf : forall q, IsTrue (Get ConditionTypeSubnetsReady (subnet_false q s)) = false).
  { intros q. unfold Get, NodeVersions.Get, IsTrue, subnet_false. cbn. by rewrite get_false_eq. }
  assert (Tr : holds_now ConditionTypeSubnetsReady (set_true ConditionTypeSubnetsReady s)).
  { unfold holds_now, Get, NodeVersions.Get. cbn. by rewrite get_true_eq. }
  destruct (ResourceIDs.GetVnetSubnetIDComponents id) as [v|e] eqn:V; [|injection Q as <- <-; by rewrite Nf in W].
  assert (G : (match GetSubnet a (ResourceIDs.ResourceGroupName v) (ResourceIDs.VNetName v) (ResourceIDs.SubnetName v) with
     | Ok _ => ((healthyRequeueInterval, None), set_true ConditionTypeSubnetsReady s)
     | Err e => if StatusCode e ==? Some 404 then ((Minute, Some (ErrAzure e)), subnet_false "SubnetNotFound" s)
                else ((0, Some (ErrAzure e)), subnet_false "SubnetUnknownError" s) end) = (r, s') ->
    r = (healthyRequeueInterval, None) /\ holds_now ConditionTypeSubnetsReady s' /\
    is_Some (match GetSubnet a (ResourceIDs.ResourceGroupName v) (ResourceIDs.VNetName v) (ResourceIDs.SubnetName v) with Ok u => Some u | Err _ => None end)).
  { intros Eq. destruct (GetSubnet _ _ _ _) as [u|e] eqn:Gs; [injection Eq as <- <-; by split; [|split; [|eexists]]|].
    destruct (StatusCode e ==? Some 404); injection Eq as <- <-; by rewrite Nf in W. }
  case_bool_decide as I; [destruct (G Q) as (R1 & R2 & R3); do 2 (split; [done|]); exists v; do 2 (split; [done|]); by left|].
  destruct (ResourceIDs.GetVnetSubnetIDComponents (Options.SubnetID o)) as [c|e] eqn:Cl; [|injection Q as <- <-; congruence].
  destruct (ResourceIDs.IsAKSManagedVNET _ _) as [m|e] eqn:Mg; [|injection Q as <- <-; congruence].
  destruct (ResourceIDs.IsSameVNET c v) eqn:Sm; [|destruct m; injection Q as <- <-; by rewrite Nf in W].
  destruct m; [injection Q as <- <-; by rewrite Nf in W|]. destruct (G Q) as (R1 & R2 & R3). do 2 (split; [done|]). exists v.
  do 2 (split; [done|]). right. by exists c.
Qed.

End Theorems.


(** ** The theorems at concrete inputs *)

#[local] Existing Instance NodeVersions.triple_semver.
#[local] Existing Instance Conditions.map_conditions.

Definition demo_options : Options.Options :=
  Options.mk_options "cluster" "https://c.example.com" (VirtualMachines.Finite 1) "token" "azureuser" "key" "azure" "overlay" "cilium" ""
    [] "" "" "/subscriptions/sub/resourceGroups/rg/providers/Microsoft.Network/virtualNetworks/vnet/subnets/nodes"
    Options.ProvisionModeAKSScriptless "" false "" "" "mc_rg" ∅ "" false false "" 0 0 1 "".
(** An Ubuntu class that prefers LocalDNS, of Kubernetes 1.38. *)
Definition demo_spec : AKSNodeClass :=
  mk_nodeclass (VMInstance.mk_launch_class (VirtualMachines.mk_class None None) None None None)
    (Some Ubuntu2204ImageFamily) None None None None None None (Some (mk_localdns LocalDNSModePreferred [] [])) None None None None None.
Definition demo_status : NodeVersions.NodeClass :=
  NodeVersions.mk_nodeclass 1 None (Some Ubuntu2204ImageFamily) None None [] None (Some "1.38.0")
    (NodeVersions.demo_conditions NodeVersions.ConditionTypeImagesReady).
Definition demo_state : State := mk_state demo_spec demo_status None Unavailable.NewUnavailableOfferings false [TerminationFinalizer].
(** An Azure and a cluster where all is well; node-local-dns may be there. *)
Definition demo_answers (upstream : bool) : Answers (E := Z) (K := string) :=
  mk_answers 10 (Ok "1.38.0") (fun _ => Ok true) NodeVersions.demo_listing (Ok None) (fun _ _ _ => Ok tt) (fun _ _ => Ok tt)
    (fun n => Ok (take n [konnectivityAgentPolicy])) (fun _ _ => Err "not found") (if upstream then Ok tt else Err "not found")
    (fun _ _ => Err (Reservation.mk_az_error None "")) (fun _ _ => []) (fun _ => Ok []).
#[local] Notation "'demo_world' f" := (f (fun _ => false) (fun e => Some e) (fun e => e ==? "not found") (fun _ => false)
  ImageFamily.demo_parse ImageFamily.demo_version (1, 37, 0) demo_options "cilium" "azure" None "" "sub" "eastus" (fun _ => Err "")
  (fun _ => None) (fun _ _ => false) (fun l => List.fold_right Z.min 0 l)) (at level 10, f at level 9).
Definition demo_env (h : list (event (@resp map_conditions map_cache string))) (q : @req map_conditions map_cache) :
    @resp map_conditions map_cache string q := Ok tt.
Definition demo_reconcile (upstream : bool) (s : State) := demo_world Reconcile (demo_answers upstream) s.

Definition demo_step := demo_world step.
Lemma demo_reconciled upstream s x s' : (run demo_env (demo_reconcile upstream s) []).1 = Some (x, s') -> demo_step s s'.
Proof. exact (demo_world step_reconcile (demo_answers upstream) demo_env x s s'). Qed.

Lemma validated_class_launches_witness :
  exists s, demo_step demo_state s /\ holds_now ConditionTypeValidationSucceeded s /\ IsManagedGPUEnabled (s_spec s) = false.
Proof.
  assert (F : match (run demo_env (demo_reconcile false demo_state) []).1 with
    | Some (_, s) => (IsTrue (Get ConditionTypeValidationSucceeded s), c_generation (Get ConditionTypeValidationSucceeded s), nc_generation (s_status s))
    | None => (false, 0, 0) end = (true, 1, 1)) by (vm_compute; reflexivity).
  destruct ((run demo_env (demo_reconcile false demo_state) []).1) as [[x s]|] eqn:R; [|discriminate F]. injection F as F1 F2 F3.
  assert (Hn : holds_now ConditionTypeValidationSucceeded s) by (split; [exact F1|exact (eq_trans F2 (eq_sym F3))]).
  exists s. split; [exact (demo_reconciled _ _ _ _ R)|]. split; [exact Hn|].
  apply (demo_world validated_class_launches demo_state s (rtc_once _ _ (demo_reconciled _ _ _ _ R)) eq_refl ltac:(vm_compute; discriminate) Hn).
  reflexivity.
Defined.


Lemma localdns_sticky_witness :
  exists s, demo_step (set_localdns LocalDNSStateEnabled demo_state) s /\ LocalDNSState (s_spec s) = Some LocalDNSStateEnabled.
Proof.
  assert (F : match (run demo_env (demo_reconcile true (set_localdns LocalDNSStateEnabled demo_state)) []).1 with
    | Some (_, s) => LocalDNSMode (s_spec s) | None => "" end = LocalDNSModePreferred) by (vm_compute; reflexivity).
  destruct ((run demo_env (demo_reconcile true (set_localdns LocalDNSStateEnabled demo_state)) []).1) as [[x s]|] eqn:R; [|discriminate F].
  exists s. split; [exact (demo_reconciled _ _ _ _ R)|].
  exact (demo_world localdns_sticky _ s (rtc_once _ _ (conj (demo_reconciled _ _ _ _ R) F)) eq_refl eq_refl).
Defined.

Lemma subnet_ready_sound_witness :
  exists v, ResourceIDs.GetVnetSubnetIDComponents (Options.SubnetID demo_options) = Ok v /\ ResourceIDs.VNetName v = "vnet".
Proof.
  assert (F : match validateVNETSubnetID (fun e => Some e) demo_options (demo_answers false) demo_state with
    | (_, s) => IsTrue (Get ConditionTypeSubnetsReady s) end = true) by (vm_compute; reflexivity).
  destruct (validateVNETSubnetID (fun e => Some e) demo_options (demo_answers false) demo_state) as [r s] eqn:R.
  destruct (subnet_ready_sound (fun _ => false) (fun e => Some e) (fun e => e ==? "not found") (fun _ => false) demo_options (fun _ _ => false) (demo_answers false) demo_state r s R eq_refl F) as (_ & _ & v & V & _).
  exists v. split; [exact V|]. vm_compute in V. injection V as <-. reflexivity.
Defined.

End NodeClassStatus.
