(* ===== verification/NodeClassLifecycle.v ===== *)
(** * The hash and the termination of a NodeClass
      ([pkg/controllers/nodeclass/hash], [termination])

    The controller that keeps a NodeClass's hash and, when the way of hashing
    changes, moves its NodeClaims over; the one that lets a NodeClass go once
    no NodeClaim uses it.  The calls to Kubernetes are requests of
    [Effects]. *)

From S2P Require Import Prelude GoString Effects Conditions AKSMachine NodeVersions Drift NodeClassStatus.
#[local] Open Scope string_scope.
#[local] Open Scope list_scope.
#[local] Open Scope Z_scope.

Module NodeClassLifecycle.
Import Drift(AnnotationAKSNodeClassHash, AnnotationAKSNodeClassHashVersion, AKSNodeClassHashVersion, Hash).
Import NodeClassStatus(TerminationFinalizer, Minute).

(** A NodeClaim with whether it has a [Drifted] condition, of any status. *)
Record Claim := mk_claim { c_claim : AKSMachine.NodeClaim; c_drifted : bool }.
Definition set_annotations (m : gmap string string) (nc : AKSMachine.NodeClaim) : AKSMachine.NodeClaim :=
  AKSMachine.mk_nodeclaim (AKSMachine.nc_name nc) (AKSMachine.nc_labels nc) m (AKSMachine.nc_creation nc) (AKSMachine.nc_deletion nc)
    (AKSMachine.nc_providerID nc) (AKSMachine.nc_imageID nc) (AKSMachine.nc_capacity nc) (AKSMachine.nc_allocatable nc).

(** The NodeClass, as these controllers see it. *)
Record Class := mk_class {
  k_name : string; k_annotations : gmap string string; k_spec : Drift.Spec; k_finalizers : list string; k_deleting : bool
}.
Definition with_annotations (m : gmap string string) (k : Class) : Class :=
  mk_class (k_name k) m (k_spec k) (k_finalizers k) (k_deleting k).
Definition with_finalizers (l : list string) (k : Class) : Class :=
  mk_class (k_name k) (k_annotations k) (k_spec k) l (k_deleting k).

Section Controllers.
(** Errors of Kubernetes. *)
Context {K : Type}.
Variable IsNotFound : K -> bool.
Variable IsConflict : K -> bool.
Variable hashstructure : Drift.Spec -> string.

Inductive req :=
| ListClaims (class : string)
| PatchClaim (nc : AKSMachine.NodeClaim)
| PatchClass (k : Class)
| PublishWaiting (claims : list string).
Definition resp (q : req) : Type :=
  match q with
  | ListClaims _ => result K (list Claim)
  | PatchClaim _ | PatchClass _ => result K unit
  | PublishWaiting _ => unit
  end.
#[local] Abbreviation io := (io resp).
#[local] Abbreviation event := (event resp).

(** [lo.Assign] with one pair. *)
Definition annotate (k v : string) (nc : AKSMachine.NodeClaim) : AKSMachine.NodeClaim :=
  set_annotations (<[k := v]> (AKSMachine.nc_annotations nc)) nc.
Definition annotation (m : gmap string string) (k : string) : string := AKSMachine.map_get m k.

(** ** The hash ([hash/controller.go]) *)

(** The claim after the move; [None] when it was moved before. *)
Definition moved (k : Class) (c : Claim) : option AKSMachine.NodeClaim :=
  if annotation (AKSMachine.nc_annotations (c_claim c)) AnnotationAKSNodeClassHashVersion ==? AKSNodeClassHashVersion then None
  else
    let nc := annotate AnnotationAKSNodeClassHashVersion AKSNodeClassHashVersion (c_claim c) in
    Some (if c_drifted c then nc else annotate AnnotationAKSNodeClassHash (Hash hashstructure (k_spec k)) nc).

Fixpoint move_claims (k : Class) (l : list Claim) : io (list K) :=
  match l with
  | [] => mret []
  | c :: l =>
      e ← match moved k c with
          | None => mret []
          | Some nc =>
              if bool_decide (AKSMachine.nc_annotations nc = AKSMachine.nc_annotations (c_claim c)) then mret []
              else p ← call (PatchClaim nc); mret (match p with Ok _ => [] | Err e => if IsNotFound e then [] else [e] end)
          end;
      es ← move_claims k l;
      mret (e ++ es)
  end.
Definition updateNodeClaimHash (k : Class) : io (list K) :=
  l ← call (ListClaims (k_name k));
  match l with Err e => mret [e] | Ok l => move_claims k l end.

Definition hashed (k : Class) : Class :=
  with_annotations (<[AnnotationAKSNodeClassHashVersion := AKSNodeClassHashVersion]>
    (<[AnnotationAKSNodeClassHash := Hash hashstructure (k_spec k)]> (k_annotations k))) k.

(** The errors; none when all went well. *)
Definition Hash_Reconcile (k : Class) : io (list K) :=
  errs ← (if annotation (k_annotations k) AnnotationAKSNodeClassHashVersion !=? AKSNodeClassHashVersion
          then updateNodeClaimHash k else mret []);
  match errs with
  | [] =>
      if bool_decide (k_annotations (hashed k) = k_annotations k) then mret []
      else p ← call (PatchClass (hashed k)); mret (match p with Ok _ => [] | Err e => [e] end)
  | _ => mret errs
  end.

(** ** Termination ([termination/controller.go]) *)

Definition RemoveFinalizer (k : Class) : Class :=
  with_finalizers (List.filter (fun f => f !=? TerminationFinalizer) (k_finalizers k)) k.
Definition finalize (k : Class) : io (Z * option K) :=
  if bool_decide (TerminationFinalizer ∉ k_finalizers k) then mret (0, None)
  else
    l ← call (ListClaims (k_name k));
    match l with
    | Err e => mret (0, Some e)
    | Ok [] =>
        p ← call (PatchClass (RemoveFinalizer k));
        mret (match p with
              | Ok _ => (0, None)
              | Err e => if IsConflict e then (10 * 1000000000, None) else (0, if IsNotFound e then None else Some e)
              end)
    | Ok claims =>
        _ ← call (PublishWaiting (map (fun c => AKSMachine.nc_name (c_claim c)) claims));
        mret (10 * Minute, None)
    end.
Definition Termination_Reconcile (k : Class) : io (Z * option K) :=
  if k_deleting k then finalize k else mret (0, None).

(** ** Moving to another way of hashing *)

(** Kubernetes took the claim, or has it no more. *)
Definition taken (nc : AKSMachine.NodeClaim) (t : list event) : Prop :=
  exists p, existT (P := resp) (PatchClaim nc) p ∈ t /\ match p with Ok _ => True | Err e => IsNotFound e = true end.
Definition patches_claims (q : req) : Prop := match q with PatchClaim _ => True | _ => False end.

(** A claim is moved with the version, and with the hash unless it drifted. *)
Lemma moved_annotations k c : match moved k c with
  | None => annotation (AKSMachine.nc_annotations (c_claim c)) AnnotationAKSNodeClassHashVersion = AKSNodeClassHashVersion
  | Some nc => annotation (AKSMachine.nc_annotations (c_claim c)) AnnotationAKSNodeClassHashVersion <> AKSNodeClassHashVersion /\
      AKSMachine.nc_annotations nc !! AnnotationAKSNodeClassHashVersion = Some AKSNodeClassHashVersion /\
      AKSMachine.nc_annotations nc !! AnnotationAKSNodeClassHash =
        if c_drifted c then AKSMachine.nc_annotations (c_claim c) !! AnnotationAKSNodeClassHash else Some (Hash hashstructure (k_spec k))
  end.
Proof using Type.
  unfold moved. case_bool_decide as V; [done|]. split; [done|].
  destruct (c_drifted c); cbn [AKSMachine.nc_annotations annotate set_annotations].
  - by rewrite lookup_insert_eq, lookup_insert_ne.
  - by rewrite lookup_insert_ne, !lookup_insert_eq.
Qed.
Lemma moved_changes k c nc : moved k c = Some nc -> AKSMachine.nc_annotations nc <> AKSMachine.nc_annotations (c_claim c).
Proof using Type.
  intros M Eq. pose proof (moved_annotations k c) as W. rewrite M, <- Eq in W. destruct W as (V & L & _). apply V.
  unfold annotation, AKSMachine.map_get. by rewrite L.
Qed.

Lemma move_claims_taken k l : post (move_claims k l) (fun es t => Forall (fun e => patches_claims (asked e)) t /\
  (es = [] -> forall c nc, c ∈ l -> moved k c = Some nc -> taken nc t)).
Proof using Type.
  induction l as [|c l IH]; cbn [move_claims]; [io_step; split; [constructor|]; intros _ c nc I; by apply elem_of_nil in I|].
  assert (R : forall (m : io (list K)), post m (fun e t => Forall (fun e => patches_claims (asked e)) t /\
     (e = [] -> forall nc, moved k c = Some nc -> taken nc t)) ->
    post (m ≫= fun e => es ← move_claims k l; mret (e ++ es)) (fun es t => Forall (fun e => patches_claims (asked e)) t /\
      (es = [] -> forall c' nc, c' ∈ c :: l -> moved k c' = Some nc -> taken nc t))).
  { intros m P. apply post_bind. eapply post_mono; [|exact P]. intros e t [F T]. io_step. eapply post_mono; [|exact IH].
    intros es u [G U]. io_step. rewrite app_nil_r. split; [by apply Forall_app|]. intros N. apply app_eq_nil in N as [Ne Ns].
    intros c' nc I M. assert (W : taken nc t \/ taken nc u).
    { apply elem_of_cons in I as [->|I]; [left; by apply T|right; by eapply U]. }
    destruct W as [(p & W & Wp)|(p & W & Wp)]; exists p; (split; [apply elem_of_app; auto|done]). }
  apply R. destruct (moved k c) as [nc|] eqn:M; [|io_step; by split; [constructor|]].
  case_bool_decide as Eq; [by apply moved_changes in M|]. io_step. io_step. io_step. split; [by repeat constructor|].
  intros N nc' [= <-]. exists r. split; [left|]. destruct r as [|e]; [done|]. destruct (IsNotFound e); [done|discriminate N].
Qed.

(** What a run does: the claims first, the class last. *)
Definition hash_course (k : Class) (errs : list K) (t : list event) : Prop :=
  let current := annotation (k_annotations k) AnnotationAKSNodeClassHashVersion = AKSNodeClassHashVersion in
  exists t1 t2, t = t1 ++ t2 /\ Forall (fun e => match asked e with PatchClass _ => False | _ => True end) t1 /\
    (t2 = [] /\ (errs = [] -> k_annotations (hashed k) = k_annotations k) \/
     exists r : result K unit, t2 = [existT (P := resp) (PatchClass (hashed k)) r] /\ (errs = [] <-> r = Ok tt) /\
       (current \/ exists l, existT (P := resp) (ListClaims (k_name k)) (Ok l) ∈ t1 /\
          forall c nc, c ∈ l -> moved k c = Some nc -> taken nc t1)).
Lemma hash_reconcile_course k : post (Hash_Reconcile k) (hash_course k).
Proof using Type.
  assert (Fin : forall t1, Forall (fun e : event => match asked e with PatchClass _ => False | _ => True end) t1 ->
    (annotation (k_annotations k) AnnotationAKSNodeClassHashVersion = AKSNodeClassHashVersion \/
     exists l, existT (P := resp) (ListClaims (k_name k)) (Ok l) ∈ t1 /\ forall c nc, c ∈ l -> moved k c = Some nc -> taken nc t1) ->
    post (if bool_decide (k_annotations (hashed k) = k_annotations k) then mret []
      else p ← call (PatchClass (hashed k)); mret (match p with Ok _ => [] | Err e => [e] end)) (fun es u => hash_course k es (t1 ++ u))).
  { intros t1 F W. case_bool_decide as Eq.
    - io_step. exists t1, []. split; [done|]. split; [done|]. by left.
    - io_step. io_step. io_step. exists t1, [existT (P := resp) (PatchClass (hashed k)) r]. split; [done|]. split; [done|]. right. exists r.
      split; [done|]. split; [destruct r as [[]|]; by split|done]. }
  unfold Hash_Reconcile. io_step.
  destruct (bool_decide_reflect (annotation (k_annotations k) AnnotationAKSNodeClassHashVersion = AKSNodeClassHashVersion)) as [V|V]; cbn [negb].
  - io_step. apply (Fin []); [constructor|by left].
  - unfold updateNodeClaimHash. io_step. io_step. destruct r as [l|e].
    + eapply post_mono; [|apply move_claims_taken]. intros es t [F T]. set (t1 := existT (P := resp) (ListClaims (k_name k)) (Ok l) :: t).
      assert (F1 : Forall (fun e : event => match asked e with PatchClass _ => False | _ => True end) t1).
      { constructor; [done|]. eapply Forall_impl; [exact F|]. by intros [[] r]. }
      destruct es as [|e es].
      * apply (Fin t1 F1). right. exists l. split; [left|]. intros c nc I M. destruct (T eq_refl c nc I M) as (p & W & Wp).
        exists p. split; [by right|done].
      * io_step. exists t1, []. split; [done|]. split; [done|]. by left.
    + io_step. cbv beta iota. io_step. exists [existT (P := resp) (ListClaims (k_name k)) (Err e)], []. split; [reflexivity|]. split; [by repeat constructor|]. by left.
Qed.

(** C16. A new way of hashing drifts nothing: the claims are moved before the
    class is, and the class only if Kubernetes took every claim (or lost it);
    until the class has moved no claim shows static drift, and once it has,
    exactly those do that were drifted before, or had been moved already, and
    whose hash differs from the class's. *)
Theorem hash_move_keeps_drift `{ConditionSet} env k errs t status : run env (Hash_Reconcile k) [] = (errs, t) ->
  let old := annotation (k_annotations k) AnnotationAKSNodeClassHashVersion <> AKSNodeClassHashVersion in
  (errs = [] -> k_annotations (hashed k) = k_annotations k \/ existT (P := resp) (PatchClass (hashed k)) (Ok tt) ∈ t) /\
  (forall k' r, existT (P := resp) (PatchClass k') r ∈ t -> k' = hashed k /\
     (old -> exists l, existT (P := resp) (ListClaims (k_name k)) (Ok l) ∈ t /\ forall c nc, c ∈ l -> moved k c = Some nc -> taken nc t)) /\
  forall c, let nc := default (c_claim c) (moved k c) in
    (old -> ~ Drift.static_drift nc (Drift.mk_class status (k_annotations k))) /\
    (Drift.static_drift nc (Drift.mk_class status (k_annotations (hashed k))) <->
     (c_drifted c = true \/ moved k c = None) /\
     exists h, AKSMachine.nc_annotations (c_claim c) !! AnnotationAKSNodeClassHash = Some h /\ h <> Hash hashstructure (k_spec k)).
Proof using Type.
  intros R old. destruct (post_run _ _ env [] (hash_reconcile_course k)) as (t' & Et & t1 & t2 & -> & F & C).
  rewrite R in Et, C. simpl in Et, C. subst t. split; [|split].
  - intros N. destruct C as [[-> W]|(r & -> & [W _] & _)]; [left; by apply W|]. right. rewrite W by done. apply elem_of_app. right. left.
  - intros k' r I. apply elem_of_app in I as [I|I]; [by eapply Forall_forall in F; [|exact I]|].
    destruct C as [[-> _]|(r' & -> & _ & C)]; [by apply elem_of_nil in I|]. apply list_elem_of_singleton in I.
    apply (f_equal asked) in I as J. injection J as ->. split; [done|]. intros Old. destruct C as [C|(l & L & T)]; [by destruct Old|].
    exists l. split; [apply elem_of_app; by left|]. intros c nc Ic M. destruct (T c nc Ic M) as (p & W & Wp). exists p.
    split; [apply elem_of_app; by left|done].
  - intros c nc. split.
    + intros Old (h & h' & v & _ & _ & Cv & Nv & _). cbn [Drift.dc_annotations] in Cv.
      apply Old. pose proof (moved_annotations k c) as W. subst nc. unfold annotation, AKSMachine.map_get in *. rewrite Cv.
      destruct (moved k c) as [nc|]; cbn [from_option id] in Nv; [destruct W as (_ & W & _); rewrite W in Nv; by simplify_eq|by rewrite Nv in W].
    + pose proof (moved_annotations k c) as W. unfold Drift.static_drift. cbn [Drift.dc_annotations k_annotations hashed with_annotations].
      rewrite lookup_insert_eq. rewrite (lookup_insert_ne _ AnnotationAKSNodeClassHashVersion) by done. rewrite lookup_insert_eq.
      subst nc. destruct (moved k c) as [nc|]; cbn [from_option id].
      * destruct W as (_ & Wv & Wh). rewrite Wv, Wh. destruct (c_drifted c); [naive_solver|]. split; [naive_solver|]. by intros [[?|?] _].
      * unfold annotation, AKSMachine.map_get in W.
        destruct (AKSMachine.nc_annotations (c_claim c) !! AnnotationAKSNodeClassHashVersion) as [v|]; [|done]. cbn in W. subst v. naive_solver.
Qed.

Lemma removed_finalizer k : TerminationFinalizer ∉ k_finalizers (RemoveFinalizer k).
Proof using Type. cbn. rewrite list_elem_of_In, filter_In. intros [_ W]. by rewrite bool_decide_eq_true_2 in W. Qed.
Lemma patch_answer k (p p' : result K unit) : existT (P := resp) (PatchClass k) p = existT (P := resp) (PatchClass k) p' -> p = p'.
Proof using Type.
  intros Eq. apply (f_equal (fun e : event => match e with existT q r =>
    match q return resp q -> option (result K unit) with PatchClass _ => Some | _ => fun _ => None end r end)) in Eq. by injection Eq.
Qed.
Lemma list_answer k (l l' : result K (list Claim)) : existT (P := resp) (ListClaims k) l = existT (P := resp) (ListClaims k) l' -> l = l'.
Proof using Type.
  intros Eq. apply (f_equal (fun e : event => match e with existT q r =>
    match q return resp q -> option (result K (list Claim)) with ListClaims _ => Some | _ => fun _ => None end r end)) in Eq. by injection Eq.
Qed.
Lemma post_finalize k : post (Termination_Reconcile k) (fun r t =>
    t = [] /\ r = (0, None) /\ (k_deleting k = false \/ TerminationFinalizer ∉ k_finalizers k) \/
    k_deleting k = true /\ TerminationFinalizer ∈ k_finalizers k /\
    ((exists e, t = [existT (P := resp) (ListClaims (k_name k)) (Err e)]) \/
     (exists p, t = [existT (P := resp) (ListClaims (k_name k)) (Ok []); existT (P := resp) (PatchClass (RemoveFinalizer k)) p] /\
        (forall e, p = Err e -> IsConflict e = true -> r = (10 * 1000000000, None))) \/
     (exists l u, l <> [] /\ r = (10 * Minute, None) /\ t = [existT (P := resp) (ListClaims (k_name k)) (Ok l);
        existT (P := resp) (PublishWaiting (map (fun c => AKSMachine.nc_name (c_claim c)) l)) u]))).
Proof using Type.
  unfold Termination_Reconcile. destruct (k_deleting k); [|io_step; left; split; [done|]; split; [done|]; by left].
  unfold finalize. case_bool_decide as F; [io_step; left; split; [done|]; split; [done|]; by right|].
  io_step. io_step. destruct r as [[|c l]|e].
  - io_step. io_step. io_step. right. split; [done|]. split; [done|]. right. left. exists r. split; [done|]. intros e -> Ce. by rewrite Ce.
  - io_step. io_step. io_step. right. split; [done|]. split; [done|]. do 2 right. exists (c :: l), r. done.
  - io_step. right. split; [done|]. split; [done|]. left. by exists e.
Qed.

(** ** Termination *)

(** C26. A NodeClass is let go only when it is being deleted and Kubernetes has
    just listed no NodeClaim that uses it; as long as there are some they are
    announced and it is tried again in ten minutes, and after a conflict in ten
    seconds.  Otherwise nothing is asked for. *)
Theorem nodeclass_released env k r t : run env (Termination_Reconcile k) [] = (r, t) ->
  (forall k' p, existT (P := resp) (PatchClass k') p ∈ t ->
     k_deleting k = true /\ k' = RemoveFinalizer k /\ TerminationFinalizer ∉ k_finalizers k' /\
     t = [existT (P := resp) (ListClaims (k_name k)) (Ok []); existT (P := resp) (PatchClass k') p] /\
     (forall e, p = Err e -> IsConflict e = true -> r = (10 * 1000000000, None))) /\
  (forall l, existT (P := resp) (ListClaims (k_name k)) (Ok l) ∈ t -> l <> [] ->
     map asked t = [ListClaims (k_name k); PublishWaiting (map (fun c => AKSMachine.nc_name (c_claim c)) l)] /\ r = (10 * Minute, None)) /\
  (t = [] <-> k_deleting k = false \/ TerminationFinalizer ∉ k_finalizers k).
Proof using Type.
  intros R. destruct (post_run _ _ env [] (post_finalize k)) as (t' & Et & C).
  rewrite R in Et, C. simpl in Et, C. subst t. split; [|split].
  - intros k' p I. destruct C as [(-> & _)|(D & Fi & [(e & ->)|[(q & -> & Q)|(l & u & _ & _ & ->)]])].
    + by apply elem_of_nil in I.
    + apply list_elem_of_singleton in I. by apply (f_equal asked) in I.
    + apply elem_of_cons in I as [I|I]; [by apply (f_equal asked) in I|]. apply list_elem_of_singleton in I.
      apply (f_equal asked) in I as J. injection J as ->. apply patch_answer in I as ->. split; [done|]. split; [done|].
      split; [apply removed_finalizer|]. by split.
    + apply elem_of_cons in I as [I|I]; [by apply (f_equal asked) in I|]. apply list_elem_of_singleton in I. by apply (f_equal asked) in I.
  - intros l I N. destruct C as [(-> & _)|(D & Fi & [(e & ->)|[(q & -> & Q)|(l' & u & _ & -> & ->)]])].
    + by apply elem_of_nil in I.
    + apply list_elem_of_singleton in I. apply list_answer in I. discriminate I.
    + apply elem_of_cons in I as [I|I]; [apply list_answer in I; by injection I as ->|]. apply list_elem_of_singleton in I. by apply (f_equal asked) in I.
    + apply elem_of_cons in I as [I|I]; [apply list_answer in I; by injection I as <-|]. apply list_elem_of_singleton in I. by apply (f_equal asked) in I.
  - destruct C as [(-> & _ & W)|(D & Fi & C)]; [done|]. split; [intros ->|intros [?|?]; [congruence|done]].
    destruct C as [(e & [=])|[(q & [=] & _)|(l' & u & _ & _ & [=])]].
Qed.

End Controllers.

(** ** The theorems at concrete inputs *)

Definition demo_hash (_ : Drift.Spec) : string := "new".
Definition demo_class (version : string) (deleting : bool) : Class :=
  mk_class "default" {[ AnnotationAKSNodeClassHash := "old"; AnnotationAKSNodeClassHashVersion := version ]}
    (Drift.mk_spec None None None None None "") [TerminationFinalizer] deleting.
Definition demo_claim (name : string) (drifted : bool) : Claim :=
  mk_claim (AKSMachine.mk_nodeclaim name ∅ {[ AnnotationAKSNodeClassHash := "old"; AnnotationAKSNodeClassHashVersion := "v2" ]} 0 None "" "" ∅ ∅)
    drifted.
(** A cluster with these claims, that takes every patch. *)
Definition demo_cluster (claims : list Claim) (h : list (event (@resp string))) (q : @req) : @resp string q :=
  match q with
  | ListClaims _ => Ok claims
  | PatchClaim _ | PatchClass _ => Ok tt
  | PublishWaiting _ => tt
  end.

Lemma hash_move_keeps_drift_witness :
  let nc := default (c_claim (demo_claim "np-1" false)) (moved demo_hash (demo_class "v2" false) (demo_claim "np-1" false)) in
  ~ Drift.static_drift nc (Drift.mk_class (NodeVersions.demo_class None []) (k_annotations (hashed demo_hash (demo_class "v2" false)))) /\
  existT (P := @resp string) (PatchClass (hashed demo_hash (demo_class "v2" false))) (Ok tt) ∈
    (run (demo_cluster [demo_claim "np-1" false; demo_claim "np-2" true])
       (Hash_Reconcile (fun _ => false) demo_hash (demo_class "v2" false)) []).2.
Proof.
  assert (R : (run (demo_cluster [demo_claim "np-1" false; demo_claim "np-2" true])
       (Hash_Reconcile (fun _ => false) demo_hash (demo_class "v2" false)) []).1 = []) by (vm_compute; reflexivity).
  destruct (hash_move_keeps_drift (fun _ => false) demo_hash (demo_cluster [demo_claim "np-1" false; demo_claim "np-2" true])
    (demo_class "v2" false) [] _ (NodeVersions.demo_class None []) (run_outcome _ _ _ R)) as (P & _ & D).
  split.
  - destruct (D (demo_claim "np-1" false)) as [_ W]. intros S. apply W in S as [[S|S] _]; vm_compute in S; discriminate S.
  - destruct (P eq_refl) as [Eq|I]; [|exact I].
    apply (f_equal (fun m : gmap string string => m !! AnnotationAKSNodeClassHash)) in Eq. vm_compute in Eq. discriminate Eq.
Defined.

Lemma nodeclass_released_witness :
  (run (demo_cluster [demo_claim "np-1" false]) (Termination_Reconcile (fun _ => false) (fun _ => false) (demo_class "v3" true)) []).1 = (10 * Minute, None) /\
  TerminationFinalizer ∉ k_finalizers (RemoveFinalizer (demo_class "v3" true)).
Proof.
  split.
  - destruct (nodeclass_released (fun _ => false) (fun _ => false) (demo_cluster [demo_claim "np-1" false]) (demo_class "v3" true) _ _ (surjective_pairing _))
      as (_ & W & _). apply (W [demo_claim "np-1" false]); [left|discriminate].
  - destruct (nodeclass_released (fun _ => false) (fun _ => false) (demo_cluster []) (demo_class "v3" true) _ _ (surjective_pairing _)) as (W & _).
    apply (W (RemoveFinalizer (demo_class "v3" true)) (Ok tt)). right. left.
Defined.

End NodeClassLifecycle.
