(* ===== verification/QuotaController.v ===== *)
(** * The quota controller ([pkg/controllers/quota/controller.go])

    It refreshes the quota provider and, when Azure fails for too long, clears
    it, so that no launch is refused by old data.  Launches and deletions are
    recorded between and during refreshes. *)

From S2P Require Import Prelude Cloud Quota.
#[local] Open Scope string_scope.
#[local] Open Scope Z_scope.

Module QuotaController.

Definition RefreshInterval : Z := 10 * Minute.
Definition MaxStaleness : Z := RefreshInterval + 5 * Minute.

(** The controller with the provider it refreshes. *)
Record Controller := mk_controller { quotaProvider : Quota.Provider; lastSuccessfulUpdate : Z }.

Section Controller.
Context `{GoRange}.

Definition NewController : Controller := mk_controller Quota.NewProvider zero_time.

(** When to come back, and the error; [now] is the clock once [Update] is back. *)
Definition after_update (now : Z) (r : Quota.Provider * option string) (c : Controller) : (Z * option string) * Controller :=
  match r with
  | (p, Some err) =>
      ((0, Some err),
       mk_controller (if negb (IsZero (lastSuccessfulUpdate c)) && (MaxStaleness <? now - lastSuccessfulUpdate c)
                      then Quota.Reset p else p) (lastSuccessfulUpdate c))
  | (p, None) => ((RefreshInterval, None), mk_controller p now)
  end.
Definition Reconcile (start now : Z) (meanwhile : Quota.Provider -> Quota.Provider)
    (usagePages : list (result string (list (option Quota.Usage)))) (familyPages : list (result string (list (option Quota.VMFamily))))
    (c : Controller) : (Z * option string) * Controller :=
  after_update now (Quota.Update start meanwhile usagePages familyPages (quotaProvider c)) c.

(** ** What happens to the provider *)

(** What launches and deletions record. *)
Inductive op :=
| Create (generation : Z) (nc : Quota.NodeClaim) (family : string) (vCPUs : Z)
| Delete (now : Z) (nc : Quota.NodeClaim) (family : string) (vCPUs : Z).
Definition do_op (p : Quota.Provider) (o : op) : Quota.Provider :=
  match o with
  | Create g nc family v => (Quota.RecordCreate g nc family v p).1
  | Delete now nc family v => (Quota.RecordDelete now nc family v p).1
  end.
Definition do_ops (l : list op) (p : Quota.Provider) : Quota.Provider := foldl do_op p l.

Inductive event :=
| EvReconcile (start now : Z) (meanwhile : list op) (usagePages : list (result string (list (option Quota.Usage))))
    (familyPages : list (result string (list (option Quota.VMFamily))))
| EvOps (l : list op).
Definition happen (c : Controller) (e : event) : Controller :=
  match e with
  | EvReconcile start now meanwhile up fp => (Reconcile start now (do_ops meanwhile) up fp c).2
  | EvOps l => mk_controller (do_ops l (quotaProvider c)) (lastSuccessfulUpdate c)
  end.
Definition reach (evs : list event) : Controller := foldl happen NewController evs.

(** The clock is past Go's zero time. *)
Definition clocked (evs : list event) : Prop :=
  Forall (fun e => match e with EvReconcile _ now _ _ _ => now <> zero_time | EvOps _ => True end) evs.

(** A reconcile at [now] in which Azure listed [us]. *)
Definition refreshed (evs : list event) (now : Z) (us : gmap string Quota.Usage) : Prop :=
  exists start meanwhile up fp, EvReconcile start now meanwhile up fp ∈ evs /\ Quota.listUsages up = Ok us /\
    is_Some (match Quota.buildFamilyToQuotaName us fp with Ok m => Some m | Err _ => None end).

(** *** Recording leaves the snapshot alone *)

Definition same_snapshot (p p' : Quota.Provider) : Prop :=
  Quota.usages p' = Quota.usages p /\ Quota.familyToQuotaName p' = Quota.familyToQuotaName p /\
  Quota.initialized p' = Quota.initialized p.
Lemma same_snapshot_trans p p1 p2 : same_snapshot p p1 -> same_snapshot p1 p2 -> same_snapshot p p2.
Proof using Type. unfold same_snapshot. intuition congruence. Qed.

Lemma prune_snapshot now p : same_snapshot p (Quota.pruneDeleteTombstonesLocked now p).
Proof using Type. by destruct (Quota.prune_fields now p) as (_ & _ & _ & _ & ? & ? & ? & _). Qed.
Lemma do_op_snapshot p o : same_snapshot p (do_op p o).
Proof using Type.
  destruct o as [g nc family v|now nc family v]; cbn [do_op].
  - unfold Quota.RecordCreate. by repeat case_match.
  - unfold Quota.RecordDelete. eapply same_snapshot_trans; [apply (prune_snapshot now)|].
    set (p1 := Quota.pruneDeleteTombstonesLocked now p). by repeat case_match.
Qed.
Lemma do_ops_snapshot l p : same_snapshot p (do_ops l p).
Proof using Type.
  revert p. induction l as [|o l IH]; intros p; [done|]. eapply same_snapshot_trans; [apply (do_op_snapshot p o)|apply IH].
Qed.

(** ** The snapshot is the last one Azure gave *)

Definition genuine (evs : list event) (c : Controller) : Prop :=
  let p := quotaProvider c in
  if Quota.initialized p then lastSuccessfulUpdate c <> zero_time /\ refreshed evs (lastSuccessfulUpdate c) (Quota.usages p)
  else Quota.usages p = ∅.

Lemma refreshed_mono evs evs' now us : evs ⊆ evs' -> refreshed evs now us -> refreshed evs' now us.
Proof using Type. intros S (s & m & up & fp & I & W). exists s, m, up, fp. split; [by apply S|done]. Qed.

Lemma reset_snapshot p : Quota.usages (Quota.Reset p) = ∅ /\ Quota.initialized (Quota.Reset p) = false.
Proof using Type.
  unfold Quota.Reset. destruct (_ && _) eqn:Q; [|done]. apply andb_prop in Q as [Q _]. do 3 apply andb_prop in Q as [Q ?].
  split; [by eapply bool_decide_eq_true_1|by apply negb_true_iff].
Qed.

(** An update gives what Azure listed, or leaves the snapshot with an error. *)
Lemma update_snapshot start meanwhile up fp p : match Quota.Update start (do_ops meanwhile) up fp p with
  | (p', None) => Quota.initialized p' = true /\ Quota.listUsages up = Ok (Quota.usages p') /\
      is_Some (match Quota.buildFamilyToQuotaName (Quota.usages p') fp with Ok m => Some m | Err _ => None end)
  | (p', Some _) => same_snapshot p p'
  end.
Proof using Type.
  unfold Quota.Update, Quota.beginRefresh. set (p1 := Quota.set_refresh true _). cbv beta zeta iota.
  assert (S : same_snapshot p (do_ops meanwhile p1)).
  { eapply same_snapshot_trans; [|apply do_ops_snapshot]. apply (prune_snapshot start p). }
  destruct (Quota.listUsages up) as [us|e] eqn:L; [|exact S].
  destruct (Quota.buildFamilyToQuotaName us fp) as [m|e] eqn:B; [|exact S].
  cbn. rewrite B. by split_and!.
Qed.

(** After a reconcile at [now] the snapshot is at most [MaxStaleness] old, and
    it is only cleared if that is not so. *)
Lemma reconcile_snapshot evs start now meanwhile up fp c : now <> zero_time -> genuine evs c ->
  let c' := (Reconcile start now (do_ops meanwhile) up fp c).2 in
  genuine (evs ++ [EvReconcile start now meanwhile up fp]) c' /\
  (Quota.initialized (quotaProvider c') = true -> now - lastSuccessfulUpdate c' <= MaxStaleness) /\
  ((Reconcile start now (do_ops meanwhile) up fp c).1.2 <> None -> now - lastSuccessfulUpdate c <= MaxStaleness ->
   same_snapshot (quotaProvider c) (quotaProvider c')).
Proof using Type.
  intros Z G. unfold Reconcile. pose proof (update_snapshot start meanwhile up fp (quotaProvider c)) as U.
  destruct (Quota.Update _ _ _ _ _) as [p [e|]]; cbn [after_update fst snd quotaProvider lastSuccessfulUpdate].
  - destruct (negb _ && _) eqn:Q.
    + apply andb_prop in Q as [_ Q]. destruct (reset_snapshot p) as [R1 R2]. unfold genuine. cbn. rewrite R2, R1. split_and!; [done|done|].
      intros _ F. lia.
    + destruct U as (U1 & U2 & U3). unfold genuine in *. cbn. rewrite U1, U3. split_and!; [| |done].
      * destruct (Quota.initialized (quotaProvider c)); [|done]. destruct G as [G1 G2]. split; [done|].
        eapply refreshed_mono; [|exact G2]. set_solver.
      * intros I. rewrite I in G. destruct G as [G1 _]. unfold IsZero in Q. rewrite bool_decide_eq_false_2 in Q by done. cbn in Q. lia.
  - destruct U as (U1 & U2 & U3). unfold genuine. cbn. rewrite U1. split_and!; [done| | |done].
    + exists start, meanwhile, up, fp. split; [set_solver|done].
    + intros _. unfold MaxStaleness, RefreshInterval. go_dur.
Qed.

Lemma ops_snapshot evs l c : genuine evs c -> genuine (evs ++ [EvOps l]) (happen c (EvOps l)).
Proof using Type.
  unfold genuine. cbn. destruct (do_ops_snapshot l (quotaProvider c)) as (-> & _ & ->). destruct (Quota.initialized _); [|done].
  intros [G1 G2]. split; [done|]. eapply refreshed_mono; [|exact G2]. set_solver.
Qed.

Lemma reach_genuine evs : clocked evs -> genuine evs (reach evs).
Proof using Type.
  induction evs as [|e evs IH] using rev_ind; [done|]. intros C. apply Forall_app in C as [C Ce]. specialize (IH C).
  unfold reach. rewrite foldl_app. cbn [foldl]. fold (reach evs). destruct e as [start now m up fp|l].
  - apply Forall_cons in Ce as [Ce _]. apply (reconcile_snapshot evs start now m up fp (reach evs) Ce IH).
  - by apply ops_snapshot.
Qed.

(** Nothing is refused without a snapshot. *)
Lemma empty_has_quota p sku : Quota.usages p = ∅ -> Quota.HasQuotaFor p sku = true.
Proof using Type. unfold Quota.HasQuotaFor, Quota.hasQuotaForLocked. intros ->. repeat case_match; try done; by simplify_map_eq. Qed.

(** C28. A launch is refused by fresh data only: whatever was refreshed and
    recorded before, also while Azure was asked, a size that has no quota after
    a reconcile is judged by what Azure listed in a refresh at most
    [MaxStaleness] before that reconcile; and the reconcile clears nothing that
    is younger. *)
Theorem quota_answers_fresh evs start now meanwhile up fp later sku :
  clocked (evs ++ [EvReconcile start now meanwhile up fp]) ->
  let c := reach evs in
  let c' := reach (evs ++ [EvReconcile start now meanwhile up fp] ++ [EvOps later]) in
  (Quota.HasQuotaFor (quotaProvider c') sku = false ->
     exists t, now - t <= MaxStaleness /\
       refreshed (evs ++ [EvReconcile start now meanwhile up fp]) t (Quota.usages (quotaProvider c'))) /\
  ((Reconcile start now (do_ops meanwhile) up fp c).1.2 <> None -> now - lastSuccessfulUpdate c <= MaxStaleness ->
   same_snapshot (quotaProvider c) (quotaProvider c')).
Proof using Type.
  intros C. cbv zeta. apply Forall_app in C as [C Cn]. apply Forall_cons in Cn as [Cn _].
  destruct (reconcile_snapshot evs start now meanwhile up fp (reach evs) Cn (reach_genuine evs C)) as (G & F & K).
  set (c1 := (Reconcile _ _ _ _ _ _).2) in *.
  assert (L : quotaProvider (reach (evs ++ [EvReconcile start now meanwhile up fp] ++ [EvOps later])) = do_ops later (quotaProvider c1)).
  { unfold reach. by rewrite !foldl_app. }
  rewrite L.
  destruct (do_ops_snapshot later (quotaProvider c1)) as (E1 & E2 & E3). split.
  - intros N. rewrite E1. unfold genuine in G. destruct (Quota.initialized (quotaProvider c1)) eqn:I.
    + destruct G as [_ G]. exists (lastSuccessfulUpdate c1). split; [by apply F|done].
    + rewrite empty_has_quota in N; [done|by rewrite E1].
  - intros E Y. eapply same_snapshot_trans; [by apply K|apply do_ops_snapshot].
Qed.
End Controller.

(** ** The theorem at a concrete input *)

Definition demo_pages (used : Z) : list (result string (list (option Quota.Usage))) :=
  [Ok [Some (Quota.mk_usage (Some (Some "fam")) (Some 10) (Some used))]].
Definition demo_evs : list event := [EvReconcile Minute Minute [] (demo_pages 6) []].
Definition demo_launch : list op := [Create 1 Quota.demo_claim "fam" 4].

(** Azure fails 15 minutes after its usages were listed, and one launch was
    recorded since: another is refused; a minute later nothing would be. *)
Lemma quota_answers_fresh_witness :
  exists t, 16 * Minute - t <= MaxStaleness /\
    refreshed (demo_evs ++ [EvReconcile (16 * Minute) (16 * Minute) [] [Err "down"] []]) t
      (Quota.usages (quotaProvider (reach (demo_evs ++ [EvReconcile (16 * Minute) (16 * Minute) [] [Err "down"] []] ++ [EvOps demo_launch])))) /\
    Quota.HasQuotaFor (quotaProvider (reach (demo_evs ++ [EvReconcile (17 * Minute) (17 * Minute) [] [Err "down"] []] ++ [EvOps demo_launch])))
      Quota.demo_sku = true.
Proof.
  destruct (quota_answers_fresh demo_evs (16 * Minute) (16 * Minute) [] [Err "down"] [] demo_launch Quota.demo_sku) as [W _].
  - repeat constructor; by vm_compute.
  - destruct W as (t & A & B); [by vm_compute|]. exists t. split_and!; [exact A|exact B|by vm_compute].
Defined.
End QuotaController.
