(* ===== verification/KubernetesVersions.v ===== *)
(** * The Kubernetes version provider ([pkg/providers/kubernetesversion])

    The API server's version and the versions AKS supports, each kept in an
    expiring cache, and what that means for the version of a NodeClass.  What
    the API server and Azure would answer at a call is an argument. *)

From S2P Require Import Prelude GoString GoCache Conditions NodeVersions.
#[local] Open Scope string_scope.
#[local] Open Scope list_scope.
#[local] Open Scope Z_scope.

Module KubernetesVersions.

Definition kubernetesVersionCacheKey : string := "kubernetesVersion".
Definition supportedKubernetesVersionsCacheKey : string := "supportedKubernetesVersions".
(** The default expiration of the provider's cache. *)
Definition TTL : Z := NodeVersions.KubernetesVersionTTL.

(** The values of the one cache. *)
Inductive cached := CachedVersion (v : string) | CachedSupported (vs : gset string).

Lemma TTL_pos : 0 < TTL.
Proof. reflexivity. Qed.

(** What the API server and Azure answer when asked. *)
Record Source := mk_source {
  ServerVersion : result string string;
  ListKubernetesVersions : result string (list (option (gset string)))
}.

(** The keys of all [PatchVersions]. *)
Definition supportedVersions (Values : list (option (gset string))) : gset string :=
  foldl (fun s version => match version with None => s | Some patchVersions => s ∪ patchVersions end) ∅ Values.

Section Provider.
Context `{TTLCache}.

(** [None] is a panic: the cached value has another type. *)
Definition KubeServerVersion (now : Z) (src : Source) (c : tc cached) : option (result string string * tc cached) :=
  match tc_get now kubernetesVersionCacheKey c with
  | Some (CachedVersion version) => Some (Ok version, c)
  | Some (CachedSupported _) => None
  | None =>
      match ServerVersion src with
      | Err e => Some (Err e, c)
      | Ok gitVersion =>
          let version := TrimPrefix gitVersion "v" in
          Some (Ok version, tc_set now kubernetesVersionCacheKey (CachedVersion version) TTL c)
      end
  end.
Definition IsSupported (now : Z) (src : Source) (kubernetesVersion : string) (c : tc cached) : option (result string bool * tc cached) :=
  match tc_get now supportedKubernetesVersionsCacheKey c with
  | Some (CachedSupported vs) => Some (Ok (bool_decide (kubernetesVersion ∈ vs)), c)
  | Some (CachedVersion _) => None
  | None =>
      match ListKubernetesVersions src with
      | Err e => Some (Err e, c)
      | Ok Values =>
          let vs := supportedVersions Values in
          Some (Ok (bool_decide (kubernetesVersion ∈ vs)),
                tc_set now supportedKubernetesVersionsCacheKey (CachedSupported vs) TTL c)
      end
  end.

(** ** The calls, one after another *)

Inductive query := QServer | QSupported (v : string).
Inductive answer := AServer (r : result string string) | ASupported (r : result string bool).

Definition ask (now : Z) (src : Source) (q : query) (c : tc cached) : option (answer * tc cached) :=
  match q with
  | QServer => '(r, c) ← KubeServerVersion now src c; Some (AServer r, c)
  | QSupported v => '(r, c) ← IsSupported now src v c; Some (ASupported r, c)
  end.
(** The answer without a cache. *)
Definition truth (src : Source) (q : query) : answer :=
  match q with
  | QServer => AServer (match ServerVersion src with Ok v => Ok (TrimPrefix v "v") | Err e => Err e end)
  | QSupported v => ASupported (match ListKubernetesVersions src with Ok l => Ok (bool_decide (v ∈ supportedVersions l)) | Err e => Err e end)
  end.
Definition errs (a : answer) : bool :=
  match a with AServer (Err _) | ASupported (Err _) => true | _ => false end.

(** A call: when, what would be answered, what is asked. *)
Inductive event := EvAsk (now : Z) (src : Source) (q : query).
Definition happen (c : option (tc cached)) (e : event) : option (tc cached) :=
  match e with EvAsk now src q => c ← c; '(_, c) ← ask now src q c; Some c end.
Definition reach (evs : list event) : option (tc cached) := foldl happen (Some tc_empty) evs.

Context `{!TTLCacheLaws}.

(** Every entry was answered, for its key, at most [TTL] before. *)
Definition fresh (evs : list event) (c : tc cached) : Prop :=
  forall t k x, tc_get t k c = Some x -> exists now src q, EvAsk now src q ∈ evs /\ t <= now + TTL /\
    match x with
    | CachedVersion v => k = kubernetesVersionCacheKey /\ truth src QServer = AServer (Ok v)
    | CachedSupported vs => k = supportedKubernetesVersionsCacheKey /\ exists l, ListKubernetesVersions src = Ok l /\ vs = supportedVersions l
    end.
Lemma fresh_mono evs evs' c : evs ⊆ evs' -> fresh evs c -> fresh evs' c.
Proof using Type. intros S F t k x G. destruct (F t k x G) as (now & src & q & I & W). exists now, src, q. split; [by apply S|done]. Qed.
Lemma fresh_set evs c now src q k x : EvAsk now src q ∈ evs -> fresh evs c ->
  match x with
  | CachedVersion v => k = kubernetesVersionCacheKey /\ truth src QServer = AServer (Ok v)
  | CachedSupported vs => k = supportedKubernetesVersionsCacheKey /\ exists l, ListKubernetesVersions src = Ok l /\ vs = supportedVersions l
  end -> fresh evs (tc_set now k x TTL c).
Proof using Type*.
  intros I F W t k' y G. destruct (decide (k = k')) as [<-|N].
  - rewrite tc_get_set_eq in G by done. case_decide; [|done]. injection G as <-. by exists now, src, q.
  - rewrite tc_get_set_ne in G by done. by apply F in G.
Qed.

(** One call: it never panics, answers as a source at most [TTL] ago, and an
    error is the source's of now. *)
Lemma ask_fresh evs now src q c : fresh evs c -> exists r c', ask now src q c = Some (r, c') /\
  fresh (evs ++ [EvAsk now src q]) c' /\
  (errs r = true -> r = truth src q) /\
  exists t src' q', EvAsk t src' q' ∈ evs ++ [EvAsk now src q] /\ now <= t + TTL /\ r = truth src' q.
Proof using Type*.
  intros F. assert (Hn : EvAsk now src q ∈ evs ++ [EvAsk now src q]) by set_solver.
  assert (F' : fresh (evs ++ [EvAsk now src q]) c) by (eapply fresh_mono; [|done]; set_solver).
  assert (Now : exists t src' q', EvAsk t src' q' ∈ evs ++ [EvAsk now src q] /\ now <= t + TTL /\ truth src q = truth src' q).
  { exists now, src, q. split; [done|]. split; [pose proof TTL_pos; lia|done]. }
  destruct q as [|v]; cbn [ask].
  - unfold KubeServerVersion. destruct (tc_get now kubernetesVersionCacheKey c) as [x|] eqn:G.
    + destruct (F' _ _ _ G) as (t & src' & q' & I & L & W). destruct x as [v|vs]; [|by destruct W].
      eexists _, _. split; [done|]. split; [done|]. split; [done|]. exists t, src', q'. by destruct W as [_ ->].
    + unfold truth in Now. destruct (ServerVersion src) as [v|e] eqn:S; eexists _, _; (split; [done|]).
      * split; [|by split]. eapply fresh_set; [done..|]. split; [done|]. unfold truth. by rewrite S.
      * split; [done|]. split; [|done]. unfold truth. by rewrite S.
  - unfold IsSupported. destruct (tc_get now supportedKubernetesVersionsCacheKey c) as [x|] eqn:G.
    + destruct (F' _ _ _ G) as (t & src' & q' & I & L & W). destruct x as [v'|vs]; [by destruct W|].
      eexists _, _. split; [done|]. split; [done|]. split; [done|]. exists t, src', q'. destruct W as (_ & l & W & ->).
      split; [done|]. split; [done|]. unfold truth. by rewrite W.
    + unfold truth in Now. destruct (ListKubernetesVersions src) as [l|e] eqn:S; eexists _, _; (split; [done|]).
      * split; [|by split]. eapply fresh_set; [done..|]. split; [done|]. by exists l.
      * split; [done|]. split; [|done]. unfold truth. by rewrite S.
Qed.

Lemma reach_fresh evs : exists c, reach evs = Some c /\ fresh evs c.
Proof using Type*.
  induction evs as [|[now src q] evs (c & R & F)] using rev_ind.
  - exists tc_empty. split; [done|]. intros t k x G. by rewrite tc_get_empty in G.
  - unfold reach in *. rewrite foldl_app, R. cbn. destruct (ask_fresh evs now src q c F) as (r & c' & -> & F' & _). by exists c'.
Qed.

(** The cache changes how often Azure is asked, not what is answered beyond
    its expiry: after any calls, a call does not panic and answers what an
    uncached call would have answered at most [TTL] before; errors are never
    remembered. *)
Theorem version_answers_fresh evs now src q : exists c r c',
  reach evs = Some c /\ ask now src q c = Some (r, c') /\
  (errs r = true -> r = truth src q) /\
  exists t src' q', EvAsk t src' q' ∈ evs ++ [EvAsk now src q] /\ now <= t + TTL /\ r = truth src' q.
Proof using Type*.
  destruct (reach_fresh evs) as (c & R & F). destruct (ask_fresh evs now src q c F) as (r & c' & A & _ & E & W).
  by exists c, r, c'.
Qed.
End Provider.
End KubernetesVersions.
