(* ===== verification/ZoneNormalization.v ===== *)
(** * Zone labels of the CSI drivers ([pkg/utils/zones/normalization.go])

    The Azure CSI drivers name the zone of a volume with labels of their own.
    Registration makes them aliases of the zone label, in two maps of Karpenter
    core that other providers edit too. *)

From S2P Require Import Prelude Zones AKSMachine.
#[local] Open Scope string_scope.

Module ZoneNormalization.

Definition LabelAzureDiskCSIZone : string := "topology.disk.csi.azure.com/zone".
Definition LabelAzureElasticSANCSIZone : string := "topology.san.csi.azure.com/zone".
Definition CSIZoneLabels : list string := [LabelAzureDiskCSIZone; LabelAzureElasticSANCSIZone].

(** [NormalizedLabels] and [NormalizedLabelValues] of core; a map that is nil
    and an empty one are told apart for the second only. *)
Record Maps := mk_maps {
  NormalizedLabels : gmap string string;
  NormalizedLabelValues : option (gmap string (gmap string string))
}.

(** [lo.SliceToMap] with every label sent to the zone label. *)
Definition aliases : gmap string string :=
  foldl (fun m label => <[label := AKSMachine.LabelTopologyZone]> m) ∅ CSIZoneLabels.

(** [lo.Assign] prefers the later map. *)
Definition RegisterCSIZoneNormalization (g : Maps) : Maps :=
  let values := default ∅ (NormalizedLabelValues g) in
  mk_maps (aliases ∪ NormalizedLabels g)
    (Some (<[AKSMachine.LabelTopologyZone :=
       {[ "" := Zones.Regional ]} ∪ default ∅ (values !! AKSMachine.LabelTopologyZone)]> values)).

(** How a label reads through the maps, and a value under a label so read. *)
Definition label_of (g : Maps) (k : string) : string := default k (NormalizedLabels g !! k).
Definition value_under (g : Maps) (label v : string) : string :=
  default v (default ∅ (default ∅ (NormalizedLabelValues g) !! label) !! v).

Lemma aliases_lookup k : aliases !! k = if bool_decide (k ∈ CSIZoneLabels) then Some AKSMachine.LabelTopologyZone else None.
Proof.
  unfold aliases, CSIZoneLabels. cbn [foldl]. case_bool_decide as I.
  - by apply elem_of_cons in I as [->|I%list_elem_of_singleton]; [|subst].
  - by rewrite !lookup_insert_ne by (intros <-; apply I; set_solver).
Qed.

(** Registration is safe to repeat and to mix with other providers': the
    drivers' labels read as the zone label, an empty zone reads as the regional
    one, and every other label and value reads as before. *)
Theorem csi_zones_registered g : let g' := RegisterCSIZoneNormalization g in
  RegisterCSIZoneNormalization g' = g' /\
  (forall k, label_of g' k = if bool_decide (k ∈ CSIZoneLabels) then AKSMachine.LabelTopologyZone else label_of g k) /\
  (forall label v, value_under g' label v =
     if bool_decide (label = AKSMachine.LabelTopologyZone) && bool_decide (v = "") then Zones.Regional else value_under g label v).
Proof.
  cbv zeta. split_and!.
  - unfold RegisterCSIZoneNormalization. cbn. f_equal.
    + by rewrite map_union_assoc, map_union_idemp.
    + rewrite lookup_insert_eq, insert_insert_eq. cbn. by rewrite map_union_assoc, map_union_idemp.
  - intros k. unfold label_of, RegisterCSIZoneNormalization. cbn [NormalizedLabels]. rewrite lookup_union, aliases_lookup.
    case_bool_decide; by destruct (NormalizedLabels g !! k).
  - intros label v. unfold value_under, RegisterCSIZoneNormalization. cbn [NormalizedLabelValues from_option id]. case_bool_decide as L; cbn [andb].
    + subst. rewrite lookup_insert_eq. cbn [from_option id]. rewrite lookup_union. case_bool_decide as V.
      * subst. by rewrite lookup_singleton_eq, union_Some_l.
      * rewrite lookup_singleton_ne by congruence. by destruct (default ∅ _ !! v).
    + rewrite lookup_insert_ne; [done|]. by intros <-.
Qed.
End ZoneNormalization.
